(* ===== verification/_CoqProject ===== *)
-Q . S2P
Prelude.v
PyStr.v
PySort.v
PyDict.v
PyFloat.v
Json.v
JsonLoads.v
Effects.v
Argparse.v
Regex.v
Utilities.v
CheckLoop.v
ShapeLine.v
InstanceChecks.v
FilterChecks.v
ReceiverChecks.v
DisposalChecks.v
OrderedAccess.v
CoherentSets.v
CheckFunctions.v
EntityProcess.v
RunTest.v
Handshake.v
ProcessEnd.v
Suite.v
TestSuite.v
Sniffer.v
SnifferReport.v
SnifferRun.v
FileRegistry.v
ReportLoader.v
ReportCompare.v
Driver.v
TestRun.v
ReportStats.v
ReportText.v
HtmlAssets.v
HtmlReport.v
HtmlTabs.v
CompareMain.v
UnitTests.v
LatestFiles.v
ZonSymlinks.v
DocConf.v
XlsxData.v
XlsxStatus.v
Pipeline.v
XlsxTables.v
XlsxReport.v
CommandLines.v
