(* ===== verification/Prelude.v ===== *)
(** * dds-rtps: interoperability test tools -- verification development

    ** The program

    The repository tests that DDS implementations talk to each other.  Its Python part has
    five programs and one library of checks:

    - [interoperability_report.py] runs the test cases of [test_suite.py].  [run_test] starts
      publisher and subscriber processes (the shape applications of the vendors under
      pexpect); each process follows the output of its application, a subscriber ends with a
      checking function of [test_suite_functions.py], and writes a [ReturnCode]
      ([rtps_test_utilities.py]) into a shared list; [run_test] compares the codes with the
      expected ones and stores the result as a JUnit test case.
    - [discovery/rtps_discovery_sniffer.py] analyses dissected RTPS discovery packets and
      writes a summary, a JSON file and JUnit test cases.
    - [benchmarking/junit_compare] loads the JUnit reports of many runs, classifies the
      results, compares reports and counts.
    - [generate_xlsx_report.py] turns a JUnit report into a spreadsheet,
      [get_latest_file_urls.py] finds the newest ones on a shared drive, and [doc/conf.py]
      makes the pages that show them.

    ** The files

    - [Prelude], [PyStr], [PyFloat], [PySort], [PyDict], [Json], [JsonLoads], [Regex], [Effects],
      [Argparse]: what is used of Python.  A function that can raise gives a [result]; a dictionary is the list of its
      items in insertion order, with its laws; [sorted] is a stable sort by a total order; regular
      expressions have a backtracking matcher and a declarative meaning, related by
      [rmatch_spec].  A string is a list of bytes; case and classes are those of ASCII.  A
      float is a binary64 number with the operations of the standard library's [SpecFloat].
      [JsonLoads] writes and reads JSON texts ([loads_dumps]); [Effects] is a monad of what was
      printed and written, with exceptions; [Argparse] parses command lines as argparse does
      ([parse_args_ok], [parse_unparse]).
    - [Utilities] (rtps_test_utilities.py), [CheckLoop], [ShapeLine], [InstanceChecks],
      [FilterChecks], [ReceiverChecks], [DisposalChecks], [OrderedAccess], [CoherentSets],
      [CheckFunctions] (test_suite_functions.py): a checking function is a function of the
      first text and of the script, the sequence of answers of pexpect.  [CheckLoop] has the
      loop that most of them share, [ShapeLine] the line that an application prints.
    - [EntityProcess], [RunTest], [Handshake], [ProcessEnd], [Suite]
      (interoperability_report.py): what a process writes for every script; [run_test] from the
      codes and outputs to the printed lines and the result; the events by which the processes
      end as a transition system, and how one of them stops its application;
      the selection, completion and order of the runs.  [TestSuite] is test_suite.py, and
      [Driver] is main, with the report that it writes.  [TestRun] puts them together: the
      processes of a test, which write into one shared list in any order, the joins and the
      result, and a run of main with such tests.
    - [Sniffer], [SnifferReport], [SnifferRun] (rtps_discovery_sniffer.py): decoders, the
      analysis of packets as JSON values, the reports, and a run from the capture to the files.
    - [FileRegistry], [ReportLoader], [ReportCompare], [ReportStats], [ReportText]
      (benchmarking/junit_compare): names of files (file_registry.py), results of a file
      (models.py, loader.py), the comparison of two (analyzer.py, report_data.py), counts
      over many (analyzer.py, report_data.py, explain.py), and the texts (renderer.py,
      explain.py).  [HtmlReport] (html_report.py) is the page, [HtmlAssets] its style
      sheet and script, [HtmlTabs] what the script does to the tabs; [CompareMain]
      (compare_junit_reports.py) is the command, over the monad of [Effects].
    - [XlsxData], [XlsxTables], [XlsxReport] (generate_xlsx_report.py): the dictionaries, the
      tables of a worksheet, and the workbook with the checks of the arguments.  [XlsxStatus]
      follows the results of tests through the report into the spreadsheet, [Pipeline] a whole
      run of the program.
    - [LatestFiles] (get_latest_file_urls.py): the search of the folders of the drive.
    - [DocConf] (doc/conf.py): the description of the tests and the pages made of templates.
    - [ZonSymlinks] (srcZig/zzdds/point_zon_at_symlinks.py): the script that rewrites a build
      file.  [UnitTests]: the assertions of the unit tests of the repository, evaluated.
    - [CommandLines]: the parsers of the four programs that have options, and their main
      functions from the arguments on; [Program] is what the theorems about them share.

    Definitions have the names of the source, and the state of a loop is a record of its
    variables.  The clients use the loops through lemmas of their own files: [while_expect]
    of [CheckLoop] is an invariant rule that every check instantiates, [mfold_prefix] one for
    loops that can raise.

    ** What is shown

    - Verdicts: for every output of the applications, what each return code of each checking
      function means (the theorems [..._verdict] and [..._verdicts]), that well-behaved outputs pass
      ([no_false_alarms]), and that no check raises or waits for ever ([check_functions_total]).
      [ordered_access_verdict] and [coherent_sets_verdict] are refinements of an election and
      of a count of sets: they say of every run where it ends and what it answers there, so
      that the specification leaves one answer.
    - A run as a whole: when pexpect answers every question, the program ends and its report
      has the selected tests with the results of the codes that the applications' answers
      determine ([suite_run_written]), whatever the interleaving of the processes of each test
      ([test_ends]); a publisher that dies early makes it wait for ever
      ([dead_publisher_hangs]); and the spreadsheet shows every test with the status of its
      codes ([suite_run_in_spreadsheet]).
    - Processes and tests: what is written to the shared list, the result of a test from its
      codes, the effect of a code that was never written; all interleavings of the events
      end, and end in order but for publishers whose application closes its output
      ([handshake_terminates], [handshake_ordered]); a run of
      the program executes exactly the selected tests, and its report is read back as their
      results, or one exception loses them all ([main_report]); the test suite is well formed and agrees with the
      request/offered rules of DDS.
      A process ends within 150 polls after its wait; it interrupts its application, and kills
      it only after the time it is given ([processes_end]).
    - Command lines: every value of the options is reached by one ([command_lines]), and what
      is accepted is well formed ([parsed_options]).
    - Sniffer: well-formedness ([parse_discovery_data_ok]), monotonicity and totality of the
      analysis, the verdicts of its test cases ([report_verdicts]); the names of the bits of a
      mask ([decode_builtin_endpoints_bits]); what a run leaves on every
      path, with three different names for its files ([run_leaves]), and that its JSON file is a series of runs ([runs_collected]).
    - Reports: what [run_test] writes is read back and classified ([run_test_loaded], across
      the two programs, for outputs without escape characters and table cells); the comparison, its order and that equal reports do not differ
      ([compare_spec]); the last two files in the order of their names, which is that of time
      within a format ([choose_files_newest]); the counts of tests and
      of results ([group_totals]), and the shares that are printed of them, within the error
      of two roundings ([explanation_shares]); the page is a well-formed document whatever
      names are in it ([page_well_formed], [esc_roundtrip]) and has one tab open whatever is
      clicked ([one_tab_open]); the exit code of the command and
      the files it leaves ([main_exit]).
    - Spreadsheet: the dictionaries are sums over the suites ([get_info_spec]); the product
      and summary worksheets are matrices of them ([product_worksheet], [summary_worksheet]:
      the loops that hand out rows and columns agree with a table given cell by cell); every
      format that a cell names is defined ([workbook_worksheets]).
    - Download: the search ends on a drive without cycles and finds the newest file among the
      entries of the last page of each folder, which is the newest below the folder when
      every folder has one page ([latest_urls]).
    - Documentation: the pages that are written, with the value of each placeholder, and the
      outline of the description of the tests ([docs_built]).

    Lemmas that show where the code does not do what it means to are named in the findings
    of the manifest and stand at the end of their files.

    ** Bounds

    The loops over pexpect are functions of the script: their recursion is structural on the
    answers, and an exhausted script is the outcome [Waiting] or a missing result, which the
    theorems treat as a case of its own.  The bound of 500 samples is that of the code.  The
    conversion of numbers to hexadecimal takes the number of bits as fuel, which is enough by
    [size_nat_gt], the search of the drive the number of pages and folders on a path, and
    [latest_urls] shows that some fuel is enough; the wait for an application takes one poll per
    0.2 of 30 seconds ([wait_ends]).  Times are integers of milliseconds.  Counts are unbounded, as in Python; the
    ratios of the spreadsheet are compared exactly, which is what floats do below 2^53.

    ** Not modelled

    The shape applications (other languages), spawning, real time and queues as files; XML and
    spreadsheet libraries (their inputs and outputs are data here, so that what they refuse,
    as two worksheets of one name, is no error); tshark (a function from a capture to an exit
    code and a text); NaN and infinities in JSON; the limit of 4300 digits of [int]; the two
    lines that [run_test] logs before its result; the texts of help and of usage errors; the
    sections of the HTML page in a browser; the differences of texts (difflib), the texts of
    exceptions; credentials and HTTP; the settings of Sphinx; of the unit tests, the
    framework, the temporary directories and the format of the present time.  What an
    application prints is any sequence of answers of pexpect: that the applications of two
    vendors talk to each other is what the program tests and no theorem here. *)

From stdpp Require Export base tactics list strings gmap pretty sorting.
From stdpp Require Import options.
From Stdlib Require Export ZArith Ascii.
From Stdlib Require Export Lia.

(** ** Exceptions and results

    A Python function that can raise is modelled by a function into
    [result]: [Ok] carries the returned value, [Raise] the exception class.
    Only the classes that the modelled code can raise are listed. *)

Inductive exn : Set :=
| ValueError
| TypeError
| AttributeError
| IndexError
| KeyError
| NameError
| RuntimeError
| AssertionError
| OSError
| ParseError
| ExceptionPexpect.

#[export] Instance exn_eq_dec : EqDecision exn.
Proof. solve_decision. Defined.

Inductive result (A : Type) : Type :=
| Ok (a : A)
| Raise (e : exn).
Arguments Ok {A} _.
Arguments Raise {A} _.

#[export] Instance result_ret : MRet result := λ A a, Ok a.
#[export] Instance result_bind : MBind result :=
  λ A B f r, match r with Ok a => f a | Raise e => Raise e end.
#[export] Instance result_fmap : FMap result :=
  λ A B f r, match r with Ok a => Ok (f a) | Raise e => Raise e end.

(** [try: r except: k] for a handler that catches every exception. *)
Definition catch {A} (r : result A) (k : exn → A) : A :=
  match r with Ok a => a | Raise e => k e end.

(** An option as the value of an expression that raises [e] on [None]. *)
Definition or_raise {A} (e : exn) (o : option A) : result A :=
  match o with Some a => Ok a | None => Raise e end.

Definition is_Ok {A} (r : result A) : Prop := ∃ a, r = Ok a.

Lemma Ok_inj {A} (a b : A) : Ok a = Ok b → a = b.
Proof. by intros [= ->]. Qed.
Lemma bind_Ok {A B} (f : A → result B) (r : result A) b :
  r ≫= f = Ok b ↔ ∃ a, r = Ok a ∧ f a = Ok b.
Proof. destruct r as [a|e]; cbn; naive_solver. Qed.

Lemma bind_Raise {A B} (f : A → result B) (r : result A) e :
  r ≫= f = Raise e ↔ r = Raise e ∨ ∃ a, r = Ok a ∧ f a = Raise e.
Proof. destruct r as [a|e']; cbn; naive_solver. Qed.

Lemma or_raise_Ok {A} e (o : option A) a : or_raise e o = Ok a ↔ o = Some a.
Proof. destruct o; cbn; naive_solver. Qed.

(** ** Loops over an iterable that may raise *)

Section mfold.
Context {A S : Type} (f : S → A → result S).

Fixpoint mfold (s : S) (l : list A) : result S :=
  match l with
  | [] => Ok s
  | a :: l' => s' ← f s a; mfold s' l'
  end.

Lemma mfold_app s l1 l2 : mfold s (l1 ++ l2) = (mfold s l1 ≫= λ s', mfold s' l2).
Proof.
  revert s. induction l1 as [|a l1 IH]; intros s; [done|].
  simpl. destruct (f s a) as [s'|e]; cbn; [apply IH|done].
Qed.

(** The loop rule: an invariant that every iteration keeps holds at the end. *)
Lemma mfold_inv (I : S → Prop) s l s' :
  I s → (∀ s a s', a ∈ l → I s → f s a = Ok s' → I s') → mfold s l = Ok s' → I s'.
Proof.
  revert s. induction l as [|a l IH]; intros s Hs Hstep; simpl; [naive_solver|].
  rewrite bind_Ok. intros (s1 & Hf & Hrest).
  eapply (IH s1); [|set_solver|done]. eapply Hstep; [left|done|done].
Qed.

Lemma mfold_Ok s l :
  (∀ s a, a ∈ l → is_Ok (f s a)) → is_Ok (mfold s l).
Proof.
  revert s. induction l as [|a l IH]; intros s Hf; [by eexists|].
  destruct (Hf s a) as [s' Hs']; [left|]. simpl. rewrite Hs'. cbn.
  apply IH. set_solver.
Qed.

(** An invariant of what has been gone through. *)
Lemma mfold_prefix (I : list A → S → Prop) s l s' :
  I [] s → (∀ seen s a s', I seen s → f s a = Ok s' → I (seen ++ [a]) s') →
  mfold s l = Ok s' → I l s'.
Proof.
  intros Hs Hstep. enough (∀ seen s, I seen s → mfold s l = Ok s' → I (seen ++ l) s') as H
    by exact (H [] s Hs).
  clear s Hs. induction l as [|a l IH]; intros seen s Hs; simpl.
  - intros E. injection E as <-. by rewrite app_nil_r.
  - rewrite bind_Ok. intros (s1 & Hf & Hrest). change (a :: l) with ([a] ++ l).
    rewrite app_assoc. eapply IH; [by eapply Hstep|done].
Qed.
(** A loop raises what one of its iterations raises. *)
Lemma mfold_Raise s l e : mfold s l = Raise e → ∃ s' a, a ∈ l ∧ f s' a = Raise e.
Proof.
  revert s. induction l as [|a l IH]; intros s; simpl; [done|].
  rewrite bind_Raise. intros [H|(s1&_&H)].
  - exists s, a. split; [left|done].
  - destruct (IH s1 H) as (s2&b&Hb&E). exists s2, b. split; [by right|done].
Qed.
End mfold.

(** ** Lists *)

(** Python's [l[-1]]. *)
Definition py_last {A} (l : list A) : result A := or_raise IndexError (last l).

(** [list.index]: the first position that holds [x]. *)
Fixpoint index_of {A} `{EqDecision A} (x : A) (l : list A) : option nat :=
  match l with
  | [] => None
  | y :: l' => if decide (x = y) then Some 0 else S <$> index_of x l'
  end.

Section index_of.
Context {A : Type} `{EqDecision A}.
Implicit Types (x : A) (l : list A).

Lemma index_of_Some x l i : index_of x l = Some i → l !! i = Some x.
Proof.
  revert i. induction l as [|y l IH]; intros i; simpl; [done|].
  case_decide as Hxy; [naive_solver|].
  destruct (index_of x l); simpl; [|done]. naive_solver.
Qed.

Lemma index_of_elem x l : x ∈ l → is_Some (index_of x l).
Proof.
  induction l as [|y l IH]; [set_solver|]. simpl. case_decide; [done|].
  intros [?|Hin]%elem_of_cons; [done|].
  destruct (IH Hin) as [i ->]. by eexists.
Qed.

Lemma index_of_None x l : index_of x l = None ↔ x ∉ l.
Proof.
  split.
  - intros Hn Hin%index_of_elem. rewrite Hn in Hin. by destruct Hin.
  - intros Hx. destruct (index_of x l) eqn:E; [|done].
    apply index_of_Some in E. exfalso. apply Hx. by eapply list_elem_of_lookup_2.
Qed.

Lemma index_of_lt x l i : index_of x l = Some i → i < length l.
Proof. intros H%index_of_Some. by eapply lookup_lt_Some. Qed.

Lemma index_of_app_l x l k : x ∈ l → index_of x (l ++ k) = index_of x l.
Proof.
  induction l as [|y l IH]; [set_solver|]. simpl. case_decide; [done|].
  intros [?|Hin]%elem_of_cons; [done|]. by rewrite IH.
Qed.

Lemma index_of_app_r x l k :
  x ∉ l → index_of x (l ++ k) = (λ i, length l + i) <$> index_of x k.
Proof.
  induction l as [|y l IH]; simpl.
  - intros _. by destruct (index_of x k).
  - intros Hx. rewrite decide_False by set_solver. rewrite IH by set_solver.
    by destruct (index_of x k).
Qed.

Lemma index_of_NoDup x l i : NoDup l → l !! i = Some x → index_of x l = Some i.
Proof.
  intros Hnd Hi. destruct (index_of_elem x l) as [j Hj].
  { by eapply list_elem_of_lookup_2. }
  rewrite Hj. f_equal. eapply (NoDup_lookup l); eauto using index_of_Some.
Qed.
End index_of.

Lemma omap_app_last {A B} (f : A → option B) l a :
  omap f (l ++ [a]) = omap f l ++ option_list (f a).
Proof. rewrite omap_app. simpl. by destruct (f a). Qed.

Lemma NoDup_snoc {A} (l : list A) a : NoDup l → a ∉ l → NoDup (l ++ [a]).
Proof.
  intros Hl Ha. apply NoDup_app. split_and!; [done|set_solver|].
  apply NoDup_singleton.
Qed.

(** ** Automation *)

Create HintDb py.
Create Rewrite HintDb pyrw.
#[export] Hint Resolve NoDup_snoc index_of_Some index_of_lt index_of_elem : py.
#[export] Hint Rewrite @bind_Ok @bind_Raise @or_raise_Ok : pyrw.

(** Case analysis on the tests of the goal, and clean-up. *)
Ltac py_cases := repeat (case_match || case_decide || case_bool_decide); simplify_eq/=.
Ltac py_auto := intros; py_cases; eauto with py; try lia; try done.
(** Split a hypothesis on the [Ok] result of a bind chain. *)
Ltac inv_ok :=
  repeat match goal with
  | H : _ ≫= _ = Ok _ |- _ => apply bind_Ok in H as (?&?&?)
  | H : or_raise _ _ = Ok _ |- _ => apply or_raise_Ok in H
  | H : Ok _ = Ok _ |- _ => injection H as H; subst
  end.
