(* ===== verification/PyStr.v ===== *)
(** * Python strings

    The [str] operations that the modelled files use, on [String.string].  A
    character is an 8-bit [ascii]; the class predicates ([is_space], [is_word],
    ...) are those of Python restricted to ASCII, which is what the shape
    applications, the reports and the dissector print.  Everything here is
    executable; the lemmas are the ones the components share. *)

From S2P Require Import Prelude.
From stdpp Require Import options.
Local Open Scope string_scope.

(** ** Characters *)

Definition code (c : ascii) : N := N_of_ascii c.
Definition in_range (lo hi : N) (c : ascii) : bool :=
  (lo <=? code c)%N && (code c <=? hi)%N.

Definition is_digit : ascii → bool := in_range 48 57.
Definition is_upper : ascii → bool := in_range 65 90.
Definition is_lower : ascii → bool := in_range 97 122.
Definition is_alpha (c : ascii) : bool := is_upper c || is_lower c.
Definition is_alnum (c : ascii) : bool := is_alpha c || is_digit c.
(** [\w] *)
Definition is_word (c : ascii) : bool := is_alnum c || (code c =? 95)%N.
(** [\s] and [str.isspace]: TAB..CR, FS..US, SPACE *)
Definition is_space (c : ascii) : bool :=
  in_range 9 13 c || in_range 28 32 c.

Definition lower_char (c : ascii) : ascii :=
  if is_upper c then ascii_of_N (code c + 32) else c.
Definition upper_char (c : ascii) : ascii :=
  if is_lower c then ascii_of_N (code c - 32) else c.

(** ** Traversals *)

Fixpoint smap (f : ascii → ascii) (s : string) : string :=
  match s with "" => "" | String c s' => String (f c) (smap f s') end.

Fixpoint sforall (p : ascii → bool) (s : string) : bool :=
  match s with "" => true | String c s' => p c && sforall p s' end.

Definition lower : string → string := smap lower_char.
Definition upper : string → string := smap upper_char.

(** [s[:n]] and [s[n:]] for [n >= 0] *)
Fixpoint str_take (n : nat) (s : string) : string :=
  match n, s with
  | S n', String c s' => String c (str_take n' s')
  | _, _ => ""
  end.
Fixpoint str_drop (n : nat) (s : string) : string :=
  match n, s with
  | S n', String _ s' => str_drop n' s'
  | _, _ => s
  end.
(** [s[-n:]] for [n > 0] *)
Definition str_tail (n : nat) (s : string) : string :=
  str_drop (String.length s - n) s.

Definition newline : string := String (ascii_of_nat 10) "".

Definition startswith (p s : string) : bool := String.prefix p s.
Definition endswith (p s : string) : bool :=
  (String.length p <=? String.length s)%nat &&
  bool_decide (str_tail (String.length p) s = p).

(** [sub in s] *)
Fixpoint contains (sub s : string) : bool :=
  String.prefix sub s ||
  match s with "" => false | String _ s' => contains sub s' end.

Fixpoint lstrip (s : string) : string :=
  match s with
  | String c s' => if is_space c then lstrip s' else s
  | "" => ""
  end.
Fixpoint rstrip (s : string) : string :=
  match s with
  | "" => ""
  | String c s' =>
      match rstrip s' with
      | "" => if is_space c then "" else String c ""
      | r => String c r
      end
  end.
Definition strip (s : string) : string := lstrip (rstrip s).

(** [s.replace(old, new)] for a non-empty [old] *)
Fixpoint replace_go (old new : string) (skip : nat) (s : string) : string :=
  match s with
  | "" => ""
  | String c s' =>
      match skip with
      | S k => replace_go old new k s'
      | 0 => if String.prefix old s
             then new +:+ replace_go old new (String.length old - 1) s'
             else String c (replace_go old new 0 s')
      end
  end.
Definition replace (old new s : string) : string := replace_go old new 0 s.

(** [s.split(sep)] for a non-empty [sep] *)
Fixpoint split_go (sep : string) (skip : nat) (s : string) : list string :=
  match s with
  | "" => [""]
  | String c s' =>
      match skip with
      | S k => split_go sep k s'
      | 0 => if String.prefix sep s
             then "" :: split_go sep (String.length sep - 1) s'
             else match split_go sep 0 s' with
                  | h :: t => String c h :: t
                  | [] => [String c ""]
                  end
      end
  end.
Definition split (sep s : string) : list string := split_go sep 0 s.

(** [s.split()]: the maximal runs of non-space characters *)
Fixpoint words_go (cur : option string) (s : string) : list string :=
  match s with
  | "" => option_list cur
  | String c s' =>
      if is_space c then option_list cur ++ words_go None s'
      else words_go (Some (default "" cur +:+ String c "")) s'
  end.
Definition words (s : string) : list string := words_go None s.

(** [s.splitlines()] (the ASCII line boundaries) *)
Definition is_linebreak (c : ascii) : bool := in_range 10 13 c || in_range 28 30 c.
Fixpoint splitlines_go (cur : option string) (after_cr : bool) (s : string) : list string :=
  match s with
  | "" => option_list cur
  | String c s' =>
      if after_cr && (code c =? 10)%N then splitlines_go cur false s'
      else if is_linebreak c
      then default "" cur :: splitlines_go None (code c =? 13)%N s'
      else splitlines_go (Some (default "" cur +:+ String c "")) false s'
  end.
Definition splitlines (s : string) : list string := splitlines_go None false s.

(** [sep.join(l)] *)
Fixpoint join (sep : string) (l : list string) : string :=
  match l with
  | [] => ""
  | [x] => x
  | x :: l' => x +:+ sep +:+ join sep l'
  end.

Fixpoint srepeat (n : nat) (s : string) : string :=
  match n with 0 => "" | S k => s +:+ srepeat k s end.

(** [s.zfill(width)]: zeros go after a leading sign *)
Definition zfill (width : nat) (s : string) : string :=
  let pad := srepeat (width - String.length s) "0" in
  match s with
  | String "+" r => String "+" (pad +:+ r)
  | String "-" r => String "-" (pad +:+ r)
  | _ => pad +:+ s
  end.

(** ** Integers *)

(** Value of a digit in bases up to 36. *)
Definition digit_val (c : ascii) : option Z :=
  if is_digit c then Some (Z.of_N (code c) - 48)%Z
  else if is_upper c then Some (Z.of_N (code c) - 55)%Z
  else if is_lower c then Some (Z.of_N (code c) - 87)%Z
  else None.

(** The digits of an integer literal: single underscores between digits. *)
Fixpoint digits_go (base acc : Z) (ready : bool) (s : string) : option Z :=
  match s with
  | "" => if ready then Some acc else None
  | String c s' =>
      if (code c =? 95)%N then if ready then digits_go base acc false s' else None
      else match digit_val c with
           | Some d => if (d <? base)%Z then digits_go base (acc * base + d)%Z true s' else None
           | None => None
           end
  end.

Definition drop_underscore (s : string) : string :=
  match s with String c s' => if (code c =? 95)%N then s' else s | "" => "" end.

(** The magnitude, after whitespace and sign are gone. *)
Definition int_magnitude (base : Z) (s : string) : option Z :=
  let pre := lower (str_take 2 s) in
  let body := drop_underscore (str_drop 2 s) in
  if bool_decide (pre = "0x") && ((base =? 16)%Z || (base =? 0)%Z)
  then digits_go 16 0 false body
  else if bool_decide (pre = "0o") && ((base =? 8)%Z || (base =? 0)%Z)
  then digits_go 8 0 false body
  else if bool_decide (pre = "0b") && ((base =? 2)%Z || (base =? 0)%Z)
  then digits_go 2 0 false body
  else if (base =? 0)%Z then
    v ← digits_go 10 0 false s;
    if startswith "0" s && negb (v =? 0)%Z then None else Some v
  else digits_go base 0 false s.

(** [int(s, base)]; a decimal text of more than 4300 digits, which newer versions of Python
    refuse with a ValueError unless told otherwise, is converted here. *)
Definition py_int (base : Z) (s : string) : result Z :=
  or_raise ValueError
    match strip s with
    | String "+" r => int_magnitude base r
    | String "-" r => Z.opp <$> int_magnitude base r
    | r => int_magnitude base r
    end.

(** [str(n)] *)
Definition str_of_Z (n : Z) : string := pretty n.
Definition str_of_nat (n : nat) : string := pretty n.

Definition hex_char (d : N) : ascii :=
  ascii_of_N (if (d <? 10)%N then d + 48 else d + 87).
Fixpoint hex_go (fuel : nat) (n : N) (s : string) : string :=
  match fuel with
  | 0 => s
  | S f => if (n =? 0)%N then s
           else hex_go f (n / 16)%N (String (hex_char (n mod 16)%N) s)
  end.
(** [f"{n:x}"] for [n >= 0]; a number has no more hex digits than bits. *)
Definition hex_of_N (n : N) : string :=
  if (n =? 0)%N then "0" else hex_go (N.size_nat n) n "".
Definition pad0 (width : nat) (s : string) : string :=
  srepeat (width - String.length s) "0" +:+ s.
(** [f"{n:0{width}x}"]: the sign counts for the width *)
Definition format_hex (width : nat) (n : Z) : string :=
  if (n <? 0)%Z then String "-" (pad0 (width - 1) (hex_of_N (Z.abs_N n)))
  else pad0 width (hex_of_N (Z.to_N n)).

(** ** Concatenation, length, slices *)

Lemma sapp_cons c (a b : string) : String c a +:+ b = String c (a +:+ b).
Proof. done. Qed.
Lemma sapp_nil_l (a : string) : "" +:+ a = a.
Proof. done. Qed.
Lemma sapp_assoc (a b c : string) : (a +:+ b) +:+ c = a +:+ (b +:+ c).
Proof. induction a as [|x a IH]; [done|]. rewrite !sapp_cons. by rewrite IH. Qed.
Lemma sapp_nil_r (a : string) : a +:+ "" = a.
Proof. induction a as [|x a IH]; [done|]. rewrite sapp_cons. by rewrite IH. Qed.
Lemma string_snoc s : s ≠ "" → ∃ t c, s = t +:+ String c "".
Proof.
  induction s as [|c s IH]; [done|]. intros _. destruct s as [|d s].
  - by exists "", c.
  - destruct IH as (t&e&->); [done|]. exists (String c t), e. by rewrite sapp_cons.
Qed.
Lemma slength_app (a b : string) :
  String.length (a +:+ b) = String.length a + String.length b.
Proof. induction a as [|x a IH]; [done|]. rewrite sapp_cons. simpl. by rewrite IH. Qed.

Lemma str_drop_app (a b : string) : str_drop (String.length a) (a +:+ b) = b.
Proof. induction a as [|x a IH]; [by destruct b|]. done. Qed.
Lemma str_take_app (a b : string) : str_take (String.length a) (a +:+ b) = a.
Proof.
  induction a as [|x a IH]; [by destruct b|]. rewrite sapp_cons. simpl. by rewrite IH.
Qed.
Lemma str_take_length s : str_take (String.length s) s = s.
Proof. rewrite <- (sapp_nil_r s) at 2. apply str_take_app. Qed.
Lemma str_drop_length n s : String.length (str_drop n s) = String.length s - n.
Proof.
  revert n. induction s as [|c s IH]; intros [|n]; simpl; [done..|]. apply IH.
Qed.
Lemma str_take_drop n s : str_take n s +:+ str_drop n s = s.
Proof.
  revert n. induction s as [|c s IH]; intros [|n]; simpl; [done..|].
  rewrite sapp_cons. by rewrite IH.
Qed.

Lemma prefix_spec p s : String.prefix p s = true ↔ ∃ r, s = p +:+ r.
Proof.
  revert s. induction p as [|c p IH]; intros s; simpl.
  - split; [intros _; by exists s|]. by destruct s.
  - destruct s as [|d s]; simpl.
    + split; [done|]. intros [r Hr]. by rewrite sapp_cons in Hr.
    + destruct (ascii_dec c d) as [->|Hne].
      * rewrite IH. setoid_rewrite sapp_cons. naive_solver.
      * split; [done|]. intros [r Hr]. rewrite sapp_cons in Hr. naive_solver.
Qed.

#[global] Arguments String.prefix : simpl never.

Lemma prefix_app p r : String.prefix p (p +:+ r) = true.
Proof. apply prefix_spec. by eexists. Qed.

Lemma endswith_spec p s : endswith p s = true ↔ ∃ l, s = l +:+ p.
Proof.
  unfold endswith, str_tail. rewrite andb_true_iff, Nat.leb_le, bool_decide_eq_true.
  split.
  - intros [Hlen Hd]. exists (str_take (String.length s - String.length p) s).
    rewrite <- Hd at 2. by rewrite str_take_drop.
  - intros [l ->]. rewrite slength_app. split; [lia|].
    replace (String.length l + String.length p - String.length p) with (String.length l) by lia.
    apply str_drop_app.
Qed.

Lemma contains_spec sub s : contains sub s = true ↔ ∃ l r, s = l +:+ sub +:+ r.
Proof.
  induction s as [|c s IH]; simpl; rewrite orb_true_iff, prefix_spec.
  - split; [intros [[r Hr]|?]; [by exists "", r|done]|].
    intros (l & r & Heq). left. exists r.
    destruct l; [done|]. by rewrite sapp_cons in Heq.
  - rewrite IH. split.
    + intros [[r Hr]|(l & r & ->)]; [by exists "", r|].
      by exists (String c l), r.
    + intros (l & r & Heq). destruct l as [|d l]; [left; by exists r|].
      rewrite sapp_cons in Heq. injection Heq as -> ->. right. by exists l, r.
Qed.

Lemma contains_app_l sub a b : contains sub a = true → contains sub (a +:+ b) = true.
Proof.
  rewrite !contains_spec. intros (l & r & ->). exists l, (r +:+ b).
  by rewrite !sapp_assoc.
Qed.
Lemma contains_app_r sub a b : contains sub b = true → contains sub (a +:+ b) = true.
Proof.
  rewrite !contains_spec. intros (l & r & ->). exists (a +:+ l), r.
  by rewrite !sapp_assoc.
Qed.

Lemma sforall_app p a b : sforall p (a +:+ b) = sforall p a && sforall p b.
Proof.
  induction a as [|c a IH]; [done|]. rewrite sapp_cons. simpl. rewrite IH.
  by rewrite andb_assoc.
Qed.
Lemma sforall_impl (p q : ascii → bool) s :
  (∀ c, p c = true → q c = true) → sforall p s = true → sforall q s = true.
Proof.
  intros Hpq. induction s as [|c s IH]; simpl; [done|].
  rewrite !andb_true_iff. naive_solver.
Qed.

Lemma smap_app f a b : smap f (a +:+ b) = smap f a +:+ smap f b.
Proof. induction a as [|c a IH]; [done|]. rewrite !sapp_cons. simpl. by rewrite IH. Qed.
Lemma smap_id_on f s : (sforall (λ c, bool_decide (f c = c)) s = true) → smap f s = s.
Proof.
  induction s as [|c s IH]; simpl; [done|]. rewrite andb_true_iff, bool_decide_eq_true.
  intros [-> ?]. by rewrite IH.
Qed.

(** ** All characters *)

Definition all_ascii : list ascii := (λ n, ascii_of_nat n) <$> seq 0 256.
(** A property of every character is checked on the 256 of them. *)
Lemma ascii_forall (P : ascii → Prop) `{∀ c, Decision (P c)} :
  forallb (λ c, bool_decide (P c)) all_ascii = true → ∀ c, P c.
Proof.
  intros Hall c. rewrite forallb_forall in Hall.
  assert (In c all_ascii) as Hin.
  { unfold all_ascii. apply in_map_iff. exists (nat_of_ascii c).
    split; [apply ascii_nat_embedding|]. apply in_seq.
    pose proof (nat_ascii_bounded c). lia. }
  apply Hall in Hin. by rewrite bool_decide_eq_true in Hin.
Qed.

Ltac by_ascii :=
  match goal with |- ∀ c : ascii, @?P c =>
    refine (@ascii_forall P ltac:(cbv beta; intros ?; apply _) _);
    vm_compute; reflexivity end.

Lemma digit_is_word c : is_digit c = true → is_word c = true.
Proof. unfold is_word, is_alnum. intros ->. by rewrite orb_true_r. Qed.
Lemma word_not_space : ∀ c, is_word c = true → is_space c = false.
Proof. by_ascii. Qed.
Lemma space_not_word : ∀ c, is_space c = true → is_word c = false.
Proof. by_ascii. Qed.
Lemma digit_not_space : ∀ c, is_digit c = true → is_space c = false.
Proof. by_ascii. Qed.
Lemma lower_char_idem : ∀ c, lower_char (lower_char c) = lower_char c.
Proof. by_ascii. Qed.
#[export] Hint Resolve digit_is_word word_not_space space_not_word digit_not_space : py.

Lemma lower_idem s : lower (lower s) = lower s.
Proof.
  unfold lower. induction s as [|c s IH]; simpl; [done|].
  by rewrite lower_char_idem, IH.
Qed.

(** ** Decimal integers

    [int] on a run of digits, and its round trip with [str]. *)

Fixpoint dec_value (acc : Z) (s : string) : Z :=
  match s with
  | "" => acc
  | String c s' => dec_value (acc * 10 + (Z.of_N (code c) - 48)) s'
  end.

Lemma digit_not_underscore : ∀ c, is_digit c = true → (code c =? 95)%N = false.
Proof. by_ascii. Qed.
Lemma digit_val_digit c : is_digit c = true → digit_val c = Some (Z.of_N (code c) - 48)%Z.
Proof. unfold digit_val. by intros ->. Qed.
Lemma digit_code c : is_digit c = true → (48 ≤ Z.of_N (code c) ≤ 57)%Z.
Proof. unfold is_digit, in_range. rewrite andb_true_iff, !N.leb_le. lia. Qed.

Lemma digits_go_dec acc s b :
  sforall is_digit s = true → b = true ∨ s ≠ "" →
  digits_go 10 acc b s = Some (dec_value acc s).
Proof.
  revert acc b. induction s as [|c s IH]; intros acc b; simpl.
  - intros _ [->|?]; done.
  - rewrite andb_true_iff. intros [Hc Hs] _.
    rewrite digit_not_underscore, digit_val_digit by done.
    pose proof (digit_code c Hc).
    rewrite (proj2 (Z.ltb_lt _ _)) by lia. apply IH; auto.
Qed.

Lemma lstrip_id s : sforall (λ c, negb (is_space c)) s = true → lstrip s = s.
Proof.
  destruct s as [|c s]; [done|]. simpl. rewrite andb_true_iff, negb_true_iff.
  by intros [-> _].
Qed.
Lemma rstrip_id s : sforall (λ c, negb (is_space c)) s = true → rstrip s = s.
Proof.
  induction s as [|c s IH]; [done|]. simpl. rewrite andb_true_iff, negb_true_iff.
  intros [-> Hs]. rewrite IH by done. by destruct s.
Qed.
Lemma strip_id s : sforall (λ c, negb (is_space c)) s = true → strip s = s.
Proof. intros Hs. unfold strip. by rewrite rstrip_id, lstrip_id. Qed.

Lemma digits_no_space s :
  sforall is_digit s = true → sforall (λ c, negb (is_space c)) s = true.
Proof. apply sforall_impl. intros c Hc. by rewrite digit_not_space. Qed.

(** [int] never raises on a non-empty run of digits. *)
Lemma py_int_digits s :
  sforall is_digit s = true → s ≠ "" → py_int 10 s = Ok (dec_value 0 s).
Proof.
  intros Hs Hne. unfold py_int. rewrite strip_id by by apply digits_no_space.
  assert (int_magnitude 10 s = Some (dec_value 0 s)) as Hm.
  { unfold int_magnitude. rewrite !andb_false_r. simpl. apply digits_go_dec; auto. }
  destruct s as [|c s]; [done|].
  simpl in Hs. apply andb_true_iff in Hs as [Hc _].
  assert (c ≠ "+"%char ∧ c ≠ "-"%char) as [? ?] by (split; intros ->; done).
  assert (∀ a b : result Z,
    or_raise ValueError (int_magnitude 10 (String c s)) = a → a = b →
    or_raise ValueError
      match String c s with
      | String "+" r => int_magnitude 10 r
      | String "-" r => Z.opp <$> int_magnitude 10 r
      | r => int_magnitude 10 r
      end = b) as Hgen; [|eapply Hgen; [by rewrite Hm|done]].
  intros a b <- <-. destruct c as [[] [] [] [] [] [] [] []]; done.
Qed.

Lemma dec_value_nonneg acc s :
  (0 ≤ acc)%Z → sforall is_digit s = true → (0 ≤ dec_value acc s)%Z.
Proof.
  revert acc. induction s as [|c s IH]; intros acc Hacc; simpl; [done|].
  rewrite andb_true_iff. intros [Hc Hs]. pose proof (digit_code c Hc). apply IH; [lia|done].
Qed.

Lemma pretty_char_value x :
  (x < 10)%N → (Z.of_N (code (pretty_N_char x)) - 48 = Z.of_N x)%Z ∧
               is_digit (pretty_N_char x) = true.
Proof.
  intros Hx. assert (x = 0 ∨ x = 1 ∨ x = 2 ∨ x = 3 ∨ x = 4 ∨ x = 5 ∨ x = 6 ∨ x = 7
    ∨ x = 8 ∨ x = 9)%N as Hc by lia.
  by repeat (destruct Hc as [->|Hc]; [done|]); subst.
Qed.

Lemma pretty_N_go_value n s :
  dec_value 0 (pretty_N_go n s) = dec_value (Z.of_N n) s ∧
  (sforall is_digit s = true → sforall is_digit (pretty_N_go n s) = true).
Proof.
  revert s. induction (N.lt_wf_0 n) as [n _ IH]; intros s.
  assert (n = 0 ∨ 0 < n)%N as [->|Hn] by lia; [by rewrite pretty_N_go_0|].
  rewrite pretty_N_go_step by done.
  destruct (IH (n `div` 10)%N (N.div_lt n 10 Hn eq_refl)
    (String (pretty_N_char (n `mod` 10)) s)) as [-> IHd].
  destruct (pretty_char_value (n `mod` 10)) as [Hv Hd]; [by apply N.mod_lt|].
  split.
  - simpl. rewrite Hv. f_equal.
    pose proof (N.div_mod n 10). rewrite (N.div_mod n 10) at 3 by done. lia.
  - intros Hs. apply IHd. simpl. by rewrite Hd.
Qed.

Lemma pretty_N_digits (n : N) : sforall is_digit (pretty n) = true ∧ pretty n ≠ "".
Proof.
  unfold pretty, pretty_N. case_decide; [done|]. split.
  - by apply pretty_N_go_value.
  - rewrite pretty_N_go_step by lia.
    destruct (pretty_N_go_value (n `div` 10) (String (pretty_N_char (n `mod` 10)) "")) as [Hv _].
    intros E. rewrite E in Hv. simpl in Hv.
    destruct (pretty_char_value (n `mod` 10)) as [Hc _]; [by apply N.mod_lt|].
    rewrite Hc in Hv. pose proof (N.div_mod n 10). lia.
Qed.

(** [int(str(n)) = n] *)
Lemma py_int_pretty (n : N) : py_int 10 (pretty n) = Ok (Z.of_N n).
Proof.
  destruct (pretty_N_digits n). rewrite py_int_digits by done. f_equal.
  unfold pretty, pretty_N. case_decide; [by subst|].
  by destruct (pretty_N_go_value n "") as [-> _].
Qed.
Lemma dec_value_pretty (n : N) : dec_value 0 (pretty n) = Z.of_N n.
Proof.
  destruct (pretty_N_digits n) as [Hd Hne]. pose proof (py_int_pretty n) as H.
  rewrite py_int_digits in H by done. congruence.
Qed.

(** ** Hexadecimal integers *)

Definition is_hex (c : ascii) : bool := is_digit c || in_range 97 102 c.

Lemma hex_char_value d :
  (d < 16)%N →
  is_hex (hex_char d) = true ∧ (code (hex_char d) =? 95)%N = false
  ∧ digit_val (hex_char d) = Some (Z.of_N d).
Proof.
  intros Hd. destruct d as [|p]; [done|].
  do 4 (destruct p as [p|p|]; try done); lia.
Qed.

Lemma hex_not_space : ∀ c, is_hex c = true → is_space c = false.
Proof. by_ascii. Qed.
Lemma hex_lower : ∀ c, is_hex c = true → lower_char c = c.
Proof. by_ascii. Qed.
Lemma hex_plain :
  ∀ c, is_hex c = true →
    c ≠ "."%char ∧ c ≠ ":"%char ∧ c ≠ "x"%char ∧ c ≠ "+"%char ∧ c ≠ "-"%char.
Proof. by_ascii. Qed.

Lemma digits_go_hex fuel n s b :
  (n < 2 ^ N.of_nat fuel)%N →
  digits_go 16 0 b (hex_go fuel n s) = digits_go 16 (Z.of_N n) (b || negb (n =? 0)%N) s.
Proof.
  revert n s. induction fuel as [|fuel IH]; intros n s Hn; cbn [hex_go].
  - assert (n = 0%N) as -> by (cbn in Hn; lia). by rewrite orb_false_r.
  - destruct (N.eqb_spec n 0) as [->|Hne]; [by rewrite orb_false_r|].
    assert (n / 16 < 2 ^ N.of_nat fuel)%N as Hlt.
    { apply N.Div0.div_lt_upper_bound. rewrite Nat2N.inj_succ, N.pow_succ_r' in Hn. lia. }
    rewrite IH by done. cbn [digits_go].
    destruct (hex_char_value (n mod 16)) as (_ & -> & ->); [by apply N.mod_lt|].
    rewrite (proj2 (Z.ltb_lt _ _)).
    2:{ pose proof (N.mod_lt n 16). lia. }
    rewrite orb_true_r. f_equal. pose proof (N.div_mod n 16). lia.
Qed.

Lemma size_nat_gt n : (n < 2 ^ N.of_nat (N.size_nat n))%N.
Proof.
  destruct n as [|p]; [done|]. simpl. induction p as [p IH|p IH|]; simpl Pos.size_nat;
    [rewrite Nat2N.inj_succ, N.pow_succ_r'; lia..|done].
Qed.

(** The digits of [f"{n:x}"] denote [n]. *)
Lemma digits_go_hex_of_N n b : digits_go 16 0 b (hex_of_N n) = Some (Z.of_N n).
Proof.
  unfold hex_of_N. destruct (N.eqb_spec n 0) as [->|Hn]; [done|].
  rewrite digits_go_hex by apply size_nat_gt. cbn.
  by rewrite (proj2 (N.eqb_neq _ _)), orb_true_r.
Qed.
Lemma digits_go_pad k b s :
  digits_go 16 0 b (srepeat k "0" +:+ s) = digits_go 16 0 (b || negb (Nat.eqb k 0)) s.
Proof.
  revert b. induction k as [|k IH]; intros b; simpl; [by rewrite orb_false_r|].
  rewrite IH. by rewrite orb_true_r.
Qed.

Lemma hex_go_length fuel n s k :
  (n < 16 ^ N.of_nat k)%N → String.length (hex_go fuel n s) <= k + String.length s.
Proof.
  revert n s k. induction fuel as [|fuel IH]; intros n s k Hn; cbn [hex_go]; [lia|].
  destruct (N.eqb_spec n 0) as [->|Hne]; [lia|].
  destruct k as [|k]; [cbn in Hn; lia|].
  rewrite Nat2N.inj_succ, N.pow_succ_r' in Hn.
  etrans; [apply (IH _ _ k)|simpl; lia].
  apply N.Div0.div_lt_upper_bound. lia.
Qed.
Lemma hex_go_is_hex fuel n s :
  sforall is_hex s = true → sforall is_hex (hex_go fuel n s) = true.
Proof.
  revert n s. induction fuel as [|fuel IH]; intros n s Hs; cbn [hex_go]; [done|].
  case_match; [done|]. apply IH. simpl.
  destruct (hex_char_value (n mod 16)) as [-> _]; [by apply N.mod_lt|done].
Qed.
Lemma hex_of_N_length n k :
  0 < k → (n < 16 ^ N.of_nat k)%N → String.length (hex_of_N n) <= k.
Proof.
  intros Hk Hn. unfold hex_of_N. case_match; [simpl; lia|].
  pose proof (hex_go_length (N.size_nat n) n "" k Hn). simpl in *. lia.
Qed.
Lemma hex_of_N_is_hex n : sforall is_hex (hex_of_N n) = true.
Proof. unfold hex_of_N. case_match; [done|]. by apply hex_go_is_hex. Qed.

Lemma srepeat_is_hex k : sforall is_hex (srepeat k "0") = true.
Proof. induction k as [|k IH]; [done|]. cbn [srepeat]. by rewrite sforall_app, IH. Qed.
Lemma srepeat_length k : String.length (srepeat k "0") = k.
Proof. induction k as [|k IH]; [done|]. cbn [srepeat]. by rewrite slength_app, IH. Qed.

Lemma format_hex_is_hex w z : (0 ≤ z)%Z → sforall is_hex (format_hex w z) = true.
Proof.
  intros Hz. unfold format_hex, pad0. rewrite (proj2 (Z.ltb_ge _ _)) by done.
  by rewrite sforall_app, srepeat_is_hex, hex_of_N_is_hex.
Qed.
Lemma format_hex_length w z :
  0 < w → (0 ≤ z < 16 ^ Z.of_nat w)%Z → String.length (format_hex w z) = w.
Proof.
  intros Hw [Hz Hlt]. unfold format_hex, pad0. rewrite (proj2 (Z.ltb_ge _ _)) by done.
  rewrite slength_app, srepeat_length.
  assert (String.length (hex_of_N (Z.to_N z)) <= w); [|lia].
  apply hex_of_N_length; [done|].
  rewrite <- (Z2N.id z) in Hlt by done. apply N2Z.inj_lt. rewrite N2Z.inj_pow, nat_N_Z. done.
Qed.

(** [int(f"0x{n:0{w}x}", base) = n] for the bases that take the prefix *)
Lemma py_int_format_hex base w z :
  base = 16%Z ∨ base = 0%Z → (0 ≤ z)%Z → py_int base ("0x" +:+ format_hex w z) = Ok z.
Proof.
  intros Hb Hz. unfold py_int.
  rewrite strip_id.
  2:{ simpl. apply (sforall_impl is_hex); [|by apply format_hex_is_hex].
      intros c Hc. by rewrite hex_not_space. }
  assert (int_magnitude base ("0x" +:+ format_hex w z) = Some z) as Hm.
  { unfold int_magnitude.
    assert (bool_decide (lower (str_take 2 ("0x" +:+ format_hex w z)) = "0x")
            && ((base =? 16)%Z || (base =? 0)%Z) = true) as ->.
    { simpl. by destruct Hb as [->| ->]. }
    change (str_drop 2 ("0x" +:+ format_hex w z)) with (format_hex w z).
    assert (drop_underscore (format_hex w z) = format_hex w z) as ->.
    { pose proof (format_hex_is_hex w z Hz) as Hh. destruct (format_hex w z) as [|c s]; [done|].
      simpl in *. apply andb_true_iff in Hh as [Hc _].
      assert ((code c =? 95)%N = false) as ->; [|done].
      revert Hc. clear. revert c. by_ascii. }
    unfold format_hex, pad0. rewrite (proj2 (Z.ltb_ge _ _)) by done.
    rewrite digits_go_pad, digits_go_hex_of_N. f_equal. lia. }
  change (or_raise ValueError (int_magnitude base ("0x" +:+ format_hex w z)) = Ok z).
  by rewrite Hm.
Qed.

(** ** Replacing one character *)

Lemma replace_char_cons d new c s :
  replace (String d "") new (String c s)
  = (if decide (d = c) then new else String c "") +:+ replace (String d "") new s.
Proof.
  unfold replace. cbn [replace_go].
  assert (String.prefix (String d "") (String c s) = bool_decide (d = c)) as ->.
  { unfold String.prefix. fold String.prefix. destruct (ascii_dec d c); case_bool_decide;
      try done. by destruct s. }
  by destruct (decide (d = c)); case_bool_decide.
Qed.
Lemma replace_char_app d new a b :
  replace (String d "") new (a +:+ b)
  = replace (String d "") new a +:+ replace (String d "") new b.
Proof.
  induction a as [|c a IH]; [done|]. rewrite sapp_cons, !replace_char_cons, IH.
  by rewrite sapp_assoc.
Qed.
Lemma replace_char_id d new s :
  sforall (λ c, bool_decide (d ≠ c)) s = true → replace (String d "") new s = s.
Proof.
  induction s as [|c s IH]; [done|]. simpl. rewrite andb_true_iff, bool_decide_eq_true.
  intros [Hc Hs]. rewrite replace_char_cons, decide_False, IH by done. done.
Qed.
Lemma sforall_take p n s : sforall p s = true → sforall p (str_take n s) = true.
Proof.
  revert n. induction s as [|c s IH]; intros [|n]; simpl; [done..|].
  rewrite !andb_true_iff. naive_solver.
Qed.
Lemma sforall_drop p n s : sforall p s = true → sforall p (str_drop n s) = true.
Proof.
  revert n. induction s as [|c s IH]; intros [|n]; simpl; [done..|].
  rewrite !andb_true_iff. naive_solver.
Qed.

(** ** Splitting at one character *)

Definition lacks (d : ascii) (s : string) : Prop := sforall (λ c, bool_decide (d ≠ c)) s = true.

Lemma split_char_cons d c s :
  split (String d "") (String c s)
  = if decide (d = c) then "" :: split (String d "") s
    else match split (String d "") s with
         | h :: t => String c h :: t
         | [] => [String c ""]
         end.
Proof.
  unfold split. cbn [split_go].
  assert (String.prefix (String d "") (String c s) = bool_decide (d = c)) as ->.
  { unfold String.prefix. fold String.prefix. destruct (ascii_dec d c); case_bool_decide;
      try done. by destruct s. }
  by destruct (decide (d = c)); case_bool_decide.
Qed.
Lemma split_char_none d s : lacks d s → split (String d "") s = [s].
Proof.
  unfold lacks. induction s as [|c s IH]; [done|]. cbn [sforall].
  rewrite andb_true_iff, bool_decide_eq_true. intros [Hc Hs].
  by rewrite split_char_cons, decide_False, IH.
Qed.
Lemma split_char_app d a b :
  lacks d a → split (String d "") (a +:+ String d "" +:+ b) = a :: split (String d "") b.
Proof.
  unfold lacks. induction a as [|c a IH]; cbn [sforall].
  - intros _. rewrite sapp_nil_l, sapp_cons, sapp_nil_l, split_char_cons. by rewrite decide_True.
  - rewrite andb_true_iff, bool_decide_eq_true. intros [Hc Ha].
    by rewrite sapp_cons, split_char_cons, decide_False, IH.
Qed.
Lemma digits_lack d s : is_digit d = false → sforall is_digit s = true → lacks d s.
Proof.
  intros Hd. apply sforall_impl. intros c Hc. apply bool_decide_eq_true_2. congruence.
Qed.
Lemma str_of_Z_of_N n : str_of_Z (Z.of_N n) = pretty n.
Proof. by destruct n. Qed.

(** [int(str(z)) = z] *)
Lemma py_int_str_of_Z z : py_int 10 (str_of_Z z) = Ok z.
Proof.
  destruct z as [|m|m]; [done|apply (py_int_pretty (N.pos m))|].
  change (str_of_Z (Z.neg m)) with (String "-" (pretty (N.pos m))).
  destruct (pretty_N_digits (N.pos m)) as [Hd Hne]. pose proof (py_int_pretty (N.pos m)) as H.
  rewrite py_int_digits in H by done. unfold py_int.
  rewrite strip_id by (cbn [sforall]; by apply digits_no_space).
  unfold int_magnitude. rewrite !andb_false_r. cbn [Z.eqb orb].
  rewrite digits_go_dec by auto. cbn. f_equal. injection H as ->. done.
Qed.

(** A word without the separator is found on one side of it. *)
Lemma prefix_lacks p a d b :
  lacks d p → String.prefix p (a +:+ String d b) = String.prefix p a.
Proof.
  unfold lacks. revert p. induction a as [|c a IH]; intros [|e p]; cbn [sforall];
    rewrite ?andb_true_iff, ?bool_decide_eq_true; try done.
  - intros [Hd _]. rewrite sapp_nil_l. unfold String.prefix. by destruct (ascii_dec e d).
  - intros [_ Hp]. rewrite sapp_cons. unfold String.prefix. fold String.prefix.
    destruct (ascii_dec e c); [|done]. by apply IH.
Qed.
Lemma contains_sep p a d b :
  lacks d p → p ≠ "" → contains p (a +:+ String d b) = contains p a || contains p b.
Proof.
  intros Hp Hne. induction a as [|c a IH].
  - rewrite sapp_nil_l. cbn [contains].
    pose proof (prefix_lacks p "" d b Hp) as E. rewrite sapp_nil_l in E. rewrite E.
    destruct p; [done|]. done.
  - rewrite sapp_cons. cbn [contains]. rewrite IH, <- sapp_cons, prefix_lacks by done.
    by rewrite orb_assoc.
Qed.

(** [s.rfind(c)] *)
Fixpoint rfind (c : ascii) (s : string) : option nat :=
  match s with
  | "" => None
  | String d s' =>
      match rfind c s' with
      | Some i => Some (S i)
      | None => if decide (c = d) then Some 0 else None
      end
  end.
Lemma rfind_app c a b i : rfind c b = Some i → rfind c (a +:+ b) = Some (String.length a + i).
Proof.
  intros Hb. induction a as [|d a IH]; [done|]. rewrite sapp_cons. cbn [rfind]. by rewrite IH.
Qed.
