(* ===== verification/PySort.v ===== *)
(** * Sorting

    Python's [sorted] is stable: [sort_by le] is the insertion sort, which is stable too
    and so gives the same list for any total preorder.  The order on [str] is by
    character codes, [None] compares with nothing, and tuples and keys are orders built
    from others. *)

From S2P Require Import Prelude PyStr.
From stdpp Require Import options.

(** ** Orders *)

Class TotalOrder {A} (le : A → A → bool) : Prop := {
  le_refl x : le x x = true;
  le_trans x y z : le x y = true → le y z = true → le x z = true;
  le_total x y : le x y = true ∨ le y x = true
}.

(** [x <= y] on [str] *)
Fixpoint str_le (s t : string) : bool :=
  match s, t with
  | EmptyString, _ => true
  | String _ _, EmptyString => false
  | String c s', String d t' => (code c <? code d)%N || ((code c =? code d)%N && str_le s' t')
  end.
#[export] Instance str_le_total : TotalOrder str_le.
Proof.
  split.
  - intros s. induction s as [|c s IH]; [done|]. simpl. by rewrite N.eqb_refl, IH, orb_true_r.
  - intros s. induction s as [|c s IH]; intros [|d t] [|e u]; simpl; try done.
    rewrite !orb_true_iff, !andb_true_iff, !N.ltb_lt, !N.eqb_eq.
    intros [?|[E ?]] [?|[E' ?]]; [left; lia..|]. right. split; [congruence|eauto].
  - intros s. induction s as [|c s IH]; intros [|d t]; simpl; try by auto.
    destruct (N.lt_trichotomy (code c) (code d)) as [H|[H|H]].
    + left. by rewrite (proj2 (N.ltb_lt _ _) H).
    + rewrite H, N.eqb_refl, N.ltb_irrefl. simpl. apply IH.
    + right. by rewrite (proj2 (N.ltb_lt _ _) H).
Qed.
Lemma str_le_antisym s t : str_le s t = true → str_le t s = true → s = t.
Proof.
  revert t. induction s as [|c s IH]; intros [|d t]; simpl; try done.
  rewrite !orb_true_iff, !andb_true_iff, !N.ltb_lt, !N.eqb_eq.
  intros [?|[E ?]] [?|[E' ?]]; [lia..|]. f_equal; [|auto].
  rewrite <- (ascii_N_embedding c), <- (ascii_N_embedding d). unfold code in E. by rewrite E.
Qed.

(** [key=f] and [(a, b)] *)
Definition by_key {A B} (f : A → B) (le : B → B → bool) (x y : A) : bool := le (f x) (f y).
Definition lex {A B} (leA : A → A → bool) (leB : B → B → bool) (p q : A * B) : bool :=
  leA p.1 q.1 && (negb (leA q.1 p.1) || leB p.2 q.2).

#[export] Instance by_key_total {A B} (f : A → B) le : TotalOrder le → TotalOrder (by_key f le).
Proof. intros [R T O]. split; unfold by_key; eauto. Qed.
#[export] Instance lex_total {A B} (leA : A → A → bool) (leB : B → B → bool) :
  TotalOrder leA → TotalOrder leB → TotalOrder (lex leA leB).
Proof.
  intros [RA TA OA] [RB TB OB]. split; unfold lex.
  - intros p. by rewrite RA, RB, orb_true_r.
  - intros p q r. rewrite !andb_true_iff, !orb_true_iff, !negb_true_iff.
    intros [H1 H2] [H3 H4]. split; [eauto|].
    destruct (leA r.1 p.1) eqn:E; [|by left]. right.
    assert (leA q.1 p.1 = true) as E1 by eauto. assert (leA r.1 q.1 = true) as E2 by eauto.
    rewrite E1 in H2. rewrite E2 in H4. destruct H2, H4; try done. eauto.
  - intros p q. destruct (leA p.1 q.1) eqn:E1, (leA q.1 p.1) eqn:E2; simpl; auto.
    destruct (OA p.1 q.1) as [H|H]; congruence.
Qed.
#[export] Instance Zle_total : TotalOrder Z.leb.
Proof. split; intros; rewrite ?Z.leb_le in *; lia. Qed.

(** ** Insertion sort *)

Section sort.
Context {A : Type} (le : A → A → bool).

Fixpoint insert_by (x : A) (l : list A) : list A :=
  match l with
  | [] => [x]
  | y :: l' => if le x y then x :: l else y :: insert_by x l'
  end.
Fixpoint sort_by (l : list A) : list A :=
  match l with [] => [] | x :: l' => insert_by x (sort_by l') end.

Lemma insert_by_perm x l : insert_by x l ≡ₚ x :: l.
Proof.
  induction l as [|y l IH]; [done|]. simpl. destruct (le x y); [done|].
  rewrite IH. constructor.
Qed.
Lemma sort_by_perm l : sort_by l ≡ₚ l.
Proof. induction l as [|x l IH]; [done|]. simpl. rewrite insert_by_perm. by constructor. Qed.
Lemma elem_of_sort_by x l : x ∈ sort_by l ↔ x ∈ l.
Proof. by rewrite sort_by_perm. Qed.
Lemma sort_by_length l : length (sort_by l) = length l.
Proof. apply Permutation_length, sort_by_perm. Qed.
Lemma sort_by_NoDup l : NoDup (sort_by l) ↔ NoDup l.
Proof. by rewrite sort_by_perm. Qed.

Definition ordered : list A → Prop := StronglySorted (λ x y, le x y = true).
Lemma sort_by_ordered `{!TotalOrder le} l : ordered (sort_by l).
Proof.
  induction l as [|x l IH]; [constructor|]. simpl. revert IH. generalize (sort_by l). clear l.
  intros l. induction 1 as [|y l Hs IH Hy]; simpl; [by repeat constructor|].
  destruct (le x y) eqn:E.
  - constructor; [by constructor|]. constructor; [done|].
    eapply Forall_impl; [exact Hy|]. intros z Hz. by eapply le_trans.
  - constructor; [done|]. rewrite insert_by_perm. constructor; [|done].
    destruct (le_total x y); congruence.
Qed.

(** A list that is in order is not changed. *)
Lemma sort_by_id l : ordered l → sort_by l = l.
Proof.
  induction 1 as [|x l _ IH Hx]; [done|]. simpl. rewrite IH. destruct l as [|y l]; [done|].
  simpl. inversion Hx as [|? ? E]; subst. by rewrite E.
Qed.
End sort.

Lemma sort_by_ext {A} (le1 le2 : A → A → bool) l :
  (∀ x y, le1 x y = le2 x y) → sort_by le1 l = sort_by le2 l.
Proof.
  intros H. induction l as [|x l IH]; [done|]. simpl. rewrite IH. generalize (sort_by le2 l).
  intros k. induction k as [|y k IHk]; [done|]. simpl. rewrite H. by destruct (le2 x y); rewrite ?IHk.
Qed.
