(* ===== verification/PyDict.v ===== *)
(** * Insertion-ordered dictionaries

    Python's [dict] as the list of its items in insertion order.  Its laws are
    stated on [to_gmap], the finite map it denotes, and on [keys], the order in
    which it is iterated over. *)

From S2P Require Import Prelude.
From stdpp Require Import options.

Abbreviation dict K V := (list (K * V)%type).

Section dict.
Context {K V : Type} `{EqDecision K}.
Implicit Types (k : K) (v : V) (d : dict K V).

(** [k in d], [d.get(k)], [d[k]] *)
Fixpoint dget k d : option V :=
  match d with
  | [] => None
  | (k', v) :: d' => if decide (k = k') then Some v else dget k d'
  end.
Definition din k d : bool := bool_decide (is_Some (dget k d)).
Definition dgetitem k d : result V := or_raise KeyError (dget k d).

(** [d[k] = v]: in place for a key that is there, at the end otherwise. *)
Fixpoint dset k v d : dict K V :=
  match d with
  | [] => [(k, v)]
  | (k', v') :: d' => if decide (k = k') then (k', v) :: d' else (k', v') :: dset k v d'
  end.
(** [if k not in d: d[k] = v] *)
Definition dsetdefault k v d : dict K V :=
  match dget k d with Some _ => d | None => dset k v d end.
Fixpoint ddel k d : dict K V :=
  match d with
  | [] => []
  | (k', v') :: d' => if decide (k = k') then d' else (k', v') :: ddel k d'
  end.
(** [dict(items)] and [d.update(items)] *)
Definition dupdate d (items : list (K * V)) : dict K V :=
  foldl (λ d p, dset p.1 p.2 d) d items.

Definition keys d : list K := d.*1.
Definition values d : list V := d.*2.

Definition wf d : Prop := NoDup (keys d).

Lemma dget_dset k v d k' : dget k' (dset k v d) = if decide (k' = k) then Some v else dget k' d.
Proof.
  induction d as [|[k2 v2] d IH]; cbn; [done|].
  destruct (decide (k = k2)) as [<-|]; cbn.
  - by case_decide.
  - rewrite IH. repeat case_decide; congruence.
Qed.
Lemma dget_dset_eq k v d : dget k (dset k v d) = Some v.
Proof. by rewrite dget_dset, decide_True. Qed.
Lemma dget_dset_ne k k' v d : k ≠ k' → dget k' (dset k v d) = dget k' d.
Proof. intros. by rewrite dget_dset, decide_False. Qed.

Lemma dget_None k d : dget k d = None ↔ k ∉ keys d.
Proof.
  unfold keys. induction d as [|[k' v] d IH]; cbn; [set_solver|].
  case_decide; set_solver.
Qed.
Lemma dget_Some_in k v d : dget k d = Some v → (k, v) ∈ d.
Proof.
  induction d as [|[k' v'] d IH]; cbn; [done|].
  case_decide; [intros [= ->]; subst; by left|]. right. auto.
Qed.
Lemma dget_keys k d : is_Some (dget k d) ↔ k ∈ keys d.
Proof.
  destruct (dget k d) as [v|] eqn:E.
  - split; [intros _|by eexists]. apply dget_Some_in in E. unfold keys.
    apply list_elem_of_fmap. by exists (k, v).
  - apply dget_None in E. split; [by intros [? ?]|done].
Qed.
Lemma in_dget k v d : wf d → (k, v) ∈ d → dget k d = Some v.
Proof.
  unfold wf, keys. induction d as [|[k' v'] d IH]; cbn; [set_solver|].
  intros [Hk Hd]%NoDup_cons Hin. case_decide as E.
  - subst. apply elem_of_cons in Hin as [[= ->]|Hin]; [done|].
    exfalso. apply Hk, list_elem_of_fmap. by exists (k', v).
  - apply IH; [done|]. apply elem_of_cons in Hin as [[= ? ?]|]; done.
Qed.

Lemma keys_dset k v d :
  keys (dset k v d) = if decide (k ∈ keys d) then keys d else keys d ++ [k].
Proof.
  unfold keys. induction d as [|[k' v'] d IH]; cbn.
  - by rewrite decide_False by apply not_elem_of_nil.
  - destruct (decide (k = k')) as [<-|Hne]; cbn; [by rewrite decide_True by left|].
    rewrite IH. destruct (decide (k ∈ d.*1)).
    + by rewrite decide_True by by right.
    + by rewrite decide_False by by intros [?|?]%elem_of_cons.
Qed.

Lemma wf_dset k v d : wf d → wf (dset k v d).
Proof. unfold wf. rewrite keys_dset. case_decide; eauto with py. Qed.
Lemma wf_nil : wf [].
Proof. constructor. Qed.

(** A key that is not there goes to the end. *)
Lemma dset_fresh k v d : k ∉ keys d → dset k v d = d ++ [(k, v)].
Proof.
  unfold keys. induction d as [|[k' v'] d IH]; cbn; [done|]. intros Hk.
  rewrite decide_False by set_solver. by rewrite IH by set_solver.
Qed.
(** A key that is there keeps its place. *)
Lemma dset_present k v d1 d2 v' :
  k ∉ keys d1 → dset k v (d1 ++ (k, v') :: d2) = d1 ++ (k, v) :: d2.
Proof.
  unfold keys. induction d1 as [|[k' w] d1 IH]; cbn; intros Hk.
  - by rewrite decide_True.
  - rewrite decide_False by set_solver. by rewrite IH by set_solver.
Qed.

Lemma keys_dsetdefault k v d :
  keys (dsetdefault k v d) = if decide (k ∈ keys d) then keys d else keys d ++ [k].
Proof.
  unfold dsetdefault. destruct (dget k d) eqn:E.
  - rewrite decide_True; [done|]. apply dget_keys. by eexists.
  - rewrite keys_dset. done.
Qed.
Lemma wf_dsetdefault k v d : wf d → wf (dsetdefault k v d).
Proof. unfold dsetdefault. case_match; [done|apply wf_dset]. Qed.
Lemma dget_dsetdefault k v d k' :
  dget k' (dsetdefault k v d) =
  if decide (k' = k) then Some (default v (dget k d)) else dget k' d.
Proof.
  unfold dsetdefault. destruct (dget k d) eqn:E; case_decide; subst; try done.
  - by rewrite dget_dset_eq.
  - by rewrite dget_dset_ne.
Qed.

Lemma wf_dupdate d l : wf d → wf (dupdate d l).
Proof. unfold dupdate. revert d. induction l as [|p l IH]; intros d Hd; cbn; auto using wf_dset. Qed.

(** The last item for a key wins. *)
Lemma dget_dupdate_snoc d l k v k' :
  dget k' (dupdate d (l ++ [(k, v)])) = if decide (k' = k) then Some v else dget k' (dupdate d l).
Proof.
  unfold dupdate. rewrite foldl_app. cbn. case_decide; subst.
  - apply dget_dset_eq.
  - by apply dget_dset_ne.
Qed.

Lemma dupdate_app d l l' : dupdate d (l ++ l') = dupdate (dupdate d l) l'.
Proof. unfold dupdate. apply foldl_app. Qed.
(** One item that may be missing. *)
Definition item (k : K) (o : option V) : list (K * V) := match o with Some v => [(k, v)] | None => [] end.
Lemma dget_dupdate_item d k o k' :
  dget k' (dupdate d (item k o)) = if decide (k' = k) then match o with Some v => Some v | None => dget k' d end else dget k' d.
Proof. destruct o as [v|]; cbn; [rewrite dget_dset; by case_decide|]. by case_decide. Qed.

(** A dictionary is rebuilt from its own items. *)
Lemma dupdate_items d : wf d → dupdate [] d = d.
Proof.
  unfold wf, dupdate, keys. induction d as [|[k v] d IH] using rev_ind; [done|].
  rewrite fmap_app, foldl_app. cbn. intros [Hd [Hk _]]%NoDup_app. rewrite IH by done.
  apply dset_fresh. unfold keys. intros Hin. by apply (Hk k Hin); left.
Qed.

Lemma keys_in_dupdate d l k : k ∈ keys (dupdate d l) ↔ k ∈ keys d ∨ k ∈ l.*1.
Proof.
  unfold dupdate. revert d. induction l as [|[k' v] l IH]; intros d; cbn; [set_solver|].
  rewrite IH, keys_dset. case_decide; set_solver.
Qed.

Lemma dget_ddel_ne k k' d : k ≠ k' → dget k' (ddel k d) = dget k' d.
Proof.
  intros Hk. induction d as [|[k1 v] d IH]; [done|]. cbn [ddel dget]. repeat case_decide; simplify_eq; try done.
  - cbn [dget]. by rewrite decide_True.
  - cbn [dget]. rewrite decide_False by done. exact IH.
Qed.
Lemma dget_ddel_eq k d : wf d → dget k (ddel k d) = None.
Proof.
  unfold wf, keys. induction d as [|[k1 v] d IH]; [done|]. cbn [fmap list_fmap ddel fst].
  intros [Hk Hd]%NoDup_cons. case_decide; subst; [by apply dget_None|]. cbn [dget].
  rewrite decide_False by done. by apply IH.
Qed.
Lemma wf_ddel k d : wf d → wf (ddel k d).
Proof.
  unfold wf, keys. induction d as [|[k' v] d IH]; cbn; [done|].
  intros [Hk Hd]%NoDup_cons. case_decide; [done|]. cbn. constructor; [|auto].
  intros Hin. apply Hk. clear -Hin. induction d as [|[k2 v2] d IH]; cbn in *; [done|].
  case_decide; set_solver.
Qed.
End dict.

(** The finite map that a dictionary denotes. *)
Section to_gmap.
Context {K V : Type} `{Countable K}.
Implicit Types (k : K) (v : V) (d : dict K V).

Fixpoint to_gmap d : gmap K V :=
  match d with [] => ∅ | (k, v) :: d' => <[k := v]> (to_gmap d') end.

Lemma to_gmap_lookup d k : to_gmap d !! k = dget k d.
Proof using All.
  induction d as [|[k' v] d IH]; cbn; [apply lookup_empty|].
  case_decide; subst; [apply lookup_insert_eq|]. by rewrite lookup_insert_ne.
Qed.

Lemma to_gmap_dset k v d : to_gmap (dset k v d) = <[k := v]> (to_gmap d).
Proof using All.
  induction d as [|[k' v'] d IH]; cbn; [done|]. case_decide; subst; cbn.
  - by rewrite insert_insert_eq.
  - rewrite IH. by rewrite insert_insert_ne.
Qed.


Lemma dom_to_gmap d : dom (to_gmap d) = list_to_set (keys d).
Proof using All.
  apply set_eq. intros k. rewrite elem_of_dom, to_gmap_lookup, dget_keys.
  by rewrite elem_of_list_to_set.
Qed.
End to_gmap.

#[export] Hint Resolve wf_dset wf_dsetdefault wf_dupdate wf_nil wf_ddel : py.
#[export] Hint Rewrite @dget_dset_eq @dget_dset_ne using done : pyrw.
