(* ===== verification/PyFloat.v ===== *)
(** * Floating point numbers

    A float of Python is a binary64 of IEEE 754, as specified by [SpecFloat]: division and
    product round to the nearest, ties to even.  The quotient of two integers below 2^53 is
    that of their floats.  [fixed1] is the format [.1f]. *)

From S2P Require Import Prelude PyStr.
From Stdlib Require Import SpecFloat.
From stdpp Require Import options.
Local Open Scope Z_scope.

Definition float : Set := spec_float.
Definition of_Z (n : Z) : float := binary_normalize 53 1024 n 0 false.
Definition fdiv : float → float → float := SFdiv 53 1024.
Definition fmul : float → float → float := SFmul 53 1024.
Definition is_zero (x : float) : bool := match x with S754_zero _ => true | _ => false end.
(** [min(x, y)] *)
Definition fmin (x y : float) : float := if SFltb y x then y else x.

(** [a / b] rounded to the nearest, ties to even. *)
Definition div_half_even (a b : Z) : Z :=
  let q := a / b in
  let r := a mod b in
  if 2 * r <? b then q else if b <? 2 * r then q + 1 else if Z.even q then q else q + 1.
(** The nearest number of tenths. *)
Definition tenths (m : positive) (e : Z) : Z :=
  if 0 <=? e then Zpos m * 2 ^ e * 10 else div_half_even (Zpos m * 10) (2 ^ (- e)).
Definition tenths_text (t : Z) : string := (str_of_Z (t / 10) +:+ "." +:+ str_of_Z (t mod 10))%string.
Definition fixed1 (x : float) : string :=
  match x with
  | S754_zero s => if s then "-0.0" else "0.0"
  | S754_infinity s => if s then "-inf" else "inf"
  | S754_nan => "nan"
  | S754_finite s m e => ((if s then "-" else "") +:+ tenths_text (tenths m e))%string
  end.

(** [a / b if b else 0.0] *)
Definition ratio (a b : Z) : float :=
  if decide (b = 0) then S754_zero false else fdiv (of_Z a) (of_Z b).
(** [a / b * 100 if b else 0.0] *)
Definition percentage (a b : Z) : float :=
  if decide (b = 0) then S754_zero false else fmul (ratio a b) (of_Z 100).

Example fixed1_values :
  map (λ p, fixed1 (percentage p.1 p.2)) [(1, 3); (2, 3); (0, 7); (7, 7); (1, 2000); (1, 400); (5, 0)]
  = ["33.3"; "66.7"; "0.0"; "100.0"; "0.1"; "0.2"; "0.0"]%string.
Proof. vm_compute. reflexivity. Qed.

(** ** Digits *)

Lemma digits_log2 p : Zpos (digits2_pos p) = Z.log2 (Zpos p) + 1.
Proof.
  induction p as [p IH|p IH|]; cbn [digits2_pos]; [..|done]; rewrite Pos2Z.inj_succ, IH.
  - rewrite Pos2Z.inj_xI, Z.log2_succ_double by done. lia.
  - rewrite Pos2Z.inj_xO, Z.log2_double by done. lia.
Qed.
Lemma iter_xO p d : Zpos (Pos.iter xO p d) = Zpos p * 2 ^ Zpos d.
Proof.
  induction d as [|d IH] using Pos.peano_ind; [cbn; lia|].
  rewrite Pos.iter_succ, Pos2Z.inj_xO, IH, Pos2Z.inj_succ, Z.pow_succ_r by lia. lia.
Qed.

(** ** Rounding *)

(** Nothing was cut off. *)
Definition exact (r : shr_record) : bool := negb (shr_r r) && negb (shr_s r).
(** [r'] is [r] with [d] of [2 ^ n] cut off. *)
Definition cut (n : Z) (r r' : shr_record) : Prop :=
  ∃ d, shr_m r = shr_m r' * 2 ^ n + d ∧ 0 ≤ d < 2 ^ n ∧ 0 ≤ shr_m r'
    ∧ (exact r' = true ↔ exact r = true ∧ d = 0).
Lemma cut_1 r : 0 ≤ shr_m r → cut 1 r (shr_1 r).
Proof.
  destruct r as [m b s]. unfold cut, exact. cbn [shr_m]. intros Hm.
  destruct m as [|[p|p|]|]; cbn [shr_1 shr_m shr_r shr_s]; [exists 0|exists 1|exists 0|exists 1|lia];
    destruct b, s; cbn; (split; [lia|]); (split; [lia|]); (split; [lia|]); naive_solver lia.
Qed.
Lemma cut_trans n k r r1 r2 : 0 ≤ n → 0 ≤ k → cut n r r1 → cut k r1 r2 → cut (n + k) r r2.
Proof.
  intros Hn Hk (d&Hd&Hb&H1&E1) (d'&Hd'&Hb'&H2&E2). exists (d' * 2 ^ n + d).
  rewrite Z.pow_add_r by done.
  assert (0 < 2 ^ n) by (by apply Z.pow_pos_nonneg). assert (0 < 2 ^ k) by (by apply Z.pow_pos_nonneg).
  split; [rewrite Hd, Hd'; ring|]. split; [nia|]. split; [done|]. rewrite E2, E1.
  split; [intros [[? ->] ->]; split; [done|lia]|]. intros [? ?]. split; [split; [done|nia]|nia].
Qed.
Lemma cut_iter p r : 0 ≤ shr_m r → cut (Zpos p) r (iter_pos shr_1 p r).
Proof.
  revert r. induction p as [p IH|p IH|]; intros r Hr; cbn [iter_pos].
  - pose proof (cut_1 r Hr) as H1. assert (0 ≤ shr_m (shr_1 r)) as Hr1 by by destruct H1 as (?&_&_&?&_).
    pose proof (IH _ Hr1) as H2. assert (0 ≤ shr_m (iter_pos shr_1 p (shr_1 r))) as Hr2
      by by destruct H2 as (?&_&_&?&_).
    pose proof (IH _ Hr2) as H3. rewrite Pos2Z.inj_xI.
    replace (2 * Zpos p + 1) with (1 + (Zpos p + Zpos p)) by lia.
    eapply cut_trans; [lia|lia|exact H1|]. by eapply cut_trans; [lia|lia|exact H2|].
  - pose proof (IH _ Hr) as H2. assert (0 ≤ shr_m (iter_pos shr_1 p r)) as Hr2
      by by destruct H2 as (?&_&_&?&_).
    pose proof (IH _ Hr2) as H3. rewrite Pos2Z.inj_xO.
    replace (2 * Zpos p) with (Zpos p + Zpos p) by lia. by eapply cut_trans; [lia|lia|exact H2|].
  - by apply cut_1.
Qed.
Lemma round_up r : round_nearest_even (shr_m r) (loc_of_shr_record r) = shr_m r
  ∨ round_nearest_even (shr_m r) (loc_of_shr_record r) = shr_m r + 1 ∧ exact r = false.
Proof.
  destruct r as [m [] []]; cbn; auto. destruct (Z.even m); auto.
Qed.

(** A float that is not negative, in units of the smallest. *)
Definition scaled (x : float) : Z :=
  match x with S754_finite false m e => Zpos m * 2 ^ (e + 1074) | _ => 0 end.

Lemma shr_fexp_none m e : 0 < m → -1074 ≤ e → m < 2 ^ 53 →
  shr_fexp 53 1024 m e loc_Exact = (Build_shr_record m false false, e).
Proof.
  intros Hm He Hb. unfold shr_fexp, shr, fexp, emin. destruct m as [|p|]; [lia| |lia].
  cbn [Zdigits2 shr_record_of_loc]. rewrite digits_log2.
  assert (Z.log2 (Zpos p) < 53) by by apply Z.log2_lt_pow2.
  destruct (Z.max _ _ - e) eqn:E; [done|lia|done].
Qed.
(** The value of the last step, which cuts nothing off. *)
Lemma last_step M g : 0 < M ≤ 2 ^ 53 → -1074 ≤ g ≤ 900 →
  ∃ m e, g ≤ e ≤ g + 1
    ∧ (let '(r, e) := shr_fexp 53 1024 M g loc_Exact in
       match shr_m r with
       | Z0 => S754_zero false
       | Zpos m => if e <=? 1024 - 53 then S754_finite false m e else S754_infinity false
       | _ => S754_nan
       end) = S754_finite false m e
    ∧ Zpos m * 2 ^ (e + 1074) = M * 2 ^ (g + 1074).
Proof.
  intros [HM Hb] Hg. destruct (decide (M = 2 ^ 53)) as [->|].
  - unfold shr_fexp. replace (fexp 53 1024 (Zdigits2 (2 ^ 53) + g) - g) with 1
      by (change (Zdigits2 (2 ^ 53)) with 54; unfold fexp, emin; lia).
    exists (2 ^ 52)%positive, (g + 1). split; [lia|]. split.
    + change (shr (shr_record_of_loc (2 ^ 53) loc_Exact) g 1)
        with (Build_shr_record (Zpos (2 ^ 52)) false false, g + 1).
      cbn [shr_m]. destruct (g + 1 <=? 1024 - 53) eqn:E; [done|lia].
    + replace (g + 1 + 1074) with (1 + (g + 1074)) by lia. rewrite Z.pow_add_r by lia. lia.
  - rewrite shr_fexp_none by lia. destruct M as [|m|]; [lia| |lia]. exists m, g. split; [lia|].
    split; [|done]. cbn [shr_m]. destruct (g <=? 1024 - 53) eqn:E; [done|lia].
Qed.
Lemma round_spec mx ex lx :
  0 < mx → -1074 ≤ ex → Z.log2 mx + 1 + ex ≤ 53 →
  let g := Z.max ex (Z.log2 mx - 52 + ex) in
  ∃ m e, binary_round_aux 53 1024 false mx ex lx = S754_finite false m e ∧ g ≤ e ≤ g + 1
    ∧ Zpos m * 2 ^ (e + 1074) ≤ mx * 2 ^ (ex + 1074) + 2 ^ (g + 1074)
    ∧ (mx + 1) * 2 ^ (ex + 1074) ≤ Zpos m * 2 ^ (e + 1074) + 2 ^ (g + 1074)
    ∧ (lx = loc_Exact → mx < 2 ^ 53 → Zpos m * 2 ^ (e + 1074) = mx * 2 ^ (ex + 1074)).
Proof.
  intros Hm Hex Hd g. pose proof (Z.log2_nonneg mx). unfold binary_round_aux, shr_fexp at 1.
  set (r0 := shr_record_of_loc mx lx).
  assert (shr_m r0 = mx) as Hr0 by (by destruct lx as [|[]]).
  assert (∃ r, shr r0 ex (fexp 53 1024 (Zdigits2 mx + ex) - ex) = (r, g) ∧ cut (g - ex) r0 r
               ∧ 0 < shr_m r < 2 ^ 53) as (r&->&(d&Hcut&Hdb&Hr&Hex')&Hrb).
  { assert (Zdigits2 mx = Z.log2 mx + 1) as -> by (destruct mx; [lia|apply digits_log2|lia]).
    unfold shr, fexp, emin. destruct (Z.log2_spec mx Hm) as [Hlo Hhi].
    destruct (Z.max _ _ - ex) as [|p|p] eqn:E.
    - exists r0. assert (g = ex) as -> by lia. split; [done|]. rewrite Z.sub_diag, Hr0. split.
      + exists 0. rewrite Hr0. split; [lia|]. split; [lia|]. split; [lia|]. naive_solver.
      + split; [done|]. eapply Z.lt_le_trans; [exact Hhi|]. apply Z.pow_le_mono_r; lia.
    - eexists. assert (ex + Zpos p = g) as -> by lia. split; [done|].
      assert (g - ex = Zpos p) as -> by lia. assert (Z.log2 mx = 52 + Zpos p) as El by lia.
      pose proof (cut_iter p r0 ltac:(lia)) as Hc. split; [exact Hc|].
      destruct Hc as (d&Hd'&Hdb&Hpos&_). rewrite Hr0 in Hd'. rewrite El in Hlo, Hhi.
      rewrite Z.pow_add_r in Hlo by lia. rewrite Z.pow_succ_r, Z.pow_add_r in Hhi by lia.
      assert (0 < 2 ^ Zpos p) by (by apply Z.pow_pos_nonneg). split; nia.
    - exists r0. assert (g = ex) as -> by lia. split; [done|]. rewrite Z.sub_diag, Hr0. split.
      + exists 0. rewrite Hr0. split; [lia|]. split; [lia|]. split; [lia|]. naive_solver.
      + split; [done|]. eapply Z.lt_le_trans; [exact Hhi|]. apply Z.pow_le_mono_r; lia. }
  set (M := round_nearest_even _ _).
  destruct (last_step M g) as (m&e&Hge&Hval&Hsc).
  - unfold M. destruct (round_up r) as [->|[-> _]]; lia.
  - lia.
  - exists m, e. split; [exact Hval|]. split; [done|]. rewrite Hsc, Hr0 in *.
    assert (2 ^ (g + 1074) = 2 ^ (g - ex) * 2 ^ (ex + 1074)) as Eg
      by (rewrite <- Z.pow_add_r by lia; f_equal; lia).
    assert (0 < 2 ^ (ex + 1074)) by (apply Z.pow_pos_nonneg; lia).
    assert (0 < 2 ^ (g - ex)) by (apply Z.pow_pos_nonneg; lia).
    assert (shr_m r ≤ M ≤ shr_m r + 1) as HM by (unfold M; destruct (round_up r) as [->|[-> _]]; lia).
    rewrite Eg. split; [nia|]. split; [nia|]. intros -> Hsmall.
    assert (Z.log2 mx < 53) by by apply Z.log2_lt_pow2. assert (g = ex) as E by lia.
    rewrite E, Z.sub_diag in *. assert (d = 0) as -> by lia.
    assert (exact r = true) as Hx by (apply Hex'; by unfold r0).
    assert (M = shr_m r) as -> by (unfold M; destruct (round_up r) as [->|[_ Hf]]; [done|congruence]).
    rewrite Hcut. lia.
Qed.

(** ** Accuracy of percentages *)

Lemma log2_scaled m e n : -1074 ≤ e → 0 < n → Zpos m * 2 ^ (e + 1074) = n * 2 ^ 1074 →
  Z.log2 (Zpos m) + e = Z.log2 n.
Proof.
  intros He Hn H. apply (f_equal Z.log2) in H. rewrite !Z.log2_mul_pow2 in H by lia. lia.
Qed.
Lemma of_Z_spec n : 0 < n < 2 ^ 53 →
  ∃ m e, of_Z n = S754_finite false m e ∧ -52 ≤ e ≤ 1 ∧ Zpos m * 2 ^ (e + 1074) = n * 2 ^ 1074.
Proof.
  intros [Hn Hb]. destruct n as [|p|]; [lia| |lia]. unfold of_Z, binary_normalize, binary_round.
  rewrite digits_log2. assert (Z.log2 (Zpos p) < 53) by by apply Z.log2_lt_pow2.
  pose proof (Z.log2_nonneg (Zpos p)).
  replace (fexp 53 1024 (Z.log2 (Zpos p) + 1 + 0)) with (Z.log2 (Zpos p) - 52) by (unfold fexp, emin; lia).
  set (k := Z.log2 (Zpos p) - 52).
  assert (∃ q, shl_align p 0 k = (q, k) ∧ Zpos q = Zpos p * 2 ^ (- k)) as (q&->&Hq).
  { unfold shl_align. rewrite Z.sub_0_r. destruct k as [|r|r] eqn:E; [|lia|].
    - exists p. split; [done|]. lia.
    - eexists. split; [done|]. by rewrite iter_xO. }
  assert (Z.log2 (Zpos q) = 52) as Hlq by (rewrite Hq, Z.log2_mul_pow2 by lia; lia).
  destruct (round_spec (Zpos q) k loc_Exact) as (m&e&Hx&Hge&_&_&Hv); [lia..|].
  exists m, e. split; [exact Hx|]. split; [lia|]. rewrite Hv; [|done|].
  - rewrite Hq, <- Z.mul_assoc, <- Z.pow_add_r by lia. do 2 f_equal. lia.
  - apply Z.log2_lt_pow2; lia.
Qed.

(** The integer quotient that is rounded. *)
Lemma div_core m1 e1 m2 e2 :
  let l := Z.log2 (Zpos m1) + e1 - (Z.log2 (Zpos m2) + e2) in
  -53 ≤ l ≤ 0 → -53 ≤ e1 - e2 →
  ∃ q e' r s, SFdiv_core_binary 53 1024 (Zpos m1) e1 (Zpos m2) e2 = (q, e', new_location (Zpos m2) r)
    ∧ Zpos m1 * 2 ^ s = Zpos m2 * q + r ∧ 0 ≤ r < Zpos m2 ∧ 0 < q
    ∧ s = e1 - e2 - e' ∧ 0 ≤ s ∧ -110 ≤ e' ≤ -53 ∧ Z.log2 q + e' ≤ 0.
Proof.
  intros l Hl He. unfold SFdiv_core_binary. cbn [Zdigits2]. rewrite !digits_log2.
  set (e' := Z.min _ _). set (s := e1 - e2 - e').
  assert (e' = Z.min (l - 53) (e1 - e2)) as Ee' by (unfold e', fexp, emin; lia). clearbody e'.
  replace (match s with | Z0 => Zpos m1 | Zpos _ => Z.shiftl (Zpos m1) s | Zneg _ => 0 end)
    with (Zpos m1 * 2 ^ s)
    by (destruct s as [|p|] eqn:E; [lia|by rewrite Z.shiftl_mul_pow2|lia]).
  pose proof (Z_div_mod (Zpos m1 * 2 ^ s) (Zpos m2) ltac:(lia)) as Hqr.
  destruct (Z.div_eucl _ _) as [q r]. destruct Hqr as [Hq Hr].
  assert (0 < 2 ^ s) by (apply Z.pow_pos_nonneg; lia).
  assert (Z.log2 (Zpos m1 * 2 ^ s) = Z.log2 (Zpos m1) + s) as Els
    by (rewrite Z.log2_mul_pow2 by lia; lia).
  assert (0 < q) as Hq0.
  { assert (q ≠ 0) as Hne; [|assert (0 ≤ q) by nia; lia]. intros ->.
    assert (Z.log2 (Zpos m1 * 2 ^ s) ≤ Z.log2 (Zpos m2)) by (apply Z.log2_le_mono; lia). lia. }
  assert (Z.log2 q + Z.log2 (Zpos m2) ≤ Z.log2 (Zpos m1) + s) as Hlq.
  { rewrite <- Els. etrans; [apply Z.log2_mul_below; lia|]. apply Z.log2_le_mono. nia. }
  exists q, e', r, s. split; [done|]. split; [done|]. unfold l in *. lia.
Qed.
(** A bound on the quotient of the mantissas is one on the quotient. *)
Lemma scale_quotient k m2 n1 e1 e2 s e' a b :
  s = e1 - e2 - e' → -1074 ≤ e1 → -1074 ≤ e2 → -1074 ≤ e' → 0 ≤ s →
  n1 * 2 ^ (e1 + 1074) = a * 2 ^ 1074 → m2 * 2 ^ (e2 + 1074) = b * 2 ^ 1074 →
  (m2 * k ≤ n1 * 2 ^ s → b * (k * 2 ^ (e' + 1074)) ≤ a * 2 ^ 1074)
  ∧ (n1 * 2 ^ s ≤ m2 * k → a * 2 ^ 1074 ≤ b * (k * 2 ^ (e' + 1074))).
Proof.
  intros Hs He1 He2 He' Hs0 H1 H2.
  set (E := 2 ^ (e' + 1074)). assert (0 < E) as HE by (apply Z.pow_pos_nonneg; lia).
  set (F := 2 ^ (e2 + 1074)) in *. assert (0 < F) as HF by (apply Z.pow_pos_nonneg; lia).
  assert (0 < 2 ^ 1074) as HU by by apply Z.pow_pos_nonneg.
  assert (n1 * 2 ^ s * (F * E) = a * 2 ^ 1074 * 2 ^ 1074) as El.
  { rewrite <- H1. unfold E, F. rewrite <- !Z.mul_assoc, <- !Z.pow_add_r by lia. do 2 f_equal. lia. }
  assert (m2 * k * (F * E) = b * (k * E) * 2 ^ 1074) as Er.
  { replace (m2 * k * (F * E)) with (m2 * F * (k * E)) by ring. rewrite H2. ring. }
  assert (0 ≤ F * E) by (by apply Z.lt_le_incl, Z.mul_pos_pos).
  split; intros Hk; apply (Z.mul_le_mono_pos_r _ _ (2 ^ 1074) HU); rewrite <- El, <- Er;
    by apply Z.mul_le_mono_nonneg_r.
Qed.
Lemma fdiv_spec a b : 0 < a ≤ b → b < 2 ^ 53 →
  ∃ m e, fdiv (of_Z a) (of_Z b) = S754_finite false m e ∧ -200 ≤ e ≤ 0
    ∧ Z.abs (Zpos m * 2 ^ (e + 1074) * b - a * 2 ^ 1074) ≤ b * 2 ^ 1022.
Proof.
  intros Ha Hb. destruct (of_Z_spec a) as (m1&e1&->&He1&H1); [lia|].
  destruct (of_Z_spec b) as (m2&e2&->&He2&H2); [lia|].
  pose proof (log2_scaled m1 e1 a ltac:(lia) ltac:(lia) H1) as Hl1.
  pose proof (log2_scaled m2 e2 b ltac:(lia) ltac:(lia) H2) as Hl2.
  assert (Z.log2 a ≤ Z.log2 b) by (apply Z.log2_le_mono; lia).
  assert (Z.log2 b < 53) by (apply Z.log2_lt_pow2; lia). pose proof (Z.log2_nonneg a).
  unfold fdiv, SFdiv. destruct (div_core m1 e1 m2 e2) as (q&e'&r&s&->&Hq&Hr&Hq0&Hs&Hs0&He'&Hlq); [lia..|].
  destruct (round_spec q e' (new_location (Zpos m2) r)) as (m&e&Hx&Hge&Hup&Hlo&_); [lia..|].
  exists m, e. split; [exact Hx|]. split; [lia|].
  destruct (scale_quotient q (Zpos m2) (Zpos m1) e1 e2 s e' a b) as [Hlow _]; [lia..|].
  destruct (scale_quotient (q + 1) (Zpos m2) (Zpos m1) e1 e2 s e' a b) as [_ Hhigh]; [lia..|].
  specialize (Hlow ltac:(lia)). specialize (Hhigh ltac:(lia)).
  assert (2 ^ (Z.max e' (Z.log2 q - 52 + e') + 1074) ≤ 2 ^ 1022) as Hg by (apply Z.pow_le_mono_r; lia).
  set (G := 2 ^ (Z.max e' _ + 1074)) in *. set (X := Zpos m * 2 ^ (e + 1074)) in *.
  set (E := 2 ^ (e' + 1074)) in *. generalize dependent (2 ^ 1022). generalize dependent (2 ^ 1074).
  intros U _ _ Hlow Hhigh V HG.
  assert (b * X ≤ b * (q * E + G)) by (apply Z.mul_le_mono_nonneg_l; lia).
  assert (b * ((q + 1) * E) ≤ b * (X + G)) by (apply Z.mul_le_mono_nonneg_l; lia).
  assert (b * G ≤ b * V) by (apply Z.mul_le_mono_nonneg_l; lia).
  apply Z.abs_le. split; lia.
Qed.
Lemma times_100 m e : -200 ≤ e ≤ 0 → Zpos m * 2 ^ (e + 1074) ≤ 2 ^ 1075 →
  ∃ m' e', fmul (S754_finite false m e) (of_Z 100) = S754_finite false m' e' ∧ -1074 ≤ e'
    ∧ Z.abs (Zpos m' * 2 ^ (e' + 1074) - 100 * (Zpos m * 2 ^ (e + 1074))) ≤ 2 ^ 1029.
Proof.
  intros He Hx. change (of_Z 100) with (S754_finite false 7036874417766400 (-46)).
  unfold fmul, SFmul. set (P := (m * 7036874417766400)%positive).
  assert (Zpos P * 2 ^ (e + -46 + 1074) = 100 * (Zpos m * 2 ^ (e + 1074))) as HP.
  { unfold P. rewrite Pos2Z.inj_mul. replace (e + 1074) with (46 + (e + -46 + 1074)) by lia.
    rewrite (Z.pow_add_r 2 46) by lia. change (Zpos 7036874417766400) with (100 * 2 ^ 46). ring. }
  assert (Z.log2 (Zpos P) + (e + -46) ≤ 7) as Hl.
  { assert (Z.log2 (Zpos P * 2 ^ (e + -46 + 1074)) < 1082) as H.
    { apply Z.log2_lt_pow2; rewrite HP; [lia|]. change (2 ^ 1082) with (128 * 2 ^ 1075). lia. }
    rewrite Z.log2_mul_pow2 in H by lia. lia. }
  destruct (round_spec (Zpos P) (e + -46) loc_Exact) as (m'&e'&Hy&Hge&Hup&Hlo&_); [lia..|].
  exists m', e'. split; [exact Hy|]. split; [lia|]. rewrite HP in Hup.
  assert (2 ^ (Z.max (e + -46) (Z.log2 (Zpos P) - 52 + (e + -46)) + 1074) ≤ 2 ^ 1029) as Hg
    by (apply Z.pow_le_mono_r; lia).
  assert (0 < 2 ^ (e + -46 + 1074)) by (apply Z.pow_pos_nonneg; lia).
  apply Z.abs_le. split; lia.
Qed.

Lemma div_half_even_spec a b : 0 < b → 2 * Z.abs (div_half_even a b * b - a) ≤ b.
Proof.
  intros Hb. unfold div_half_even. pose proof (Z.div_mod a b ltac:(lia)).
  pose proof (Z.mod_pos_bound a b Hb). set (q := a / b) in *. set (r := a mod b) in *.
  repeat case_match; nia.
Qed.
Lemma tenths_spec m e : -1074 ≤ e →
  2 * Z.abs (tenths m e * 2 ^ 1074 - 10 * (Zpos m * 2 ^ (e + 1074))) ≤ 2 ^ 1074.
Proof.
  intros He. unfold tenths. destruct (Z.leb_spec 0 e).
  - rewrite Z.pow_add_r by lia.
    replace (_ - _) with 0 by ring. rewrite Z.mul_0_r. by apply Z.pow_nonneg.
  - assert (0 < 2 ^ (- e)) as Hp by (apply Z.pow_pos_nonneg; lia).
    pose proof (div_half_even_spec (Zpos m * 10) (2 ^ (- e)) Hp) as H'.
    assert (2 ^ 1074 = 2 ^ (- e) * 2 ^ (e + 1074)) as -> by (rewrite <- Z.pow_add_r by lia; f_equal; lia).
    assert (0 < 2 ^ (e + 1074)) by (apply Z.pow_pos_nonneg; lia).
    set (t := div_half_even _ _) in *. set (E := 2 ^ (e + 1074)) in *.
    replace (t * (2 ^ (- e) * E) - 10 * (Zpos m * E)) with ((t * 2 ^ (- e) - Zpos m * 10) * E) by ring.
    rewrite Z.abs_mul, (Z.abs_eq E) by lia. nia.
Qed.

Lemma abs_scale x u b : 0 < b → Z.abs x ≤ u → Z.abs (x * b) ≤ u * b.
Proof. intros Hb H. rewrite Z.abs_mul, (Z.abs_eq b) by lia. apply Z.mul_le_mono_nonneg_r; lia. Qed.
(** a percentage is printed as a number of tenths from 0.0 to 100.0, within 0.051 of
    the exact one. *)
Lemma percentage_accurate a b :
  0 ≤ a ≤ b → 0 < b < 2 ^ 53 →
  ∃ t, fixed1 (percentage a b) = tenths_text t ∧ 0 ≤ t ≤ 1000
    ∧ 100 * Z.abs (t * b - 1000 * a) ≤ 51 * b.
Proof.
  intros Hab Hb. unfold percentage, ratio. rewrite !decide_False by lia.
  destruct (decide (a = 0)) as [->|Ha].
  { exists 0. change (of_Z 0) with (S754_zero false).
    destruct (of_Z_spec b) as (m&e&->&_); [lia|]. split; [done|]. lia. }
  destruct (fdiv_spec a b) as (m&e&->&He&Hx); [lia|lia|].
  set (X := Zpos m * 2 ^ (e + 1074)) in *.
  destruct (times_100 m e He) as (m'&e'&->&He'&Hy).
  { fold X. assert (X * b ≤ 2 ^ 1075 * b) as H; [|by apply Z.mul_le_mono_pos_r in H; lia].
    lia. }
  fold X in Hy. set (Y := Zpos m' * 2 ^ (e' + 1074)) in *.
  pose proof (tenths_spec m' e' He') as Ht. fold Y in Ht. exists (tenths m' e').
  split; [done|]. set (t := tenths m' e') in *.
  assert (0 ≤ Y) by (unfold Y; apply Z.mul_nonneg_nonneg; [lia|by apply Z.pow_nonneg]).
  assert (Z.abs ((Y - 100 * X) * b) ≤ 2 ^ 1029 * b) as Hy' by (apply abs_scale; [lia|done]).
  assert (Z.abs ((2 * t * 2 ^ 1074 - 20 * Y) * b) ≤ 2 ^ 1074 * b) as Ht' by (apply abs_scale; lia).
  assert (100 * Z.abs (t * b - 1000 * a) ≤ 51 * b) as Hfin.
  { rewrite Z.mul_sub_distr_r in Hy', Ht'. lia. }
  split; [|done]. clear - Hfin Hab Hb. split.
  - destruct (Z.le_gt_cases 0 t); [done|]. assert (t * b ≤ -1 * b) by (apply Z.mul_le_mono_nonneg_r; lia). lia.
  - destruct (Z.le_gt_cases t 1000); [done|].
    assert (1001 * b ≤ t * b) by (apply Z.mul_le_mono_nonneg_r; lia). lia.
Qed.
