(* ===== verification/Json.v ===== *)
(** * JSON values

    What [json.loads] gives and the sniffer goes through: the values, their truth,
    [str], [json.dumps], and the decimal floats of lease durations.  Floats are exact
    decimals here, which is what [float(s)] and [str] show of numbers of up to 15
    digits written without an exponent. *)

From S2P Require Import Prelude PyStr PyDict.
From stdpp Require Import options.
Local Open Scope string_scope.

(** ** Floats *)

(** [f_mant / 10 ^ f_frac] *)
Record pyfloat := PyFloat { f_mant : Z; f_frac : nat }.

#[export] Instance pyfloat_eq_dec : EqDecision pyfloat.
Proof. solve_decision. Defined.

Definition float_of_Z (z : Z) : pyfloat := PyFloat z 0.
Definition float_nonzero (f : pyfloat) : bool := negb (f_mant f =? 0)%Z.
Definition float_trunc (f : pyfloat) : Z := Z.quot (f_mant f) (10 ^ Z.of_nat (f_frac f)).

Definition digits_or (e : exn) (s : string) : result Z :=
  if sforall is_digit s then
    match s with "" => Raise e | _ => or_raise e (digits_go 10 0 false s) end
  else Raise e.

(** [float(s)] for the literals [digits], [digits.], [.digits] and [digits.digits] with
    an optional sign. *)
Definition float_of_string (s : string) : result pyfloat :=
  let unsigned (r : string) : result pyfloat :=
    match split "." r with
    | [a] => z ← digits_or ValueError a; Ok (PyFloat z 0)
    | [a; b] =>
        z ← digits_or ValueError (a +:+ b);
        Ok (PyFloat z (String.length b))
    | _ => Raise ValueError
    end in
  match strip s with
  | String "-" r => f ← unsigned r; Ok (PyFloat (- f_mant f) (f_frac f))
  | String "+" r => unsigned r
  | r => unsigned r
  end.

(** The fraction digits without the zeros at their end; at least one digit. *)
Fixpoint trim_zeros (frac : nat) (m : Z) : nat * Z :=
  match frac with
  | 0 => (0, m)
  | S f => if (Z.rem m 10 =? 0)%Z then trim_zeros f (Z.quot m 10) else (frac, m)
  end.
(** [str(f)] *)
Definition float_str (f : pyfloat) : string :=
  let '(frac, m) := trim_zeros (f_frac f) (Z.abs (f_mant f)) in
  let p := (10 ^ Z.of_nat frac)%Z in
  let sign := if (f_mant f <? 0)%Z then "-" else "" in
  sign +:+ str_of_Z (m / p)%Z +:+ "." +:+
  (if decide (frac = 0) then "0" else pad0 frac (str_of_Z (m mod p)%Z)).

(** ** Values *)

#[warnings="-register-all"]
Inductive json :=
| JNull
| JBool (b : bool)
| JInt (z : Z)
| JFloat (f : pyfloat)
| JStr (s : string)
| JList (l : list json)
| JObj (d : list (string * json)).

(** [bool(v)] *)
Definition truthy (v : json) : bool :=
  match v with
  | JNull => false
  | JBool b => b
  | JInt z => negb (z =? 0)%Z
  | JFloat f => float_nonzero f
  | JStr s => negb (bool_decide (s = ""))
  | JList l => negb (bool_decide (length l = 0))
  | JObj d => negb (bool_decide (length d = 0))
  end.

(** [v.get(k, default)]; only dictionaries have it. *)
Definition jget (k : string) (default : json) (v : json) : result json :=
  match v with
  | JObj d => Ok (match dget k d with Some x => x | None => default end)
  | _ => Raise AttributeError
  end.

(** [v[0]] of a list *)
Definition first_of (v : json) : result json :=
  match v with JList l => or_raise IndexError (head l) | _ => Ok v end.

(** ** Text *)

Definition hex2 (c : ascii) : string := pad0 2 (hex_of_N (code c)).
Definition quote_char : ascii := ascii_of_nat 34.
Definition apostrophe : ascii := ascii_of_nat 39.
Definition backslash : ascii := ascii_of_nat 92.

Fixpoint concat_map (f : ascii → string) (s : string) : string :=
  match s with "" => "" | String c s' => f c +:+ concat_map f s' end.

(** The escapes of [repr(str)]. *)
Definition repr_char (q : ascii) (c : ascii) : string :=
  if Ascii.eqb c backslash || Ascii.eqb c q then String backslash (String c "")
  else if (code c =? 10)%N then String backslash "n"
  else if (code c =? 13)%N then String backslash "r"
  else if (code c =? 9)%N then String backslash "t"
  else if (code c <? 32)%N || (code c =? 127)%N then String backslash ("x" +:+ hex2 c)
  else String c "".
Definition repr_str (s : string) : string :=
  let q := if contains (String apostrophe "") s && negb (contains (String quote_char "") s)
           then quote_char else apostrophe in
  String q (concat_map (repr_char q) s +:+ String q "").

Definition py_bool (b : bool) : string := if b then "True" else "False".

Fixpoint repr (v : json) : string :=
  match v with
  | JNull => "None"
  | JBool b => py_bool b
  | JInt z => str_of_Z z
  | JFloat f => float_str f
  | JStr s => repr_str s
  | JList l => "[" +:+ join ", " (map repr l) +:+ "]"
  | JObj d => "{" +:+ join ", " (map (λ p, repr_str p.1 +:+ ": " +:+ repr p.2) d) +:+ "}"
  end.
(** [str(v)] *)
Definition str_of (v : json) : string := match v with JStr s => s | _ => repr v end.

(** The escapes of [json.dumps], ASCII only. *)
Definition dump_char (c : ascii) : string :=
  if Ascii.eqb c backslash || Ascii.eqb c quote_char then String backslash (String c "")
  else if (code c =? 10)%N then String backslash "n"
  else if (code c =? 13)%N then String backslash "r"
  else if (code c =? 9)%N then String backslash "t"
  else if (code c =? 8)%N then String backslash "b"
  else if (code c =? 12)%N then String backslash "f"
  else if (code c <? 32)%N || (126 <? code c)%N then String backslash ("u00" +:+ hex2 c)
  else String c "".
Definition dump_str (s : string) : string :=
  String quote_char (concat_map dump_char s +:+ String quote_char "").

Fixpoint dumps (v : json) : string :=
  match v with
  | JNull => "null"
  | JBool b => if b then "true" else "false"
  | JInt z => str_of_Z z
  | JFloat f => float_str f
  | JStr s => dump_str s
  | JList l => "[" +:+ join ", " (map dumps l) +:+ "]"
  | JObj d => "{" +:+ join ", " (map (λ p, dump_str p.1 +:+ ": " +:+ dumps p.2) d) +:+ "}"
  end.

(** ** Going through a value *)

(** The dictionaries of a value, each before those inside it, in order. *)
Fixpoint nodes (v : json) : list (list (string * json)) :=
  match v with
  | JObj d => d :: flat_map (λ p, nodes p.2) d
  | JList l => flat_map nodes l
  | _ => []
  end.

(** An induction principle that reaches the elements of lists and dictionaries. *)
Section json_induction.
Context (P : json → Prop)
  (Hnull : P JNull) (Hbool : ∀ b, P (JBool b)) (Hint : ∀ z, P (JInt z))
  (Hfloat : ∀ f, P (JFloat f)) (Hstr : ∀ s, P (JStr s))
  (Hlist : ∀ l, Forall P l → P (JList l))
  (Hobj : ∀ d, Forall (λ p : string * json, P p.2) d → P (JObj d)).

Fixpoint json_nested_ind (v : json) : P v :=
  match v with
  | JNull => Hnull
  | JBool b => Hbool b
  | JInt z => Hint z
  | JFloat f => Hfloat f
  | JStr s => Hstr s
  | JList l =>
      Hlist l ((fix go (l : list json) : Forall P l :=
        match l with
        | [] => @List.Forall_nil _ P
        | x :: l' => @List.Forall_cons _ P x l' (json_nested_ind x) (go l')
        end) l)
  | JObj d =>
      Hobj d ((fix go (d : list (string * json)) : Forall (λ p, P p.2) d :=
        match d with
        | [] => @List.Forall_nil _ _
        | p :: d' => @List.Forall_cons _ (λ p, P p.2) p d' (json_nested_ind p.2) (go d')
        end) d)
  end.
End json_induction.
