(* ===== verification/JsonLoads.v ===== *)
(** * Reading JSON: [json.loads]

    The text is cut into tokens by an automaton, and the tokens are read by a machine with a
    stack of the open lists and dictionaries: both are structural, so reading always ends.
    [loads_dumps] shows that a text written by [json.dumps] is read back.  A failure is a
    [JSONDecodeError], which is a [ValueError].  [NaN] and [Infinity], which Python accepts,
    are refused, and an escape of a character beyond one byte gives its bytes. *)

From S2P Require Import Prelude PyStr PyDict Json.
From stdpp Require Import options.
Local Open Scope string_scope.

(** ** Indented text *)

Definition spaces (n : nat) : string := newline +:+ srepeat n " ".
(** [json.dumps(v, indent=2)] at an indentation of [n]. *)
Fixpoint dumps_at (n : nat) (v : json) : string :=
  match v with
  | JList ((_ :: _) as l) =>
      "[" +:+ join "," (map (λ x, spaces (n + 2) +:+ dumps_at (n + 2) x) l) +:+ spaces n +:+ "]"
  | JObj ((_ :: _) as d) =>
      "{" +:+ join "," (map (λ p, spaces (n + 2) +:+ dump_str p.1 +:+ ": " +:+ dumps_at (n + 2) p.2) d)
      +:+ spaces n +:+ "}"
  | _ => dumps v
  end.

(** ** Tokens *)

Inductive token :=
| TOpenList | TCloseList | TOpenObj | TCloseObj | TComma | TColon
| TStr (s : string)
| TVal (v : json).

Definition is_blank (c : ascii) : bool := existsb (N.eqb (code c)) [32; 9; 10; 13]%N.
(** The characters of numbers and of the three names. *)
Definition is_run (c : ascii) : bool := is_alnum c || existsb (N.eqb (code c)) [43; 45; 46]%N.
Definition punct (c : ascii) : option token :=
  match code c with
  | 91 => Some TOpenList | 93 => Some TCloseList | 123 => Some TOpenObj | 125 => Some TCloseObj
  | 44 => Some TComma | 58 => Some TColon | _ => None
  end%N.

(** The grammar of numbers: an integer without leading zeros, a fraction, an exponent. *)
Definition all_digits (s : string) : bool := negb (bool_decide (s = "")) && sforall is_digit s.
Definition is_int (s : string) : bool := all_digits s && (bool_decide (s = "0") || negb (startswith "0" s)).
Fixpoint cut_exponent (s : string) : string * option string :=
  match s with
  | "" => ("", None)
  | String c s' =>
      if (code c =? 101)%N || (code c =? 69)%N then ("", Some s')
      else let '(a, e) := cut_exponent s' in (String c a, e)
  end.
Definition exponent_of (s : string) : option Z :=
  let digits (u : string) := if all_digits u then Some (dec_value 0 u) else None in
  match s with
  | String "-" u => Z.opp <$> digits u
  | String "+" u => digits u
  | _ => digits s
  end.
(** The decimal [m / 10^f] times [10^e]. *)
Definition scale (m : Z) (f : nat) (e : Z) : pyfloat :=
  if (e <=? Z.of_nat f)%Z then PyFloat m (Z.to_nat (Z.of_nat f - e)) else PyFloat (m * 10 ^ (e - Z.of_nat f)) 0.
Definition take_sign (r : string) : bool * string := match r with String "-" u => (true, u) | _ => (false, r) end.
Definition signed (neg : bool) (z : Z) : Z := if neg then (- z)%Z else z.
Definition number_of (r : string) : result json :=
  let '(neg, u) := take_sign r in
  let '(body, e) := cut_exponent u in
  match split "." body, e with
  | [a], None => if is_int a then Ok (JInt (signed neg (dec_value 0 a))) else Raise ValueError
  | [a], Some e =>
      if is_int a then x ← or_raise ValueError (exponent_of e); Ok (JFloat (scale (signed neg (dec_value 0 a)) 0 x))
      else Raise ValueError
  | [a; b], e =>
      if is_int a && all_digits b then
        x ← match e with None => Ok 0%Z | Some e => or_raise ValueError (exponent_of e) end;
        Ok (JFloat (scale (signed neg (dec_value 0 (a +:+ b))) (String.length b) x))
      else Raise ValueError
  | _, _ => Raise ValueError
  end.
Definition run_token (r : string) : result token :=
  TVal <$> (if decide (r = "null") then Ok JNull
            else if decide (r = "true") then Ok (JBool true)
            else if decide (r = "false") then Ok (JBool false)
            else number_of r).

(** The bytes of a character. *)
Definition utf8 (n : N) : string :=
  let byte k := ascii_of_N k in
  let low k := (0x80 + N.land (N.shiftr n k) 0x3F)%N in
  (if n <? 0x100 then String (byte n) ""
   else if n <? 0x800 then String (byte (0xC0 + N.shiftr n 6)) (String (byte (low 0)) "")
   else String (byte (0xE0 + N.shiftr n 12)) (String (byte (low 6)) (String (byte (low 0)) "")))%N.
Definition hex_digit (c : ascii) : option N :=
  if is_hex (lower_char c) then Z.to_N <$> digit_val c else None.
Definition escaped (c : ascii) : option string :=
  match code c with
  | 34 | 47 | 92 => Some (String c "")
  | 98 => Some (String (ascii_of_nat 8) "") | 102 => Some (String (ascii_of_nat 12) "")
  | 110 => Some newline | 114 => Some (String (ascii_of_nat 13) "") | 116 => Some (String (ascii_of_nat 9) "")
  | _ => None
  end%N.

Inductive lex_state :=
| Blank
| InRun (r : string)
| InStr (s : string)
| InEsc (s : string)
| InHex (s : string) (more : nat) (n : N).

Fixpoint lex (st : lex_state) (t : string) : result (list token) :=
  match t with
  | "" =>
      match st with
      | Blank => Ok []
      | InRun r => k ← run_token r; Ok [k]
      | _ => Raise ValueError
      end
  | String c t' =>
      let from_blank (_ : unit) :=
        if is_blank c then lex Blank t'
        else if Ascii.eqb c quote_char then lex (InStr "") t'
        else if is_run c then lex (InRun (String c "")) t'
        else k ← or_raise ValueError (punct c); ks ← lex Blank t'; Ok (k :: ks) in
      match st with
      | Blank => from_blank ()
      | InRun r =>
          if is_run c then lex (InRun (r +:+ String c "")) t'
          else k ← run_token r; ks ← from_blank (); Ok (k :: ks)
      | InStr s =>
          if Ascii.eqb c quote_char then ks ← lex Blank t'; Ok (TStr s :: ks)
          else if Ascii.eqb c backslash then lex (InEsc s) t'
          else if (code c <? 32)%N then Raise ValueError
          else lex (InStr (s +:+ String c "")) t'
      | InEsc s =>
          if (code c =? 117)%N then lex (InHex s 3 0) t'
          else e ← or_raise ValueError (escaped c); lex (InStr (s +:+ e)) t'
      | InHex s more n =>
          d ← or_raise ValueError (hex_digit c);
          let n := (16 * n + d)%N in
          match more with
          | 0 => lex (InStr (s +:+ utf8 n)) t'
          | S k => lex (InHex s k n) t'
          end
      end
  end.

(** ** Values *)

(** A list or a dictionary that is still open, with the key whose value comes. *)
Inductive frame := OpenList (l : list json) | OpenObj (d : dict string json) (k : string).
(** What comes next: a value (or the end of a list that has none yet), a key (or the end of a
    dictionary that has none yet), a colon, or whatever may follow a value. *)
Inductive mode :=
| Value (may_close : bool)
| Key (may_close : bool) (d : dict string json)
| Colon (d : dict string json) (k : string)
| Done (v : json).

Definition read_token (st : mode * list frame) (t : token) : result (mode * list frame) :=
  match t, st with
  | TVal v, (Value _, stk) => Ok (Done v, stk)
  | TStr s, (Value _, stk) => Ok (Done (JStr s), stk)
  | TOpenList, (Value _, stk) => Ok (Value true, OpenList [] :: stk)
  | TOpenObj, (Value _, stk) => Ok (Key true [], stk)
  | TCloseList, (Value true, OpenList [] :: stk) => Ok (Done (JList []), stk)
  | TStr k, (Key _ d, stk) => Ok (Colon d k, stk)
  | TCloseObj, (Key true d, stk) => Ok (Done (JObj d), stk)
  | TColon, (Colon d k, stk) => Ok (Value false, OpenObj d k :: stk)
  | TComma, (Done v, OpenList l :: stk) => Ok (Value false, OpenList (l ++ [v]) :: stk)
  | TCloseList, (Done v, OpenList l :: stk) => Ok (Done (JList (l ++ [v])), stk)
  | TComma, (Done v, OpenObj d k :: stk) => Ok (Key false (dset k v d), stk)
  | TCloseObj, (Done v, OpenObj d k :: stk) => Ok (Done (JObj (dset k v d)), stk)
  | _, _ => Raise ValueError
  end.
Definition loads (text : string) : result json :=
  ts ← lex Blank text;
  st ← mfold read_token (Value false, []) ts;
  match st with (Done v, []) => Ok v | _ => Raise ValueError end.

Example loads_text :
  loads (dumps_at 0 (JObj [("a", JList [JInt (-12); JNull; JBool true]); ("b\", JObj []); ("c", JFloat (PyFloat (-1250) 2))]))
  = Ok (JObj [("a", JList [JInt (-12); JNull; JBool true]); ("b\", JObj []); ("c", JFloat (PyFloat (-125) 1))]).
Proof. vm_compute. reflexivity. Qed.
Example loads_bad : loads <$> ["[1,]"; "{"; "01"; "1."; "[1 2]"; "nul"; "-"] = replicate 7 (Raise ValueError).
Proof. vm_compute. reflexivity. Qed.

(** ** Numbers are read back *)

(** What is left of a float in a text: at least one digit after the point, no zeros at the end
    but this one. *)
Definition normal_float (f : pyfloat) : pyfloat :=
  let '(frac, m) := trim_zeros (f_frac f) (Z.abs (f_mant f)) in
  let neg := (f_mant f <? 0)%Z in
  if decide (frac = 0) then PyFloat (signed neg (m * 10)) 1 else PyFloat (signed neg m) frac.

Lemma dec_value_app acc a b : dec_value acc (a +:+ b) = dec_value (dec_value acc a) b.
Proof. revert acc. induction a as [|c a IH]; intros acc; [done|]. apply IH. Qed.
Lemma dec_value_shift acc b : dec_value acc b = (acc * 10 ^ Z.of_nat (String.length b) + dec_value 0 b)%Z.
Proof.
  revert acc. induction b as [|c b IH]; intros acc; [cbn; lia|]. cbn [dec_value String.length].
  rewrite IH, (IH (0 * 10 + _)%Z), Nat2Z.inj_succ, Z.pow_succ_r by lia. lia.
Qed.
Lemma dec_value_zeros k s : dec_value 0 (srepeat k "0" +:+ s) = dec_value 0 s.
Proof. induction k as [|k IH]; [done|]. cbn [srepeat]. exact IH. Qed.

Lemma pretty_N_go_head n s :
  (0 < n)%N → ∃ c r, pretty_N_go n s = String c r ∧ c ≠ "0"%char.
Proof.
  revert s. induction (N.lt_wf_0 n) as [n _ IH]; intros s Hn. rewrite pretty_N_go_step by done.
  destruct (decide (n < 10)%N) as [Hlt|Hge].
  - rewrite N.div_small, pretty_N_go_0 by done. do 2 eexists. split; [done|].
    rewrite N.mod_small by done. destruct (pretty_char_value n Hlt) as [Hv _]. intros E. rewrite E in Hv.
    cbn in Hv. lia.
  - apply IH; [apply N.div_lt; lia|]. apply N.div_str_pos. lia.
Qed.
Lemma pretty_N_go_length n s k :
  (n < 10 ^ N.of_nat k)%N → String.length (pretty_N_go n s) <= k + String.length s.
Proof.
  revert n s. induction k as [|k IH]; intros n s Hn.
  - assert (n = 0)%N as -> by (cbn in Hn; lia). by rewrite pretty_N_go_0.
  - destruct (decide (n = 0)%N) as [->|Hz]; [rewrite pretty_N_go_0; lia|].
    rewrite pretty_N_go_step by lia. etrans; [apply IH|cbn [String.length]; lia].
    rewrite Nat2N.inj_succ, N.pow_succ_r' in Hn. by apply N.Div0.div_lt_upper_bound.
Qed.
Lemma pretty_length n k : 0 < k → (n < 10 ^ N.of_nat k)%N → String.length (pretty n) <= k.
Proof.
  intros Hk Hn. unfold pretty, pretty_N. case_decide; [cbn; lia|].
  pose proof (pretty_N_go_length n "" k Hn) as H'. cbn [String.length] in H'. lia.
Qed.
Lemma all_digits_pretty (n : N) : all_digits (pretty n) = true.
Proof. destruct (pretty_N_digits n) as [Hd Hn]. unfold all_digits. by rewrite Hd, bool_decide_eq_false_2. Qed.
Lemma is_int_pretty (n : N) : is_int (pretty n) = true.
Proof.
  unfold is_int. rewrite all_digits_pretty. cbn [andb]. destruct (decide (n = 0)%N) as [->|Hn]; [done|].
  assert (startswith "0" (pretty n) = false) as ->; [|apply orb_true_r].
  unfold pretty, pretty_N. rewrite decide_False by done.
  destruct (pretty_N_go_head n "") as (c&r&->&Hc); [lia|].
  unfold startswith, String.prefix. by destruct (ascii_dec "0" c) as [<-|].
Qed.

(** The characters of a decimal. *)
Definition is_decimal (c : ascii) : bool := is_digit c || Ascii.eqb c ".".
Lemma digit_decimal c : is_digit c = true → is_decimal c = true.
Proof. unfold is_decimal. by intros ->. Qed.
Lemma cut_exponent_none s : sforall is_decimal s = true → cut_exponent s = (s, None).
Proof.
  induction s as [|c s IH]; [done|]. cbn [sforall cut_exponent]. rewrite andb_true_iff. intros [Hc Hs].
  rewrite IH by done. by destruct c as [[] [] [] [] [] [] [] []].
Qed.
Lemma take_sign_of neg r : all_digits r = true → ∀ k,
  take_sign ((if neg : bool then "-" else "") +:+ (r +:+ k)) = (neg, r +:+ k).
Proof.
  unfold all_digits. rewrite andb_true_iff, negb_true_iff, bool_decide_eq_false. intros [Hr Hd] k.
  destruct neg; [done|]. rewrite sapp_nil_l. destruct r as [|c r]; [done|]. cbn [sforall] in Hd.
  apply andb_true_iff in Hd as [Hd _]. rewrite sapp_cons. by destruct c as [[] [] [] [] [] [] [] []].
Qed.
Lemma number_of_int neg (n : N) :
  number_of ((if neg : bool then "-" else "") +:+ pretty n) = Ok (JInt (signed neg (Z.of_N n))).
Proof.
  pose proof (take_sign_of neg (pretty n) (all_digits_pretty n) "") as E. rewrite sapp_nil_r in E.
  destruct (pretty_N_digits n) as [Hd _].
  unfold number_of. rewrite E, cut_exponent_none by (apply (sforall_impl is_digit); auto using digit_decimal).
  change "." with (String "." ""). rewrite split_char_none by by apply digits_lack.
  by rewrite is_int_pretty, dec_value_pretty.
Qed.
Lemma number_of_decimal neg (n : N) b :
  all_digits b = true →
  number_of ((if neg : bool then "-" else "") +:+ pretty n +:+ "." +:+ b)
  = Ok (JFloat (PyFloat (signed neg (dec_value 0 (pretty n +:+ b))) (String.length b))).
Proof.
  intros Hb. destruct (pretty_N_digits n) as [Hd _].
  assert (sforall is_digit b = true) as Hbd by by apply andb_true_iff in Hb as [_ ?].
  unfold number_of. rewrite take_sign_of by apply all_digits_pretty.
  rewrite cut_exponent_none.
  2:{ rewrite !sforall_app. change (sforall is_decimal ".") with true.
      by rewrite !(sforall_impl is_digit is_decimal) by auto using digit_decimal. }
  change "." with (String "." ""). rewrite split_char_app, split_char_none by by apply digits_lack.
  rewrite is_int_pretty, Hb. cbn [andb mbind result_bind]. unfold scale.
  rewrite (proj2 (Z.leb_le _ _)), Z.sub_0_r, Nat2Z.id by lia. done.
Qed.

Lemma trim_zeros_nonneg f m : (0 ≤ m)%Z → (0 ≤ (trim_zeros f m).2)%Z.
Proof.
  revert m. induction f as [|f IH]; intros m Hm; [done|]. cbn [trim_zeros]. case_match; [|done].
  apply IH. by apply Z.quot_pos.
Qed.
Lemma number_of_Z z : number_of (str_of_Z z) = Ok (JInt z).
Proof.
  destruct (decide (0 ≤ z)%Z).
  - rewrite <- (Z2N.id z), str_of_Z_of_N by done. apply (number_of_int false).
  - assert (str_of_Z z = "-" +:+ pretty (Z.to_N (- z))) as -> by (destruct z; [lia|lia|done]).
    rewrite (number_of_int true). cbn [signed]. do 2 f_equal. lia.
Qed.
Lemma number_of_float f : number_of (float_str f) = Ok (JFloat (normal_float f)).
Proof.
  unfold float_str, normal_float. pose proof (trim_zeros_nonneg (f_frac f) (Z.abs (f_mant f)) (Z.abs_nonneg _)) as Hm.
  destruct (trim_zeros _ _) as [frac m]. cbn [snd] in Hm.
  set (neg := (f_mant f <? 0)%Z). pose proof (Z.pow_pos_nonneg 10 (Z.of_nat frac) ltac:(lia) ltac:(lia)) as Hp.
  set (p := (10 ^ Z.of_nat frac)%Z) in *.
  assert (0 ≤ m / p)%Z by by apply Z.div_pos. pose proof (Z.mod_pos_bound m p Hp) as Hr.
  rewrite <- (Z2N.id (m / p)%Z), str_of_Z_of_N by done.
  destruct (decide (frac = 0)) as [->|Hf].
  - rewrite number_of_decimal by done. do 4 f_equal. rewrite dec_value_app, dec_value_pretty.
    cbn [dec_value]. rewrite Z2N.id by done. subst p. cbn. rewrite Z.div_1_r. lia.
  - rewrite <- (Z2N.id (m mod p)%Z), str_of_Z_of_N by lia. unfold pad0.
    set (r := Z.to_N (m mod p)). assert (Z.of_N r = m mod p)%Z as Hrz by (unfold r; lia).
    assert (String.length (pretty r) <= frac) as Hl.
    { apply pretty_length; [lia|]. apply N2Z.inj_lt. rewrite N2Z.inj_pow, nat_N_Z. unfold p in *. lia. }
    set (b := srepeat (frac - String.length (pretty r)) "0" +:+ pretty r).
    assert (String.length b = frac) as Hb by (unfold b; rewrite slength_app, srepeat_length; lia).
    assert (all_digits b = true) as Hd.
    { unfold all_digits, b. rewrite sforall_app. destruct (pretty_N_digits r) as [-> _].
      assert (∀ k, sforall is_digit (srepeat k "0") = true) as -> by by intros k; induction k.
      rewrite andb_true_r, negb_true_iff, bool_decide_eq_false. intros E. fold b in E. rewrite E in Hb. by cbn in Hb. }
    rewrite number_of_decimal, Hb by done. do 4 f_equal.
    rewrite dec_value_app, dec_value_pretty, dec_value_shift, Hb. unfold b.
    rewrite dec_value_zeros, dec_value_pretty, Z2N.id, Hrz by done. fold p.
    rewrite (Z.div_mod m p) at 3 by lia. lia.
Qed.

(** ** The tokens of a text *)

(** No number or name goes on here. *)
Definition delimits (t : string) : Prop := match t with "" => True | String c _ => is_run c = false end.

Lemma run_not_blank : ∀ c, is_run c = true → is_blank c = false.
Proof. by_ascii. Qed.
Lemma run_not_quote : ∀ c, is_run c = true → Ascii.eqb c quote_char = false.
Proof. by_ascii. Qed.
Lemma decimal_run : ∀ c, is_decimal c = true → is_run c = true.
Proof. by_ascii. Qed.

Lemma lex_run x r rest :
  sforall is_run x = true → delimits rest →
  lex (InRun r) (x +:+ rest) = k ← run_token (r +:+ x); ks ← lex Blank rest; Ok (k :: ks).
Proof.
  revert r. induction x as [|c x IH]; intros r Hx Hrest.
  - rewrite sapp_nil_l, sapp_nil_r. destruct rest as [|c rest]; [done|]. cbn [lex]. by rewrite Hrest.
  - cbn [sforall] in Hx. apply andb_true_iff in Hx as [Hc Hx]. rewrite sapp_cons. cbn [lex].
    rewrite Hc, IH, sapp_assoc by done. done.
Qed.
Lemma lex_word x rest :
  sforall is_run x = true → x ≠ "" → delimits rest →
  lex Blank (x +:+ rest) = k ← run_token x; ks ← lex Blank rest; Ok (k :: ks).
Proof.
  intros Hx Hne Hrest. destruct x as [|c x]; [done|]. cbn [sforall] in Hx.
  apply andb_true_iff in Hx as [Hc Hx]. rewrite sapp_cons. cbn [lex].
  rewrite run_not_blank, run_not_quote, Hc by done. by rewrite lex_run.
Qed.
(** A number is not one of the three names. *)
Lemma number_word neg u rest t :
  sforall is_decimal u = true → u ≠ "" → delimits rest →
  number_of ((if neg : bool then "-" else "") +:+ u) = Ok t →
  lex Blank (((if neg then "-" else "") +:+ u) +:+ rest) = ks ← lex Blank rest; Ok (TVal t :: ks).
Proof.
  intros Hu Hne Hrest Ht. rewrite lex_word; [|..|done].
  - unfold run_token.
    assert (∀ w, sforall (λ c, is_decimal c || Ascii.eqb c "-") w = false → (if neg then "-" else "") +:+ u ≠ w) as Hw.
    { intros w Hw <-. rewrite sforall_app in Hw. apply andb_false_iff in Hw as [Hw|Hw].
      - by destruct neg.
      - rewrite (sforall_impl is_decimal) in Hw; [done|by intros c ->|done]. }
    rewrite !decide_False by by apply Hw. by rewrite Ht.
  - rewrite sforall_app, (sforall_impl is_decimal is_run u) by (done || apply decimal_run). by destruct neg.
  - by destruct neg, u.
Qed.

Lemma dump_char_lex c acc t : lex (InStr acc) (dump_char c +:+ t) = lex (InStr (acc +:+ String c "")) t.
Proof. by destruct c as [[] [] [] [] [] [] [] []]. Qed.
Lemma lex_str s acc rest :
  lex (InStr acc) (concat_map dump_char s +:+ String quote_char rest)
  = ks ← lex Blank rest; Ok (TStr (acc +:+ s) :: ks).
Proof.
  revert acc. induction s as [|c s IH]; intros acc; cbn [concat_map].
  - by rewrite sapp_nil_l, sapp_nil_r.
  - by rewrite sapp_assoc, dump_char_lex, IH, sapp_assoc.
Qed.
Lemma lex_dump_str s rest : lex Blank (dump_str s +:+ rest) = ks ← lex Blank rest; Ok (TStr s :: ks).
Proof. unfold dump_str. rewrite sapp_cons, sapp_assoc, sapp_cons, sapp_nil_l. apply lex_str. Qed.
Lemma lex_spaces n t : lex Blank (spaces n +:+ t) = lex Blank t.
Proof. unfold spaces, newline. rewrite !sapp_cons. cbn [lex]. induction n as [|n IH]; [done|]. exact IH. Qed.
Lemma delimits_spaces n t : delimits (spaces n +:+ t).
Proof. done. Qed.

Fixpoint commas (l : list (list token)) : list token :=
  match l with [] => [] | [x] => x | x :: l' => x ++ TComma :: commas l' end.
Fixpoint tokens_of (v : json) : list token :=
  match v with
  | JStr s => [TStr s]
  | JFloat f => [TVal (JFloat (normal_float f))]
  | JList l => TOpenList :: commas (map tokens_of l) ++ [TCloseList]
  | JObj d => TOpenObj :: commas (map (λ p, TStr p.1 :: TColon :: tokens_of p.2) d) ++ [TCloseObj]
  | v => [TVal v]
  end.

(** [t] has the tokens [ks], whatever follows. *)
Definition lexes (t : string) (ks : list token) : Prop :=
  ∀ rest, delimits rest → lex Blank (t +:+ rest) = more ← lex Blank rest; Ok (ks ++ more)%list.

Lemma lex_punct a k t : punct a = Some k → lex Blank (String a t) = ks ← lex Blank t; Ok (k :: ks).
Proof. intros Ha. cbn [lex]. destruct a as [[] [] [] [] [] [] [] []]; try done; by injection Ha as <-. Qed.
Lemma lexes_join {A} (f : A → string) (g : A → list token) l :
  Forall (λ x, lexes (f x) (g x)) l → lexes (join "," (map f l)) (commas (map g l)).
Proof.
  induction 1 as [|x l Hx Hl IH]; intros rest Hrest; cbn [map join commas].
  { rewrite sapp_nil_l. by destruct (lex Blank rest). }
  destruct l as [|y l]; cbn [map]; [by apply Hx|]. cbn [map] in IH.
  rewrite !sapp_assoc, Hx, !sapp_cons, sapp_nil_l by done.
  rewrite (lex_punct "," TComma), IH by done. destruct (lex Blank rest); cbn [mbind result_bind]; [|done].
  by rewrite <- app_assoc.
Qed.
Lemma lex_open_close (o c : ascii) ko kc body ks n :
  punct o = Some ko → punct c = Some kc → lexes body ks →
  lexes (String o "" +:+ body +:+ spaces n +:+ String c "") (ko :: ks ++ [kc])%list.
Proof.
  intros Ho Hc Hb rest Hrest. rewrite !sapp_assoc, sapp_cons, sapp_nil_l.
  rewrite (lex_punct o ko), Hb by done. rewrite lex_spaces, sapp_cons, sapp_nil_l, (lex_punct c kc) by done.
  destruct (lex Blank rest); cbn [mbind result_bind]; [|done]. by rewrite <- app_comm_cons, <- app_assoc.
Qed.

Lemma lex_pair (o c : ascii) ko kc :
  punct o = Some ko → punct c = Some kc → lexes (String o (String c "")) [ko; kc].
Proof.
  intros Ho Hc rest _. rewrite !sapp_cons, sapp_nil_l, (lex_punct o ko), (lex_punct c kc) by done.
  by destruct (lex Blank rest).
Qed.

(** The texts of numbers: an optional sign, digits and points. *)
Definition decimal_text (t : string) : Prop :=
  ∃ (neg : bool) u, t = (if neg then "-" else "") +:+ u ∧ sforall is_decimal u = true ∧ u ≠ "".
Lemma pretty_decimal (n : N) : sforall is_decimal (pretty n) = true.
Proof. apply (sforall_impl is_digit); [apply digit_decimal|apply pretty_N_digits]. Qed.
Lemma decimal_text_Z z : decimal_text (str_of_Z z).
Proof.
  destruct z as [|p|p]; [exists false, (pretty 0%N)|exists false, (pretty (N.pos p))|exists true, (pretty (N.pos p))];
    (split; [reflexivity|]); (split; [apply pretty_decimal|apply pretty_N_digits]).
Qed.
Lemma nonneg_text z : (0 ≤ z)%Z → sforall is_decimal (str_of_Z z) = true.
Proof. intros Hz. rewrite <- (Z2N.id z), str_of_Z_of_N by done. apply pretty_decimal. Qed.
Lemma decimal_text_float f : decimal_text (float_str f).
Proof.
  unfold float_str. pose proof (trim_zeros_nonneg (f_frac f) (Z.abs (f_mant f)) (Z.abs_nonneg _)) as Hm.
  destruct (trim_zeros _ _) as [frac m]. cbn [snd] in Hm.
  pose proof (Z.pow_pos_nonneg 10 (Z.of_nat frac) ltac:(lia) ltac:(lia)) as Hp.
  pose proof (Z.mod_pos_bound m _ Hp).
  exists (f_mant f <? 0)%Z. eexists. split; [reflexivity|]. split.
  - rewrite !sforall_app, nonneg_text by by apply Z.div_pos. destruct (decide (frac = 0)); [done|].
    unfold pad0. rewrite sforall_app, nonneg_text by lia.
    assert (∀ k, sforall is_decimal (srepeat k "0") = true) as -> by (intros k; by induction k). done.
  - intros E. apply (f_equal String.length) in E. rewrite !slength_app in E. cbn [String.length] in E. lia.
Qed.
Lemma lexes_number t v : decimal_text t → number_of t = Ok v → lexes t [TVal v].
Proof.
  intros (neg&u&->&Hu&Hne) Hv rest Hrest. rewrite (number_word _ _ _ v) by done. by destruct (lex Blank rest).
Qed.
Lemma lexes_word t v : sforall is_run t = true → t ≠ "" → run_token t = Ok v → lexes t [v].
Proof. intros Ht Hne Hv rest Hrest. rewrite lex_word, Hv by done. by destruct (lex Blank rest). Qed.
Lemma lexes_str s : lexes (dump_str s) [TStr s].
Proof. intros rest Hrest. rewrite lex_dump_str. by destruct (lex Blank rest). Qed.
Lemma lexes_field s t ks : lexes t ks → lexes (dump_str s +:+ ": " +:+ t) (TStr s :: TColon :: ks).
Proof.
  intros Ht rest Hrest. rewrite !sapp_assoc, lex_dump_str, !sapp_cons, sapp_nil_l, (lex_punct ":" TColon) by done.
  assert (∀ t, lex Blank (String " " t) = lex Blank t) as -> by done.
  rewrite (Ht rest Hrest). by destruct (lex Blank rest).
Qed.
Lemma lexes_indented n t ks : lexes t ks → lexes (spaces n +:+ t) ks.
Proof. intros Ht rest Hrest. rewrite sapp_assoc, lex_spaces. by apply Ht. Qed.

Lemma lexes_dumps v n : lexes (dumps_at n v) (tokens_of v).
Proof.
  revert n. induction v as [| [] |z|f|s|l IH|d IH] using json_nested_ind; intros n; cbn [dumps_at dumps tokens_of].
  1-3: by apply lexes_word.
  - apply lexes_number; [apply decimal_text_Z|apply number_of_Z].
  - apply lexes_number; [apply decimal_text_float|apply number_of_float].
  - apply lexes_str.
  - destruct l as [|x l]; [by apply (lex_pair "[" "]")|].
    apply (lex_open_close "[" "]"); [done..|]. apply lexes_join. eapply Forall_impl; [exact IH|].
    intros y Hy. apply lexes_indented, Hy.
  - destruct d as [|x d]; [by apply (lex_pair "{" "}")|].
    apply (lex_open_close "{" "}"); [done..|]. apply lexes_join. eapply Forall_impl; [exact IH|].
    intros y Hy. apply lexes_indented, lexes_field, Hy.
Qed.

(** ** The value of the tokens *)

(** No dictionary has a key twice. *)
Fixpoint unique_keys (v : json) : bool :=
  match v with
  | JList l => forallb unique_keys l
  | JObj d => bool_decide (NoDup (map fst d)) && forallb (λ p, unique_keys p.2) d
  | _ => true
  end.
(** The value with its floats as they are written. *)
Fixpoint normal (v : json) : json :=
  match v with
  | JFloat f => JFloat (normal_float f)
  | JList l => JList (map normal l)
  | JObj d => JObj (map (λ p, (p.1, normal p.2)) d)
  | v => v
  end.
Definition normal_item (p : string * json) : string * json := (p.1, normal p.2).

(** [ks] is read as [v] wherever a value may come. *)
Definition reads (ks : list token) (v : json) : Prop :=
  ∀ b stk more, mfold read_token (Value b, stk) (ks ++ more) = mfold read_token (Done v, stk) more.

Lemma reads_list l b acc stk more :
  l ≠ [] → Forall (λ v, reads (tokens_of v) (normal v)) l →
  mfold read_token (Value b, OpenList acc :: stk) (commas (map tokens_of l) ++ TCloseList :: more)
  = mfold read_token (Done (JList (acc ++ map normal l)), stk) more.
Proof.
  intros Hne Hl. revert b acc Hne. induction Hl as [|x l Hx Hl IH]; intros b acc Hne; [done|].
  destruct l as [|y l]; cbn [map commas].
  - rewrite Hx. done.
  - rewrite <- app_assoc, Hx, <- app_comm_cons. cbn [mfold read_token mbind result_bind].
    cbn [map] in IH. rewrite IH, <- app_assoc by done. done.
Qed.
Lemma reads_obj d b acc stk more :
  d ≠ [] → NoDup (keys acc ++ keys d) → Forall (λ p, reads (tokens_of p.2) (normal p.2)) d →
  mfold read_token (Key b acc, stk)
    (commas (map (λ p, TStr p.1 :: TColon :: tokens_of p.2) d) ++ TCloseObj :: more)
  = mfold read_token (Done (JObj (acc ++ map normal_item d)), stk) more.
Proof.
  intros Hne Hnd Hd. revert b acc Hne Hnd. induction Hd as [|[k v] d Hx Hd IH]; intros b acc Hne Hnd; [done|].
  assert (dset k (normal v) acc = acc ++ [normal_item (k, v)])%list as Hset.
  { apply dset_fresh. intros Hk. unfold keys in Hnd. rewrite fmap_cons in Hnd.
    apply NoDup_app in Hnd as (_&Hno&_). apply (Hno _ Hk). left. }
  cbn [snd fst] in Hx. destruct d as [|y d]; cbn [map commas fst snd].
  - rewrite <- !app_comm_cons. cbn [mfold read_token mbind result_bind]. rewrite Hx.
    cbn [mfold read_token mbind result_bind]. by rewrite Hset.
  - rewrite <- !app_comm_cons, <- app_assoc. cbn [mfold read_token mbind result_bind]. rewrite Hx, <- app_comm_cons. cbn [mfold read_token mbind result_bind].
    cbn [map] in IH. rewrite IH, Hset; [|done|].
    + by rewrite <- app_assoc.
    + rewrite Hset. unfold keys in *. rewrite fmap_app, <- app_assoc. done.
Qed.
Lemma Forall_reads {A} (f : A → json) l :
  forallb (λ x, unique_keys (f x)) l = true →
  Forall (λ x, unique_keys (f x) = true → reads (tokens_of (f x)) (normal (f x))) l →
  Forall (λ x, reads (tokens_of (f x)) (normal (f x))) l.
Proof.
  intros Hu Hl. induction Hl as [|x l Hx Hl IH]; [constructor|].
  cbn [forallb] in Hu. apply andb_true_iff in Hu as [Hux Hu]. constructor; auto.
Qed.
Lemma reads_tokens v : unique_keys v = true → reads (tokens_of v) (normal v).
Proof.
  induction v as [| [] |z|f|s|l IH|d IH] using json_nested_ind; intros Hu b stk more; try done.
  - cbn [tokens_of normal unique_keys] in *. rewrite <- app_comm_cons, <- app_assoc.
    apply (Forall_reads id) in IH; [|done].
    cbn [app mfold read_token mbind result_bind]. destruct l as [|x l]; [done|]. by rewrite (reads_list (x :: l) true []).
  - cbn [tokens_of normal unique_keys] in *. rewrite <- app_comm_cons, <- app_assoc.
    apply andb_true_iff in Hu as [Hnd%bool_decide_eq_true Hu]. apply (Forall_reads snd) in IH; [|done].
    cbn [app mfold read_token mbind result_bind]. destruct d as [|x d]; [done|]. by rewrite (reads_obj (x :: d) true []).
Qed.

(** Reading a value that was written gives the value back, with its floats as they were
    written: for every value without a repeated key, at every indentation. *)
Lemma loads_dumps n (v : json) (Hv : unique_keys v = true) : loads (dumps_at n v) = Ok (normal v).
Proof.
  unfold loads. rewrite <- (sapp_nil_r (dumps_at n v)), (lexes_dumps v n "" I).
  cbn [lex mbind result_bind]. by rewrite reads_tokens.
Qed.
Example loads_dumps_value :
  loads (dumps_at 4 (JObj [("runs", JList [JFloat (PyFloat 2000 2); JInt (-7)])]))
  = Ok (JObj [("runs", JList [JFloat (PyFloat 200 1); JInt (-7)])]).
Proof. apply loads_dumps. reflexivity. Qed.

(** ** What is read has no key twice *)

Definition obj_ok (d : dict string json) : Prop := unique_keys (JObj d) = true.
Lemma obj_ok_spec d : obj_ok d ↔ wf d ∧ forallb (λ p, unique_keys p.2) d = true.
Proof. unfold obj_ok. cbn [unique_keys]. rewrite andb_true_iff, bool_decide_eq_true. done. Qed.
Lemma obj_ok_dset k v d : obj_ok d → unique_keys v = true → obj_ok (dset k v d).
Proof.
  rewrite !obj_ok_spec. intros [Hw Hd] Hv. split; [by apply wf_dset|]. clear Hw. revert Hd.
  induction d as [|[k' w] d IH]; cbn [dset forallb snd]; [by rewrite Hv|].
  rewrite andb_true_iff. intros [Hw Hd]. case_decide; cbn [forallb snd]; rewrite ?Hv, ?Hw; [done|]. by rewrite IH.
Qed.
Lemma list_ok_snoc l v : unique_keys (JList l) = true → unique_keys v = true → unique_keys (JList (l ++ [v])) = true.
Proof. cbn [unique_keys]. intros Hl Hv. rewrite forallb_app, Hl. cbn [forallb]. by rewrite Hv. Qed.

Definition frame_ok (f : frame) : Prop :=
  match f with OpenList l => unique_keys (JList l) = true | OpenObj d _ => obj_ok d end.
Definition mode_ok (m : mode) : Prop :=
  match m with Value _ => True | Key _ d | Colon d _ => obj_ok d | Done v => unique_keys v = true end.
Definition token_ok (t : token) : Prop := match t with TVal v => unique_keys v = true | _ => True end.

Lemma run_token_ok r t : run_token r = Ok t → token_ok t.
Proof.
  unfold run_token, fmap, result_fmap. repeat case_decide; try by intros [= <-].
  destruct (number_of r) as [v|] eqn:E; [|done]. intros [= <-]. revert E. unfold number_of, token_ok.
  destruct (take_sign r). destruct (cut_exponent _) as [? []];
    repeat (case_match; try done); rewrite ?bind_Ok; try (intros (?&_&[= <-])); try intros [= <-]; done.
Qed.
Lemma lex_ok t st ks : lex st t = Ok ks → Forall token_ok ks.
Proof.
  revert st ks. induction t as [|c t IH]; intros st ks; cbn [lex].
  { destruct st; try done; [by intros [= <-]|]. rewrite bind_Ok. intros (k&Hk&[= <-]).
    constructor; [by eapply run_token_ok|done]. }
  assert (∀ ks, (if is_blank c then lex Blank t
                 else if Ascii.eqb c quote_char then lex (InStr "") t
                 else if is_run c then lex (InRun (String c "")) t
                 else k ← or_raise ValueError (punct c); ks ← lex Blank t; Ok (k :: ks)) = Ok ks →
    Forall token_ok ks) as Hblank.
  { intros ks'. repeat (case_match; [apply IH|]). rewrite bind_Ok. setoid_rewrite bind_Ok.
    intros (k&Hk&l&Hl&[= <-]). apply or_raise_Ok in Hk. constructor; [|by eapply IH].
    destruct c as [[] [] [] [] [] [] [] []]; try done; by injection Hk as <-. }
  destruct st.
  - apply Hblank.
  - destruct (is_run c) eqn:E; [apply IH|]. intros (k&Hk&(l&Hl&[= <-])%bind_Ok)%bind_Ok.
    constructor; [by eapply run_token_ok|by apply Hblank].
  - destruct (Ascii.eqb c quote_char).
    + rewrite bind_Ok. intros (l&Hl&[= <-]). constructor; [done|by eapply IH].
    + destruct (Ascii.eqb c backslash); [apply IH|]. destruct (code c <? 32)%N; [done|apply IH].
  - destruct (code c =? 117)%N; [apply IH|]. rewrite bind_Ok. intros (e&_&H). by eapply IH.
  - rewrite bind_Ok. intros (e&_&H). case_match; by eapply IH.
Qed.
Lemma read_token_ok st t st' :
  mode_ok st.1 ∧ Forall frame_ok st.2 → token_ok t → read_token st t = Ok st' →
  mode_ok st'.1 ∧ Forall frame_ok st'.2.
Proof.
  destruct st as [m stk]. cbn [fst snd]. intros [Hm Hstk] Ht H.
  assert (∀ f fs, stk = f :: fs → frame_ok f ∧ Forall frame_ok fs) as Hf by (intros f fs ->; by inversion Hstk).
  destruct t, m as [[]|[]| |]; cbn [read_token] in H; try discriminate H;
    try (destruct stk as [|[l|d' k'] fs]; try discriminate H); try (destruct l as [|? ?]; [|discriminate H]);
    try destruct (Hf _ _ eq_refl); injection H as <-; cbn [fst snd mode_ok] in *;
    split; try done; try by constructor.
  all: repeat constructor; try done.
  all: solve [by apply list_ok_snoc|by apply obj_ok_dset].
Qed.
Lemma loads_unique t v : loads t = Ok v → unique_keys v = true.
Proof.
  unfold loads. intros (ks&Hks&(st&Hst&Hv)%bind_Ok)%bind_Ok. apply lex_ok in Hks.
  assert (mode_ok st.1 ∧ Forall frame_ok st.2) as [Hm _].
  { revert Hst. apply (mfold_inv read_token (λ st, mode_ok st.1 ∧ Forall frame_ok st.2)); [by split|].
    rewrite Forall_forall in Hks. intros s k s' Hk Hs. apply read_token_ok; auto. }
  destruct st as [[| | |w] []]; try done. by injection Hv as <-.
Qed.

(** ** Writing what was read *)

Lemma trim_zeros_nonzero f m : m ≠ 0%Z → (trim_zeros f m).2 ≠ 0%Z.
Proof.
  revert m. induction f as [|f IH]; intros m Hm; [done|]. cbn [trim_zeros].
  destruct (Z.eqb_spec (Z.rem m 10) 0) as [E|]; [|done]. apply IH. intros Hq.
  pose proof (Z.quot_rem' m 10). lia.
Qed.
Lemma trim_zeros_idem f m : let '(f', m') := trim_zeros f m in trim_zeros f' m' = (f', m').
Proof.
  revert m. induction f as [|f IH]; intros m; [done|]. cbn [trim_zeros].
  destruct (Z.rem m 10 =? 0)%Z eqn:E; [apply IH|]. cbn [trim_zeros]. by rewrite E.
Qed.
Lemma float_str_normal f : float_str (normal_float f) = float_str f.
Proof.
  unfold normal_float. pose proof (trim_zeros_idem (f_frac f) (Z.abs (f_mant f))) as Hi.
  pose proof (trim_zeros_nonneg (f_frac f) (Z.abs (f_mant f)) (Z.abs_nonneg _)) as Hm.
  pose proof (trim_zeros_nonzero (f_frac f) (Z.abs (f_mant f))) as Hz.
  unfold float_str at 2. destruct (trim_zeros _ _) as [frac m] eqn:E. cbn [snd] in *.
  assert (∀ k, (0 < k)%Z → (signed (f_mant f <? 0) (m * k) <? 0)%Z = (f_mant f <? 0)%Z) as Hs.
  { intros k Hk. destruct (Z.ltb_spec (f_mant f) 0) as [Hneg|Hneg]; cbn [signed].
    - assert (m ≠ 0%Z) by (apply Hz; lia). apply Z.ltb_lt. nia.
    - apply Z.ltb_ge. nia. }
  assert (∀ k, (0 < k)%Z → Z.abs (signed (f_mant f <? 0) (m * k)) = m * k)%Z as Ha.
  { intros k Hk. destruct (f_mant f <? 0)%Z; cbn [signed]; [rewrite Z.abs_opp|]; apply Z.abs_eq; nia. }
  destruct (decide (frac = 0)) as [->|Hf]; unfold float_str; cbn [f_mant f_frac].
  - rewrite Hs, Ha by done. cbn [trim_zeros].
    rewrite Z.rem_mul, Z.quot_mul by done. cbn [Z.eqb]. reflexivity.
  - specialize (Hs 1%Z). specialize (Ha 1%Z). rewrite Z.mul_1_r in Hs, Ha.
    rewrite Hs, Ha, Hi by done. by rewrite decide_False.
Qed.
Lemma dumps_at_list n l :
  l ≠ [] → dumps_at n (JList l)
           = "[" +:+ join "," (map (λ x, spaces (n + 2) +:+ dumps_at (n + 2) x) l) +:+ spaces n +:+ "]".
Proof. by destruct l. Qed.
Lemma dumps_at_obj n d :
  d ≠ [] → dumps_at n (JObj d)
           = "{" +:+ join "," (map (λ p, spaces (n + 2) +:+ dump_str p.1 +:+ ": " +:+ dumps_at (n + 2) p.2) d)
             +:+ spaces n +:+ "}".
Proof. by destruct d. Qed.
Lemma dumps_normal v n : dumps_at n (normal v) = dumps_at n v.
Proof.
  revert n. induction v as [| [] |z|f|s|l IH|d IH] using json_nested_ind; intros n; try done.
  - cbn [normal dumps_at dumps]. apply float_str_normal.
  - destruct l as [|x l]; [done|]. change (normal (JList (x :: l))) with (JList (map normal (x :: l))).
    rewrite !dumps_at_list, map_map by done. do 3 f_equal. apply map_ext_Forall.
    eapply Forall_impl; [exact IH|]. intros y Hy. by rewrite Hy.
  - destruct d as [|x d]; [done|]. change (normal (JObj (x :: d))) with (JObj (map normal_item (x :: d))).
    rewrite !dumps_at_obj, map_map by done. do 3 f_equal. apply map_ext_Forall.
    eapply Forall_impl; [exact IH|]. intros y Hy. cbn [normal_item fst snd]. by rewrite Hy.
Qed.

(** What a value looks like does not depend on how its floats are written. *)
Lemma normal_float_idem f : normal_float (normal_float f) = normal_float f.
Proof.
  pose proof (number_of_float (normal_float f)) as H. rewrite float_str_normal, number_of_float in H.
  congruence.
Qed.
Lemma normal_idem v : normal (normal v) = normal v.
Proof.
  induction v as [| [] |z|f|s|l IH|d IH] using json_nested_ind; try done; cbn [normal].
  - by rewrite normal_float_idem.
  - f_equal. rewrite map_map. by apply map_ext_Forall.
  - f_equal. rewrite map_map. apply map_ext_Forall. eapply Forall_impl; [exact IH|]. intros p Hp.
    cbn [fst snd]. by rewrite Hp.
Qed.
Lemma normal_items d : map normal_item (map normal_item d) = map normal_item d.
Proof. rewrite map_map. apply map_ext. intros p. unfold normal_item. cbn [fst snd]. by rewrite normal_idem. Qed.
Lemma float_nonzero_normal f : float_nonzero (normal_float f) = float_nonzero f.
Proof.
  unfold float_nonzero, normal_float.
  pose proof (trim_zeros_nonzero (f_frac f) (Z.abs (f_mant f))) as Hz.
  assert (f_mant f = 0%Z → (trim_zeros (f_frac f) (Z.abs (f_mant f))).2 = 0%Z) as H0.
  { intros ->. clear Hz. change (Z.abs 0) with 0%Z. induction (f_frac f) as [|k IH]; [done|]. exact IH. }
  destruct (trim_zeros _ _) as [frac m]. cbn [snd] in *.
  destruct (Z.eqb_spec (f_mant f) 0) as [E|E].
  - rewrite H0 by done. by case_decide; destruct (f_mant f <? 0)%Z.
  - assert (m ≠ 0%Z) by (apply Hz; lia).
    case_decide; cbn [f_mant]; destruct (f_mant f <? 0)%Z; cbn [signed]; f_equal; apply Z.eqb_neq; lia.
Qed.
Lemma truthy_normal v : truthy (normal v) = truthy v.
Proof.
  destruct v; cbn [normal truthy]; try done; [apply float_nonzero_normal|..]; by rewrite length_map.
Qed.
Lemma repr_normal v : repr (normal v) = repr v.
Proof.
  induction v as [| [] |z|f|s|l IH|d IH] using json_nested_ind; try done; cbn [normal repr].
  - apply float_str_normal.
  - rewrite map_map. do 3 f_equal. by apply map_ext_Forall.
  - rewrite map_map. do 3 f_equal. apply map_ext_Forall. eapply Forall_impl; [exact IH|]. intros p Hp.
    cbn [fst snd]. by rewrite Hp.
Qed.
Lemma str_of_normal v : str_of (normal v) = str_of v.
Proof. destruct v; try done; apply repr_normal. Qed.

Lemma dget_normal k d : dget k (map normal_item d) = normal <$> dget k d.
Proof.
  induction d as [|[k' v] d IH]; [done|]. cbn [map normal_item dget fst snd]. by case_decide.
Qed.
Lemma dset_normal k v d : map normal_item (dset k v d) = dset k (normal v) (map normal_item d).
Proof.
  induction d as [|[k' w] d IH]; [done|]. cbn [dset map normal_item fst snd]. case_decide; cbn [map]; [done|].
  by rewrite IH.
Qed.
Lemma jget_normal k v w : jget k (normal v) (normal w) = normal <$> jget k v w.
Proof.
  destruct w; try done. cbn [normal jget]. fold normal_item.
  change (map (λ p, (p.1, normal p.2)) d) with (map normal_item d). rewrite dget_normal.
  by destruct (dget k d).
Qed.
Lemma jget_unique k v w x :
  unique_keys v = true → unique_keys w = true → jget k v w = Ok x → unique_keys x = true.
Proof.
  intros Hv Hw. destruct w as [| | | | | |d]; try done. cbn [jget]. destruct (dget k d) as [y|] eqn:E; intros [= <-]; [|done].
  apply (obj_ok_spec d) in Hw as [_ Hw]. apply dget_Some_in in E.
  rewrite forallb_forall in Hw. apply (Hw (k, y)). by apply list_elem_of_In.
Qed.
Lemma first_of_unique v x : unique_keys v = true → first_of v = Ok x → unique_keys x = true.
Proof.
  destruct v as [| | | | |[|y l]|]; cbn [first_of]; intros Hv [= <-]; try done. cbn [unique_keys forallb] in Hv.
  by apply andb_true_iff in Hv as [? _].
Qed.
