(* ===== verification/Effects.v ===== *)
(** * Effects of a program

    What a command prints and the files it leaves, as a state that a computation changes even
    when it raises.  [CompareMain] and [SnifferRun] share it. *)

From S2P Require Import Prelude PyStr PyDict.
From stdpp Require Import options.
Local Open Scope string_scope.

Record world := World { stdout : string; stderr : string; files : dict string string }.
(** A computation changes the world even when it raises. *)
Definition M (A : Type) : Type := world → world * result A.
#[export] Instance M_ret : MRet M := λ A a w, (w, Ok a).
#[export] Instance M_bind : MBind M := λ A B f m w,
  match m w with (w', Ok a) => f a w' | (w', Raise e) => (w', Raise e) end.
Definition lift {A} (r : result A) : M A := λ w, (w, r).
Definition print (text : string) : M unit := λ w,
  (World (stdout w +:+ text) (stderr w) (files w), Ok ()).
Definition print_err (text : string) : M unit := λ w,
  (World (stdout w) (stderr w +:+ text) (files w), Ok ()).
Definition print_line (text : string) : M unit := print (text +:+ newline).
Definition text_of (lines : list string) : string := join "" ((λ l, l +:+ newline) <$> lines).

(** ** Laws *)

(** Nothing printed is taken back. *)
Definition extends (w w' : world) : Prop :=
  ∃ o e, stdout w' = stdout w +:+ o ∧ stderr w' = stderr w +:+ e.
#[export] Instance extends_preorder : PreOrder extends.
Proof.
  split.
  - intros w. exists "", "". by rewrite !sapp_nil_r.
  - intros w1 w2 w3 (o&e&Ho&He) (o'&e'&Ho'&He'). exists (o +:+ o'), (e +:+ e').
    by rewrite Ho', He', Ho, He, !sapp_assoc.
Qed.
#[export] Hint Extern 0 (extends _ _) => reflexivity : core.
Lemma extends_World w o e fs : extends w (World (stdout w +:+ o) (stderr w +:+ e) fs).
Proof. by exists o, e. Qed.
Lemma extends_files w fs : extends w (World (stdout w) (stderr w) fs).
Proof. exists "", "". by rewrite !sapp_nil_r. Qed.

(** A computation that goes on, and one that has raised. *)
Lemma M_bind_Ok {A B} (m : M A) (f : A → M B) w w' a : m w = (w', Ok a) → (m ≫= f) w = f a w'.
Proof. unfold mbind, M_bind. by intros ->. Qed.
Lemma M_bind_Raise {A B} (m : M A) (f : A → M B) w w' e : m w = (w', Raise e) → (m ≫= f) w = (w', Raise e).
Proof. unfold mbind, M_bind. by intros ->. Qed.
