(* ===== verification/Argparse.v ===== *)
(** * Command lines: [argparse.ArgumentParser.parse_args]

    What the programs use of it: options with one value, with one or more values, and without
    a value, abbreviations, [--option=value], joined short options, groups of options that
    exclude each other, required options, and positional arguments that may be missing
    ([nargs="?"]).  The arguments are first put into classes, then consumed in order, as
    Python 3.11 does it; an error ends the program with 2, [--help] with 0.  The messages and
    the text of the help are left out. *)

From S2P Require Import Prelude PyStr PyDict.
From stdpp Require Import options.
Local Open Scope string_scope.

(** ** Results *)

Inductive outcome (A : Type) : Type := Parsed (a : A) | Exit (code : Z).
Arguments Parsed {A} _.
Arguments Exit {A} _.
#[export] Instance outcome_ret : MRet outcome := λ A a, Parsed a.
#[export] Instance outcome_bind : MBind outcome := λ A B f r,
  match r with Parsed a => f a | Exit c => Exit c end.
#[export] Instance outcome_fmap : FMap outcome := λ A B f r,
  match r with Parsed a => Parsed (f a) | Exit c => Exit c end.
Definition or_usage {A} (o : option A) : outcome A := match o with Some a => Parsed a | None => Exit 2 end.

Lemma bind_Parsed {A B} (f : A → outcome B) (r : outcome A) b :
  (r ≫= f) = Parsed b ↔ ∃ a, r = Parsed a ∧ f a = Parsed b.
Proof. destruct r as [a|c]; cbn; [naive_solver|]. split; [done|by intros (?&?&?)]. Qed.
Lemma or_usage_Parsed {A} (o : option A) a : or_usage o = Parsed a ↔ o = Some a.
Proof. destruct o; cbn; naive_solver. Qed.

(** ** Parsers *)

Inductive value := VNone | VBool (b : bool) | VStr (s : string) | VInt (z : Z) | VList (l : list string).
Inductive conversion := AsStr | AsInt | Choice (choices : list string).
(** [store] with one value, [store] with [nargs="+"], [store_true] and [help]. *)
Inductive action := Store (c : conversion) | StoreMany | StoreTrue | Help.
#[export] Instance value_eq_dec : EqDecision value.
Proof. solve_decision. Defined.
#[export] Instance conversion_eq_dec : EqDecision conversion.
Proof. solve_decision. Defined.
#[export] Instance action_eq_dec : EqDecision action.
Proof. solve_decision. Defined.
Record argument := Argument {
  option_strings : list string;
  dest : string;
  act : action;
  default_value : value;
  required : bool;
  exclusive : option nat
}.
#[export] Instance argument_eq_dec : EqDecision argument.
Proof. solve_decision. Defined.
Record parser := Parser { optionals : list argument; positionals : list string }.

Definition help_argument : argument := Argument ["-h"; "--help"] "help" Help VNone false None.
Definition option_string_actions (p : parser) : dict string argument :=
  a ← help_argument :: optionals p; (λ s, (s, a)) <$> option_strings a.
Definition exact (p : parser) (s : string) : option argument := dget s (option_string_actions p).

(** ** Classes of arguments *)

(** [s.partition(c)] if the character is there. *)
Fixpoint cut (c : ascii) (s : string) : option (string * string) :=
  match s with
  | "" => None
  | String d s' =>
      if Ascii.eqb c d then Some ("", s')
      else match cut c s' with Some (a, b) => Some (String d a, b) | None => None end
  end.
(** A positional argument; an option, if it is known, with the string it was found by and a
    value that is joined to it; the first [--]. *)
Inductive class :=
| Plain
| Opt (found : option (argument * string)) (explicit : option string)
| Dashes.

(** [^-\d+$|^-\d*\.\d+$] *)
Definition negative_number (s : string) : bool :=
  let digits (u : string) := negb (bool_decide (u = "")) && sforall is_digit u in
  match s with
  | String "-" u =>
      digits u || match cut "." u with Some (a, b) => sforall is_digit a && digits b | None => false end
  | _ => false
  end.
(** [_get_option_tuples]: abbreviations of long options, values joined to short ones. *)
Definition option_tuples (p : parser) (s : string) : list (argument * string * option string) :=
  if startswith "--" s then
    let '(prefix, e) := match cut "=" s with Some (o, e) => (o, Some e) | None => (s, None) end in
    omap (λ kv : string * argument, if startswith prefix kv.1 then Some (kv.2, kv.1, e) else None)
      (option_string_actions p)
  else
    omap (λ kv : string * argument,
            if decide (kv.1 = str_take 2 s) then Some (kv.2, kv.1, Some (str_drop 2 s))
            else if startswith s kv.1 then Some (kv.2, kv.1, None) else None)
      (option_string_actions p).
(** [_parse_optional] *)
Definition parse_optional (p : parser) (s : string) : outcome class :=
  let by_tuples :=
    match option_tuples p s with
    | [] => Parsed (if negative_number s || contains " " s then Plain else Opt None None)
    | [(a, o, e)] => Parsed (Opt (Some (a, o)) e)
    | _ => Exit 2
    end in
  match s with
  | String "-" rest =>
      match exact p s with
      | Some a => Parsed (Opt (Some (a, s)) None)
      | None =>
          if decide (rest = "") then Parsed Plain
          else match cut "=" s with
               | Some (o, e) => match exact p o with
                                | Some a => Parsed (Opt (Some (a, o)) (Some e))
                                | None => by_tuples
                                end
               | None => by_tuples
               end
      end
  | _ => Parsed Plain
  end.
Fixpoint classify (p : parser) (argv : list string) : outcome (list (class * string)) :=
  match argv with
  | [] => Parsed []
  | s :: argv' =>
      if decide (s = "--") then Parsed ((Dashes, s) :: ((λ t, (Plain, t)) <$> argv'))
      else c ← parse_optional p s; l ← classify p argv'; Parsed ((c, s) :: l)
  end.

(** ** Options *)

(** The run of values at the front. *)
Fixpoint plain_run (l : list (class * string)) : list string :=
  match l with (Plain, s) :: l' => s :: plain_run l' | _ => [] end.
(** The values that an option takes from the arguments after it. *)
Definition plan_args (a : argument) (l : list (class * string)) : outcome (list string) :=
  match act a, plain_run l with
  | (StoreTrue | Help), _ => Parsed []
  | Store _, s :: _ => Parsed [s]
  | StoreMany, (_ :: _) as run => Parsed run
  | _, [] => Exit 2
  end.
(** The actions of an option with a joined value, and how many of the arguments after it they
    take: a short option without a value lets the next character be an option. *)
Fixpoint plan_explicit (p : parser) (l : list (class * string)) (a : argument) (single : bool) (e : string) :
    outcome (list (argument * list string) * nat) :=
  match act a with
  | Store _ | StoreMany => Parsed ([(a, [e])], 0)
  | StoreTrue | Help =>
      match e with
      | String c e' =>
          if single then
            a' ← or_usage (exact p (String "-" (String c "")));
            r ← match e' with
                | "" => vs ← plan_args a' l; Parsed ([(a', vs)], length vs)
                | String "=" e'' => plan_explicit p l a' single e''
                | _ => plan_explicit p l a' single e'
                end;
            Parsed ((a, []) :: r.1, r.2)
          else Exit 2
      | "" => Exit 2
      end
  end.
Definition plan (p : parser) (l : list (class * string)) (a : argument) (option_string : string)
    (explicit : option string) : outcome (list (argument * list string) * nat) :=
  match explicit with
  | Some e => plan_explicit p l a (negb (startswith "--" option_string)) e
  | None => vs ← plan_args a l; Parsed ([(a, vs)], length vs)
  end.

(** ** Actions *)

Record state := State {
  namespace : dict string value;
  seen : list argument;          (** in the order in which they were given *)
  remaining : list string;       (** positional arguments *)
  positionals_open : bool;
  extras : bool
}.
Definition convert (c : conversion) (s : string) : outcome value :=
  match c with
  | AsStr => Parsed (VStr s)
  | AsInt => match py_int 10 s with Ok z => Parsed (VInt z) | Raise _ => Exit 2 end
  | Choice l => if decide (s ∈ l) then Parsed (VStr s) else Exit 2
  end.
Definition conflicts (a b : argument) : bool :=
  match exclusive a, exclusive b with
  | Some g, Some h => Nat.eqb g h && negb (bool_decide (dest a = dest b))
  | _, _ => false
  end.
(** [take_action] *)
Definition take_action (st : state) (av : argument * list string) : outcome state :=
  let '(a, vs) := av in
  let store (v : value) :=
    Parsed (State (dset (dest a) v (namespace st)) (seen st ++ [a]) (remaining st) (positionals_open st) (extras st))%list in
  if existsb (conflicts a) (seen st) then Exit 2
  else match act a, vs with
       | Help, _ => Exit 0
       | StoreTrue, _ => store (VBool true)
       | Store c, s :: _ => v ← convert c s; store v
       | Store _, [] => Exit 2
       | StoreMany, _ => store (VList vs)
       end.
Fixpoint take_actions (st : state) (l : list (argument * list string)) : outcome state :=
  match l with [] => Parsed st | av :: l' => st' ← take_action st av; take_actions st' l' end.

(** ** The loop *)

(** The positional arguments are all consumed by the first run of values, however many there
    are. *)
Definition close (st : state) : state :=
  State (namespace st) (seen st) [] false (extras st).
Definition extra (st : state) : state :=
  State (namespace st) (seen st) (remaining st) (positionals_open st) true.
Definition take_positional (st : state) (s : string) : state :=
  match remaining st with
  | d :: ds => State (dset d (VStr s) (namespace st)) (seen st) ds (positionals_open st) (extras st)
  | [] => extra st
  end.
(** [skip] arguments belong to the option before; [started]: a run of values is going on. *)
Fixpoint consume (p : parser) (st : state) (started : bool) (skip : nat) (l : list (class * string)) : outcome state :=
  match l with
  | [] => Parsed st
  | (c, s) :: l' =>
      match skip with
      | S k => consume p st false k l'
      | 0 =>
          match c with
          | Plain => consume p (take_positional st s) true 0 l'
          | Dashes => consume p (if positionals_open st then st else extra st) true 0 l'
          | Opt found explicit =>
              let st := if started then close st else st in
              match found with
              | None => consume p (extra st) false 0 l'
              | Some (a, o) =>
                  r ← plan p l' a o explicit;
                  st' ← take_actions st r.1;
                  consume p st' false r.2 l'
              end
          end
      end
  end.

Definition defaults (p : parser) : dict string value :=
  (((λ a, (dest a, default_value a)) <$> optionals p) ++ ((λ d, (d, VNone)) <$> positionals p))%list.
Definition missing_required (p : parser) (given : list argument) : bool :=
  existsb (λ a, required a && negb (existsb (λ b, bool_decide (dest b = dest a)) given)) (optionals p).
Definition parse_args (p : parser) (argv : list string) : outcome (dict string value) :=
  l ← classify p argv;
  st ← consume p (State (dupdate [] (defaults p)) [] (positionals p)
                    (negb (bool_decide (positionals p = []))) false) false 0 l;
  if missing_required p (seen st) || extras st then Exit 2 else Parsed (namespace st).

(** ** What is parsed is well typed *)

(** A value that an option can have been given. *)
Definition given (a : argument) (v : value) : Prop :=
  match act a, v with
  | Store AsStr, VStr _ | Store AsInt, VInt _ => True
  | Store (Choice l), VStr s => s ∈ l
  | StoreMany, VList l => l ≠ []
  | StoreTrue, VBool b => b = true
  | _, _ => False
  end.
Definition is_help (a : argument) : bool := match act a with Help => true | _ => false end.
(** No two arguments have the same destination. *)
Definition well_formed (p : parser) : bool :=
  bool_decide (NoDup ("help" :: (dest <$> optionals p) ++ positionals p)%list)
  && forallb (λ a, negb (is_help a)) (optionals p).

Section typed.
Context (p : parser) (Hp : well_formed p = true).

Definition known (a : argument) : Prop := a ∈ help_argument :: optionals p.
Lemma known_actions k a : (k, a) ∈ option_string_actions p → known a.
Proof.
  unfold option_string_actions. rewrite list_elem_of_bind. intros (b&Hk&Hb).
  by apply list_elem_of_fmap in Hk as (s&[= -> ->]&_).
Qed.
Lemma known_exact s a : exact p s = Some a → known a.
Proof. intros H%dget_Some_in. by eapply known_actions. Qed.
Lemma known_tuples s : Forall (λ t, known t.1.1) (option_tuples p s).
Proof.
  apply Forall_forall. intros t. unfold option_tuples.
  destruct (startswith "--" s); [destruct (cut "=" s) as [[o e]|]|];
    rewrite list_elem_of_omap; intros ([k a]&Hin&H); repeat case_match; simplify_eq/=; by eapply known_actions.
Qed.
Definition known_class (c : class) : Prop := match c with Opt (Some (a, _)) _ => known a | _ => True end.
Lemma known_optional s c : parse_optional p s = Parsed c → known_class c.
Proof.
  unfold parse_optional. pose proof (known_tuples s) as Ht.
  assert (∀ c, match option_tuples p s with
    | [] => Parsed (if negative_number s || contains " " s then Plain else Opt None None)
    | [(a, o, e)] => Parsed (Opt (Some (a, o)) e)
    | _ => Exit 2 end = Parsed c → known_class c) as Hby.
  { intros c'. destruct (option_tuples p s) as [|[[a o] e] [|]]; [| |done].
    - case_match; by intros [= <-].
    - intros [= <-]. by apply Forall_cons in Ht as [Ht _]. }
  destruct s as [|d rest]; [by intros [= <-]|].
  destruct (decide (d = "-"%char)) as [->|Hd].
  - destruct (exact p _) as [a|] eqn:E; [intros [= <-]; by apply known_exact in E|].
    case_decide; [by intros [= <-]|]. destruct (cut "=" _) as [[o e]|]; [|apply Hby].
    destruct (exact p o) as [a|] eqn:E'; [|apply Hby]. intros [= <-]. by apply known_exact in E'.
  - intros H. assert (c = Plain) as ->; [|done].
    destruct d as [[] [] [] [] [] [] [] []]; first [by injection H as <-|done].
Qed.
Lemma known_classes argv l : classify p argv = Parsed l → Forall (λ x, known_class x.1) l.
Proof.
  revert l. induction argv as [|s argv IH]; intros l; cbn [classify]; [intros [= <-]; constructor|].
  case_decide.
  - intros [= <-]. constructor; [done|]. apply Forall_fmap, Forall_true. done.
  - intros (c&Hc&(l'&Hl&[= <-])%bind_Parsed)%bind_Parsed. constructor; [by eapply known_optional|by apply IH].
Qed.

(** An action with the values that it needs. *)
Definition planned (av : argument * list string) : Prop :=
  known av.1 ∧ (act av.1 = StoreMany → av.2 ≠ []).
Lemma planned_args a l vs : known a → plan_args a l = Parsed vs → planned (a, vs).
Proof.
  intros Ha. unfold plan_args. intros H. split; [done|]. cbn [fst snd]. intros E. rewrite E in H.
  destruct (plain_run l); [done|]. by injection H as <-.
Qed.
Lemma planned_explicit l e : ∀ a single r,
  known a → plan_explicit p l a single e = Parsed r → Forall planned r.1.
Proof.
  induction e as [e IH] using (induction_ltof1 _ String.length). unfold ltof in IH.
  intros a single r Ha. destruct e as [|c e]; cbn [plan_explicit].
  - destruct (act a) eqn:E; try done; intros [= <-]; (constructor; [|constructor]); by split.
  - destruct (act a) eqn:E; try (intros [= <-]; (constructor; [|constructor]); by split).
    all: destruct single; [|done]; rewrite bind_Parsed; intros (a'&Ha'%or_usage_Parsed%known_exact&H).
    all: apply bind_Parsed in H as (r'&Hr&[= <-]); cbn [fst]; (constructor; [split; [done|cbn [fst]; by rewrite E]|]).
    all: destruct e as [|d e];
      [apply bind_Parsed in Hr as (vs&Hvs&[= <-]); constructor; [by eapply planned_args|constructor]|].
    all: assert (∀ u, String.length u < S (S (String.length e)) → plan_explicit p l a' true u = Parsed r' →
      Forall planned r'.1) as Hu by (intros u Hu; by apply IH).
    all: destruct d as [[] [] [] [] [] [] [] []]; (eapply Hu; [|exact Hr]); cbn [String.length]; lia.
Qed.
Lemma planned_plan l a o e r : known a → plan p l a o e = Parsed r → Forall planned r.1.
Proof.
  intros Ha. unfold plan. destruct e as [e|]; [by apply planned_explicit|].
  intros (vs&Hvs&[= <-])%bind_Parsed. constructor; [by eapply planned_args|constructor].
Qed.

(** ** The invariant of the loop *)

Lemma optional_dests a b : a ∈ optionals p → b ∈ optionals p → dest a = dest b → a = b.
Proof using Hp.
  unfold well_formed in Hp. apply andb_true_iff in Hp as [Hnd%bool_decide_eq_true _].
  apply NoDup_cons in Hnd as [_ (Hnd&_&_)%NoDup_app]. intros Ha Hb E.
  apply list_elem_of_lookup in Ha as [i Hi], Hb as [j Hj].
  assert (i = j) as ->; [|congruence]. eapply NoDup_lookup; [exact Hnd|..]; rewrite list_lookup_fmap.
  - by rewrite Hi.
  - rewrite Hj. cbn. by rewrite E.
Qed.
Lemma positional_dest a d : a ∈ optionals p → d ∈ positionals p → dest a ≠ d.
Proof using Hp.
  unfold well_formed in Hp. apply andb_true_iff in Hp as [Hnd%bool_decide_eq_true _].
  apply NoDup_cons in Hnd as [_ (_&Hno&_)%NoDup_app]. intros Ha Hd <-.
  apply (Hno (dest a)); [|done]. apply list_elem_of_fmap. by exists a.
Qed.

(** Every option has its default or a value that it was given, every positional argument a
    text if any; options that exclude each other were not both given. *)
Record state_ok (st : state) : Prop := StateOk {
  ok_seen : Forall (λ a, a ∈ optionals p) (seen st);
  ok_remaining : Forall (λ d, d ∈ positionals p) (remaining st);
  ok_optional : ∀ a, a ∈ optionals p →
    if decide (a.(dest) ∈ dest <$> seen st) then ∃ v, dget (dest a) (namespace st) = Some v ∧ given a v
    else dget (dest a) (namespace st) = Some (default_value a);
  ok_positional : ∀ d, d ∈ positionals p →
    dget d (namespace st) = Some VNone ∨ ∃ s, dget d (namespace st) = Some (VStr s);
  ok_exclusive : ∀ a b, a ∈ seen st → b ∈ seen st → conflicts a b = false
}.

Lemma conflicts_sym a b : conflicts a b = conflicts b a.
Proof.
  unfold conflicts. destruct (exclusive a), (exclusive b); try done. rewrite Nat.eqb_sym. do 2 f_equal.
  by apply bool_decide_ext.
Qed.
Lemma conflicts_refl a : conflicts a a = false.
Proof. unfold conflicts. destruct (exclusive a); [|done]. by rewrite bool_decide_eq_true_2, andb_false_r. Qed.

Lemma store_ok st a v :
  state_ok st → a ∈ optionals p → given a v → existsb (conflicts a) (seen st) = false →
  state_ok (State (dset (dest a) v (namespace st)) (seen st ++ [a]) (remaining st) (positionals_open st) (extras st)).
Proof using Hp.
  intros [Hs Hr Ho Hpos He] Ha Hv Hc. split; cbn [seen remaining namespace]; try done.
  - apply Forall_app_2; [done|by constructor].
  - intros b Hb. rewrite fmap_app. specialize (Ho b Hb). destruct (decide (dest b = dest a)) as [E|E].
    + rewrite decide_True by (rewrite elem_of_app; right; rewrite E; left). rewrite E, dget_dset_eq.
      exists v. split; [done|]. by rewrite (optional_dests b a).
    + rewrite dget_dset_ne by done. cbn [fmap list_fmap].
      destruct (decide (dest b ∈ dest <$> seen st)).
      * rewrite decide_True; [done|]. apply elem_of_app. by left.
      * rewrite decide_False; [done|]. rewrite elem_of_app, list_elem_of_singleton. naive_solver.
  - intros d Hd. rewrite dget_dset_ne; [by apply Hpos|]. by apply positional_dest.
  - assert (∀ b, b ∈ seen st → conflicts a b = false) as Hab.
    { intros b Hb. apply not_true_is_false. intros E. rewrite <- not_true_iff_false in Hc. apply Hc.
      apply existsb_exists. exists b. split; [by apply list_elem_of_In|done]. }
    intros b c. rewrite !elem_of_app, !list_elem_of_singleton.
    intros [Hb| ->] [Hc'| ->]; [by apply He|rewrite conflicts_sym; by apply Hab|by apply Hab|apply conflicts_refl].
Qed.
Lemma take_action_ok st av st' :
  state_ok st → planned av → take_action st av = Parsed st' → state_ok st'.
Proof using Hp.
  intros Hst [Hk Hm]. destruct av as [a vs]. cbn [fst snd] in *. unfold take_action.
  destruct (existsb (conflicts a) (seen st)) eqn:Hc; [done|].
  apply elem_of_cons in Hk as [->|Ha]; [done|].
  destruct (act a) as [c| | |] eqn:E; [destruct vs as [|s vs]; [done|]|..|done].
  - rewrite bind_Parsed. intros (v&Hv&[= <-]). apply store_ok; try done. unfold given. rewrite E.
    destruct c; cbn [convert] in Hv; [by injection Hv as <-| |]; case_match; simplify_eq/=; done.
  - intros [= <-]. apply store_ok; try done. unfold given. rewrite E. by apply Hm.
  - intros [= <-]. apply store_ok; try done. unfold given. by rewrite E.
Qed.
Lemma take_actions_ok st l st' :
  state_ok st → Forall planned l → take_actions st l = Parsed st' → state_ok st'.
Proof using Hp.
  intros Hst Hl. revert st Hst. induction Hl as [|av l Hav _ IH]; intros st Hst; cbn [take_actions];
    [by intros [= <-]|]. rewrite bind_Parsed. intros (st1&H1&H). eapply IH; [|exact H]. by eapply take_action_ok.
Qed.
Lemma close_ok st : state_ok st → state_ok (close st).
Proof. intros []. by split. Qed.
Lemma extra_ok st : state_ok st → state_ok (extra st).
Proof. intros []. by split. Qed.
Lemma take_positional_ok st s : state_ok st → state_ok (take_positional st s).
Proof using Hp.
  intros Hst. unfold take_positional. destruct (remaining st) as [|d ds] eqn:E; [by apply extra_ok|].
  destruct Hst as [Hs Hr Ho Hpos He]. rewrite E in Hr. apply Forall_cons in Hr as [Hd Hr].
  split; cbn [seen remaining namespace]; try done.
  - intros a Ha. rewrite dget_dset_ne; [by apply Ho|]. intros Ed. by eapply positional_dest.
  - intros d' Hd'. destruct (decide (d = d')) as [->|]; [right; exists s; by rewrite dget_dset_eq|].
    rewrite dget_dset_ne by done. by apply Hpos.
Qed.
Lemma consume_ok l st started skip st' :
  state_ok st → Forall (λ x, known_class x.1) l → consume p st started skip l = Parsed st' → state_ok st'.
Proof using Hp.
  intros Hst Hl. revert st started skip Hst. induction Hl as [|[c s] l Hc Hl IH]; intros st started skip Hst;
    cbn [consume]; [by intros [= <-]|].
  destruct skip as [|k]; [|by apply IH]. cbn [fst] in Hc.
  assert (state_ok (if started then close st else st)) as Hst' by (destruct started; auto using close_ok).
  destruct c as [|[[a o]|] e|].
  - by apply IH, take_positional_ok.
  - rewrite bind_Parsed. intros (r&Hr&(st1&H1&H)%bind_Parsed). eapply IH; [|exact H].
    eapply take_actions_ok; [exact Hst'| |exact H1]. by eapply planned_plan.
  - by apply IH, extra_ok.
  - apply IH. destruct (positionals_open st); auto using extra_ok.
Qed.

Lemma initial_ok b e : state_ok (State (dupdate [] (defaults p)) [] (positionals p) b e).
Proof using Hp.
  assert (wf (defaults p)) as Hw.
  { unfold wf, keys, defaults. rewrite fmap_app, <- !list_fmap_compose. cbn [fst compose].
    unfold well_formed in Hp. apply andb_true_iff in Hp as [Hnd%bool_decide_eq_true _].
    apply NoDup_cons in Hnd as [_ Hnd].
    rewrite <- (list_fmap_id (positionals p)) in Hnd. exact Hnd. }
  rewrite dupdate_items by done. split; cbn [seen remaining namespace].
  - constructor.
  - by apply Forall_forall.
  - intros a Ha. rewrite decide_False by apply not_elem_of_nil. apply in_dget; [done|]. unfold defaults.
    apply elem_of_app. left. apply list_elem_of_fmap. by exists a.
  - intros d Hd. left. apply in_dget; [done|]. unfold defaults.
    apply elem_of_app. right. apply list_elem_of_fmap. by exists d.
  - intros a c Ha. by apply not_elem_of_nil in Ha.
Qed.

(** What a namespace holds. *)
Definition read_ok (ns : dict string value) : Prop :=
  (∀ a, a ∈ optionals p → ∃ v, dget (dest a) ns = Some v ∧ (given a v ∨ required a = false ∧ v = default_value a))
  ∧ (∀ d, d ∈ positionals p → dget d ns = Some VNone ∨ ∃ s, dget d ns = Some (VStr s))
  ∧ ∀ a b, a ∈ optionals p → b ∈ optionals p → conflicts a b = true →
      dget (dest a) ns = Some (default_value a) ∨ dget (dest b) ns = Some (default_value b).
Lemma parse_args_ok argv ns : parse_args p argv = Parsed ns → read_ok ns.
Proof using Hp.
  unfold parse_args. intros (l&Hl&(st&Hst&H)%bind_Parsed)%bind_Parsed. apply known_classes in Hl.
  apply consume_ok in Hst as [Hs Hr Ho Hpos He]; [|apply initial_ok|done].
  destruct (missing_required p (seen st)) eqn:Hm; [done|]. destruct (extras st); [done|]. injection H as <-.
  assert (∀ a, dest a ∈ dest <$> seen st → a ∈ optionals p → a ∈ seen st) as Hin.
  { intros a (b&E&Hb)%list_elem_of_fmap Ha. rewrite Forall_forall in Hs. by rewrite (optional_dests a b) by auto. }
  split; [|split; [done|]].
  - intros a Ha. specialize (Ho a Ha). destruct (decide (dest a ∈ dest <$> seen st)) as [Hd|Hd].
    + destruct Ho as (v&Hv&Hg). eauto.
    + exists (default_value a). split; [done|]. right. split; [|done]. apply not_true_is_false. intros Hreq.
      rewrite <- not_true_iff_false in Hm. apply Hm. apply existsb_exists. exists a.
      split; [by apply list_elem_of_In|]. rewrite Hreq. cbn [andb]. apply negb_true_iff, not_true_iff_false.
      intros (b&Hb&E%bool_decide_eq_true)%existsb_exists. apply Hd. apply list_elem_of_fmap.
      exists b. split; [done|by apply list_elem_of_In].
  - intros a b Ha Hb Hc. pose proof (Ho a Ha) as Hoa. pose proof (Ho b Hb) as Hob.
    destruct (decide (dest a ∈ dest <$> seen st)) as [Hda|]; [|by left].
    destruct (decide (dest b ∈ dest <$> seen st)) as [Hdb|]; [|by right].
    rewrite (He a b) in Hc by auto. done.
Qed.
End typed.

(** ** A command line that gives every option by its long name is parsed as it was meant *)

Definition long (a : argument) : string := default "" (last (option_strings a)).
(** An argument that is not taken for an option. *)
Definition plain (v : string) : bool := negb (startswith "-" v).
Definition unparse_one (av : argument * list string) : list string :=
  let '(a, vs) := av in
  match act a with
  | Store _ => (λ v, long a +:+ "=" +:+ v) <$> vs
  | StoreMany => long a :: vs
  | StoreTrue | Help => [long a]
  end.
Definition items_one (av : argument * list string) : list (class * string) :=
  let '(a, vs) := av in
  match act a with
  | Store _ => (λ v, (Opt (Some (a, long a)) (Some v), long a +:+ "=" +:+ v)) <$> vs
  | StoreMany => (Opt (Some (a, long a)) None, long a) :: ((λ v, (Plain, v)) <$> vs)
  | StoreTrue | Help => [(Opt (Some (a, long a)) None, long a)]
  end.
Definition tidy (p : parser) : bool :=
  forallb (λ a, bool_decide (exact p (long a) = Some a) && startswith "--" (long a)
                && negb (bool_decide (long a = "--"))) (optionals p)
  && forallb (λ kv : string * argument, sforall (λ c, bool_decide ("="%char ≠ c)) kv.1) (option_string_actions p).

Lemma cut_app c a b : lacks c a → cut c (a +:+ String c b) = Some (a, b).
Proof.
  unfold lacks. induction a as [|d a IH]; cbn [sforall].
  - intros _. rewrite sapp_nil_l. cbn [cut]. by rewrite Ascii.eqb_refl.
  - rewrite andb_true_iff, bool_decide_eq_true. intros [Hd Ha]. rewrite sapp_cons. cbn [cut].
    rewrite IH by done. by destruct (Ascii.eqb_spec c d).
Qed.

Section round_trip.
Context (p : parser) (Ht : tidy p = true).

Definition setting_ok (av : argument * list string) : Prop :=
  av.1 ∈ optionals p ∧
  match act av.1 with
  | Store _ => ∃ v, av.2 = [v]
  | StoreMany => av.2 ≠ [] ∧ Forall (λ v, plain v = true) av.2
  | StoreTrue => av.2 = []
  | Help => False
  end.
Lemma long_known a : a ∈ optionals p →
  exact p (long a) = Some a ∧ startswith "--" (long a) = true ∧ long a ≠ "--" ∧ lacks "=" (long a).
Proof using Ht.
  unfold tidy in Ht. apply andb_true_iff in Ht as [Hl Hk]. rewrite forallb_forall in Hl, Hk.
  intros Ha%list_elem_of_In. specialize (Hl _ Ha). rewrite !andb_true_iff, negb_true_iff in Hl.
  destruct Hl as [[E%bool_decide_eq_true Hs] Hn%bool_decide_eq_false]. split_and!; try done.
  apply (Hk (long a, a)). apply list_elem_of_In, dget_Some_in. exact E.
Qed.
Lemma exact_lacks s a : exact p s = Some a → lacks "=" s.
Proof using Ht.
  intros H%dget_Some_in. unfold tidy in Ht. apply andb_true_iff in Ht as [_ Hk]. rewrite forallb_forall in Hk.
  by apply (Hk (s, a)), list_elem_of_In.
Qed.
Lemma not_lacks c a b : ¬ lacks c (a +:+ String c b).
Proof. unfold lacks. rewrite sforall_app. cbn [sforall]. rewrite bool_decide_eq_false_2 by auto. by rewrite andb_false_r. Qed.

Lemma long_dash a : a ∈ optionals p → ∃ r, long a = String "-" r.
Proof using Ht.
  intros Ha. destruct (long_known a Ha) as (_&Hs&_). apply prefix_spec in Hs as [r ->]. by exists ("-" +:+ r).
Qed.
Lemma parse_long a : a ∈ optionals p → parse_optional p (long a) = Parsed (Opt (Some (a, long a)) None).
Proof using Ht.
  intros Ha. destruct (long_known a Ha) as (He&_). destruct (long_dash a Ha) as [r Hr].
  unfold parse_optional. rewrite He, Hr. done.
Qed.
Lemma parse_long_value a v : a ∈ optionals p →
  parse_optional p (long a +:+ "=" +:+ v) = Parsed (Opt (Some (a, long a)) (Some v)).
Proof using Ht.
  intros Ha. destruct (long_known a Ha) as (He&Hs&_&Hl). destruct (long_dash a Ha) as [r Hr].
  change ("=" +:+ v) with (String "=" v). unfold parse_optional.
  destruct (exact p (long a +:+ String "=" v)) as [b|] eqn:E; [by apply exact_lacks, not_lacks in E|].
  rewrite cut_app, He by done. rewrite Hr, sapp_cons. by destruct r.
Qed.
Lemma parse_plain v : plain v = true → parse_optional p v = Parsed Plain ∧ v ≠ "--".
Proof.
  unfold plain, startswith. intros H%negb_true_iff. destruct v as [|c v]; [done|].
  split; [|intros [= -> ->]; done].
  assert (c ≠ "-"%char) by (intros ->; by destruct v).
  unfold parse_optional. by destruct c as [[] [] [] [] [] [] [] []].
Qed.

Lemma classify_ahead l k c :
  Forall (λ s, s ≠ "--") l → classify p l = Parsed c →
  classify p (l ++ k) = c' ← classify p k; Parsed (c ++ c')%list.
Proof.
  intros Hl. revert c. induction Hl as [|s l Hs Hl IH]; intros c; cbn [classify app].
  - intros [= <-]. by destruct (classify p k).
  - rewrite !decide_False by done. intros (x&Hx&(y&Hy&[= <-])%bind_Parsed)%bind_Parsed.
    rewrite Hx. cbn [mbind outcome_bind]. rewrite (IH _ Hy). by destruct (classify p k).
Qed.
Lemma classify_plain vs k : Forall (λ v, plain v = true) vs →
  classify p (vs ++ k) = c ← classify p k; Parsed (((λ v, (Plain, v)) <$> vs) ++ c)%list.
Proof.
  intros Hvs. apply classify_ahead.
  - eapply Forall_impl; [exact Hvs|]. intros v Hv. by apply parse_plain.
  - induction Hvs as [|v vs Hv Hvs IH]; [done|]. cbn [classify]. destruct (parse_plain v Hv) as [E Hn].
    rewrite decide_False, E by done. cbn [mbind outcome_bind]. by rewrite IH.
Qed.
Lemma classify_settings settings :
  Forall setting_ok settings → classify p (settings ≫= unparse_one) = Parsed (settings ≫= items_one).
Proof using Ht.
  induction 1 as [|[a vs] l [Ha Hv] Hl IH]; [done|]. cbn [fst snd] in *.
  change (((a, vs) :: l) ≫= unparse_one) with (unparse_one (a, vs) ++ (l ≫= unparse_one))%list.
  change (((a, vs) :: l) ≫= items_one) with (items_one (a, vs) ++ (l ≫= items_one))%list.
  destruct (long_known a Ha) as (_&_&Hn&_). unfold unparse_one at 1, items_one at 1.
  destruct (act a) as [c| | |]; [| | |done].
  - destruct Hv as [v ->]. cbn [fmap list_fmap app classify].
    rewrite decide_False; [|intros E; apply (f_equal (λ s, sforall (λ c, bool_decide ("="%char ≠ c)) s)) in E;
      revert E; rewrite sforall_app; by rewrite andb_false_r].
    rewrite parse_long_value by done. cbn [mbind outcome_bind]. by rewrite IH.
  - destruct Hv as [_ Hv]. cbn [app classify]. rewrite decide_False, parse_long by done.
    cbn [mbind outcome_bind]. rewrite classify_plain, IH by done. done.
  - cbn [app classify]. rewrite decide_False, parse_long by done. cbn [mbind outcome_bind]. by rewrite IH.
Qed.

(** *** What the options do *)

Lemma consume_skip st xs l : consume p st false (length xs) (xs ++ l) = consume p st false 0 l.
Proof. induction xs as [|[c s] xs IH]; [done|]. exact IH. Qed.
Lemma plain_run_settings settings : Forall setting_ok settings → plain_run (settings ≫= items_one) = [].
Proof.
  intros [|[a vs] l [_ Hv] _]; [done|]. cbn [fst snd] in *.
  change (((a, vs) :: l) ≫= items_one) with (items_one (a, vs) ++ (l ≫= items_one))%list.
  unfold items_one at 1. destruct (act a); try done. by destruct Hv as [v ->].
Qed.
Lemma plain_run_app vs l : plain_run (((λ v, (Plain, v)) <$> vs) ++ l) = (vs ++ plain_run l)%list.
Proof. induction vs as [|v vs IH]; [done|]. cbn [fmap list_fmap app plain_run]. by rewrite <- IH. Qed.
Lemma take_actions_one st av l : take_actions st (av :: l) = st' ← take_actions st [av]; take_actions st' l.
Proof. cbn [take_actions]. by destruct (take_action st av). Qed.

Lemma consume_settings settings st :
  Forall setting_ok settings → consume p st false 0 (settings ≫= items_one) = take_actions st settings.
Proof using Ht.
  intros Hs. revert st. induction Hs as [|[a vs] l [Ha Hv] Hl IH]; intros st; [done|]. cbn [fst snd] in *.
  change (((a, vs) :: l) ≫= items_one) with (items_one (a, vs) ++ (l ≫= items_one))%list.
  rewrite take_actions_one. unfold items_one at 1. destruct (long_known a Ha) as (_&Hlong&_).
  destruct (act a) as [c| | |] eqn:E; [| | |done].
  - destruct Hv as [v ->]. cbn [fmap list_fmap app consume]. unfold plan. rewrite Hlong.
    assert (plan_explicit p (l ≫= items_one) a (negb true) v = Parsed ([(a, [v])], 0)) as ->
      by (destruct v; cbn [plan_explicit]; by rewrite E).
    cbn [mbind outcome_bind fst snd]. destruct (take_actions st _); [|done]. apply IH.
  - destruct Hv as [Hne _]. cbn [app consume]. unfold plan, plan_args. rewrite E, plain_run_app, plain_run_settings by done.
    rewrite app_nil_r. destruct vs as [|v vs]; [done|]. cbn [mbind outcome_bind fst snd].
    destruct (take_actions st _) as [st'|]; [|done]. cbn [mbind outcome_bind]. rewrite <- IH.
    rewrite <- (length_fmap (λ v, (Plain, v)) (v :: vs)). apply consume_skip.
  - subst vs. cbn [app consume]. unfold plan, plan_args. rewrite E. cbn [mbind outcome_bind fst snd length].
    destruct (take_actions st _); [|done]. apply IH.
Qed.
Lemma consume_settings_after settings st :
  Forall setting_ok settings → settings ≠ [] →
  consume p st true 0 (settings ≫= items_one) = take_actions (close st) settings.
Proof using Ht.
  intros Hs Hne. rewrite <- consume_settings by done. destruct Hs as [|[a vs] l [_ Hv] _]; [done|]. cbn [fst snd] in *.
  change (((a, vs) :: l) ≫= items_one) with (items_one (a, vs) ++ (l ≫= items_one))%list.
  unfold items_one at 1 3. destruct (act a); [|done|done|done]. by destruct Hv as [v ->].
Qed.

(** The value that an option gets. *)
Definition pair_of (av : argument * list string) : option (string * value) :=
  match act av.1, av.2 with
  | Store c, [s] => match convert c s with Parsed v => Some (dest av.1, v) | Exit _ => None end
  | StoreMany, vs => Some (dest av.1, VList vs)
  | StoreTrue, _ => Some (dest av.1, VBool true)
  | _, _ => None
  end.
Lemma take_actions_values settings st pairs :
  (∀ a b, a ∈ (seen st ++ settings.*1)%list → b ∈ (seen st ++ settings.*1)%list → conflicts a b = false) →
  mapM pair_of settings = Some pairs →
  take_actions st settings
  = Parsed (State (dupdate (namespace st) pairs) (seen st ++ settings.*1) (remaining st)
              (positionals_open st) (extras st)).
Proof.
  revert st pairs. induction settings as [|[a vs] l IH]; intros st pairs Hc Hpairs.
  { injection Hpairs as <-. cbn [fmap list_fmap take_actions]. rewrite app_nil_r. by destruct st. }
  cbn [mapM] in Hpairs. apply bind_Some in Hpairs as (y&Hy&(k&Hk&[= <-])%bind_Some).
  assert (take_action st (a, vs)
    = Parsed (State (dset y.1 y.2 (namespace st)) (seen st ++ [a]) (remaining st) (positionals_open st) (extras st)))
    as E.
  { unfold take_action. assert (existsb (conflicts a) (seen st) = false) as ->.
    { apply not_true_is_false. intros (b&Hb&Hcb)%existsb_exists. rewrite (Hc a b) in Hcb; [done|..].
      - apply elem_of_app. right. left.
      - apply elem_of_app. left. by apply list_elem_of_In. }
    unfold pair_of in Hy. cbn [fst snd] in Hy. destruct (act a) as [c| | |]; [|by injection Hy as <-|by injection Hy as <-|done].
    destruct vs as [|v [|]]; try done. destruct (convert c v); [|done]. by injection Hy as <-. }
  cbn [take_actions]. rewrite E. cbn [mbind outcome_bind]. rewrite (IH _ k); [| |exact Hk].
  - cbn [namespace seen remaining positionals_open extras fmap list_fmap fst]. rewrite <- app_assoc. done.
  - cbn [seen]. rewrite <- app_assoc. exact Hc.
Qed.

Lemma consume_positionals (vals : list string) st b l :
  consume p st b 0 (((λ v, (Plain, v)) <$> vals) ++ l)
  = consume p (foldl take_positional st vals) (match vals with [] => b | _ => true end) 0 l.
Proof.
  revert st b. induction vals as [|v vals IH]; intros st b; [done|]. cbn [fmap list_fmap app consume foldl].
  rewrite IH. by destruct vals.
Qed.
Lemma take_positionals (vals : list string) ns sn ps o e :
  (length vals <= length ps)%nat →
  foldl take_positional (State ns sn ps o e) vals
  = State (dupdate ns (zip ps (VStr <$> vals))) sn (drop (length vals) ps) o e.
Proof.
  revert ns ps. induction vals as [|v vals IH]; intros ns ps Hl; [by destruct ps|].
  destruct ps as [|d ps]; [cbn in Hl; lia|]. cbn [foldl take_positional remaining namespace seen positionals_open extras].
  rewrite IH by (cbn in Hl; lia). done.
Qed.

(** The options of a command line in any order after its positional arguments. *)
Definition no_conflicts (settings : list (argument * list string)) : Prop :=
  ∀ a b, a ∈ settings.*1 → b ∈ settings.*1 → conflicts a b = false.
Lemma parse_unparse (vals : list string) settings pairs :
  Forall (λ v, plain v = true) vals → (length vals <= length (positionals p))%nat →
  Forall setting_ok settings → no_conflicts settings → mapM pair_of settings = Some pairs →
  missing_required p settings.*1 = false →
  parse_args p (vals ++ (settings ≫= unparse_one))%list
  = Parsed (dupdate (dupdate (dupdate [] (defaults p)) (zip (positionals p) (VStr <$> vals))) pairs).
Proof using Ht.
  intros Hvals Hlen Hs Hc Hpairs Hm. unfold parse_args. rewrite classify_plain, classify_settings by done.
  cbn [mbind outcome_bind]. rewrite consume_positionals, take_positionals by done.
  set (st := State _ _ _ _ _).
  assert (∃ st', consume p st (match vals with [] => false | _ => true end) 0 (settings ≫= items_one) = Parsed st'
    ∧ namespace st' = dupdate (namespace st) pairs ∧ seen st' = settings.*1 ∧ extras st' = false)
    as (st'&E&Hns&Hseen&Hex).
  { destruct vals as [|v vals].
    - rewrite consume_settings, (take_actions_values _ _ pairs) by done. by eexists.
    - destruct (decide (settings = [])) as [->|Hne].
      + injection Hpairs as <-. by exists st.
      + rewrite consume_settings_after, (take_actions_values _ _ pairs) by done. by eexists. }
  rewrite E. cbn [mbind outcome_bind]. by rewrite Hseen, Hex, Hm, Hns.
Qed.
End round_trip.
