(* ===== verification/Regex.v ===== *)
(** * Regular expressions

    A model of the part of Python's [re] that the repository uses: character
    classes, sequence, alternation, greedy and lazy repetition of a class,
    optional groups, numbered captures and the end anchor.  [rmatch] is the
    backtracking matcher with its priorities (left alternative first, longest
    repetition first when greedy, shortest first when lazy); [rmatches] is the
    declarative reading of a pattern, and [rmatch_spec] says that the matcher
    finds a match exactly when the pattern has one. *)

From S2P Require Import Prelude PyStr.
From stdpp Require Import options.
Local Open Scope string_scope.

(** ** Patterns *)

Inductive regex :=
| RChar (p : ascii → bool)                   (* one character of a class *)
| REps
| RSeq (r1 r2 : regex)
| RAlt (r1 r2 : regex)
| RStar (greedy : bool) (p : ascii → bool)   (* class* or class*? *)
| RGroup (n : nat) (r : regex)               (* ( ... ), the n-th group *)
| REnd.                                      (* $ *)

Declare Scope regex_scope.
Delimit Scope regex_scope with re.
Bind Scope regex_scope with regex.
Infix "⊙" := RSeq (at level 51, right associativity) : regex_scope.
Local Open Scope regex_scope.

Definition cis (c : ascii) : ascii → bool := λ d, bool_decide (c = d).
Definition cnot (p : ascii → bool) : ascii → bool := λ d, negb (p d).
Definition RPlus (p : ascii → bool) : regex := RChar p ⊙ RStar true p.
Definition ROpt (r : regex) : regex := RAlt r REps.
Fixpoint RRep (n : nat) (r : regex) : regex :=
  match n with 0 => REps | S 0 => r | S k => r ⊙ RRep k r end.
(** A literal, and a literal under [re.IGNORECASE]. *)
Fixpoint RLit (s : string) : regex :=
  match s with
  | "" => REps
  | String c "" => RChar (cis c)
  | String c s' => RChar (cis c) ⊙ RLit s'
  end.
Fixpoint RLitI (s : string) : regex :=
  match s with
  | "" => REps
  | String c s' => RChar (λ d, bool_decide (lower_char c = lower_char d)) ⊙ RLitI s'
  end.

(** ** The matcher *)

Record rstate := RState {
  st_pos : nat;                     (* characters consumed so far *)
  st_rest : string;                 (* what is left *)
  st_caps : list (nat * string)     (* captures, latest first *)
}.

Definition set_cap (n : nat) (from st : rstate) : rstate :=
  RState (st_pos st) (st_rest st)
    ((n, str_take (st_pos st - st_pos from) (st_rest from)) :: st_caps st).

Definition at_end (s : string) : bool :=
  match s with
  | "" => true
  | String c "" => (code c =? 10)%N
  | _ => false
  end.

Section rmatch.
Context {A : Type}.

Section star.
Variables (greedy : bool) (p : ascii → bool) (caps : list (nat * string))
          (k : rstate → option A).
Fixpoint rstar (i : nat) (s : string) : option A :=
  let stop := k (RState i s caps) in
  match s with
  | "" => stop
  | String c s' =>
      if p c then
        if greedy
        then match rstar (S i) s' with Some a => Some a | None => stop end
        else match stop with Some a => Some a | None => rstar (S i) s' end
      else stop
  end.
End star.

Fixpoint rmatch (r : regex) (st : rstate) (k : rstate → option A) : option A :=
  match r with
  | RChar p =>
      match st_rest st with
      | "" => None
      | String c s => if p c then k (RState (S (st_pos st)) s (st_caps st)) else None
      end
  | REps => k st
  | RSeq r1 r2 => rmatch r1 st (λ st', rmatch r2 st' k)
  | RAlt r1 r2 =>
      match rmatch r1 st k with Some a => Some a | None => rmatch r2 st k end
  | RStar g p => rstar g p (st_caps st) k (st_pos st) (st_rest st)
  | RGroup n r => rmatch r st (λ st', k (set_cap n st st'))
  | REnd => if at_end (st_rest st) then k st else None
  end.
End rmatch.

(** ** What a pattern matches *)

Inductive rmatches : regex → rstate → rstate → Prop :=
| M_char p c s i caps :
    p c = true → rmatches (RChar p) (RState i (String c s) caps) (RState (S i) s caps)
| M_eps st : rmatches REps st st
| M_seq r1 r2 st st' st'' :
    rmatches r1 st st' → rmatches r2 st' st'' → rmatches (r1 ⊙ r2) st st''
| M_alt_l r1 r2 st st' : rmatches r1 st st' → rmatches (RAlt r1 r2) st st'
| M_alt_r r1 r2 st st' : rmatches r2 st st' → rmatches (RAlt r1 r2) st st'
| M_star_nil g p st : rmatches (RStar g p) st st
| M_star_cons g p c s i caps st :
    p c = true → rmatches (RStar g p) (RState (S i) s caps) st →
    rmatches (RStar g p) (RState i (String c s) caps) st
| M_group n r st st' :
    rmatches r st st' → rmatches (RGroup n r) st (set_cap n st st')
| M_end st : at_end (st_rest st) = true → rmatches REnd st st.
#[export] Hint Constructors rmatches : py.

Section spec.
Context {A : Type}.
Implicit Types (k : rstate → option A).

Lemma rstar_sound g p caps k i s a :
  rstar g p caps k i s = Some a →
  ∃ st', rmatches (RStar g p) (RState i s caps) st' ∧ k st' = Some a.
Proof.
  revert i. induction s as [|c s IH]; intros i; simpl; [eauto with py|].
  destruct (p c) eqn:Hp; [|eauto with py].
  destruct g; case_match; intros; simplify_eq; eauto with py;
    edestruct IH as (?&?&?); eauto with py.
Qed.

Lemma rstar_complete g p caps k i s st' :
  rmatches (RStar g p) (RState i s caps) st' → is_Some (k st') →
  is_Some (rstar g p caps k i s).
Proof.
  revert i. induction s as [|c s IH]; intros i Hm Hk; simpl.
  - by inversion Hm; subst.
  - inversion Hm; subst.
    + destruct (p c); [|done].
      destruct g; case_match; eauto. by destruct Hk.
    + match goal with H : p c = true |- _ => rewrite H end.
      edestruct IH as [a Ha]; [eauto..|]. rewrite Ha.
      destruct g; [done|]. by case_match.
Qed.

Lemma rmatch_sound r st k a :
  rmatch r st k = Some a → ∃ st', rmatches r st st' ∧ k st' = Some a.
Proof.
  revert st k. induction r as [p| |r1 IH1 r2 IH2|r1 IH1 r2 IH2|g p|n r IH|];
    intros [i s caps] k; simpl.
  - destruct s; [done|]. destruct (p a0) eqn:?; [|done]. eauto with py.
  - eauto with py.
  - intros (st1&?&(st2&?&?)%IH2)%IH1. eauto with py.
  - destruct (rmatch r1 _ k) eqn:E.
    + intros [= ->]. apply IH1 in E as (?&?&?). eauto with py.
    + intros (?&?&?)%IH2. eauto with py.
  - apply rstar_sound.
  - intros (st1&?&?)%IH. eauto with py.
  - case_match; [|done]. eauto with py.
Qed.

Lemma rmatch_complete r st k st' :
  rmatches r st st' → is_Some (k st') → is_Some (rmatch r st k).
Proof.
  intros Hm. revert k. induction Hm; intros k Hk; simpl.
  - by case_match.
  - done.
  - by apply IHHm1, IHHm2.
  - destruct (IHHm k Hk) as [a ->]. eauto.
  - specialize (IHHm k Hk). case_match; eauto.
  - destruct st. eapply rstar_complete; eauto with py.
  - apply (rstar_complete g p caps k i (String c s) st); eauto with py.
  - by apply IHHm.
  - by case_match.
Qed.

(** The matcher succeeds exactly when some match makes the rest succeed. *)
Lemma rmatch_spec r st k :
  is_Some (rmatch r st k) ↔ ∃ st', rmatches r st st' ∧ is_Some (k st').
Proof.
  split.
  - intros [a (st'&?&?)%rmatch_sound]. eauto.
  - intros (st'&?&?). by eapply rmatch_complete.
Qed.
End spec.

(** ** Searching *)

Record rmatch_result := RMatch {
  m_start : nat;                    (* offset of the match *)
  m_text : string;                  (* group(0) *)
  m_rest : string;                  (* the text after the match *)
  m_caps : list (nat * string)
}.

Definition mk_match (start : nat) (s : string) (st : rstate) : rmatch_result :=
  RMatch start (str_take (st_pos st - start) s) (st_rest st) (st_caps st).

(** A match that starts exactly at [s], the [i]-th position of the text. *)
Definition match_at (r : regex) (i : nat) (s : string) : option rmatch_result :=
  rmatch r (RState i s []) (λ st, Some (mk_match i s st)).

(** [re.match] *)
Definition re_match (r : regex) (s : string) : option rmatch_result := match_at r 0 s.

(** [re.search]: the first position with a match. *)
Fixpoint search_from (r : regex) (i : nat) (s : string) : option rmatch_result :=
  match match_at r i s with
  | Some m => Some m
  | None => match s with "" => None | String _ s' => search_from r (S i) s' end
  end.
Definition re_search (r : regex) (s : string) : option rmatch_result := search_from r 0 s.

Fixpoint cap_lookup (n : nat) (caps : list (nat * string)) : option string :=
  match caps with
  | [] => None
  | (k, w) :: caps' => if Nat.eqb k n then Some w else cap_lookup n caps'
  end.
(** [m.group(n)]: [None] for a group that took no part in the match. *)
Definition group (n : nat) (m : rmatch_result) : option string := cap_lookup n (m_caps m).

(** Non-overlapping matches from left to right.  Every pattern the repository
    passes to [findall] and [sub] consumes at least one character. *)
Fixpoint finditer_go (r : regex) (skip i : nat) (s : string) : list rmatch_result :=
  match s with
  | "" => []
  | String _ s' =>
      match skip with
      | S k => finditer_go r k (S i) s'
      | 0 => match match_at r i s with
             | Some m => m :: finditer_go r (String.length (m_text m) - 1) (S i) s'
             | None => finditer_go r 0 (S i) s'
             end
      end
  end.
Definition re_finditer (r : regex) (s : string) : list rmatch_result := finditer_go r 0 0 s.

(** [re.sub(r, new, s)] *)
Fixpoint sub_go (r : regex) (new : string) (skip : nat) (s : string) : string :=
  match s with
  | "" => ""
  | String c s' =>
      match skip with
      | S k => sub_go r new k s'
      | 0 => match match_at r 0 s with
             | Some m => new +:+ sub_go r new (String.length (m_text m) - 1) s'
             | None => String c (sub_go r new 0 s')
             end
      end
  end.
Definition re_sub (r : regex) (new s : string) : string := sub_go r new 0 s.

(** ** Words and captures

    [accepts r w rest cs]: the pattern matches the word [w] when [rest]
    follows it, and captures [cs] (latest first). *)
Fixpoint accepts (r : regex) (w rest : string) (cs : list (nat * string)) : Prop :=
  match r with
  | RChar p => ∃ c, w = String c "" ∧ p c = true ∧ cs = []
  | REps => w = "" ∧ cs = []
  | RSeq r1 r2 => ∃ w1 w2 cs1 cs2, w = w1 +:+ w2 ∧ cs = (cs2 ++ cs1)%list ∧
                    accepts r1 w1 (w2 +:+ rest) cs1 ∧ accepts r2 w2 rest cs2
  | RAlt r1 r2 => accepts r1 w rest cs ∨ accepts r2 w rest cs
  | RStar _ p => sforall p w = true ∧ cs = []
  | RGroup n r => ∃ cs', cs = (n, w) :: cs' ∧ accepts r w rest cs'
  | REnd => w = "" ∧ at_end rest = true ∧ cs = []
  end.

Lemma rmatches_accepts r st st' :
  rmatches r st st' →
  ∃ w cs, st_rest st = w +:+ st_rest st' ∧ st_pos st' = st_pos st + String.length w ∧
          st_caps st' = (cs ++ st_caps st)%list ∧ accepts r w (st_rest st') cs.
Proof.
  induction 1 as [p c s i caps Hp|st|r1 r2 st st1 st2 _ IH1 _ IH2|r1 r2 st st' _ IH
                 |r1 r2 st st' _ IH|g p st|g p c s i caps st Hp _ IH|n r st st' _ IH|st Hend].
  - exists (String c ""), []. cbn. split_and!; [done|lia|done|eauto].
  - exists "", []. cbn. split_and!; [done|lia|done..].
  - destruct IH1 as (w1&cs1&E1&P1&C1&A1), IH2 as (w2&cs2&E2&P2&C2&A2).
    exists (w1 +:+ w2), (cs2 ++ cs1)%list. split_and!.
    + by rewrite E1, E2, sapp_assoc.
    + rewrite P2, P1, slength_app. lia.
    + by rewrite C2, C1, assoc by apply _.
    + cbn. exists w1, w2, cs1, cs2. rewrite <- E2. done.
  - destruct IH as (w&cs&?&?&?&?). exists w, cs. split_and!; cbn; eauto.
  - destruct IH as (w&cs&?&?&?&?). exists w, cs. split_and!; cbn; eauto.
  - exists "", []. cbn. split_and!; [done|lia|done..].
  - destruct IH as (w&cs&E&P&C&A&->). cbn in *. exists (String c w), [].
    rewrite sapp_cons, <- E, P. cbn. rewrite Hp. split_and!; [done|lia|done..].
  - destruct IH as (w&cs&E&P&C&A). exists w, ((n, w) :: cs). cbn.
    rewrite C, P, E. replace (st_pos st + String.length w - st_pos st)
      with (String.length w) by lia. rewrite str_take_app.
    split_and!; [done|done|done|eauto].
  - exists "", []. cbn. split_and!; [done|lia|done..].
Qed.

Lemma accepts_rmatches r w rest cs i caps :
  accepts r w rest cs →
  rmatches r (RState i (w +:+ rest) caps)
    (RState (i + String.length w) rest (cs ++ caps)).
Proof.
  revert w rest cs i caps.
  induction r as [p| |r1 IH1 r2 IH2|r1 IH1 r2 IH2|g p|n r IH|]; intros w rest cs i caps; cbn.
  - intros (c&->&Hp&->). cbn. rewrite sapp_cons, sapp_nil_l, Nat.add_1_r. by constructor.
  - intros [-> ->]. rewrite sapp_nil_l, Nat.add_0_r. constructor.
  - intros (w1&w2&cs1&cs2&->&->&A1&A2). rewrite sapp_assoc.
    econstructor; [by apply IH1|]. rewrite slength_app, Nat.add_assoc, <- app_assoc.
    by apply IH2.
  - intros [A|A]; [apply M_alt_l, IH1, A|apply M_alt_r, IH2, A].
  - intros [Hp ->]. cbn. revert i. induction w as [|c w IHw]; intros i.
    + rewrite sapp_nil_l. cbn. rewrite Nat.add_0_r. constructor.
    + cbn in Hp. apply andb_true_iff in Hp as [Hc Hw]. rewrite sapp_cons. cbn.
      constructor; [done|]. rewrite <- Nat.add_succ_comm. by apply IHw.
  - intros (cs'&->&A). cbn. pose proof (M_group n _ _ _ (IH _ _ _ i caps A)) as Hg.
    unfold set_cap in Hg. cbn in Hg.
    replace (i + String.length w - i) with (String.length w) in Hg by lia.
    by rewrite str_take_app in Hg.
  - intros (->&Hend&->). cbn. rewrite sapp_nil_l, Nat.add_0_r. by constructor.
Qed.

Lemma match_at_sound r i s m :
  match_at r i s = Some m →
  ∃ w rest cs, s = w +:+ rest ∧ accepts r w rest cs ∧ m = RMatch i w rest cs.
Proof.
  intros (st'&Hm&[= <-])%rmatch_sound.
  apply rmatches_accepts in Hm as (w&cs&E&P&C&A). cbn in *.
  exists w, (st_rest st'), cs. split_and!; [done|done|]. unfold mk_match.
  rewrite P, E, C, app_nil_r. replace (i + String.length w - i) with (String.length w) by lia.
  by rewrite str_take_app.
Qed.

Lemma match_at_complete r i w rest cs :
  accepts r w rest cs → is_Some (match_at r i (w +:+ rest)).
Proof.
  intros A. apply rmatch_spec. eexists. split; [by eapply accepts_rmatches|done].
Qed.

(** [re.search] returns a match of the pattern inside the text ... *)
Lemma re_search_sound r s m :
  re_search r s = Some m →
  ∃ l w rest cs, s = l +:+ w +:+ rest ∧ accepts r w rest cs ∧
                 m = RMatch (String.length l) w rest cs.
Proof.
  unfold re_search.
  assert (∀ i, search_from r i s = Some m → ∃ l w rest cs, s = l +:+ w +:+ rest ∧
    accepts r w rest cs ∧ m = RMatch (i + String.length l) w rest cs) as Hgen; [|apply Hgen].
  induction s as [|c s IH]; intros i; simpl.
  - destruct (match_at r i "") eqn:E; [|done]. intros [= <-].
    apply match_at_sound in E as (w&rest&cs&?&?&->). exists "", w, rest, cs.
    cbn. by rewrite Nat.add_0_r.
  - destruct (match_at r i (String c s)) eqn:E.
    + intros [= <-]. apply match_at_sound in E as (w&rest&cs&?&?&->). exists "", w, rest, cs.
      cbn. by rewrite Nat.add_0_r.
    + intros (l&w&rest&cs&->&?&->)%IH. exists (String c l), w, rest, cs.
      cbn. rewrite Nat.add_succ_r. by rewrite sapp_cons.
Qed.

(** ... and finds one whenever there is one. *)
Lemma re_search_complete r l w rest cs :
  accepts r w rest cs → is_Some (re_search r (l +:+ w +:+ rest)).
Proof.
  intros A. unfold re_search. generalize 0.
  assert (∀ s i, is_Some (match_at r i s) → is_Some (search_from r i s)) as Hhit.
  { intros s i [m Hm]. destruct s; simpl; rewrite Hm; eauto. }
  induction l as [|c l IH]; intros i.
  - apply Hhit. rewrite sapp_nil_l. by eapply match_at_complete.
  - rewrite sapp_cons. simpl. case_match; [eauto|]. apply IH.
Qed.

Lemma re_search_at_0 r s m : match_at r 0 s = Some m → re_search r s = Some m.
Proof. unfold re_search. intros H. destruct s; simpl; by rewrite H. Qed.

(** Any text with a match of [r1] has a match of [r2]. *)
Lemma re_search_incl r1 r2 s :
  (∀ w rest cs, accepts r1 w rest cs →
     ∃ l w' rest' cs', w +:+ rest = l +:+ w' +:+ rest' ∧ accepts r2 w' rest' cs') →
  is_Some (re_search r1 s) → is_Some (re_search r2 s).
Proof.
  intros Hincl [m (l&w&rest&cs&->&A&_)%re_search_sound].
  destruct (Hincl _ _ _ A) as (l'&w'&rest'&cs'&->&A').
  rewrite <- sapp_assoc. by eapply re_search_complete.
Qed.

(** ** Longest repetitions

    Step rules for the matcher when the text has the shape the pattern asks
    for: each repetition takes its whole run, and no backtracking happens. *)

Section munch.
Context {A : Type}.
Implicit Types (k : rstate → option A).

Lemma rm_char p c i s caps k a :
  p c = true → k (RState (S i) s caps) = Some a →
  rmatch (RChar p) (RState i (String c s) caps) k = Some a.
Proof. cbn. by intros ->. Qed.

Lemma rm_seq r1 r2 st k a :
  rmatch r1 st (λ st', rmatch r2 st' k) = Some a → rmatch (r1 ⊙ r2) st k = Some a.
Proof. done. Qed.

(** The run must be maximal: the text after it does not start in the class. *)
Definition stops (p : ascii → bool) (s : string) : bool :=
  match s with "" => true | String c _ => negb (p c) end.

Lemma rm_star p w i s caps k a :
  sforall p w = true → stops p s = true →
  k (RState (i + String.length w) s caps) = Some a →
  rmatch (RStar true p) (RState i (w +:+ s) caps) k = Some a.
Proof.
  intros Hw Hs Hk. cbn. revert i Hk Hw. induction w as [|c w IH]; intros i Hk Hw; cbn in *.
  - rewrite sapp_nil_l. rewrite Nat.add_0_r in Hk.
    destruct s as [|c s]; cbn in *; [done|]. apply negb_true_iff in Hs. by rewrite Hs.
  - apply andb_true_iff in Hw as [Hc Hw]. rewrite sapp_cons. cbn. rewrite Hc.
    rewrite (IH (S i)); [done| |done]. by rewrite Nat.add_succ_comm.
Qed.

Lemma rm_plus p w i s caps k a :
  sforall p w = true → w ≠ "" → stops p s = true →
  k (RState (i + String.length w) s caps) = Some a →
  rmatch (RPlus p) (RState i (w +:+ s) caps) k = Some a.
Proof.
  intros Hw Hne Hs Hk. destruct w as [|c w]; [done|].
  cbn in Hw. apply andb_true_iff in Hw as [Hc Hw]. rewrite sapp_cons.
  apply rm_seq, rm_char; [done|]. apply rm_star; [done..|].
  by rewrite Nat.add_succ_comm.
Qed.

Lemma rm_lit l i s caps k a :
  k (RState (i + String.length l) s caps) = Some a →
  rmatch (RLit l) (RState i (l +:+ s) caps) k = Some a.
Proof.
  revert i. induction l as [|c l IH]; intros i Hk; cbn in *.
  - by rewrite sapp_nil_l; rewrite Nat.add_0_r in Hk.
  - rewrite sapp_cons. rewrite <- Nat.add_succ_comm in Hk.
    destruct l as [|d l].
    + apply rm_char; [by apply bool_decide_eq_true|]. cbn in Hk.
      by rewrite Nat.add_0_r in Hk.
    + apply rm_seq, rm_char; [by apply bool_decide_eq_true|]. by apply IH.
Qed.

Lemma rm_group n r w i s caps k a :
  rmatch r (RState i (w +:+ s) caps) (λ st', k (set_cap n (RState i (w +:+ s) caps) st'))
    = Some a →
  rmatch (RGroup n r) (RState i (w +:+ s) caps) k = Some a.
Proof. done. Qed.

Lemma set_cap_word n w i s caps caps' :
  set_cap n (RState i (w +:+ s) caps) (RState (i + String.length w) s caps') =
  RState (i + String.length w) s ((n, w) :: caps').
Proof.
  unfold set_cap. cbn. replace (i + String.length w - i) with (String.length w) by lia.
  by rewrite str_take_app.
Qed.

Lemma rmatch_char_fail p c i s caps k :
  p c = false → rmatch (RChar p) (RState i (String c s) caps) k = None.
Proof. cbn. by intros ->. Qed.
End munch.

(** ** Inversion of [accepts] *)

Lemma accepts_plus p w rest cs :
  accepts (RPlus p) w rest cs ↔ w ≠ "" ∧ sforall p w = true ∧ cs = [].
Proof.
  cbn. split.
  - intros (w1&w2&cs1&cs2&->&->&(c&->&Hc&->)&Hw2&->). split_and!; [done| |done].
    rewrite sapp_cons, sapp_nil_l. cbn. by rewrite Hc.
  - intros (Hne&Hw&->). destruct w as [|c w]; [done|]. cbn in Hw.
    apply andb_true_iff in Hw as [??]. exists (String c ""), w, [], []. naive_solver.
Qed.

Lemma accepts_lit l w rest cs : accepts (RLit l) w rest cs ↔ w = l ∧ cs = [].
Proof.
  revert w rest cs. induction l as [|c l IH]; intros w rest cs; [done|].
  assert (accepts (RChar (cis c)) w rest cs ↔ w = String c "" ∧ cs = []) as Hc.
  { cbn. split; [intros (d&->&<-%bool_decide_eq_true&->); done|].
    intros [-> ->]. exists c. split_and!; [done| |done]. by apply bool_decide_eq_true. }
  destruct l as [|d l]; [done|].
  change (RLit (String c (String d l))) with (RChar (cis c) ⊙ RLit (String d l)).
  split.
  - intros (w1&w2&cs1&cs2&->&->&(e&->&<-%bool_decide_eq_true&->)&[-> ->]%IH). done.
  - intros [-> ->]. exists (String c ""), (String d l), [], [].
    split_and!; [done|done| |by apply IH]. cbn. exists c.
    split_and!; [done| |done]. by apply bool_decide_eq_true.
Qed.

Lemma accepts_seq r1 r2 w rest cs :
  accepts (r1 ⊙ r2) w rest cs ↔
  ∃ w1 w2 cs1 cs2, w = w1 +:+ w2 ∧ cs = (cs2 ++ cs1)%list ∧
    accepts r1 w1 (w2 +:+ rest) cs1 ∧ accepts r2 w2 rest cs2.
Proof. done. Qed.

Lemma accepts_group n r w rest cs :
  accepts (RGroup n r) w rest cs ↔ ∃ cs', cs = (n, w) :: cs' ∧ accepts r w rest cs'.
Proof. done. Qed.

(** Introduction rules, for building a match. *)
Lemma accepts_seq_i r1 r2 w1 w2 rest cs1 cs2 :
  accepts r1 w1 (w2 +:+ rest) cs1 → accepts r2 w2 rest cs2 →
  accepts (r1 ⊙ r2) (w1 +:+ w2) rest (cs2 ++ cs1).
Proof. intros. apply accepts_seq. eauto 10. Qed.
Lemma accepts_plus_i p w rest :
  w ≠ "" → sforall p w = true → accepts (RPlus p) w rest [].
Proof. intros. by apply accepts_plus. Qed.
Lemma accepts_lit_i l rest : accepts (RLit l) l rest [].
Proof. by apply accepts_lit. Qed.
Lemma accepts_group_i n r w rest cs :
  accepts r w rest cs → accepts (RGroup n r) w rest ((n, w) :: cs).
Proof. intros. apply accepts_group. eauto. Qed.
Create HintDb re.
#[export] Hint Resolve accepts_seq_i accepts_plus_i accepts_lit_i accepts_group_i : re.

(** Take a match of a sequence of repetitions, literals and groups apart. *)
Ltac inv_accepts H :=
  lazymatch type of H with
  | accepts (RPlus _) _ _ _ =>
      let N := fresh "Hne" in let P := fresh "Hall" in
      apply accepts_plus in H as (N & P & ->)
  | accepts (RLit _) _ _ _ => apply accepts_lit in H as [-> ->]
  | accepts (RGroup _ _) _ _ _ =>
      let c := fresh "cs" in let A := fresh "A" in
      apply accepts_group in H as (c & -> & A); inv_accepts A
  | accepts (_ ⊙ _) _ _ _ =>
      let w1 := fresh "w" in let w2 := fresh "w" in
      let c1 := fresh "cs" in let c2 := fresh "cs" in
      let A1 := fresh "A" in let A2 := fresh "A" in
      apply accepts_seq in H as (w1 & w2 & c1 & c2 & -> & -> & A1 & A2);
      inv_accepts A1; inv_accepts A2
  | _ => idtac
  end.
