(* ===== verification/Utilities.v ===== *)
(** * Test utilities (rtps_test_utilities.py)

    The return codes the interoperability runner produces, the removal of ANSI
    escapes, and [basic_check], the gate every checking function of
    test_suite_functions.py passes first.  [child_sub.before + child_sub.after]
    (the text pexpect last matched) is the argument [text]. *)

From S2P Require Import Prelude PyStr Regex.
From stdpp Require Import options.
Local Open Scope regex_scope.

(** ** Return codes *)

Inductive ReturnCode : Set :=
| OK | TOPIC_NOT_CREATED | READER_NOT_CREATED | WRITER_NOT_CREATED
| FILTER_NOT_CREATED | INCOMPATIBLE_QOS | READER_NOT_MATCHED
| DATA_NOT_RECEIVED | DATA_NOT_SENT | DATA_NOT_CORRECT
| RECEIVING_FROM_ONE | RECEIVING_FROM_BOTH | DEADLINE_MISSED
| ORDERED_ACCESS_INSTANCE | ORDERED_ACCESS_TOPIC
| PUB_UNSUPPORTED_FEATURE | SUB_UNSUPPORTED_FEATURE.

#[export] Instance ReturnCode_eq_dec : EqDecision ReturnCode.
Proof. solve_decision. Defined.

Definition all_codes : list ReturnCode :=
  [OK; TOPIC_NOT_CREATED; READER_NOT_CREATED; WRITER_NOT_CREATED; FILTER_NOT_CREATED;
   INCOMPATIBLE_QOS; READER_NOT_MATCHED; DATA_NOT_RECEIVED; DATA_NOT_SENT;
   DATA_NOT_CORRECT; RECEIVING_FROM_ONE; RECEIVING_FROM_BOTH; DEADLINE_MISSED;
   ORDERED_ACCESS_INSTANCE; ORDERED_ACCESS_TOPIC; PUB_UNSUPPORTED_FEATURE;
   SUB_UNSUPPORTED_FEATURE].

(** [ReturnCode.value] (7 and 8 are unused) *)
Definition code_value (c : ReturnCode) : Z :=
  match c with
  | OK => 0 | TOPIC_NOT_CREATED => 1 | READER_NOT_CREATED => 2
  | WRITER_NOT_CREATED => 3 | FILTER_NOT_CREATED => 4 | INCOMPATIBLE_QOS => 5
  | READER_NOT_MATCHED => 6 | DATA_NOT_RECEIVED => 9 | DATA_NOT_SENT => 10
  | DATA_NOT_CORRECT => 11 | RECEIVING_FROM_ONE => 12 | RECEIVING_FROM_BOTH => 13
  | DEADLINE_MISSED => 14 | ORDERED_ACCESS_INSTANCE => 15
  | ORDERED_ACCESS_TOPIC => 16 | PUB_UNSUPPORTED_FEATURE => 17
  | SUB_UNSUPPORTED_FEATURE => 18
  end%Z.

(** [ReturnCode.name] *)
Definition code_name (c : ReturnCode) : string :=
  match c with
  | OK => "OK" | TOPIC_NOT_CREATED => "TOPIC_NOT_CREATED"
  | READER_NOT_CREATED => "READER_NOT_CREATED"
  | WRITER_NOT_CREATED => "WRITER_NOT_CREATED"
  | FILTER_NOT_CREATED => "FILTER_NOT_CREATED"
  | INCOMPATIBLE_QOS => "INCOMPATIBLE_QOS"
  | READER_NOT_MATCHED => "READER_NOT_MATCHED"
  | DATA_NOT_RECEIVED => "DATA_NOT_RECEIVED" | DATA_NOT_SENT => "DATA_NOT_SENT"
  | DATA_NOT_CORRECT => "DATA_NOT_CORRECT"
  | RECEIVING_FROM_ONE => "RECEIVING_FROM_ONE"
  | RECEIVING_FROM_BOTH => "RECEIVING_FROM_BOTH"
  | DEADLINE_MISSED => "DEADLINE_MISSED"
  | ORDERED_ACCESS_INSTANCE => "ORDERED_ACCESS_INSTANCE"
  | ORDERED_ACCESS_TOPIC => "ORDERED_ACCESS_TOPIC"
  | PUB_UNSUPPORTED_FEATURE => "PUB_UNSUPPORTED_FEATURE"
  | SUB_UNSUPPORTED_FEATURE => "SUB_UNSUPPORTED_FEATURE"
  end.

Lemma all_codes_complete c : c ∈ all_codes.
Proof. destruct c; unfold all_codes; set_solver. Qed.
Lemma code_value_inj : Inj (=) (=) code_value.
Proof. intros [] []; done. Qed.
Lemma code_name_inj : Inj (=) (=) code_name.
Proof. intros [] []; done. Qed.

(** ** Patterns

    [\w], [\s] and [[0-9]] of the patterns are the classes of PyStr. *)
Abbreviation cword := is_word (only parsing).
Abbreviation cspace := is_space (only parsing).
Abbreviation cdigit := is_digit (only parsing).

(** [\x1B(?:[@-Z\\-_]|\[[0-?]*[ -/]*[@-~])] *)
Definition ansi_escape : regex :=
  RChar (cis "027") ⊙
  RAlt (RChar (λ c, in_range 64 90 c || in_range 92 95 c))
       (RChar (cis "[") ⊙ RStar true (in_range 48 63) ⊙ RStar true (in_range 32 47)
        ⊙ RChar (in_range 64 126)).

Definition remove_ansi_colors (text : string) : string := re_sub ansi_escape "" text.

(** ** The basic check *)

(** [\w\s+\w+\s+[0-9]+ [0-9]+ \[([0-9]+)\]] *)
Definition basic_re : regex :=
  RChar cword ⊙ RPlus cspace ⊙ RPlus cword ⊙ RPlus cspace ⊙ RPlus cdigit ⊙ RLit " "
  ⊙ RPlus cdigit ⊙ RLit " [" ⊙ RGroup 1 (RPlus cdigit) ⊙ RLit "]".

(** [m.group(n)] passed to [int]: [int(None)] is a TypeError. *)
Definition group_int (n : nat) (m : rmatch_result) : result Z :=
  g ← or_raise TypeError (group n m); py_int 10 g.

Definition no_check (text : string) : result ReturnCode := Ok OK.

Definition basic_check (text : string) : result ReturnCode :=
  match re_search basic_re text with
  | None => Ok DATA_NOT_RECEIVED
  | Some m =>
      sample_size ← group_int 1 m;
      if (sample_size =? 0)%Z then Ok DATA_NOT_CORRECT else Ok OK
  end.

(** ** What the basic check decides *)

Lemma group_int_digits n m d :
  group n m = Some d → sforall is_digit d = true → d ≠ "" →
  group_int n m = Ok (dec_value 0 d).
Proof. unfold group_int. intros -> ??. cbn. by apply py_int_digits. Qed.

(** Every match of [basic_re] captures a run of digits. *)
Lemma basic_re_group s m :
  re_search basic_re s = Some m →
  ∃ d, group 1 m = Some d ∧ sforall is_digit d = true ∧ d ≠ "".
Proof.
  intros (l&w&rest&cs&_&A&->)%re_search_sound. unfold basic_re in A. inv_accepts A.
  cbn. eauto.
Qed.

(** The verdict as a function of the first sample line found. *)
Definition basic_verdict (text : string) : ReturnCode :=
  match re_search basic_re text with
  | None => DATA_NOT_RECEIVED
  | Some m =>
      if (dec_value 0 (default "" (group 1 m)) =? 0)%Z then DATA_NOT_CORRECT else OK
  end.

Lemma basic_check_total text : basic_check text = Ok (basic_verdict text).
Proof.
  unfold basic_check, basic_verdict. destruct (re_search basic_re text) eqn:E; [|done].
  destruct (basic_re_group _ _ E) as (d&Hd&?&?).
  erewrite group_int_digits by done. rewrite Hd. cbn. by case_match.
Qed.

Lemma basic_verdict_cases text :
  basic_verdict text = OK ∨ basic_verdict text = DATA_NOT_RECEIVED ∨
  basic_verdict text = DATA_NOT_CORRECT.
Proof. unfold basic_verdict. repeat case_match; auto. Qed.

Lemma basic_verdict_OK text :
  basic_verdict text = OK → is_Some (re_search basic_re text).
Proof. unfold basic_verdict. case_match; eauto. done. Qed.
