(* ===== verification/CheckLoop.v ===== *)
(** * The loop of a checking function (test_suite_functions.py)

    A checking function reads the subscriber's output through pexpect:
    [child_sub.expect(patterns, timeout)] blocks until one of the patterns is
    found, the timeout passes (pexpect.TIMEOUT) or the process closes its
    output (pexpect.EOF), and returns the index of what happened.  pexpect is
    not part of the repository, so the outcomes are an argument of the model: a
    [script] lists, for each later call of [expect], the index it returns and
    the text [before + after] it leaves.  When the script runs out the function
    is [Waiting] inside [expect].  There are two rules for the loop, one for statements
    about the texts that were read ([while_expect_rule]), one for statements about the
    indexes too ([while_expect_trace]). *)

From S2P Require Import Prelude PyStr Regex Utilities.
From stdpp Require Import options.

(** ** pexpect *)

Inductive expect_pattern :=
| PRe (r : regex)
| TIMEOUT
| EOF.

Record reply := Reply { r_index : nat; r_text : string }.

(** pexpect's contract: the index is that of a pattern of the list, and for a
    regular expression the text ends with the match. *)
Definition reply_ok (pats : list expect_pattern) (r : reply) : Prop :=
  match pats !! r_index r with
  | Some (PRe re) => ∃ m, re_search re (r_text r) = Some m ∧ m_rest m = ""
  | Some _ => True
  | None => False
  end.

Lemma reply_ok_index pats r : reply_ok pats r → r_index r < length pats.
Proof.
  unfold reply_ok. case_match eqn:E; [|done]. intros _.
  by apply lookup_lt_Some in E.
Qed.

Inductive outcome :=
| Returned (c : ReturnCode)
| Raised (e : exn)
| Waiting.

(** ** The loop

    [body] is the part of an iteration before the [expect] call, [after] the
    part after it.  Each says how the iteration goes on: to the next step, out
    of the loop by [break], out of the function by [return], or out by an
    exception; [finish] is the code after the loop. *)

Inductive step (S : Type) :=
| Go (s : S)
| Break (s : S)
| Return_ (c : ReturnCode)
| Fail (e : exn).
Arguments Go {S} _.
Arguments Break {S} _.
Arguments Return_ {S} _.
Arguments Fail {S} _.

(** The texts [h] an execution has read: the first one and those of the replies
    before [e], which ended the loop; all of them when it is still waiting. *)
Definition read_until (text : string) (script : list reply) (h : list string)
    (e : option reply) (o : outcome) : Prop :=
  h `prefix_of` text :: (r_text <$> script) ∧
  match e with Some r => h ≠ [] ∧ script !! (length h - 1) = Some r | None => True end ∧
  (o = Waiting → h = text :: (r_text <$> script)).

(** Where a run ended: at the head of the loop, by its guard; in the part of an
    iteration before [expect]; in the part after it, upon the reply [r]; or not at all,
    the function being still inside [expect]. *)
Inductive ending := AtHead | AtText | AtReply (r : reply) | AtExpect.

(** [acc] and [t] are the texts that were read and the indexes that [expect] returned
    in between, when [text] comes first and [script] says how [expect] goes on. *)
Definition trace_of (text : string) (script : list reply) (acc : list (string * nat))
    (t : string) (en : ending) (o : outcome) : Prop :=
  acc.*1 ++ [t] `prefix_of` text :: (r_text <$> script) ∧
  acc.*2 `prefix_of` (r_index <$> script) ∧
  match en with
  | AtHead | AtText => o ≠ Waiting
  | AtReply r => script !! length acc = Some r ∧ o ≠ Waiting
  | AtExpect => length acc = length script ∧ o = Waiting
  end.

Section loop.
Context {S : Type} (guard : S → bool) (body : S → string → step S)
        (after : S → reply → step S) (finish : S → ReturnCode).

Fixpoint while_expect (s : S) (text : string) (script : list reply) : outcome :=
  if guard s then
    match body s text with
    | Go s1 =>
        match script with
        | [] => Waiting
        | r :: script' =>
            match after s1 r with
            | Go s2 => while_expect s2 (r_text r) script'
            | Break s2 => Returned (finish s2)
            | Return_ c => Returned c
            | Fail e => Raised e
            end
        end
    | Break s1 => Returned (finish s1)
    | Return_ c => Returned c
    | Fail e => Raised e
    end
  else Returned (finish s).

(** The loop rule.  [I h t s] holds at the head of the loop, [h] being the
    texts the body has read and [t] the one it reads next; [B h s] holds in front
    of [expect]; [Q h e o] is what the outcome [o] says of the texts read and of
    the reply [e] that ended the loop, if one did. *)
Definition exits (Q : list string → option reply → outcome → Prop) (h : list string)
    (e : option reply) (J : list string → S → Prop) (st : step S) : Prop :=
  match st with
  | Go s => J h s
  | Break s => Q h e (Returned (finish s))
  | Return_ c => Q h e (Returned c)
  | Fail x => Q h e (Raised x)
  end.

Section rule.
Variables (I : list string → string → S → Prop) (B : list string → S → Prop)
          (Q : list string → option reply → outcome → Prop) (Rok : reply → Prop).
Hypothesis Hguard :
  ∀ h t s, I h t s → guard s = false → Q h None (Returned (finish s)).
Hypothesis Hbody :
  ∀ h t s, I h t s → guard s = true → exits Q (h ++ [t]) None B (body s t).
Hypothesis Hafter :
  ∀ h s r, B h s → Rok r → exits Q h (Some r) (λ h, I h (r_text r)) (after s r).
Hypothesis Hwait : ∀ h s, B h s → Q h None Waiting.

Lemma while_expect_rule_text h s text script :
  I h text s → Forall Rok script →
  ∃ h' e, read_until text script h' e (while_expect s text script) ∧
          Q (h ++ h') e (while_expect s text script).
Proof using All.
  intros HI HR. revert h s text HI.
  induction HR as [|r script Hr HR IH]; intros h s text HI; simpl.
  - destruct (guard s) eqn:G;
      [|exists [], None; rewrite app_nil_r; split; [by split_and!; [apply prefix_nil|..]|eauto]].
    pose proof (Hbody h text s HI G) as Hb. exists [text], None.
    split; [by split_and!; destruct (body s text)|]. destruct (body s text); eauto.
  - destruct (guard s) eqn:G;
      [|exists [], None; rewrite app_nil_r; split; [by split_and!; [apply prefix_nil|..]|eauto]].
    pose proof (Hbody h text s HI G) as Hb.
    assert ([text] `prefix_of` text :: r_text r :: (r_text <$> script)) as Hp
      by (apply prefix_cons, prefix_nil).
    destruct (body s text) as [s1| | |]; [|by exists [text], None; split..].
    pose proof (Hafter (h ++ [text]) s1 r Hb Hr) as Ha.
    destruct (after s1 r) as [s2| | |]; [|by exists [text], (Some r); split..].
    destruct (IH (h ++ [text]) s2 (r_text r) Ha) as (h'&e&(Hh'&He&Hw)&HQ).
    exists (text :: h'), e. split; [split_and!; [by apply prefix_cons| |]|].
    + destruct e as [r'|]; [|done]. destruct He as [Hne He]. split; [done|].
      cbn. rewrite Nat.sub_0_r. destruct h' as [|t h']; [done|].
      cbn in *. by rewrite Nat.sub_0_r in He.
    + intros E. by rewrite (Hw E).
    + by rewrite <- app_assoc in HQ.
Qed.
End rule.

(** The rule for an invariant that does not speak of the next text. *)
Lemma while_expect_rule (I B : list string → S → Prop)
    (Q : list string → option reply → outcome → Prop) (Rok : reply → Prop) h s text script :
  (∀ h s, I h s → guard s = false → Q h None (Returned (finish s))) →
  (∀ h s t, I h s → guard s = true → exits Q (h ++ [t]) None B (body s t)) →
  (∀ h s r, B h s → Rok r → exits Q h (Some r) I (after s r)) →
  (∀ h s, B h s → Q h None Waiting) →
  I h s → Forall Rok script →
  ∃ h' e, read_until text script h' e (while_expect s text script) ∧
          Q (h ++ h') e (while_expect s text script).
Proof. intros. eapply (while_expect_rule_text (λ h _, I h) B Q Rok); eauto. Qed.

(** The rule for an invariant that also speaks of the indexes.  A run is the list
    [acc] of the iterations that went on to the next one -- the text that was read and
    the index that [expect] then returned --, the text [t] of the last iteration and
    the place where it ended. *)
Definition leaves (Q : list (string * nat) → string → ending → outcome → Prop)
    (acc : list (string * nat)) (t : string) (en : ending) (J : S → Prop) (st : step S) :
    Prop :=
  match st with
  | Go s => J s
  | Break s => Q acc t en (Returned (finish s))
  | Return_ c => Q acc t en (Returned c)
  | Fail x => Q acc t en (Raised x)
  end.

Section trace_rule.
Variables (I B : list (string * nat) → string → S → Prop)
          (Q : list (string * nat) → string → ending → outcome → Prop) (Rok : reply → Prop).
Hypothesis Hguard :
  ∀ acc t s, I acc t s → guard s = false → Q acc t AtHead (Returned (finish s)).
Hypothesis Hbody :
  ∀ acc t s, I acc t s → guard s = true → leaves Q acc t AtText (B acc t) (body s t).
Hypothesis Hafter :
  ∀ acc t s r, B acc t s → Rok r →
  leaves Q acc t (AtReply r) (I (acc ++ [(t, r_index r)]) (r_text r)) (after s r).
Hypothesis Hwait : ∀ acc t s, B acc t s → Q acc t AtExpect Waiting.

Lemma while_expect_trace acc s text script :
  I acc text s → Forall Rok script →
  ∃ acc' t en, trace_of text script acc' t en (while_expect s text script) ∧
               Q (acc ++ acc') t en (while_expect s text script).
Proof using All.
  intros HI HR. revert acc s text HI.
  induction HR as [|r script Hr HR IH]; intros acc s text HI; simpl.
  - destruct (guard s) eqn:G; [|exists [], text, AtHead; rewrite app_nil_r; split; [by split_and!|eauto]].
    pose proof (Hbody acc text s HI G) as Hb.
    destruct (body s text) as [s1| | |]; [exists [], text, AtExpect|exists [], text, AtText..];
      (split; [by split_and!|]); rewrite app_nil_r; eauto.
  - assert ([text] `prefix_of` text :: r_text r :: (r_text <$> script)) as Hp
      by (apply prefix_cons, prefix_nil).
    assert ([] `prefix_of` r_index r :: (r_index <$> script)) as Hi by apply prefix_nil.
    destruct (guard s) eqn:G; [|exists [], text, AtHead; rewrite app_nil_r; split; [by split_and!|eauto]].
    pose proof (Hbody acc text s HI G) as Hb.
    destruct (body s text) as [s1| | |];
      [|exists [], text, AtText; rewrite app_nil_r; split; [by split_and!|exact Hb]..].
    pose proof (Hafter acc text s1 r Hb Hr) as Ha.
    destruct (after s1 r) as [s2| | |];
      [|exists [], text, (AtReply r); rewrite app_nil_r; split; [by split_and!|exact Ha]..].
    destruct (IH _ s2 (r_text r) Ha) as (acc'&t&en&(H1&H2&H3)&HQ).
    exists ((text, r_index r) :: acc'), t, en. split; [|by rewrite <- app_assoc in HQ].
    split_and!; [by apply prefix_cons..|].
    destruct en; cbn; [done|done| |]; [exact H3|]. destruct H3; split; [lia|done].
Qed.
End trace_rule.

(** The function ends: when every iteration either ends the loop or reads one
    more reply, a reply that [after] never survives ends it. *)
Lemma while_expect_ends s text script :
  (∃ r, r ∈ script ∧ ∀ s, ∀ s', after s r ≠ Go s') →
  while_expect s text script ≠ Waiting.
Proof.
  intros (r&Hr&Hend). revert s text.
  induction script as [|q script IH]; intros s text; [set_solver|]. simpl.
  destruct (guard s); [|done]. destruct (body s text) as [s1| | |]; [|done..].
  destruct (after s1 q) as [s2| | |] eqn:E; [|done..].
  apply IH. apply elem_of_cons in Hr as [->|]; [by apply Hend in E|done].
Qed.
End loop.

(** A step computed by code that may raise. *)
Definition step_of {S} (r : result (step S)) : step S :=
  match r with Ok st => st | Raise e => Fail e end.

(** The gate in front of every checking function: unless [basic_check] says
    [OK], its code is returned. *)
Definition with_basic_check (text : string) (rest : outcome) : outcome :=
  match basic_check text with
  | Raise e => Raised e
  | Ok c => if decide (c = OK) then rest else Returned c
  end.

Lemma with_basic_check_eq text rest :
  with_basic_check text rest =
  if decide (basic_verdict text = OK) then rest else Returned (basic_verdict text).
Proof. unfold with_basic_check. by rewrite basic_check_total. Qed.

(** What a checking function answers: the basic verdict when it is not [OK], and
    otherwise what [Q] says of the texts read, of the reply that ended the loop and
    of the outcome. *)
Definition verdict_spec (Q : list string → option reply → outcome → Prop) (text : string)
    (script : list reply) (o : outcome) : Prop :=
  if decide (basic_verdict text = OK)
  then ∃ h e, read_until text script h e o ∧ Q h e o
  else o = Returned (basic_verdict text).

Lemma verdict_spec_gate (Q : list string → option reply → outcome → Prop) text script o :
  (basic_verdict text = OK → ∃ h e, read_until text script h e o ∧ Q h e o) →
  verdict_spec Q text script (with_basic_check text o).
Proof. intros H. unfold verdict_spec. rewrite with_basic_check_eq. case_decide; auto. Qed.

(** The same for a statement that also speaks of the indexes. *)
Definition trace_spec (Q : list (string * nat) → string → ending → outcome → Prop)
    (text : string) (script : list reply) (o : outcome) : Prop :=
  if decide (basic_verdict text = OK)
  then ∃ acc t en, trace_of text script acc t en o ∧ Q acc t en o
  else o = Returned (basic_verdict text).

Lemma trace_spec_gate (Q : list (string * nat) → string → ending → outcome → Prop) text script o :
  (basic_verdict text = OK → ∃ acc t en, trace_of text script acc t en o ∧ Q acc t en o) →
  trace_spec Q text script (with_basic_check text o).
Proof. intros H. unfold trace_spec. rewrite with_basic_check_eq. case_decide; auto. Qed.

Lemma filter_ext_elem {A} (P Q : A → Prop) `{∀ x, Decision (P x)} `{∀ x, Decision (Q x)} (l : list A) :
  (∀ x, x ∈ l → P x ↔ Q x) → filter P l = filter Q l.
Proof.
  induction l as [|x l IH]; [done|]. intros Hl. rewrite !filter_cons, IH by set_solver.
  assert (P x ↔ Q x) by (apply Hl; left). do 2 case_decide; tauto.
Qed.

(** What a checking function counts in a run: the samples of the first instance, [f]
    giving the instance of a text that is a sample; and the messages of the reader. *)
Section counts.
Context {K : Type} `{EqDecision K} (f : string → option K).

Definition first_instance (h : list string) : option K := head (omap f h).
Definition of_first (h : list string) (t : string) (i : nat) : Prop :=
  i = 0 ∧ is_Some (f t) ∧ f t = first_instance h.
#[global] Instance of_first_dec h t i : Decision (of_first h t i).
Proof using Type*. unfold of_first. apply _. Defined.
Definition first_reads (acc : list (string * nat)) : nat :=
  length (filter (λ p : string * nat, of_first acc.*1 p.1 p.2) acc).

Lemma first_instance_snoc h t :
  first_instance (h ++ [t]) = match first_instance h with Some k => Some k | None => f t end.
Proof using Type*.
  unfold first_instance. rewrite omap_app_last. destruct (omap f h); [by destruct (f t)|done].
Qed.

Lemma first_reads_snoc acc t i :
  first_reads (acc ++ [(t, i)]) =
  first_reads acc + if decide (of_first (acc.*1 ++ [t]) t i) then 1 else 0.
Proof using Type*.
  unfold first_reads. rewrite filter_app, length_app, fmap_app. cbn. f_equal.
  - f_equal. apply filter_ext_elem. intros [u j] Hu. cbn.
    unfold of_first. rewrite first_instance_snoc.
    destruct (first_instance acc.*1) as [k|] eqn:E; [done|]. split; intros (?&[k Hk]&?); [|congruence].
    exfalso. unfold first_instance in E. apply head_None in E.
    assert (k ∈ omap f acc.*1) as Hin; [|rewrite E in Hin; by apply elem_of_nil in Hin].
    apply list_elem_of_omap. exists u. split; [|done]. apply list_elem_of_fmap. by exists (u, j).
  - by case_decide.
Qed.
End counts.

Definition messages (acc : list (string * nat)) : nat :=
  length (filter (λ p : string * nat, p.2 = 1) acc).
Lemma messages_snoc acc t i :
  messages (acc ++ [(t, i)]) = messages acc + if decide (i = 1) then 1 else 0.
Proof. unfold messages. rewrite filter_app, length_app. f_equal. cbn. by case_decide. Qed.

(** Neither a timeout (index 2) nor the end of the output (index 3) so far. *)
Definition goes_on (acc : list (string * nat)) : Prop :=
  Forall (λ p : string * nat, p.2 ≠ 2 ∧ p.2 ≠ 3) acc.

(** ** Sample lines

    The patterns by which the checking functions read a sample.  The shape
    application prints one as "topic color x y [size]". *)

Local Open Scope regex_scope.

(** [\w+\s+(\w+)\s+[0-9]+\s+[0-9]+\s+\[([0-9]+)\]] *)
Definition sample_re : regex :=
  RPlus cword ⊙ RPlus cspace ⊙ RGroup 1 (RPlus cword) ⊙ RPlus cspace ⊙ RPlus cdigit
  ⊙ RPlus cspace ⊙ RPlus cdigit ⊙ RPlus cspace ⊙ RLit "["
  ⊙ RGroup 2 (RPlus cdigit) ⊙ RLit "]".

(** [[0-9]+ [0-9]+ \[([0-9]+)\]] *)
Definition position_size_re : regex :=
  RPlus cdigit ⊙ RLit " " ⊙ RPlus cdigit ⊙ RLit " [" ⊙ RGroup 1 (RPlus cdigit) ⊙ RLit "]".

(** [\[[0-9]+\]] *)
Definition bracket_re : regex := RLit "[" ⊙ RPlus cdigit ⊙ RLit "]".

(** A sample as the per-instance checks see it: [(group(1), int(group(2)))]. *)
Definition parse_sample (text : string) : result (option (string * Z)) :=
  match re_search sample_re text with
  | None => Ok None
  | Some m =>
      color ← or_raise TypeError (group 1 m);
      size ← group_int 2 m;
      Ok (Some (color, size))
  end.

Definition sample_of (text : string) : option (string * Z) :=
  match parse_sample text with Ok o => o | Raise _ => None end.

Lemma parse_sample_eq text : parse_sample text = Ok (sample_of text).
Proof.
  unfold sample_of. destruct (parse_sample text) as [|e] eqn:E; [done|]. exfalso.
  unfold parse_sample in E. destruct (re_search sample_re text) eqn:Em; [|done].
  apply re_search_sound in Em as (l&w&rest&cs&_&A&->).
  unfold sample_re in A. inv_accepts A. cbn in E.
  unfold group_int in E. cbn in E. rewrite py_int_digits in E by done. done.
Qed.

(** A sample line that passes the basic check is a sample. *)
Lemma basic_check_sample text :
  basic_verdict text = OK → is_Some (sample_of text).
Proof.
  intros H%basic_verdict_OK.
  assert (is_Some (re_search sample_re text)) as [m Hm].
  { revert H. apply re_search_incl. intros w rest cs A. unfold basic_re in A.
    inv_accepts A.
    match goal with A1 : accepts (RChar cword) _ _ _ |- _ =>
      destruct A1 as (c&->&Hc&->) end.
    eexists "", _, rest, _. split; [done|]. unfold sample_re.
    eapply accepts_seq_i; [apply accepts_plus_i; [done|cbn; by rewrite Hc]|].
    eapply accepts_seq_i; [by apply accepts_plus_i|].
    eapply accepts_seq_i; [by apply accepts_group_i, accepts_plus_i|].
    eapply accepts_seq_i; [by apply accepts_plus_i|].
    eapply accepts_seq_i; [by apply accepts_plus_i|].
    eapply accepts_seq_i; [by apply accepts_plus_i|].
    eapply accepts_seq_i; [by apply accepts_plus_i|].
    change (" [" +:+ ?x) with (" " +:+ ("[" +:+ x)).
    eapply accepts_seq_i; [by apply accepts_plus_i|].
    eapply accepts_seq_i; [apply accepts_lit_i|].
    eapply accepts_seq_i; [by apply accepts_group_i, accepts_plus_i|].
    apply accepts_lit_i. }
  unfold sample_of, parse_sample. rewrite Hm.
  apply re_search_sound in Hm as (l&w&rest&cs&_&A&->).
  unfold sample_re in A. inv_accepts A. cbn.
  unfold group_int. cbn. rewrite py_int_digits by done. cbn. eauto.
Qed.
