(* ===== verification/ShapeLine.v ===== *)
(** * The sample line of the shape application

    The shape application prints every sample with
    [printf("%-10s %-10s %03d %03d [%d]", topic, color, x, y, size)]
    (srcCxx/shape_main.cxx).  [shape_line] is that line; the theorems say that
    the patterns of the checking functions recover its fields. *)

From S2P Require Import Prelude PyStr Regex Utilities CheckLoop.
From stdpp Require Import options.

(** [%-10s] and [%03d] *)
Definition ljust (width : nat) (s : string) : string :=
  s +:+ srepeat (width - String.length s) " ".
Definition pad_dec (width : nat) (n : N) : string :=
  srepeat (width - String.length (pretty n)) "0" +:+ pretty n.

Definition shape_line (topic color : string) (x y size : N) : string :=
  ljust 10 topic +:+ " " +:+ ljust 10 color +:+ " " +:+ pad_dec 3 x +:+ " " +:+
  pad_dec 3 y +:+ " [" +:+ pretty size +:+ "]".

(** A name that [\w+] accepts: the topic and color names of the test suite. *)
Definition is_name (s : string) : Prop := s ≠ "" ∧ sforall is_word s = true.
#[export] Instance is_name_dec s : Decision (is_name s).
Proof. unfold is_name. apply _. Defined.

Lemma srepeat_all (p : ascii → bool) n c :
  p c = true → sforall p (srepeat n (String c "")) = true.
Proof. intros Hc. induction n as [|n IH]; [done|]. cbn. by rewrite sapp_cons; cbn; rewrite Hc. Qed.

Lemma pad_dec_digits w n : sforall is_digit (pad_dec w n) = true ∧ pad_dec w n ≠ "".
Proof.
  destruct (pretty_N_digits n) as [Hd Hne]. unfold pad_dec. split.
  - by rewrite sforall_app, srepeat_all, Hd.
  - intros E. apply (f_equal String.length) in E. rewrite slength_app in E.
    destruct (pretty n); [done|]. cbn in E. lia.
Qed.

(** The blanks between two columns. *)
Definition gap (width : nat) (s : string) : string :=
  srepeat (width - String.length s) " " +:+ " ".
Lemma gap_space w s : sforall is_space (gap w s) = true ∧ gap w s ≠ "".
Proof.
  unfold gap. split; [by rewrite sforall_app, srepeat_all|].
  by destruct (w - String.length s).
Qed.

Lemma shape_line_split topic color x y size :
  shape_line topic color x y size =
  topic +:+ gap 10 topic +:+ color +:+ gap 10 color +:+ pad_dec 3 x +:+ " " +:+
  pad_dec 3 y +:+ " " +:+ "[" +:+ pretty size +:+ "]" +:+ "".
Proof. unfold shape_line, ljust, gap. rewrite !sapp_assoc. by rewrite sapp_nil_r. Qed.

(** What stands at the head of a non-empty run. *)
Lemma stops_run (p q : ascii → bool) w s :
  sforall p w = true → w ≠ "" → (∀ c, p c = true → q c = false) → stops q (w +:+ s) = true.
Proof.
  destruct w as [|c w]; [done|]. rewrite sapp_cons. cbn. rewrite andb_true_iff.
  intros [Hc _] _ H. by rewrite H.
Qed.

Lemma space_not_digit : ∀ c, is_space c = true → is_digit c = false.
Proof. by_ascii. Qed.
#[export] Hint Resolve space_not_digit : py.

Local Open Scope regex_scope.

(** Positions where a pattern cannot match are skipped by the search. *)
Lemma search_skip r i c s :
  match_at r i (String c s) = None → search_from r i (String c s) = search_from r (S i) s.
Proof. cbn. by intros ->. Qed.

Lemma search_skip_class r (p : ascii → bool) i pre s :
  (∀ i c s, p c = true → match_at r i (String c s) = None) →
  sforall p pre = true →
  search_from r i (pre +:+ s) = search_from r (i + String.length pre) s.
Proof.
  intros Hfail. revert i. induction pre as [|c pre IH]; intros i.
  - intros _. by rewrite sapp_nil_l, Nat.add_0_r.
  - cbn. rewrite andb_true_iff. intros [Hc Hp]. rewrite sapp_cons.
    rewrite search_skip by by apply Hfail. rewrite IH by done. by rewrite Nat.add_succ_comm.
Qed.

Lemma search_here r i s m : match_at r i s = Some m → search_from r i s = Some m.
Proof. intros H. destruct s; cbn; by rewrite H. Qed.

Definition not_word (c : ascii) : bool := negb (is_word c).

Lemma sample_re_not_word i c s : not_word c = true → match_at sample_re i (String c s) = None.
Proof. unfold not_word. intros Hc%negb_true_iff. unfold match_at. cbn. by rewrite Hc. Qed.
Lemma basic_re_not_word i c s : not_word c = true → match_at basic_re i (String c s) = None.
Proof. unfold not_word. intros Hc%negb_true_iff. unfold match_at. cbn. by rewrite Hc. Qed.
(** [\w\s+...] needs a blank right after the first character. *)
Lemma basic_re_inside i c d s :
  is_word d = true → match_at basic_re i (String c (String d s)) = None.
Proof.
  intros Hd. unfold match_at. cbn.
  rewrite (word_not_space _ Hd). by destruct (is_word c).
Qed.

Section line.
Context (topic color : string) (x y size : N).
Context (Htopic : is_name topic) (Hcolor : is_name color).

Lemma sample_re_line i :
  ∃ l, match_at sample_re i (shape_line topic color x y size) =
       Some (RMatch i l "" [(2, pretty size); (1, color)]).
Proof using All.
  destruct Htopic as [Ht1 Ht2], Hcolor as [Hc1 Hc2].
  destruct (gap_space 10 topic) as [Hg1 Hg2], (gap_space 10 color) as [Hk1 Hk2].
  destruct (pad_dec_digits 3 x) as [Hx1 Hx2], (pad_dec_digits 3 y) as [Hy1 Hy2].
  destruct (pretty_N_digits size) as [Hs1 Hs2].
  eexists. unfold match_at. rewrite shape_line_split.
  unfold sample_re.
  apply rm_seq, rm_plus; [done..|by eapply stops_run; eauto with py|].
  apply rm_seq, rm_plus; [done..|by eapply stops_run; eauto with py|].
  apply rm_seq, rm_group, rm_plus; [done..|by eapply stops_run; eauto with py|].
  rewrite set_cap_word.
  apply rm_seq, rm_plus; [done..|eapply stops_run; eauto with py|].
  do 2 (apply rm_seq, rm_plus; [done..|];
        apply rm_seq, rm_plus; [done..|first [done|eapply stops_run; eauto with py]|]).
  apply rm_seq, rm_lit.
  apply rm_seq, rm_group, rm_plus; [done..|]. rewrite set_cap_word.
  apply rm_lit. unfold mk_match. cbn. reflexivity.
Qed.

(** From the last character of the topic on, for [basic_re]. *)
Lemma basic_re_line i c :
  is_word c = true →
  ∃ l, match_at basic_re i
         (String c "" +:+ gap 10 topic +:+ color +:+ gap 10 color +:+ pad_dec 3 x +:+ " " +:+
          pad_dec 3 y +:+ " [" +:+ pretty size +:+ "]" +:+ "") =
       Some (RMatch i l "" [(1, pretty size)]).
Proof using Hcolor.
  intros Hc. destruct Hcolor as [Hc1 Hc2].
  destruct (gap_space 10 topic) as [Hg1 Hg2], (gap_space 10 color) as [Hk1 Hk2].
  destruct (pad_dec_digits 3 x) as [Hx1 Hx2], (pad_dec_digits 3 y) as [Hy1 Hy2].
  destruct (pretty_N_digits size) as [Hs1 Hs2].
  eexists. unfold match_at. rewrite sapp_cons, sapp_nil_l.
  unfold basic_re.
  apply rm_seq, rm_char; [done|].
  apply rm_seq, rm_plus; [done..|by eapply stops_run; eauto with py|].
  apply rm_seq, rm_plus; [done..|by eapply stops_run; eauto with py|].
  apply rm_seq, rm_plus; [done..|eapply stops_run; eauto with py|].
  apply rm_seq, rm_plus; [done..|].
  apply rm_seq, rm_lit.
  apply rm_seq, rm_plus; [done..|].
  apply rm_seq, rm_lit.
  apply rm_seq, rm_group, rm_plus; [done..|]. rewrite set_cap_word.
  apply rm_lit. unfold mk_match. cbn. reflexivity.
Qed.
End line.

(** A non-empty string is its front and its last character. *)
(** The search for [basic_re] runs over the front of the topic. *)
Lemma basic_re_front i t c s :
  sforall is_word t = true → is_word c = true →
  search_from basic_re i ((t +:+ String c "") +:+ s) =
  search_from basic_re (i + String.length t) (String c s).
Proof.
  revert i. induction t as [|d t IH]; intros i Ht Hc.
  - by rewrite !sapp_nil_l, Nat.add_0_r.
  - cbn in Ht. apply andb_true_iff in Ht as [Hd Ht]. rewrite !sapp_cons.
    assert (∃ e u, (t +:+ String c "") +:+ s = String e u ∧ is_word e = true) as (e&u&E&He).
    { destruct t as [|e t]; [by exists c, s|]. cbn in Ht.
      apply andb_true_iff in Ht as [? ?]. eexists e, _. by rewrite !sapp_cons. }
    rewrite E, search_skip by by apply basic_re_inside. rewrite <- E, IH by done.
    cbn. by rewrite Nat.add_succ_r.
Qed.

(** ** Round trips

    What is printed is what is read back, whatever non-word text (such as the
    newline of the previous line) precedes the line. *)

Lemma sample_of_line pre topic color x y size :
  sforall not_word pre = true → is_name topic → is_name color →
  sample_of (pre +:+ shape_line topic color x y size) = Some (color, Z.of_N size).
Proof.
  intros Hpre Ht Hc. unfold sample_of, parse_sample, re_search.
  rewrite (search_skip_class _ not_word) by auto using sample_re_not_word.
  destruct (sample_re_line topic color x y size Ht Hc (0 + String.length pre)) as [l Hl].
  erewrite search_here by done. unfold group_int. cbn.
  by rewrite py_int_pretty.
Qed.

Lemma basic_verdict_line pre topic color x y size :
  sforall not_word pre = true → is_name topic → is_name color →
  basic_verdict (pre +:+ shape_line topic color x y size) =
  if (size =? 0)%N then DATA_NOT_CORRECT else OK.
Proof.
  intros Hpre [Hne Ht] Hc. unfold basic_verdict, re_search.
  rewrite (search_skip_class _ not_word) by auto using basic_re_not_word.
  rewrite shape_line_split. destruct (string_snoc topic Hne) as (t&c&->).
  rewrite sforall_app in Ht. apply andb_true_iff in Ht as [Ht Hcc].
  cbn in Hcc. rewrite andb_true_r in Hcc.
  rewrite basic_re_front by done.
  destruct (basic_re_line (t +:+ String c "") color x y size Hc
    (0 + String.length pre + String.length t) c Hcc) as [l Hl].
  rewrite sapp_cons, sapp_nil_l in Hl.
  change (" " +:+ "[" +:+ ?z) with (" [" +:+ z).
  erewrite search_here by done. cbn. rewrite dec_value_pretty.
  by destruct size.
Qed.
