(* ===== verification/InstanceChecks.v ===== *)
(** * Checks over the samples of each instance (test_suite_functions.py)

    Four checking functions follow the samples instance by instance, an
    instance being a color: [test_order_w_instances],
    [test_reliability_no_losses_w_instances],
    [test_reading_1_sample_every_10_samples_w_instances] and
    [test_lifespan_2_3_consecutive_samples_w_instances].  They keep a list of the
    colors seen and, in parallel lists that grow together and are indexed by the
    position of the color, what they remember of each instance.  Here the parallel
    lists are one list of records ([slots]), and the loop is written once for a
    function [upd] that treats a sample of a known instance. *)

From S2P Require Import Prelude PyStr Regex Utilities CheckLoop ShapeLine.
From stdpp Require Import options.

(** This constant limits the samples a check reads. *)
Definition MAX_SAMPLES_READ : nat := 500.

(** ** The samples of a history *)

Abbreviation sample := (string * Z)%type.

Definition samples (h : list string) : list sample := omap sample_of h.
(** The sizes of the samples of one color, in order. *)
Definition sizes_of (c : string) (l : list sample) : list Z :=
  (filter (λ p : sample, p.1 = c) l).*2.
(** The colors in the order they are first seen. *)
Definition instances (l : list sample) : list string :=
  foldl (λ acc (p : sample), if decide (p.1 ∈ acc) then acc else acc ++ [p.1]) [] l.

Lemma instances_snoc l c z :
  instances (l ++ [(c, z)]) =
  if decide (c ∈ instances l) then instances l else instances l ++ [c].
Proof. unfold instances. by rewrite foldl_app. Qed.

Lemma sizes_of_snoc_eq c l z : sizes_of c (l ++ [(c, z)]) = sizes_of c l ++ [z].
Proof.
  unfold sizes_of. rewrite filter_app, filter_cons_True by done.
  by rewrite filter_nil, fmap_app.
Qed.
Lemma sizes_of_snoc_ne c d l z : d ≠ c → sizes_of c (l ++ [(d, z)]) = sizes_of c l.
Proof.
  intros ?. unfold sizes_of. rewrite filter_app, filter_cons_False by done.
  by rewrite filter_nil, app_nil_r.
Qed.

Lemma instances_elem c l : c ∈ instances l ↔ c ∈ l.*1.
Proof.
  induction l as [|[d z] l IH] using rev_ind; [done|].
  rewrite instances_snoc, fmap_app. simpl. case_decide; set_solver.
Qed.
Lemma instances_NoDup l : NoDup (instances l).
Proof.
  induction l as [|[d z] l IH] using rev_ind; [constructor|].
  rewrite instances_snoc. case_decide; eauto with py.
Qed.
Lemma sizes_of_fresh c l : c ∉ instances l → sizes_of c l = [].
Proof.
  rewrite instances_elem. unfold sizes_of. intros Hc.
  destruct (filter _ l) as [|p k] eqn:E; [done|]. exfalso.
  assert (p ∈ filter (λ p : sample, p.1 = c) l) as Hp by (rewrite E; left).
  apply list_elem_of_filter in Hp as [<- Hp]. apply Hc, list_elem_of_fmap. eauto.
Qed.

(** The samples of the first instance seen. *)
Definition first_count (l : list sample) : nat :=
  match instances l with [] => 0 | c0 :: _ => length (sizes_of c0 l) end.

Lemma first_count_snoc l c z :
  first_count (l ++ [(c, z)]) =
  first_count l +
    match instances (l ++ [(c, z)]) with c0 :: _ => if decide (c = c0) then 1 else 0 | [] => 0 end.
Proof.
  unfold first_count. rewrite instances_snoc.
  case_decide as Hc; destruct (instances l) as [|c0 cs] eqn:E; simpl.
  - set_solver.
  - case_decide; subst.
    + rewrite sizes_of_snoc_eq, length_app. done.
    + rewrite sizes_of_snoc_ne by done. lia.
  - rewrite decide_True, sizes_of_snoc_eq, length_app by done.
    rewrite sizes_of_fresh by (rewrite E; set_solver). done.
  - rewrite decide_False by set_solver. rewrite sizes_of_snoc_ne by set_solver. lia.
Qed.

Lemma samples_snoc h t : samples (h ++ [t]) = samples h ++ option_list (sample_of t).
Proof. apply omap_app_last. Qed.

(** ** The loop *)

Section per_instance.
(** [A]: what is remembered of an instance; [G]: the function's other
    variables.  [new z] is a fresh instance, first seen with size [z];
    [upd g a z] treats a sample, [inr] being a failed check and [break]. *)
Context {A G : Type} (new : Z → A) (upd : G → A → Z → G * A + G) (bad : G → G)
        (finish_code : G → nat → ReturnCode) (max : nat) (timeout_index : nat).

Record st := St {
  instance_color : list string;
  slots : list A;
  glob : G;
  samples_read_per_instance : nat;
  sub_string : option sample
}.

Definition st_init (g : G) : st := St [] [] g 0 None.

Definition guard (s : st) : bool := bool_decide (samples_read_per_instance s < max).

(** [if color not in instance_color: instance_color.append(color); ...] *)
Definition add_instance (color : string) (size : Z) (s : st) : st :=
  if decide (color ∈ instance_color s) then s
  else St (instance_color s ++ [color]) (slots s ++ [new size]) (glob s)
          (samples_read_per_instance s) (sub_string s).

Definition body (s : st) (text : string) : step st :=
  step_of (
    sub ← parse_sample text;
    match sub with
    | None => Ok (Go (St (instance_color s) (slots s) (glob s)
                        (samples_read_per_instance s) None))
    | Some (color, size) =>
        let s1 := add_instance color size s in
        let colors := instance_color s1 in
        if decide (color ∈ colors) then
          index ← or_raise ValueError (index_of color colors);
          a ← or_raise IndexError (slots s1 !! index);
          match upd (glob s1) a size with
          | inl (g, a') =>
              Ok (Go (St colors (<[index:=a']> (slots s1)) g
                       (samples_read_per_instance s1) (Some (color, size))))
          | inr g =>
              Ok (Break (St colors (slots s1) g
                          (samples_read_per_instance s1) (Some (color, size))))
          end
        else Ok (Break (St colors (slots s1) (bad (glob s1))
                         (samples_read_per_instance s1) (Some (color, size))))
    end).

Definition after (s : st) (r : reply) : step st :=
  if decide (r_index r = 0) then
    match sub_string s with
    | None => Go s
    | Some (color, _) =>
        match instance_color s with
        | [] => Fail IndexError
        | c0 :: _ =>
            if decide (color = c0)
            then Go (St (instance_color s) (slots s) (glob s)
                       (S (samples_read_per_instance s)) (sub_string s))
            else Go s
        end
    end
  else if decide (r_index r = timeout_index) then Break s
  else if decide (r_index r = S timeout_index) then Return_ DATA_NOT_RECEIVED
  else Go s.

Definition finish (s : st) : ReturnCode :=
  finish_code (glob s) (samples_read_per_instance s).

Definition instance_loop (g : G) (text : string) (script : list reply) : outcome :=
  while_expect guard body after finish (st_init g) text script.

(** *** What the loop guarantees

    [slot_ok zs a]: [a] is what the check remembers after the sizes [zs], all
    of them good; [glob_ok l g] the same for the other variables. *)
Context (slot_ok : list Z → A → Prop) (glob_ok : list sample → G → Prop)
        (bad_glob : G → Prop) (Good Bad : list Z → Prop).

(** Every instance of the samples is good. *)
Definition all_good (l : list sample) : Prop := ∀ c, Good (sizes_of c l).

Definition slots_ok (l : list sample) (colors : list string) (sl : list A) : Prop :=
  length sl = length colors ∧
  ∀ i c, colors !! i = Some c → ∃ a, sl !! i = Some a ∧ slot_ok (sizes_of c l) a.

(** One more read is due if the last sample is of the first instance. *)
Definition pending (s : st) : nat :=
  match sub_string s, instance_color s with
  | Some (c, _), c0 :: _ => if decide (c = c0) then 1 else 0
  | _, _ => 0
  end.

Lemma pending_le s : pending s ≤ 1.
Proof using All.
  unfold pending. destruct (sub_string s) as [[c z]|]; [|lia].
  destruct (instance_color s); [lia|]. case_decide; lia.
Qed.

(** The reads lag behind the samples; [exact] when every reply is a sample, a timeout
    or the end of the output. *)
Definition known (r : reply) : Prop :=
  r_index r = 0 ∨ r_index r = timeout_index ∨ r_index r = S timeout_index.
#[global] Instance known_dec r : Decision (known r).
Proof. unfold known. apply _. Defined.
Definition reads_ok (exact : bool) (l : list sample) (n : nat) : Prop :=
  n ≤ first_count l ∧ (exact = true → first_count l ≤ n).

Definition shared_inv (h : list string) (s : st) : Prop :=
  instance_color s = instances (samples h) ∧
  slots_ok (samples h) (instance_color s) (slots s) ∧ glob_ok (samples h) (glob s).

Definition loop_inv (exact : bool) (h : list string) (s : st) : Prop :=
  shared_inv h s ∧ reads_ok exact (samples h) (samples_read_per_instance s) ∧
  samples_read_per_instance s ≤ max.

Definition expect_inv (exact : bool) (h : list string) (s : st) : Prop :=
  shared_inv h s ∧ samples_read_per_instance s < max ∧
  reads_ok exact (samples h) (samples_read_per_instance s + pending s) ∧
  match sub_string s with
  | Some (c, _) => c ∈ instance_color s
  | None => True
  end ∧
  reads_ok exact (samples (removelast h)) (samples_read_per_instance s).

(** What an outcome says of the texts [h] read.  The loop is left normally (by
    its guard or a timeout), with every instance good; by [break] on a sample
    that fails its check; or by the end of the subscriber's output. *)
Definition normal_exit (exact : bool) (h : list string) (e : option reply) (g : G)
    (n : nat) : Prop :=
  all_good (samples h) ∧ glob_ok (samples h) g ∧
  match e with
  | None => n = max ∧ reads_ok exact (samples h) n
  | Some r => r_index r = timeout_index ∧ r_index r ≠ 0 ∧ n < max ∧
              n ≤ first_count (samples h) ∧ reads_ok exact (samples (removelast h)) n
  end.
Definition failed_exit (exact : bool) (h : list string) (e : option reply) (g : G)
    (n : nat) : Prop :=
  e = None ∧ n < max ∧ bad_glob g ∧
  ∃ l c z, samples h = l ++ [(c, z)] ∧ all_good l ∧ Bad (sizes_of c l ++ [z]) ∧
           reads_ok exact l n.

Definition loop_post (exact : bool) (h : list string) (e : option reply) (o : outcome) :
    Prop :=
  match o with
  | Returned code =>
      (∃ g n, code = finish_code g n ∧ (normal_exit exact h e g n ∨ failed_exit exact h e g n)) ∨
      (code = DATA_NOT_RECEIVED ∧ all_good (samples h) ∧
       ∃ r n, e = Some r ∧ r_index r = S timeout_index ∧ n < max ∧
              reads_ok exact (samples (removelast h)) n)
  | Raised _ => False
  | Waiting => all_good (samples h) ∧ (exact = true → first_count (samples h) ≤ max)
  end.

Lemma expect_inv_sample exact h t c z colors sl g n :
  sample_of t = Some (c, z) → colors = instances (samples h ++ [(c, z)]) →
  slots_ok (samples h ++ [(c, z)]) colors sl → glob_ok (samples h ++ [(c, z)]) g →
  n < max → reads_ok exact (samples h) n →
  expect_inv exact (h ++ [t]) (St colors sl g n (Some (c, z))).
Proof using All.
  intros Ht -> Hsl Hg Hn [Hr1 Hr2].
  assert (samples (h ++ [t]) = samples h ++ [(c, z)]) as Hs by by rewrite samples_snoc, Ht.
  unfold expect_inv, shared_inv, reads_ok, pending. cbn.
  rewrite Hs, first_count_snoc, removelast_last. split_and!; [done..| | | |done|done].
  - case_match; lia.
  - intros He. specialize (Hr2 He). case_match; lia.
  - rewrite instances_snoc. case_decide; set_solver.
Qed.

(** A sample of instance [c]: the record is found and passed to [upd]. *)
Lemma slots_ok_insert l colors sl i c z a' :
  colors = instances (l ++ [(c, z)]) → colors !! i = Some c → length sl = length colors →
  slot_ok (sizes_of c (l ++ [(c, z)])) a' →
  (∀ j d, j ≠ i → colors !! j = Some d → ∃ a, sl !! j = Some a ∧ slot_ok (sizes_of d l) a) →
  slots_ok (l ++ [(c, z)]) colors (<[i:=a']> sl).
Proof using All.
  intros Hcol Hi Hlen Ha' Hrest. split; [by rewrite length_insert|].
  intros j d Hj. destruct (decide (j = i)) as [->|Hne].
  - simplify_eq. exists a'. split; [|done].
    apply list_lookup_insert_eq. rewrite Hlen. by eapply lookup_lt_Some.
  - rewrite list_lookup_insert_ne by done.
    destruct (Hrest j d Hne Hj) as (a&?&?). exists a. split; [done|].
    rewrite sizes_of_snoc_ne; [done|]. intros <-. apply Hne.
    assert (NoDup colors) as Hnd by (rewrite Hcol; apply instances_NoDup).
    by eapply NoDup_lookup.
Qed.
Context
  (Hnew : ∀ g z, ∃ g' a, upd g (new z) z = inl (g', a) ∧ slot_ok [z] a ∧
     ∀ l c, glob_ok l g → sizes_of c l = [] → glob_ok (l ++ [(c, z)]) g')
  (Hstep : ∀ g a zs z g' a', slot_ok zs a → upd g a z = inl (g', a') →
     slot_ok (zs ++ [z]) a' ∧
     ∀ l c, glob_ok l g → sizes_of c l = zs → glob_ok (l ++ [(c, z)]) g')
  (Hbad : ∀ g a zs z g', slot_ok zs a → upd g a z = inr g' →
     Bad (zs ++ [z]) ∧ bad_glob g')
  (Hgood : ∀ zs a, slot_ok zs a → Good zs) (Hnil : Good []).

Lemma all_good_slots l colors sl :
  colors = instances l → slots_ok l colors sl → all_good l.
Proof using All.
  intros -> [_ Hsl] c. destruct (decide (c ∈ instances l)) as [Hc|Hc].
  - apply list_elem_of_lookup_1 in Hc as [i Hi].
    destruct (Hsl i c Hi) as (a&_&Ha). eauto.
  - by rewrite sizes_of_fresh.
Qed.

Abbreviation post_step exact h st :=
  (exits finish (loop_post exact) h None (expect_inv exact) st).

Lemma body_known exact h s t c z :
  loop_inv exact h s → guard s = true → sample_of t = Some (c, z) → c ∈ instance_color s →
  post_step exact (h ++ [t]) (body s t).
Proof using All.
  intros ((Hcol&Hsl&Hg)&Hr&_) Hn%bool_decide_eq_true Ht Hc.
  unfold body. rewrite parse_sample_eq, Ht. cbn -[add_instance].
  assert (add_instance c z s = s) as -> by (unfold add_instance; by rewrite decide_True).
  rewrite decide_True by done.
  destruct (index_of_elem _ _ Hc) as [i Hi]. rewrite Hi. cbn.
  pose proof (index_of_Some _ _ _ Hi) as Hci.
  destruct Hsl as [Hlen Hsl]. destruct (Hsl i c Hci) as (a&Ha&Hok). rewrite Ha. cbn.
  destruct (upd (glob s) a z) as [[g' a']|g'] eqn:Hu; cbn.
  - destruct (Hstep _ _ _ _ _ _ Hok Hu) as [Hok' Hg'].
    apply expect_inv_sample; auto.
    + rewrite instances_snoc, decide_True; [done|by rewrite <- Hcol].
    + eapply slots_ok_insert; [|done..| |]; [| |].
      * rewrite instances_snoc, decide_True; [done|by rewrite <- Hcol].
      * by rewrite sizes_of_snoc_eq.
      * intros j d _. apply Hsl.
  - destruct (Hbad _ _ _ _ _ Hok Hu) as [Hb Hbg]. left. exists g'. eexists. split; [done|].
    right. split_and!; [done..|]. exists (samples h), c, z.
    rewrite samples_snoc, Ht. split_and!; [done| |done|exact Hr].
    eapply all_good_slots; [done|by split].
Qed.

Lemma body_new exact h s t c z :
  loop_inv exact h s → guard s = true → sample_of t = Some (c, z) → c ∉ instance_color s →
  post_step exact (h ++ [t]) (body s t).
Proof using All.
  intros ((Hcol&[Hlen Hsl]&Hg)&Hr&_) Hn%bool_decide_eq_true Ht Hc.
  unfold body. rewrite parse_sample_eq, Ht. cbn -[add_instance].
  assert (add_instance c z s = St (instance_color s ++ [c]) (slots s ++ [new z]) (glob s)
    (samples_read_per_instance s) (sub_string s)) as ->
    by (unfold add_instance; by rewrite decide_False).
  cbn. rewrite decide_True by set_solver.
  rewrite index_of_app_r by done. cbn. rewrite decide_True by done. cbn.
  rewrite Nat.add_0_r, <- Hlen, list_lookup_middle by done. cbn.
  destruct (Hnew (glob s) z) as (g'&a&Hu&Hok&Hg'). rewrite Hu. cbn.
  assert (sizes_of c (samples h) = []) as Hz by (apply sizes_of_fresh; by rewrite <- Hcol).
  assert (instance_color s ++ [c] = instances (samples h ++ [(c, z)])) as Hins.
  { rewrite instances_snoc, decide_False by by rewrite <- Hcol. by rewrite Hcol. }
  apply expect_inv_sample; auto.
  eapply slots_ok_insert; [done| | | |].
  - by rewrite Hlen, list_lookup_middle.
  - rewrite !length_app. cbn. lia.
  - by rewrite sizes_of_snoc_eq, Hz.
  - intros j d Hj Hd. apply lookup_app_Some in Hd as [Hd|[Hle Hd]].
    + destruct (Hsl j d Hd) as (b&Hb&?). exists b. split; [|done].
      by apply lookup_app_l_Some.
    + exfalso. apply Hj. apply list_lookup_singleton_Some in Hd as [? _]. lia.
Qed.

Lemma instance_body_ok exact h s t :
  loop_inv exact h s → guard s = true → post_step exact (h ++ [t]) (body s t).
Proof using All.
  intros HI HG. destruct (sample_of t) as [[c z]|] eqn:Ht.
  - destruct (decide (c ∈ instance_color s)); [by eapply body_known|by eapply body_new].
  - destruct HI as ((Hcol&Hsl&Hg)&[Hr1 Hr2]&_). apply bool_decide_eq_true in HG.
    unfold body. rewrite parse_sample_eq, Ht. cbn.
    assert (samples (h ++ [t]) = samples h) as Hs
      by by rewrite samples_snoc, Ht; cbn; rewrite app_nil_r.
    unfold expect_inv, shared_inv, reads_ok, pending. cbn.
    rewrite Hs, removelast_last, Nat.add_0_r. split_and!; auto.
Qed.

Lemma instance_after_ok exact h s r :
  expect_inv exact h s → (exact = true → known r) →
  exits finish (loop_post exact) h (Some r) (loop_inv exact) (after s r).
Proof using All.
  intros ((Hcol&Hsl&Hg)&Hn&[Hr1 Hr2]&Hsub&Hlast) Hex.
  assert (all_good (samples h)) as Hall by by eapply all_good_slots.
  unfold after, pending, known in *. destruct (decide (r_index r = 0)).
  - destruct (sub_string s) as [[c z]|] eqn:Es.
    + destruct (instance_color s) as [|c0 cs] eqn:Ec; [set_solver|].
      case_decide; cbn; unfold loop_inv, shared_inv, reads_ok; rewrite ?Ec; cbn;
        split_and!; auto; try lia; intros He; specialize (Hr2 He); lia.
    + cbn. unfold loop_inv, shared_inv, reads_ok. split_and!; auto; try lia.
      intros He; specialize (Hr2 He); lia.
  - destruct (decide (r_index r = timeout_index)).
    + left. do 2 eexists. split; [done|]. left. split_and!; auto; lia.
    + case_decide; cbn; [right; by eauto 10|].
      assert (exact = false) as -> by (destruct exact; naive_solver).
      unfold loop_inv, shared_inv, reads_ok. split_and!; auto; try lia; done.
Qed.

(** The outcome of the loop, for every script of replies. *)
Lemma instance_loop_spec exact g text script :
  glob_ok [] g → Forall (λ r, exact = true → known r) script →
  ∃ h e, read_until text script h e (instance_loop g text script) ∧
         loop_post exact h e (instance_loop g text script).
Proof using All.
  intros Hg Hs. unfold instance_loop.
  eapply (while_expect_rule guard body after finish (loop_inv exact) (expect_inv exact)
    (loop_post exact) (λ r, exact = true → known r)) with (h := []); auto.
  - intros h s ((Hcol&Hsl&Hgl)&Hr&Hm) Hn%bool_decide_eq_false.
    left. do 2 eexists. split; [done|]. left.
    split_and!; auto; try lia. by eapply all_good_slots.
  - apply instance_body_ok.
  - apply instance_after_ok.
  - intros h s ((Hcol&Hsl&Hgl)&Hn&[Hr1 Hr2]&_). split; [by eapply all_good_slots|].
    intros He. specialize (Hr2 He).
    assert (pending s ≤ 1) by apply pending_le. lia.
  - unfold loop_inv, shared_inv, reads_ok. cbn. split_and!; auto; [|lia].
    by split; [|intros ? ? ?].
Qed.
End per_instance.

(** ** In-order and no-loss checks *)

(** The value kept for an instance: its last size, and whether its first sample
    is still to be skipped by the comparison. *)
Record order_slot := OrderSlot { instance_seq_num : Z; first_iteration : bool }.

Definition order_new (size : Z) : order_slot := OrderSlot size true.

(** [test_order_w_instances]: the size must grow. *)
Definition order_upd (code : ReturnCode) (a : order_slot) (current_size : Z) :
    ReturnCode * order_slot + ReturnCode :=
  if first_iteration a then inl (code, OrderSlot (instance_seq_num a) false)
  else if (instance_seq_num a <? current_size)%Z
       then inl (code, OrderSlot current_size false)
       else inr DATA_NOT_CORRECT.

(** [test_reliability_no_losses_w_instances]: the size must be the next one. *)
Definition no_losses_upd (code : ReturnCode) (a : order_slot) (size : Z) :
    ReturnCode * order_slot + ReturnCode :=
  if first_iteration a then inl (code, OrderSlot (instance_seq_num a) false)
  else
    let seq := (instance_seq_num a + 1)%Z in
    if (seq =? size)%Z then inl (code, OrderSlot seq false) else inr DATA_NOT_CORRECT.

(** [if max_samples_received == samples_read_per_instance: OK] *)
Definition order_finish (code : ReturnCode) (reads : nat) : ReturnCode :=
  if decide (reads = MAX_SAMPLES_READ) then OK else code.

Definition order_patterns : list expect_pattern :=
  [PRe bracket_re;
   PRe (RLit "Reading with ordered access" ⊙ RStar false (λ _, true) ⊙ RChar (cis "010"))%re;
   TIMEOUT; EOF].
Definition no_losses_patterns : list expect_pattern := [PRe bracket_re; TIMEOUT; EOF].

Definition test_order_w_instances (text : string) (script : list reply) : outcome :=
  with_basic_check text
    (instance_loop order_new order_upd (λ _, DATA_NOT_CORRECT) order_finish
       MAX_SAMPLES_READ 2 DATA_NOT_RECEIVED text script).

Definition test_reliability_no_losses_w_instances (text : string) (script : list reply) :
    outcome :=
  with_basic_check text
    (instance_loop order_new no_losses_upd (λ _, DATA_NOT_CORRECT) order_finish
       MAX_SAMPLES_READ 1 DATA_NOT_RECEIVED text script).

Lemma Sorted_snoc {B} (R : B → B → Prop) l x :
  Sorted R (l ++ [x]) ↔ Sorted R l ∧ ∀ y, last l = Some y → R y x.
Proof.
  induction l as [|y l IH]; [split; [repeat constructor; done|repeat constructor]|].
  destruct l as [|z l]; simpl.
  - split.
    + intros H. apply Sorted_inv in H as [_ H]. inversion H; subst.
      split; [repeat constructor|]. by intros ? [= ->].
    + intros [_ H]. repeat constructor. by apply H.
  - change ((z :: l) ++ [x]) with (z :: (l ++ [x])) in IH. split.
    + intros [Hs Hh]%Sorted_inv. apply IH in Hs as [Hs Hl]. split; [|done].
      constructor; [done|]. inversion Hh; subst. by constructor.
    + intros [[Hs Hh]%Sorted_inv Hl]. constructor; [by apply IH|].
      inversion Hh; subst. by constructor.
Qed.

(** *** Specifications *)

Definition in_order (zs : list Z) : Prop := Sorted Z.lt zs.
Definition no_losses (zs : list Z) : Prop := Sorted (λ a b, b = a + 1)%Z zs.

(** The slot holds the last size of its instance, the sizes being sorted. *)
Definition order_ok (R : Z → Z → Prop) (zs : list Z) (a : order_slot) : Prop :=
  Sorted R zs ∧ last zs = Some (instance_seq_num a) ∧ first_iteration a = false.

Section order_spec.
Context (R : Z → Z → Prop) (upd : ReturnCode → order_slot → Z → ReturnCode * order_slot + ReturnCode).
Context (timeout_index : nat).
Context (Hfirst : ∀ c z, upd c (OrderSlot z true) z = inl (c, OrderSlot z false)).
Context (Hnext : ∀ c y z, upd c (OrderSlot y false) z =
                   inl (c, OrderSlot z false) ∧ R y z ∨
                   upd c (OrderSlot y false) z = inr DATA_NOT_CORRECT ∧ ¬ R y z).

Definition order_loop :=
  instance_loop order_new upd (λ _, DATA_NOT_CORRECT) order_finish
    MAX_SAMPLES_READ timeout_index DATA_NOT_RECEIVED.

(** What the verdict of an order check says of the texts read.  [exact] is for
    scripts in which only samples come in. *)
Definition order_post (exact : bool) (h : list string) (e : option reply) (o : outcome) :
    Prop :=
  let all_sorted l := ∀ c, Sorted R (sizes_of c l) in
  match o with
  | Returned OK => all_sorted (samples h) ∧ MAX_SAMPLES_READ ≤ first_count (samples h)
  | Returned DATA_NOT_CORRECT =>
      ∃ l c z, samples h = l ++ [(c, z)] ∧ all_sorted l ∧ ¬ Sorted R (sizes_of c l ++ [z])
  | Returned DATA_NOT_RECEIVED =>
      exact = false ∧ all_sorted (samples h) ∧
      ∃ r, e = Some r ∧ (r_index r = timeout_index ∨ r_index r = S timeout_index)
  | Waiting => all_sorted (samples h) ∧
               (exact = true → first_count (samples h) ≤ MAX_SAMPLES_READ)
  | _ => False
  end.

Lemma order_loop_spec exact text script :
  Forall (λ r, exact = true → r_index r = 0) script →
  ∃ h e, read_until text script h e (order_loop text script) ∧
         order_post exact h e (order_loop text script).
Proof using All.
  intros Hs. unfold order_loop.
  edestruct (instance_loop_spec order_new upd (λ _, DATA_NOT_CORRECT) order_finish
    MAX_SAMPLES_READ timeout_index (order_ok R) (λ _ c, c = DATA_NOT_RECEIVED)
    (λ c, c = DATA_NOT_CORRECT) (Sorted R) (λ zs, ¬ Sorted R zs))
    with (exact := exact) (script := script) as (h&e&Hh&HQ); [| | | | | | |].
  - intros c z. do 2 eexists. split; [apply Hfirst|]. split; [|done].
    split_and!; [repeat constructor|done..].
  - intros c [y b] zs z c' a' (Hsort&Hlast&Hb) Hu. cbn in Hlast, Hb. subst b.
    destruct (Hnext c y z) as [[Heq HR]|[Heq _]]; rewrite Heq in Hu; [|done].
    simplify_eq. split; [|done]. split_and!; [|by rewrite last_snoc|done].
    apply Sorted_snoc. split; [done|]. naive_solver.
  - intros c [y b] zs z c' (Hsort&Hlast&Hb) Hu. cbn in Hlast, Hb. subst b.
    destruct (Hnext c y z) as [[Heq HR]|[Heq HR]]; rewrite Heq in Hu; [done|].
    simplify_eq. split; [|done]. intros [_ H]%Sorted_snoc. by apply HR, H.
  - by intros zs a (?&_).
  - constructor.
  - done.
  - eapply Forall_impl; [exact Hs|]. intros r Hr Hx. left. auto.
  - exists h, e. split; [done|]. revert HQ.
    assert (∀ r, e = Some r → r_index r ≠ 0 → exact = false) as Hex.
    { intros r -> Hne. destruct Hh as (_&[_ Hr]&_). rewrite Forall_lookup in Hs.
      specialize (Hs _ _ Hr). destruct exact; [by destruct Hne; auto|done]. }
    destruct (instance_loop _ _ _ _ _ _ _ _ _) as [c| |]; [|done..].
    intros [(g&n&->&[(Hall&->&Hend)|(->&Hn&->&l&d&z&?&?&?&?)])|(->&?&r&n&->&Hr&_)].
    + unfold order_finish. destruct e as [r|].
      * destruct Hend as (Hti&Hne&Hlt&_). rewrite decide_False by lia. cbn. eauto 10.
      * destruct Hend as [-> [? _]]. by rewrite decide_True.
    + unfold order_finish. rewrite decide_False by lia. cbn. eauto 10.
    + cbn. split_and!; [eapply Hex; [done|lia]|done|eauto].
Qed.
End order_spec.

Lemma Sorted_app_l {B} (R : B → B → Prop) l k : Sorted R (l ++ k) → Sorted R l.
Proof.
  induction k as [|x k IH] using rev_ind; [by rewrite app_nil_r|].
  rewrite app_assoc. intros [H _]%Sorted_snoc. auto.
Qed.

Lemma sizes_of_app c l k : sizes_of c (l ++ k) = sizes_of c l ++ sizes_of c k.
Proof. unfold sizes_of. by rewrite filter_app, fmap_app. Qed.

Lemma samples_app h k : samples (h ++ k) = samples h ++ samples k.
Proof. apply omap_app. Qed.

(** The sizes read so far are a prefix of all the sizes. *)
Lemma sorted_prefix R h k c :
  h `prefix_of` k → Sorted R (sizes_of c (samples k)) → Sorted R (sizes_of c (samples h)).
Proof. intros [j ->]. rewrite samples_app, sizes_of_app. apply Sorted_app_l. Qed.

Section order_checks.
Context (R : Z → Z → Prop) (ti : nat) (check : string → list reply → outcome).
Context (Hspec : ∀ exact text script,
  basic_verdict text = OK → Forall (λ r, exact = true → r_index r = 0) script →
  ∃ h e, read_until text script h e (check text script) ∧
         order_post R ti exact h e (check text script)).

(** No false alarm: a stream in order with enough samples passes. *)
Lemma order_check_complete text texts :
  basic_verdict text = OK →
  (∀ c, Sorted R (sizes_of c (samples (text :: texts)))) →
  MAX_SAMPLES_READ < first_count (samples (text :: texts)) →
  check text (Reply 0 <$> texts) = Returned OK.
Proof using All.
  intros Hb Hall Hcount.
  assert (r_text <$> (Reply 0 <$> texts) = texts) as Ht
    by (rewrite <- list_fmap_compose; apply list_fmap_id).
  destruct (Hspec true text (Reply 0 <$> texts) Hb) as (h&e&(Hh&_&Hw)&HQ).
  { apply Forall_fmap, Forall_true. done. }
  rewrite Ht in *.
  destruct (check text (Reply 0 <$> texts)) as [[]| |]; try done; cbn in HQ.
  - naive_solver.
  - destruct HQ as (l&c&z&Hs&_&Hn). exfalso. apply Hn.
    rewrite <- sizes_of_snoc_eq, <- Hs. by eapply sorted_prefix.
  - rewrite (Hw eq_refl) in HQ. destruct HQ as [_ HQ]. specialize (HQ eq_refl). lia.
Qed.
End order_checks.

Lemma order_gate R upd ti exact text script :
  (∀ c z, upd c (OrderSlot z true) z = inl (c, OrderSlot z false)) →
  (∀ c y z, upd c (OrderSlot y false) z = inl (c, OrderSlot z false) ∧ R y z ∨
            upd c (OrderSlot y false) z = inr DATA_NOT_CORRECT ∧ ¬ R y z) →
  basic_verdict text = OK → Forall (λ r, exact = true → r_index r = 0) script →
  ∃ h e, read_until text script h e (with_basic_check text (order_loop upd ti text script)) ∧
         order_post R ti exact h e (with_basic_check text (order_loop upd ti text script)).
Proof.
  intros H1 H2 Hb Hs. rewrite with_basic_check_eq, decide_True by done.
  by apply order_loop_spec.
Qed.

Lemma order_upd_first c z : order_upd c (OrderSlot z true) z = inl (c, OrderSlot z false).
Proof. done. Qed.
Lemma order_upd_next c y z :
  order_upd c (OrderSlot y false) z = inl (c, OrderSlot z false) ∧ (y < z)%Z ∨
  order_upd c (OrderSlot y false) z = inr DATA_NOT_CORRECT ∧ ¬ (y < z)%Z.
Proof. unfold order_upd. cbn. destruct (Z.ltb_spec y z); [by left|right; split; [done|lia]]. Qed.
Lemma no_losses_upd_first c z :
  no_losses_upd c (OrderSlot z true) z = inl (c, OrderSlot z false).
Proof. done. Qed.
Lemma no_losses_upd_next c y z :
  no_losses_upd c (OrderSlot y false) z = inl (c, OrderSlot z false) ∧ z = (y + 1)%Z ∨
  no_losses_upd c (OrderSlot y false) z = inr DATA_NOT_CORRECT ∧ z ≠ (y + 1)%Z.
Proof.
  unfold no_losses_upd. cbn. destruct (Z.eqb_spec (y + 1) z) as [<-|]; [by left|].
  right. split; [done|congruence].
Qed.
#[export] Hint Resolve order_upd_first order_upd_next no_losses_upd_first no_losses_upd_next : py.

Lemma order_spec exact text script :
  basic_verdict text = OK → Forall (λ r, exact = true → r_index r = 0) script →
  ∃ h e, read_until text script h e (test_order_w_instances text script) ∧
         order_post Z.lt 2 exact h e (test_order_w_instances text script).
Proof. intros. apply order_gate; auto with py. Qed.

Lemma no_losses_spec exact text script :
  basic_verdict text = OK → Forall (λ r, exact = true → r_index r = 0) script →
  ∃ h e, read_until text script h e (test_reliability_no_losses_w_instances text script) ∧
         order_post (λ a b, b = a + 1)%Z 1 exact h e
           (test_reliability_no_losses_w_instances text script).
Proof. intros. apply order_gate; auto with py. Qed.

(** *** Printed streams *)

(** A sample of the shape type, and the text that [expect] returns for it: the
    end of the previous line and the sample's own line. *)
Record shape := Shape { s_topic : string; s_color : string; s_x : N; s_y : N; s_size : N }.

Definition printed (s : shape) : string :=
  newline +:+ shape_line (s_topic s) (s_color s) (s_x s) (s_y s) (s_size s).
Definition named (s : shape) : Prop := is_name (s_topic s) ∧ is_name (s_color s).
Definition shape_sample (s : shape) : sample := (s_color s, Z.of_N (s_size s)).
(** What the subscriber reads of [s0] and then [ss]. *)
Definition stream (ss : list shape) : list reply := Reply 0 <$> (printed <$> ss).

Lemma sample_of_printed s : named s → sample_of (printed s) = Some (shape_sample s).
Proof. intros [??]. by apply sample_of_line. Qed.

Lemma samples_printed ss : Forall named ss → samples (printed <$> ss) = shape_sample <$> ss.
Proof.
  induction 1 as [|s ss Hs _ IH]; [done|].
  unfold samples in *. cbn -[printed sample_of]. by rewrite sample_of_printed, IH.
Qed.

Lemma basic_verdict_printed s : named s → s_size s ≠ 0%N → basic_verdict (printed s) = OK.
Proof.
  intros [??] Hz. unfold printed. rewrite basic_verdict_line by done.
  destruct (N.eqb_spec (s_size s) 0); [done|]. done.
Qed.

(** [n] samples of one color, of sizes from [k] on. *)
Definition one_color (color : string) (k n : nat) : list shape :=
  (λ i, Shape "Square" color 0 0 (N.of_nat i)) <$> seq k n.

Lemma sizes_of_one_color c color k n :
  sizes_of c (shape_sample <$> one_color color k n) =
  if decide (color = c) then Z.of_nat <$> seq k n else [].
Proof.
  revert k. induction n as [|n IH]; intros k; [by case_decide|].
  unfold one_color, sizes_of in *. cbn -[decide]. unfold shape_sample at 1. cbn -[decide].
  specialize (IH (S k)). destruct (decide (color = c)); [|done].
  cbn. f_equal; [by rewrite nat_N_Z|exact IH].
Qed.

Lemma Sorted_seq k n : Sorted (λ a b, b = a + 1)%Z (Z.of_nat <$> seq k n).
Proof.
  revert k. induction n as [|n IH]; intros k; cbn; constructor; [apply IH|].
  destruct n; cbn; constructor. lia.
Qed.

Lemma Sorted_weaken {B} (R R' : B → B → Prop) l :
  (∀ x y, R x y → R' x y) → Sorted R l → Sorted R' l.
Proof. intros HR. induction 1 as [|x l Hs IH Hh]; constructor; [done|]. destruct Hh; eauto. Qed.

Section printed_checks.
Context (R : Z → Z → Prop) (ti : nat) (check : string → list reply → outcome).
Context (Hspec : ∀ exact text script,
  basic_verdict text = OK → Forall (λ r, exact = true → r_index r = 0) script →
  ∃ h e, read_until text script h e (check text script) ∧
         order_post R ti exact h e (check text script)).

Lemma printed_check_complete s ss :
  Forall named (s :: ss) → s_size s ≠ 0%N →
  (∀ c, Sorted R (sizes_of c (shape_sample <$> s :: ss))) →
  MAX_SAMPLES_READ < first_count (shape_sample <$> s :: ss) →
  check (printed s) (stream ss) = Returned OK.
Proof using All.
  intros Hn Hz Hs Hc. apply (order_check_complete R ti check Hspec).
  - apply basic_verdict_printed; [|done]. by inversion Hn.
  - change (printed s :: (printed <$> ss)) with (printed <$> s :: ss).
    by rewrite samples_printed.
  - change (printed s :: (printed <$> ss)) with (printed <$> s :: ss).
    by rewrite samples_printed.
Qed.
End printed_checks.

Lemma order_verdict text script :
  verdict_spec (order_post Z.lt 2 false) text script (test_order_w_instances text script).
Proof. apply verdict_spec_gate. intros Hb. by apply order_loop_spec; auto with py; apply Forall_true. Qed.
Lemma no_losses_verdict text script :
  verdict_spec (order_post (λ a b, b = a + 1)%Z 1 false) text script
    (test_reliability_no_losses_w_instances text script).
Proof. apply verdict_spec_gate. intros Hb. by apply order_loop_spec; auto with py; apply Forall_true. Qed.

(** *** Properties *)

(** C4: what the verdicts of [test_order_w_instances] and of
    [test_reliability_no_losses_w_instances] mean, for every output of the subscriber.
    [OK]: in the samples read the sizes of each instance strictly grow -- for the second
    function, each size is the previous one plus 1 --, and 500 samples of the first
    instance were read.  [DATA_NOT_CORRECT]: the last sample read is the first that
    breaks the order of its instance.  [DATA_NOT_RECEIVED]: all was in order until a
    timeout or the end of the output.  No other code is returned and no exception is
    raised. *)
Theorem instance_verdicts text script :
  verdict_spec (order_post Z.lt 2 false) text script (test_order_w_instances text script) ∧
  verdict_spec (order_post (λ a b, b = a + 1)%Z 1 false) text script
    (test_reliability_no_losses_w_instances text script).
Proof. split; [apply order_verdict|apply no_losses_verdict]. Qed.

Definition demo_first : shape := Shape "Square" "BLUE" 0 0 1.
Lemma demo_sorted c :
  Sorted (λ a b, b = a + 1)%Z (sizes_of c (shape_sample <$> demo_first :: one_color "BLUE" 2 500)).
Proof.
  change (demo_first :: one_color "BLUE" 2 500) with (one_color "BLUE" 1 501).
  rewrite sizes_of_one_color. case_decide; [apply Sorted_seq|constructor].
Qed.

(** C5: no false alarm: a subscriber that prints more than 500 samples of the first instance, the
    first size being positive, passes [test_order_w_instances] when the sizes strictly grow in
    every instance, and [test_reliability_no_losses_w_instances] when every instance is printed
    without a gap. *)
Theorem no_false_alarms s ss :
  Forall named (s :: ss) → s_size s ≠ 0%N → MAX_SAMPLES_READ < first_count (shape_sample <$> s :: ss) →
  ((∀ c, Sorted Z.lt (sizes_of c (shape_sample <$> s :: ss))) →
   test_order_w_instances (printed s) (stream ss) = Returned OK)
  ∧ ((∀ c, Sorted (λ a b, b = a + 1)%Z (sizes_of c (shape_sample <$> s :: ss))) →
     test_reliability_no_losses_w_instances (printed s) (stream ss) = Returned OK).
Proof.
  intros Hn Hs Hc. split; intros Hsorted.
  - apply (printed_check_complete Z.lt 2); [apply order_spec|done..].
  - apply (printed_check_complete (λ a b, b = a + 1)%Z 1); [apply no_losses_spec|done..].
Qed.
Lemma no_false_alarms_witness :
  test_order_w_instances (printed demo_first) (stream (one_color "BLUE" 2 500)) = Returned OK
  ∧ test_reliability_no_losses_w_instances (printed demo_first) (stream (one_color "BLUE" 2 500)) = Returned OK.
Proof.
  destruct (no_false_alarms demo_first (one_color "BLUE" 2 500)) as [H1 H2].
  - apply (bool_decide_unpack _). vm_compute. exact I.
  - done.
  - apply (bool_decide_unpack _). vm_compute. exact I.
  - split; [apply H1|apply H2]; intros c; [|apply demo_sorted]. eapply Sorted_weaken, demo_sorted. cbn. lia.
Defined.
