(* ===== verification/FilterChecks.v ===== *)
(** * Time-based filter and lifespan checks (test_suite_functions.py)

    [test_reading_1_sample_every_10_samples_w_instances] and
    [test_lifespan_2_3_consecutive_samples_w_instances], the two other checks that
    follow the samples instance by instance. *)

From S2P Require Import Prelude PyStr Regex Utilities CheckLoop InstanceChecks.
From stdpp Require Import options.

(** ** One sample out of ten *)

Module TimeFilter.
Record slot := Slot {
  instance_seq_num : Z;
  first_iteration : bool;
  ignore_first_sample : bool;
  missed_samples : Z
}.

(** [MAX_SAMPLES_READ / 10], and 10% and 90% of it; the three floats of the
    source are whole numbers. *)
Definition max_samples_received : nat := 50.
Definition tolerated : Z := 5.
Definition enough : nat := 45.

Definition new (size : Z) : slot := Slot size true true 0.

Definition upd (code : ReturnCode) (a : slot) (current_seq_num : Z) :
    ReturnCode * slot + ReturnCode :=
  if first_iteration a
  then inl (code, Slot (instance_seq_num a) false (ignore_first_sample a) (missed_samples a))
  else if ignore_first_sample a
  then inl (code, Slot current_seq_num false false (missed_samples a))
  else
    let gap := (current_seq_num - instance_seq_num a)%Z in
    if (gap <? 9)%Z then inr DATA_NOT_CORRECT
    else
      let missed_in_gap := Z.max 0 ((gap - 10) / 10) in
      let missed := (missed_samples a + missed_in_gap)%Z in
      if (tolerated <? missed)%Z then inr DATA_NOT_CORRECT
      else inl (code, Slot current_seq_num false false missed).

Definition finish (code : ReturnCode) (reads : nat) : ReturnCode :=
  if decide (enough ≤ reads) then OK else code.

Definition test_reading_1_sample_every_10_samples_w_instances
    (text : string) (script : list reply) : outcome :=
  with_basic_check text
    (instance_loop new upd (λ _, DATA_NOT_CORRECT) finish
       max_samples_received 1 DATA_NOT_RECEIVED text script).

(** *** Specification: the gaps after the second sample of an instance *)

Fixpoint gaps (zs : list Z) : list Z :=
  match zs with
  | x :: (y :: _) as zs' => (y - x)%Z :: gaps zs'
  | _ => []
  end.
Definition missed_in (gap : Z) : Z := Z.max 0 ((gap - 10) / 10).
Definition total_missed (gs : list Z) : Z := foldr Z.add 0%Z (missed_in <$> gs).

(** The first sample of an instance only opens it; from the second on, no
    sample comes early and at most [tolerated] are missed. *)
Definition filtered (zs : list Z) : Prop :=
  Forall (λ g, 9 ≤ g)%Z (gaps (tail zs)) ∧ (total_missed (gaps (tail zs)) ≤ tolerated)%Z.

Lemma gaps_snoc zs y z :
  last zs = Some y → gaps (zs ++ [z]) = gaps zs ++ [(z - y)%Z].
Proof.
  induction zs as [|x zs IH]; [done|]. destruct zs as [|x' zs]; [by intros [= ->]|].
  intros H. change ((x :: x' :: zs) ++ [z]) with (x :: ((x' :: zs) ++ [z])).
  specialize (IH H). cbn in *. by rewrite IH.
Qed.

Lemma total_missed_snoc gs g :
  total_missed (gs ++ [g]) = (total_missed gs + missed_in g)%Z.
Proof. unfold total_missed. rewrite fmap_app, foldr_app. cbn. induction gs; cbn; lia. Qed.

Definition slot_ok (zs : list Z) (a : slot) : Prop :=
  last zs = Some (instance_seq_num a) ∧ first_iteration a = false ∧
  (if ignore_first_sample a then length zs = 1 else 2 ≤ length zs) ∧
  missed_samples a = total_missed (gaps (tail zs)) ∧ filtered zs.

Lemma tail_snoc (zs : list Z) z : zs ≠ [] → tail (zs ++ [z]) = tail zs ++ [z].
Proof. by destruct zs. Qed.
Lemma last_tail (zs : list Z) : 2 ≤ length zs → last (tail zs) = last zs.
Proof. destruct zs as [|x [|y zs]]; cbn; try lia. done. Qed.

Lemma filter_slot_ok_step code a zs z code' a' :
  slot_ok zs a → upd code a z = inl (code', a') → slot_ok (zs ++ [z]) a' ∧ code' = code.
Proof.
  intros (Hlast&Hfirst&Hlen&Hmiss&Hf1&Hf2) Hu. unfold upd in Hu. rewrite Hfirst in Hu.
  destruct (ignore_first_sample a) eqn:Hi.
  - simplify_eq. destruct zs as [|x [|]]; [done| |done]. cbn in *. split; [|done].
    split_and!; cbn; [done..|]. split; cbn; [constructor|]. done.
  - destruct (Z.ltb_spec (z - instance_seq_num a) 9); [done|].
    destruct (Z.ltb_spec tolerated (missed_samples a + missed_in (z - instance_seq_num a)));
      [unfold missed_in in *; case_match; [done|lia]|].
    assert ((tolerated <? missed_samples a + missed_in (z - instance_seq_num a))%Z = false)
      as Hle by (apply Z.ltb_ge; lia).
    unfold missed_in in Hle. rewrite Hle in Hu. simplify_eq. split; [|done].
    assert (gaps (tail (zs ++ [z])) =
            gaps (tail zs) ++ [(z - instance_seq_num a)%Z]) as Hg.
    { rewrite tail_snoc by (intros ->; cbn in *; lia).
      apply gaps_snoc. by rewrite last_tail. }
    unfold slot_ok, filtered. cbn. rewrite Hg, last_snoc, length_app, total_missed_snoc.
    rewrite <- Hmiss. cbn. split_and!; [done|done|lia|done| |done].
    apply Forall_app; split; [done|]. by repeat constructor.
Qed.

Lemma filter_slot_ok_bad code a zs z code' :
  slot_ok zs a → upd code a z = inr code' →
  ¬ filtered (zs ++ [z]) ∧ code' = DATA_NOT_CORRECT.
Proof.
  intros (Hlast&Hfirst&Hlen&Hmiss&Hf1&Hf2) Hu. unfold upd in Hu. rewrite Hfirst in Hu.
  destruct (ignore_first_sample a) eqn:Hi; [done|].
  assert (gaps (tail (zs ++ [z])) = gaps (tail zs) ++ [(z - instance_seq_num a)%Z]) as Hg.
  { rewrite tail_snoc by (intros ->; cbn in *; lia).
    apply gaps_snoc. by rewrite last_tail. }
  unfold filtered. rewrite Hg, total_missed_snoc, <- Hmiss, Forall_app, Forall_singleton.
  destruct (Z.ltb_spec (z - instance_seq_num a) 9).
  - split; [lia|congruence].
  - unfold missed_in. destruct (Z.ltb_spec tolerated
      (missed_samples a + Z.max 0 ((z - instance_seq_num a - 10) / 10))); [|done].
    split; [lia|congruence].
Qed.

(** What the verdict says of the texts read.  A sample that fails its check ends
    the loop, but the code after the loop answers [OK] whenever 45 samples of
    the first instance were read before, also then.  The samples that were read are
    those in front of the last [expect]; when pexpect answers nothing but a sample, a
    timeout and the end of the output -- the three patterns of the function --, they are
    all of them, and a verdict that is not [OK] means that they were fewer than 45. *)
Definition post (script : list reply) (h : list string) (e : option reply) (o : outcome) :
    Prop :=
  let all_filtered l := ∀ c, filtered (sizes_of c l) in
  let failed (P : list sample → Prop) :=
    e = None ∧ ∃ k c z, samples h = k ++ [(c, z)] ∧ all_filtered k ∧
                        ¬ filtered (sizes_of c k ++ [z]) ∧ P k in
  let few (l : list sample) (n : nat) := Forall (known 1) script → first_count l < n in
  match o with
  | Returned OK =>
      all_filtered (samples h) ∧
      match e with
      | None => max_samples_received ≤ first_count (samples h)
      | Some r => r_index r = 1 ∧ enough ≤ first_count (samples (removelast h))
      end ∨
      failed (λ k, enough ≤ first_count k)
  | Returned DATA_NOT_CORRECT => failed (λ k, few k enough)
  | Returned DATA_NOT_RECEIVED =>
      all_filtered (samples h) ∧
      ∃ r, e = Some r ∧
           (r_index r = 1 ∧ few (samples (removelast h)) enough ∨
            r_index r = 2 ∧ few (samples (removelast h)) max_samples_received)
  | Waiting => all_filtered (samples h) ∧ few (samples h) (S max_samples_received)
  | _ => False
  end.

Lemma filter_loop_spec text script :
  ∃ h e, read_until text script h e (instance_loop new upd (λ _, DATA_NOT_CORRECT) finish
           max_samples_received 1 DATA_NOT_RECEIVED text script) ∧
         post script h e (instance_loop new upd (λ _, DATA_NOT_CORRECT) finish
           max_samples_received 1 DATA_NOT_RECEIVED text script).
Proof.
  edestruct (instance_loop_spec new upd (λ _, DATA_NOT_CORRECT) finish
    max_samples_received 1 slot_ok (λ _ c, c = DATA_NOT_RECEIVED)
    (λ c, c = DATA_NOT_CORRECT) filtered (λ zs, ¬ filtered zs))
    with (exact := bool_decide (Forall (known 1) script)) (script := script)
    as (h&e&Hh&HQ); [| | | | | | |].
  - intros c z. do 2 eexists. split; [done|]. split; [|done].
    split_and!; cbn; [done..|split; cbn; [constructor|done]].
  - intros c a zs z c' a' Hok Hu. destruct (filter_slot_ok_step _ _ _ _ _ _ Hok Hu) as [? ->]. done.
  - intros c a zs z c' Hok Hu. by eapply filter_slot_ok_bad.
  - by intros zs a (?&?&?&?&?).
  - split; cbn; [constructor|done].
  - done.
  - apply Forall_forall. intros r Hr Hk%bool_decide_eq_true. rewrite Forall_forall in Hk. auto.
  - exists h, e. split; [done|]. revert HQ. unfold reads_ok.
    destruct (instance_loop _ _ _ _ _ _ _ _ _) as [c| |]; [|done|].
    2: { intros [? Hw]. split; [done|]. intros Hk%(bool_decide_eq_true_2 _). specialize (Hw Hk). lia. }
    assert (∀ l n m, (bool_decide (Forall (known 1) script) = true → first_count l ≤ n) → n < m →
              Forall (known 1) script → first_count l < m) as Hfew.
    { intros l n m Hl Hm Hk%(bool_decide_eq_true_2 _). specialize (Hl Hk). lia. }
    intros [(g&n&->&[(Hall&->&Hend)|(->&Hn&->&l&d&z&?&?&?&Hr1&Hr2)])
           |(->&?&r&n&->&Hr&Hn&Hr1&Hr2)].
    + unfold finish. destruct e as [r|].
      * destruct Hend as (Hi&_&Hn&Hf&Hr1&Hr2).
        case_decide; cbn; [left|]; split; try done; [split; [done|lia]|].
        exists r. split; [done|]. left. split; [done|]. eapply Hfew; [done|lia].
      * destruct Hend as (->&Hr1&_). rewrite decide_True by (unfold enough, max_samples_received; lia).
        left. by split.
    + unfold finish. case_decide; cbn; [right|]; split; try done; exists l, d, z; split_and!; try done;
        [lia|]. eapply Hfew; [done|lia].
    + cbn. split; [done|]. exists r. split; [done|]. right. split; [done|]. by eapply Hfew.
Qed.
End TimeFilter.

(** ** Two or three consecutive samples *)

Module Lifespan.
Record slot := Slot {
  previous_seq_num : Z;
  first_iteration : bool;
  consecutive_samples : nat;
  ignore_first_sample : bool
}.

Record globals := Globals {
  produced_code : ReturnCode;
  lifespan_expiration_observed : bool
}.

(** [MAX_SAMPLES_READ / 10] *)
Definition max_samples_lifespan : nat := 50.

Definition new (size : Z) : slot := Slot size true 1 true.

Definition upd (g : globals) (a : slot) (size : Z) : globals * slot + globals :=
  if first_iteration a
  then inl (g, Slot (previous_seq_num a) false (consecutive_samples a) (ignore_first_sample a))
  else if (previous_seq_num a + 1 =? size)%Z
  then inl (g, Slot size false (S (consecutive_samples a)) false)
  else if Nat.eqb (consecutive_samples a) 3 || Nat.eqb (consecutive_samples a) 2
  then inl (Globals OK true, Slot size false 1 (ignore_first_sample a))
  else if ignore_first_sample a
  then inl (g, Slot size false (consecutive_samples a) false)
  else inr (Globals DATA_NOT_CORRECT (lifespan_expiration_observed g)).

Definition bad (g : globals) : globals :=
  Globals DATA_NOT_CORRECT (lifespan_expiration_observed g).

Definition finish (g : globals) (reads : nat) : ReturnCode :=
  if decide (max_samples_lifespan = reads)
  then if lifespan_expiration_observed g then OK else DATA_NOT_CORRECT
  else produced_code g.

Definition loop : string → list reply → outcome :=
  instance_loop new upd bad finish max_samples_lifespan 1 (Globals DATA_NOT_RECEIVED false).

Definition test_lifespan_2_3_consecutive_samples_w_instances
    (text : string) (script : list reply) : outcome :=
  with_basic_check text (loop text script).

(** *** Specification: the maximal runs of consecutive numbers *)

Definition join_run (z : Z) (rs : list (list Z)) : list (list Z) :=
  match rs with
  | (y :: r) :: rs' => if decide (y = z + 1)%Z then (z :: y :: r) :: rs' else [z] :: rs
  | _ => [[z]]
  end.
Definition runs (zs : list Z) : list (list Z) := foldr join_run [] zs.

Lemma runs_snoc zs y z :
  last zs = Some y →
  ∃ ini q r, runs zs = ini ++ [q :: r] ∧ (∀ r', r' ∈ ini → r' ≠ []) ∧
    runs (zs ++ [z]) =
      if decide (z = y + 1)%Z then ini ++ [q :: r ++ [z]] else ini ++ [q :: r; [z]].
Proof.
  induction zs as [|x zs IH]; [done|]. destruct zs as [|x' zs].
  - intros [= ->]. exists [], y, []. split_and!; [done|set_solver|].
    simpl. unfold join_run. by case_decide.
  - intros H. destruct (IH H) as (ini&q&r&E&Hne&E'). clear IH.
    change ((x :: x' :: zs) ++ [z]) with (x :: ((x' :: zs) ++ [z])).
    change (runs (x :: ?l)) with (join_run x (runs l)). rewrite E, E'. clear E E' H.
    destruct ini as [|[|i0 i] ini]; [| by destruct (Hne []); [left|]|];
      unfold join_run; simpl.
    + destruct (decide (q = x + 1)%Z).
      * exists [], x, (q :: r). split_and!; [done|set_solver|].
        destruct (decide (z = y + 1)%Z); by rewrite decide_True.
      * exists [[x]], q, r. split_and!; [done|set_solver|].
        destruct (decide (z = y + 1)%Z); by rewrite decide_False.
    + destruct (decide (i0 = x + 1)%Z).
      * exists ((x :: i0 :: i) :: ini), q, r. split_and!; [done|set_solver|].
        destruct (decide (z = y + 1)%Z); by rewrite decide_True.
      * exists ([x] :: (i0 :: i) :: ini), q, r. split_and!; [done|set_solver|].
        destruct (decide (z = y + 1)%Z); by rewrite decide_False.
Qed.

Lemma runs_nonempty zs r : r ∈ runs zs → r ≠ [].
Proof.
  revert r. induction zs as [|z zs IH]; [set_solver|]. intros r.
  change (runs (z :: zs)) with (join_run z (runs zs)). unfold join_run.
  destruct (runs zs) as [|[|y k] rs]; [set_solver..|].
  destruct (decide (y = z + 1)%Z); intros [->|H]%elem_of_cons; try done; apply IH; set_solver.
Qed.

(** The runs are all of the sizes, cut. *)
Lemma runs_concat zs : concat (runs zs) = zs.
Proof.
  induction zs as [|z zs IH]; [done|]. pose proof (runs_nonempty zs) as Hne.
  change (runs (z :: zs)) with (join_run z (runs zs)).
  unfold join_run. destruct (runs zs) as [|[|y r] rs]; simpl in *; [by subst| |].
  - exfalso. by apply (Hne []); [left|].
  - destruct (decide (y = z + 1)%Z); simpl; by rewrite IH.
Qed.

(** The runs that a gap has ended. *)
Definition complete (zs : list Z) : list (list Z) := removelast (runs zs).
Definition two_or_three (r : list Z) : Prop := length r = 2 ∨ length r = 3.
(** Every ended run has two or three samples; the first may be a single one. *)
Definition good_runs (rs : list (list Z)) : Prop :=
  match rs with
  | [] => True
  | r1 :: rs' => (length r1 = 1 ∨ two_or_three r1) ∧ Forall two_or_three rs'
  end.
Definition good (zs : list Z) : Prop := good_runs (complete zs).
Definition expired (zs : list Z) : Prop := Exists two_or_three (complete zs).

Definition slot_ok (zs : list Z) (a : slot) : Prop :=
  last zs = Some (previous_seq_num a) ∧ first_iteration a = false ∧
  ∃ ini r, runs zs = ini ++ [r] ∧ length r = consecutive_samples a ∧ good_runs ini ∧
           (ignore_first_sample a = true ↔ ini = [] ∧ length r = 1).

Lemma good_runs_snoc ini r :
  good_runs (ini ++ [r]) ↔ good_runs ini ∧ ((ini = [] ∧ length r = 1) ∨ two_or_three r).
Proof.
  destruct ini as [|r1 ini]; cbn; [rewrite Forall_nil; naive_solver|].
  rewrite Forall_app, Forall_singleton. naive_solver.
Qed.

Lemma slot_ok_next zs a z :
  slot_ok zs a →
  ∃ ini r, runs zs = ini ++ [r] ∧ length r = consecutive_samples a ∧ 1 ≤ length r ∧
    good_runs ini ∧ (ignore_first_sample a = true ↔ ini = [] ∧ length r = 1) ∧
    runs (zs ++ [z]) =
      if decide (z = previous_seq_num a + 1)%Z then ini ++ [r ++ [z]] else (ini ++ [r]) ++ [[z]].
Proof.
  intros (Hlast&_&ini&r&E&Hlen&Hgood&Hig).
  destruct (runs_snoc _ _ z Hlast) as (ini'&q&r'&E'&_&Ez).
  rewrite E in E'. apply app_inj_tail in E' as [<- ->]. exists ini, (q :: r').
  rewrite <- app_assoc. split_and!; try done. cbn. lia.
Qed.

Lemma complete_snoc zs ini r : runs zs = ini ++ [r] → complete zs = ini.
Proof. intros E. unfold complete. rewrite E. apply removelast_last. Qed.

Lemma slot_ok_new z : slot_ok [z] (Slot z false 1 true).
Proof. split_and!; [done..|]. exists [], [z]. by split_and!. Qed.

(** A sample of an instance either goes on with its current run, or ends a run
    of two or three, or ends a first run of a single sample. *)
Lemma lifespan_slot_ok_step g a zs z g' a' :
  slot_ok zs a → upd g a z = inl (g', a') →
  slot_ok (zs ++ [z]) a' ∧
  (g' = g ∧ (expired (zs ++ [z]) ↔ expired zs) ∨ g' = Globals OK true ∧ expired (zs ++ [z])).
Proof.
  intros Hok. destruct (slot_ok_next zs a z Hok) as (ini&r&E&Hlen&Hne&Hgood&Hig&Ez).
  destruct Hok as (_&Hf&_). unfold upd. rewrite Hf. intros Hu.
  unfold expired. rewrite (complete_snoc _ _ _ E).
  destruct (Z.eqb_spec (previous_seq_num a + 1) z) as [<-|Hz].
  - rewrite decide_True in Ez by done. simplify_eq. rewrite (complete_snoc _ _ _ Ez).
    split; [|by left]. split_and!; cbn; [by rewrite last_snoc|done|].
    exists ini, (r ++ [previous_seq_num a + 1]%Z). rewrite length_app. cbn.
    split_and!; [done|lia|done|]. split; [done|]. lia.
  - rewrite decide_False in Ez by congruence. rewrite (complete_snoc _ _ _ Ez), Exists_app, Exists_cons.
    destruct (Nat.eqb_spec (consecutive_samples a) 3), (Nat.eqb_spec (consecutive_samples a) 2);
      cbn in Hu; [lia| | |]; cycle 2.
    + destruct (ignore_first_sample a); [|done]. simplify_eq.
      destruct (proj1 Hig eq_refl) as [-> Hr]. split.
      * split_and!; cbn; [by rewrite last_snoc|done|]. exists [r], [z]. cbn.
        split_and!; [done|lia|by left|done|]. split; [done|by intros []].
      * left. split; [done|]. unfold two_or_three. rewrite !Exists_nil. naive_solver lia.
    + simplify_eq. split; [|right; split; [done|right; left; unfold two_or_three; lia]].
      split_and!; cbn; [by rewrite last_snoc|done|]. exists (ini ++ [r]), [z].
      split_and!; [done|done| |].
      * apply good_runs_snoc. split; [done|right; unfold two_or_three; lia].
      * split; [intros [_ ?]%Hig; lia|intros [Hn _]; by destruct ini].
    + simplify_eq. split; [|right; split; [done|right; left; unfold two_or_three; lia]].
      split_and!; cbn; [by rewrite last_snoc|done|]. exists (ini ++ [r]), [z].
      split_and!; [done|done| |].
      * apply good_runs_snoc. split; [done|right; unfold two_or_three; lia].
      * split; [intros [_ ?]%Hig; lia|intros [Hn _]; by destruct ini].
Qed.

Lemma lifespan_slot_ok_bad g a zs z g' :
  slot_ok zs a → upd g a z = inr g' →
  ¬ good (zs ++ [z]) ∧ produced_code g' = DATA_NOT_CORRECT.
Proof.
  intros Hok. destruct (slot_ok_next zs a z Hok) as (ini&r&E&Hlen&Hne&Hgood&Hig&Ez).
  destruct Hok as (_&Hf&_). unfold upd. rewrite Hf.
  destruct (Z.eqb_spec (previous_seq_num a + 1) z) as [<-|Hz]; [done|].
  destruct (Nat.eqb_spec (consecutive_samples a) 3); [done|].
  destruct (Nat.eqb_spec (consecutive_samples a) 2); [done|]. cbn.
  destruct (ignore_first_sample a); [done|]. intros [= <-]. split; [|done].
  rewrite decide_False in Ez by congruence. unfold good.
  rewrite (complete_snoc _ _ _ Ez), good_runs_snoc. unfold two_or_three.
  intros [_ [H|H]]; [by apply Hig in H|lia].
Qed.

(** [lifespan_expiration_observed] says whether some run of an instance ended. *)
Definition glob_ok (l : list sample) (g : globals) : Prop :=
  produced_code g = (if lifespan_expiration_observed g then OK else DATA_NOT_RECEIVED) ∧
  (lifespan_expiration_observed g = true ↔ ∃ c, expired (sizes_of c l)).

Lemma glob_ok_same l g c z :
  (expired (sizes_of c l ++ [z]) ↔ expired (sizes_of c l)) →
  glob_ok l g → glob_ok (l ++ [(c, z)]) g.
Proof.
  intros H [H1 H2]. split; [done|]. rewrite H2.
  split; intros [d Hd]; exists d; destruct (decide (c = d)) as [<-|];
    rewrite ?sizes_of_snoc_eq, ?(sizes_of_snoc_ne d c) in * by done; naive_solver.
Qed.

Definition post (h : list string) (e : option reply) (o : outcome) : Prop :=
  let all_good l := ∀ c, good (sizes_of c l) in
  let observed l := ∃ c, expired (sizes_of c l) in
  match o with
  | Returned OK => all_good (samples h) ∧ observed (samples h)
  | Returned DATA_NOT_CORRECT =>
      (∃ k c z, samples h = k ++ [(c, z)] ∧ all_good k ∧ ¬ good (sizes_of c k ++ [z])) ∨
      (all_good (samples h) ∧ ¬ observed (samples h) ∧
       max_samples_lifespan ≤ first_count (samples h))
  | Returned DATA_NOT_RECEIVED =>
      all_good (samples h) ∧
      ∃ r, e = Some r ∧ (r_index r = 1 ∧ ¬ observed (samples h) ∨ r_index r = 2)
  | Waiting => all_good (samples h)
  | _ => False
  end.

Lemma lifespan_loop_spec text script :
  ∃ h e, read_until text script h e (loop text script) ∧ post h e (loop text script).
Proof.
  unfold loop. edestruct (instance_loop_spec new upd bad finish
    max_samples_lifespan 1 slot_ok glob_ok (λ g, produced_code g = DATA_NOT_CORRECT)
    good (λ zs, ¬ good zs))
    with (exact := false) (script := script) (g := Globals DATA_NOT_RECEIVED false)
    as (h&e&Hh&HQ); [| | | | | | |].
  - intros g z. do 2 eexists. split; [done|]. split; [apply slot_ok_new|].
    intros l c Hg Hz. apply glob_ok_same; [|done]. rewrite Hz. done.
  - intros g a zs z g' a' Hok Hu.
    destruct (lifespan_slot_ok_step _ _ _ _ _ _ Hok Hu) as [Hok' Hg]. split; [done|].
    intros l c Hl <-. destruct Hg as [[-> Hx]|[-> Hx]]; [by apply glob_ok_same|].
    split; [done|]. split; [|done]. intros _. exists c. by rewrite sizes_of_snoc_eq.
  - intros g a zs z g' Hok Hu. by eapply lifespan_slot_ok_bad.
  - intros zs a (_&_&ini&r&E&_&Hg&_). unfold good. by rewrite (complete_snoc _ _ _ E).
  - done.
  - split; [done|]. split; [done|]. intros [c Hc]. inversion Hc.
  - by apply Forall_true.
  - exists h, e. split; [done|]. revert HQ.
    destruct (instance_loop _ _ _ _ _ _ _ _ _) as [c| |]; [|done|by intros [? _]].
    intros [(g&n&->&[(Hall&[Hp Hob]&Hend)|(->&Hn&Hp&l&d&z&?&?&?&_)])|(->&?&r&m&->&?&_)].
    + unfold finish. rewrite Hp. destruct (lifespan_expiration_observed g) eqn:Ho.
      * replace (if decide _ then OK else OK) with OK by (by case_decide). by split; [|apply Hob].
      * assert (¬ ∃ c, expired (sizes_of c (samples h))) by (by intros H%Hob).
        destruct e as [r|].
        -- destruct Hend as (Hi&_&Hn&_). rewrite decide_False by lia. cbn. eauto 10.
        -- destruct Hend as (->&Hr1&_). rewrite decide_True by done. cbn. right. by split_and!.
    + unfold finish. rewrite decide_False by lia. rewrite Hp. cbn. left. eauto 10.
    + cbn. eauto 10.
Qed.
End Lifespan.

(** ** Properties *)

(** C7: what the verdict of [test_reading_1_sample_every_10_samples_w_instances]
    means.  A sample fails when it comes less than 9 after the previous one of its
    instance, or makes the instance miss more than 5 samples.  [OK]: no sample failed and
    50 samples of the first instance were read, or 45 at a timeout -- or the last sample
    failed, but 45 samples of the first instance were read before it.
    [DATA_NOT_CORRECT]: the last sample is the first that fails, and fewer than 45 were read
    before it.  [DATA_NOT_RECEIVED]: no sample failed until a timeout before 45 were read or
    the end of the output before 50 were.  (The upper bounds hold when pexpect answers only
    the three patterns it is given.) *)
Theorem time_filter_verdict text script :
  verdict_spec (TimeFilter.post script) text script
    (TimeFilter.test_reading_1_sample_every_10_samples_w_instances text script).
Proof. apply verdict_spec_gate. intros _. apply TimeFilter.filter_loop_spec. Qed.

(** C8: what the verdict of [test_lifespan_2_3_consecutive_samples_w_instances]
    means.  With the samples of an instance cut into maximal runs of consecutive
    sizes, [OK]: every ended run has two or three samples (a first one may have one)
    and some run of two or three has ended.  [DATA_NOT_CORRECT]: the last sample ends
    a run of a wrong length, or 50 samples of the first instance came and no run of
    two or three ever ended.  [DATA_NOT_RECEIVED]: a timeout came before any such run
    ended, or the output ended. *)
Theorem lifespan_verdict text script :
  verdict_spec Lifespan.post text script
    (Lifespan.test_lifespan_2_3_consecutive_samples_w_instances text script).
Proof. apply verdict_spec_gate. intros _. apply Lifespan.lifespan_loop_spec. Qed.
