(* ===== verification/ReceiverChecks.v ===== *)
(** * Checks on what all samples have in common (test_suite_functions.py)

    [test_size_receivers], [test_color_receivers] and [test_size_less_than_20]
    look at one item of every sample (its size or its color), not at instances; the
    loop they share is [scan].  [test_durability_volatile] and
    [test_durability_transient_local] look at the first sample only, and
    [test_deadline_missed] waits for one message. *)

From S2P Require Import Prelude PyStr Regex Utilities CheckLoop ShapeLine InstanceChecks.
From stdpp Require Import options.

(** ** The loop

    [sub_string = re.search(...)]
    [while sub_string is not None and samples_read < max: ...; expect;]
    [samples_read += 1; sub_string = re.search(...)].  The search, written before
    the loop and at its end, is at the head of the loop here, and its failure ends
    the loop there. *)

Section scan.
(** [X]: the item of a sample; [G]: the function's variables. *)
Context {X G : Type} (search : string → result (option X)) (upd : G → X → step G)
        (on_timeout on_eof : G → step G) (finish_code : G → ReturnCode) (max : nat).

Record scan_st := ScanSt { s_glob : G; samples_read : nat }.

Definition lift (n : nat) (st : step G) : step scan_st :=
  match st with
  | Go g => Go (ScanSt g n)
  | Break g => Break (ScanSt g n)
  | Return_ c => Return_ c
  | Fail e => Fail e
  end.

Definition scan_guard (s : scan_st) : bool := bool_decide (samples_read s < max).
Definition scan_body (s : scan_st) (text : string) : step scan_st :=
  step_of (
    sub ← search text;
    match sub with
    | None => Ok (Break s)
    | Some x => Ok (lift (samples_read s) (upd (s_glob s) x))
    end).
Definition scan_after (s : scan_st) (r : reply) : step scan_st :=
  if decide (r_index r = 1) then lift (samples_read s) (on_timeout (s_glob s))
  else if decide (r_index r = 2) then lift (samples_read s) (on_eof (s_glob s))
  else Go (ScanSt (s_glob s) (S (samples_read s))).
Definition scan_finish (s : scan_st) : ReturnCode := finish_code (s_glob s).

Definition scan (g : G) (text : string) (script : list reply) : outcome :=
  while_expect scan_guard scan_body scan_after scan_finish (ScanSt g 0) text script.

(** *** What the loop guarantees *)

Definition item (t : string) : option X :=
  match search t with Ok o => o | Raise _ => None end.
Definition items (h : list string) : list X := omap item h.

(** The outcome of leaving the loop by a step other than [Go]. *)
Definition leave (st : step G) (o : outcome) : Prop :=
  match st with
  | Go _ => False
  | Break g => o = Returned (finish_code g)
  | Return_ c => o = Returned c
  | Fail e => o = Raised e
  end.

(** [Inv xs g]: the variables after the items [xs]. *)
Context (Inv : list X → G → Prop)
        (Hsearch : ∀ t, is_Ok (search t))
        (Hupd : ∀ xs g x g', Inv xs g → upd g x = Go g' → Inv (xs ++ [x]) g')
        (Hto : ∀ g g', on_timeout g ≠ Go g') (Heof : ∀ g g', on_eof g ≠ Go g').

(** An execution ends because [max] items were read, because a text has no
    sample, because of an item, by a timeout or by the end of the output. *)
Definition scan_post (h : list string) (e : option reply) (o : outcome) : Prop :=
  ∃ xs g, Inv xs g ∧ length xs ≤ max ∧
    ((o = Returned (finish_code g) ∧ items h = xs ∧
       (length xs = max ∨ ∃ h' t, h = h' ++ [t] ∧ item t = None)) ∨
     (∃ x, items h = xs ++ [x] ∧ leave (upd g x) o) ∨
     (∃ r, e = Some r ∧ items h = xs ∧
       (r_index r = 1 ∧ leave (on_timeout g) o ∨ r_index r = 2 ∧ leave (on_eof g) o)) ∨
     (o = Waiting ∧ items h = xs)).

Lemma items_snoc h t : items (h ++ [t]) = items h ++ option_list (item t).
Proof using All. apply omap_app_last. Qed.

Definition scan_inv (h : list string) (s : scan_st) : Prop :=
  Inv (items h) (s_glob s) ∧ length (items h) = samples_read s ∧ samples_read s ≤ max.
Definition scan_mid (h : list string) (s : scan_st) : Prop :=
  Inv (items h) (s_glob s) ∧ length (items h) = S (samples_read s) ∧ samples_read s < max.

Lemma exits_lift h e n J st :
  match st with Go g => J h (ScanSt g n) | _ => ∀ o, leave st o → scan_post h e o end →
  exits scan_finish scan_post h e J (lift n st).
Proof using All. destruct st; cbn; intros H; try apply H; done. Qed.

Lemma scan_spec g text script :
  Inv [] g →
  ∃ h e, read_until text script h e (scan g text script) ∧
         scan_post h e (scan g text script).
Proof using All.
  intros Hg. unfold scan.
  eapply (while_expect_rule scan_guard scan_body scan_after scan_finish scan_inv scan_mid
    scan_post (λ _, True)) with (h := []); [| | | | |by apply Forall_true].
  - intros h s (HI&Hl&Hm) Hn%bool_decide_eq_false.
    eexists _, _. split; [done|]. split; [lia|]. left. split_and!; [done..|lia].
  - intros h s t (HI&Hl&Hm) Hn%bool_decide_eq_true. unfold scan_body.
    assert (search t = Ok (item t)) as Ht by (unfold item; by destruct (Hsearch t) as [? ->]).
    rewrite Ht. cbn. destruct (item t) as [x|] eqn:Hx; cbn.
    + apply exits_lift. assert (items (h ++ [t]) = items h ++ [x]) as Hi
        by by rewrite items_snoc, Hx.
      destruct (upd (s_glob s) x) eqn:Hu; [|intros o Ho; eexists _, _; split; [done|];
        split; [lia|right; left; exists x; rewrite Hu; by split]..].
      unfold scan_mid. cbn. rewrite Hi, length_app. cbn. split_and!; [eauto|lia|done].
    + eexists _, _. split; [done|]. split; [lia|]. left.
      rewrite items_snoc, Hx. cbn. rewrite app_nil_r. eauto 10.
  - intros h s r (HI&Hl&Hm) _. unfold scan_after.
    destruct (decide (r_index r = 1)); [|destruct (decide (r_index r = 2))].
    + apply exits_lift. destruct (on_timeout (s_glob s)) eqn:E; [by apply Hto in E|..];
        intros o Ho; eexists _, _; (split; [done|]); (split; [lia|]);
        right; right; left; rewrite E; eauto 10.
    + apply exits_lift. destruct (on_eof (s_glob s)) eqn:E; [by apply Heof in E|..];
        intros o Ho; eexists _, _; (split; [done|]); (split; [lia|]);
        right; right; left; rewrite E; eauto 10.
    + cbn. by split_and!.
  - intros h s (HI&Hl&Hm). eexists _, _. split; [done|]. split; [lia|]. by do 3 right.
  - by split_and!; cbn; [|lia|lia].
Qed.
End scan.

(** ** The patterns *)

(** [sub_string = re.search(re, text)] and [int(sub_string.group(1))]. *)
Definition search_int (re : regex) (text : string) : result (option Z) :=
  match re_search re text with
  | None => Ok None
  | Some m => z ← group_int 1 m; Ok (Some z)
  end.

(** [\w\s+(\w+)\s+[0-9]+ [0-9]+ \[[0-9]+\]] *)
Definition color_re : regex :=
  (RChar cword ⊙ RPlus cspace ⊙ RGroup 1 (RPlus cword) ⊙ RPlus cspace ⊙ RPlus cdigit ⊙ RLit " "
   ⊙ RPlus cdigit ⊙ RLit " [" ⊙ RPlus cdigit ⊙ RLit "]")%re.

Definition search_color (text : string) : result (option string) :=
  match re_search color_re text with
  | None => Ok None
  | Some m => c ← or_raise TypeError (group 1 m); Ok (Some c)
  end.

(** The group of a pattern that captures digits is there and is a number. *)
Definition captures_digits (re : regex) : Prop :=
  ∀ s m, re_search re s = Some m →
    ∃ d, group 1 m = Some d ∧ sforall is_digit d = true ∧ d ≠ "".

Lemma search_int_total re t : captures_digits re → is_Ok (search_int re t).
Proof.
  intros Hre. unfold search_int. destruct (re_search re t) as [m|] eqn:E; [|by eexists].
  destruct (Hre _ _ E) as (d&Hd&?&?). erewrite group_int_digits by done. by eexists.
Qed.

Lemma basic_re_digits : captures_digits basic_re.
Proof. intros s m. apply basic_re_group. Qed.
Lemma position_size_re_digits : captures_digits position_size_re.
Proof.
  intros s m (l&w&rest&cs&_&A&->)%re_search_sound. unfold position_size_re in A.
  inv_accepts A. cbn. eauto.
Qed.
Lemma search_color_total t : is_Ok (search_color t).
Proof.
  unfold search_color. destruct (re_search color_re t) as [m|] eqn:E; [|by eexists].
  apply re_search_sound in E as (l&w&rest&cs&_&A&->). unfold color_re in A.
  inv_accepts A. by eexists.
Qed.
#[export] Hint Resolve search_int_total basic_re_digits position_size_re_digits
  search_color_total : py.

Lemma basic_check_color text :
  basic_verdict text = OK → ∃ c, search_color text = Ok (Some c).
Proof.
  intros H%basic_verdict_OK.
  assert (is_Some (re_search color_re text)) as [m Hm].
  { revert H. apply re_search_incl. intros w rest cs A. unfold basic_re in A.
    inv_accepts A.
    match goal with A1 : accepts (RChar cword) _ _ _ |- _ =>
      destruct A1 as (c&->&Hc&->) end.
    eexists "", _, rest, _. split; [done|]. unfold color_re.
    eapply accepts_seq_i; [by eexists|].
    eapply accepts_seq_i; [by apply accepts_plus_i|].
    eapply accepts_seq_i; [by apply accepts_group_i, accepts_plus_i|].
    eapply accepts_seq_i; [by apply accepts_plus_i|].
    eapply accepts_seq_i; [by apply accepts_plus_i|].
    eapply accepts_seq_i; [apply accepts_lit_i|].
    eapply accepts_seq_i; [by apply accepts_plus_i|].
    eapply accepts_seq_i; [apply accepts_lit_i|].
    eapply accepts_seq_i; [by apply accepts_plus_i|].
    apply accepts_lit_i. }
  destruct (search_color_total text) as [o Ho]. unfold search_color in *. rewrite Hm in *.
  destruct (group 1 m); [|done]. by eexists.
Qed.

(** ** The functions *)

(** [first_sample_size], [ignore_first_samples] and [retcode]. *)
Record size_vars := SizeVars {
  first_sample_size : Z;
  ignore_first_samples : bool;
  retcode : ReturnCode
}.

Definition size_upd (g : size_vars) (current_sample_size : Z) : step size_vars :=
  if decide (current_sample_size = first_sample_size g) then Go g
  else if ignore_first_samples g
  then Go (SizeVars current_sample_size false (retcode g))
  else Break (SizeVars (first_sample_size g) (ignore_first_samples g) RECEIVING_FROM_BOTH).

Definition test_size_receivers (text : string) (script : list reply) : outcome :=
  with_basic_check text
    match search_int basic_re text with
    | Raise e => Raised e
    | Ok None => Returned DATA_NOT_RECEIVED
    | Ok (Some first) =>
        scan (search_int basic_re) size_upd Break (λ _, Return_ DATA_NOT_RECEIVED) retcode
          MAX_SAMPLES_READ (SizeVars first true RECEIVING_FROM_ONE) text script
    end.

Definition color_upd (first_sample_color current_sample_color : string) : step string :=
  if decide (current_sample_color = first_sample_color) then Go first_sample_color
  else Return_ RECEIVING_FROM_BOTH.

Definition test_color_receivers (text : string) (script : list reply) : outcome :=
  with_basic_check text
    match search_color text with
    | Raise e => Raised e
    | Ok None => Raised AttributeError
    | Ok (Some first) =>
        scan search_color color_upd Break (λ _, Return_ DATA_NOT_RECEIVED)
          (λ _, RECEIVING_FROM_ONE) MAX_SAMPLES_READ first text script
    end.

Definition less_than_20_upd (return_code : ReturnCode) (size : Z) : step ReturnCode :=
  if (size <? 1)%Z || (20 <? size)%Z then Break DATA_NOT_CORRECT else Go return_code.

(** The bound is [MAX_SAMPLES_READ / 2]. *)
Definition test_size_less_than_20 (text : string) (script : list reply) : outcome :=
  with_basic_check text
    (scan (search_int position_size_re) less_than_20_upd
       (λ _, Break DATA_NOT_RECEIVED) (λ _, Break DATA_NOT_RECEIVED) id
       (MAX_SAMPLES_READ / 2) OK text script).

(** *** What they decide *)

(** How often neighbours differ. *)
Fixpoint changes_from (f : Z) (zs : list Z) : nat :=
  match zs with
  | [] => 0
  | z :: zs' => (if decide (z = f) then 0 else 1) + changes_from z zs'
  end.
Definition changes (zs : list Z) : nat :=
  match zs with [] => 0 | z :: zs' => changes_from z zs' end.

Lemma changes_from_snoc f zs z :
  changes_from f (zs ++ [z]) =
  changes_from f zs + if decide (z = default f (last zs)) then 0 else 1.
Proof.
  revert f. induction zs as [|y zs IH]; intros f; cbn; [lia|].
  rewrite IH. destruct zs; cbn; [lia|]. destruct (last_is_Some (z0 :: zs)) as [_ [w Hw]]; [done|].
  cbn in Hw. rewrite Hw. cbn. lia.
Qed.

Abbreviation sizes_in := (items (search_int basic_re)) (only parsing).
Abbreviation colors_in := (items search_color) (only parsing).

(** The end of a stream that was read without a complaint. *)
Definition stream_end {X} (search : string → result (option X)) (max : nat)
    (h : list string) (e : option reply) : Prop :=
  length (items search h) = max ∨
  (∃ h' t, h = h' ++ [t] ∧ item search t = None) ∨
  (∃ r, e = Some r ∧ r_index r = 1).

Definition size_post (h : list string) (e : option reply) (o : outcome) : Prop :=
  match o with
  | Returned RECEIVING_FROM_ONE =>
      changes (sizes_in h) ≤ 1 ∧ stream_end (search_int basic_re) MAX_SAMPLES_READ h e
  | Returned RECEIVING_FROM_BOTH =>
      ∃ zs z, sizes_in h = zs ++ [z] ∧ changes zs = 1 ∧ changes (zs ++ [z]) = 2
  | Returned DATA_NOT_RECEIVED =>
      changes (sizes_in h) ≤ 1 ∧ ∃ r, e = Some r ∧ r_index r = 2
  | Waiting => changes (sizes_in h) ≤ 1
  | _ => False
  end.

Definition color_post (h : list string) (e : option reply) (o : outcome) : Prop :=
  let one l := ∃ c, Forall (λ d, d = c) l in
  match o with
  | Returned RECEIVING_FROM_ONE =>
      one (colors_in h) ∧ stream_end search_color MAX_SAMPLES_READ h e
  | Returned RECEIVING_FROM_BOTH =>
      ∃ c cs d, colors_in h = c :: cs ++ [d] ∧ Forall (λ d, d = c) cs ∧ d ≠ c
  | Returned DATA_NOT_RECEIVED => one (colors_in h) ∧ ∃ r, e = Some r ∧ r_index r = 2
  | Waiting => one (colors_in h)
  | _ => False
  end.

Definition less_than_20_post (h : list string) (e : option reply) (o : outcome) : Prop :=
  let zs := items (search_int position_size_re) h in
  let in_range z := (1 ≤ z ≤ 20)%Z in
  match o with
  | Returned OK =>
      Forall in_range zs ∧
      (length zs = 250 ∨ ∃ h' t, h = h' ++ [t] ∧ item (search_int position_size_re) t = None)
  | Returned DATA_NOT_CORRECT =>
      ∃ k z, zs = k ++ [z] ∧ Forall in_range k ∧ ¬ in_range z
  | Returned DATA_NOT_RECEIVED =>
      Forall in_range zs ∧ ∃ r, e = Some r ∧ (r_index r = 1 ∨ r_index r = 2)
  | Waiting => Forall in_range zs
  | _ => False
  end.

(** The first item read is that of the first text. *)
Lemma items_head {X} (search : string → result (option X)) text script h e o f :
  read_until text script h e o → item search text = Some f →
  items search h = [] ∨ ∃ xs, items search h = f :: xs.
Proof.
  intros [[k Hk] _] Hf. destruct h as [|t h]; [by left|]. right. injection Hk as -> _.
  exists (items search h). unfold items. cbn. by rewrite Hf.
Qed.

Lemma changes_head f zs : zs = [] ∨ (∃ xs, zs = f :: xs) → changes zs = changes_from f zs.
Proof. intros [->|[xs ->]]; [done|]. cbn. by rewrite decide_True. Qed.

(** The outcome as a variable, once its postcondition is known. *)
Ltac gen_scan Hh HQ :=
  revert Hh HQ;
  match goal with |- context [scan ?a ?b ?c ?d ?e ?f ?g ?h ?i] =>
    generalize (scan a b c d e f g h i) end;
  intros o Hh HQ.

Lemma size_spec text script :
  basic_verdict text = OK →
  ∃ f, search_int basic_re text = Ok (Some f) ∧
  let o := scan (search_int basic_re) size_upd Break (λ _, Return_ DATA_NOT_RECEIVED) retcode
     MAX_SAMPLES_READ (SizeVars f true RECEIVING_FROM_ONE) text script in
  ∃ h e, read_until text script h e o ∧ size_post h e o.
Proof.
  intros [m Hm]%basic_verdict_OK.
  destruct (basic_re_group _ _ Hm) as (d&Hd&?&?).
  assert (search_int basic_re text = Ok (Some (dec_value 0 d))) as Hf
    by (unfold search_int; rewrite Hm; by erewrite group_int_digits by done).
  exists (dec_value 0 d). split; [done|]. set (f := dec_value 0 d) in *. cbn zeta.
  destruct (scan_spec (search_int basic_re) size_upd Break (λ _, Return_ DATA_NOT_RECEIVED)
    retcode MAX_SAMPLES_READ (λ zs g, retcode g = RECEIVING_FROM_ONE ∧
      first_sample_size g = default f (last zs) ∧
      changes_from f zs = if ignore_first_samples g then 0 else 1))
    with (g := SizeVars f true RECEIVING_FROM_ONE) (text := text) (script := script)
    as (h&e&Hh&xs&g&(Hrc&Hfst&Hch)&_&HQ); [auto with py| |done|done|done|].
  { intros xs [f' ig rc] z g' (Hrc&Hfst&Hch). cbn in *. unfold size_upd. cbn.
    rewrite last_snoc, changes_from_snoc, <- Hfst, Hch.
    repeat case_match; intros [= <-]; cbn; split_and!; try done; lia. }
  exists h, e. gen_scan Hh HQ. split; [done|]. pose proof (items_head (search_int basic_re) _ _ _ _ _ f Hh) as Hhd.
  unfold item in Hhd. rewrite Hf in Hhd. specialize (Hhd eq_refl).
  assert (changes_from f xs ≤ 1) by (rewrite Hch; case_match; lia).
  pose proof (changes_head f _ Hhd) as Hc. unfold size_post, stream_end.
  destruct HQ as [(->&Hi&Hend)|[(z&Hi&Hl)|[(r&->&Hi&[[Hr Hl]|[Hr Hl]])|[-> Hi]]]];
    rewrite Hi in *.
  - rewrite Hrc. split; [lia|]. destruct Hend; eauto.
  - unfold size_upd in Hl. destruct (decide _) as [|Hz]; [done|].
    destruct (ignore_first_samples g); [done|]. cbn in Hl. rewrite Hl.
    exists xs, z. rewrite Hc, changes_from_snoc, <- Hfst, decide_False by done.
    split_and!; [done| |lia]. destruct xs as [|x xs]; [done|].
    destruct Hhd as [|[? [= -> _]]]; [done|]. rewrite <- Hch. apply changes_head. eauto.
  - cbn in Hl. rewrite Hl, Hrc. split; [lia|]. eauto.
  - cbn in Hl. rewrite Hl. split; [lia|]. eauto.
  - lia.
Qed.

Lemma color_spec text script :
  basic_verdict text = OK →
  ∃ f, search_color text = Ok (Some f) ∧
  let o := scan search_color color_upd Break (λ _, Return_ DATA_NOT_RECEIVED)
     (λ _, RECEIVING_FROM_ONE) MAX_SAMPLES_READ f text script in
  ∃ h e, read_until text script h e o ∧ color_post h e o.
Proof.
  intros [f Hf]%basic_check_color. exists f. split; [done|]. cbn zeta.
  destruct (scan_spec search_color color_upd Break (λ _, Return_ DATA_NOT_RECEIVED)
    (λ _, RECEIVING_FROM_ONE) MAX_SAMPLES_READ (λ cs g, g = f ∧ Forall (λ d, d = f) cs))
    with (g := f) (text := text) (script := script)
    as (h&e&Hh&xs&g&[-> Hall]&_&HQ); [auto with py| |done|done|by split|].
  { intros xs g c g' [-> Hall]. unfold color_upd. case_decide; [|done]. intros [= <-].
    split; [done|]. apply Forall_app; split; [done|]. by repeat constructor. }
  exists h, e. gen_scan Hh HQ. split; [done|].
  pose proof (items_head search_color _ _ _ _ _ f Hh) as Hhd.
  unfold item in Hhd. rewrite Hf in Hhd. specialize (Hhd eq_refl). unfold color_post, stream_end.
  destruct HQ as [(->&Hi&Hend)|[(c&Hi&Hl)|[(r&->&Hi&[[Hr Hl]|[Hr Hl]])|[-> Hi]]]];
    rewrite Hi in *; try (cbn in Hl; subst); eauto 10.
  - split; [eauto|]. destruct Hend; eauto.
  - unfold color_upd in Hl. destruct (decide (c = f)) as [|Hc]; [done|]. cbn in Hl. rewrite Hl.
    destruct xs as [|x xs]; [destruct Hhd as [|[? [= ->]]]; done|].
    destruct Hhd as [|[? [= -> _]]]; [done|]. apply Forall_cons in Hall as [_ ?]. eauto 10.
Qed.

Lemma less_than_20_spec text script :
  let o := scan (search_int position_size_re) less_than_20_upd
     (λ _, Break DATA_NOT_RECEIVED) (λ _, Break DATA_NOT_RECEIVED) id
     (MAX_SAMPLES_READ / 2) OK text script in
  ∃ h e, read_until text script h e o ∧ less_than_20_post h e o.
Proof.
  cbn zeta. destruct (scan_spec (search_int position_size_re) less_than_20_upd
    (λ _, Break DATA_NOT_RECEIVED) (λ _, Break DATA_NOT_RECEIVED) id (MAX_SAMPLES_READ / 2)
    (λ zs g, g = OK ∧ Forall (λ z, 1 ≤ z ≤ 20)%Z zs)) with (g := OK) (text := text) (script := script)
    as (h&e&Hh&xs&g&[-> Hall]&_&HQ); [auto with py| |done|done|by split|].
  { intros xs g z g' [-> Hall]. unfold less_than_20_upd. case_match eqn:E; [done|].
    intros [= <-]. split; [done|]. apply Forall_app; split; [done|].
    repeat constructor; lia. }
  exists h, e. gen_scan Hh HQ. split; [done|]. unfold less_than_20_post.
  destruct HQ as [(->&Hi&Hend)|[(z&Hi&Hl)|[(r&->&Hi&[[Hr Hl]|[Hr Hl]])|[-> Hi]]]];
    rewrite Hi in *; try (cbn in Hl; rewrite Hl); cbn; eauto 10.
  unfold less_than_20_upd in Hl. destruct (_ || _) eqn:E; [|done]. cbn in Hl. rewrite Hl.
  exists xs, z. split_and!; [done..|]. lia.
Qed.

(** ** The first sample only *)

(** [int(re.search(position_size_re, text).group(1))] *)
Definition first_size (text : string) : result Z :=
  m ← or_raise AttributeError (re_search position_size_re text); group_int 1 m.

Definition test_durability_volatile (text : string) (script : list reply) : outcome :=
  with_basic_check text
    match first_size text with
    | Raise e => Raised e
    | Ok size => Returned (if (5 <=? size)%Z then OK else DATA_NOT_CORRECT)
    end.

Definition test_durability_transient_local (text : string) (script : list reply) : outcome :=
  with_basic_check text
    match first_size text with
    | Raise e => Raised e
    | Ok size => Returned (if (size =? 1)%Z then OK else DATA_NOT_CORRECT)
    end.

Lemma first_size_basic text : basic_verdict text = OK → is_Ok (first_size text).
Proof.
  intros H%basic_verdict_OK.
  assert (is_Some (re_search position_size_re text)) as [m Hm].
  { revert H. apply re_search_incl. intros w rest cs A. unfold basic_re in A. inv_accepts A.
    match goal with A1 : accepts (RChar cword) _ _ _ |- _ =>
      destruct A1 as (c&->&Hc&->) end.
    match goal with
      |- ∃ _ _ _ _, (?a +:+ ?b +:+ ?c +:+ ?d +:+ ?e) +:+ rest = _ ∧ _ =>
        exists (a +:+ b +:+ c +:+ d), e, rest end.
    eexists. split; [by rewrite !sapp_assoc|]. unfold position_size_re.
    eapply accepts_seq_i; [by apply accepts_plus_i|].
    eapply accepts_seq_i; [apply accepts_lit_i|].
    eapply accepts_seq_i; [by apply accepts_plus_i|].
    eapply accepts_seq_i; [apply accepts_lit_i|].
    eapply accepts_seq_i; [by apply accepts_group_i, accepts_plus_i|].
    apply accepts_lit_i. }
  unfold first_size. rewrite Hm. cbn.
  destruct (position_size_re_digits _ _ Hm) as (d&Hd&?&?).
  erewrite group_int_digits by done. by eexists.
Qed.

(** ** The requested deadline *)

Definition test_deadline_missed (text : string) (script : list reply) : outcome :=
  with_basic_check text
    match script with
    | [] => Waiting
    | r :: script' =>
        if decide (r_index r = 0) then Returned DEADLINE_MISSED
        else if decide (r_index r = 1) then Returned DATA_NOT_RECEIVED
        else
          match script' with
          | [] => Waiting
          | r' :: _ =>
              if decide (r_index r' = 0) then Returned OK else Returned DATA_NOT_RECEIVED
          end
    end.

(** *** The size of a printed line *)

Definition not_char (k c : ascii) : bool := negb (Ascii.eqb c k).
Abbreviation not_bracket := (not_char "[").
Abbreviation not_close := (not_char "]").

(** A string with one occurrence of a character is cut there in one way. *)
Lemma cut_unique (k : ascii) p q a b :
  sforall (not_char k) p = true → sforall (not_char k) q = true →
  p +:+ String k q = a +:+ String k b → a = p ∧ b = q.
Proof.
  revert a. induction p as [|c p IH]; intros [|d a] Hp Hq; rewrite ?sapp_nil_l, ?sapp_cons.
  - by intros [= ->].
  - intros [= <- ->]. exfalso. rewrite sforall_app in Hq. cbn in Hq.
    unfold not_char in Hq. rewrite Ascii.eqb_refl in Hq. by rewrite andb_false_r in Hq.
  - intros [= -> _]. cbn in Hp. unfold not_char in Hp. by rewrite Ascii.eqb_refl in Hp.
  - intros [= <- E]. cbn in Hp. apply andb_true_iff in Hp as [_ Hp].
    destruct (IH a Hp Hq E) as [-> ->]. done.
Qed.

(** The first of two runs in front of the first [k]. *)
Lemma cut_unique_l (k : ascii) p q a b :
  sforall (not_char k) p = true → sforall (not_char k) a = true →
  p +:+ String k q = a +:+ String k b → a = p.
Proof.
  revert a. induction p as [|c p IH]; intros [|d a] Hp Ha; rewrite ?sapp_nil_l, ?sapp_cons.
  - done.
  - intros [= <- ->]. cbn in Ha. unfold not_char in Ha. by rewrite Ascii.eqb_refl in Ha.
  - intros [= -> _]. cbn in Hp. unfold not_char in Hp. by rewrite Ascii.eqb_refl in Hp.
  - intros [= <- E]. cbn in Hp, Ha. apply andb_true_iff in Hp as [_ Hp].
    apply andb_true_iff in Ha as [_ Ha]. by rewrite (IH a Hp Ha E).
Qed.

Lemma word_not_bracket : ∀ c, is_word c = true → not_bracket c = true.
Proof. by_ascii. Qed.
Lemma digit_not_bracket : ∀ c, is_digit c = true → not_bracket c = true.
Proof. by_ascii. Qed.
Lemma space_not_bracket : ∀ c, is_space c = true → not_bracket c = true.
Proof. by_ascii. Qed.
Lemma digit_not_close : ∀ c, is_digit c = true → not_close c = true.
Proof. by_ascii. Qed.
#[export] Hint Resolve word_not_bracket digit_not_bracket space_not_bracket digit_not_close : py.

(** What stands in front of the size. *)
Lemma line_front topic color x y :
  is_name topic → is_name color →
  sforall not_bracket (topic +:+ gap 10 topic +:+ color +:+ gap 10 color +:+ pad_dec 3 x +:+
                       " " +:+ pad_dec 3 y +:+ " ") = true.
Proof.
  intros [_ Ht] [_ Hc]. rewrite !sforall_app.
  rewrite (sforall_impl _ not_bracket topic word_not_bracket Ht).
  rewrite (sforall_impl _ not_bracket color word_not_bracket Hc).
  rewrite !(sforall_impl _ not_bracket (gap _ _) space_not_bracket) by apply gap_space.
  by rewrite !(sforall_impl _ not_bracket (pad_dec _ _) digit_not_bracket) by apply pad_dec_digits.
Qed.

Lemma first_size_line pre topic color x y size :
  sforall not_bracket pre = true → is_name topic → is_name color →
  first_size (pre +:+ shape_line topic color x y size) = Ok (Z.of_N size).
Proof.
  intros Hpre Ht Hc. pose proof (line_front topic color x y Ht Hc) as Hf.
  destruct (pretty_N_digits size) as [Hsd Hsne].
  set (front := topic +:+ gap 10 topic +:+ color +:+ gap 10 color) in *.
  assert (pre +:+ shape_line topic color x y size =
          (pre +:+ front) +:+ (pad_dec 3 x +:+ " " +:+ pad_dec 3 y +:+ " [" +:+ pretty size +:+ "]") +:+ "")
    as Hsplit by (rewrite shape_line_split; unfold front; by rewrite !sapp_assoc).
  destruct (pad_dec_digits 3 x), (pad_dec_digits 3 y).
  assert (is_Some (re_search position_size_re (pre +:+ shape_line topic color x y size)))
    as [m Hm].
  { rewrite Hsplit. eapply re_search_complete. unfold position_size_re.
    eapply accepts_seq_i; [by apply accepts_plus_i|].
    eapply accepts_seq_i; [apply accepts_lit_i|].
    eapply accepts_seq_i; [by apply accepts_plus_i|].
    eapply accepts_seq_i; [apply accepts_lit_i|].
    eapply accepts_seq_i; [by apply accepts_group_i, accepts_plus_i|].
    apply accepts_lit_i. }
  unfold first_size. rewrite Hm. cbn.
  apply re_search_sound in Hm as (l&w&rest&cs&E&A&->). unfold position_size_re in A.
  inv_accepts A. unfold group_int. cbn. rewrite py_int_digits by done. f_equal.
  rewrite <- dec_value_pretty. f_equal.
  rewrite shape_line_split in E.
  match type of E with _ = l +:+ (?d1 +:+ " " +:+ ?d2 +:+ " [" +:+ ?d3 +:+ "]") +:+ rest =>
    assert (l +:+ d1 +:+ " " +:+ d2 +:+ " " = pre +:+ front +:+ pad_dec 3 x +:+ " " +:+
              pad_dec 3 y +:+ " " ∧ d3 +:+ "]" +:+ rest = pretty size +:+ "]" +:+ "") as [_ E2] end.
  { apply (cut_unique "["); [| |].
    - by rewrite sforall_app, Hpre; unfold front; rewrite !sapp_assoc.
    - rewrite sforall_app. cbn. rewrite andb_true_r. by eapply sforall_impl, Hsd; auto with py.
    - unfold front. rewrite !sapp_assoc in *. exact E. }
  symmetry. eapply (cut_unique_l "]"); [| |exact E2];
    (eapply sforall_impl; [apply digit_not_close|done]).
Qed.

Lemma first_size_printed s : named s → first_size (printed s) = Ok (Z.of_N (s_size s)).
Proof. intros [??]. by apply first_size_line. Qed.

(** ** Properties *)

(** What the verdict of [test_size_receivers] means.  [RECEIVING_FROM_BOTH]: the
    last sample read is the second whose size differs from the previous one's.
    [RECEIVING_FROM_ONE]: the size changed at most once, until 500 samples were read, a
    text without a sample came, or a timeout.  [DATA_NOT_RECEIVED]: the output ended. *)
Theorem size_receivers_verdict text script :
  verdict_spec size_post text script (test_size_receivers text script).
Proof.
  apply verdict_spec_gate. intros Hb.
  destruct (size_spec text script Hb) as (f&Hf&H). by rewrite Hf.
Qed.

(** What the verdict of [test_color_receivers] means.  [RECEIVING_FROM_BOTH]: the
    last sample read is the first of another color than the first.
    [RECEIVING_FROM_ONE]: one color, until 500 samples, a text without a sample or a
    timeout.  The search whose result the code uses unchecked never fails. *)
Theorem color_receivers_verdict text script :
  verdict_spec color_post text script (test_color_receivers text script).
Proof.
  apply verdict_spec_gate. intros Hb.
  destruct (color_spec text script Hb) as (f&Hf&H). by rewrite Hf.
Qed.

(** C13: What the verdicts of the two checks of the number of publishers mean.
    [test_size_receivers] says [RECEIVING_FROM_BOTH] exactly when the last sample read is
    the second whose size differs from the previous one's, [test_color_receivers] when it is
    the first of another color than the first; [RECEIVING_FROM_ONE] after at most one such
    change of the size, or one color, until 500 samples, a text without a sample or a
    timeout; [DATA_NOT_RECEIVED] when the output ended. *)
Theorem receivers_verdicts text script :
  verdict_spec size_post text script (test_size_receivers text script)
  ∧ verdict_spec color_post text script (test_color_receivers text script).
Proof. split; [apply size_receivers_verdict|apply color_receivers_verdict]. Qed.

(** what the verdict of [test_size_less_than_20] means.  [OK]: 250 samples, or
    those until a text without a sample, have a size from 1 to 20.
    [DATA_NOT_CORRECT]: the last sample read is the first out of this range. *)
Theorem size_less_than_20_verdict text script :
  verdict_spec less_than_20_post text script (test_size_less_than_20 text script).
Proof. apply verdict_spec_gate. intros _. apply less_than_20_spec. Qed.

(** on a sample line that the subscriber prints, [test_durability_volatile] says
    [OK] from size 5 on, [test_durability_transient_local] exactly for size 1, and both
    say [DATA_NOT_CORRECT] otherwise (also for size 0, which the basic check
    rejects). *)
Theorem durability_verdicts s script :
  named s →
  test_durability_volatile (printed s) script =
    Returned (if (5 <=? s_size s)%N then OK else DATA_NOT_CORRECT) ∧
  test_durability_transient_local (printed s) script =
    Returned (if (s_size s =? 1)%N then OK else DATA_NOT_CORRECT).
Proof.
  intros Hn. unfold test_durability_volatile, test_durability_transient_local.
  rewrite !with_basic_check_eq, first_size_printed by done.
  destruct (N.eqb_spec (s_size s) 0) as [Hz|Hz].
  - destruct Hn as [??]. unfold printed. rewrite basic_verdict_line by done. rewrite Hz. done.
  - rewrite basic_verdict_printed, !decide_True by done. split; do 2 f_equal.
    + destruct (Z.leb_spec 5 (Z.of_N (s_size s))), (N.leb_spec 5 (s_size s)); try done; lia.
    + destruct (Z.eqb_spec (Z.of_N (s_size s)) 1), (N.eqb_spec (s_size s) 1); try done; lia.
Qed.

Lemma durability_verdicts_witness :
  test_durability_volatile (printed demo_first) [] = Returned DATA_NOT_CORRECT ∧
  test_durability_transient_local (printed demo_first) [] = Returned OK.
Proof.
  apply (durability_verdicts demo_first []).
  apply (bool_decide_unpack _). vm_compute. exact I.
Defined.
