(* ===== verification/DisposalChecks.v ===== *)
(** * Unregistered and disposed instances, large data (test_suite_functions.py)

    [test_unregistering_w_instances] and [test_disposing_w_instances] are the same
    code around a different message; it is written once for the message.
    [test_large_data] reads the last byte of every sample. *)

From S2P Require Import Prelude PyStr Regex Utilities CheckLoop ShapeLine InstanceChecks.
From stdpp Require Import options.

(** ** Instances that go away *)

Section first_seen.
Context {A : Type} `{EqDecision A}.
Implicit Types l : list A.

(** [if x not in l: l.append(x)] *)
Definition add_new (l : list A) (x : A) : list A := if decide (x ∈ l) then l else l ++ [x].
(** The elements of a list in the order they are first seen. *)
Definition first_seen (l : list A) : list A := foldl add_new [] l.

Lemma first_seen_snoc l x : first_seen (l ++ [x]) = add_new (first_seen l) x.
Proof. unfold first_seen. by rewrite foldl_app. Qed.
Lemma add_new_elem l x y : y ∈ add_new l x ↔ y ∈ l ∨ y = x.
Proof. unfold add_new. case_decide; set_solver. Qed.
Lemma first_seen_elem l x : x ∈ first_seen l ↔ x ∈ l.
Proof.
  induction l as [|y l IH] using rev_ind; [done|].
  rewrite first_seen_snoc, add_new_elem. set_solver.
Qed.
End first_seen.

Definition sample_color (text : string) : result (option string) :=
  match re_search sample_re text with
  | None => Ok None
  | Some m => c ← or_raise TypeError (group 1 m); Ok (Some c)
  end.

(** [\w+\s+(\w+)\s+MESSAGE] *)
Definition notice_re (message : string) : regex :=
  (RPlus cword ⊙ RPlus cspace ⊙ RGroup 1 (RPlus cword) ⊙ RPlus cspace ⊙ RLit message)%re.

Definition notice_color (message text : string) : result (option string) :=
  match re_search (notice_re message) text with
  | None => Ok None
  | Some m => c ← or_raise TypeError (group 1 m); Ok (Some c)
  end.

Lemma sample_color_total t : is_Ok (sample_color t).
Proof.
  unfold sample_color. destruct (re_search sample_re t) as [m|] eqn:E; [|by eexists].
  apply re_search_sound in E as (l&w&rest&cs&_&A&->). unfold sample_re in A.
  inv_accepts A. by eexists.
Qed.
Lemma notice_color_total message t : is_Ok (notice_color message t).
Proof.
  unfold notice_color. destruct (re_search (notice_re message) t) as [m|] eqn:E; [|by eexists].
  apply re_search_sound in E as (l&w&rest&cs&_&A&->). unfold notice_re in A.
  inv_accepts A. by eexists.
Qed.

Section going_away.
Context (message : string).

Record st := St {
  instance_color : list string;
  (** [unregistered_instance_color] or [disposed_instance_color] *)
  gone_instance_color : list string;
  samples_read_per_instance : nat;
  sub_string : option string
}.

Definition guard (s : st) : bool := bool_decide (samples_read_per_instance s < MAX_SAMPLES_READ).

Definition body (s : st) (text : string) : step st :=
  step_of (
    sub ← sample_color text;
    match sub with
    | Some color =>
        Ok (Go (St (add_new (instance_color s) color) (gone_instance_color s)
                   (samples_read_per_instance s) (Some color)))
    | None =>
        notice ← notice_color message text;
        match notice with
        | Some color =>
            if decide (color ∈ gone_instance_color s)
            then Ok (Go (St (instance_color s) (gone_instance_color s)
                            (samples_read_per_instance s) (Some color)))
            else
              let gone := gone_instance_color s ++ [color] in
              let s' := St (instance_color s) gone (samples_read_per_instance s) (Some color) in
              if decide (length (instance_color s) = length gone)
              then Ok (Break s') else Ok (Go s')
        | None =>
            Ok (Go (St (instance_color s) (gone_instance_color s)
                       (samples_read_per_instance s) None))
        end
    end).

Definition after (s : st) (r : reply) : step st :=
  if decide (r_index r = 0) then
    match sub_string s with
    | None => Go s
    | Some color =>
        match instance_color s with
        | [] => Fail IndexError
        | c0 :: _ =>
            if decide (color = c0)
            then Go (St (instance_color s) (gone_instance_color s)
                        (S (samples_read_per_instance s)) (sub_string s))
            else Go s
        end
    end
  else if decide (r_index r = 1) then Break s
  else if decide (r_index r = 2) then Return_ DATA_NOT_RECEIVED
  else Go s.

Definition finish (s : st) : ReturnCode :=
  if decide (length (instance_color s) = 0) then DATA_NOT_RECEIVED
  else if decide (list_to_set (instance_color s) =@{gset string}
                  list_to_set (gone_instance_color s))
       then OK else DATA_NOT_CORRECT.

Definition going_away_loop (text : string) (script : list reply) : outcome :=
  while_expect guard body after finish (St [] [] 0 None) text script.

Definition going_away_check (text : string) (script : list reply) : outcome :=
  with_basic_check text (going_away_loop text script).

(** *** What it decides *)

Definition sample_in (t : string) : option string :=
  match sample_color t with Ok o => o | Raise _ => None end.
(** A notice counts only in a text without a sample. *)
Definition notice_in (t : string) : option string :=
  match sample_in t with
  | Some _ => None
  | None => match notice_color message t with Ok o => o | Raise _ => None end
  end.
Definition seen (h : list string) : list string := first_seen (omap sample_in h).
Definition gone (h : list string) : list string := first_seen (omap notice_in h).

Definition same_instances (h : list string) : Prop := ∀ c, c ∈ seen h ↔ c ∈ gone h.

(** The loop stops at 500 reads, at the notice that makes the two lists equally
    long, or at a timeout. *)
Definition stop (h : list string) (e : option reply) : Prop :=
  match e with
  | None => MAX_SAMPLES_READ ≤ length h ∨ length (seen h) = length (gone h)
  | Some r => r_index r = 1
  end.

Definition going_away_post (h : list string) (e : option reply) (o : outcome) : Prop :=
  match o with
  | Returned OK => seen h ≠ [] ∧ same_instances h ∧ stop h e
  | Returned DATA_NOT_CORRECT => seen h ≠ [] ∧ ¬ same_instances h ∧ stop h e
  | Returned DATA_NOT_RECEIVED => ∃ r, e = Some r ∧ r_index r = 2
  | Waiting => True
  | _ => False
  end.

Definition inv (h : list string) (s : st) : Prop :=
  instance_color s = seen h ∧ gone_instance_color s = gone h ∧
  samples_read_per_instance s ≤ length h.
Definition head_inv (h : list string) (t : string) (s : st) : Prop :=
  inv h s ∧ if decide (h = []) then is_Some (sample_in t) else instance_color s ≠ [].
Definition mid_inv (h : list string) (s : st) : Prop :=
  inv h s ∧ instance_color s ≠ [] ∧ S (samples_read_per_instance s) ≤ length h.

Lemma sample_color_eq t : sample_color t = Ok (sample_in t).
Proof. unfold sample_in. by destruct (sample_color_total t) as [? ->]. Qed.
Lemma notice_color_eq t : sample_in t = None → notice_color message t = Ok (notice_in t).
Proof.
  intros H. unfold notice_in. rewrite H. by destruct (notice_color_total message t) as [? ->].
Qed.

Lemma seen_snoc h t : seen (h ++ [t]) =
  match sample_in t with Some c => add_new (seen h) c | None => seen h end.
Proof.
  unfold seen. rewrite omap_app_last. destruct (sample_in t); cbn.
  - apply first_seen_snoc.
  - by rewrite app_nil_r.
Qed.
Lemma gone_snoc h t : gone (h ++ [t]) =
  match notice_in t with Some c => add_new (gone h) c | None => gone h end.
Proof.
  unfold gone. rewrite omap_app_last. destruct (notice_in t); cbn.
  - apply first_seen_snoc.
  - by rewrite app_nil_r.
Qed.

Lemma finish_post h e s :
  inv h s → instance_color s ≠ [] → stop h e → going_away_post h e (Returned (finish s)).
Proof.
  intros (Hc&Hg&_) Hne Hs. unfold finish.
  rewrite decide_False by (by destruct (instance_color s)). rewrite Hc in Hne.
  case_decide as Hd; cbn; split_and!; auto; unfold same_instances; rewrite <- Hc, <- Hg.
  - intros c. rewrite <- !(elem_of_list_to_set (C:=gset string)). by rewrite Hd.
  - intros H. apply Hd. set_solver.
Qed.

#[local] Arguments going_away_post : simpl never.

Lemma going_away_body_ok h t s :
  head_inv h t s → guard s = true →
  exits finish going_away_post (h ++ [t]) None mid_inv (body s t).
Proof.
  intros [(Hc&Hg&Hn) Hne] _. unfold body. rewrite sample_color_eq. cbn.
  destruct (sample_in t) as [c|] eqn:Hsample; cbn.
  - unfold mid_inv, inv. cbn. rewrite seen_snoc, gone_snoc, length_app. cbn.
    unfold notice_in. rewrite Hsample, Hc, Hg. split_and!; try done; try lia.
    intros E. assert (c ∈ add_new (seen h) c) as H by (apply add_new_elem; by right).
    rewrite E in H. by apply elem_of_nil in H.
  - case_decide; [by destruct Hne|].
    rewrite notice_color_eq by done. cbn.
    assert (seen (h ++ [t]) = seen h) as Hs by by rewrite seen_snoc, Hsample.
    pose proof (gone_snoc h t) as Hgt.
    destruct (notice_in t) as [c|]; cbn.
    + unfold add_new in Hgt. rewrite <- Hg in Hgt. case_decide; cbn.
      * unfold mid_inv, inv. cbn. rewrite Hs, Hgt, length_app. cbn. split_and!; auto; lia.
      * case_decide; cbn.
        -- apply finish_post; [split_and!; cbn; rewrite ?Hs, ?Hgt, ?length_app; auto; lia|done|].
           right. by rewrite Hs, Hgt, <- Hc.
        -- unfold mid_inv, inv. cbn. rewrite Hs, Hgt, length_app. cbn. split_and!; auto; lia.
    + unfold mid_inv, inv. cbn. rewrite Hs, Hgt, length_app. cbn. split_and!; auto; lia.
Qed.

Lemma head_inv_ne h t s : h ≠ [] → inv h s → instance_color s ≠ [] → head_inv h t s.
Proof. intros. split; [done|]. by rewrite decide_False. Qed.

Lemma going_away_after_ok h s r :
  mid_inv h s →
  exits finish going_away_post h (Some r) (λ h, head_inv h (r_text r)) (after s r).
Proof.
  intros ((Hc&Hg&Hn)&Hne&Hn'). assert (h ≠ []) as Hh by (intros ->; by inversion Hn').
  unfold after.
  destruct (decide (r_index r = 0)).
  - destruct (sub_string s); [|by apply head_inv_ne]. destruct (instance_color s) as [|c0 cs] eqn:E; [done|].
    assert (samples_read_per_instance s ≤ length h) by lia.
    case_decide; apply head_inv_ne; rewrite ?E; try done; unfold inv; cbn; rewrite ?E;
      split_and!; auto; lia.
  - destruct (decide (r_index r = 1)); [by apply finish_post|].
    case_decide; [by exists r|]. by apply head_inv_ne.
Qed.

Lemma going_away_spec text script :
  basic_verdict text = OK →
  ∃ h e, read_until text script h e (going_away_loop text script) ∧
         going_away_post h e (going_away_loop text script).
Proof.
  intros Hb. unfold going_away_loop.
  eapply (while_expect_rule_text guard body after finish head_inv mid_inv going_away_post
    (λ _, True)) with (h := []); [| | | | |by apply Forall_true].
  - intros h t s [Hi Hne] Hg%bool_decide_eq_false.
    assert (0 < length h) by (destruct Hi as (_&_&?); unfold MAX_SAMPLES_READ in *; lia).
    rewrite decide_False in Hne by (by destruct h; cbn in *; [lia|]).
    apply finish_post; [done..|]. left. destruct Hi as (_&_&?). lia.
  - apply going_away_body_ok.
  - intros h s r Hm _. by apply going_away_after_ok.
  - done.
  - split; [done|]. rewrite decide_True by done.
    destruct (basic_check_sample text Hb) as [[c z] Hs]. unfold sample_of, parse_sample in Hs.
    pose proof (sample_color_eq text) as E. unfold sample_color in E.
    destruct (re_search sample_re text) as [m|]; [|done].
    destruct (group 1 m); cbn in E; [|done]. injection E as <-. by eexists.
Qed.
End going_away.

Definition test_unregistering_w_instances : string → list reply → outcome :=
  going_away_check "NOT_ALIVE_NO_WRITERS_INSTANCE_STATE".
Definition test_disposing_w_instances : string → list reply → outcome :=
  going_away_check "NOT_ALIVE_DISPOSED_INSTANCE_STATE".

(** ** Large data *)

Module LargeData.
(** [\w+\s+\w+\s+[0-9]+\s+[0-9]+\s+\[[0-9]+\]\s+\{([0-9]+)\}]; the pattern that
    is waited for is the same one without its group. *)
Definition front_re : regex :=
  (RPlus cword ⊙ RPlus cspace ⊙ RPlus cword ⊙ RPlus cspace ⊙ RPlus cdigit ⊙ RPlus cspace
   ⊙ RPlus cdigit ⊙ RPlus cspace ⊙ RLit "[" ⊙ RPlus cdigit ⊙ RLit "]" ⊙ RPlus cspace
   ⊙ RLit "{")%re.
Definition large_re : regex := (front_re ⊙ RGroup 1 (RPlus cdigit) ⊙ RLit "}")%re.
Definition expect_re : regex := (front_re ⊙ RPlus cdigit ⊙ RLit "}")%re.
Definition patterns : list expect_pattern := [PRe expect_re; TIMEOUT; EOF].

Definition search_bytes (text : string) : result (option Z) :=
  match re_search large_re text with
  | None => Ok None
  | Some m => z ← group_int 1 m; Ok (Some z)
  end.

Record vars := Vars { samples_read : nat; produced_code : ReturnCode }.

Definition guard (s : vars) : bool := bool_decide (samples_read s < MAX_SAMPLES_READ).
(** Nothing happens before [expect]; its reply is treated after it. *)
Definition body (s : vars) (_ : string) : step vars := Go s.
Definition after (s : vars) (r : reply) : step vars :=
  if decide (r_index r = 0) then
    step_of (
      sub ← search_bytes (r_text r);
      match sub with
      | Some bytes =>
          if decide (bytes ≠ 255%Z) then Ok (Break (Vars (samples_read s) DATA_NOT_CORRECT))
          else Ok (Go (Vars (S (samples_read s)) (produced_code s)))
      | None => Ok (Break (Vars (samples_read s) DATA_NOT_CORRECT))
      end)
  else if decide (r_index r = 1 ∨ r_index r = 2)
       then Break (Vars (samples_read s) DATA_NOT_RECEIVED)
       else Go s.
Definition finish (s : vars) : ReturnCode :=
  if decide (samples_read s = MAX_SAMPLES_READ) then OK else produced_code s.

Definition loop (text : string) (script : list reply) : outcome :=
  while_expect guard body after finish (Vars 0 DATA_NOT_RECEIVED) text script.

Definition test_large_data (text : string) (script : list reply) : outcome :=
  with_basic_check text (loop text script).

(** *** What it decides *)

Definition last_byte (t : string) : option Z :=
  match search_bytes t with Ok o => o | Raise _ => None end.

Lemma search_bytes_eq t : search_bytes t = Ok (last_byte t).
Proof.
  unfold last_byte, search_bytes. destruct (re_search large_re t) as [m|] eqn:E; [|done].
  apply re_search_sound in E as (l&w&rest&cs&_&A&->). unfold large_re, front_re in A.
  inv_accepts A. unfold group_int. cbn. by rewrite py_int_digits.
Qed.

(** pexpect's match is a sample with its additional bytes. *)
Lemma reply_last_byte r :
  reply_ok patterns r → r_index r = 0 → is_Some (last_byte (r_text r)).
Proof.
  intros Hr H0. unfold reply_ok in Hr. rewrite H0 in Hr. cbn in Hr.
  destruct Hr as (m&Hm&_).
  assert (is_Some (re_search large_re (r_text r))) as [m' Hm'].
  { eapply re_search_incl; [|by eexists]. intros w rest cs A.
    apply accepts_seq in A as (w1&w2&cs1&cs2&->&->&A1&A2). inv_accepts A2.
    eexists "", _, rest, _. split; [done|]. unfold large_re.
    eapply accepts_seq_i; [done|].
    eapply accepts_seq_i; [by apply accepts_group_i, accepts_plus_i|].
    apply accepts_lit_i. }
  pose proof (search_bytes_eq (r_text r)) as E. unfold search_bytes in E. rewrite Hm' in E.
  destruct (group_int 1 m'); [|done]. cbn in E. injection E as <-. by eexists.
Qed.

(** A reply that is a sample with the last byte 255. *)
Definition good_reply (r : reply) : Prop := r_index r = 0 ∧ last_byte (r_text r) = Some 255%Z.

(** [n] samples were read before the script. *)
Definition post (n : nat) (script : list reply) (o : outcome) : Prop :=
  ∃ pre rest, script = pre ++ rest ∧ Forall good_reply pre ∧
  match o with
  | Returned OK => n + length pre = MAX_SAMPLES_READ
  | Returned DATA_NOT_CORRECT =>
      n + length pre < MAX_SAMPLES_READ ∧
      ∃ r z, head rest = Some r ∧ r_index r = 0 ∧ last_byte (r_text r) = Some z ∧ z ≠ 255%Z
  | Returned DATA_NOT_RECEIVED =>
      n + length pre < MAX_SAMPLES_READ ∧
      ∃ r, head rest = Some r ∧ (r_index r = 1 ∨ r_index r = 2)
  | Waiting => n + length pre < MAX_SAMPLES_READ ∧ rest = []
  | _ => False
  end.

Lemma post_cons n r script o :
  good_reply r → post (S n) script o → post n (r :: script) o.
Proof.
  intros Hr (pre&rest&->&Hpre&Ho). exists (r :: pre), rest. cbn. split; [done|].
  split; [by constructor|]. by rewrite Nat.add_succ_r.
Qed.

Lemma loop_spec_from n text script :
  n ≤ MAX_SAMPLES_READ → Forall (reply_ok patterns) script →
  post n script (while_expect guard body after finish (Vars n DATA_NOT_RECEIVED) text script).
Proof.
  intros Hn HR. revert n text Hn. induction HR as [|r script Hr HR IH]; intros n text Hn.
  - cbn. unfold guard. cbn. case_bool_decide.
    + exists [], []. cbn. split_and!; try done. lia.
    + unfold finish. cbn. rewrite decide_True by lia. exists [], []. cbn. split_and!; try done. lia.
  - cbn. unfold guard at 1. cbn. case_bool_decide as Hlt.
    2: { unfold finish. cbn. rewrite decide_True by lia. exists [], (r :: script). cbn.
         split_and!; try done. lia. }
    pose proof (reply_ok_index _ _ Hr) as Hidx. cbn in Hidx.
    unfold after. case_decide as H0.
    + destruct (reply_last_byte r Hr H0) as [z Hz]. rewrite search_bytes_eq, Hz. cbn.
      case_decide as H255; cbn.
      * unfold finish. cbn. rewrite decide_False by lia. exists [], (r :: script). cbn.
        split_and!; try done; [lia|]. by exists r, z.
      * assert (z = 255%Z) as -> by lia. apply post_cons; [done|]. apply IH. lia.
    + rewrite decide_True by lia. unfold finish. cbn. rewrite decide_False by lia.
      exists [], (r :: script). cbn. split_and!; try done; [lia|]. exists r. split; [done|lia].
Qed.
End LargeData.

Lemma unregistering_verdict text script :
  verdict_spec (going_away_post "NOT_ALIVE_NO_WRITERS_INSTANCE_STATE") text script
    (test_unregistering_w_instances text script).
Proof. apply verdict_spec_gate. apply going_away_spec. Qed.
Lemma disposing_verdict text script :
  verdict_spec (going_away_post "NOT_ALIVE_DISPOSED_INSTANCE_STATE") text script
    (test_disposing_w_instances text script).
Proof. apply verdict_spec_gate. apply going_away_spec. Qed.

(** ** Properties *)

(** C11: what the verdicts of [test_unregistering_w_instances] and of
    [test_disposing_w_instances] mean.  [OK]: the instances of the samples read are
    exactly those for which a message of the unregistration, or of the disposal, was
    read.  [DATA_NOT_CORRECT]: they differ.  In both cases the check stopped at 500
    reads, at the message that made the two numbers equal, or at a timeout.
    [DATA_NOT_RECEIVED]: the output ended.  The index [instance_color[0]] never fails. *)
Theorem going_away_verdicts text script :
  verdict_spec (going_away_post "NOT_ALIVE_NO_WRITERS_INSTANCE_STATE") text script
    (test_unregistering_w_instances text script) ∧
  verdict_spec (going_away_post "NOT_ALIVE_DISPOSED_INSTANCE_STATE") text script
    (test_disposing_w_instances text script).
Proof. split; [apply unregistering_verdict|apply disposing_verdict]. Qed.

(** C12: what the verdict of [test_large_data] means, pexpect answering as documented.
    [OK]: the first 500 replies are samples whose last byte is 255.
    [DATA_NOT_CORRECT]: some samples ending in 255, less than 500, and then one with
    another last byte.  [DATA_NOT_RECEIVED]: a timeout or the end of the output before
    the 500th.  It waits only while less than 500 good samples came. *)
Theorem large_data_verdict text script :
  basic_verdict text = OK → Forall (reply_ok LargeData.patterns) script →
  LargeData.post 0 script (LargeData.test_large_data text script).
Proof.
  intros Hb Hs. unfold LargeData.test_large_data. rewrite with_basic_check_eq, decide_True by done.
  apply LargeData.loop_spec_from; [lia|done].
Qed.

Definition large_demo : list reply :=
  [Reply 0 "Square BLUE 001 001 [30] {255}"; Reply 0 "Square BLUE 001 001 [30] {254}"].

Lemma large_data_verdict_witness :
  basic_verdict "Square BLUE 001 001 [30]" = OK ∧
  LargeData.post 0 large_demo (LargeData.test_large_data "Square BLUE 001 001 [30]" large_demo).
Proof.
  split; [by vm_compute|]. apply large_data_verdict; [by vm_compute|].
  repeat constructor; vm_compute; eauto.
Defined.
