(* ===== verification/OrderedAccess.v ===== *)
(** * Ordered access (test_suite_functions.py)

    [ordered_access_w_instances] decides whether the reader delivers samples
    instance by instance ([ORDERED_ACCESS_INSTANCE]) or interleaved
    ([ORDERED_ACCESS_TOPIC]): between two messages of the reader, it counts how many
    samples are of the same instance as the previous one. *)

From S2P Require Import Prelude PyStr Regex Utilities CheckLoop ShapeLine InstanceChecks.
From S2P Require Import DisposalChecks.
From stdpp Require Import options.

(** [\w+\s+(\w+)\s+[0-9]+\s+[0-9]+\s+\[[0-9]+\]] *)
Definition instance_re : regex :=
  (RPlus cword ⊙ RPlus cspace ⊙ RGroup 1 (RPlus cword) ⊙ RPlus cspace ⊙ RPlus cdigit
   ⊙ RPlus cspace ⊙ RPlus cdigit ⊙ RPlus cspace ⊙ RLit "[" ⊙ RPlus cdigit ⊙ RLit "]")%re.

Definition instance_color_of (text : string) : result (option string) :=
  match re_search instance_re text with
  | None => Ok None
  | Some m => c ← or_raise TypeError (group 1 m); Ok (Some c)
  end.

(** [re.search(r'Reading with ordered access', text) is not None] *)
Definition is_ordered_access_message (text : string) : bool :=
  bool_decide (is_Some (re_search (RLit "Reading with ordered access") text)).

(** [int(0.01 * MAX_SAMPLES_READ)] *)
Definition behavior_mismatch_tolerance : nat := 5.

Record st := St {
  instance_color : list string;
  samples_read_per_instance : nat;
  previous_sample_color : option string;
  color_different_count : nat;
  color_equal_count : nat;
  samples_printed : bool;
  ordered_access_group_count : nat;
  behavior_mismatch_count : nat;
  produced_code : ReturnCode;
  current_color : option string
}.

Definition st_init : st := St [] 0 None 0 0 false 0 0 OK None.

Definition guard (s : st) : bool := bool_decide (samples_read_per_instance s < MAX_SAMPLES_READ).

(** A sample of color [c]: its instance and the comparison with the previous one. *)
Definition read_sample (c : string) (s : st) : st :=
  let colors := add_new (instance_color s) c in
  if decide (c ∈ colors) then
    let '(different, equal) :=
      match previous_sample_color s with
      | None => (color_different_count s, color_equal_count s)
      | Some p =>
          if decide (c ≠ p) then (S (color_different_count s), color_equal_count s)
          else (color_different_count s, S (color_equal_count s))
      end in
    St colors (samples_read_per_instance s) (Some c) different equal true
       (ordered_access_group_count s) (behavior_mismatch_count s) (produced_code s) (Some c)
  else
    St colors (samples_read_per_instance s) (previous_sample_color s)
       (color_different_count s) (color_equal_count s) true
       (ordered_access_group_count s) (behavior_mismatch_count s) (produced_code s) (Some c).

(** [None] when the two counts are equal. *)
Definition current_behavior (different equal : nat) : option ReturnCode :=
  if decide (different < equal) then Some ORDERED_ACCESS_INSTANCE
  else if decide (equal < different) then Some ORDERED_ACCESS_TOPIC
  else None.

(** The counters are reset for the next set of samples. *)
Definition reset (s : st) (code : ReturnCode) (mismatches : nat) : st :=
  St (instance_color s) (samples_read_per_instance s) (previous_sample_color s) 0 0
     (samples_printed s) (ordered_access_group_count s) mismatches code None.

(** The message that a new set is read. *)
Definition read_message (s : st) : step st :=
  if samples_printed s && bool_decide (5 < color_equal_count s + color_different_count s) then
    let behavior := current_behavior (color_different_count s) (color_equal_count s) in
    if decide (produced_code s ≠ OK) then
      if decide (behavior ≠ Some (produced_code s)) then
        if decide (behavior_mismatch_tolerance < behavior_mismatch_count s)
        then Break (St (instance_color s) (samples_read_per_instance s)
                       (previous_sample_color s) (color_different_count s) (color_equal_count s)
                       (samples_printed s) (ordered_access_group_count s)
                       (behavior_mismatch_count s) DATA_NOT_CORRECT None)
        else Go (reset s (produced_code s) (S (behavior_mismatch_count s)))
      else Go (reset s (produced_code s) (behavior_mismatch_count s))
    else Go (reset s (default (produced_code s) behavior) (behavior_mismatch_count s))
  else Go (reset s (produced_code s) (behavior_mismatch_count s)).

(** Any other text: [current_color = None]. *)
Definition read_other (s : st) : st :=
  St (instance_color s) (samples_read_per_instance s) (previous_sample_color s)
     (color_different_count s) (color_equal_count s) (samples_printed s)
     (ordered_access_group_count s) (behavior_mismatch_count s) (produced_code s) None.

Definition body (s : st) (text : string) : step st :=
  step_of (
    sub ← instance_color_of text;
    match sub with
    | Some color => Ok (Go (read_sample color s))
    | None =>
        if is_ordered_access_message text then Ok (read_message s) else Ok (Go (read_other s))
    end).

Definition set_reads (s : st) (reads groups : nat) (code : ReturnCode) : st :=
  St (instance_color s) reads (previous_sample_color s) (color_different_count s)
     (color_equal_count s) (samples_printed s) groups (behavior_mismatch_count s) code
     (current_color s).

(** The exit when no samples are being printed. *)
Definition exit_condition (s : st) : step st :=
  if decide (MAX_SAMPLES_READ < ordered_access_group_count s) then
    Break (if decide (samples_read_per_instance s < MAX_SAMPLES_READ)
           then set_reads s (samples_read_per_instance s) (ordered_access_group_count s)
                  DATA_NOT_RECEIVED
           else s)
  else Go s.

Definition after (s : st) (r : reply) : step st :=
  let reads := samples_read_per_instance s in
  let groups := ordered_access_group_count s in
  if decide (r_index r = 0) then
    match current_color s with
    | None => exit_condition s
    | Some color =>
        match instance_color s with
        | [] => Fail IndexError
        | c0 :: _ =>
            exit_condition
              (if decide (color = c0) then set_reads s (S reads) groups (produced_code s) else s)
        end
    end
  else if decide (r_index r = 1) then
    exit_condition (set_reads s reads (S groups) (produced_code s))
  else if decide (r_index r = 2) then Break s
  else if decide (r_index r = 3) then Break (set_reads s reads groups DATA_NOT_RECEIVED)
  else exit_condition s.

Definition loop (text : string) (script : list reply) : outcome :=
  while_expect guard body after produced_code st_init text script.

Definition ordered_access_w_instances (text : string) (script : list reply) : outcome :=
  with_basic_check text (loop text script).

(** ** Specification

    What is read is a sequence of samples and messages; a set is what stands between
    two messages, and for each sample of it, whether it is of the instance of the
    previous sample. *)

Inductive event := ESample (color : string) | EMessage.

Definition event_of (t : string) : option event :=
  match instance_color_of t with
  | Ok (Some c) => Some (ESample c)
  | _ => if is_ordered_access_message t then Some EMessage else None
  end.

Record sets := Sets {
  last_color : option string;
  open_set : list bool;            (* the set being read: same instance? *)
  closed_sets : list (list bool)
}.

Definition sets_step (x : sets) (e : event) : sets :=
  match e with
  | ESample c =>
      Sets (Some c)
        (match last_color x with
         | None => open_set x
         | Some p => open_set x ++ [bool_decide (c = p)]
         end)
        (closed_sets x)
  | EMessage => Sets (last_color x) [] (closed_sets x ++ [open_set x])
  end.
Definition sets_of (h : list string) : sets := foldl sets_step (Sets None [] []) (omap event_of h).

Definition count (b : bool) (l : list bool) : nat := length (filter (λ x, x = b) l).

(** A set of more than 5 samples votes for what most of its samples show; [None]
    is a tie. *)
Definition vote (l : list bool) : option (option ReturnCode) :=
  if decide (5 < length l) then Some (current_behavior (count false l) (count true l)) else None.
Definition votes (h : list string) : list (option ReturnCode) := omap vote (closed_sets (sets_of h)).

(** The first vote that is no tie is the answer, unless more than 6 of the later
    votes differ from it. *)
Fixpoint elected (vs : list (option ReturnCode)) : option (ReturnCode * list (option ReturnCode)) :=
  match vs with
  | [] => None
  | None :: vs' => elected vs'
  | Some c :: vs' => Some (c, vs')
  end.
Definition against (c : ReturnCode) (vs : list (option ReturnCode)) : nat :=
  length (filter (λ v, v ≠ Some c) vs).
Definition judge (vs : list (option ReturnCode)) : ReturnCode :=
  match elected vs with
  | None => OK
  | Some (c, vs') => if decide (S behavior_mismatch_tolerance < against c vs')
                     then DATA_NOT_CORRECT else c
  end.

(** The instance of a text that is a sample. *)
Definition color_of (t : string) : option string :=
  match event_of t with Some (ESample c) => Some c | _ => None end.

(** What a run tells, wherever it ended: [acc] are the texts read with the indexes that
    followed them, [t] the last text.  The run went on as long as it had to, and its
    verdict was given at the end it says. *)
Definition post (acc : list (string * nat)) (t : string) (en : ending) (o : outcome) : Prop :=
  let before := judge (votes acc.*1) in
  let verdict := judge (votes (acc.*1 ++ [t])) in
  let reads := first_reads color_of acc in
  goes_on acc ∧ messages acc ≤ MAX_SAMPLES_READ ∧ before ≠ DATA_NOT_CORRECT ∧
  match en with
  | AtHead => reads = MAX_SAMPLES_READ ∧ o = Returned before
  | AtText => reads < MAX_SAMPLES_READ ∧ verdict = DATA_NOT_CORRECT ∧ o = Returned verdict
  | AtReply r =>
      reads < MAX_SAMPLES_READ ∧ verdict ≠ DATA_NOT_CORRECT ∧
      (r_index r = 2 ∧ o = Returned verdict ∨
       (r_index r = 3 ∨ r_index r = 1 ∧ messages acc = MAX_SAMPLES_READ) ∧
       o = Returned DATA_NOT_RECEIVED)
  | AtExpect => reads < MAX_SAMPLES_READ ∧ verdict ≠ DATA_NOT_CORRECT ∧ o = Waiting
  end.

(** *** Correspondence *)

Lemma instance_color_total t : is_Ok (instance_color_of t).
Proof.
  unfold instance_color_of. destruct (re_search instance_re t) as [m|] eqn:E; [|by eexists].
  apply re_search_sound in E as (l&w&rest&cs&_&A&->). unfold instance_re in A.
  inv_accepts A. by eexists.
Qed.

Lemma sets_of_snoc h t :
  sets_of (h ++ [t]) =
  match event_of t with Some e => sets_step (sets_of h) e | None => sets_of h end.
Proof.
  unfold sets_of. rewrite omap_app_last, foldl_app. by destruct (event_of t).
Qed.

Lemma count_app b l k : count b (l ++ k) = count b l + count b k.
Proof. unfold count. by rewrite filter_app, length_app. Qed.
Lemma count_one b c : count b [c] = if Bool.eqb c b then 1 else 0.
Proof. by destruct b, c. Qed.
Lemma count_total l : count true l + count false l = length l.
Proof.
  induction l as [|b l IH]; [done|].
  change (b :: l) with ([b] ++ l). rewrite !count_app, length_app, !count_one. destruct b; cbn; lia.
Qed.

Lemma vote_code v : v ∈ [Some ORDERED_ACCESS_INSTANCE; Some ORDERED_ACCESS_TOPIC; None] →
  v ≠ Some OK ∧ v ≠ Some DATA_NOT_CORRECT ∧ v ≠ Some DATA_NOT_RECEIVED.
Proof. set_unfold. naive_solver. Qed.
Lemma current_behavior_code d e :
  current_behavior d e ∈ [Some ORDERED_ACCESS_INSTANCE; Some ORDERED_ACCESS_TOPIC; None].
Proof. unfold current_behavior. repeat case_decide; set_solver. Qed.

Lemma elected_snoc vs v :
  elected (vs ++ [v]) =
  match elected vs with
  | Some (c, vs') => Some (c, vs' ++ [v])
  | None => match v with Some c => Some (c, []) | None => None end
  end.
Proof. induction vs as [|[c|] vs IH]; cbn; [by destruct v|done|done]. Qed.

Lemma against_snoc c vs v :
  against c (vs ++ [v]) = against c vs + if decide (v = Some c) then 0 else 1.
Proof.
  unfold against. rewrite filter_app, length_app. f_equal. cbn.
  repeat case_decide; try done; naive_solver.
Qed.

(** The state against the votes cast so far: what was elected and the number of
    votes against it. *)
Definition vote_inv (vs : list (option ReturnCode)) (code : ReturnCode) (mismatches : nat) : Prop :=
  match elected vs with
  | None => code = OK
  | Some (c, vs') => code = c ∧ c ≠ OK ∧ c ≠ DATA_NOT_CORRECT
  end ∧
  mismatches = match elected vs with None => 0 | Some (c, vs') => against c vs' end ∧
  mismatches ≤ S behavior_mismatch_tolerance.

Definition inv (h : list string) (s : st) : Prop :=
  let x := sets_of h in
  previous_sample_color s = last_color x ∧
  color_equal_count s = count true (open_set x) ∧
  color_different_count s = count false (open_set x) ∧
  (last_color x = None → open_set x = []) ∧
  (samples_printed s = true ↔ is_Some (last_color x)) ∧
  head (instance_color s) = first_instance color_of h ∧
  vote_inv (votes h) (produced_code s) (behavior_mismatch_count s).
Definition mid_inv (h : list string) (t : string) (s : st) : Prop :=
  inv (h ++ [t]) s ∧ current_color s = color_of t.

Lemma vote_inv_judge vs code n : vote_inv vs code n → code = judge vs ∧ code ≠ DATA_NOT_CORRECT.
Proof.
  unfold vote_inv, judge. intros (H1&->&H2). destruct (elected vs) as [[c vs']|].
  - rewrite decide_False by lia. naive_solver.
  - by subst.
Qed.

Lemma inv_judge h s :
  inv h s → produced_code s = judge (votes h) ∧ judge (votes h) ≠ DATA_NOT_CORRECT.
Proof. intros (_&_&_&_&_&_&Hv). apply vote_inv_judge in Hv as [<- H2]. done. Qed.

Lemma head_add_new (l : list string) c :
  head (add_new l c) = match head l with Some c0 => Some c0 | None => Some c end.
Proof. unfold add_new. destruct l as [|c0 l]; [done|]. by case_decide. Qed.

(** The loop's counters, of the iterations so far. *)
Definition counters (acc : list (string * nat)) (s : st) : Prop :=
  samples_read_per_instance s = first_reads color_of acc ∧
  ordered_access_group_count s = messages acc ∧
  messages acc ≤ MAX_SAMPLES_READ ∧ goes_on acc.
Definition head_ok (acc : list (string * nat)) (t : string) (s : st) : Prop :=
  inv acc.*1 s ∧ counters acc s ∧ first_reads color_of acc ≤ MAX_SAMPLES_READ.
Definition expect_ok (acc : list (string * nat)) (t : string) (s : st) : Prop :=
  mid_inv acc.*1 t s ∧ counters acc s ∧ first_reads color_of acc < MAX_SAMPLES_READ ∧
  judge (votes acc.*1) ≠ DATA_NOT_CORRECT.

Lemma read_sample_inv h t s c :
  inv h s → event_of t = Some (ESample c) → mid_inv h t (read_sample c s).
Proof.
  intros (Hp&Heq&Hdiff&Hopen&Hsp&Hins&Hv) Ht. unfold read_sample.
  rewrite decide_True by (apply add_new_elem; by right).
  assert (votes (h ++ [t]) = votes h) as Hvotes by (unfold votes; by rewrite sets_of_snoc, Ht).
  assert (color_of t = Some c) as Hct by (unfold color_of; by rewrite Ht).
  assert (head (add_new (instance_color s) c) = first_instance color_of (h ++ [t])) as Hhead
    by (rewrite head_add_new, Hins, first_instance_snoc, Hct; done).
  unfold mid_inv, inv. rewrite Hvotes, sets_of_snoc, Ht, Hp, Hct. cbn [sets_step].
  destruct (last_color (sets_of h)) as [p|] eqn:El.
  - destruct (decide (c ≠ p)) as [Hcp|Hcp];
      [rewrite (bool_decide_false (c = p)) by done
      |rewrite (bool_decide_true (c = p)) by by apply dec_stable];
      (split; [|done]); cbn [open_set last_color closed_sets];
      rewrite !count_app, !count_one; cbn; split_and!; try done; try lia; by eexists.
  - split; [|done]. cbn. by split_and!.
Qed.

Lemma votes_snoc h t :
  votes (h ++ [t]) =
  match event_of t with
  | Some EMessage => votes h ++ option_list (vote (open_set (sets_of h)))
  | _ => votes h
  end.
Proof.
  unfold votes. rewrite sets_of_snoc. destruct (event_of t) as [[]|]; try done.
  apply omap_app_last.
Qed.

Lemma vote_inv_snoc vs code n v :
  vote_inv vs code n → v ∈ [Some ORDERED_ACCESS_INSTANCE; Some ORDERED_ACCESS_TOPIC; None] →
  if decide (code ≠ OK) then
    if decide (v ≠ Some code) then
      if decide (behavior_mismatch_tolerance < n) then judge (vs ++ [v]) = DATA_NOT_CORRECT
      else vote_inv (vs ++ [v]) code (S n)
    else vote_inv (vs ++ [v]) code n
  else vote_inv (vs ++ [v]) (default code v) n.
Proof.
  intros (H1&H2&H3) Hv. destruct (vote_code v Hv) as (?&?&?).
  unfold vote_inv, judge. rewrite elected_snoc.
  destruct (elected vs) as [[c vs']|].
  - destruct H1 as (->&?&?). rewrite decide_True by done. rewrite against_snoc.
    destruct (decide (v ≠ Some c)).
    + destruct (decide (behavior_mismatch_tolerance < n)).
      * rewrite decide_True; [done|]. rewrite decide_False by done. lia.
      * rewrite decide_False by done. split_and!; try done; lia.
    + rewrite decide_True by by apply dec_stable. split_and!; try done; lia.
  - subst. rewrite decide_False by (intros Hx; by apply Hx).
    destruct v as [c|]; cbn; unfold against; cbn; split_and!; try done; try lia; congruence.
Qed.

Lemma first_instance_other h t :
  color_of t = None → first_instance color_of (h ++ [t]) = first_instance color_of h.
Proof. intros Ht. rewrite first_instance_snoc, Ht. by destruct (first_instance _ h). Qed.

(** A message ends the set: its vote, if it casts one, either leaves the verdict open or
    makes it [DATA_NOT_CORRECT]. *)
Lemma read_message_inv h t s :
  inv h s → event_of t = Some EMessage →
  match read_message s with
  | Go s' => mid_inv h t s'
  | Break s' => produced_code s' = DATA_NOT_CORRECT ∧
                judge (votes (h ++ [t])) = DATA_NOT_CORRECT
  | _ => False
  end.
Proof.
  intros (Hp&Heq&Hdiff&Hopen&Hsp&Hins&Hv) Ht. unfold read_message.
  assert (color_of t = None) as Hct by (unfold color_of; by rewrite Ht).
  pose proof (count_total (open_set (sets_of h))) as Htot.
  pose proof (votes_snoc h t) as Hvotes. rewrite Ht in Hvotes. unfold vote in Hvotes.
  assert (∀ code n, vote_inv (votes (h ++ [t])) code n → mid_inv h t (reset s code n))
    as Hreset.
  { intros code n H. split; [|by rewrite Hct]. unfold inv.
    rewrite sets_of_snoc, Ht, first_instance_other by done. by split_and!. }
  destruct (samples_printed s) eqn:Esp; cbn [andb].
  2: { apply Hreset. rewrite Hvotes, Hopen; [by rewrite app_nil_r|].
       apply eq_None_not_Some. intros H. by apply Hsp in H. }
  case_bool_decide as Hn.
  2: { apply Hreset. rewrite Hvotes, decide_False by lia. by rewrite app_nil_r. }
  rewrite decide_True in Hvotes by lia. cbn in Hvotes. rewrite <- Heq, <- Hdiff in Hvotes.
  pose proof (vote_inv_snoc _ _ _ _ Hv (current_behavior_code
    (color_different_count s) (color_equal_count s))) as Hj.
  rewrite <- Hvotes in Hj.
  repeat (case_decide; [try by apply Hreset|try by apply Hreset]). done.
Qed.

Lemma read_other_inv h t s :
  inv h s → event_of t = None → mid_inv h t (read_other s).
Proof.
  intros Hi Ht. assert (color_of t = None) as Hct by (unfold color_of; by rewrite Ht).
  split; [|done]. unfold inv.
  rewrite votes_snoc, sets_of_snoc, Ht, first_instance_other by done. exact Hi.
Qed.

(** The part before [expect] keeps the counters. *)
Lemma ordered_body_counters s t s' :
  body s t = Go s' →
  samples_read_per_instance s' = samples_read_per_instance s ∧
  ordered_access_group_count s' = ordered_access_group_count s.
Proof.
  unfold body. destruct (instance_color_total t) as [o ->].
  cbn -[read_sample read_message read_other]. destruct o as [c|]; cbn -[read_message].
  - unfold read_sample. intros [= <-]. case_decide; [|done]. by case_match.
  - destruct (is_ordered_access_message t); cbn; [|by intros [= <-]].
    unfold read_message. repeat case_match; intros; simplify_eq; done.
Qed.

Lemma ordered_body_ok acc t s :
  head_ok acc t s → guard s = true →
  leaves produced_code post acc t AtText (expect_ok acc t) (body s t).
Proof.
  intros (Hi&(Hr&Hg&Hm&Hgo)&_) Hlt%bool_decide_eq_true. rewrite Hr in Hlt.
  pose proof (ordered_body_counters s t) as Hc. destruct (inv_judge _ _ Hi) as [_ Hj].
  revert Hc. unfold body. destruct (instance_color_total t) as [o Ho]. rewrite Ho.
  assert (event_of t = match o with Some c => Some (ESample c) | None =>
            if is_ordered_access_message t then Some EMessage else None end) as Ht
    by (unfold event_of; rewrite Ho; by destruct o).
  assert (∀ s', mid_inv acc.*1 t s' → samples_read_per_instance s' = samples_read_per_instance s ∧
    ordered_access_group_count s' = ordered_access_group_count s → expect_ok acc t s') as Hexp.
  { intros s' Hs' [E1 E2]. unfold expect_ok, counters. rewrite E1, E2. by split_and!. }
  cbn -[read_sample read_message read_other]. destruct o as [c|]; cbn -[read_sample read_message read_other].
  - intros Hc. apply Hexp; [by apply read_sample_inv|by apply Hc].
  - destruct (is_ordered_access_message t); cbn -[read_message read_other].
    + pose proof (read_message_inv _ _ _ Hi Ht) as Hm'.
      destruct (read_message s) as [s'|s'| |]; cbn; [|destruct Hm' as [-> E]|done..].
      * intros Hc. by apply Hexp, Hc.
      * intros _. unfold post. rewrite E. by split_and!.
    + intros Hc. apply Hexp; [by apply read_other_inv|by apply Hc].
Qed.

(** The part after [expect]: the counters grow by what [expect] returned. *)
Lemma ordered_after_ok acc t s r :
  expect_ok acc t s →
  leaves produced_code post acc t (AtReply r) (head_ok (acc ++ [(t, r_index r)]) (r_text r))
    (after s r).
Proof.
  intros ([Hi Hcur]&(Hr&Hg&Hm&Hgo)&Hlt&Hj0). destruct (inv_judge _ _ Hi) as [Hpc Hj].
  pose proof Hi as (_&_&_&_&_&Hins&_).
  assert (∀ s', inv (acc.*1 ++ [t]) s' → r_index r ≠ 2 → r_index r ≠ 3 →
    samples_read_per_instance s' = first_reads color_of (acc ++ [(t, r_index r)]) →
    ordered_access_group_count s' = messages (acc ++ [(t, r_index r)]) →
    leaves produced_code post acc t (AtReply r) (head_ok (acc ++ [(t, r_index r)]) (r_text r))
      (exit_condition s')) as Hexit.
  { intros s' Hs' H2 H3 E1 E2. unfold exit_condition. rewrite E2.
    pose proof (messages_snoc acc t (r_index r)) as Hms.
    pose proof (first_reads_snoc color_of acc t (r_index r)) as Hfs.
    destruct (decide (MAX_SAMPLES_READ < messages (acc ++ [(t, r_index r)]))) as [Hover|Hover].
    - assert (r_index r = 1 ∧ messages acc = MAX_SAMPLES_READ) as [E Em]
        by (destruct (decide (r_index r = 1)); lia).
      unfold of_first in Hfs. rewrite (decide_False (P := _ ∧ _)) in Hfs by lia.
      rewrite decide_True by lia. cbn. unfold post. split_and!; [done..|]. right. auto.
    - cbn. unfold head_ok, counters. rewrite fmap_app. cbn. split_and!; try done; try lia.
      + apply Forall_app. split; [done|]. by constructor.
      + destruct (decide (of_first _ _ t (r_index r))); lia. }
  unfold after. pose proof (first_reads_snoc color_of acc t (r_index r)) as Hfs.
  pose proof (messages_snoc acc t (r_index r)) as Hms.
  destruct (decide (r_index r = 0)) as [H0|H0].
  - rewrite (decide_False (P := r_index r = 1)) in Hms by lia. rewrite Hcur.
    destruct (color_of t) as [c|] eqn:Ec.
    + destruct (instance_color s) as [|c0 cs] eqn:Eic.
      * rewrite first_instance_snoc, Ec in Hins. by destruct (first_instance _ _).
      * assert (of_first color_of (acc.*1 ++ [t]) t (r_index r) ↔ c = c0) as Hof.
        { unfold of_first. rewrite Ec, <- Hins. cbn. split; [by intros (_&_&[=])|].
          intros ->. by split_and!. }
        destruct (decide (of_first _ _ t (r_index r))) as [Ho|Ho];
          [rewrite (decide_True (P := c = c0)) by tauto|rewrite (decide_False (P := c = c0)) by tauto];
          apply Hexit; cbn; try done; lia.
    + apply Hexit; try done; try lia.
      rewrite decide_False in Hfs; [lia|]. intros (_&[x Hx]&_). congruence.
  - rewrite (decide_False (P := of_first _ _ _ _)) in Hfs by by intros [? _].
    destruct (decide (r_index r = 1)) as [H1|H1].
    { apply Hexit; cbn; try done; lia. }
    destruct (decide (r_index r = 2)); [cbn; rewrite Hpc; unfold post; split_and!; auto|].
    destruct (decide (r_index r = 3)); [cbn; unfold post; split_and!; auto|].
    apply Hexit; try done; lia.
Qed.

Lemma ordered_loop_spec text script :
  ∃ acc t en, trace_of text script acc t en (loop text script) ∧
              post acc t en (loop text script).
Proof.
  unfold loop. eapply (while_expect_trace guard body after produced_code head_ok expect_ok post
    (λ _, True)) with (acc := []); [| | | | |by apply Forall_true].
  - intros acc t s (Hi&(Hr&Hg&Hm&Hgo)&Hle) Hn%bool_decide_eq_false.
    destruct (inv_judge _ _ Hi) as [-> Hj]. unfold post. split_and!; [done..|lia|done].
  - intros. by apply ordered_body_ok.
  - intros. by apply ordered_after_ok.
  - intros acc t s ([Hi Hcur]&(Hr&Hg&Hm&Hgo)&Hlt&Hj0). destruct (inv_judge _ _ Hi) as [_ Hj].
    unfold post. by split_and!.
  - unfold head_ok, counters, inv, vote_inv. cbn.
    split_and!; try done; try (unfold behavior_mismatch_tolerance; lia);
      try (unfold MAX_SAMPLES_READ; cbn; lia). constructor.
Qed.

(** ** Properties *)

(** C9: what every run of [ordered_access_w_instances] answers, and where it ends.  A set is
    what stands between two messages of the reader; a set of more than 5 samples votes for
    what most of its samples show; the first vote that is no tie is elected, and more than 6
    later votes against it make the verdict [DATA_NOT_CORRECT].  The function reads on until,
    and only until, one of these: 500 samples of the first instance were read or a timeout
    came, and it answers the elected [ORDERED_ACCESS_INSTANCE] or [ORDERED_ACCESS_TOPIC], or
    [OK] when nothing was elected; a message makes the verdict [DATA_NOT_CORRECT], which is
    its answer; the output ended, or the 501st message came, and it answers
    [DATA_NOT_RECEIVED]. *)
Theorem ordered_access_verdict text script :
  trace_spec post text script (ordered_access_w_instances text script).
Proof. apply trace_spec_gate. intros _. apply ordered_loop_spec. Qed.
