(* ===== verification/CoherentSets.v ===== *)
(** * Coherent sets (test_suite_functions.py)

    [_coherent_sets_w_instances] and its two callers: between two messages of the
    reader a whole number of coherent sets must have been read.  The nested
    dictionary [topics] counts, per topic and instance, consecutive samples. *)

From S2P Require Import Prelude PyStr PyDict Regex Utilities CheckLoop ShapeLine InstanceChecks.
From stdpp Require Import options.

(** [(\w+)\s+(\w+)\s+[0-9]+\s+[0-9]+\s+\[[0-9]+\]] *)
Definition topic_instance_re : regex :=
  (RGroup 1 (RPlus cword) ⊙ RPlus cspace ⊙ RGroup 2 (RPlus cword) ⊙ RPlus cspace ⊙ RPlus cdigit
   ⊙ RPlus cspace ⊙ RPlus cdigit ⊙ RPlus cspace ⊙ RLit "[" ⊙ RPlus cdigit ⊙ RLit "]")%re.

Definition topic_instance_of (text : string) : result (option (string * string)) :=
  match re_search topic_instance_re text with
  | None => Ok None
  | Some m =>
      topic ← or_raise TypeError (group 1 m);
      color ← or_raise TypeError (group 2 m);
      Ok (Some (topic, color))
  end.

(** [re.search(r'Reading coherent sets', text) is not None] *)
Definition is_coherent_message (text : string) : bool :=
  bool_decide (is_Some (re_search (RLit "Reading coherent sets") text)).

(** Consecutive samples per topic and instance; [None] until a second one comes. *)
Abbreviation counts := (dict string (dict string (option nat))).

(** [MAX_SAMPLES_READ / 5] *)
Definition coherent_sets_max_count : nat := 100.

Record st := St {
  topics : counts;
  samples_read_per_instance : nat;
  previous_sample_color : option string;
  new_coherent_set_read : bool;
  ignore_firsts_coherent_set : nat;
  coherent_sets_count : nat;
  coherent_set_sample_count : nat;
  produced_code : ReturnCode;
  current : option (string * string)      (* [topic_name] and [instance_color] *)
}.

Definition st_init : st := St [] 0 None false 2 0 0 DATA_NOT_RECEIVED None.

Section coherent.
Context (expected_total : nat).

Definition guard (s : st) : bool :=
  bool_decide (samples_read_per_instance s < coherent_sets_max_count).

(** [if v is None: v = 1], then [v += 1] *)
Definition bump (v : option nat) : option nat := Some (S (default 1 v)).

(** The entry of a sample, made if it is not there, and bumped when the previous
    sample was of the same color. *)
Definition count_sample (topic color : string) (prev : option string) (ts : counts) : counts :=
  let ts := dsetdefault topic [] ts in
  let inner := dsetdefault color None (default [] (dget topic ts)) in
  let inner :=
    if decide (prev = Some color) then dset color (bump (default None (dget color inner))) inner
    else inner in
  dset topic inner ts.

Definition read_sample (topic color : string) (s : st) : st :=
  St (count_sample topic color (previous_sample_color s) (topics s))
     (samples_read_per_instance s) (Some color) true (ignore_firsts_coherent_set s)
     (coherent_sets_count s) (coherent_set_sample_count s) (produced_code s)
     (Some (topic, color)).

(** [topics[topic][color] = None] for all *)
Definition reset_counts (ts : counts) : counts :=
  (λ p : string * dict string (option nat), (p.1, (λ q : string * option nat, (q.1, None)) <$> p.2))
    <$> ts.

Definition bad_count (v : option nat) : bool :=
  match v with Some n => negb (Nat.eqb (n mod 3) 0) | None => false end.

(** The inner loop stops at the first bad count and leaves the rest as it is. *)
Fixpoint check_colors (d : dict string (option nat)) : dict string (option nat) * bool :=
  match d with
  | [] => ([], true)
  | (color, v) :: d' =>
      if bad_count v then (d, false)
      else let '(d'', ok) := check_colors d' in ((color, None) :: d'', ok)
  end.
(** The outer loop goes on with the next topic. *)
Fixpoint check_topics (ts : counts) : counts * bool :=
  match ts with
  | [] => ([], true)
  | (topic, d) :: ts' =>
      let '(d', ok) := check_colors d in
      let '(ts'', oks) := check_topics ts' in ((topic, d') :: ts'', ok && oks)
  end.

Definition with_message (s : st) ts ignore count code : st :=
  St ts (samples_read_per_instance s) (previous_sample_color s) false ignore
     (coherent_sets_count s) count code None.

(** The message that new sets are read. *)
Definition read_message (s : st) : step st :=
  if decide (ignore_firsts_coherent_set s ≠ 0) then
    if new_coherent_set_read s then
      Go (with_message s (reset_counts (topics s)) (ignore_firsts_coherent_set s - 1) 0
            (produced_code s))
    else Go (with_message s (topics s) (ignore_firsts_coherent_set s)
               (coherent_set_sample_count s) (produced_code s))
  else if new_coherent_set_read s then
    if decide (coherent_set_sample_count s mod expected_total ≠ 0) then
      Break (with_message s (topics s) (ignore_firsts_coherent_set s)
               (coherent_set_sample_count s) DATA_NOT_CORRECT)
    else
      let '(ts, ok) := check_topics (topics s) in
      if ok then Go (with_message s ts (ignore_firsts_coherent_set s) 0 OK)
      else Break (with_message s ts (ignore_firsts_coherent_set s) 0 DATA_NOT_CORRECT)
  else Go (with_message s (topics s) (ignore_firsts_coherent_set s)
             (coherent_set_sample_count s) (produced_code s)).

Definition read_other (s : st) : st :=
  St (topics s) (samples_read_per_instance s) (previous_sample_color s)
     (new_coherent_set_read s) (ignore_firsts_coherent_set s) (coherent_sets_count s)
     (coherent_set_sample_count s) (produced_code s) None.

Definition body (s : st) (text : string) : step st :=
  step_of (
    sub ← topic_instance_of text;
    match sub with
    | Some (topic, color) => Ok (Go (read_sample topic color s))
    | None => if is_coherent_message text then Ok (read_message s) else Ok (Go (read_other s))
    end).

Definition set_counts (s : st) (reads sets samples : nat) (code : ReturnCode) : st :=
  St (topics s) reads (previous_sample_color s) (new_coherent_set_read s)
     (ignore_firsts_coherent_set s) sets samples code (current s).

(** [list(d.keys())[0]] *)
Definition first_key {V : Type} (d : dict string V) : result string :=
  or_raise IndexError (head (keys d)).

(** Is the sample of the first instance of the first topic? *)
Definition is_first (s : st) : result bool :=
  match current s with
  | None => Ok false
  | Some (topic, color) =>
      first_topic ← first_key (topics s);
      if decide (topic = first_topic) then
        d ← dgetitem topic (topics s);
        first_color ← first_key d;
        Ok (bool_decide (color = first_color))
      else Ok false
  end.

(** The exit when no samples are being printed; the bound is that of the other
    checks, [MAX_SAMPLES_READ]. *)
Definition exit_condition (s : st) : step st :=
  if decide (MAX_SAMPLES_READ < coherent_sets_count s) then
    Break (if decide (samples_read_per_instance s < MAX_SAMPLES_READ)
           then set_counts s (samples_read_per_instance s) (coherent_sets_count s)
                  (coherent_set_sample_count s) DATA_NOT_RECEIVED
           else s)
  else Go s.

Definition after (s : st) (r : reply) : step st :=
  let reads := samples_read_per_instance s in
  let sets := coherent_sets_count s in
  let samples := coherent_set_sample_count s in
  if decide (r_index r = 0) then
    step_of (
      first ← is_first s;
      Ok (exit_condition
            (set_counts s (if (first : bool) then S reads else reads) sets (S samples) (produced_code s))))
  else if decide (r_index r = 1) then
    exit_condition (set_counts s reads (S sets) samples (produced_code s))
  else if decide (r_index r = 2) then Break s
  else if decide (r_index r = 3) then Break (set_counts s reads sets samples DATA_NOT_RECEIVED)
  else exit_condition s.

Definition loop (text : string) (script : list reply) : outcome :=
  while_expect guard body after produced_code st_init text script.

Definition _coherent_sets_w_instances (text : string) (script : list reply) : outcome :=
  with_basic_check text (loop text script).

(** ** Specification

    A read is what stands between two messages: the samples, each with whether its
    color is that of the previous sample. *)

Record read_sample_event := RS { rs_topic : string; rs_color : string; rs_same : bool }.

Definition text_sample (t : string) : option (string * string) :=
  match topic_instance_of t with Ok o => o | Raise _ => None end.

Record reads := Reads {
  last_color : option string;
  open_read : list read_sample_event;
  closed_reads : list (list read_sample_event)
}.

Definition reads_step (x : reads) (t : string) : reads :=
  match text_sample t with
  | Some (topic, color) =>
      Reads (Some color)
            (open_read x ++ [RS topic color (bool_decide (last_color x = Some color))])
            (closed_reads x)
  | None =>
      if is_coherent_message t then
        Reads (last_color x) []
              (match open_read x with [] => closed_reads x | _ => closed_reads x ++ [open_read x] end)
      else x
  end.
Definition reads_of (h : list string) : reads := foldl reads_step (Reads None [] []) h.

(** The reads that count: those with samples, after the first two. *)
Definition counted (h : list string) : list (list read_sample_event) :=
  drop 2 (closed_reads (reads_of h)).

(** The samples of an instance that follow one of its color. *)
Definition repeats (topic color : string) (l : list read_sample_event) : nat :=
  length (filter (λ r, rs_topic r = topic ∧ rs_color r = color ∧ rs_same r = true) l).

Definition whole_sets (l : list read_sample_event) : Prop :=
  length l mod expected_total = 0 ∧
  ∀ topic color, repeats topic color l = 0 ∨ S (repeats topic color l) mod 3 = 0.

(** The last read is the first one that counts and is not whole. *)
Definition last_not_whole (h : list string) : Prop :=
  ∃ l x, counted h = l ++ [x] ∧ Forall whole_sets l ∧ ¬ whole_sets x.

(** The answer when all reads were whole. *)
Definition verdict (h : list string) : ReturnCode :=
  if decide (counted h = []) then DATA_NOT_RECEIVED else OK.

(** What a run tells, wherever it ended: [acc] are the texts read with the indexes that
    followed them, [t] the last text. *)
Definition post (acc : list (string * nat)) (t : string) (en : ending) (o : outcome) : Prop :=
  let h := acc.*1 ++ [t] in
  let reads := first_reads text_sample acc in
  goes_on acc ∧ messages acc ≤ MAX_SAMPLES_READ ∧ Forall whole_sets (counted acc.*1) ∧
  match en with
  | AtHead => reads = coherent_sets_max_count ∧ o = Returned (verdict acc.*1)
  | AtText =>
      reads < coherent_sets_max_count ∧ last_not_whole h ∧ o = Returned DATA_NOT_CORRECT
  | AtReply r =>
      reads < coherent_sets_max_count ∧ Forall whole_sets (counted h) ∧
      (r_index r = 2 ∧ o = Returned (verdict h) ∨
       (r_index r = 3 ∨ r_index r = 1 ∧ messages acc = MAX_SAMPLES_READ) ∧
       o = Returned DATA_NOT_RECEIVED)
  | AtExpect =>
      reads < coherent_sets_max_count ∧ Forall whole_sets (counted h) ∧ o = Waiting
  end.

(** pexpect's index says what the text is: [0] exactly for a sample. *)
Definition consistent (r : reply) : Prop := r_index r = 0 ↔ is_Some (text_sample (r_text r)).
#[global] Instance consistent_dec r : Decision (consistent r).
Proof. unfold consistent. apply _. Defined.

(** *** The nested dictionary *)

Definition value (ts : counts) (t c : string) : option nat :=
  d ← dget t ts; v ← dget c d; v.
Definition wf2 (ts : counts) : Prop := wf ts ∧ ∀ p, p ∈ ts → wf p.2.

Lemma wf2_dset ts t d : wf2 ts → wf d → wf2 (dset t d ts).
Proof.
  intros [Hts Hd] Hw. split; [by apply wf_dset|].
  clear Hts. induction ts as [|[t' d'] ts IH]; cbn.
  - intros p ->%list_elem_of_singleton. done.
  - case_decide; intros p [->|Hp]%elem_of_cons; cbn; try done.
    + apply Hd. by right.
    + apply (Hd (t', d')). by left.
    + apply IH; [|done]. intros q Hq. apply Hd. by right.
Qed.
Lemma wf2_get ts t : wf2 ts → wf (default [] (dget t ts)).
Proof.
  intros [_ Hd]. destruct (dget t ts) as [d|] eqn:E; [|apply wf_nil].
  apply (Hd (t, d)). by apply dget_Some_in.
Qed.

Lemma wf2_count t c prev ts : wf2 ts → wf2 (count_sample t c prev ts).
Proof.
  intros Hw. unfold count_sample.
  assert (wf2 (dsetdefault t [] ts)) as Hw'.
  { unfold dsetdefault. case_match; [done|]. apply wf2_dset; [done|apply wf_nil]. }
  apply wf2_dset; [done|]. case_decide; auto using wf_dset, wf_dsetdefault, wf2_get.
Qed.

Lemma count_sample_get t c prev ts t' :
  dget t' (count_sample t c prev ts) =
  if decide (t' = t) then
    Some (let inner := dsetdefault c None (default [] (dget t ts)) in
          if decide (prev = Some c) then dset c (bump (default None (dget c inner))) inner
          else inner)
  else dget t' ts.
Proof.
  unfold count_sample. rewrite dget_dset.
  destruct (decide (t' = t)) as [->|]; [|by rewrite dget_dsetdefault, decide_False].
  assert (default [] (dget t (dsetdefault t [] ts)) = default [] (dget t ts)) as E
    by by rewrite dget_dsetdefault, decide_True.
  by rewrite E.
Qed.

Lemma value_count t c prev ts t' c' :
  value (count_sample t c prev ts) t' c' =
  if decide (t' = t ∧ c' = c ∧ prev = Some c) then bump (value ts t c) else value ts t' c'.
Proof.
  unfold value. rewrite count_sample_get.
  destruct (decide (t' = t)) as [->|Ht]; [|rewrite decide_False by tauto; done].
  cbn. set (d := default [] (dget t ts)).
  assert (∀ k, (d0 ← dget t ts; v ← dget k d0; v) = (v ← dget k d; v)) as Hd
    by (intros k; unfold d; by destruct (dget t ts)).
  assert (∀ k, (v ← dget k (dsetdefault c None d); v) = (v ← dget k d; v)) as Hdd.
  { intros k. rewrite dget_dsetdefault. case_decide; subst; [|done]. by destruct (dget c d). }
  rewrite !Hd. destruct (decide (prev = Some c)) as [Hp|Hp].
  - rewrite dget_dset. destruct (decide (c' = c)) as [->|].
    + rewrite decide_True by done. cbn. f_equal. rewrite <- (Hdd c).
      by destruct (dget c (dsetdefault c None d)).
    + rewrite decide_False by tauto. by rewrite Hdd.
  - rewrite decide_False by tauto. by rewrite Hdd.
Qed.

Lemma dget_fmap {V W} (f : string * V → string * W) (d : list (string * V)) k :
  (∀ p, (f p).1 = p.1) → dget k (f <$> d) = (λ v, (f (k, v)).2) <$> dget k d.
Proof.
  intros Hf. induction d as [|[k' v] d IH]; cbn; [done|].
  destruct (f (k', v)) as [k2 w] eqn:E. pose proof (Hf (k', v)) as E2. rewrite E in E2.
  cbn in E2. subst. case_decide; subst; cbn; [by rewrite E|done].
Qed.

Lemma value_reset ts t c : value (reset_counts ts) t c = None.
Proof.
  unfold value, reset_counts. rewrite dget_fmap by done. destruct (dget t ts) as [d|]; [|done]. cbn.
  rewrite dget_fmap by done. by destruct (dget c d).
Qed.
Lemma keys_fmap {V W} (f : string * V → string * W) (d : list (string * V)) :
  (∀ p, (f p).1 = p.1) → keys (f <$> d) = keys d.
Proof.
  intros Hf. unfold keys. rewrite <- list_fmap_compose. apply list_fmap_ext.
  intros i p _. apply Hf.
Qed.
Lemma wf2_reset ts : wf2 ts → wf2 (reset_counts ts).
Proof.
  intros [Hts Hd]. split; unfold wf, reset_counts; [by rewrite keys_fmap|].
  intros p (q&->&Hq)%list_elem_of_fmap. simpl.
  rewrite (keys_fmap (λ q : string * option nat, (q.1, None))) by done. by apply Hd.
Qed.

Lemma check_colors_spec d :
  match check_colors d with
  | (d', true) => d' = (λ q : string * option nat, (q.1, None)) <$> d ∧
                  Forall (λ q, bad_count q.2 = false) d
  | (_, false) => ¬ Forall (λ q, bad_count q.2 = false) d
  end.
Proof.
  induction d as [|[c v] d IH]; cbn; [by split|].
  destruct (bad_count v) eqn:Hb.
  - intros [H _]%Forall_cons. cbn in H. congruence.
  - destruct (check_colors d) as [d' []].
    + destruct IH as [-> ?]. split; [done|]. by constructor.
    + by intros [_ H]%Forall_cons.
Qed.

Lemma check_topics_spec ts :
  let all_good := Forall (λ p : string * dict string (option nat),
                            Forall (λ q, bad_count q.2 = false) p.2) ts in
  match check_topics ts with
  | (ts', true) => ts' = reset_counts ts ∧ all_good
  | (_, false) => ¬ all_good
  end.
Proof.
  induction ts as [|[t d] ts IH]; cbn -[check_colors]; [by split|].
  pose proof (check_colors_spec d) as Hd. destruct (check_colors d) as [d' []]; cbn in *.
  - destruct (check_topics ts) as [ts' []].
    + destruct Hd as [-> Hd], IH as [-> Hts]. split; [done|]. by constructor.
    + by intros [_ H]%Forall_cons.
  - destruct (check_topics ts). by intros [H _]%Forall_cons.
Qed.

Lemma all_good_value ts :
  wf2 ts →
  Forall (λ p : string * dict string (option nat), Forall (λ q, bad_count q.2 = false) p.2) ts
  ↔ ∀ t c, bad_count (value ts t c) = false.
Proof.
  intros [Hts Hd]. split.
  - intros H t c. unfold value. destruct (dget t ts) as [d|] eqn:Et; [|done].
    apply dget_Some_in in Et. rewrite Forall_forall in H. specialize (H _ Et).
    cbn. destruct (dget c d) as [v|] eqn:Ec; [|done]. apply dget_Some_in in Ec.
    rewrite Forall_forall in H. exact (H _ Ec).
  - intros H. apply Forall_forall. intros [t d] Ht. apply Forall_forall. intros [c v] Hc.
    specialize (H t c). unfold value in H. rewrite (in_dget t d ts) in H by done. cbn in H.
    rewrite (in_dget c v d) in H; [done| |done]. exact (Hd _ Ht).
Qed.

(** *** The loop *)

#[local] Arguments value : simpl never.
#[local] Arguments count_sample : simpl never.
#[local] Arguments post : simpl never.
#[local] Arguments repeats : simpl never.
#[local] Arguments first_instance : simpl never.

Definition encode (n : nat) : option nat := match n with 0 => None | S _ => Some (S n) end.

Lemma bump_encode n : bump (encode n) = encode (S n).
Proof. by destruct n. Qed.
Lemma bad_encode n : bad_count (encode n) = false ↔ n = 0 ∨ S n mod 3 = 0.
Proof.
  destruct n as [|n]; [split; [by left|done]|]. cbn [encode bad_count].
  rewrite negb_false_iff, Nat.eqb_eq. split; [by right|]. by intros [|].
Qed.

Lemma repeats_snoc t c l r :
  repeats t c (l ++ [r]) =
  repeats t c l + if decide (rs_topic r = t ∧ rs_color r = c ∧ rs_same r = true) then 1 else 0.
Proof.
  unfold repeats. rewrite filter_app, length_app. f_equal. rewrite filter_cons.
  by case_decide.
Qed.

Lemma reads_of_snoc h t : reads_of (h ++ [t]) = reads_step (reads_of h) t.
Proof. unfold reads_of. by rewrite foldl_app. Qed.

(** What the state says of the reads; [n] samples of the open read were counted. *)
Definition state_ok (x : reads) (n : nat) (s : st) : Prop :=
  previous_sample_color s = last_color x ∧
  new_coherent_set_read s = negb (bool_decide (open_read x = [])) ∧
  ignore_firsts_coherent_set s = 2 - length (closed_reads x) ∧
  wf2 (topics s) ∧
  (∀ t c, value (topics s) t c = encode (repeats t c (open_read x))) ∧
  (closed_reads x ≠ [] → coherent_set_sample_count s = n) ∧
  produced_code s =
    (if decide (drop 2 (closed_reads x) = []) then DATA_NOT_RECEIVED else OK) ∧
  Forall whole_sets (drop 2 (closed_reads x)).

(** The first entries of the dictionaries are the topic and the color of the first
    sample. *)
Definition first_ok (h : list string) (ts : counts) : Prop :=
  head (keys ts) = fst <$> first_instance text_sample h ∧
  ∀ t0 c0, first_instance text_sample h = Some (t0, c0) →
    ∃ d, dget t0 ts = Some d ∧ head (keys d) = Some c0.

Definition head_inv (h : list string) (t : string) (s : st) : Prop :=
  state_ok (reads_of h)
    (length (open_read (reads_of h)) + if decide (is_Some (text_sample t)) then 1 else 0) s ∧
  first_ok h (topics s).
Definition current_ok (s : st) : Prop :=
  match current s with
  | Some (t, c) => ∃ d, dget t (topics s) = Some d ∧ d ≠ []
  | None => True
  end.
Definition mid_inv (h : list string) (t : string) (s : st) : Prop :=
  state_ok (reads_of (h ++ [t])) (length (open_read (reads_of (h ++ [t])))) s ∧
  first_ok (h ++ [t]) (topics s) ∧ current s = text_sample t.

(** The loop's counters, of the iterations so far. *)
Definition counters (acc : list (string * nat)) (s : st) : Prop :=
  samples_read_per_instance s = first_reads text_sample acc ∧
  coherent_sets_count s = messages acc ∧
  messages acc ≤ MAX_SAMPLES_READ ∧ goes_on acc.
Definition head_ok (acc : list (string * nat)) (t : string) (s : st) : Prop :=
  head_inv acc.*1 t s ∧ counters acc s ∧ first_reads text_sample acc ≤ coherent_sets_max_count.
Definition expect_ok (acc : list (string * nat)) (t : string) (s : st) : Prop :=
  mid_inv acc.*1 t s ∧ counters acc s ∧ first_reads text_sample acc < coherent_sets_max_count ∧
  Forall whole_sets (counted acc.*1).

Lemma topic_instance_total t : is_Ok (topic_instance_of t).
Proof.
  unfold topic_instance_of. destruct (re_search topic_instance_re t) as [m|] eqn:E; [|by eexists].
  apply re_search_sound in E as (l&w&rest&cs&_&A&->). unfold topic_instance_re in A.
  inv_accepts A. by eexists.
Qed.
Lemma topic_instance_eq t : topic_instance_of t = Ok (text_sample t).
Proof. unfold text_sample. by destruct (topic_instance_total t) as [? ->]. Qed.

Lemma state_verdict h s n :
  state_ok (reads_of h) n s → produced_code s = verdict h ∧ Forall whole_sets (counted h).
Proof. by intros (_&_&_&_&_&_&Hc&Hall). Qed.

Lemma dset_ne (k : string) (v : option nat) d : dset k v d ≠ [].
Proof. destruct d as [|[k' v'] d]; cbn; [done|]. by case_decide. Qed.

Lemma dsetdefault_ne (k : string) (v : option nat) d : dsetdefault k v d ≠ [].
Proof.
  unfold dsetdefault. destruct (dget k d) eqn:E; [|apply dset_ne]. by intros ->.
Qed.

Lemma head_dset {V} (k : string) (v : V) d :
  head (keys (dset k v d)) = Some (default k (head (keys d))).
Proof. destruct d as [|[k' v'] d]; cbn; [done|]. by case_decide; subst. Qed.
Lemma head_dsetdefault {V} (k : string) (v : V) d :
  head (keys (dsetdefault k v d)) = Some (default k (head (keys d))).
Proof.
  unfold dsetdefault. destruct (dget k d) eqn:E; [|apply head_dset]. by destruct d.
Qed.

Lemma first_ok_other h t ts : text_sample t = None → first_ok h ts → first_ok (h ++ [t]) ts.
Proof.
  intros Ht. unfold first_ok. rewrite first_instance_snoc, Ht. by destruct (first_instance _ h).
Qed.
Lemma first_ok_reset h ts : first_ok h ts → first_ok h (reset_counts ts).
Proof.
  intros [H1 H2]. unfold first_ok, reset_counts. rewrite keys_fmap by done. split; [done|].
  intros t0 c0 Hf. destruct (H2 t0 c0 Hf) as (d&Hd&Hh). rewrite dget_fmap, Hd by done.
  eexists. split; [done|]. simpl. by rewrite (keys_fmap (λ q : string * option nat, (q.1, None))).
Qed.
Lemma first_ok_count h t topic color prev ts :
  text_sample t = Some (topic, color) → first_ok h ts →
  first_ok (h ++ [t]) (count_sample topic color prev ts).
Proof.
  intros Ht [H1 H2]. unfold first_ok. rewrite first_instance_snoc, Ht. split.
  - unfold count_sample. rewrite head_dset, head_dsetdefault, H1. cbn.
    by destruct (first_instance _ h) as [[]|].
  - intros t0 c0 Hf. rewrite count_sample_get.
    assert (∀ d c, head (keys (let inner := dsetdefault color None d in
      if decide (prev = Some c) then dset color (bump (default None (dget color inner))) inner
      else inner)) = Some (default color (head (keys d)))) as Hinner.
    { intros d c. cbv zeta. case_decide; [rewrite head_dset|]; by rewrite head_dsetdefault. }
    destruct (first_instance _ h) as [[t1 c1]|] eqn:E; simplify_eq.
    + destruct (H2 t0 c0 eq_refl) as (d&Hd&Hh). case_decide as Htt; [|by exists d].
      subst. eexists. split; [done|]. rewrite Hinner, Hd. unfold keys in *. cbn. by rewrite Hh.
    + rewrite decide_True by done. eexists. split; [done|]. rewrite Hinner.
      cbn in H1. destruct ts as [|[]]; [done|done].
Qed.

Lemma read_sample_ok h t s topic color :
  head_inv h t s → text_sample t = Some (topic, color) →
  mid_inv h t (read_sample topic color s).
Proof.
  unfold head_inv. intros [(Hp&Hnew&Hig&Hw&Hv&Hn&Hc&Hall) Hfirst] Ht.
  rewrite Ht, decide_True in Hn by by eexists.
  unfold mid_inv. split; [|by split; [apply first_ok_count|]].
  rewrite reads_of_snoc. unfold reads_step. rewrite Ht. cbn.
  split_and!; cbn; auto.
  - rewrite bool_decide_false; [done|]. by destruct (open_read (reads_of h)).
  - by apply wf2_count.
  - intros t' c'. rewrite value_count, !Hv, repeats_snoc, bump_encode, Hp. cbn.
    destruct (decide (last_color (reads_of h) = Some color)) as [Hl|Hl].
    + rewrite bool_decide_true by done.
      destruct (decide (t' = topic ∧ c' = color ∧ _)) as [(->&->&_)|Hne].
      * rewrite decide_True by done. by rewrite Nat.add_1_r.
      * rewrite decide_False by naive_solver. by rewrite Nat.add_0_r.
    + rewrite bool_decide_false by done. rewrite !decide_False by naive_solver.
      by rewrite Nat.add_0_r.
  - intros Hcl. rewrite length_app. cbn. auto.
Qed.

Lemma repeats_nil t c : repeats t c [] = 0.
Proof. done. Qed.

(** A message that ends a read with samples, after the first two. *)
Lemma whole_sets_check x n s :
  state_ok x n s → closed_reads x ≠ [] → n = length (open_read x) →
  (n mod expected_total = 0 ∧ (check_topics (topics s)).2 = true ↔ whole_sets (open_read x)) ∧
  ((check_topics (topics s)).2 = true → (check_topics (topics s)).1 = reset_counts (topics s)).
Proof.
  intros (_&_&_&Hw&Hv&_) _ ->. pose proof (check_topics_spec (topics s)) as Hcheck. cbn in Hcheck.
  unfold whole_sets.
  assert ((∀ t c, bad_count (value (topics s) t c) = false) ↔
          ∀ t c, repeats t c (open_read x) = 0 ∨ S (repeats t c (open_read x)) mod 3 = 0) as Hiff.
  { split; intros H t c; specialize (H t c); rewrite Hv in *; by apply bad_encode. }
  rewrite <- Hiff, <- all_good_value by done.
  destruct (check_topics (topics s)) as [ts []]; cbn [fst snd]; naive_solver.
Qed.

(** A message ends the read: it is whole, or the answer is [DATA_NOT_CORRECT]. *)
Lemma read_message_ok h t s :
  head_inv h t s → text_sample t = None → is_coherent_message t = true →
  match read_message s with
  | Go s' => mid_inv h t s'
  | Break s' => produced_code s' = DATA_NOT_CORRECT ∧ last_not_whole (h ++ [t])
  | _ => False
  end.
Proof.
  unfold head_inv. intros [Hs Hfirst] Ht Hm.
  assert (first_ok (h ++ [t]) (topics s)) as Hfirst1 by by apply first_ok_other.
  assert (first_ok (h ++ [t]) (reset_counts (topics s))) as Hfirst2 by by apply first_ok_reset.
  rewrite Ht, decide_False, Nat.add_0_r in Hs by by intros [].
  pose proof Hs as (Hp&Hnew&Hig&Hw&Hv&Hn&Hc&Hall).
  assert (reads_of (h ++ [t]) = Reads (last_color (reads_of h)) []
    (match open_read (reads_of h) with
     | [] => closed_reads (reads_of h)
     | _ => closed_reads (reads_of h) ++ [open_read (reads_of h)] end)) as Hx
    by (rewrite reads_of_snoc; unfold reads_step; by rewrite Ht, Hm).
  set (x := reads_of h) in *. unfold read_message. rewrite Hnew.
  destruct (open_read x) as [|r0 op] eqn:Eop; cbn [negb].
  - rewrite bool_decide_true by done. cbn [negb].
    assert (mid_inv h t (with_message s (topics s) (ignore_firsts_coherent_set s)
              (coherent_set_sample_count s) (produced_code s))) as Hmid.
    { split; [|by rewrite Ht]. rewrite Hx. by split_and!. }
    by destruct (decide (ignore_firsts_coherent_set s ≠ 0)).
  - rewrite bool_decide_false by done. cbn [negb].
    destruct (decide (ignore_firsts_coherent_set s ≠ 0)) as [Hi|Hi].
    + split; [|by rewrite Ht]. rewrite Hx. unfold with_message. split_and!; cbn; auto.
      * rewrite length_app, Hig. cbn. lia.
      * by apply wf2_reset.
      * intros t' c'. by rewrite value_reset.
      * rewrite Hc, !drop_ge; [done|..]; rewrite ?length_app; cbn; lia.
      * rewrite drop_ge; [done|]. rewrite length_app. cbn. lia.
    + assert (2 ≤ length (closed_reads x)) as Hlen by lia.
      assert (closed_reads x ≠ []) as Hcl by (intros E; rewrite E in Hlen; cbn in Hlen; lia).
      destruct (whole_sets_check x _ s Hs Hcl) as [Hwhole Hreset]; [by rewrite Eop|].
      rewrite (Hn Hcl). rewrite Eop in Hwhole.
      assert (counted (h ++ [t]) = drop 2 (closed_reads x) ++ [r0 :: op]) as Hcount
        by (unfold counted; rewrite Hx; cbn; by rewrite drop_app_le).
      assert (¬ whole_sets (r0 :: op) → last_not_whole (h ++ [t])) as Hbad
        by (intros Hb; unfold last_not_whole; rewrite Hcount; eauto 10).
      destruct (decide (length (r0 :: op) mod expected_total ≠ 0)) as [Hmod|Hmod];
        [split; [done|apply Hbad; tauto]|].
      destruct (check_topics (topics s)) as [ts []]; cbn [fst snd] in *;
        [|split; [done|apply Hbad; intros H; by apply Hwhole in H as [_ ?]]].
      assert (whole_sets (r0 :: op)) as Hgood.
      { apply Hwhole. split; [|done]. by apply dec_stable. }
      rewrite (Hreset eq_refl). split; [|by rewrite Ht]. rewrite Hx.
      unfold with_message. split_and!; cbn; auto.
      * rewrite length_app. lia.
      * by apply wf2_reset.
      * intros t' c'. by rewrite value_reset.
      * rewrite drop_app_le by done. rewrite decide_False; [done|]. by destruct (drop 2 _).
      * rewrite drop_app_le by done. apply Forall_app. split; [done|]. by constructor.
Qed.

(** The part before [expect] keeps the counters. *)
Lemma coherent_body_counters s t s' :
  body s t = Go s' →
  samples_read_per_instance s' = samples_read_per_instance s ∧
  coherent_sets_count s' = coherent_sets_count s.
Proof.
  unfold body. rewrite topic_instance_eq. cbn -[read_sample read_message].
  destruct (text_sample t) as [[topic color]|]; cbn -[read_message]; [by intros [= <-]|].
  destruct (is_coherent_message t); cbn; [|by intros [= <-]].
  unfold read_message. repeat case_match; intros; simplify_eq; done.
Qed.

Lemma coherent_body_ok acc t s :
  head_ok acc t s → guard s = true →
  leaves produced_code post acc t AtText (expect_ok acc t) (body s t).
Proof.
  intros (Hs&(Hr&Hg&Hm&Hgo)&_) Hlt%bool_decide_eq_true. rewrite Hr in Hlt.
  pose proof (coherent_body_counters s t) as Hc.
  destruct (state_verdict _ _ _ (proj1 Hs)) as [_ Hwhole].
  assert (∀ s', mid_inv acc.*1 t s' → samples_read_per_instance s' = samples_read_per_instance s ∧
    coherent_sets_count s' = coherent_sets_count s → expect_ok acc t s') as Hexp.
  { intros s' Hs' [E1 E2]. unfold expect_ok, counters. rewrite E1, E2. by split_and!. }
  revert Hc. unfold body. rewrite topic_instance_eq. cbn -[read_sample read_message].
  destruct (text_sample t) as [[topic color]|] eqn:Ht; cbn -[read_sample read_message].
  - intros Hc. apply Hexp; [by apply read_sample_ok|by apply Hc].
  - destruct (is_coherent_message t) eqn:Hcm; cbn -[read_message].
    + pose proof (read_message_ok _ _ _ Hs Ht Hcm) as Hmsg.
      destruct (read_message s) as [s'|s'| |]; cbn; [|destruct Hmsg as [-> E]|done..].
      * intros Hc. by apply Hexp, Hc.
      * intros _. unfold post. by split_and!.
    + intros Hc. apply Hexp; [|by apply Hc]. destruct Hs as [Hs Hfirst].
      split; [|split; [by apply first_ok_other|done]].
      rewrite Ht, decide_False, Nat.add_0_r in Hs by by intros [].
      rewrite reads_of_snoc. unfold reads_step. rewrite Ht, Hcm. exact Hs.
Qed.

Lemma is_first_ok s : current_ok s → is_Ok (is_first s).
Proof.
  unfold current_ok, is_first. destruct (current s) as [[t c]|]; [|by eexists].
  intros (d&Hd&Hne). destruct (topics s) as [|[t0 d0] ts]; [done|]. cbn -[decide].
  cbn in Hd. case_decide; [|by eexists]. simplify_eq. unfold dgetitem. cbn.
  rewrite decide_True by done. cbn. destruct d as [|[c0 v0] d]; [done|]. by eexists.
Qed.

Lemma is_first_eq h t s :
  mid_inv h t s →
  is_first s = Ok (bool_decide (of_first text_sample (h ++ [t]) t 0)).
Proof.
  intros (_&[H1 H2]&Hcur). unfold is_first. rewrite Hcur.
  destruct (text_sample t) as [[topic color]|] eqn:Ht.
  2: { rewrite bool_decide_false; [done|]. intros (_&[x Hx]&_). congruence. }
  destruct (first_instance text_sample (h ++ [t])) as [[t0 c0]|] eqn:E.
  2: { rewrite first_instance_snoc, Ht in E. by destruct (first_instance _ h). }
  assert (of_first text_sample (h ++ [t]) t 0 ↔ topic = t0 ∧ color = c0) as Hof.
  { unfold of_first. rewrite Ht, E. split; [by intros (_&_&[=])|].
    intros [-> ->]. by split_and!. }
  destruct (H2 t0 c0 eq_refl) as (d&Hd&Hh). unfold first_key. rewrite H1. cbn -[decide].
  destruct (decide (topic = t0)) as [->|Hne].
  - unfold dgetitem. rewrite Hd. simpl. rewrite Hh. simpl. f_equal. apply bool_decide_ext. tauto.
  - by rewrite (bool_decide_false (of_first _ _ _ _)) by tauto.
Qed.

(** The part after [expect]: the counters grow by what [expect] returned. *)
Lemma coherent_after_ok acc t s r :
  expect_ok acc t s → consistent r →
  leaves produced_code post acc t (AtReply r) (head_ok (acc ++ [(t, r_index r)]) (r_text r))
    (after s r).
Proof.
  intros (Hmid&(Hr&Hg&Hm&Hgo)&Hlt&Hall0) Hcons. pose proof Hmid as (Hs&Hfirst&Hcur).
  destruct (state_verdict _ _ _ Hs) as [Hpc Hall]. unfold consistent in Hcons.
  pose proof (messages_snoc acc t (r_index r)) as Hms.
  pose proof (first_reads_snoc text_sample acc t (r_index r)) as Hfs.
  assert (∀ s', head_inv (acc.*1 ++ [t]) (r_text r) s' → r_index r ≠ 2 → r_index r ≠ 3 →
    samples_read_per_instance s' = first_reads text_sample (acc ++ [(t, r_index r)]) →
    coherent_sets_count s' = messages (acc ++ [(t, r_index r)]) →
    leaves produced_code post acc t (AtReply r) (head_ok (acc ++ [(t, r_index r)]) (r_text r))
      (exit_condition s')) as Hexit.
  { intros s' Hs' H2 H3 E1 E2. unfold exit_condition. rewrite E2.
    destruct (decide (MAX_SAMPLES_READ < messages (acc ++ [(t, r_index r)]))) as [Hover|Hover].
    - assert (r_index r = 1 ∧ messages acc = MAX_SAMPLES_READ) as [E Em]
        by (destruct (decide (r_index r = 1)); lia).
      rewrite (decide_False (P := of_first _ _ _ _)) in Hfs by (intros [? _]; lia).
      rewrite decide_True by (unfold coherent_sets_max_count, MAX_SAMPLES_READ in *; lia).
      cbn. unfold post. split_and!; [done..|]. right. auto.
    - cbn. unfold head_ok, counters. rewrite fmap_app. cbn. split_and!; try done; try lia.
      + apply Forall_app. split; [done|]. by constructor.
      + destruct (decide (of_first _ _ t (r_index r))); lia. }
  unfold after. rewrite (is_first_eq _ _ _ Hmid). cbn -[exit_condition].
  pose proof Hs as (Hp&Hnew&Hig&Hw&Hv&Hn&Hc&Hwh).
  destruct (decide (r_index r = 0)) as [H0|H0].
  - rewrite (decide_False (P := r_index r = 1)) in Hms by lia. rewrite H0 in Hfs.
    apply Hexit; [|lia..| |cbn; lia].
    + split; [|done]. split_and!; auto. intros Hcl. cbn. rewrite Hn by done.
      rewrite decide_True by by apply Hcons. lia.
    + rewrite H0, Hfs. cbn. destruct (decide (of_first text_sample _ t 0));
        [rewrite bool_decide_true by done|rewrite bool_decide_false by done]; lia.
  - rewrite (decide_False (P := of_first _ _ _ _)) in Hfs by by intros [? _].
    assert (head_inv (acc.*1 ++ [t]) (r_text r) s) as Hhead.
    { split; [|done]. rewrite decide_False by naive_solver. by rewrite Nat.add_0_r. }
    destruct (decide (r_index r = 1)) as [H1|H1]; [apply Hexit; cbn; try done; lia|].
    destruct (decide (r_index r = 2)); [cbn; rewrite Hpc; unfold post; split_and!; auto|].
    destruct (decide (r_index r = 3)); [cbn; unfold post; split_and!; auto|].
    apply Hexit; try done; lia.
Qed.

Lemma coherent_loop_spec text script :
  Forall consistent script →
  ∃ acc t en, trace_of text script acc t en (loop text script) ∧
              post acc t en (loop text script).
Proof.
  intros Hs. unfold loop.
  eapply (while_expect_trace guard body after produced_code head_ok expect_ok post consistent)
    with (acc := []); [| | | | |done].
  - intros acc t s ([Hi _]&(Hr&Hg&Hm&Hgo)&Hle) Hn%bool_decide_eq_false.
    destruct (state_verdict _ _ _ Hi) as [-> Hall]. unfold post. split_and!; [done..|lia|done].
  - intros. by apply coherent_body_ok.
  - intros. by apply coherent_after_ok.
  - intros acc t s ([Hi _]&(Hr&Hg&Hm&Hgo)&Hlt&Hall0). destruct (state_verdict _ _ _ Hi) as [_ Hall].
    unfold post. by split_and!.
  - unfold head_ok, head_inv, counters, first_ok. cbn. split_and!; try done;
      try (unfold coherent_sets_max_count, MAX_SAMPLES_READ; cbn; lia); [|constructor].
    split_and!; try done. split; [apply wf_nil|set_solver].
Qed.
End coherent.

Definition coherent_sets_w_instances : string → list reply → outcome :=
  _coherent_sets_w_instances 36.
Definition coherent_sets_w_instances_non_group : string → list reply → outcome :=
  _coherent_sets_w_instances 12.

(** ** Properties *)

(** C10: what every run of the two coherent-set checks answers, and where it ends, when
    index 0 of pexpect stands exactly for a sample.  A read is what stands between two
    messages of the reader; the reads with samples count, but for the first two; a read is
    whole when it has a whole number of sets (36 or 12 samples) and, per topic and instance,
    no repeated color or a multiple of 3 consecutive ones.  The function reads on until, and
    only until, one of these: 100 samples of the first instance were read or a timeout came,
    and it answers [OK] if some read counted, [DATA_NOT_RECEIVED] if none did; a message ends
    a read that counts and is not whole, and it answers [DATA_NOT_CORRECT]; the output ended,
    or the 501st message came, and it answers [DATA_NOT_RECEIVED]. *)
Theorem coherent_sets_verdict text script :
  Forall consistent script →
  trace_spec (post 36) text script (coherent_sets_w_instances text script) ∧
  trace_spec (post 12) text script (coherent_sets_w_instances_non_group text script).
Proof.
  intros Hs. split; apply trace_spec_gate; intros _; by apply coherent_loop_spec.
Qed.

(** Three reads of 12 samples: of four instances, three samples each. *)
Definition coherent_read : list reply :=
  Reply 1 "Reading coherent sets" ::
  ((λ c, Reply 0 ("Square " +:+ c +:+ " 001 001 [7]")) <$>
    ["BLUE"; "BLUE"; "BLUE"; "RED"; "RED"; "RED"; "GREEN"; "GREEN"; "GREEN"; "CYAN"; "CYAN"; "CYAN"]).
Definition coherent_demo : list reply :=
  coherent_read ++ coherent_read ++ coherent_read ++ [Reply 1 "Reading coherent sets"; Reply 2 ""].

Lemma coherent_sets_verdict_witness :
  let text := "Square BLUE 001 001 [1]" in
  coherent_sets_w_instances_non_group text coherent_demo = Returned OK ∧
  coherent_sets_w_instances text coherent_demo = Returned DATA_NOT_CORRECT ∧
  trace_spec (post 36) text coherent_demo (coherent_sets_w_instances text coherent_demo) ∧
  trace_spec (post 12) text coherent_demo (coherent_sets_w_instances_non_group text coherent_demo).
Proof.
  split; [vm_compute; reflexivity|]. split; [vm_compute; reflexivity|].
  apply (coherent_sets_verdict "Square BLUE 001 001 [1]" coherent_demo).
  apply (bool_decide_unpack _). vm_compute. exact I.
Defined.
