(* ===== verification/CheckFunctions.v ===== *)
(** * The checking functions as a whole

    The functions that a test case can name, and what they all have in common: with
    a subscriber that sooner or later times out they return a code; they raise no
    exception. *)

From S2P Require Import Prelude PyStr PyDict Regex Utilities CheckLoop ShapeLine InstanceChecks.
From S2P Require Import FilterChecks ReceiverChecks DisposalChecks OrderedAccess CoherentSets.
From stdpp Require Import options.

Inductive check_function :=
| no_check
| basic_check
| test_size_receivers
| test_color_receivers
| test_size_less_than_20
| test_order_w_instances
| test_reliability_no_losses_w_instances
| test_durability_volatile
| test_durability_transient_local
| test_deadline_missed
| test_reading_1_sample_every_10_samples_w_instances
| test_unregistering_w_instances
| test_disposing_w_instances
| test_large_data
| test_lifespan_2_3_consecutive_samples_w_instances
| ordered_access_w_instances
| coherent_sets_w_instances
| coherent_sets_w_instances_non_group.

#[export] Instance check_function_eq_dec : EqDecision check_function.
Proof. solve_decision. Defined.

Definition outcome_of (r : result ReturnCode) : outcome :=
  match r with Ok c => Returned c | Raise e => Raised e end.

(** A call of the function on the text [child_sub.before + child_sub.after]. *)
Definition run_check (f : check_function) : string → list reply → outcome :=
  match f with
  | no_check => λ text _, outcome_of (Utilities.no_check text)
  | basic_check => λ text _, outcome_of (Utilities.basic_check text)
  | test_size_receivers => ReceiverChecks.test_size_receivers
  | test_color_receivers => ReceiverChecks.test_color_receivers
  | test_size_less_than_20 => ReceiverChecks.test_size_less_than_20
  | test_order_w_instances => InstanceChecks.test_order_w_instances
  | test_reliability_no_losses_w_instances => InstanceChecks.test_reliability_no_losses_w_instances
  | test_durability_volatile => ReceiverChecks.test_durability_volatile
  | test_durability_transient_local => ReceiverChecks.test_durability_transient_local
  | test_deadline_missed => ReceiverChecks.test_deadline_missed
  | test_reading_1_sample_every_10_samples_w_instances =>
      TimeFilter.test_reading_1_sample_every_10_samples_w_instances
  | test_unregistering_w_instances => DisposalChecks.test_unregistering_w_instances
  | test_disposing_w_instances => DisposalChecks.test_disposing_w_instances
  | test_large_data => LargeData.test_large_data
  | test_lifespan_2_3_consecutive_samples_w_instances =>
      Lifespan.test_lifespan_2_3_consecutive_samples_w_instances
  | ordered_access_w_instances => OrderedAccess.ordered_access_w_instances
  | coherent_sets_w_instances => CoherentSets.coherent_sets_w_instances
  | coherent_sets_w_instances_non_group => CoherentSets.coherent_sets_w_instances_non_group
  end.

(** The index of [pexpect.TIMEOUT] in the list that the function passes to
    [expect]. *)
Definition timeout_index (f : check_function) : nat :=
  match f with
  | test_order_w_instances | ordered_access_w_instances
  | coherent_sets_w_instances | coherent_sets_w_instances_non_group => 2
  | _ => 1
  end.

(** ** No exception *)

Definition no_raise (o : outcome) : Prop := ∀ e, o ≠ Raised e.

Lemma gate_no_raise text o : no_raise o → no_raise (with_basic_check text o).
Proof. intros H. rewrite with_basic_check_eq. case_decide; [done|]. by intros e. Qed.

Lemma verdict_no_raise (Q : list string → option reply → outcome → Prop) text script o :
  (∀ h r e, ¬ Q h r (Raised e)) → verdict_spec Q text script o → no_raise o.
Proof.
  unfold verdict_spec. intros HQ H e ->. case_decide; [|done].
  destruct H as (h&r&_&H). by eapply HQ.
Qed.

Lemma while_no_raise {S} (guard : S → bool) body after finish (I : S → Prop) s text script :
  I s →
  (∀ s t, I s → ∀ e, body s t ≠ Fail e) →
  (∀ s t s', I s → body s t = Go s' → (∀ r e, after s' r ≠ Fail e) ∧
     ∀ r s'', after s' r = Go s'' → I s'') →
  no_raise (while_expect guard body after finish s text script).
Proof.
  intros HI Hb Ha. revert s text HI.
  induction script as [|r script IH]; intros s text HI e; cbn; destruct (guard s); try done;
    destruct (body s text) as [s1| | |] eqn:E; try done; try (by apply Hb in E).
  destruct (Ha _ _ _ HI E) as [Hf Hn]. destruct (after s1 r) as [s2| | |] eqn:E2; try done.
  - by apply IH, (Hn r).
  - by apply Hf in E2.
Qed.

Lemma coherent_no_raise total text script :
  no_raise (_coherent_sets_w_instances total text script).
Proof.
  apply gate_no_raise, (while_no_raise _ _ _ _ (λ _, True)); [done|..].
  - intros s t _ e. unfold body. rewrite topic_instance_eq. cbn -[read_message].
    destruct (text_sample t) as [[]|]; [done|]. cbn -[read_message].
    destruct (is_coherent_message t); [|done]. cbn. unfold read_message.
    repeat case_match; done.
  - intros s t s' _ Hb. split; [|done]. intros r e. unfold after.
    assert (current_ok s') as Hc.
    { unfold body in Hb. rewrite topic_instance_eq in Hb. cbn -[read_message] in Hb.
      destruct (text_sample t) as [[topic color]|].
      - injection Hb as <-. unfold current_ok. cbn.
        rewrite count_sample_get, decide_True by done. eexists. split; [done|]. cbn.
        destruct (decide (previous_sample_color s = Some color)); [apply dset_ne|].
        apply dsetdefault_ne.
      - cbn -[read_message] in Hb. destruct (is_coherent_message t); cbn in Hb.
        + unfold read_message in Hb. repeat case_match; simplify_eq; done.
        + by injection Hb as <-. }
    destruct (is_first_ok s' Hc) as [b Hb']. rewrite Hb'. cbn -[exit_condition].
    unfold exit_condition. repeat case_match; done.
Qed.

Lemma large_data_no_raise text script : no_raise (LargeData.test_large_data text script).
Proof.
  apply gate_no_raise, (while_no_raise _ _ _ _ (λ _, True)); [done|done|].
  intros s t s' _ _. split; [|done]. intros r e. unfold LargeData.after.
  rewrite LargeData.search_bytes_eq. cbn.
  destruct (LargeData.last_byte (r_text r)); cbn; repeat case_match; done.
Qed.

Lemma durability_no_raise text script :
  no_raise (ReceiverChecks.test_durability_volatile text script) ∧
  no_raise (ReceiverChecks.test_durability_transient_local text script).
Proof.
  unfold ReceiverChecks.test_durability_volatile, ReceiverChecks.test_durability_transient_local.
  rewrite !with_basic_check_eq. case_decide as Hb; [|done].
  destruct (first_size_basic _ Hb) as [z ->]. done.
Qed.

Lemma run_check_no_raise f text script : no_raise (run_check f text script).
Proof.
  destruct f; cbn [run_check]; try apply coherent_no_raise; try apply large_data_no_raise;
    try apply (durability_no_raise text script); try by intros e.
  - intros e. by rewrite basic_check_total.
  - eapply (verdict_no_raise size_post); [by intros ? ? ? []|].
    apply verdict_spec_gate. intros Hb. destruct (size_spec text script Hb) as (f&Hf&H).
    by rewrite Hf.
  - eapply (verdict_no_raise color_post); [by intros ? ? ? []|].
    apply verdict_spec_gate. intros Hb. destruct (color_spec text script Hb) as (f&Hf&H).
    by rewrite Hf.
  - eapply (verdict_no_raise less_than_20_post); [by intros ? ? ? []|].
    apply verdict_spec_gate. intros _. apply less_than_20_spec.
  - eapply (verdict_no_raise (order_post Z.lt 2 false)); [by intros ? ? ? []|].
    apply verdict_spec_gate. intros _. apply order_loop_spec; auto with py. by apply Forall_true.
  - eapply (verdict_no_raise (order_post (λ a b, b = a + 1)%Z 1 false)); [by intros ? ? ? []|].
    apply verdict_spec_gate. intros _. apply order_loop_spec; auto with py. by apply Forall_true.
  - apply gate_no_raise. intros e. repeat case_match; done.
  - eapply (verdict_no_raise (TimeFilter.post script)); [by intros ? ? ? []|].
    apply verdict_spec_gate. intros _. apply TimeFilter.filter_loop_spec.
  - eapply (verdict_no_raise (going_away_post _)); [by intros ? ? ? []|].
    apply verdict_spec_gate. apply going_away_spec.
  - eapply (verdict_no_raise (going_away_post _)); [by intros ? ? ? []|].
    apply verdict_spec_gate. apply going_away_spec.
  - eapply (verdict_no_raise Lifespan.post); [by intros ? ? ? []|].
    apply verdict_spec_gate. intros _. apply Lifespan.lifespan_loop_spec.
  - apply gate_no_raise. intros e E.
    destruct (OrderedAccess.ordered_loop_spec text script) as (acc&t&en&_&_&_&_&H).
    rewrite E in H. destruct en; naive_solver.
Qed.

(** ** Termination *)

Lemma gate_not_waiting text o : o ≠ Waiting → with_basic_check text o ≠ Waiting.
Proof. intros H. rewrite with_basic_check_eq. by case_decide. Qed.

Lemma scan_ends {X G} search (upd : G → X → step G) on_timeout on_eof fin max g text script :
  (∀ g g', on_timeout g ≠ Go g') → (∃ r, r ∈ script ∧ r_index r = 1) →
  scan search upd on_timeout on_eof fin max g text script ≠ Waiting.
Proof.
  intros Hto (r&Hr&Hi). apply while_expect_ends. exists r. split; [done|].
  intros s s'. unfold scan_after. rewrite decide_True by done. unfold lift.
  destruct (on_timeout (s_glob s)) eqn:E; try done. by apply Hto in E.
Qed.

Lemma instance_loop_ends {A G} new (upd : G → A → Z → G * A + G) bad fin max ti g text script :
  ti ≠ 0 → (∃ r, r ∈ script ∧ r_index r = ti) →
  instance_loop new upd bad fin max ti g text script ≠ Waiting.
Proof.
  intros Hti (r&Hr&Hi). apply while_expect_ends. exists r. split; [done|].
  intros s s'. unfold InstanceChecks.after. rewrite decide_False by congruence.
  by rewrite decide_True.
Qed.

Lemma deadline_ends text script :
  (∃ r, r ∈ script ∧ r_index r = 1) →
  ReceiverChecks.test_deadline_missed text script ≠ Waiting.
Proof.
  intros (r&Hr&Hi). apply gate_not_waiting. destruct script as [|a [|b script]]; [set_solver| |].
  - apply list_elem_of_singleton in Hr as ->. rewrite Hi. done.
  - repeat case_decide; done.
Qed.

Lemma run_check_ends f text script :
  (∃ r, r ∈ script ∧ r_index r = timeout_index f) → run_check f text script ≠ Waiting.
Proof.
  intros Hr. destruct f; cbn [run_check timeout_index] in *; try done.
  - by rewrite basic_check_total.
  - apply gate_not_waiting. case_match; [|done]. case_match; [|done]. by apply scan_ends.
  - apply gate_not_waiting. case_match; [|done]. case_match; [|done]. by apply scan_ends.
  - apply gate_not_waiting. by apply scan_ends.
  - apply gate_not_waiting. by apply instance_loop_ends.
  - apply gate_not_waiting. by apply instance_loop_ends.
  - apply gate_not_waiting. by case_match.
  - apply gate_not_waiting. by case_match.
  - by apply deadline_ends.
  - apply gate_not_waiting. by apply instance_loop_ends.
  - apply gate_not_waiting. destruct Hr as (r&Hr&Hi). apply while_expect_ends.
    exists r. split; [done|]. intros s s'. unfold DisposalChecks.after. by rewrite Hi.
  - apply gate_not_waiting. destruct Hr as (r&Hr&Hi). apply while_expect_ends.
    exists r. split; [done|]. intros s s'. unfold DisposalChecks.after. by rewrite Hi.
  - apply gate_not_waiting. destruct Hr as (r&Hr&Hi). apply while_expect_ends.
    exists r. split; [done|]. intros s s'. unfold LargeData.after. by rewrite Hi.
  - apply gate_not_waiting. by apply instance_loop_ends.
  - apply gate_not_waiting. destruct Hr as (r&Hr&Hi). apply while_expect_ends.
    exists r. split; [done|]. intros s s'. unfold OrderedAccess.after. by rewrite Hi.
  - apply gate_not_waiting. destruct Hr as (r&Hr&Hi). apply while_expect_ends.
    exists r. split; [done|]. intros s s'. unfold CoherentSets.after. by rewrite Hi.
  - apply gate_not_waiting. destruct Hr as (r&Hr&Hi). apply while_expect_ends.
    exists r. split; [done|]. intros s s'. unfold CoherentSets.after. by rewrite Hi.
Qed.

Lemma run_check_returns f text script :
  (∃ r, r ∈ script ∧ r_index r = timeout_index f) → ∃ c, run_check f text script = Returned c.
Proof.
  intros Hr. pose proof (run_check_no_raise f text script) as H1.
  pose proof (run_check_ends f text script Hr) as H2.
  destruct (run_check f text script) as [c|e|]; [by exists c|by destruct (H1 e)|done].
Qed.

(** ** Properties *)

(** C6: every checking function returns a code, for every text and every sequence of
    pexpect answers that contains a timeout: no exception escapes, no loop goes on for
    ever, and even without a timeout no exception is raised.  (The numbers in the texts have
    at most the 4300 digits that [int] takes.) *)
Theorem check_functions_total f text script :
  no_raise (run_check f text script) ∧
  ((∃ r, r ∈ script ∧ r_index r = timeout_index f) →
   ∃ c, run_check f text script = Returned c).
Proof. split; [apply run_check_no_raise|apply run_check_returns]. Qed.

Lemma check_functions_total_witness :
  ∃ c, run_check ordered_access_w_instances "Square BLUE 001 001 [1]" [Reply 2 ""] = Returned c.
Proof.
  apply (check_functions_total ordered_access_w_instances "Square BLUE 001 001 [1]" [Reply 2 ""]).
  exists (Reply 2 ""). split; [left|reflexivity].
Defined.
