(* ===== verification/EntityProcess.v ===== *)
(** * The processes of a test (interoperability_report.py)

    [run_subscriber_shape_main] and [run_publisher_shape_main] follow the output of
    one shape application each, from the creation of its topic on, and write a code
    into a shared list (how they end is in ProcessEnd).  As in CheckLoop, the answers of
    pexpect are a script. *)

From S2P Require Import Prelude PyStr PyDict Regex Utilities CheckLoop ShapeLine InstanceChecks.
From S2P Require Import CheckFunctions.
From stdpp Require Import options.

Definition MAX_SAMPLES_SAVED : nat := 500.

(** What a process has done when the code-producing part of it is over: it has
    written a code, or none (pexpect gave an index that no branch treats), or an
    exception has ended it, or it still waits. *)
Inductive produced :=
| Wrote (c : ReturnCode)
| NotWritten
| Crashed (e : exn)
| Blocked.

#[export] Instance produced_eq_dec : EqDecision produced.
Proof. solve_decision. Defined.

Definition produced_of (o : outcome) : produced :=
  match o with Returned c => Wrote c | Raised e => Crashed e | Waiting => Blocked end.

(** The code for an index, where the branch stores one and goes to the end. *)
Definition stored (codes : list (nat * ReturnCode)) (i : nat) : produced :=
  match filter (λ p, p.1 = i) codes with
  | [] => NotWritten
  | p :: _ => Wrote p.2
  end.

(** [child.expect(patterns, timeout)]: index 0 goes on to the next step. *)
Definition expect_step (codes : list (nat * ReturnCode)) (script : list reply)
    (next : string → list reply → produced) : produced :=
  match script with
  | [] => Blocked
  | r :: script' =>
      if decide (r_index r = 0) then next (r_text r) script' else stored codes (r_index r)
  end.

(** ** The subscriber *)

Definition topic_codes_sub : list (nat * ReturnCode) :=
  [(2, TOPIC_NOT_CREATED); (3, TOPIC_NOT_CREATED); (1, SUB_UNSUPPORTED_FEATURE)].
Definition reader_codes : list (nat * ReturnCode) :=
  [(3, READER_NOT_CREATED); (4, READER_NOT_CREATED); (1, FILTER_NOT_CREATED);
   (2, SUB_UNSUPPORTED_FEATURE)].
Definition data_codes : list (nat * ReturnCode) :=
  [(1, INCOMPATIBLE_QOS); (2, DEADLINE_MISSED); (4, DATA_NOT_RECEIVED); (5, DATA_NOT_RECEIVED);
   (3, SUB_UNSUPPORTED_FEATURE)].

Definition run_subscriber_shape_main (check : check_function) (script : list reply) : produced :=
  expect_step topic_codes_sub script (λ _ script,
  expect_step reader_codes script (λ _ script,
  expect_step data_codes script (λ text script,
    produced_of (run_check check text script)))).

(** ** The publisher *)

Definition topic_codes_pub : list (nat * ReturnCode) :=
  [(2, TOPIC_NOT_CREATED); (3, TOPIC_NOT_CREATED); (1, PUB_UNSUPPORTED_FEATURE)].
Definition writer_codes : list (nat * ReturnCode) :=
  [(2, WRITER_NOT_CREATED); (3, WRITER_NOT_CREATED); (1, PUB_UNSUPPORTED_FEATURE)].
Definition match_codes : list (nat * ReturnCode) :=
  [(3, READER_NOT_MATCHED); (4, READER_NOT_MATCHED); (1, INCOMPATIBLE_QOS);
   (2, PUB_UNSUPPORTED_FEATURE)].
Definition send_codes : list (nat * ReturnCode) :=
  [(1, DEADLINE_MISSED); (3, DATA_NOT_SENT); (4, DATA_NOT_SENT); (2, PUB_UNSUPPORTED_FEATURE)].

(** [[0-9]+ [0-9]+ \[[0-9]+\]] *)
Definition saved_re : regex :=
  (RPlus cdigit ⊙ RLit " " ⊙ RPlus cdigit ⊙ RLit " [" ⊙ RPlus cdigit ⊙ RLit "]")%re.

(** The two queues of a publisher and its code. *)
Record saved := Saved {
  sv_code : produced;
  samples_sent : list string;
  last_sample_saved : list string
}.

(** The loop over [range(0, MAX_SAMPLES_SAVED)]: [n] iterations are left; [code] is
    what [produced_code] holds.  The result says whether [last_sample_saved.put] is
    reached. *)
Fixpoint save_samples (n : nat) (code : ReturnCode) (sent : list string) (last : string)
    (text : string) (script : list reply) : saved :=
  match n with
  | 0 => Saved (Wrote code) sent [last]
  | S n' =>
      match re_search saved_re text with
      | None => Saved (Wrote DATA_NOT_CORRECT) sent [last]
      | Some m =>
          let last := m_text m in
          let sent := sent ++ [last] in
          match script with
          | [] => Saved Blocked sent []
          | r :: script' =>
              match stored send_codes (r_index r) with
              | Wrote c => Saved (Wrote c) sent [last]
              | _ => save_samples n' code sent last (r_text r) script'
              end
          end
      end
  end.

(** [-w]: the samples sent are saved. *)
Definition saves_samples (parameters : string) : bool :=
  contains "-w " parameters || endswith "-w" parameters.

Definition run_publisher_shape_main (parameters : string) (script : list reply) : saved :=
  let nothing (p : produced) := Saved p [] [] in
  match script with
  | [] => nothing Blocked
  | r1 :: script1 =>
      if decide (r_index r1 ≠ 0) then nothing (stored topic_codes_pub (r_index r1)) else
      match script1 with
      | [] => nothing Blocked
      | r2 :: script2 =>
          if decide (r_index r2 ≠ 0) then nothing (stored writer_codes (r_index r2)) else
          match script2 with
          | [] => nothing Blocked
          | r3 :: script3 =>
              if decide (r_index r3 ≠ 0) then nothing (stored match_codes (r_index r3)) else
              if saves_samples parameters then
                match script3 with
                | [] => nothing Blocked
                | r4 :: script4 =>
                    if decide (r_index r4 ≠ 0) then nothing (stored send_codes (r_index r4))
                    else save_samples MAX_SAMPLES_SAVED OK [] "" (r_text r4) script4
                end
              else nothing (Wrote OK)
          end
      end
  end.

(** ** What the processes guarantee *)

(** pexpect's contract for a pattern list of [n] entries. *)
Definition index_below (n : nat) (r : reply) : Prop := r_index r < n.

Lemma stored_total codes i :
  i ∈ codes.*1 → ∃ c, stored codes i = Wrote c ∧ c ∈ codes.*2.
Proof.
  intros H. unfold stored. destruct (filter _ codes) as [|p l] eqn:E.
  - exfalso. apply list_elem_of_fmap in H as (p&->&Hp).
    assert (p ∈ filter (λ q : nat * ReturnCode, q.1 = p.1) codes) as Hin
      by by apply list_elem_of_filter.
    rewrite E in Hin. by apply elem_of_nil in Hin.
  - exists p.2. split; [done|].
    assert (p ∈ filter (λ q : nat * ReturnCode, q.1 = i) codes) as Hin by (rewrite E; by left).
    apply list_elem_of_filter in Hin as [_ Hin]. apply list_elem_of_fmap. by exists p.
Qed.

(** The samples saved are those found in the texts, in order. *)
Definition saved_in (t : string) : option string := m_text <$> re_search saved_re t.

(** The loop keeps what it reads: the texts read are a prefix [h] of the texts, each
    with a sample but for the last one when the code says so. *)
Lemma save_samples_spec n code sent last text script :
  let s := save_samples n code sent last text script in
  ∃ h, h `prefix_of` text :: (r_text <$> script) ∧ length h ≤ n ∧
    Forall (λ t, is_Some (saved_in t)) h ∧
    samples_sent s = sent ++ omap saved_in h ∧
    match sv_code s with
    | Wrote c => last_sample_saved s = [default last (list.last (omap saved_in h))] ∧
        (length h = n ∧ c = code ∨
         (∃ t, (text :: (r_text <$> script)) !! length h = Some t ∧ saved_in t = None ∧
               c = DATA_NOT_CORRECT ∧ length h < n) ∨
         (∃ r, script !! (length h - 1) = Some r ∧ h ≠ [] ∧ stored send_codes (r_index r) = Wrote c))
    | Blocked => last_sample_saved s = [] ∧ h = text :: (r_text <$> script)
    | _ => False
    end.
Proof.
  cbn zeta. revert sent last text script.
  induction n as [|n IH]; intros sent last text script; cbn.
  - exists []. cbn. rewrite app_nil_r. split_and!; auto. apply prefix_nil.
  - destruct (re_search saved_re text) as [m|] eqn:Em.
    2: { exists []. cbn. rewrite app_nil_r. split_and!; try done; [apply prefix_nil|lia|].
         right. left. exists text. unfold saved_in. rewrite Em. split_and!; try done. lia. }
    assert (saved_in text = Some (m_text m)) as Hsaved by (unfold saved_in; by rewrite Em).
    assert (∀ l, omap saved_in (text :: l) = m_text m :: omap saved_in l) as Hcons
      by (intros l; cbn; by rewrite Hsaved).
    destruct script as [|r script].
    { exists [text]. rewrite Hcons. cbn. split_and!; try done; try lia; repeat constructor. by rewrite Hsaved. }
    assert (∀ c, stored send_codes (r_index r) = Wrote c →
      ∃ h, h `prefix_of` text :: (r_text <$> r :: script) ∧ length h ≤ S n ∧
      Forall (λ t, is_Some (saved_in t)) h ∧ sent ++ [m_text m] = sent ++ omap saved_in h ∧
      [m_text m] = [default last (list.last (omap saved_in h))] ∧
      (length h = S n ∧ c = code ∨
         (∃ t, (text :: (r_text <$> r :: script)) !! length h = Some t ∧ saved_in t = None ∧
               c = DATA_NOT_CORRECT ∧ length h < S n) ∨
         (∃ r0, (r :: script) !! (length h - 1) = Some r0 ∧ h ≠ [] ∧
                stored send_codes (r_index r0) = Wrote c))) as Hstop.
    { intros c Hc. exists [text]. rewrite Hcons. cbn. split_and!; try done.
      - apply prefix_cons, prefix_nil.
      - lia.
      - repeat constructor. by rewrite Hsaved.
      - right. right. exists r. split_and!; done. }
    destruct (stored send_codes (r_index r)) as [c| | |] eqn:Es; [by apply Hstop| | |].
    all: destruct (IH (sent ++ [m_text m]) (m_text m) (r_text r) script) as (h&Hp&Hl&Hall&Hs&Hc).
    all: exists (text :: h); rewrite Hcons, Hs, <- app_assoc; cbn [length].
    all: split_and!; [by apply prefix_cons|lia|by constructor; [rewrite Hsaved|]|done|].
    all: destruct (sv_code _) as [c| | |]; [|done|done|destruct Hc as [? ->]; by split].
    all: destruct Hc as [-> Hc]; split;
      [destruct (omap saved_in h) as [|x k] eqn:Ek; [done|];
       destruct (last_is_Some (x :: k)) as [_ [w Hw]]; [done|];
       cbn in *; by rewrite Hw|].
    all: destruct Hc as [[Hn ->]|[(t&Ht&?&->&?)|(r0&Hr0&Hne&Hw)]];
      [left; split; [lia|done]|right; left; exists t; split_and!; [done..|lia]|].
    all: right; right; exists r0; split_and!; [|done|done];
      destruct h as [|x h]; [done|]; cbn in *; by rewrite Nat.sub_0_r in *.
Qed.

(** A step of the subscriber: it writes one of the codes of the step or goes on. *)
Lemma expect_step_total n codes r script next :
  (∀ i, i < n → i ≠ 0 → i ∈ codes.*1) → OK ∉ codes.*2 → index_below n r →
  (r_index r = 0 ∧ expect_step codes (r :: script) next = next (r_text r) script) ∨
  (r_index r ≠ 0 ∧ ∃ c, expect_step codes (r :: script) next = Wrote c ∧ c ≠ OK).
Proof.
  intros Hcodes HOK Hr. cbn. case_decide; [by left|]. right. split; [done|].
  destruct (stored_total codes (r_index r)) as (c&->&Hc); [auto|].
  exists c. split; [done|]. by intros ->.
Qed.

Lemma topic_codes_sub_cover i : i < 4 → i ≠ 0 → i ∈ topic_codes_sub.*1.
Proof. intros ??. assert (i = 1 ∨ i = 2 ∨ i = 3) by lia. cbn. set_solver. Qed.
Lemma reader_codes_cover i : i < 5 → i ≠ 0 → i ∈ reader_codes.*1.
Proof. intros ??. assert (i = 1 ∨ i = 2 ∨ i = 3 ∨ i = 4) by lia. cbn. set_solver. Qed.
Lemma data_codes_cover i : i < 6 → i ≠ 0 → i ∈ data_codes.*1.
Proof. intros ??. assert (i = 1 ∨ i = 2 ∨ i = 3 ∨ i = 4 ∨ i = 5) by lia. cbn. set_solver. Qed.
Lemma topic_codes_pub_cover i : i < 4 → i ≠ 0 → i ∈ topic_codes_pub.*1.
Proof. intros ??. assert (i = 1 ∨ i = 2 ∨ i = 3) by lia. cbn. set_solver. Qed.
Lemma writer_codes_cover i : i < 4 → i ≠ 0 → i ∈ writer_codes.*1.
Proof. intros ??. assert (i = 1 ∨ i = 2 ∨ i = 3) by lia. cbn. set_solver. Qed.
Lemma match_codes_cover i : i < 5 → i ≠ 0 → i ∈ match_codes.*1.
Proof. intros ??. assert (i = 1 ∨ i = 2 ∨ i = 3 ∨ i = 4) by lia. cbn. set_solver. Qed.
Lemma send_codes_cover i : i < 5 → i ≠ 0 → i ∈ send_codes.*1.
Proof. intros ??. assert (i = 1 ∨ i = 2 ∨ i = 3 ∨ i = 4) by lia. cbn. set_solver. Qed.

Lemma stored_not_OK codes i c : OK ∉ codes.*2 → stored codes i = Wrote c → c ≠ OK.
Proof.
  unfold stored. destruct (filter _ codes) as [|p l] eqn:E; [done|]. intros H [= <-] Hp.
  apply H. rewrite <- Hp. apply list_elem_of_fmap. exists p. split; [done|].
  assert (p ∈ filter (λ q : nat * ReturnCode, q.1 = i) codes) as Hin by (rewrite E; by left).
  by apply list_elem_of_filter in Hin as [_ ?].
Qed.
Lemma stored_zero codes : 0 ∉ codes.*1 → stored codes 0 = NotWritten.
Proof.
  intros H. unfold stored. destruct (filter _ codes) as [|p l] eqn:E; [done|]. exfalso. apply H.
  assert (p ∈ filter (λ q : nat * ReturnCode, q.1 = 0) codes) as Hin by (rewrite E; by left).
  apply list_elem_of_filter in Hin as [H0 ?]. apply list_elem_of_fmap. by exists p.
Qed.

(** Everything the publisher may save comes from [save_samples]. *)
Lemma publisher_cases parameters script :
  let s := run_publisher_shape_main parameters script in
  (samples_sent s = [] ∧ last_sample_saved s = [] ∧ (sv_code s = Wrote OK → saves_samples parameters = false)) ∨
  ∃ text script', s = save_samples MAX_SAMPLES_SAVED OK [] "" text script' ∧
    saves_samples parameters = true.
Proof.
  cbn zeta. unfold run_publisher_shape_main.
  assert (∀ codes i, OK ∉ codes.*2 → stored codes i = Wrote OK → False) as Hno
    by (intros codes i H E; by apply (stored_not_OK codes i OK) in E).
  assert ((OK ∉ topic_codes_pub.*2) ∧ (OK ∉ writer_codes.*2) ∧ (OK ∉ match_codes.*2) ∧
          (OK ∉ send_codes.*2)) as (H1&H2&H3&H4) by (split_and!; compute_done).
  destruct script as [|r1 script1]; [by left|].
  destruct (decide (r_index r1 ≠ 0)); [left; split_and!; [done..|intros E; by destruct (Hno _ _ H1 E)]|].
  destruct script1 as [|r2 script2]; [by left|].
  destruct (decide (r_index r2 ≠ 0)); [left; split_and!; [done..|intros E; by destruct (Hno _ _ H2 E)]|].
  destruct script2 as [|r3 script3]; [by left|].
  destruct (decide (r_index r3 ≠ 0)); [left; split_and!; [done..|intros E; by destruct (Hno _ _ H3 E)]|].
  destruct (saves_samples parameters); [|by left].
  destruct script3 as [|r4 script4]; [by left|].
  destruct (decide (r_index r4 ≠ 0)); [left; split_and!; [done..|intros E; by destruct (Hno _ _ H4 E)]|].
  right. by exists (r_text r4), script4.
Qed.

(** The subscriber writes a code when its questions are answered. *)
Lemma subscriber_code check r1 r2 r3 script :
  index_below 4 r1 → index_below 5 r2 → index_below 6 r3 →
  (∃ r, r ∈ script ∧ r_index r = timeout_index check) →
  ∃ c, run_subscriber_shape_main check (r1 :: r2 :: r3 :: script) = Wrote c ∧
       (c = OK → r_index r1 = 0 ∧ r_index r2 = 0 ∧ r_index r3 = 0 ∧
                 run_check check (r_text r3) script = Returned OK).
Proof.
  intros H1 H2 H3 Ht. unfold run_subscriber_shape_main.
  destruct (expect_step_total 4 topic_codes_sub r1 (r2 :: r3 :: script) (λ _ script,
    expect_step reader_codes script (λ _ script, expect_step data_codes script (λ text script,
    produced_of (run_check check text script)))) topic_codes_sub_cover) as [[E1 ->]|(_&c&->&?)];
    [compute_done|done| |by exists c].
  destruct (expect_step_total 5 reader_codes r2 (r3 :: script) (λ _ script,
    expect_step data_codes script (λ text script,
    produced_of (run_check check text script))) reader_codes_cover) as [[E2 ->]|(_&c&->&?)];
    [compute_done|done| |by exists c].
  destruct (expect_step_total 6 data_codes r3 script (λ text script,
    produced_of (run_check check text script)) data_codes_cover) as [[E3 ->]|(_&c&->&?)];
    [compute_done|done| |by exists c].
  destruct (run_check_returns check (r_text r3) script Ht) as [c Hc].
  exists c. rewrite Hc. split; [done|]. by intros ->.
Qed.

(** So does the publisher: at most 501 answers to the questions after the first three. *)
Lemma publisher_code parameters r1 r2 r3 script :
  index_below 4 r1 → index_below 4 r2 → index_below 5 r3 → Forall (index_below 5) script →
  MAX_SAMPLES_SAVED < length script →
  ∃ c, sv_code (run_publisher_shape_main parameters (r1 :: r2 :: r3 :: script)) = Wrote c.
Proof.
  intros H1 H2 H3 Hs Hl. unfold run_publisher_shape_main.
  assert (∀ n codes (r : reply), (∀ i, i < n → i ≠ 0 → i ∈ codes.*1) → index_below n r →
    r_index r ≠ 0 → ∃ c, stored codes (r_index r) = Wrote c) as Hst.
  { intros n codes r Hc Hr Hne. destruct (stored_total codes (r_index r)) as (c&->&_); [auto|by exists c]. }
  destruct (decide (r_index r1 ≠ 0)); [by apply (Hst 4 _ r1 topic_codes_pub_cover)|].
  destruct (decide (r_index r2 ≠ 0)); [by apply (Hst 4 _ r2 writer_codes_cover)|].
  destruct (decide (r_index r3 ≠ 0)); [by apply (Hst 5 _ r3 match_codes_cover)|].
  destruct (saves_samples parameters); [|by exists OK].
  destruct script as [|r4 script]; [cbn in Hl; lia|].
  apply Forall_cons in Hs as [H4 _].
  destruct (decide (r_index r4 ≠ 0)); [by apply (Hst 5 _ r4 send_codes_cover)|].
  destruct (save_samples_spec MAX_SAMPLES_SAVED OK [] "" (r_text r4) script) as (h&_&Hh&_&_&Hc).
  destruct (sv_code _) as [c| | |]; [by exists c|done|done|].
  destruct Hc as [_ ->]. cbn in Hh, Hl. rewrite length_fmap in Hh. lia.
Qed.

(** ** Properties *)

(** C14: the subscriber process always stores a code: with pexpect's indices in the
    range of the three pattern lists and a timeout among the answers to the checking
    function, some code is written -- no exception, no entry left as it was.  The code
    is [OK] only if the topic, the reader and a first sample were seen and the checking
    function says [OK] of what follows. *)
Theorem subscriber_writes check r1 r2 r3 script :
  index_below 4 r1 → index_below 5 r2 → index_below 6 r3 →
  (∃ r, r ∈ script ∧ r_index r = timeout_index check) →
  ∃ c, run_subscriber_shape_main check (r1 :: r2 :: r3 :: script) = Wrote c ∧
       (c = OK → r_index r1 = 0 ∧ r_index r2 = 0 ∧ r_index r3 = 0 ∧
                 run_check check (r_text r3) script = Returned OK).
Proof. apply subscriber_code. Qed.

Lemma subscriber_writes_witness :
  ∃ c, run_subscriber_shape_main basic_check
         [Reply 0 ""; Reply 0 ""; Reply 0 "Square BLUE 001 001 [7]"; Reply 1 ""] = Wrote c ∧
       (c = OK → 0 = 0 ∧ 0 = 0 ∧ 0 = 0 ∧
                 run_check basic_check "Square BLUE 001 001 [7]" [Reply 1 ""] = Returned OK).
Proof.
  apply (subscriber_writes basic_check (Reply 0 "") (Reply 0 "") (Reply 0 "Square BLUE 001 001 [7]")
    [Reply 1 ""]); try (unfold index_below; cbn; lia).
  exists (Reply 1 ""). split; [left|reflexivity].
Defined.

(** C15: what a publisher hands to the subscriber: at most 500 samples; the second
    queue holds the last of them, or the empty string, and holds it once or not at all;
    and when a publisher that saves samples ends with [OK], exactly 500 were saved. *)
Theorem publisher_saves parameters script :
  let s := run_publisher_shape_main parameters script in
  length (samples_sent s) ≤ MAX_SAMPLES_SAVED ∧
  (last_sample_saved s = [] ∨ last_sample_saved s = [default "" (last (samples_sent s))]) ∧
  (sv_code s = Wrote OK → saves_samples parameters = true →
   length (samples_sent s) = MAX_SAMPLES_SAVED).
Proof.
  cbn zeta. destruct (publisher_cases parameters script) as [(->&->&H)|(text&script'&->&Hw)].
  { split_and!; [unfold MAX_SAMPLES_SAVED; cbn; lia|by left|]. intros E%H. congruence. }
  destruct (save_samples_spec MAX_SAMPLES_SAVED OK [] "" text script') as (h&_&Hl&Hall&Hs&Hc).
  assert (length (omap saved_in h) = length h) as Hlen.
  { clear -Hall. induction Hall as [|t h [m Hm] _ IH]; [done|]. cbn. rewrite Hm. cbn. by rewrite IH. }
  rewrite Hs. cbn [app]. rewrite Hlen. split; [done|].
  destruct (sv_code _) as [c| | |]; [|done|done|split; [left; by destruct Hc|done]].
  destruct Hc as [Hlast Hc]. split; [by right|]. intros [= ->] _.
  destruct Hc as [[? _]|[(t&_&_&?&_)|(r&_&_&Hst)]]; [done|done|].
  exfalso. revert Hst. intros E. apply (stored_not_OK send_codes (r_index r) OK); [compute_done|done|done].
Qed.
