(* ===== verification/RunTest.v ===== *)
(** * One test (interoperability_report.py, run_test)

    What [run_test] does with the codes, outputs and parameters of the applications
    of a test: it tells publishers from subscribers, compares the codes with the
    expected ones, prints, and stores a result in the test case.  The processes
    themselves are in EntityProcess.v, the way they end together in Handshake.v. *)

From S2P Require Import Prelude PyStr PyDict Regex Utilities.
From stdpp Require Import options.
Local Open Scope string_scope.

(** ** Publishers and subscribers *)

Inductive entity := Publisher | Subscriber.

#[export] Instance entity_eq_dec : EqDecision entity.
Proof. solve_decision. Defined.

(** [-P] first, then [-S]; anything else is an error. *)
Definition classify (element : string) : result entity :=
  if contains "-P " element || endswith "-P" element then Ok Publisher
  else if contains "-S " element || endswith "-S" element then Ok Subscriber
  else Raise RuntimeError.

(** The names of the entities, numbered per kind. *)
Fixpoint entity_types (publisher_number subscriber_number : nat) (parameters : list string) :
    result (list string) :=
  match parameters with
  | [] => Ok []
  | element :: parameters' =>
      kind ← classify element;
      match kind with
      | Publisher =>
          names ← entity_types (S publisher_number) subscriber_number parameters';
          Ok (("Publisher_" +:+ str_of_nat (S publisher_number)) :: names)
      | Subscriber =>
          names ← entity_types publisher_number (S subscriber_number) parameters';
          Ok (("Subscriber_" +:+ str_of_nat (S subscriber_number)) :: names)
      end
  end.

(** ** Codes *)

(** An entry of [return_codes], [manager.list(range(n))]: its index until the
    process writes a code. *)
Inductive cell := Unset (i : nat) | Code (c : ReturnCode).

#[export] Instance cell_eq_dec : EqDecision cell.
Proof. solve_decision. Defined.

(** [rc.name]; an [int] has no such attribute. *)
Definition cell_name (c : cell) : result string :=
  match c with Code c => Ok (code_name c) | Unset _ => Raise AttributeError end.

Definition unsupported (c : cell) : bool :=
  bool_decide (c = Code PUB_UNSUPPORTED_FEATURE ∨ c = Code SUB_UNSUPPORTED_FEATURE).

(** ** Messages *)

Inductive test_result := Passed | Skipped (message : string) | Failure (message : string).

(** What is known of one entity after the test. *)
Record observed := Observed {
  o_type : string;
  o_expected : ReturnCode;
  o_code : cell;
  o_output : string
}.

Definition etx : string := String (ascii_of_nat 3) "".

Definition log_message (message : string) (verbosity : bool) : list string :=
  if verbosity then [message] else [].

(** [output.replace('\n', '<br>').replace(chr(3), '<br>')] *)
Definition edited (output : string) : string := replace etx "<br>" (replace newline "<br>" output).

(** The first line, without colors and outer blanks, that has one of the keywords. *)
Definition find_line (keywords : list string) (output : string) : option string :=
  head (filter (λ line, existsb (λ k, contains k (lower line)) keywords = true)
          ((λ line, strip (remove_ansi_colors line)) <$> splitlines output)).

Definition table_row (o : observed) : result string :=
  produced ← cell_name (o_code o);
  Ok ("<tr> <th> " +:+ o_type o +:+ " </th> <th> " +:+ code_name (o_expected o) +:+
      " </th> <th> " +:+ produced +:+ " </th> </tr>").

Definition table_head : string :=
  "<table> <tr> <th/> <th> Expected Code </th> <th> Code Produced </th> </tr> ".

(** [for ...: rows.append(f(o))] for code that may raise. *)
Definition for_each {A B} (f : A → result B) (l : list A) : result (list B) :=
  mfold (λ acc a, b ← f a; Ok (acc ++ [b])%list) [] l.

Definition message (os : list observed) : result string :=
  rows ← for_each table_row os;
  Ok (remove_ansi_colors
        (table_head +:+ join "" rows +:+ "</table>" +:+
         join "" ((λ o, "<strong> Information " +:+ o_type o +:+ " </strong><br> " +:+
                        edited (o_output o) +:+ " <br>") <$> os))).

(** The line printed for an entity, and what [log_message] adds. *)
Definition entity_lines (verbosity : bool) (o : observed) : result (list string) :=
  produced ← cell_name (o_code o);
  Ok ((o_type o +:+ " expected code: " +:+ code_name (o_expected o) +:+ "; Code found: " +:+ produced)
      :: log_message (newline +:+ "Information about " +:+ o_type o +:+ ":" +:+ newline +:+ " " +:+
                      o_output o +:+ " ") verbosity).

Definition unsupported_reason (o : observed) : result string :=
  match find_line ["not supported"] (o_output o) with
  | Some line => Ok (o_type o +:+ ": " +:+ line)
  | None => name ← cell_name (o_code o); Ok (o_type o +:+ ": " +:+ name)
  end.

Definition failure_reason (o : observed) : result string :=
  name ← cell_name (o_code o);
  Ok (o_type o +:+ ": got " +:+ name +:+ ", expected " +:+ code_name (o_expected o)).

Definition wrong (o : observed) : Prop := o_code o ≠ Code (o_expected o).
#[export] Instance wrong_dec o : Decision (wrong o).
Proof. unfold wrong. apply _. Defined.

Definition failure_lines (verbosity : bool) (o : observed) : result (list string) :=
  lines ← entity_lines verbosity o;
  Ok (lines ++
      (if decide (wrong o) then
         match find_line ["failed to"; "error allocating"; "[error]"; "error:"] (o_output o) with
         | Some line => ["  -> Reason from " +:+ o_type o +:+ ": " +:+ line]
         | None => []
         end
       else []))%list.

(** The part of [run_test] after the processes are joined: the lines printed and the
    result stored in the test case. *)
Definition conclude (name : string) (verbosity : bool) (os : list observed) :
    result (list string * test_result) :=
  if decide (Forall (λ o, ¬ wrong o) os) then Ok ([name +:+ " : OK"], Passed)
  else if existsb (λ o, unsupported (o_code o)) os then
    reasons ← for_each unsupported_reason (filter (λ o, unsupported (o_code o) = true) os);
    let reason_str :=
      match reasons with
      | [] => "Feature not supported by DDS vendor"
      | _ => join "; " reasons
      end in
    lines ← for_each (entity_lines verbosity) os;
    msg ← message os;
    Ok ((name +:+ " : UNSUPPORTED (" +:+ reason_str +:+ ")") :: concat lines, Skipped msg)
  else
    reasons ← for_each failure_reason (filter wrong os);
    lines ← for_each (failure_lines verbosity) os;
    msg ← message os;
    Ok ((name +:+ " : FAILED (" +:+ join "; " reasons +:+ ")") :: concat lines, Failure msg).

(** Indexing [expected_codes[i]], [return_codes[i]] and the outputs for every [i]. *)
Fixpoint observe (types : list string) (expected : list ReturnCode) (codes : list cell)
    (outputs : list string) : result (list observed) :=
  match types with
  | [] => Ok []
  | t :: types' =>
      match expected, codes, outputs with
      | e :: expected', c :: codes', out :: outputs' =>
          os ← observe types' expected' codes' outputs'; Ok (Observed t e c out :: os)
      | _, _, _ => Raise IndexError
      end
  end.

(** [run_test], given what the processes leave behind: [codes], the shared list when
    all processes are joined, and [outputs], what the applications printed.  The lines are
    those printed from the comparison of the codes on; with [verbosity] two more come before
    them, which are left out: the parameters of the test, with the names of the executables
    and the timeout, before the processes start, and that the outputs are read. *)
Definition run_test (name : string) (parameters : list string) (expected_codes : list ReturnCode)
    (verbosity : bool) (codes : list cell) (outputs : list string) :
    result (list string * test_result) :=
  types ← entity_types 0 0 parameters;
  os ← observe types expected_codes codes outputs;
  conclude name verbosity os.

(** ** Lemmas *)

Lemma for_each_acc {A B} (f : A → result B) acc l :
  mfold (λ acc a, b ← f a; Ok (acc ++ [b])%list) acc l = (bs ← for_each f l; Ok (acc ++ bs)%list).
Proof.
  unfold for_each. revert acc.
  assert (∀ k acc, mfold (λ acc a, b ← f a; Ok (acc ++ [b])%list) (acc ++ k)%list l =
            (bs ← mfold (λ acc a, b ← f a; Ok (acc ++ [b])%list) k l; Ok (acc ++ bs)%list)) as H.
  { induction l as [|a l IH]; intros k acc; cbn; [done|].
    destruct (f a); cbn; [|done]. by rewrite <- app_assoc, IH. }
  intros acc. rewrite <- (app_nil_r acc) at 1. apply H.
Qed.

Lemma for_each_cons {A B} (f : A → result B) a l :
  for_each f (a :: l) = (b ← f a; bs ← for_each f l; Ok (b :: bs)).
Proof.
  unfold for_each at 1. cbn. destruct (f a); [|done]. cbn. rewrite for_each_acc. done.
Qed.

(** The loop succeeds when every call does, and raises when one raises [e] and no
    other exception is possible. *)
Lemma for_each_total {A B} (f : A → result B) l :
  (∀ a, a ∈ l → is_Ok (f a)) → is_Ok (for_each f l).
Proof.
  induction l as [|a l IH]; intros H; [by eexists|]. rewrite for_each_cons.
  destruct (H a) as [b ->]; [by left|]. destruct IH as [bs ->]; [set_solver|]. by eexists.
Qed.
Lemma for_each_raise {A B} (f : A → result B) l e a :
  (∀ a e', f a = Raise e' → e' = e) → a ∈ l → f a = Raise e → for_each f l = Raise e.
Proof.
  intros He Ha Hf. induction l as [|a' l IH]; [set_solver|]. rewrite for_each_cons.
  destruct (f a') as [b|e'] eqn:E; cbn; [|by rewrite (He _ _ E)].
  apply elem_of_cons in Ha as [->|Ha]; [congruence|]. by rewrite (IH Ha).
Qed.

(** Every entity wrote a code. *)
Definition all_written (os : list observed) : Prop := Forall (λ o, ∃ c, o_code o = Code c) os.

Lemma cell_name_raise c e : cell_name c = Raise e → e = AttributeError.
Proof. destruct c; [|done]. by intros [= <-]. Qed.

Lemma written_code os o : all_written os → o ∈ os → ∃ c, o_code o = Code c.
Proof. unfold all_written. rewrite Forall_forall. auto. Qed.

(** Every call of a loop over written codes succeeds. *)
Ltac written H E :=
  let x := fresh "x" in let Hx := fresh "Hx" in let c := fresh "c" in
  apply for_each_total; intros x Hx;
  destruct (written_code _ x H) as [c E];
  [first [exact Hx | apply list_elem_of_filter in Hx as [_ Hx]; exact Hx]|].

Lemma message_total os : all_written os → is_Ok (message os).
Proof.
  intros H. assert (is_Ok (for_each table_row os)) as [rows Hr].
  { written H E. unfold table_row. rewrite E. by eexists. }
  unfold message. rewrite Hr. by eexists.
Qed.

(** With all codes written, the conclusion is reached, and it is: passed if all codes
    are the expected ones, else skipped if some application reported an unsupported
    feature, else failed. *)
Lemma conclude_total name verbosity os :
  all_written os →
  ∃ lines r, conclude name verbosity os = Ok (lines, r) ∧
    match r with
    | Passed => Forall (λ o, o_code o = Code (o_expected o)) os
    | Skipped msg => Exists wrong os ∧ Exists (λ o, unsupported (o_code o) = true) os ∧
                     message os = Ok msg
    | Failure msg => Exists wrong os ∧ Forall (λ o, unsupported (o_code o) = false) os ∧
                     message os = Ok msg
    end.
Proof.
  intros H. unfold conclude. destruct (message_total os H) as [msg Hmsg]. rewrite Hmsg.
  case_decide as Hw.
  { do 2 eexists. split; [done|]. cbn. eapply Forall_impl; [exact Hw|].
    intros o Ho. by apply dec_stable. }
  assert (Exists wrong os) as Hex.
  { apply not_Forall_Exists in Hw; [|apply _]. eapply Exists_impl; [exact Hw|].
    intros o Ho. by apply dec_stable. }
  destruct (existsb _ os) eqn:Hu.
  - apply existsb_exists in Hu as (o&Ho&Hu). apply list_elem_of_In in Ho.
    assert (is_Ok (for_each unsupported_reason (filter (λ o, unsupported (o_code o) = true) os)))
      as [reasons ->].
    { written H E. unfold unsupported_reason. case_match; [by eexists|]. rewrite E. by eexists. }
    assert (is_Ok (for_each (entity_lines verbosity) os)) as [lines ->].
    { written H E. unfold entity_lines. rewrite E. by eexists. }
    do 2 eexists. split; [done|]. cbn. split_and!; [done| |done].
    apply Exists_exists. eauto.
  - assert (is_Ok (for_each failure_reason (filter wrong os))) as [reasons ->].
    { written H E. unfold failure_reason. rewrite E. by eexists. }
    assert (is_Ok (for_each (failure_lines verbosity) os)) as [lines ->].
    { written H E. unfold failure_lines, entity_lines. rewrite E. by eexists. }
    do 2 eexists. split; [done|]. cbn. split_and!; [done| |done].
    apply Forall_forall. intros o Ho. apply not_true_iff_false. intros Hc.
    apply not_true_iff_false in Hu. apply Hu, existsb_exists. exists o.
    split; [by apply list_elem_of_In|done].
Qed.

(** A code that was never written ends the report with an AttributeError. *)
Lemma conclude_unset name verbosity os o i :
  o ∈ os → o_code o = Unset i → conclude name verbosity os = Raise AttributeError.
Proof.
  intros Ho Hi. unfold conclude.
  assert (wrong o) as Hw by (unfold wrong; by rewrite Hi).
  rewrite decide_False by (rewrite Forall_forall; intros H; by apply (H o)).
  assert (∀ o e, entity_lines verbosity o = Raise e → e = AttributeError) as Hel.
  { intros o' e. unfold entity_lines. destruct (cell_name (o_code o')) eqn:E; [done|].
    intros [= <-]. by eapply cell_name_raise. }
  assert (∀ o e, failure_lines verbosity o = Raise e → e = AttributeError) as Hfl.
  { intros o' e. unfold failure_lines. destruct (entity_lines verbosity o') eqn:E; [done|].
    intros [= <-]. by eapply Hel. }
  assert (∀ o e, failure_reason o = Raise e → e = AttributeError) as Hfr.
  { intros o' e. unfold failure_reason. destruct (cell_name (o_code o')) eqn:E; [done|].
    intros [= <-]. by eapply cell_name_raise. }
  assert (∀ o e, unsupported_reason o = Raise e → e = AttributeError) as Hur.
  { intros o' e. unfold unsupported_reason. case_match; [done|].
    destruct (cell_name (o_code o')) eqn:E; [done|]. intros [= <-]. by eapply cell_name_raise. }
  case_match.
  - destruct (for_each unsupported_reason _) as [reasons|e] eqn:E.
    2: { cbn. f_equal. clear -E Hur. induction (filter _ os) as [|a l IH]; [done|].
         rewrite for_each_cons in E. destruct (unsupported_reason a) eqn:Ea; cbn in E;
           [destruct (for_each _ l); [done|]; cbn in E; auto|].
         injection E as <-. by eapply Hur. }
    cbn. rewrite (for_each_raise _ _ AttributeError o); [done|exact Hel|done|].
    unfold entity_lines. by rewrite Hi.
  - rewrite (for_each_raise failure_reason (filter wrong os) AttributeError o); [done|exact Hfr| |].
    + by apply list_elem_of_filter.
    + unfold failure_reason. by rewrite Hi.
Qed.

Lemma entity_types_total p s parameters :
  Forall (λ e, is_Ok (classify e)) parameters →
  ∃ types, entity_types p s parameters = Ok types ∧ length types = length parameters.
Proof.
  intros H. revert p s. induction H as [|e l [k Hk] _ IH]; intros p s; cbn; [by exists []|].
  rewrite Hk. destruct k; cbn.
  - destruct (IH (S p) s) as (t&->&Hl). eexists. split; [done|]. cbn. by rewrite Hl.
  - destruct (IH p (S s)) as (t&->&Hl). eexists. split; [done|]. cbn. by rewrite Hl.
Qed.

Lemma observe_total types expected codes outputs :
  length expected = length types → length codes = length types → length outputs = length types →
  ∃ os, observe types expected codes outputs = Ok os ∧
        o_expected <$> os = expected ∧ o_code <$> os = codes ∧ o_type <$> os = types.
Proof.
  revert expected codes outputs.
  induction types as [|t types IH]; intros [|e expected] [|c codes] [|out outputs]; cbn; try lia.
  - intros _ _ _. by exists [].
  - intros H1 H2 H3. destruct (IH expected codes outputs) as (os&->&H4&H5&H6); [lia..|].
    eexists. split; [done|]. cbn. by rewrite H4, H5, H6.
Qed.

Lemma run_test_conclude name parameters expected verbosity codes outputs :
  Forall (λ e, is_Ok (classify e)) parameters → length expected = length parameters →
  length codes = length parameters → length outputs = length parameters →
  ∃ os, run_test name parameters expected verbosity codes outputs = conclude name verbosity os ∧
        o_expected <$> os = expected ∧ o_code <$> os = codes.
Proof.
  intros Hp He Hc Ho. unfold run_test.
  destruct (entity_types_total 0 0 parameters Hp) as (types&->&Hl). cbn.
  destruct (observe_total types expected codes outputs) as (os&->&H4&H5&H6); [lia..|].
  by exists os.
Qed.

Lemma codes_expected os :
  Forall (λ o, o_code o = Code (o_expected o)) os ↔ o_code <$> os = Code <$> (o_expected <$> os).
Proof.
  induction os as [|o os IH]; cbn; [done|]. rewrite Forall_cons, IH. split.
  - by intros [-> ->].
  - by intros [= -> ->].
Qed.

(** The result that belongs to the codes of a test. *)
Definition verdict (codes expected : list ReturnCode) (r : test_result) : Prop :=
  match r with
  | Passed => codes = expected
  | Skipped _ => codes ≠ expected ∧ Exists (λ c, unsupported (Code c) = true) codes
  | Failure _ => codes ≠ expected ∧ Forall (λ c, unsupported (Code c) = false) codes
  end.

Lemma run_test_result name parameters expected verbosity codes outputs :
  Forall (λ e, is_Ok (classify e)) parameters → length expected = length parameters →
  length codes = length parameters → length outputs = length parameters →
  ∃ lines r, run_test name parameters expected verbosity (Code <$> codes) outputs = Ok (lines, r) ∧
    verdict codes expected r.
Proof.
  intros Hp He Hc Ho.
  destruct (run_test_conclude name parameters expected verbosity (Code <$> codes) outputs)
    as (os&->&H1&H2); [done..|by rewrite length_fmap|done|].
  assert (all_written os) as Hw.
  { apply Forall_forall. intros o Hin. assert (o_code o ∈ o_code <$> os) as H
      by (apply list_elem_of_fmap; by exists o).
    rewrite H2 in H. apply list_elem_of_fmap in H as (c&->&_). by exists c. }
  destruct (conclude_total name verbosity os Hw) as (lines&r&->&Hr).
  exists lines, r. split; [done|].
  assert (Forall (λ o, o_code o = Code (o_expected o)) os ↔ codes = expected) as Heq.
  { rewrite codes_expected, H1, H2. split; [|by intros ->].
    intros H. eapply list_fmap_eq_inj; [|exact H]. by intros ? ? [= ->]. }
  assert (Exists wrong os → codes ≠ expected) as Hne.
  { intros Hex Hce. apply Heq in Hce. rewrite Forall_forall in Hce.
    apply Exists_exists in Hex as (o&Ho'&Hwr). by apply Hwr, Hce. }
  destruct r as [|msg|msg].
  - by apply Heq.
  - destruct Hr as (Hex&Hu&_). split; [auto|]. apply Exists_exists in Hu as (o&Ho'&Hu).
    apply Exists_exists. assert (o_code o ∈ o_code <$> os) as H
      by (apply list_elem_of_fmap; by exists o).
    rewrite H2 in H. apply list_elem_of_fmap in H as (c&Hc'&?). exists c. by rewrite <- Hc'.
  - destruct Hr as (Hex&Hu&_). split; [auto|]. apply Forall_forall. intros c Hin.
    assert (Code c ∈ o_code <$> os) as H by (rewrite H2; apply list_elem_of_fmap; by exists c).
    apply list_elem_of_fmap in H as (o&->&?). rewrite Forall_forall in Hu. auto.
Qed.

(** A code that was never written. *)
Lemma unwritten_raises name parameters expected verbosity codes outputs i :
  Forall (λ e, is_Ok (classify e)) parameters → length expected = length parameters →
  length codes = length parameters → length outputs = length parameters →
  Unset i ∈ codes →
  run_test name parameters expected verbosity codes outputs = Raise AttributeError.
Proof.
  intros Hp He Hc Ho Hi.
  destruct (run_test_conclude name parameters expected verbosity codes outputs)
    as (os&->&_&H2); [done..|].
  rewrite <- H2 in Hi. apply list_elem_of_fmap in Hi as (o&Ho'&Hin).
  by apply (conclude_unset _ _ _ o i).
Qed.

(** ** Properties *)

(** C16: the result of a test for whatever its processes leave in the list of codes.
    When all wrote a code nothing is raised, and the test case is passed exactly when the
    codes are the expected ones, skipped when they are not and some application reported
    an unsupported feature, and failed otherwise.  When one ended without a code,
    [run_test] raises an AttributeError instead of recording a result, whatever the other
    codes are: the entry of [return_codes] is still its index, which has no [name]. *)
Theorem run_test_codes name parameters expected verbosity cells outputs :
  Forall (λ e, is_Ok (classify e)) parameters → length expected = length parameters →
  length cells = length parameters → length outputs = length parameters →
  (∀ codes, cells = Code <$> codes →
     ∃ lines r, run_test name parameters expected verbosity cells outputs = Ok (lines, r) ∧ verdict codes expected r) ∧
  (∀ i, Unset i ∈ cells → run_test name parameters expected verbosity cells outputs = Raise AttributeError).
Proof.
  intros Hp He Hc Ho. split.
  - intros codes ->. rewrite length_fmap in Hc. by apply run_test_result.
  - intros i Hi. by apply (unwritten_raises name parameters expected verbosity cells outputs i).
Qed.

Lemma run_test_codes_witness :
  (∃ lines r, run_test "case" ["-P -t Square"; "-S -t Square"] [OK; OK] false
                (Code <$> [OK; SUB_UNSUPPORTED_FEATURE]) [""; "QoS not supported"] = Ok (lines, r) ∧
     verdict [OK; SUB_UNSUPPORTED_FEATURE] [OK; OK] r) ∧
  run_test "case" ["-P -t Square"; "-S -t Square"] [OK; OK] false [Code OK; Unset 1] ["a"; "b"]
  = Raise AttributeError.
Proof.
  assert (Forall (λ e, is_Ok (classify e)) ["-P -t Square"; "-S -t Square"]) as Hk
    by (repeat constructor; eexists; vm_compute; reflexivity).
  split.
  - destruct (run_test_codes "case" ["-P -t Square"; "-S -t Square"] [OK; OK] false
      (Code <$> [OK; SUB_UNSUPPORTED_FEATURE]) [""; "QoS not supported"]) as [H _]; [exact Hk|reflexivity..|].
    by apply H.
  - destruct (run_test_codes "case" ["-P -t Square"; "-S -t Square"] [OK; OK] false
      [Code OK; Unset 1] ["a"; "b"]) as [_ H]; [exact Hk|reflexivity..|].
    apply (H 1). right. left.
Defined.
