(* ===== verification/Handshake.v ===== *)
(** * How the processes of a test end together (interoperability_report.py)

    Each subscriber sets its event [subscriber_finished], waits for the events of all
    publishers, and stops its application.  Each publisher drains the output of its
    application until the events of all subscribers are set (or the output ends), sets
    its event and stops its application.  [run_test] joins all processes.  The events
    are multiprocessing.Event objects: once set they stay set. *)

From S2P Require Import Prelude RunTest.
From stdpp Require Import options.

(** Where a process is: before its code is produced; in the loop that drains the
    publisher's output; after its event is set; ended.  [Dead] is a process that an
    exception ended before its event was set. *)
Inductive phase := Working | Draining | Finished | Stopped | Dead.

#[export] Instance phase_eq_dec : EqDecision phase.
Proof. solve_decision. Defined.

Abbreviation system := (list (entity * phase)).

(** [event.is_set()] *)
Definition event_set (p : entity * phase) : bool :=
  match p.2 with Finished | Stopped => true | _ => false end.
Definition subscribers_finished (s : system) : bool :=
  forallb (λ p, event_set p || bool_decide (p.1 = Publisher)) s.
Definition publishers_finished (s : system) : bool :=
  forallb (λ p, event_set p || bool_decide (p.1 = Subscriber)) s.

(** What happens next to one process. *)
Inductive event :=
| EWork         (* the code-producing part is over *)
| EDrain        (* [all(e.is_set() for e in subscribers_finished)] *)
| EEof          (* the output of the publisher's application ended *)
| EJoin         (* the waits are over and the application is stopped *)
| ECrash.       (* an exception *)

(** The transition of process [p] in the system [s], if it is enabled. *)
Definition transition (s : system) (p : entity * phase) (e : event) : option phase :=
  match p, e with
  | (Subscriber, Working), EWork => Some Finished
  | (Subscriber, Finished), EJoin => if publishers_finished s then Some Stopped else None
  | (Publisher, Working), EWork => Some Draining
  | (Publisher, Draining), EDrain => if subscribers_finished s then Some Finished else None
  | (Publisher, Draining), EEof => Some Finished
  | (Publisher, Finished), EJoin => Some Stopped
  | (_, Working), ECrash => Some Dead
  | _, _ => None
  end.

Definition next (s : system) (i : nat) (e : event) : option system :=
  p ← s !! i; ph ← transition s p e; Some (<[i := (p.1, ph)]> s).

(** Steps; [crashes] says whether exceptions can occur. *)
Definition step (crashes : bool) (s s' : system) : Prop :=
  ∃ i e, (e = ECrash → crashes = true) ∧ next s i e = Some s'.

(** No exception, and no application closes its output. *)
Definition step_no_eof (s s' : system) : Prop :=
  ∃ i e, e ≠ ECrash ∧ e ≠ EEof ∧ next s i e = Some s'.

(** A run: which process did what. *)
Fixpoint run (s : system) (es : list (nat * event)) : option system :=
  match es with
  | [] => Some s
  | (i, e) :: es' => s' ← next s i e; run s' es'
  end.

Definition start (kinds : list entity) : system := (λ k, (k, Working)) <$> kinds.
Definition all_stopped (s : system) : Prop := Forall (λ p, p.2 = Stopped) s.

(** ** Lemmas *)

Definition no_dead (s : system) : Prop := Forall (λ p, p.2 ≠ Dead) s.
(** Only publishers drain. *)
Definition well_formed (s : system) : Prop := Forall (λ p, p.2 = Draining → p.1 = Publisher) s.

Lemma next_inv s i e s' :
  next s i e = Some s' →
  ∃ k ph ph', s !! i = Some (k, ph) ∧ transition s (k, ph) e = Some ph' ∧ s' = <[i := (k, ph')]> s.
Proof.
  unfold next. destruct (s !! i) as [[k ph]|]; [|done]. cbn -[transition].
  destruct (transition s (k, ph) e) eqn:E; [|done]. cbn. intros [= <-]. eauto 10.
Qed.

Lemma next_i s i e k ph ph' :
  s !! i = Some (k, ph) → transition s (k, ph) e = Some ph' → next s i e = Some (<[i := (k, ph')]> s).
Proof. unfold next. intros -> H. cbn -[transition]. by rewrite H. Qed.

Lemma step_no_eof_step s s' : step_no_eof s s' → step false s s'.
Proof. intros (i&e&Hc&_&H). by exists i, e. Qed.

(** A system with a process that has not stopped can go on, if none is dead; no
    application has to close its output for that. *)
Lemma step_progress s :
  no_dead s → well_formed s → ¬ all_stopped s → ∃ s', step_no_eof s s'.
Proof.
  intros Hd Hw Hs.
  assert (∀ i k ph e ph', s !! i = Some (k, ph) → transition s (k, ph) e = Some ph' →
    e ≠ ECrash → e ≠ EEof → ∃ s', step_no_eof s s') as Hgo.
  { intros i k ph e ph' Hi Ht He Hf. eexists _, i, e. split; [done|]. split; [done|]. by eapply next_i. }
  destruct (decide (Exists (λ p, p.2 = Working) s)) as [Hx|Hwork].
  { apply Exists_exists in Hx as ([k ph]&Hin&Hph). cbn in Hph. subst ph.
    apply list_elem_of_lookup_1 in Hin as [i Hi]. destruct k; by eapply (Hgo _ _ _ EWork). }
  apply not_Exists_Forall in Hwork; [|apply _].
  assert (∀ i k ph, s !! i = Some (k, ph) → ph ≠ Working ∧ ph ≠ Dead ∧ (ph = Draining → k = Publisher))
    as Hfacts.
  { intros i k ph Hi. unfold no_dead, well_formed in *. rewrite Forall_lookup in *.
    split_and!; [exact (Hwork _ _ Hi)|exact (Hd _ _ Hi)|exact (Hw _ _ Hi)]. }
  destruct (decide (Exists (λ p, p.2 = Draining) s)) as [Hx|Hdrain].
  { apply Exists_exists in Hx as ([k ph]&Hin&Hph). cbn in Hph. subst ph.
    apply list_elem_of_lookup_1 in Hin as [i Hi].
    destruct (Hfacts _ _ _ Hi) as (_&_&Hk). rewrite (Hk eq_refl) in Hi. clear Hk.
    eapply (Hgo _ _ _ EDrain); [done| |done|done].
    cbn. assert (subscribers_finished s = true) as ->; [|done].
    apply forallb_forall. intros [k' ph] Hin'%list_elem_of_In.
    apply list_elem_of_lookup_1 in Hin' as [j Hj]. destruct (Hfacts _ _ _ Hj) as (?&?&Hk).
    destruct ph; try done. by rewrite (Hk eq_refl). }
  apply not_Exists_Forall in Hdrain; [|apply _].
  apply not_Forall_Exists in Hs; [|apply _]. apply Exists_exists in Hs as ([k ph]&Hin&Hph).
  apply list_elem_of_lookup_1 in Hin as [i Hi]. destruct (Hfacts _ _ _ Hi) as (?&?&_).
  assert (ph = Finished) as -> .
  { rewrite Forall_lookup in Hdrain. specialize (Hdrain _ _ Hi). cbn in *. by destruct ph. }
  destruct k; [by eapply (Hgo _ _ _ EJoin)|].
  apply (Hgo i Subscriber Finished EJoin Stopped); [done| |done|done]. cbn.
  assert (publishers_finished s = true) as ->; [|done].
  apply forallb_forall. intros [k' ph'] Hin'%list_elem_of_In.
  apply list_elem_of_lookup_1 in Hin' as [j Hj]. destruct (Hfacts _ _ _ Hj) as (?&?&_).
  rewrite Forall_lookup in Hdrain. specialize (Hdrain _ _ Hj). cbn in *. by destruct ph'.
Qed.

(** How much a process has left to do. *)
Definition rank (ph : phase) : nat :=
  match ph with Working => 3 | Draining => 2 | Finished => 1 | Stopped | Dead => 0 end.
Fixpoint work (s : system) : nat :=
  match s with [] => 0 | p :: s' => rank p.2 + work s' end.

Lemma transition_rank s k ph e ph' : transition s (k, ph) e = Some ph' → rank ph' < rank ph.
Proof. destruct k, ph, e; cbn; try done; repeat case_match; intros [= <-]; cbn; lia. Qed.

Lemma work_insert s i k ph ph' :
  s !! i = Some (k, ph) → work (<[i := (k, ph')]> s) + rank ph = work s + rank ph'.
Proof.
  revert i. induction s as [|p s IH]; intros [|i] Hi; try done.
  - injection Hi as ->. cbn. lia.
  - specialize (IH i Hi). change (<[S i := ?x]> (p :: s)) with (p :: <[i := x]> s).
    cbn [work]. lia.
Qed.

Lemma step_work c s s' : step c s s' → work s' < work s.
Proof.
  intros (i&e&_&(k&ph&ph'&Hi&Ht&->)%next_inv). apply transition_rank in Ht.
  pose proof (work_insert s i k ph ph' Hi). lia.
Qed.

Lemma nsteps_work c n s s' : nsteps (step c) n s s' → n + work s' ≤ work s.
Proof.
  revert s. induction n as [|n IH]; intros s H; inversion H as [|m s1 s2 s3 Hs Hn]; subst; [lia|].
  pose proof (step_work _ _ _ Hs). specialize (IH _ Hn). lia.
Qed.
Lemma work_start kinds : work (start kinds) = 3 * length kinds.
Proof. unfold start. induction kinds as [|k kinds IH]; cbn in *; [done|]. lia. Qed.

Lemma well_formed_step c s s' : well_formed s → step c s s' → well_formed s'.
Proof.
  intros Hw (i&e&_&(k&ph&ph'&Hi&Ht&->)%next_inv). apply Forall_insert; [done|].
  cbn. intros ->. destruct k, ph, e; cbn in Ht; repeat case_match; done.
Qed.
Lemma no_dead_step s s' : no_dead s → step false s s' → no_dead s'.
Proof.
  intros Hw (i&e&He&(k&ph&ph'&Hi&Ht&->)%next_inv). apply Forall_insert; [done|].
  cbn. intros ->. destruct k, ph, e; cbn in Ht; repeat case_match; try done; by specialize (He eq_refl).
Qed.

Lemma start_ok kinds : no_dead (start kinds) ∧ well_formed (start kinds).
Proof.
  unfold start. split; apply Forall_fmap, Forall_true; done.
Qed.

Lemma run_invariant kinds s :
  rtc (step false) (start kinds) s → no_dead s ∧ well_formed s.
Proof.
  intros H. assert (no_dead (start kinds) ∧ well_formed (start kinds)) as H0 by apply start_ok.
  revert H0. induction H as [|s1 s2 s3 Hs _ IH]; [done|]. intros [Hd Hw]. apply IH.
  split; [by eapply no_dead_step|by eapply well_formed_step].
Qed.

(** *** Order of the events *)

(** After the steps [es] no process is past a wait before those it waits for, except a
    publisher whose application ended its output. *)
Definition ordered (es : list (nat * event)) (s : system) : Prop :=
  (∀ i, s !! i = Some (Subscriber, Stopped) → publishers_finished s = true) ∧
  (∀ i ph, s !! i = Some (Publisher, ph) → event_set (Publisher, ph) = true →
     subscribers_finished s = true ∨ (i, EEof) ∈ es).

Lemma forallb_insert (f : entity * phase → bool) s i k ph ph' :
  s !! i = Some (k, ph) → (f (k, ph) = true → f (k, ph') = true) →
  forallb f s = true → forallb f (<[i := (k, ph')]> s) = true.
Proof.
  intros Hi Hf Hall. rewrite forallb_forall in *. intros p Hp%list_elem_of_In.
  apply list_elem_of_lookup_1 in Hp as [j Hj]. destruct (decide (i = j)) as [<-|Hne].
  - rewrite list_lookup_insert_eq in Hj by by eapply lookup_lt_Some. injection Hj as <-.
    apply Hf, Hall, list_elem_of_In. by eapply list_elem_of_lookup_2.
  - rewrite list_lookup_insert_ne in Hj by done. apply Hall, list_elem_of_In.
    by eapply list_elem_of_lookup_2.
Qed.

(** Events stay set. *)
Lemma transition_event s k ph e ph' :
  transition s (k, ph) e = Some ph' → event_set (k, ph) = true → event_set (k, ph') = true.
Proof. destruct k, ph, e; cbn; try done; repeat case_match; intros [= <-]; done. Qed.

Lemma ordered_next es s i e s' :
  ordered es s → next s i e = Some s' → ordered (es ++ [(i, e)]) s'.
Proof.
  intros [H1 H2] (k&ph&ph'&Hi&Ht&->)%next_inv.
  pose proof (transition_event _ _ _ _ _ Ht) as Hev.
  assert (subscribers_finished s = true → subscribers_finished (<[i:=(k, ph')]> s) = true) as Hsub.
  { apply (forallb_insert _ s i k ph ph' Hi). cbn. intros [H|H]%orb_true_iff; apply orb_true_iff; auto. }
  assert (publishers_finished s = true → publishers_finished (<[i:=(k, ph')]> s) = true) as Hpub.
  { apply (forallb_insert _ s i k ph ph' Hi). cbn. intros [H|H]%orb_true_iff; apply orb_true_iff; auto. }
  split.
  - intros j Hj. apply Hpub. destruct (decide (i = j)) as [<-|Hne].
    + rewrite list_lookup_insert_eq in Hj by by eapply lookup_lt_Some. injection Hj as -> ->.
      destruct ph, e; cbn in Ht; try done. by destruct (publishers_finished s).
    + rewrite list_lookup_insert_ne in Hj by done. by eapply H1.
  - intros j ph2 Hj Hset. destruct (decide (i = j)) as [<-|Hne].
    + rewrite list_lookup_insert_eq in Hj by by eapply lookup_lt_Some. injection Hj as -> ->.
      destruct ph, e; cbn in Ht; try done.
      * by injection Ht as <-.
      * by injection Ht as <-.
      * left. apply Hsub. by destruct (subscribers_finished s).
      * right. set_solver.
      * destruct (H2 i Finished Hi eq_refl) as [?|?]; [left; auto|right; set_solver].
    + rewrite list_lookup_insert_ne in Hj by done.
      destruct (H2 j ph2 Hj Hset) as [?|?]; [left; auto|right; set_solver].
Qed.

Lemma ordered_start kinds : ordered [] (start kinds).
Proof.
  unfold start. split.
  - intros i H. rewrite list_lookup_fmap in H. by destruct (kinds !! i).
  - intros i ph H. rewrite list_lookup_fmap in H. destruct (kinds !! i); [|done].
    cbn in H. by injection H as _ <-.
Qed.

Lemma ordered_run past es s s' : ordered past s → run s es = Some s' → ordered (past ++ es) s'.
Proof.
  revert past s. induction es as [|[i e] es IH]; intros past s Ho; cbn [run].
  - intros [= <-]. by rewrite app_nil_r.
  - destruct (next s i e) as [s1|] eqn:E; [|done]. cbn. intros H.
    rewrite (cons_middle (i, e)), app_assoc. apply (IH _ s1); [|done]. by eapply ordered_next.
Qed.

(** The end of an application's output really lets a publisher set its event, and stop its
    application, before a subscriber has its code. *)
Example eof_ends_publisher :
  run (start [Publisher; Subscriber]) [(0, EWork); (0, EEof); (0, EJoin)]
  = Some [(Publisher, Stopped); (Subscriber, Working)].
Proof. reflexivity. Qed.

(** ** Properties *)

(** the processes of a test always end together: from the start, every sequence
    of steps without an exception is finite (at most 3 per process), and where it cannot
    go on all processes have stopped, so that every [join] of [run_test] returns.  This
    holds for any numbers of publishers and subscribers, in any order. *)
Theorem handshake_terminates kinds :
  (∀ n s, nsteps (step false) n (start kinds) s → n ≤ 3 * length kinds) ∧
  (∀ s, rtc (step false) (start kinds) s → (¬ ∃ s', step false s s') → all_stopped s).
Proof.
  split.
  - intros n s H%nsteps_work. rewrite work_start in H. lia.
  - intros s H Hstuck. destruct (run_invariant kinds s H) as [Hd Hw].
    destruct (decide (all_stopped s)) as [|Hs]; [done|].
    destruct Hstuck. destruct (step_progress s) as [s' Hs']; [done..|].
    exists s'. by apply step_no_eof_step.
Qed.

Lemma handshake_terminates_witness :
  all_stopped [(Publisher, Stopped); (Subscriber, Stopped)].
Proof.
  apply (proj2 (handshake_terminates [Publisher; Subscriber])).
  - eapply rtc_l; [exists 0, EWork; split; [done|reflexivity]|].
    eapply rtc_l; [exists 1, EWork; split; [done|reflexivity]|].
    eapply rtc_l; [exists 0, EDrain; split; [done|reflexivity]|].
    eapply rtc_l; [exists 0, EJoin; split; [done|reflexivity]|].
    eapply rtc_l; [exists 1, EJoin; split; [done|reflexivity]|]. apply rtc_refl.
  - intros (s'&i&e&_&H). destruct i as [|[|i]], e; discriminate.
Defined.

(** C20: the order in which the applications are stopped, in every interleaving of the
    steps, also with exceptions: no subscriber stops before the event of every publisher is
    set; and the event of a publisher is set only once every subscriber has its code, except
    where the output of that publisher's own application ended, which lets it go on at
    once. *)
Theorem handshake_ordered kinds es s :
  run (start kinds) es = Some s →
  (∀ i, s !! i = Some (Subscriber, Stopped) → publishers_finished s = true) ∧
  (∀ i ph, s !! i = Some (Publisher, ph) → event_set (Publisher, ph) = true →
     subscribers_finished s = true ∨ (i, EEof) ∈ es).
Proof. apply (ordered_run []), ordered_start. Qed.

Lemma handshake_ordered_witness :
  let s := [(Publisher, Stopped); (Subscriber, Stopped)] in
  publishers_finished s = true ∧ (subscribers_finished s = true ∨ (0, EEof) ∈ [(0, EWork); (1, EWork); (0, EDrain); (0, EJoin); (1, EJoin)]).
Proof.
  destruct (handshake_ordered [Publisher; Subscriber]
    [(0, EWork); (1, EWork); (0, EDrain); (0, EJoin); (1, EJoin)]
    [(Publisher, Stopped); (Subscriber, Stopped)] eq_refl) as [H1 H2].
  split; [apply (H1 1 eq_refl)|apply (H2 0 Stopped eq_refl eq_refl)].
Defined.
