(* ===== verification/ProcessEnd.v ===== *)
(** * How one process of a test ends (interoperability_report.py)

    After its code is produced: the event of the process, the wait for the others, and
    [stop_process] with its clock.  The answers of the application and of the clock are
    functions of the number of the call; times are in milliseconds. *)

From S2P Require Import Prelude PyStr RunTest.
From stdpp Require Import options.
Local Open Scope string_scope.

(** ** The application and the clock *)

Record child := Child {
  isalive : nat → bool;
  time : nat → Z;
  sendintr_raises : bool;
  expect_eof : result ()       (** [expect(pexpect.EOF, timeout=5)] *)
}.
Inductive signal := SigInt | SigKill.
#[export] Instance signal_eq_dec : EqDecision signal.
Proof. solve_decision. Defined.

(** What a process does that others can see, in order. *)
Inductive action := SetFinished | Sent (s : signal) | Logged (line : string).
#[export] Instance action_eq_dec : EqDecision action.
Proof. solve_decision. Defined.
Inductive status := Ended | Waiting | Raised (e : exn).

(** ** [stop_process] *)

(** The loop, after [k] sleeps; the first call of [isalive] and of the clock are before it.
    The result is the number of sleeps. *)
Fixpoint wait (c : child) (timeout : Z) (fuel k : nat) : option nat :=
  match fuel with
  | 0 => None
  | S fuel =>
      if isalive c (S k) && (time c (S k) - time c 0 <? timeout)%Z then wait c timeout fuel (S k) else Some k
  end.
(** The signals and the value, if it is not an exception. *)
Definition stop_process (c : child) (timeout : Z) (fuel : nat) : option (list signal * result bool) :=
  if isalive c 0 then
    if sendintr_raises c then Some ([], Ok true)
    else
      k ← wait c timeout fuel 0;
      let killed := isalive c (k + 2) in
      Some (if killed then [SigInt; SigKill] else [SigInt], _ ← expect_eof c; Ok (negb killed))
  else Some ([], Ok true).

(** ** The end of a process *)

Definition timeout : Z := 30000.
Definition poll_interval : Z := 200.
Definition stop (who : string) (verbosity : bool) (c : child) (fuel : nat) : option (list action * status) :=
  r ← stop_process c timeout fuel;
  Some ((Sent <$> r.1)
        ++ (match r.2 with
            | Ok false =>
                Logged <$> log_message (who +:+ " process did not exit gracefully; it was forcefully terminated.")
                             verbosity
            | _ => []
            end),
        match r.2 with Ok _ => Ended | Raise e => Raised e end)%list.

(** A publisher reads what its application prints until all subscribers have finished; every
    round is whether they have, and what the read gives if not. *)
Inductive read := Chunk | ReadTimeout | ReadEof.
Fixpoint drained (rounds : list (bool * read)) : bool :=
  match rounds with
  | [] => false
  | (subscribers_finished, r) :: rounds' =>
      subscribers_finished || match r with ReadEof => true | _ => drained rounds' end
  end.
Definition publisher_end (index : nat) (verbosity : bool) (rounds : list (bool * read)) (c : child) (fuel : nat) :
    option (list action * status) :=
  let who := "Publisher " +:+ str_of_nat index in
  let log := Logged <$> log_message (who +:+ ": Waiting for Subscribers to finish") verbosity in
  if drained rounds then
    r ← stop who verbosity c fuel; Some (log ++ SetFinished :: r.1, r.2)%list
  else Some (log, Waiting).
Definition subscriber_end (index : nat) (verbosity publishers_finish : bool) (c : child) (fuel : nat) :
    option (list action * status) :=
  let who := "Subscriber " +:+ str_of_nat index in
  let log := Logged <$> log_message (who +:+ ": Waiting for Publishers to finish") verbosity in
  if publishers_finish then
    r ← stop who verbosity c fuel; Some (SetFinished :: log ++ r.1, r.2)%list
  else Some (SetFinished :: log, Waiting)%list.

(** ** The loop ends *)

Section clock.
Context (c : child).
(** [time.sleep] sleeps at least as long as it is told to. *)
Context (Hstart : (time c 0 ≤ time c 1)%Z) (Hsleep : ∀ k, (time c (S k) + poll_interval ≤ time c (S (S k)))%Z).

Lemma time_passes k : (time c 0 + poll_interval * Z.of_nat k ≤ time c (S k))%Z.
Proof using Hstart Hsleep. induction k as [|k IH]; [lia|]. pose proof (Hsleep k). lia. Qed.
Lemma wait_ends fuel k : (k ≤ 150 → 151 ≤ fuel + k → ∃ n, wait c timeout fuel k = Some n ∧ k ≤ n ≤ 150
  ∧ (isalive c (S n) = false ∨ timeout ≤ time c (S n) - time c 0)%Z
  ∧ ∀ j, k ≤ j < n → isalive c (S j) = true ∧ (time c (S j) - time c 0 < timeout)%Z)%nat.
Proof using Hstart Hsleep.
  revert k. induction fuel as [|fuel IH]; intros k Hk Hf; [lia|]. cbn [wait].
  destruct (isalive c (S k) && (time c (S k) - time c 0 <? timeout)%Z) eqn:E.
  - apply andb_true_iff in E as [Ea Et%Z.ltb_lt]. pose proof (time_passes k) as Hp.
    unfold timeout, poll_interval in *. destruct (IH (S k)) as (n&Hn&Hkn&Hend&Hall); [lia|lia|].
    exists n. split; [done|]. split; [lia|]. split; [done|]. intros j Hj.
    destruct (decide (j = k)) as [->|]; [done|]. apply Hall. lia.
  - exists k. split; [done|]. split; [lia|]. split; [|lia]. apply andb_false_iff in E as [E|E%Z.ltb_ge]; auto.
Qed.

(** A process that is dead stays dead. *)
Context (Hdead : ∀ n, isalive c n = false → isalive c (S n) = false).
Definition exits_in_time : Prop :=
  isalive c 0 = false ∨ ∃ n, isalive c (S n) = false ∧ ∀ j, (j < n)%nat → (time c (S j) - time c 0 < timeout)%Z.
Lemma stays_dead n m : isalive c n = false → (n ≤ m)%nat → isalive c m = false.
Proof using Hdead. intros Hn. induction 1 as [|m _ IH]; auto. Qed.

(** The wait ended after [k] sleeps: the application was dead or its time was over, and
    neither before. *)
Definition polled (k : nat) : Prop :=
  (k ≤ 150)%nat ∧ (isalive c (S k) = false ∨ timeout ≤ time c (S k) - time c 0)%Z
  ∧ ∀ j, (j < k)%nat → isalive c (S j) = true ∧ (time c (S j) - time c 0 < timeout)%Z.

Lemma killed_late k : polled k → isalive c (k + 2) = true → ¬ exits_in_time.
Proof using Hdead.
  intros (_&Hend&Hall) Ek [H|(m&Hm&Htime)].
  - rewrite (stays_dead 0) in Ek by (done || lia). done.
  - destruct Hend as [Hd|Ht].
    + rewrite (stays_dead (S k)) in Ek by (done || lia). done.
    + destruct (decide (m ≤ S k)%nat) as [Hle|Hgt].
      * rewrite (stays_dead (S m)) in Ek by (done || lia). done.
      * specialize (Htime k ltac:(lia)). lia.
Qed.

Lemma stop_process_spec fuel : (151 ≤ fuel)%nat →
  isalive c 0 = true → sendintr_raises c = false →
  ∃ k, polled k ∧
       stop_process c timeout fuel
       = Some (if isalive c (k + 2) then [SigInt; SigKill] else [SigInt],
               _ ← expect_eof c; Ok (negb (isalive c (k + 2)))).
Proof using Hstart Hsleep.
  intros Hf E0 Es. unfold stop_process. rewrite E0, Es.
  destruct (wait_ends fuel 0) as (n&->&Hn&Hend&Hall); [lia|lia|].
  exists n. split; [|done]. split_and!; [lia|done|]. intros j Hj. apply Hall. lia.
Qed.
End clock.

(** ** What others see *)

Definition forcefully (who : string) : string :=
  who +:+ " process did not exit gracefully; it was forcefully terminated.".
(** The application is interrupted if it still runs; killed if it is alive when the wait is
    over, at most 150 sleeps later, which it is not if it exits in time; and this is logged,
    unless the wait for the end of its output raises. *)
Definition stops (who : string) (verbosity : bool) (c : child) (actions : list action) (st : status) : Prop :=
  (isalive c 0 = false ∨ sendintr_raises c = true) ∧ actions = [] ∧ st = Ended
  ∨ isalive c 0 = true ∧ sendintr_raises c = false
    ∧ st = match expect_eof c with Ok _ => Ended | Raise e => Raised e end
    ∧ (∃ k, polled c k ∧
        (isalive c (k + 2) = false ∧ actions = [Sent SigInt]
         ∨ isalive c (k + 2) = true ∧ ¬ exits_in_time c ∧
           actions = [Sent SigInt; Sent SigKill]
             ++ (if verbosity then match st with Ended => [Logged (forcefully who)] | _ => [] end else [])))%list.
Definition clock_ok (c : child) : Prop :=
  (time c 0 ≤ time c 1)%Z ∧ (∀ k, (time c (S k) + poll_interval ≤ time c (S (S k)))%Z)
  ∧ ∀ n, isalive c n = false → isalive c (S n) = false.
Lemma stop_stops who verbosity c fuel :
  clock_ok c → (151 ≤ fuel)%nat → ∃ actions st, stop who verbosity c fuel = Some (actions, st) ∧ stops who verbosity c actions st.
Proof.
  intros (Hstart&Hsleep&Hdead) Hf. unfold stop.
  destruct (isalive c 0) eqn:E0.
  2: { unfold stop_process. rewrite E0. do 2 eexists. split; [done|]. left. by split_and!; [left|..]. }
  destruct (sendintr_raises c) eqn:Es.
  { unfold stop_process. rewrite E0, Es. do 2 eexists. split; [done|]. left. by split_and!; [right|..]. }
  destruct (stop_process_spec c Hstart Hsleep fuel Hf E0 Es) as (k&Hk&->). cbn [mbind option_bind fst snd].
  do 2 eexists. split; [reflexivity|]. right. split_and!; [done..| |].
  { by destruct (expect_eof c). }
  exists k. split; [done|]. destruct (isalive c (k + 2)) eqn:Ek; [right|left].
  - split; [done|]. split; [by apply (killed_late c Hdead k)|]. unfold log_message.
    destruct (expect_eof c); by destruct verbosity.
  - split; [done|]. by destruct (expect_eof c).
Qed.

(** C22: Once the subscribers have finished or the output of its application has ended, a
    publisher's process sets its event and ends: if its application still runs, it is
    interrupted; it is killed exactly if it is alive after the wait, which takes at most 150
    polls and in which every application that exits within 30 seconds exits, and killing is
    logged; nothing is sent only if it was dead already or could not be interrupted.  Likewise
    a subscriber's process once the publishers have finished, and its event is set before it
    waits for them.  An exception comes from the wait for the end of the output, and from
    nothing else.  (A sleep takes its time, and a process that is dead stays dead.) *)
Theorem processes_end c fuel (Hc : clock_ok c) (Hf : (151 ≤ fuel)%nat) index verbosity rounds
    (Hready : ∃ b r, (b, r) ∈ rounds ∧ (b = true ∨ r = ReadEof)) :
  (∃ actions st, stops ("Publisher " +:+ str_of_nat index) verbosity c actions st
    ∧ (∃ waiting, (SetFinished ∉ waiting)
        ∧ publisher_end index verbosity rounds c fuel = Some (waiting ++ SetFinished :: actions, st)))%list
  ∧ (∃ actions st, stops ("Subscriber " +:+ str_of_nat index) verbosity c actions st
    ∧ (∃ waiting, (SetFinished ∉ waiting)
        ∧ subscriber_end index verbosity false c fuel = Some (SetFinished :: waiting, Waiting)
        ∧ subscriber_end index verbosity true c fuel = Some (SetFinished :: waiting ++ actions, st)))%list.
Proof.
  assert (∀ line, SetFinished ∉ Logged <$> log_message line verbosity) as Hlog
    by (intros line (x&Hx&_)%list_elem_of_fmap; done).
  split.
  - destruct (stop_stops ("Publisher " +:+ str_of_nat index) verbosity c fuel Hc Hf) as (actions&st&E&Hs).
    exists actions, st. split; [done|]. eexists. split; [apply Hlog|]. unfold publisher_end.
    assert (drained rounds = true) as ->.
    { destruct Hready as (b&r&Hin&Hr). induction rounds as [|[b' r'] rounds IH]; [set_solver|]. cbn [drained].
      apply orb_true_iff. apply elem_of_cons in Hin as [[= <- <-]|Hin].
      - destruct Hr as [->| ->]; auto.
      - right. destruct r'; auto. }
    rewrite E. reflexivity.
  - destruct (stop_stops ("Subscriber " +:+ str_of_nat index) verbosity c fuel Hc Hf) as (actions&st&E&Hs).
    exists actions, st. split; [done|]. eexists. split; [apply Hlog|]. unfold subscriber_end.
    split; [reflexivity|]. rewrite E. reflexivity.
Qed.
(** An application that does not react is killed; one that needs three polls is not. *)
Definition sturdy (last : option nat) : child :=
  Child (λ n, match last with Some m => n <=? m | None => true end)%nat (λ n, 200 * Z.of_nat n)%Z false (Ok ()).
Example kills :
  publisher_end 1 true [(false, Chunk); (false, ReadTimeout); (true, Chunk)] (sturdy None) 151
  = Some ([Logged "Publisher 1: Waiting for Subscribers to finish"; SetFinished; Sent SigInt; Sent SigKill;
           Logged "Publisher 1 process did not exit gracefully; it was forcefully terminated."], Ended)
  ∧ subscriber_end 2 false true (sturdy (Some 3)) 151 = Some ([SetFinished; Sent SigInt], Ended)
  ∧ publisher_end 1 false [(false, Chunk); (false, ReadTimeout)] (sturdy None) 151 = Some ([], Waiting).
Proof. by vm_compute. Qed.
Lemma processes_end_witness :
  clock_ok (sturdy None) ∧
  ∃ actions st, stops ("Publisher " +:+ str_of_nat 1) true (sturdy None) actions st
    ∧ (∃ waiting, publisher_end 1 true [(false, Chunk); (false, ReadEof)] (sturdy None) 151
                  = Some (waiting ++ SetFinished :: actions, st))%list.
Proof.
  assert (clock_ok (sturdy None)) as Hc.
  { split; [done|]. split; [unfold sturdy, poll_interval; cbn [time]; lia|]. intros n. cbn [sturdy isalive].
    done. }
  split; [exact Hc|].
  destruct (processes_end (sturdy None) 151 Hc (le_n _) 1 true [(false, Chunk); (false, ReadEof)])
    as [(actions&st&Hs&waiting&_&E) _].
  { exists false, ReadEof. split; [right; left|by right]. }
  exists actions, st. split; [exact Hs|]. exists waiting. exact E.
Defined.
