(* ===== verification/Suite.v ===== *)
(** * The driver (interoperability_report.py, main)

    [main] goes through the test suites of a module, checks the names given with
    [--test] and [--disable-test], completes the parameters of every selected test case
    in place, and runs it.  Running a test is a parameter here ([exec]); RunTest.v and
    the files before it are about what it does. *)

From S2P Require Import Prelude PyStr PyDict Regex Utilities CheckFunctions RunTest.
From stdpp Require Import options.
Local Open Scope string_scope.

(** ** Data *)

(** The value of the key 'check_function', if there is one. *)
Inductive check_entry := NoEntry | NotCallable | Callable (f : check_function).

Record test_case := TestCase {
  apps : list string;
  tc_expected_codes : list ReturnCode;
  tc_check_function : check_entry;
  title : string;
  description : string
}.

Abbreviation suite := (dict string test_case).

Record options := Options {
  publisher : string;
  subscriber : string;
  test_cases : option (list string);
  test_cases_disabled : option (list string);
  data_representation : string;
  periodic_announcement_ms : Z
}.

(** ** Names *)

(** [name.split('_shape')[0].split('-shape')[0].split('/')[-1]] *)
Definition product_name (executable : string) : result string :=
  a ← or_raise IndexError (head (split "_shape" executable));
  b ← or_raise IndexError (head (split "-shape" a));
  py_last (split "/" b).

(** ** Selection *)

(** What is printed, and whether all the names exist. *)
Fixpoint missing_lines (s : suite) (suite_name : string) (cases : list string) : list string :=
  match cases with
  | [] => []
  | i :: cases' =>
      if din i s then missing_lines s suite_name cases'
      else ("Test Case <" +:+ i +:+ "> not contained in Test Suite <" +:+ suite_name +:+ ">.")
           :: missing_lines s suite_name cases'
  end.
Definition are_tests_in_test_suite (s : suite) (suite_name : string)
    (cases : option (list string)) : bool * list string :=
  match cases with
  | None => (true, [])
  | Some l => (forallb (λ i, din i s) l, missing_lines s suite_name l)
  end.

(** Disabled test cases are skipped first. *)
Definition selected (o : options) (name : string) : bool :=
  negb (match test_cases_disabled o with Some l => bool_decide (name ∈ l) | None => false end) &&
  match test_cases o with Some l => bool_decide (name ∈ l) | None => true end.

(** ** Parameters *)

Definition add_representation (o : options) (element : string) : string :=
  if negb (contains "-x " element) then element +:+ " -x " +:+ data_representation o else element.

Definition announcement_due (o : options) (element : string) : bool :=
  (0 <? periodic_announcement_ms o)%Z && negb (contains "--periodic-announcement " element)
  && contains "connext" (lower (publisher o)) && contains "-P" element.
Definition add_announcement (o : options) (element : string) : string :=
  if announcement_due o element
  then element +:+ " --periodic-announcement " +:+ str_of_Z (periodic_announcement_ms o)
  else element.

Definition complete (o : options) (element : string) : string :=
  add_announcement o (add_representation o element).

Definition check_of (t : test_case) : result check_function :=
  match tc_check_function t with
  | NoEntry => Ok basic_check
  | Callable f => Ok f
  | NotCallable => Raise RuntimeError
  end.

(** ** The loop *)

Section driver.
(** [exec name parameters expected check]: a run of [run_test], with the result stored
    in the test case. *)
Context {R : Type} (exec : string → list string → list ReturnCode → check_function → result R).

(** One test case: its completed parameters replace those of the suite. *)
Definition run_case (o : options) (suite_name name : string) (t : test_case) :
    result (test_case * (string * R)) :=
  check ← check_of t;
  if decide (length (apps t) = length (tc_expected_codes t)) then
    let parameters := complete o <$> apps t in
    let case := suite_name +:+ "_" +:+ name in
    r ← exec case parameters (tc_expected_codes t) check;
    Ok (TestCase parameters (tc_expected_codes t) (tc_check_function t) (title t) (description t),
        (case, r))
  else Raise AssertionError.

(** [for test_case_name, test_case_parameters in t_suite_dict.items()] *)
Fixpoint run_cases (o : options) (suite_name : string) (items : suite) :
    result (suite * list (string * R)) :=
  match items with
  | [] => Ok ([], [])
  | (name, t) :: items' =>
      if selected o name then
        p ← run_case o suite_name name t;
        q ← run_cases o suite_name items';
        Ok ((name, p.1) :: q.1, p.2 :: q.2)
      else
        q ← run_cases o suite_name items';
        Ok ((name, t) :: q.1, q.2)
  end.

Definition run_suite (o : options) (suite_name : string) (s : suite) :
    result (suite * list (string * R)) :=
  if negb (are_tests_in_test_suite s suite_name (test_cases o)).1 then Raise RuntimeError
  else if negb (are_tests_in_test_suite s suite_name (test_cases_disabled o)).1
  then Raise RuntimeError
  else run_cases o suite_name s.

(** A member of the module is a dictionary or something else. *)
Fixpoint run_members (o : options) (members : list (string * option suite)) :
    result (list (string * R)) :=
  match members with
  | [] => Ok []
  | (name, Some s) :: members' =>
      if decide (name ≠ "__builtins__") then
        p ← run_suite o name s;
        rest ← run_members o members';
        Ok (p.2 ++ rest)%list
      else run_members o members'
  | (_, None) :: members' => run_members o members'
  end.
End driver.

(** ** Lemmas *)

Lemma forallb_din l (s : suite) : forallb (λ i, din i s) l = true ↔ ∀ i, i ∈ l → i ∈ keys s.
Proof.
  rewrite forallb_forall. split.
  - intros H i Hi. apply dget_keys. apply list_elem_of_In, H in Hi. by apply bool_decide_eq_true in Hi.
  - intros H i Hi%list_elem_of_In. apply bool_decide_eq_true, dget_keys. auto.
Qed.

Lemma are_tests_spec s n cases :
  (are_tests_in_test_suite s n cases).1 = true ↔
  ∀ l i, cases = Some l → i ∈ l → i ∈ keys s.
Proof.
  unfold are_tests_in_test_suite. destruct cases as [l|]; cbn; [|naive_solver].
  rewrite forallb_din. naive_solver.
Qed.

Lemma missing_lines_nil s n l : missing_lines s n l = [] ↔ forallb (λ i, din i s) l = true.
Proof.
  induction l as [|i l IH]; cbn; [done|]. destruct (din i s); cbn; [done|]. by split.
Qed.

(** [sub] in a concatenation: in one part, or across the border. *)
Lemma contains_app_inv sub a b :
  contains sub (a +:+ b) = true →
  contains sub a = true ∨ contains sub b = true ∨
  ∃ s1 s2, s1 ≠ "" ∧ s2 ≠ "" ∧ sub = s1 +:+ s2 ∧ endswith s1 a = true ∧ String.prefix s2 b = true.
Proof.
  rewrite !contains_spec. intros (l&r&E). revert l E.
  induction a as [|c a IH]; intros l E.
  - rewrite sapp_nil_l in E. right. left. exists l, r. done.
  - destruct l as [|d l].
    + rewrite sapp_nil_l in E. clear IH.
      destruct (decide (sub = "")) as [->|Hne].
      { left. exists "", (String c a). done. }
      assert (∀ a sub, sub ≠ "" → a +:+ b = sub +:+ r →
        (∃ t, a = sub +:+ t) ∨ a = "" ∨ ∃ s2, s2 ≠ "" ∧ sub = a +:+ s2 ∧ String.prefix s2 b = true) as Hsplit.
      { clear. intros a. induction a as [|c a IH]; intros sub Hne E; [right; by left|].
        destruct sub as [|d sub]; [done|]. rewrite !sapp_cons in E. injection E as -> E.
        destruct (decide (sub = "")) as [->|Hs]; [left; by exists a|].
        destruct (IH sub Hs E) as [[t ->]|[->|(s2&H2&->&Hp)]].
        - left. exists t. by rewrite sapp_cons.
        - right. right. exists sub. rewrite sapp_nil_l in E. split_and!; [done|done|].
          apply prefix_spec. by exists r.
        - right. right. exists s2. by rewrite sapp_cons. }
      destruct (Hsplit (String c a) sub Hne E) as [[t ->]|[|(s2&H2&->&Hp)]]; [|done|].
      * left. exists "", t. by rewrite sapp_nil_l.
      * right. right. exists (String c a), s2. split_and!; try done.
        apply endswith_spec. exists "". by rewrite sapp_nil_l.
    + rewrite !sapp_cons in E. injection E as -> E. destruct (IH l E) as [(l'&r'&->)|[H|H]].
      * left. exists (String d l'), r'. by rewrite !sapp_cons.
      * right. by left.
      * right. right. destruct H as (s1&s2&?&?&?&Hs&?). exists s1, s2. split_and!; try done.
        apply endswith_spec in Hs as [k ->]. apply endswith_spec. exists (String d k).
        by rewrite sapp_cons.
Qed.

(** Text that begins with a blank and has no [-P ] or [-S ] in it can be appended to a
    parameter string without changing what it says of its kind. *)
Definition neutral (k : ascii) (b : string) : Prop :=
  contains (String "-" (String k " ")) b = false ∧ String.prefix " " b = true ∧
  endswith (String "-" (String k "")) b = false ∧ k ≠ " "%char.

Lemma marked_app (k : ascii) a b :
  neutral k b →
  contains (String "-" (String k " ")) (a +:+ b) || endswith (String "-" (String k "")) (a +:+ b) =
  contains (String "-" (String k " ")) a || endswith (String "-" (String k "")) a.
Proof.
  intros (Hc&Hp&He&Hk). apply eq_true_iff_eq. rewrite !orb_true_iff. split.
  - intros [H|H].
    + apply contains_app_inv in H as [H|[H|(s1&s2&H1&H2&E&Hs&Hb)]]; [by left|congruence|].
      right. destruct s1 as [|c1 s1]; [done|]. rewrite sapp_cons in E. injection E as Ec E. subst c1.
      destruct s1 as [|c2 s1].
      { rewrite sapp_nil_l in E. subst s2. apply prefix_spec in Hb as [r ->].
        apply prefix_spec in Hp as [r' Hp]. rewrite !sapp_cons in Hp. injection Hp as Hp _. done. }
      rewrite sapp_cons in E. injection E as Ec E. subst c2.
      destruct s1 as [|c3 s1]; [done|]. rewrite sapp_cons in E. injection E as _ E.
      destruct s1; [|done]. by destruct s2.
    + apply endswith_spec in H as [l E]. exfalso.
      destruct b as [|c b]; [done|]. apply prefix_spec in Hp as [r Hp]. rewrite sapp_cons in Hp.
      injection Hp as -> Hp. rewrite sapp_nil_l in Hp. subst r.
      revert l E. induction a as [|d a IH]; intros l E.
      * rewrite sapp_nil_l in E.
        assert (endswith (String "-" (String k "")) (String " " b) = true)
          by (apply endswith_spec; by exists l). congruence.
      * destruct l as [|e l]; rewrite ?sapp_cons, ?sapp_nil_l in E.
        -- injection E as _ E. destruct a as [|f a]; rewrite ?sapp_cons, ?sapp_nil_l in E.
           ++ injection E as E _. done.
           ++ injection E as _ E. by destruct a.
        -- injection E as _ E. by eapply IH.
  - intros [H|H].
    + left. by apply contains_app_l.
    + left. apply endswith_spec in H as [l ->]. apply prefix_spec in Hp as [r ->].
      apply contains_spec. exists l, r. by rewrite !sapp_assoc, !sapp_cons, !sapp_nil_l.
Qed.

Lemma snoc_inj (a b : string) c d : a +:+ String c "" = b +:+ String d "" → c = d.
Proof.
  revert b. induction a as [|x a IH]; intros [|y b] E; rewrite ?sapp_cons, ?sapp_nil_l in E.
  - by injection E.
  - injection E as _ E. by destruct b.
  - injection E as _ E. by destruct a.
  - injection E as _ E. by eapply IH.
Qed.

Lemma digits_neutral (k : ascii) ds :
  sforall is_digit ds = true → ds ≠ "" → is_digit k = false → k ≠ " "%char →
  contains (String "-" (String k " ")) " --periodic-announcement " = false →
  neutral k (" --periodic-announcement " +:+ ds).
Proof.
  intros Hd Hne Hk Hblank Hlit. split_and!; try done.
  - apply not_true_iff_false. intros H.
    apply contains_app_inv in H as [H|[H|(s1&s2&H1&H2&E&_&Hp)]]; [congruence|..].
    + apply contains_spec in H as (l&r&->). rewrite !sforall_app in Hd.
      apply andb_true_iff in Hd as [_ Hd]. by apply andb_true_iff in Hd as [Hd _].
    + apply prefix_spec in Hp as [r ->]. rewrite sforall_app in Hd.
      apply andb_true_iff in Hd as [Hd _].
      destruct s1 as [|c1 s1]; [done|]. rewrite sapp_cons in E. injection E as _ E.
      destruct s1 as [|c2 s1].
      { rewrite sapp_nil_l in E. subst s2. cbn in Hd. by rewrite Hk in Hd. }
      rewrite sapp_cons in E. injection E as _ E.
      destruct s1 as [|c3 s1]; [rewrite sapp_nil_l in E; by subst s2|].
      rewrite sapp_cons in E. injection E as _ E. destruct s1; [|done]. by destruct s2.
  - apply not_true_iff_false. intros [l E]%endswith_spec.
    destruct (string_snoc ds Hne) as (t&c&->).
    rewrite sforall_app in Hd. apply andb_true_iff in Hd as [_ Hd]. cbn in Hd.
    rewrite andb_true_r in Hd.
    change (String "-" (String k "")) with ("-" +:+ String k "") in E.
    rewrite <- !sapp_assoc in E. apply snoc_inj in E. congruence.
Qed.

Lemma str_of_Z_digits z : (0 < z)%Z → sforall is_digit (str_of_Z z) = true ∧ str_of_Z z ≠ "".
Proof. destruct z as [|p|p]; try lia. intros _. apply (pretty_N_digits (Npos p)). Qed.

(** A completed parameter string is the given one with neutral text after it. *)
Lemma classify_app a b : neutral "P" b → neutral "S" b → classify (a +:+ b) = classify a.
Proof. intros HP HS. unfold classify. by rewrite (marked_app "P"), (marked_app "S"). Qed.

Lemma classify_complete o e :
  data_representation o ∈ ["1"; "2"] → classify (complete o e) = classify e.
Proof.
  intros Hd. unfold complete.
  assert (classify (add_representation o e) = classify e) as Hr.
  { unfold add_representation. case_match; [|done].
    assert (data_representation o = "1" ∨ data_representation o = "2") as [->| ->] by set_solver;
      apply classify_app; split_and!; by vm_compute. }
  rewrite <- Hr. generalize (add_representation o e). intros e'.
  unfold add_announcement, announcement_due.
  destruct (0 <? _)%Z eqn:Hz; [|done]. cbn [andb]. case_match; [|done]. apply Z.ltb_lt in Hz.
  destruct (str_of_Z_digits _ Hz). by apply classify_app; apply digits_neutral.
Qed.

Lemma complete_idem o e : complete o (complete o e) = complete o e.
Proof.
  assert (∀ e', add_representation o (add_announcement o (add_representation o e')) =
                add_announcement o (add_representation o e')) as Hrep.
  { intros e'. assert (contains "-x " (add_representation o e') = true) as Hx.
    { unfold add_representation. destruct (contains "-x " e') eqn:E; cbn; [done|].
      apply contains_app_r, contains_spec. by exists " ", (data_representation o). }
    unfold add_representation at 1.
    assert (contains "-x " (add_announcement o (add_representation o e')) = true) as ->; [|done].
    unfold add_announcement. case_match; [by apply contains_app_l|done]. }
  unfold complete. rewrite Hrep. generalize (add_representation o e). intros e'.
  unfold add_announcement at 2 3. destruct (announcement_due o e') eqn:E.
  - unfold add_announcement, announcement_due. rewrite contains_app_r; [by rewrite andb_false_r|].
    apply contains_spec. by exists " ", (str_of_Z (periodic_announcement_ms o)).
  - unfold add_announcement. by rewrite E.
Qed.

(** ** What a run of a suite is *)

Definition case_ok (t : test_case) : Prop :=
  length (apps t) = length (tc_expected_codes t) ∧ tc_check_function t ≠ NotCallable.
#[export] Instance check_entry_eq_dec : EqDecision check_entry.
Proof. solve_decision. Defined.
#[export] Instance case_ok_dec t : Decision (case_ok t).
Proof. unfold case_ok. apply _. Defined.

Definition check_or_basic (t : test_case) : check_function :=
  match tc_check_function t with Callable f => f | _ => basic_check end.
Definition completed (o : options) (t : test_case) : test_case :=
  TestCase (complete o <$> apps t) (tc_expected_codes t) (tc_check_function t) (title t)
    (description t).

(** The suite after a run: the parameters of the selected cases are completed. *)
Definition suite_after (o : options) (s : suite) : suite :=
  (λ p : string * test_case, if selected o p.1 then (p.1, completed o p.2) else p) <$> s.
(** The names given with [--test] and [--disable-test] are test cases. *)
Definition names_known (o : options) (s : suite) : Prop :=
  (∀ l i, test_cases o = Some l → i ∈ l → i ∈ keys s) ∧
  (∀ l i, test_cases_disabled o = Some l → i ∈ l → i ∈ keys s).

Section driver_spec.
Context {R : Type} (exec : string → list string → list ReturnCode → check_function → result R).
Context (f : string → list string → list ReturnCode → check_function → R).
Context (Hexec : ∀ c p e k, exec c p e k = Ok (f c p e k)).

(** One run per selected case, in the order of the suite. *)
Definition runs_of (o : options) (suite_name : string) (s : suite) : list (string * R) :=
  (λ p : string * test_case,
     let case := suite_name +:+ "_" +:+ p.1 in
     (case, f case (complete o <$> apps p.2) (tc_expected_codes p.2) (check_or_basic p.2)))
  <$> filter (λ p : string * test_case, selected o p.1 = true) s.

Lemma run_cases_total o n items :
  Forall (λ p, case_ok p.2) items →
  run_cases exec o n items = Ok (suite_after o items, runs_of o n items).
Proof using Hexec.
  induction 1 as [|[name t] items [Hl Hc] _ IH]; [done|]. cbn in Hl, Hc.
  unfold runs_of, suite_after in *. rewrite filter_cons, fmap_cons. cbn [run_cases fst snd].
  destruct (selected o name) eqn:Hs; cbn [fst snd].
  - rewrite decide_True by done. unfold run_case, check_of.
    assert (check_of t = Ok (check_or_basic t)) as Hk
      by (unfold check_of, check_or_basic; by destruct (tc_check_function t)).
    unfold check_of in Hk. rewrite Hk. cbn. rewrite decide_True, Hexec, IH by done. done.
  - rewrite decide_False by done. by rewrite IH.
Qed.

Lemma run_suite_total o n s :
  names_known o s → Forall (λ p, case_ok p.2) s →
  run_suite exec o n s = Ok (suite_after o s, runs_of o n s).
Proof using Hexec.
  intros [H1 H2] Hok. unfold run_suite.
  rewrite !(proj2 (are_tests_spec s n _)) by done. cbn. by apply run_cases_total.
Qed.
End driver_spec.

Lemma keys_suite_after o s : keys (suite_after o s) = keys s.
Proof.
  unfold keys, suite_after. rewrite <- list_fmap_compose. apply list_fmap_ext.
  intros i p _. cbn. by case_match.
Qed.

Lemma completed_idem o t : completed o (completed o t) = completed o t.
Proof.
  unfold completed. cbn. f_equal. rewrite <- list_fmap_compose. apply list_fmap_ext.
  intros i e _. apply complete_idem.
Qed.

Lemma suite_after_idem o s : suite_after o (suite_after o s) = suite_after o s.
Proof.
  unfold suite_after. rewrite <- list_fmap_compose. apply list_fmap_ext. intros i [name t] _.
  cbn -[selected completed]. destruct (selected o name) eqn:E; cbn -[selected completed]; rewrite E; [|done].
  by rewrite completed_idem.
Qed.

Lemma runs_of_after {R} (f : string → list string → list ReturnCode → check_function → R) o n s :
  runs_of f o n (suite_after o s) = runs_of f o n s.
Proof.
  unfold runs_of, suite_after. induction s as [|[name t] s IH]; [done|].
  rewrite fmap_cons, !filter_cons. cbn -[selected completed]. destruct (selected o name) eqn:E;
    cbn -[selected completed].
  - rewrite !decide_True by done. rewrite !fmap_cons, IH. cbn -[selected complete]. do 2 f_equal. f_equal.
    rewrite <- list_fmap_compose. apply list_fmap_ext. intros i e _. apply complete_idem.
  - rewrite E. rewrite !decide_False by done. done.
Qed.

(** ** Properties *)

(** A run of a suite whose test cases are well formed, with known names in the
    options, runs exactly the selected test cases, once each and in the order of the
    suite, with completed parameters, its expected codes and its checking function (the
    basic check where it names none); and it leaves the completed parameters in the
    suite. *)
Theorem run_suite_correct {R} (f : string → list string → list ReturnCode → check_function → R) o n s :
  names_known o s → Forall (λ p, case_ok p.2) s →
  run_suite (λ c p e k, Ok (f c p e k)) o n s = Ok (suite_after o s, runs_of f o n s).
Proof. by apply run_suite_total. Qed.

Definition demo_options : options :=
  Options "./connext_shape_main" "./other_shape_main" (Some ["B"]) None "2" 5000%Z.
Definition demo_suite : suite :=
  [("A", TestCase ["-P -t Square"] [OK] NoEntry "" "");
   ("B", TestCase ["-P -t Square"; "-S -t Square -x 1"] [OK; OK] (Callable no_check) "" "")].

Lemma run_suite_correct_witness :
  run_suite (λ c p e k, Ok p) demo_options "s" demo_suite =
  Ok (suite_after demo_options demo_suite,
      [("s_B", ["-P -t Square -x 2 --periodic-announcement 5000"; "-S -t Square -x 1"])]).
Proof.
  refine (run_suite_correct (λ c p e k, p) demo_options "s" demo_suite _ _).
  - split; [|done]. intros l i [= <-] Hi. apply list_elem_of_singleton in Hi as ->.
    right. left.
  - apply (bool_decide_unpack _). vm_compute. exact I.
Defined.

(** An unknown name after [--test] or [--disable-test] is a RuntimeError, and no
    test case is run. *)
Theorem run_suite_unknown_name {R} (exec : string → list string → list ReturnCode → check_function → result R)
    o n s :
  ¬ names_known o s → run_suite exec o n s = Raise RuntimeError.
Proof.
  intros H. unfold run_suite.
  destruct (are_tests_in_test_suite s n (test_cases o)).1 eqn:E1; [|done].
  destruct (are_tests_in_test_suite s n (test_cases_disabled o)).1 eqn:E2; [|done].
  exfalso. apply H. rewrite are_tests_spec in E1, E2. by split.
Qed.

Lemma run_suite_unknown_name_witness :
  run_suite (λ _ _ _ _, Raise (A:=unit) ValueError) demo_options "s" [] = Raise RuntimeError.
Proof.
  apply run_suite_unknown_name. intros [H _].
  exact (not_elem_of_nil "B" (H ["B"] "B" eq_refl (list_elem_of_here "B" []))).
Defined.

(** completing the parameters in place is harmless: running a suite again, on the
    lists that the first run has changed, runs the same tests with the same parameters
    and changes nothing more. *)
Theorem run_suite_again {R} (f : string → list string → list ReturnCode → check_function → R)
    o n s s' runs :
  run_suite (λ c p e k, Ok (f c p e k)) o n s = Ok (s', runs) →
  names_known o s → Forall (λ p, case_ok p.2) s →
  run_suite (λ c p e k, Ok (f c p e k)) o n s' = Ok (s', runs).
Proof.
  intros Hrun [H1 H2] Hok. rewrite (run_suite_total _ f) in Hrun by done.
  injection Hrun as <- <-. rewrite (run_suite_total _ f); [| |split|]; try done.
  - by rewrite suite_after_idem, runs_of_after.
  - by rewrite keys_suite_after.
  - by rewrite keys_suite_after.
  - unfold suite_after. apply Forall_fmap. eapply Forall_impl; [exact Hok|].
    intros [name t] [Hl Hc]. cbn -[selected]. case_match; [|done].
    split; cbn; [by rewrite length_fmap|done].
Qed.

Lemma run_suite_again_witness :
  run_suite (λ c p e k, Ok p) demo_options "s" (suite_after demo_options demo_suite) =
  Ok (suite_after demo_options demo_suite,
      [("s_B", ["-P -t Square -x 2 --periodic-announcement 5000"; "-S -t Square -x 1"])]).
Proof.
  apply (run_suite_again (λ c p e k, p) demo_options "s" demo_suite).
  - vm_compute. reflexivity.
  - split; [|done]. intros l i [= <-] Hi. apply list_elem_of_singleton in Hi as ->.
    right. left.
  - apply (bool_decide_unpack _). vm_compute. exact I.
Defined.

(** Completing the parameters never turns a publisher into a subscriber, or either
    into an error: with one of the two data representations that the option allows, a
    parameter string and its completion are classified alike. *)
Theorem complete_keeps_kind o e :
  data_representation o ∈ ["1"; "2"] → classify (complete o e) = classify e.
Proof. apply classify_complete. Qed.

Lemma complete_keeps_kind_witness :
  classify (complete demo_options "-t Square -P") = Ok Publisher.
Proof.
  refine (eq_trans (complete_keeps_kind demo_options "-t Square -P" _) _).
  - right. left.
  - vm_compute. reflexivity.
Defined.
