(* ===== verification/TestSuite.v ===== *)
(** * The test suite (test_suite.py)

    The dictionary [rtps_test_suite_1], in the pieces of its comments, and what its
    test cases have in common: they are well formed, and the codes they expect are those
    that the request/offered rules of DDS give for their parameters.  [dq] is a double
    quote; [text] joins the lines of a description. *)

From S2P Require Import Prelude PyStr PyDict Utilities CheckFunctions InstanceChecks RunTest Suite.
From stdpp Require Import options.
Local Open Scope string_scope.

(** The names of the checking functions. *)
Import CheckFunctions.

Definition dq : string := String (ascii_of_nat 34) "".
Definition text (lines : list string) : string := join newline lines.
(** [{tsf.MAX_SAMPLES_READ}], and the floats [{tsf.MAX_SAMPLES_READ / 2}] and
    [{tsf.MAX_SAMPLES_READ / 10}]. *)
Definition max_samples : string := str_of_nat MAX_SAMPLES_READ.
Definition half_samples : string := str_of_nat (MAX_SAMPLES_READ / 2) +:+ ".0".
Definition tenth_samples : string := str_of_nat (MAX_SAMPLES_READ / 10) +:+ ".0".

Definition suite_Domain : suite := [
  ("Test_Domain_0", TestCase
     ["-P -t Square -d 0"; "-S -t Square -d 0 -b"]
     [OK; OK] (NoEntry)
     ("Communication using Domain ID 0")
     (text [
      "This test covers the most basic interoperability scenario:";
      "";
      " * Configures the publisher / subscriber with Domain ID 0";
      " * Configures the subscriber with BEST_EFFORT reliability";
      "";
      "The tests passes if the publisher and subscriber discover and match each other and the subscriber receives the data from the publisher";
      ""]));
  ("Test_Domain_1", TestCase
     ["-P -t Square -d 0"; "-S -t Square -d 1"]
     [READER_NOT_MATCHED; DATA_NOT_RECEIVED] (NoEntry)
     ("No communication between publisher and subscriber in a different Domain IDs")
     (text [
      "Verifies that there is no communication between a publisher configured with Domain ID 0 and a subscriber configured with Domain ID 1:";
      "";
      " * Configures the publisher with Domain ID 0";
      " * Configures the subscriber with Domain ID 1";
      "";
      "The tests passes if the publisher and subscriber do not discover each other";
      ""]));
  ("Test_Domain_2", TestCase
     ["-P -t Square -d 1"; "-S -t Square -d 1 -b"]
     [OK; OK] (NoEntry)
     ("Communication using Domain ID 1")
     (text [
      "This test covers interoperability in a non-default Domain ID:";
      "";
      " * Configures the publisher / subscriber with Domain ID 1";
      " * Configures the subscriber with BEST_EFFORT reliability";
      " * Verifies the publisher and subscriber discover and match each other";
      "";
      "The tests passes if the subscriber receives samples from the publisher";
      ""]))].

Definition suite_DataRepresentation : suite := [
  ("Test_DataRepresentation_0", TestCase
     ["-P -t Square -x 1"; "-S -t Square -x 1"]
     [OK; OK] (NoEntry)
     ("Default communication using XCDR1")
     (text [
      "This test covers the interoperability scenario with XCDR1:";
      "";
      " * Configures the publisher / subscriber with DATA_REPRESENTATION XCDR version 1";
      " * Verifies the publisher and subscriber discover and match each other";
      "";
      "The tests passes if the subscriber receives samples from the publisher";
      ""]));
  ("Test_DataRepresentation_1", TestCase
     ["-P -t Square -x 1"; "-S -t Square -x 2"]
     [INCOMPATIBLE_QOS; INCOMPATIBLE_QOS] (NoEntry)
     ("Incompatibility publishing XCDR1 and subscribing XCDR2")
     (text [
      "Verifies an XDCR1 publisher does not match with an XCDR2 subscriber and report an IncompatibleQos notification";
      "";
      " * Configures the publisher with XCDR1 data representation";
      " * Configures the subscriber with XCDR2 data representation";
      "";
      "The test passes if the listeners trigger the IncompatibleQos notification in the publisher and the subscriber";
      ""]));
  ("Test_DataRepresentation_2", TestCase
     ["-P -t Square -x 2"; "-S -t Square -x 1"]
     [INCOMPATIBLE_QOS; INCOMPATIBLE_QOS] (NoEntry)
     ("Incompatibility publishing XCDR2 and subscribing XCDR1")
     (text [
      "Verifies an XDCR2 publisher does not match with an XCDR1 subscriber and report an IncompatibleQos notification";
      "";
      " * Configures the publisher with XCDR2 data representation";
      " * Configures the subscriber with XCDR1 data representation";
      "";
      "The test passes if the listeners trigger the IncompatibleQos notification in the publisher and the subscriber";
      ""]));
  ("Test_DataRepresentation_3", TestCase
     ["-P -t Square -x 2"; "-S -t Square -x 2 -b"]
     [OK; OK] (NoEntry)
     ("Default communication using XCDR2")
     (text [
      "This test covers the interoperability scenario with XCDR2:";
      "";
      " * Configures publisher / subscriber with DATA_REPRESENTATION XCDR version 2";
      " * Verifies the publisher and subscriber discover and match each other";
      "";
      "The tests passes if the subscriber receives samples from the publisher";
      ""]))].

Definition suite_Reliability : suite := [
  ("Test_Reliability_0", TestCase
     ["-P -t Square -b -z 0"; "-S -t Square -b"]
     [OK; OK] (Callable test_order_w_instances)
     ("Communication between BEST_EFFORT publisher and subscriber")
     (text [
      "Verifies a best effort publisher communicates with a best effort subscriber with no out-of-order or duplicate samples";
      "";
      " * Configures the publisher and subscriber with a BEST_EFFORT reliability";
      " * Verifies the publisher and subscriber discover and match each other";
      " * The publisher application sends samples with increasing value of the " +:+ dq +:+ "size" +:+ dq +:+ " member";
      " * Verifies the subscriber application receives samples and the value of the " +:+ dq +:+ "size" +:+ dq +:+ " member is always increasing";
      "";
      "The test passes if the value of the " +:+ dq +:+ "size" +:+ dq +:+ " is always increasing in " +:+ max_samples +:+ " samples read, even if there are missed samples (since reliability is BEST_EFFORT) as long as there are no out-of-order or duplicated samples";
      ""]));
  ("Test_Reliability_1", TestCase
     ["-P -t Square -b"; "-S -t Square -r"]
     [INCOMPATIBLE_QOS; INCOMPATIBLE_QOS] (NoEntry)
     ("BEST_EFFORT publisher do not match RELIABLE subscribers")
     (text [
      "Verifies a best effort publisher does not match with a reliable subscriber and report an IncompatibleQos notification";
      "";
      " * Configures the publisher with BEST_EFFORT reliability";
      " * Configures the publisher with RELIABLE reliability";
      "";
      "The test passes if the listeners trigger the IncompatibleQos notification in the publisher and the subscriber";
      ""]));
  ("Test_Reliability_2", TestCase
     ["-P -t Square -r"; "-S -t Square -b"]
     [OK; OK] (NoEntry)
     ("Communication between RELIABLE publisher and BEST_EFFORT subscriber")
     (text [
      "Verifies a reliable publisher communicates with a best effort subscriber";
      "";
      " * Configures the publisher with a RELIABLE reliability";
      " * Configures the subscriber with a BEST_EFFORT reliability";
      " * Verifies the publisher and subscriber discover and match each other";
      "";
      "The test passes if the subscriber receives samples from the publisher";
      ""]));
  ("Test_Reliability_3", TestCase
     ["-P -t Square -r"; "-S -t Square -r"]
     [OK; OK] (NoEntry)
     ("Communication using reliability RELIABLE")
     (text [
      "Verifies a reliable publisher communicates with a reliable subscriber";
      "";
      " * Configures the publisher / subscriber with a RELIABLE reliability";
      " * Verifies the publisher and subscriber discover and match each other";
      "";
      "The test passes if the subscriber receives samples from the publisher";
      ""]));
  ("Test_Reliability_4", TestCase
     ["-P -t Square -r -k 0 -z 0"; "-S -t Square -r -k 0"]
     [OK; OK] (Callable test_reliability_no_losses_w_instances)
     ("Behavior of RELIABLE reliability")
     (text [
      "Verifies a RELIABLE publisher communicates with a RELIABLE subscriber and samples are received in order without any losses or duplicates";
      "";
      " * Configures the publisher and subscriber with a RELIABLE reliability";
      " * Configures the publisher and subscriber with history KEEP_ALL";
      " * Verifies the publisher and subscriber discover and match each other";
      "";
      "The test passes if the subscriber, after receiving a (first) sample from the publisher, it receives the next " +:+ max_samples +:+ " subsequent samples read, without losses or duplicates, in the same order as sent";
      ""]));
  ("Test_Reliability_5", TestCase
     ["-P -t Square -r -k 0 -z 0 --num-instances 4"; "-S -t Square -r -k 0"]
     [OK; OK] (Callable test_reliability_no_losses_w_instances)
     ("Behavior of RELIABLE reliability with several instances")
     (text [
      "Verifies a RELIABLE publisher using 4 instances communicates with a RELIABLE subscriber and samples are received in order without any losses or duplicates";
      "";
      " * Configures the publisher and subscriber with a RELIABLE reliability";
      " * Configures the publisher and subscriber with history KEEP_ALL";
      " * The publisher publishes 4 different instances (using the same data value)";
      " * The publisher application sends samples with increasing value of the " +:+ dq +:+ "size" +:+ dq +:+ " member";
      " * Verifies the publisher and subscriber discover and match each other";
      "";
      "The test passes if the subscriber, after receiving a (first) sample from the publisher, it receives " +:+ max_samples +:+ " subsequent samples per instance, without losses or duplicates, in the same order as sent";
      ""]))].

Definition suite_History : suite := [
  ("Test_History_0", TestCase
     ["-P -t Square -r -k 5 -z 0 --write-period 50"; "-S -t Square -r -k 5 --read-period 200"]
     [OK; OK] (Callable test_reliability_no_losses_w_instances)
     ("Behavior of KEEP_LAST history")
     (text [
      "Verifies a RELIABLE, KEEP_LAST 5 publisher using communicates with a RELIABLE, KEEP_LAST 5 subscriber and samples are received in order without any losses or duplicates. The subscriber reads data 4 time slower thanthe publisher publishes it, but the KEEP_LAST 5 history should beenough to avoid losses.";
      "";
      " * Configures the publisher and subscriber with a RELIABLE reliability";
      " * Configures the publisher and subscriber with history KEEP_LAST 5";
      " * Configures the publisher with a writing period of 50ms";
      " * Configures the subscriber with a reading period of 200ms";
      " * The publisher application sends samples with increasing value of the " +:+ dq +:+ "size" +:+ dq +:+ " member";
      " * Verifies the publisher and subscriber discover and match each other";
      "";
      "The test passes if the subscriber, after receiving a (first) sample from the publisher, it receives the next " +:+ max_samples +:+ " subsequent samples, without losses or duplicates, in the same order as sent.";
      ""]));
  ("Test_History_1", TestCase
     ["-P -t Square -r -k 5 -z 0 --write-period 50 --num-instances 4"; "-S -t Square -r -k 5 --read-period 200"]
     [OK; OK] (Callable test_reliability_no_losses_w_instances)
     ("Behavior of KEEP_LAST history with several instances")
     (text [
      "Verifies a RELIABLE, KEEP_LAST 5 publisher using 4 instances communicates with a RELIABLE, KEEP_LAST 5 subscriber and samples are received in order without any losses or duplicates. The subscriber reads data 4 time slower thanthe publisher publishes it, but the KEEP_LAST 5 history should beenough to avoid losses.";
      "";
      " * Configures the publisher and subscriber with a RELIABLE reliability";
      " * Configures the publisher and subscriber with history KEEP_LAST 5";
      " * Configures the publisher with a writing period of 50ms";
      " * Configures the subscriber with a reading period of 200ms";
      " * The publisher publishes 4 different instances (using the same data value)";
      " * The publisher application sends samples with increasing value of the " +:+ dq +:+ "size" +:+ dq +:+ " member";
      " * Verifies the publisher and subscriber discover and match each other";
      "";
      "The test passes if the subscriber, after receiving a (first) sample from the publisher, it receives " +:+ max_samples +:+ " subsequent samples per instance, without losses or duplicates, in the same order as sent";
      ""]))].

Definition suite_Ownership_a : suite := [
  ("Test_Ownership_0", TestCase
     ["-P -t Square -s -1"; "-S -t Square -s -1"]
     [OK; OK] (NoEntry)
     ("Communication between SHARED OWNERSHIP publisher and subscriber")
     (text [
      "Verifies a shared ownership publisher communicates with a shared ownership subscriber";
      "";
      " * Configures the publisher / subscriber with SHARED ownership";
      " * Verifies the publisher and subscriber discover and match each other";
      "";
      "The test passes if the subscriber receives samples from the publisher";
      ""]));
  ("Test_Ownership_1", TestCase
     ["-P -t Square -s -1"; "-S -t Square -s 1"]
     [INCOMPATIBLE_QOS; INCOMPATIBLE_QOS] (NoEntry)
     ("Incompatibility between SHARED OWNERSHIP publisher and EXCLUSIVE OWNERSHIP subscriber")
     (text [
      "Verifies a shared ownership publisher does not match with an exclusive ownership subscriber and report an IncompatibleQos notification";
      "";
      " * Configures the publisher with SHARED ownership";
      " * Configures the subscriber with EXCLUSIVE ownership";
      "";
      "The test passes if the listeners trigger the IncompatibleQos notification in the publisher and the subscriber";
      ""]));
  ("Test_Ownership_2", TestCase
     ["-P -t Square -s 3"; "-S -t Square -s -1"]
     [INCOMPATIBLE_QOS; INCOMPATIBLE_QOS] (NoEntry)
     ("Incompatibility between EXCLUSIVE OWNERSHIP publisher and SHARED OWNERSHIP subscriber")
     (text [
      "Verifies a exclusive ownership publisher does not match with an shared ownership subscriber and report an IncompatibleQos notification";
      "";
      " * Configures the publisher with EXCLUSIVE ownership";
      " * Configures the subscriber with SHARED ownership";
      "";
      "The test passes if the listeners trigger the IncompatibleQos notification in the publisher and the subscriber";
      ""]));
  ("Test_Ownership_3", TestCase
     ["-P -t Square -s 3 -r -k 0 -c BLUE -z 20"; "-P -t Square -s 4 -r -k 0 -c BLUE -z 30"; "-S -t Square -s 1 -r -k 0"]
     [OK; OK; RECEIVING_FROM_ONE] (Callable test_size_receivers)
     ("Behavior of EXCLUSIVE OWNERSHIP QoS with publishers of the same instance")
     (text [
      "Verifies an exclusive ownership subscriber receives samples only from the highest ownership strength publisher of the same instance";
      "";
      " * Use RELIABLE Qos in all publishers and subscriber to avoid samples losses";
      " * Use KEEP_ALL HISTORY Qos in all publishers and subscriber";
      " * Configures a first publisher with EXCLUSIVE ownership with strength of 3";
      " * Configures the first publisher to publish samples with " +:+ dq +:+ "color" +:+ dq +:+ " equal to " +:+ dq +:+ "BLUE" +:+ dq +:+ " and " +:+ dq +:+ "size" +:+ dq +:+ " equal to 20";
      " * Configures a second publisher with EXCLUSIVE ownership and strength of 4";
      " * Configures the second publisher to publish samples with " +:+ dq +:+ "color" +:+ dq +:+ " equal to " +:+ dq +:+ "BLUE" +:+ dq +:+ "  and " +:+ dq +:+ "size" +:+ dq +:+ " equal to 30";
      " * Configures a subscriber with EXCLUSIVE ownership";
      " * Verifies that both publishers discover and match the subscriber and vice-versa";
      " * Note that the subscriber may start receiving samples from the lower ownership strength publisher if it is created before the highest strength ownership publisher. This behavior is expected and those samples are ignored";
      "";
      "The test passes if the subscriber receives samples from the highest strength publisher only (after receiving the first sample of that publisher. The subscriber reads " +:+ max_samples +:+ " samples in total";
      ""]));
  ("Test_Ownership_4", TestCase
     ["-P -t Square -s 3 -r -k 0 -c BLUE -z 20"; "-P -t Square -s 4 -r -k 0 -c RED -z 30"; "-S -t Square -s 1 -r -k 0"]
     [OK; OK; RECEIVING_FROM_BOTH] (Callable test_size_receivers)
     ("Behavior of EXCLUSIVE OWNERSHIP QoS with publishers with different instances")
     (text [
      "Verifies an exclusive ownership subscriber receives samples from different publishers that publish different instances (ShapeType with different color)";
      "";
      " * Use RELIABLE Qos in all publishers and subscriber to avoid samples losses";
      " * Use KEEP_ALL HISTORY Qos in all publishers and subscriber";
      " * Configures a first publisher with EXCLUSIVE ownership with strength of 3";
      " * Configures the first publisher to publish samples with " +:+ dq +:+ "color" +:+ dq +:+ " equal to " +:+ dq +:+ "BLUE" +:+ dq +:+ "  and " +:+ dq +:+ "size" +:+ dq +:+ " equal to 20";
      " * Configures a second publisher with EXCLUSIVE ownership and strength of 4";
      " * Configures the second publisher to publish samples with " +:+ dq +:+ "color" +:+ dq +:+ " equal to " +:+ dq +:+ "RED" +:+ dq +:+ " and " +:+ dq +:+ "size" +:+ dq +:+ " equal to 30";
      " * Configures a subscriber with EXCLUSIVE ownership";
      " * Verifies that both publishers discover and match the subscriber and vice-versa";
      "";
      "The test passes if the subscriber receives samples from both publishers in the first " +:+ max_samples +:+ " samples";
      ""]));
  ("Test_Ownership_5", TestCase
     ["-P -t Square -s -1 -r -k 0 -c BLUE -z 20"; "-P -t Square -s -1 -r -k 0 -c BLUE -z 30"; "-S -t Square -s -1 -r -k 0"]
     [OK; OK; RECEIVING_FROM_BOTH] (Callable test_size_receivers)
     ("Behavior of SHARED OWNERSHIP QoS with publishers with the same instance")
     (text [
      "Verifies a shared ownership subscriber receives samples from all shared ownership publishers of the different instances";
      "";
      " * Use RELIABLE Qos in all publishers and subscriber to avoid samples losses";
      " * Use KEEP_ALL HISTORY Qos in all publishers and subscriber";
      " * Configures a first publisher with SHARED ownership";
      " * Configures the first publisher to publish samples with " +:+ dq +:+ "color" +:+ dq +:+ " equal to " +:+ dq +:+ "BLUE" +:+ dq +:+ " and " +:+ dq +:+ "size" +:+ dq +:+ " equal to 20";
      " * Configures a second publisher with SHARED ownership";
      " * Configures the second publisher to publish samples with " +:+ dq +:+ "color" +:+ dq +:+ " equal to " +:+ dq +:+ "BLUE" +:+ dq +:+ " and " +:+ dq +:+ "size" +:+ dq +:+ " equal to 30";
      " * Configures a subscriber with SHARED ownership";
      " * Verifies that both publishers discover and match the subscriber and vice-versa";
      "";
      "The test passes if the subscriber receives samples from both publishers in the first " +:+ max_samples +:+ " samples";
      ""]))].

Definition suite_Ownership_b : suite := [
  ("Test_Ownership_6", TestCase
     ["-P -t Square -s -1 -r -k 0 -c BLUE -z 20"; "-P -t Square -s -1 -r -k 0 -c RED -z 30"; "-S -t Square -s -1 -r -k 0"]
     [OK; OK; RECEIVING_FROM_BOTH] (Callable test_size_receivers)
     ("Behavior of SHARED OWNERSHIP QoS with different instances")
     (text [
      "Verifies a shared ownership subscriber receives samples from all shared ownership publishers of different instances";
      "";
      " * Use RELIABLE Qos in all publishers and subscriber to avoid samples losses";
      " * Use KEEP_ALL HISTORY Qos in all publishers and subscriber";
      " * Configures a first publisher with SHARED ownership with strength of 3";
      " * Configures the first publisher to publish samples with " +:+ dq +:+ "color" +:+ dq +:+ " equal to " +:+ dq +:+ "BLUE" +:+ dq +:+ " and " +:+ dq +:+ "size" +:+ dq +:+ " equal to 20";
      " * Configures a second publisher with SHARED ownership and strength of 4";
      " * Configures the second publisher to publish samples with " +:+ dq +:+ "color" +:+ dq +:+ " equal to " +:+ dq +:+ "RED" +:+ dq +:+ " and " +:+ dq +:+ "size" +:+ dq +:+ " equal to 30";
      " * Configures a subscriber with SHARED ownership";
      " * Verifies that both publishers discover and match the subscriber and vice-versa";
      "";
      "The test passes if the subscriber receives samples from both publishers in the first " +:+ max_samples +:+ " samples";
      ""]))].

Definition suite_Deadline : suite := [
  ("Test_Deadline_0", TestCase
     ["-P -t Square -f 3000"; "-S -t Square -f 5000"]
     [OK; OK] (NoEntry)
     ("Communication with publisher deadline smaller than subscriber deadline")
     (text [
      "Verifies there is communication between a publisher with a deadline smaller than the subscriber";
      "";
      " * Configures the publisher with DEADLINE of 3 seconds";
      " * Configures the subscriber with DEADLINE of 5 seconds";
      " * Verifies the publisher and subscriber discover and match each other";
      "";
      "The test passes if the subscriber receives samples from the publisher";
      ""]));
  ("Test_Deadline_1", TestCase
     ["-P -t Square -f 5000"; "-S -t Square -f 5000"]
     [OK; OK] (NoEntry)
     ("Communication with the same publisher and subscriber deadlines")
     (text [
      "Verifies there is communication between a publisher with the same deadline as the subscriber";
      "";
      " * Configures the publisher with DEADLINE of 5 seconds";
      " * Configures the subscriber with DEADLINE of 5 seconds";
      " * Verifies the publisher and subscriber discover and match each other";
      "";
      "The test passes if the subscriber receives samples from the publisher";
      ""]));
  ("Test_Deadline_2", TestCase
     ["-P -t Square -f 7000"; "-S -t Square -f 5000"]
     [INCOMPATIBLE_QOS; INCOMPATIBLE_QOS] (NoEntry)
     ("No compatibility with publisher deadline higher than subscriber deadline")
     (text [
      "Verifies there is no communication between a publisher with a higher deadline than the subscriber and both report an IncompatibleQos notification";
      "";
      " * Configures the publisher with DEADLINE of 7 seconds";
      " * Configures the publisher with DEADLINE of 5 seconds";
      "";
      "The test passes if the listeners trigger the IncompatibleQos notification in the publisher and the subscriber";
      ""]));
  ("Test_Deadline_3", TestCase
     ["-P -t Square -f 2000 -w --write-period 3000"; "-S -t Square -f 2000"]
     [DEADLINE_MISSED; DEADLINE_MISSED] (Callable test_deadline_missed)
     ("Deadline is missed in both, publisher and subscriber")
     (text [
      "Verifies that publisher and subscriber miss the deadline";
      "";
      " * Configures the publisher with DEADLINE of 2 seconds";
      " * Configures the subscriber with DEADLINE of 2 seconds";
      " * Configures the write period to 3 seconds";
      " * Verifies the publisher and subscriber discover and match each other";
      "";
      "The test passes if the listeners trigger the DeadlineMissed notification in the publisher and the subscriber";
      ""]))].

Definition suite_Topic : suite := [
  ("Test_Topic_0", TestCase
     ["-P -t Circle"; "-S -t Circle"]
     [OK; OK] (NoEntry)
     ("Communication using the same topic: Circle")
     (text [
      "Verifies communication between a publisher and a subscriber using a specific topic (" +:+ dq +:+ "Circle" +:+ dq +:+ ")";
      "";
      " * Configures the publisher and subscriber to use the topic name " +:+ dq +:+ "Circle" +:+ dq;
      " * Verifies the publisher and subscriber discover and match each other";
      "";
      "The test passes if the subscriber receives samples from the publisher";
      ""]));
  ("Test_Topic_1", TestCase
     ["-P -t Square"; "-S -t Circle"]
     [READER_NOT_MATCHED; DATA_NOT_RECEIVED] (NoEntry)
     ("No communication when publisher and subscriber are using different topics")
     (text [
      "Verifies that there is no communication between a publisher using topic " +:+ dq +:+ "Square" +:+ dq +:+ " and a subscriber using topic " +:+ dq +:+ "Circle" +:+ dq;
      "";
      " * Configures the publisher to use the topic name " +:+ dq +:+ "Square" +:+ dq;
      " * Configures the subscriber to use the topic name " +:+ dq +:+ "Circle" +:+ dq;
      "";
      "The test passes if the publisher and subscriber do not discover each other";
      ""]))].

Definition suite_Cft : suite := [
  ("Test_Cft_0", TestCase
     ["-P -t Square -r -k 0 -c BLUE"; "-P -t Square -r -k 0 -c RED"; "-S -t Square -r -k 0 -c RED"]
     [OK; OK; RECEIVING_FROM_ONE] (Callable test_color_receivers)
     ("Use of Content filter to avoid receiving undesired data (key)")
     (text [
      "Verifies a subscription using a ContentFilteredTopic does not receive data that does not pass the filter. The filter is applied to the key " +:+ dq +:+ "color" +:+ dq;
      "";
      " * Configures a subscriber with a ContentFilteredTopic that selects only the shapes that have " +:+ dq +:+ "color" +:+ dq +:+ " equal to " +:+ dq +:+ "RED" +:+ dq;
      " * Configures a first publisher to publish samples with " +:+ dq +:+ "color" +:+ dq +:+ " equal to " +:+ dq +:+ "BLUE" +:+ dq;
      " * Configures a second publisher to publish samples with " +:+ dq +:+ "color" +:+ dq +:+ " equal to " +:+ dq +:+ "RED" +:+ dq;
      " * Use RELIABLE Qos in all publishers and subscriber to ensure any samples that are not received are due to filtering";
      " * Configures the publishers / subscriber with history KEEP_ALL";
      " * Verifies that both publishers discover and match the subscriber and vice-versa";
      " * Note that this test does not check whether the filtering happens in the publisher side or the subscriber side. It only checks the middleware filters the samples somewhere.";
      "";
      "The test passes if the subscriber receives " +:+ max_samples +:+ " samples of one color";
      ""]));
  ("Test_Cft_1", TestCase
     ["-P -t Square -r -k 0 -z 0 --size-modulo 50"; "-S -t Square -r -k 0 --cft " +:+ dq +:+ "shapesize <= 20" +:+ dq]
     [OK; OK] (Callable test_size_less_than_20)
     ("Use of Content filter to avoid receiving undesired data (non-key)")
     (text [
      "Verifies a subscription using a ContentFilteredTopic does not receive data that does not pass the filter. The filter is applied to the non-key member " +:+ dq +:+ "shapesize" +:+ dq +:+ ".";
      "";
      " * Use RELIABLE Qos in all publishers and subscriber to avoid samples losses";
      " * Configures the publisher / subscriber with history KEEP_ALL";
      " * The publisher application sends samples with increasing value of the " +:+ dq +:+ "size" +:+ dq +:+ " member";
      " * Publisher sends samples with size cycling from 1 to 50 (using --size-modulo 50 and -z 0)";
      " * Subscriber uses --cft " +:+ dq +:+ "shapesize <= 20" +:+ dq;
      "";
      "The test passes if the subscriber receives " +:+ half_samples +:+ " samples with size < 20";
      ""]))].

Definition suite_Partition : suite := [
  ("Test_Partition_0", TestCase
     ["-P -t Square -p " +:+ dq +:+ "p1" +:+ dq; "-S -t Square -p " +:+ dq +:+ "p1" +:+ dq]
     [OK; OK] (NoEntry)
     ("Communication between publisher and subscriber using the same partition")
     (text [
      "Verifies communication between a publisher and a subscriber using the same partition";
      "";
      " * Configures the publisher and subscriber to use the PARTITION " +:+ dq +:+ "p1" +:+ dq;
      " * Verifies the publisher and subscriber discover and match each other";
      "";
      "The test passes if the subscriber receives samples from the publisher";
      ""]));
  ("Test_Partition_1", TestCase
     ["-P -t Square -p " +:+ dq +:+ "p1" +:+ dq; "-S -t Square -p " +:+ dq +:+ "p2" +:+ dq]
     [READER_NOT_MATCHED; DATA_NOT_RECEIVED] (NoEntry)
     ("No communication between publisher and subscriber using different partitions")
     (text [
      "Verifies that there is no communication between a publisher using partition " +:+ dq +:+ "p1" +:+ dq +:+ " and a subscriber using partition " +:+ dq +:+ "p2" +:+ dq;
      "";
      " * Configures the publisher to use the PARTITION " +:+ dq +:+ "p1" +:+ dq;
      " * Configures the subscriber to use the PARTITION " +:+ dq +:+ "p2" +:+ dq;
      "";
      "The test passes if the publisher and subscriber do not discover each other";
      ""]));
  ("Test_Partition_2", TestCase
     ["-P -t Square -p " +:+ dq +:+ "p1" +:+ dq +:+ " -c BLUE"; "-P -t Square -p " +:+ dq +:+ "x1" +:+ dq +:+ " -c RED"; "-S -t Square -p " +:+ dq +:+ "p*" +:+ dq]
     [OK; READER_NOT_MATCHED; RECEIVING_FROM_ONE] (Callable test_color_receivers)
     ("Usage of a partition expression to receive data only from the corresponding publishers")
     (text [
      "Verifies a subscription using a partition expression only receives data from the corresponding publishers";
      "";
      " * Configures a subscriber with a PARTITION expression " +:+ dq +:+ "p*" +:+ dq +:+ " that allows only matching publishers whose partition starts with " +:+ dq +:+ "p" +:+ dq;
      " * Configures a first publisher to use PARTITION " +:+ dq +:+ "p1" +:+ dq +:+ " and " +:+ dq +:+ "color" +:+ dq +:+ " equal to " +:+ dq +:+ "BLUE" +:+ dq;
      " * Configures a second publisher to use PARTITION " +:+ dq +:+ "x1" +:+ dq +:+ " and " +:+ dq +:+ "color" +:+ dq +:+ " equal to " +:+ dq +:+ "RED" +:+ dq;
      " * Verifies that only the first publisher (PARTITION " +:+ dq +:+ "p1" +:+ dq +:+ ") discovers and matches subscriber";
      " * Verifies that the second publisher (PARTITION " +:+ dq +:+ "x1" +:+ dq +:+ ") does not match the subscriber";
      "";
      "The test passes if the subscriber receives " +:+ max_samples +:+ " samples of one color (first publisher)";
      ""]))].

Definition suite_Durability_a : suite := [
  ("Test_Durability_0", TestCase
     ["-P -t Square -D v"; "-S -t Square -D v"]
     [OK; OK] (NoEntry)
     ("Communication between VOLATILE publisher and VOLATILE subscriber")
     (text [
      "Verifies a volatile publisher communicates with a volatile subscriber";
      "";
      " * Configures the publisher with a VOLATILE durability";
      " * Configures the subscriber with a VOLATILE durability";
      " * Verifies the publisher and subscriber discover and match each other";
      "";
      "The test passes if the subscriber receives samples from the publisher";
      ""]));
  ("Test_Durability_1", TestCase
     ["-P -t Square -D v"; "-S -t Square -D l"]
     [INCOMPATIBLE_QOS; INCOMPATIBLE_QOS] (NoEntry)
     ("No compatibility between VOLATILE publisher and TRANSIENT_LOCAL subscriber")
     (text [
      "Verifies a volatile publisher does not match with a transient local subscriber and report an IncompatibleQos notification";
      "";
      " * Configures the publisher with VOLATILE durability";
      " * Configures the subscriber with TRANSIENT_LOCAL durability";
      "";
      "The test passes if the listeners trigger the IncompatibleQos notification in the publisher and the subscriber";
      ""]));
  ("Test_Durability_2", TestCase
     ["-P -t Square -D v"; "-S -t Square -D t"]
     [INCOMPATIBLE_QOS; INCOMPATIBLE_QOS] (NoEntry)
     ("No compatibility between VOLATILE publisher and TRANSIENT subscriber")
     (text [
      "Verifies a volatile publisher does not match with a transient subscriber and report an IncompatibleQos notification";
      "";
      " * Configures the publisher with VOLATILE durability";
      " * Configures the subscriber with TRANSIENT durability";
      "";
      "The test passes if the listeners trigger the IncompatibleQos notification in the publisher and the subscriber";
      ""]));
  ("Test_Durability_3", TestCase
     ["-P -t Square -D v"; "-S -t Square -D p"]
     [INCOMPATIBLE_QOS; INCOMPATIBLE_QOS] (NoEntry)
     ("No compatibility between VOLATILE publisher and PERSISTENT subscriber")
     (text [
      "Verifies a volatile publisher does not match with a persistent subscriber and report an IncompatibleQos notification";
      "";
      " * Configures the publisher with VOLATILE durability";
      " * Configures the subscriber with PERSISTENT durability";
      "";
      "The test passes if the listeners trigger the IncompatibleQos notification in the publisher and the subscriber";
      ""]));
  ("Test_Durability_4", TestCase
     ["-P -t Square -D l"; "-S -t Square -D v"]
     [OK; OK] (NoEntry)
     ("Communication between TRANSIENT_LOCAL publisher and VOLATILE subscriber")
     (text [
      "Verifies a transient local publisher communicates with a volatile subscriber";
      "";
      " * Configures the publisher with a TRANSIENT_LOCAL durability";
      " * Configures the subscriber with a VOLATILE durability";
      " * Verifies the publisher and subscriber discover and match each other";
      "";
      "The test passes if the subscriber receives samples from the publisher";
      ""]));
  ("Test_Durability_5", TestCase
     ["-P -t Square -D l"; "-S -t Square -D l"]
     [OK; OK] (NoEntry)
     ("Communication between TRANSIENT_LOCAL publisher and TRANSIENT_LOCAL subscriber")
     (text [
      "Verifies a transient local publisher communicates with a transient local subscriber";
      "";
      " * Configures the publisher with a TRANSIENT_LOCAL durability";
      " * Configures the subscriber with a TRANSIENT_LOCAL durability";
      " * Verifies the publisher and subscriber discover and match each other";
      "";
      "The test passes if the subscriber receives samples from the publisher";
      ""]));
  ("Test_Durability_6", TestCase
     ["-P -t Square -D l"; "-S -t Square -D t"]
     [INCOMPATIBLE_QOS; INCOMPATIBLE_QOS] (NoEntry)
     ("No compatibility between TRANSIENT_LOCAL publisher and TRANSIENT subscriber")
     (text [
      "Verifies a transient local publisher does not match with a transient subscriber and report an IncompatibleQos notification";
      "";
      " * Configures the publisher with TRANSIENT_LOCAL durability";
      " * Configures the subscriber with TRANSIENT durability";
      "";
      "The test passes if the listeners trigger the IncompatibleQos notification in the publisher and the subscriber";
      ""]));
  ("Test_Durability_7", TestCase
     ["-P -t Square -D l"; "-S -t Square -D p"]
     [INCOMPATIBLE_QOS; INCOMPATIBLE_QOS] (NoEntry)
     ("No compatibility between TRANSIENT_LOCAL publisher and PERSISTENT subscriber")
     (text [
      "Verifies a transient local publisher does not match with a persistent subscriber and report an IncompatibleQos notification";
      "";
      " * Configures the publisher with TRANSIENT_LOCAL durability";
      " * Configures the subscriber with PERSISTENT durability";
      "";
      "The test passes if the listeners trigger the IncompatibleQos notification in the publisher and the subscriber";
      ""]));
  ("Test_Durability_8", TestCase
     ["-P -t Square -D t"; "-S -t Square -D v"]
     [OK; OK] (NoEntry)
     ("Communication between TRANSIENT publisher and VOLATILE subscriber")
     (text [
      "Verifies a transient publisher communicates with a volatile subscriber";
      "";
      " * Configures the publisher with a TRANSIENT durability";
      " * Configures the subscriber with a VOLATILE durability";
      " * Verifies the publisher and subscriber discover and match each other";
      "";
      "The test passes if the subscriber receives samples from the publisher";
      ""]));
  ("Test_Durability_9", TestCase
     ["-P -t Square -D t"; "-S -t Square -D l"]
     [OK; OK] (NoEntry)
     ("Communication between TRANSIENT publisher and TRANSIENT_LOCAL subscriber")
     (text [
      "Verifies a transient publisher communicates with a transient local subscriber";
      "";
      " * Configures the publisher with a TRANSIENT durability";
      " * Configures the subscriber with a TRANSIENT_LOCAL durability";
      " * Verifies the publisher and subscriber discover and match each other";
      "";
      "The test passes if the subscriber receives samples from the publisher";
      ""]));
  ("Test_Durability_10", TestCase
     ["-P -t Square -D t"; "-S -t Square -D t"]
     [OK; OK] (NoEntry)
     ("Communication between TRANSIENT publisher and TRANSIENT subscriber")
     (text [
      "Verifies a transient publisher communicates with a transient subscriber";
      "";
      " * Configures the publisher with a TRANSIENT durability";
      " * Configures the subscriber with a TRANSIENT durability";
      " * Verifies the publisher and subscriber discover and match each other";
      "";
      "The test passes if the subscriber receives samples from the publisher";
      ""]));
  ("Test_Durability_11", TestCase
     ["-P -t Square -D t"; "-S -t Square -D p"]
     [INCOMPATIBLE_QOS; INCOMPATIBLE_QOS] (NoEntry)
     ("No compatibility between TRANSIENT publisher and PERSISTENT subscriber")
     (text [
      "Verifies a transient publisher does not match with a persistent subscriber and report an IncompatibleQos notification";
      "";
      " * Configures the publisher with TRANSIENT durability";
      " * Configures the subscriber with PERSISTENT durability";
      "";
      "The test passes if the listeners trigger the IncompatibleQos notification in the publisher and the subscriber";
      ""]));
  ("Test_Durability_12", TestCase
     ["-P -t Square -D p"; "-S -t Square -D v"]
     [OK; OK] (NoEntry)
     ("Communication between PERSISTENT publisher and VOLATILE subscriber")
     (text [
      "Verifies a persistent publisher communicates with a volatile subscriber";
      "";
      " * Configures the publisher with a PERSISTENT durability";
      " * Configures the subscriber with a VOLATILE durability";
      " * Verifies the publisher and subscriber discover and match each other";
      "";
      "The test passes if the subscriber receives samples from the publisher";
      ""]))].

Definition suite_Durability_b : suite := [
  ("Test_Durability_13", TestCase
     ["-P -t Square -D p"; "-S -t Square -D l"]
     [OK; OK] (NoEntry)
     ("Communication between PERSISTENT publisher and TRANSIENT_LOCAL subscriber")
     (text [
      "Verifies a persistent publisher communicates with a transient local subscriber";
      "";
      " * Configures the publisher with a PERSISTENT durability";
      " * Configures the subscriber with a TRANSIENT_LOCAL durability";
      " * Verifies the publisher and subscriber discover and match each other";
      "";
      "The test passes if the subscriber receives samples from the publisher";
      ""]));
  ("Test_Durability_14", TestCase
     ["-P -t Square -D p"; "-S -t Square -D t"]
     [OK; OK] (NoEntry)
     ("Communication between PERSISTENT publisher and TRANSIENT subscriber")
     (text [
      "Verifies a persistent publisher communicates with a transient subscriber";
      "";
      " * Configures the publisher with a PERSISTENT durability";
      " * Configures the subscriber with a TRANSIENT durability";
      " * Verifies the publisher and subscriber discover and match each other";
      "";
      "The test passes if the subscriber receives samples from the publisher";
      ""]));
  ("Test_Durability_15", TestCase
     ["-P -t Square -D p"; "-S -t Square -D p"]
     [OK; OK] (NoEntry)
     ("Communication between PERSISTENT publisher and PERSISTENT subscriber")
     (text [
      "Verifies a persistent publisher communicates with a persistent subscriber";
      "";
      " * Configures the publisher with a PERSISTENT durability";
      " * Configures the subscriber with a PERSISTENT durability";
      " * Verifies the publisher and subscriber discover and match each other";
      "";
      "The test passes if the subscriber receives samples from the publisher";
      ""]));
  ("Test_Durability_16", TestCase
     ["-P -t Square -z 0 -r -k 0 -D v -w"; "-S -t Square -r -k 0 -D v"]
     [OK; OK] (Callable test_durability_volatile)
     ("Test the behavior of the VOLATILE durability")
     (text [
      "Verifies a volatile publisher and subscriber communicates and work as expected";
      "";
      " * Configures the publisher / subscriber with a VOLATILE durability";
      " * Configures the publisher / subscriber with a RELIABLE reliability";
      " * Configures the publisher / subscriber with history KEEP_ALL";
      " * The publisher application sends samples with increasing value of the " +:+ dq +:+ "size" +:+ dq +:+ " member";
      " * Verifies the publisher and subscriber discover and match each other";
      " * Note that there is at least 1 second delay between the creation of each entity";
      "";
      "The test passes if the first sample the subscriber receives is not the first sample that the publisher sent (by checking the " +:+ dq +:+ "size" +:+ dq +:+ " value).";
      ""]));
  ("Test_Durability_17", TestCase
     ["-P -t Square -z 0 -r -k 0 -D l -w"; "-S -t Square -r -k 0 -D l"]
     [OK; OK] (Callable test_durability_transient_local)
     ("Test the behavior of the TRANSIENT_LOCAL durability")
     (text [
      "Verifies a transient local publisher and subscriber communicates and work as expected";
      "";
      " * Configures the publisher / subscriber with a TRANSIENT_LOCAL durability";
      " * Configures the publisher / subscriber with a RELIABLE reliability";
      " * Configures the publisher / subscriber with history KEEP_ALL";
      " * The publisher application sends samples with increasing value of the " +:+ dq +:+ "size" +:+ dq +:+ " member";
      " * Verifies the publisher and subscriber discover and match each other";
      " * Note that there is at least 1 second delay between the creation of each entity";
      "";
      "The test passes if the first sample the subscriber receives is the first sample that the publisher sent (by checking the " +:+ dq +:+ "size" +:+ dq +:+ " value is equal to 1).";
      ""]))].

Definition suite_TimeBasedFilter : suite := [
  ("Test_TimeBasedFilter_0", TestCase
     ["-P -t Square -z 0 --write-period 100"; "-S -t Square --time-filter 1000"]
     [OK; OK] (Callable test_reading_1_sample_every_10_samples_w_instances)
     ("Test the behavior of the TIME_BASED_FILTER QoS")
     (text [
      "Verifies a subscriber with TIME_BASED_FILTER work as expected";
      "";
      " * Configures the publisher / subscriber with a RELIABLE reliability";
      " * Configures the publisher / subscriber with history KEEP_ALL";
      " * Configures the publisher with a writing period of 100ms";
      " * Configures the subscriber TIME_BASED_FILTER to 1 second";
      " * The publisher application sends samples with increasing value of the " +:+ dq +:+ "size" +:+ dq +:+ " member";
      " * Verifies the publisher and subscriber discover and match each other";
      "";
      "The test passes if the subscriber application receives a sample every 10 samples the publisher application has sent. The subscriber has to read " +:+ tenth_samples +:+ " samples";
      ""]));
  ("Test_TimeBasedFilter_1", TestCase
     ["-P -t Square -z 0 --write-period 100 --num-instances 4"; "-S -t Square --time-filter 1000"]
     [OK; OK] (Callable test_reading_1_sample_every_10_samples_w_instances)
     ("Test the behavior of the TIME_BASED_FILTER QoS with several instances")
     (text [
      "Verifies a subscriber with TIME_BASED_FILTER work as expected when the publisher publishes several instances";
      "";
      " * Configures the publisher / subscriber with a RELIABLE reliability";
      " * Configures the publisher / subscriber with history KEEP_ALL";
      " * Configures the publisher with a writing period of 100ms";
      " * The publisher publishes 4 different instances (using the same data value)";
      " * Configures the subscriber TIME_BASED_FILTER to 1 second";
      " * The publisher application sends samples with increasing value of the " +:+ dq +:+ "size" +:+ dq +:+ " member";
      " * Verifies the publisher and subscriber discover and match each other";
      "";
      "The test passes if the subscriber application receives a sample every 10 samples the publisher application has sent per instance. The subscriber has to read " +:+ tenth_samples +:+ " samples per instance";
      ""]))].

Definition suite_FinalInstanceState : suite := [
  ("Test_FinalInstanceState_0", TestCase
     ["-P -t Square --num-iterations 200 --num-instances 4 --final-instance-state u"; "-S -t Square"]
     [OK; OK] (Callable test_unregistering_w_instances)
     ("Test the behavior of unregistering instances")
     (text [
      "Verifies a subscriber receives NOT_ALIVE_NO_WRITERS when the publisher unregisters instances";
      "";
      " * Configures the publisher to unregister instances upon finalization";
      " * The publisher publishes 4 different instances (using the same data value)";
      " * The publisher finishes after running 200 iterations";
      " * Verifies the publisher and subscriber discover and match each other";
      "";
      "The test passes if the subscriber application receives some samples and then a NOT_ALIVE_NO_WRITERS per instance";
      ""]));
  ("Test_FinalInstanceState_1", TestCase
     ["-P -t Square --num-iterations 200 --num-instances 4 --final-instance-state d"; "-S -t Square"]
     [OK; OK] (Callable test_disposing_w_instances)
     ("Test the behavior of disposing instances")
     (text [
      "Verifies a subscriber receives NOT_ALIVE_DISPOSED when the publisher disposes instances";
      "";
      " * Configures the publisher to dispose instances upon finalization";
      " * The publisher publishes 4 different instances (using the same data value)";
      " * The publisher finishes after running 200 iterations";
      " * Verifies the publisher and subscriber discover and match each other";
      "";
      "The test passes if the subscriber application receives some samples and then a NOT_ALIVE_DISPOSED per instance";
      ""]));
  ("Test_FinalInstanceState_2", TestCase
     ["-P -t Square --num-iterations 200 --num-instances 4"; "-S -t Square"]
     [OK; OK] (Callable test_unregistering_w_instances)
     ("Test the instance state when finalizing the application")
     (text [
      "Verifies a subscriber receives NOT_ALIVE_NO_WRITERS when the publisher finishes without unregistering or disposing instances explicitly";
      "";
      " * The publisher publishes 4 different instances (using the same data value)";
      " * The publisher finishes after running 200 iterations";
      " * Verifies the publisher and subscriber discover and match each other";
      "";
      "The test passes if the subscriber application receives some samples and then a NOT_ALIVE_NO_WRITERS per instance";
      ""]))].

Definition suite_LargeData : suite := [
  ("Test_LargeData_0", TestCase
     ["-P -t Square -r -k 0 --additional-payload-size 100000"; "-S -t Square -r -k 0"]
     [OK; OK] (Callable test_large_data)
     ("Test large data")
     (text [
      "This test covers the interoperability scenario with large data:";
      "";
      " * Configures the publisher / subscriber with a RELIABLE reliability";
      " * Configures the publisher / subscriber with history KEEP_ALL";
      " * Configures the publisher to use 100000 additional payload size (to represent large data samples)";
      " * Verifies the publisher and subscriber discover and match each other";
      "";
      "The tests passes if the subscriber receives samples from the publisher and the last byte sent in additional_payload_size is correctly set.";
      ""]))].

Definition suite_Lifespan_a : suite := [
  ("Test_Lifespan_0", TestCase
     ["-P -t Square -r -k 0 -z 0 --write-period 100 --lifespan 250"; "-S -t Square -r -k 0 --read-period 500"]
     [OK; OK] (Callable test_lifespan_2_3_consecutive_samples_w_instances)
     ("Test the behavior of lifespan with fractions of seconds, reliable")
     (text [
      "Verifies a subscriber receives the expected samples when the publisher uses  lifespan with fractions of seconds";
      "";
      " * Configures the publisher / subscriber with a RELIABLE reliability";
      " * Configures the publisher / subscriber with history KEEP_ALL";
      " * Configures the publisher with a writing period of 100ms";
      " * Configures the publisher with a lifespan of 250ms";
      " * Configures the subscriber with a reading period of 500ms";
      " * The publisher application sends samples with increasing value of the " +:+ dq +:+ "size" +:+ dq +:+ " member";
      " * Verifies the publisher and subscriber discover and match each other";
      "";
      "The test passes if the subscriber application receives 2 or 3 consecutive samples each time it reads.";
      "As the publisher sets the lifespan, it expires in some samples before the subscriber reads data. The amount of consecutive samples read by the subscriber application is 2 or 3 each time. The subscriber has to read " +:+ tenth_samples +:+ " samples";
      ""]));
  ("Test_Lifespan_1", TestCase
     ["-P -t Square -r -k 0 -z 0 --write-period 100 --lifespan 250 --num-instances 4"; "-S -t Square -r -k 0 --read-period 500"]
     [OK; OK] (Callable test_lifespan_2_3_consecutive_samples_w_instances)
     ("Test the behavior of lifespan with fraction of seconds with several instances, reliable")
     (text [
      "Verifies a subscriber receives the expected samples when the publisher uses  lifespan with fraction of seconds and different instances";
      "";
      " * Configures the publisher / subscriber with a RELIABLE reliability";
      " * Configures the publisher / subscriber with history KEEP_ALL";
      " * Configures the publisher with a writing period of 100ms";
      " * Configures the publisher with a lifespan of 250ms";
      " * Configures the subscriber with a reading period of 500ms";
      " * The publisher publishes 4 different instances (using the same data value)";
      " * The publisher application sends samples with increasing value of the " +:+ dq +:+ "size" +:+ dq +:+ " member";
      " * Verifies the publisher and subscriber discover and match each other";
      "";
      "The test passes if the subscriber application receives 2 or 3 consecutive samples each time it reads.";
      "As the publisher sets the lifespan, it expires in some samples before the subscriber reads data. The amount of consecutive samples read by the subscriber application is 2 or 3 each time per instance. The subscriber has to read " +:+ tenth_samples +:+ " samples per instance";
      ""]));
  ("Test_Lifespan_2", TestCase
     ["-P -t Square -r -k 0 -z 0 --write-period 400 --lifespan 1000"; "-S -t Square -r -k 0 --read-period 2000"]
     [OK; OK] (Callable test_lifespan_2_3_consecutive_samples_w_instances)
     ("Test the behavior of lifespan expressed in seconds, reliable")
     (text [
      "Verifies a subscriber receives the expected samples when the publisher uses  lifespan in seconds";
      "";
      " * Configures the publisher / subscriber with a RELIABLE reliability";
      " * Configures the publisher / subscriber with history KEEP_ALL";
      " * Configures the publisher with a writing period of 400ms";
      " * Configures the publisher with a lifespan of 1s";
      " * Configures the subscriber with a reading period of 2s";
      " * The publisher application sends samples with increasing value of the " +:+ dq +:+ "size" +:+ dq +:+ " member";
      " * Verifies the publisher and subscriber discover and match each other";
      "";
      "The test passes if the subscriber application receives 2 or 3 consecutive samples each time it reads.";
      "As the publisher sets the lifespan, it expires in some samples before the subscriber reads data. The amount of consecutive samples read by the subscriber application is 2 or 3 each time. The subscriber has to read " +:+ tenth_samples +:+ " samples per instance";
      ""]));
  ("Test_Lifespan_3", TestCase
     ["-P -t Square -r -k 0 -z 0 --write-period 400 --lifespan 1000 --num-instances 4"; "-S -t Square -r -k 0 --read-period 2000"]
     [OK; OK] (Callable test_lifespan_2_3_consecutive_samples_w_instances)
     ("Test the behavior of lifespan expressed in seconds with several instances, reliable")
     (text [
      "Verifies a subscriber receives the expected samples when the publisher uses  lifespan in seconds, and different instances";
      "";
      " * Configures the publisher / subscriber with a RELIABLE reliability";
      " * Configures the publisher / subscriber with history KEEP_ALL";
      " * Configures the publisher with a writing period of 400ms";
      " * Configures the publisher with a lifespan of 1s";
      " * Configures the subscriber with a reading period of 2s";
      " * The publisher publishes 4 different instances (using the same data value)";
      " * The publisher application sends samples with increasing value of the " +:+ dq +:+ "size" +:+ dq +:+ " member";
      " * Verifies the publisher and subscriber discover and match each other";
      "";
      "The test passes if the subscriber application receives 2 or 3 consecutive samples each time it reads.";
      "As the publisher sets the lifespan, it expires in some samples before the subscriber reads data. The amount of consecutive samples read by the subscriber application is 2 or 3 each time per instance. The subscriber has to read " +:+ tenth_samples +:+ " samples per instance";
      ""]));
  ("Test_Lifespan_4", TestCase
     ["-P -t Square -b -z 0 --write-period 100 --lifespan 250"; "-S -t Square -b -k 0 --read-period 500"]
     [OK; OK] (Callable test_lifespan_2_3_consecutive_samples_w_instances)
     ("Test the behavior of lifespan with fractions of seconds, best effort")
     (text [
      "Verifies a subscriber receives the expected samples when the publisher uses  lifespan with fractions of seconds";
      "";
      " * Configures the publisher / subscriber with a BEST_EFFORT reliability";
      " * Configures the subscriber with history KEEP_ALL";
      " * Configures the publisher with a writing period of 100ms";
      " * Configures the publisher with a lifespan of 250ms";
      " * Configures the subscriber with a reading period of 500ms";
      " * The publisher application sends samples with increasing value of the " +:+ dq +:+ "size" +:+ dq +:+ " member";
      " * Verifies the publisher and subscriber discover and match each other";
      "";
      "The test passes if the subscriber application receives 2 or 3 consecutive samples each time it reads.";
      "As the publisher sets the lifespan, it expires in some samples before the subscriber reads data. The amount of consecutive samples read by the subscriber application is 2 or 3 each time. The subscriber has to read " +:+ tenth_samples +:+ " samples";
      ""]));
  ("Test_Lifespan_5", TestCase
     ["-P -t Square -b -z 0 --write-period 100 --lifespan 250 --num-instances 4"; "-S -t Square -b -k 0 --read-period 500"]
     [OK; OK] (Callable test_lifespan_2_3_consecutive_samples_w_instances)
     ("Test the behavior of lifespan with fraction of seconds with several instances, best effort")
     (text [
      "Verifies a subscriber receives the expected samples when the publisher uses  lifespan with fraction of seconds and different instances";
      "";
      " * Configures the publisher / subscriber with a BEST_EFFORT reliability";
      " * Configures the subscriber with history KEEP_ALL";
      " * Configures the publisher with a writing period of 100ms";
      " * Configures the publisher with a lifespan of 250ms";
      " * Configures the subscriber with a reading period of 500ms";
      " * The publisher publishes 4 different instances (using the same data value)";
      " * The publisher application sends samples with increasing value of the " +:+ dq +:+ "size" +:+ dq +:+ " member";
      " * Verifies the publisher and subscriber discover and match each other";
      "";
      "The test passes if the subscriber application receives 2 or 3 consecutive samples each time it reads.";
      "As the publisher sets the lifespan, it expires in some samples before the subscriber reads data. The amount of consecutive samples read by the subscriber application is 2 or 3 each time per instance. The subscriber has to read " +:+ tenth_samples +:+ " samples per instance";
      ""]))].

Definition suite_Lifespan_b : suite := [
  ("Test_Lifespan_6", TestCase
     ["-P -t Square -b -z 0 --write-period 400 --lifespan 1000"; "-S -t Square -b -k 0 --read-period 2000"]
     [OK; OK] (Callable test_lifespan_2_3_consecutive_samples_w_instances)
     ("Test the behavior of lifespan expressed in seconds, best effort")
     (text [
      "Verifies a subscriber receives the expected samples when the publisher uses  lifespan in seconds";
      "";
      " * Configures the publisher / subscriber with a BEST_EFFORT reliability";
      " * Configures the subscriber with history KEEP_ALL";
      " * Configures the publisher with a writing period of 400ms";
      " * Configures the publisher with a lifespan of 1s";
      " * Configures the subscriber with a reading period of 2s";
      " * The publisher application sends samples with increasing value of the " +:+ dq +:+ "size" +:+ dq +:+ " member";
      " * Verifies the publisher and subscriber discover and match each other";
      "";
      "The test passes if the subscriber application receives 2 or 3 consecutive samples each time it reads.";
      "As the publisher sets the lifespan, it expires in some samples before the subscriber reads data. The amount of consecutive samples read by the subscriber application is 2 or 3 each time. The subscriber has to read " +:+ tenth_samples +:+ " samples";
      ""]));
  ("Test_Lifespan_7", TestCase
     ["-P -t Square -b -z 0 --write-period 400 --lifespan 1000 --num-instances 4"; "-S -t Square -b -k 0 --read-period 2000"]
     [OK; OK] (Callable test_lifespan_2_3_consecutive_samples_w_instances)
     ("Test the behavior of lifespan expressed in seconds with several instances, best effort")
     (text [
      "Verifies a subscriber receives the expected samples when the publisher uses  lifespan in seconds, and different instances";
      "";
      " * Configures the publisher / subscriber with a BEST_EFFORT reliability";
      " * Configures the subscriber with history KEEP_ALL";
      " * Configures the publisher with a writing period of 400ms";
      " * Configures the publisher with a lifespan of 1s";
      " * Configures the subscriber with a reading period of 2s";
      " * The publisher publishes 4 different instances (using the same data value)";
      " * The publisher application sends samples with increasing value of the " +:+ dq +:+ "size" +:+ dq +:+ " member";
      " * Verifies the publisher and subscriber discover and match each other";
      "";
      "The test passes if the subscriber application receives 2 or 3 consecutive samples each time it reads.";
      "As the publisher sets the lifespan, it expires in some samples before the subscriber reads data. The amount of consecutive samples read by the subscriber application is 2 or 3 each time per instance. The subscriber has to read " +:+ tenth_samples +:+ " samples per instance";
      ""]))].

Definition suite_OrderedAccess_a : suite := [
  ("Test_OrderedAccess_0", TestCase
     ["-P -t Square -r -k 0 --ordered --access-scope i"; "-S -t Square -r -k 0 --ordered --access-scope i"]
     [OK; OK] (NoEntry)
     ("Compatibility for ordered access between INSTANCE_PRESENTATION publisher and INSTANCE_PRESENTATION subscriber")
     (text [
      "Verifies an INSTANCE_PRESENTATION publisher is compatible with an INSTANCE_PRESENTATION subscriber when using ordered access";
      "";
      " * Configures the publisher / subscriber with a RELIABLE reliability";
      " * Configures the publisher / subscriber with history KEEP_ALL";
      " * Configures the publisher / subscriber with ordered access";
      " * Configures the publisher with INSTANCE_PRESENTATION access_scope";
      " * Configures the subscriber with INSTANCE_PRESENTATION access_scope";
      " * Verifies the publisher and subscriber discover and match each other";
      "";
      "The test passes if the subscriber receives samples from the publisher";
      ""]));
  ("Test_OrderedAccess_1", TestCase
     ["-P -t Square -r -k 0 --ordered --access-scope i"; "-S -t Square -r -k 0 --ordered --access-scope t"]
     [INCOMPATIBLE_QOS; INCOMPATIBLE_QOS] (NoEntry)
     ("No compatibility for ordered access between INSTANCE_PRESENTATION publisher and TOPIC_PRESENTATION subscriber")
     (text [
      "Verifies an INSTANCE_PRESENTATION publisher does not match with a TOPIC_PRESENTATION subscriber when using ordered access and report an IncompatibleQos notification";
      "";
      " * Configures the publisher / subscriber with a RELIABLE reliability";
      " * Configures the publisher / subscriber with history KEEP_ALL";
      " * Configures the publisher / subscriber with ordered access";
      " * Configures the publisher with INSTANCE_PRESENTATION access_scope";
      " * Configures the subscriber with TOPIC_PRESENTATION access_scope";
      "The test passes if the listeners trigger the IncompatibleQos notification in the publisher and the subscriber";
      ""]));
  ("Test_OrderedAccess_2", TestCase
     ["-P -t Square -r -k 0 --ordered --access-scope i"; "-S -t Square -r -k 0 --ordered --access-scope g"]
     [INCOMPATIBLE_QOS; INCOMPATIBLE_QOS] (NoEntry)
     ("No compatibility for ordered access between INSTANCE_PRESENTATION publisher and GROUP_PRESENTATION subscriber")
     (text [
      "Verifies an INSTANCE_PRESENTATION publisher does not match with a GROUP_PRESENTATION subscriber when using ordered access and report an IncompatibleQos notification";
      "";
      " * Configures the publisher / subscriber with a RELIABLE reliability";
      " * Configures the publisher / subscriber with history KEEP_ALL";
      " * Configures the publisher / subscriber with ordered access";
      " * Configures the publisher with INSTANCE_PRESENTATION access_scope";
      " * Configures the subscriber with GROUP_PRESENTATION access_scope";
      "The test passes if the listeners trigger the IncompatibleQos notification in the publisher and the subscriber";
      ""]));
  ("Test_OrderedAccess_3", TestCase
     ["-P -t Square -r -k 0 --ordered --access-scope t"; "-S -t Square -r -k 0 --ordered --access-scope i"]
     [OK; OK] (NoEntry)
     ("Compatibility for ordered access between TOPIC_PRESENTATION publisher and INSTANCE_PRESENTATION subscriber")
     (text [
      "Verifies a TOPIC_PRESENTATION publisher compatible with an INSTANCE_PRESENTATION subscriber when using ordered access";
      "";
      " * Configures the publisher / subscriber with a RELIABLE reliability";
      " * Configures the publisher / subscriber with history KEEP_ALL";
      " * Configures the publisher / subscriber with ordered access";
      " * Configures the publisher with TOPIC_PRESENTATION access_scope";
      " * Configures the subscriber with INSTANCE_PRESENTATION access_scope";
      " * Verifies the publisher and subscriber discover and match each other";
      "";
      "The test passes if the subscriber receives samples from the publisher";
      ""]));
  ("Test_OrderedAccess_4", TestCase
     ["-P -t Square -r -k 0 --ordered --access-scope t"; "-S -t Square -r -k 0 --ordered --access-scope t"]
     [OK; OK] (NoEntry)
     ("Compatibility for ordered access between TOPIC_PRESENTATION publisher and TOPIC_PRESENTATION subscriber")
     (text [
      "Verifies a TOPIC_PRESENTATION publisher compatible with a TOPIC_PRESENTATION subscriber when using ordered access";
      "";
      " * Configures the publisher / subscriber with a RELIABLE reliability";
      " * Configures the publisher / subscriber with history KEEP_ALL";
      " * Configures the publisher / subscriber with ordered access";
      " * Configures the publisher with TOPIC_PRESENTATION access_scope";
      " * Configures the subscriber with TOPIC_PRESENTATION access_scope";
      " * Verifies the publisher and subscriber discover and match each other";
      "";
      "The test passes if the subscriber receives samples from the publisher";
      ""]));
  ("Test_OrderedAccess_5", TestCase
     ["-P -t Square -r -k 0 --ordered --access-scope t"; "-S -t Square -r -k 0 --ordered --access-scope g"]
     [INCOMPATIBLE_QOS; INCOMPATIBLE_QOS] (NoEntry)
     ("No compatibility for ordered access between TOPIC_PRESENTATION publisher and GROUP_PRESENTATION subscriber")
     (text [
      "Verifies an TOPIC_PRESENTATION publisher does not match with a GROUP_PRESENTATION subscriber when using ordered access and report an IncompatibleQos notification";
      "";
      " * Configures the publisher / subscriber with a RELIABLE reliability";
      " * Configures the publisher / subscriber with history KEEP_ALL";
      " * Configures the publisher / subscriber with ordered access";
      " * Configures the publisher with TOPIC_PRESENTATION access_scope";
      " * Configures the subscriber with GROUP_PRESENTATION access_scope";
      "The test passes if the listeners trigger the IncompatibleQos notification in the publisher and the subscriber";
      ""]));
  ("Test_OrderedAccess_6", TestCase
     ["-P -t Square -r -k 0 --ordered --access-scope g"; "-S -t Square -r -k 0 --ordered --access-scope i"]
     [OK; OK] (NoEntry)
     ("Compatibility for ordered access between GROUP_PRESENTATION publisher and INSTANCE_PRESENTATION subscriber")
     (text [
      "Verifies a GROUP_PRESENTATION publisher compatible with an INSTANCE_PRESENTATION subscriber when using ordered access";
      "";
      " * Configures the publisher / subscriber with a RELIABLE reliability";
      " * Configures the publisher / subscriber with history KEEP_ALL";
      " * Configures the publisher / subscriber with ordered access";
      " * Configures the publisher with GROUP_PRESENTATION access_scope";
      " * Configures the subscriber with INSTANCE_PRESENTATION access_scope";
      " * Verifies the publisher and subscriber discover and match each other";
      "";
      "The test passes if the subscriber receives samples from the publisher";
      ""]));
  ("Test_OrderedAccess_7", TestCase
     ["-P -t Square -r -k 0 --ordered --access-scope g"; "-S -t Square -r -k 0 --ordered --access-scope t"]
     [OK; OK] (NoEntry)
     ("Compatibility for ordered access between GROUP_PRESENTATION publisher and TOPIC_PRESENTATION subscriber")
     (text [
      "Verifies a GROUP_PRESENTATION publisher compatible with a TOPIC_PRESENTATION subscriber when using ordered access";
      "";
      " * Configures the publisher / subscriber with a RELIABLE reliability";
      " * Configures the publisher / subscriber with history KEEP_ALL";
      " * Configures the publisher / subscriber with ordered access";
      " * Configures the publisher with GROUP_PRESENTATION access_scope";
      " * Configures the subscriber with TOPIC_PRESENTATION access_scope";
      " * Verifies the publisher and subscriber discover and match each other";
      "";
      "The test passes if the subscriber receives samples from the publisher";
      ""]));
  ("Test_OrderedAccess_8", TestCase
     ["-P -t Square -r -k 0 --ordered --access-scope g"; "-S -t Square -r -k 0 --ordered --access-scope g"]
     [OK; OK] (NoEntry)
     ("Compatibility for ordered access between GROUP_PRESENTATION publisher and GROUP_PRESENTATION subscriber")
     (text [
      "Verifies a GROUP_PRESENTATION publisher compatible with an GROUP_PRESENTATION subscriber when using ordered access";
      "";
      " * Configures the publisher / subscriber with a RELIABLE reliability";
      " * Configures the publisher / subscriber with history KEEP_ALL";
      " * Configures the publisher / subscriber with ordered access";
      " * Configures the publisher with GROUP_PRESENTATION access_scope";
      " * Configures the subscriber with GROUP_PRESENTATION access_scope";
      " * Verifies the publisher and subscriber discover and match each other";
      "";
      "The test passes if the subscriber receives samples from the publisher";
      ""]))].

Definition suite_OrderedAccess_b : suite := [
  ("Test_OrderedAccess_9", TestCase
     ["-P -t Square -r -k 0 --access-scope t"; "-S -t Square -r -k 0 --ordered --access-scope t"]
     [INCOMPATIBLE_QOS; INCOMPATIBLE_QOS] (NoEntry)
     ("No compatibility for no ordered access publisher and ordered access subscriber")
     (text [
      "Verifies that publisher without ordered access does not match with a subscriber with ordered access";
      "";
      " * Configures the publisher and the subscriber with a RELIABLE reliability";
      " * Configures the publisher and the subscriber with history KEEP_ALL";
      " * Configures the publisher and the subscriber with access scope TOPIC_PRESENTATION";
      " * Configures the subscriber with ordered access";
      "The test passes if the listeners trigger the IncompatibleQos notification in the publisher and the subscriber";
      ""]));
  ("Test_OrderedAccess_10", TestCase
     ["-P -t Square -r -k 0 --ordered --access-scope t -z 0 --num-instances 4 --write-period 100"; "-S -t Square -r -k 0 --ordered --access-scope i --take-read --read-period 400"; "-S -t Square -r -k 0 --ordered --access-scope t --take-read --read-period 400"]
     [OK; ORDERED_ACCESS_INSTANCE; ORDERED_ACCESS_TOPIC] (Callable ordered_access_w_instances)
     ("Test the behavior of ordered access")
     (text [
      "Verifies subscribers receives data correctly depending on the ordered access: TOPIC_PRESENTATION and INSTANCE_PRESENTATION.";
      "";
      " * Configures the publisher and all subscribers with a RELIABLE reliability";
      " * Configures the publisher and all subscribers with history KEEP_ALL";
      " * Configures the publisher and all subscribers with ordered access";
      " * Configures the publisher with access scope TOPIC_PRESENTATION";
      " * The publisher application sends samples with increasing value of the " +:+ dq +:+ "size" +:+ dq +:+ " member";
      " * The publisher publishes 4 different instances (using the same data value)";
      " * Configures the publisher with a writing period of 100ms";
      " * Configures the first subscriber with access scope INSTANCE_PRESENTATION";
      " * Configures the second subscriber with access scope TOPIC_PRESENTATION";
      " * Configures all subscribers to use take() instead of take_next_instance()";
      " * Configures all subscribers with a reading period of 400ms";
      " * Verifies the publisher and subscriber discover and match each other";
      "";
      "The test passes if the subscriber applications are receiving the instances with the specified ordered access / access scope. For INSTANCE_PRESENTATION, all the samples for one instance is presented sequentially. For TOPIC_PRESENTATION, the subscriber reads the samples in the same order they have been published, independently of the instance theybelong to (one sample of one instance each time). The subscriber has to read " +:+ max_samples +:+ " samples per instance";
      ""]));
  ("Test_OrderedAccess_11", TestCase
     ["-P -t Square -r -k 0 -D l --ordered --access-scope i"; "-S -t Square -r -k 0 -D l --ordered --access-scope i"]
     [OK; OK] (NoEntry)
     ("Compatibility for ordered access between INSTANCE_PRESENTATION publisher and INSTANCE_PRESENTATION subscriber both using TRANSIENT_LOCAL")
     (text [
      "Verifies an INSTANCE_PRESENTATION publisher is compatible with an INSTANCE_PRESENTATION subscriber when using ordered access";
      "";
      " * Configures the publisher / subscriber with a RELIABLE reliability";
      " * Configures the publisher / subscriber with history KEEP_ALL";
      " * Configures the publisher / subscriber with TRANSIENT_LOCAL durability";
      " * Configures the publisher / subscriber with ordered access";
      " * Configures the publisher with INSTANCE_PRESENTATION access_scope";
      " * Configures the subscriber with INSTANCE_PRESENTATION access_scope";
      " * Verifies the publisher and subscriber discover and match each other";
      "";
      "The test passes if the subscriber receives samples from the publisher";
      ""]));
  ("Test_OrderedAccess_12", TestCase
     ["-P -t Square -r -k 0 -D l --ordered --access-scope t"; "-S -t Square -r -k 0 -D l --ordered --access-scope i"]
     [OK; OK] (NoEntry)
     ("Compatibility for ordered access between TOPIC_PRESENTATION publisher and INSTANCE_PRESENTATION subscriber both using TRANSIENT_LOCAL")
     (text [
      "Verifies a TOPIC_PRESENTATION publisher compatible with an INSTANCE_PRESENTATION subscriber when using ordered access";
      "";
      " * Configures the publisher / subscriber with a RELIABLE reliability";
      " * Configures the publisher / subscriber with history KEEP_ALL";
      " * Configures the publisher / subscriber with TRANSIENT_LOCAL durability";
      " * Configures the publisher / subscriber with ordered access";
      " * Configures the publisher with TOPIC_PRESENTATION access_scope";
      " * Configures the subscriber with INSTANCE_PRESENTATION access_scope";
      " * Verifies the publisher and subscriber discover and match each other";
      "";
      "The test passes if the subscriber receives samples from the publisher";
      ""]));
  ("Test_OrderedAccess_13", TestCase
     ["-P -t Square -r -k 0 -D l --ordered --access-scope t"; "-S -t Square -r -k 0 -D l --ordered --access-scope t"]
     [OK; OK] (NoEntry)
     ("Compatibility for ordered access between TOPIC_PRESENTATION publisher and TOPIC_PRESENTATION subscriber both using TRANSIENT_LOCAL")
     (text [
      "Verifies a TOPIC_PRESENTATION publisher compatible with a TOPIC_PRESENTATION subscriber when using ordered access";
      "";
      " * Configures the publisher / subscriber with a RELIABLE reliability";
      " * Configures the publisher / subscriber with history KEEP_ALL";
      " * Configures the publisher / subscriber with TRANSIENT_LOCAL durability";
      " * Configures the publisher / subscriber with ordered access";
      " * Configures the publisher with TOPIC_PRESENTATION access_scope";
      " * Configures the subscriber with TOPIC_PRESENTATION access_scope";
      " * Verifies the publisher and subscriber discover and match each other";
      "";
      "The test passes if the subscriber receives samples from the publisher";
      ""]));
  ("Test_OrderedAccess_14", TestCase
     ["-P -t Square -r -k 0 -D l --ordered --access-scope g"; "-S -t Square -r -k 0 -D l --ordered --access-scope i"]
     [OK; OK] (NoEntry)
     ("Compatibility for ordered access between GROUP_PRESENTATION publisher and INSTANCE_PRESENTATION subscriber both using TRANSIENT_LOCAL")
     (text [
      "Verifies a GROUP_PRESENTATION publisher compatible with an INSTANCE_PRESENTATION subscriber when using ordered access";
      "";
      " * Configures the publisher / subscriber with a RELIABLE reliability";
      " * Configures the publisher / subscriber with history KEEP_ALL";
      " * Configures the publisher / subscriber with TRANSIENT_LOCAL durability";
      " * Configures the publisher / subscriber with ordered access";
      " * Configures the publisher with GROUP_PRESENTATION access_scope";
      " * Configures the subscriber with INSTANCE_PRESENTATION access_scope";
      " * Verifies the publisher and subscriber discover and match each other";
      "";
      "The test passes if the subscriber receives samples from the publisher";
      ""]));
  ("Test_OrderedAccess_15", TestCase
     ["-P -t Square -r -k 0 -D l --ordered --access-scope g"; "-S -t Square -r -k 0 -D l --ordered --access-scope t"]
     [OK; OK] (NoEntry)
     ("Compatibility for ordered access between GROUP_PRESENTATION publisher and TOPIC_PRESENTATION subscriber both using TRANSIENT_LOCAL")
     (text [
      "Verifies a GROUP_PRESENTATION publisher compatible with a TOPIC_PRESENTATION subscriber when using ordered access";
      "";
      " * Configures the publisher / subscriber with a RELIABLE reliability";
      " * Configures the publisher / subscriber with history KEEP_ALL";
      " * Configures the publisher / subscriber with TRANSIENT_LOCAL durability";
      " * Configures the publisher / subscriber with ordered access";
      " * Configures the publisher with GROUP_PRESENTATION access_scope";
      " * Configures the subscriber with TOPIC_PRESENTATION access_scope";
      " * Verifies the publisher and subscriber discover and match each other";
      "";
      "The test passes if the subscriber receives samples from the publisher";
      ""]));
  ("Test_OrderedAccess_16", TestCase
     ["-P -t Square -r -k 0 -D l --ordered --access-scope g"; "-S -t Square -r -k 0 -D l --ordered --access-scope g"]
     [OK; OK] (NoEntry)
     ("Compatibility for ordered access between GROUP_PRESENTATION publisher and GROUP_PRESENTATION subscriber both using TRANSIENT_LOCAL")
     (text [
      "Verifies a GROUP_PRESENTATION publisher compatible with an GROUP_PRESENTATION subscriber when using ordered access";
      "";
      " * Configures the publisher / subscriber with a RELIABLE reliability";
      " * Configures the publisher / subscriber with history KEEP_ALL";
      " * Configures the publisher / subscriber with TRANSIENT_LOCAL durability";
      " * Configures the publisher / subscriber with ordered access";
      " * Configures the publisher with GROUP_PRESENTATION access_scope";
      " * Configures the subscriber with GROUP_PRESENTATION access_scope";
      " * Verifies the publisher and subscriber discover and match each other";
      "";
      "The test passes if the subscriber receives samples from the publisher";
      ""]))].

Definition suite_OrderedAccess_c : suite := [
  ("Test_OrderedAccess_17", TestCase
     ["-P -t Square -r -k 0 -D l --ordered --access-scope t -z 0 --num-instances 4 --write-period 100"; "-S -t Square -r -k 0 -D l --ordered --access-scope i --take-read --read-period 400"; "-S -t Square -r -k 0 -D l --ordered --access-scope t --take-read --read-period 400"]
     [OK; ORDERED_ACCESS_INSTANCE; ORDERED_ACCESS_TOPIC] (Callable ordered_access_w_instances)
     ("Test the behavior of ordered access")
     (text [
      "Verifies subscribers receives data correctly depending on the ordered access: TOPIC_PRESENTATION and INSTANCE_PRESENTATION. Using TRANSIENT_LOCAL";
      "";
      " * Configures the publisher and all subscribers with a RELIABLE reliability";
      " * Configures the publisher and all subscribers with history KEEP_ALL";
      " * Configures the publisher and all subscribers with TRANSIENT_LOCAL durability";
      " * Configures the publisher and all subscribers with ordered access";
      " * Configures the publisher with access scope TOPIC_PRESENTATION";
      " * The publisher application sends samples with increasing value of the " +:+ dq +:+ "size" +:+ dq +:+ " member";
      " * The publisher publishes 4 different instances (using the same data value)";
      " * Configures the publisher with a writing period of 100ms";
      " * Configures the first subscriber with access scope INSTANCE_PRESENTATION";
      " * Configures the second subscriber with access scope TOPIC_PRESENTATION";
      " * Configures all subscribers to use take() instead of take_next_instance()";
      " * Configures all subscribers with a reading period of 400ms";
      " * Verifies the publisher and subscriber discover and match each other";
      "";
      "The test passes if the subscriber applications are receiving the instances with the specified ordered access / access scope. For INSTANCE_PRESENTATION, all the samples for one instance is presented sequentially. For TOPIC_PRESENTATION, the subscriber reads the samples in the same order they have been published, independently of the instance theybelong to (one sample of one instance each time). The subscriber has to read " +:+ max_samples +:+ " samples per instance";
      ""]))].

Definition suite_CoherentSets_a : suite := [
  ("Test_CoherentSets_0", TestCase
     ["-P -t Square -r -k 0 --coherent --access-scope i"; "-S -t Square -r -k 0 --coherent --access-scope i"]
     [OK; OK] (NoEntry)
     ("Compatibility for coherent access between INSTANCE_PRESENTATION publisher and INSTANCE_PRESENTATION subscriber")
     (text [
      "Verifies an INSTANCE_PRESENTATION publisher is compatible with an INSTANCE_PRESENTATION subscriber when using coherent access";
      "";
      " * Configures the publisher / subscriber with a RELIABLE reliability";
      " * Configures the publisher / subscriber with history KEEP_ALL";
      " * Configures the publisher / subscriber with coherent access";
      " * Configures the publisher with INSTANCE_PRESENTATION access_scope";
      " * Configures the subscriber with INSTANCE_PRESENTATION access_scope";
      " * Verifies the publisher and subscriber discover and match each other";
      "";
      "The test passes if the subscriber receives samples from the publisher";
      ""]));
  ("Test_CoherentSets_1", TestCase
     ["-P -t Square -r -k 0 --coherent --access-scope i"; "-S -t Square -r -k 0 --coherent --access-scope t"]
     [INCOMPATIBLE_QOS; INCOMPATIBLE_QOS] (NoEntry)
     ("No compatibility for coherent access between INSTANCE_PRESENTATION publisher and TOPIC_PRESENTATION subscriber")
     (text [
      "Verifies an INSTANCE_PRESENTATION publisher does not match with a TOPIC_PRESENTATION subscriber when using coherent access and report an IncompatibleQos notification";
      "";
      " * Configures the publisher / subscriber with a RELIABLE reliability";
      " * Configures the publisher / subscriber with history KEEP_ALL";
      " * Configures the publisher / subscriber with coherent access";
      " * Configures the publisher with INSTANCE_PRESENTATION access_scope";
      " * Configures the subscriber with TOPIC_PRESENTATION access_scope";
      "The test passes if the listeners trigger the IncompatibleQos notification in the publisher and the subscriber";
      ""]));
  ("Test_CoherentSets_2", TestCase
     ["-P -t Square -r -k 0 --coherent --access-scope i"; "-S -t Square -r -k 0 --coherent --access-scope g"]
     [INCOMPATIBLE_QOS; INCOMPATIBLE_QOS] (NoEntry)
     ("No compatibility for coherent access between INSTANCE_PRESENTATION publisher and GROUP_PRESENTATION subscriber")
     (text [
      "Verifies an INSTANCE_PRESENTATION publisher does not match with a GROUP_PRESENTATION subscriber when using coherent access and report an IncompatibleQos notification";
      "";
      " * Configures the publisher / subscriber with a RELIABLE reliability";
      " * Configures the publisher / subscriber with history KEEP_ALL";
      " * Configures the publisher / subscriber with coherent access";
      " * Configures the publisher with INSTANCE_PRESENTATION access_scope";
      " * Configures the subscriber with GROUP_PRESENTATION access_scope";
      "The test passes if the listeners trigger the IncompatibleQos notification in the publisher and the subscriber";
      ""]));
  ("Test_CoherentSets_3", TestCase
     ["-P -t Square -r -k 0 --coherent --access-scope t"; "-S -t Square -r -k 0 --coherent --access-scope i"]
     [OK; OK] (NoEntry)
     ("Compatibility for coherent access between TOPIC_PRESENTATION publisher and INSTANCE_PRESENTATION subscriber")
     (text [
      "Verifies an TOPIC_PRESENTATION publisher is compatible with an INSTANCE_PRESENTATION subscriber when using coherent access";
      "";
      " * Configures the publisher / subscriber with a RELIABLE reliability";
      " * Configures the publisher / subscriber with history KEEP_ALL";
      " * Configures the publisher / subscriber with coherent access";
      " * Configures the publisher with TOPIC_PRESENTATION access_scope";
      " * Configures the subscriber with INSTANCE_PRESENTATION access_scope";
      " * Verifies the publisher and subscriber discover and match each other";
      "";
      "The test passes if the subscriber receives samples from the publisher";
      ""]));
  ("Test_CoherentSets_4", TestCase
     ["-P -t Square -r -k 0 --coherent --access-scope t"; "-S -t Square -r -k 0 --coherent --access-scope t"]
     [OK; OK] (NoEntry)
     ("Compatibility for coherent access between TOPIC_PRESENTATION publisher and TOPIC_PRESENTATION subscriber")
     (text [
      "Verifies an TOPIC_PRESENTATION publisher is compatible with an TOPIC_PRESENTATION subscriber when using coherent access";
      "";
      " * Configures the publisher / subscriber with a RELIABLE reliability";
      " * Configures the publisher / subscriber with history KEEP_ALL";
      " * Configures the publisher / subscriber with coherent access";
      " * Configures the publisher with TOPIC_PRESENTATION access_scope";
      " * Configures the subscriber with TOPIC_PRESENTATION access_scope";
      " * Verifies the publisher and subscriber discover and match each other";
      "";
      "The test passes if the subscriber receives samples from the publisher";
      ""]));
  ("Test_CoherentSets_5", TestCase
     ["-P -t Square -r -k 0 --coherent --access-scope t"; "-S -t Square -r -k 0 --coherent --access-scope g"]
     [INCOMPATIBLE_QOS; INCOMPATIBLE_QOS] (NoEntry)
     ("No compatibility for coherent access between TOPIC_PRESENTATION publisher and GROUP_PRESENTATION subscriber")
     (text [
      "Verifies an TOPIC_PRESENTATION publisher does not match with a GROUP_PRESENTATION subscriber when using coherent access and report an IncompatibleQos notification";
      "";
      " * Configures the publisher / subscriber with a RELIABLE reliability";
      " * Configures the publisher / subscriber with history KEEP_ALL";
      " * Configures the publisher / subscriber with coherent access";
      " * Configures the publisher with TOPIC_PRESENTATION access_scope";
      " * Configures the subscriber with GROUP_PRESENTATION access_scope";
      "The test passes if the listeners trigger the IncompatibleQos notification in the publisher and the subscriber";
      ""]));
  ("Test_CoherentSets_6", TestCase
     ["-P -t Square -r -k 0 --coherent --access-scope g"; "-S -t Square -r -k 0 --coherent --access-scope i"]
     [OK; OK] (NoEntry)
     ("Compatibility for coherent access between GROUP_PRESENTATION publisher and INSTANCE_PRESENTATION subscriber")
     (text [
      "Verifies an GROUP_PRESENTATION publisher is compatible with an INSTANCE_PRESENTATION subscriber when using coherent access";
      "";
      " * Configures the publisher / subscriber with a RELIABLE reliability";
      " * Configures the publisher / subscriber with history KEEP_ALL";
      " * Configures the publisher / subscriber with coherent access";
      " * Configures the publisher with GROUP_PRESENTATION access_scope";
      " * Configures the subscriber with INSTANCE_PRESENTATION access_scope";
      " * Verifies the publisher and subscriber discover and match each other";
      "";
      "The test passes if the subscriber receives samples from the publisher";
      ""]));
  ("Test_CoherentSets_7", TestCase
     ["-P -t Square -r -k 0 --coherent --access-scope g"; "-S -t Square -r -k 0 --coherent --access-scope t"]
     [OK; OK] (NoEntry)
     ("Compatibility for coherent access between GROUP_PRESENTATION publisher and TOPIC_PRESENTATION subscriber")
     (text [
      "Verifies an GROUP_PRESENTATION publisher is compatible with an TOPIC_PRESENTATION subscriber when using coherent access";
      "";
      " * Configures the publisher / subscriber with a RELIABLE reliability";
      " * Configures the publisher / subscriber with history KEEP_ALL";
      " * Configures the publisher / subscriber with coherent access";
      " * Configures the publisher with GROUP_PRESENTATION access_scope";
      " * Configures the subscriber with TOPIC_PRESENTATION access_scope";
      " * Verifies the publisher and subscriber discover and match each other";
      "";
      "The test passes if the subscriber receives samples from the publisher";
      ""]));
  ("Test_CoherentSets_8", TestCase
     ["-P -t Square -r -k 0 --coherent --access-scope g"; "-S -t Square -r -k 0 --coherent --access-scope g"]
     [OK; OK] (NoEntry)
     ("Compatibility for coherent access between GROUP_PRESENTATION publisher and GROUP_PRESENTATION subscriber")
     (text [
      "Verifies an GROUP_PRESENTATION publisher is compatible with an GROUP_PRESENTATION subscriber when using coherent access";
      "";
      " * Configures the publisher / subscriber with a RELIABLE reliability";
      " * Configures the publisher / subscriber with history KEEP_ALL";
      " * Configures the publisher / subscriber with coherent access";
      " * Configures the publisher with GROUP_PRESENTATION access_scope";
      " * Configures the subscriber with GROUP_PRESENTATION access_scope";
      " * Verifies the publisher and subscriber discover and match each other";
      "";
      "The test passes if the subscriber receives samples from the publisher";
      ""]))].

Definition suite_CoherentSets_b : suite := [
  ("Test_CoherentSets_9", TestCase
     ["-P -t Square -r -k 0 --access-scope t"; "-S -t Square -r -k 0 --coherent --access-scope t"]
     [INCOMPATIBLE_QOS; INCOMPATIBLE_QOS] (NoEntry)
     ("No compatibility for no coherent access publisher and coherent access subscriber")
     (text [
      "Verifies that publisher without coherent access does not match with a subscriber with coherent access";
      "";
      " * Configures the publisher and the subscriber with a RELIABLE reliability";
      " * Configures the publisher and the subscriber with history KEEP_ALL";
      " * Configures the publisher and the subscriber with access scope TOPIC_PRESENTATION";
      " * Configures the subscriber with coherent access";
      "The test passes if the listeners trigger the IncompatibleQos notification in the publisher and the subscriber";
      ""]));
  ("Test_CoherentSets_10", TestCase
     ["-P -t Square -r -k 0 --coherent --access-scope i --num-topics 3 --num-instances 4 --coherent-sample-count 3 --write-period 100 -z 0"; "-S -t Square -r -k 0 --coherent --access-scope i --num-topics 3 --take-read --read-period 100"]
     [OK; OK] (Callable coherent_sets_w_instances_non_group)
     ("Test the behavior of coherent access with INSTANCE_PRESENTATION with several instances")
     (text [
      "Verifies subscribers receives data correctly when using coherent access INSTANCE_PRESENTATION.";
      "";
      " * Configures the publisher / subscriber with a RELIABLE reliability";
      " * Configures the publisher / subscriber with history KEEP_ALL";
      " * Configures the publisher / subscriber with coherent access";
      " * Configures the publisher / subscriber with access scope INSTANCE_PRESENTATION";
      " * Configures the publisher / subscriber to use 3 topics";
      " * The publisher publishes 4 different instances (using the same data value)";
      " * The publisher creates coherent sets of 3 consecutive samples each instance";
      " * The publisher application sends samples with increasing value of the " +:+ dq +:+ "size" +:+ dq +:+ " member";
      " * Configures the publisher with a writing period of 100ms";
      " * Configures the subscriber to use take() instead of take_next_instance()";
      " * Configures the subscriber with a reading period of 100ms";
      " * Verifies the publisher and subscriber discover and match each other";
      "";
      "The test passes if the subscriber application receives all samples of a coherent set at the same. This coherent set is created with 36 samples: 3 samples per instance, 4 instances and 3 topics. This test checks that the consecutive samples received per instance and topic is 3 each time we receive a new coherent set of samples. The subscriber has to read " +:+ max_samples +:+ " samples per instance";
      ""]));
  ("Test_CoherentSets_11", TestCase
     ["-P -t Square -r -k 0 --coherent --access-scope t --num-topics 3 --num-instances 4 --coherent-sample-count 3 --write-period 100 -z 0"; "-S -t Square -r -k 0 --coherent --access-scope t --num-topics 3 --take-read --read-period 100"]
     [OK; OK] (Callable coherent_sets_w_instances_non_group)
     ("Test the behavior of coherent access with TOPIC_PRESENTATION with several instances")
     (text [
      "Verifies subscribers receives data correctly when using coherent access TOPIC_PRESENTATION.";
      "";
      " * Configures the publisher / subscriber with a RELIABLE reliability";
      " * Configures the publisher / subscriber with history KEEP_ALL";
      " * Configures the publisher / subscriber with coherent access";
      " * Configures the publisher / subscriber with access scope TOPIC_PRESENTATION";
      " * Configures the publisher / subscriber to use 3 topics";
      " * The publisher publishes 4 different instances (using the same data value)";
      " * The publisher creates coherent sets of 3 consecutive samples each instance";
      " * The publisher application sends samples with increasing value of the " +:+ dq +:+ "size" +:+ dq +:+ " member";
      " * Configures the publisher with a writing period of 100ms";
      " * Configures the subscriber to use take() instead of take_next_instance()";
      " * Configures the subscriber with a reading period of 100ms";
      " * Verifies the publisher and subscriber discover and match each other";
      "";
      "The test passes if the subscriber application receives all samples of a coherent set at the same. This coherent set is created with 36 samples: 3 samples per instance, 4 instances and 3 topics. This test checks that the consecutive samples received per instance and topic is 3 each time we receive a new coherent set of samples. The subscriber has to read " +:+ max_samples +:+ " samples per instance";
      ""]));
  ("Test_CoherentSets_12", TestCase
     ["-P -t Square -r -k 0 --coherent --access-scope g --num-topics 3 --num-instances 4 --coherent-sample-count 3 --write-period 100 -z 0"; "-S -t Square -r -k 0 --coherent --access-scope g --num-topics 3 --take-read --read-period 100"]
     [OK; OK] (Callable coherent_sets_w_instances)
     ("Test the behavior of coherent access with GROUP_PRESENTATION with several instances")
     (text [
      "Verifies subscribers receives data correctly when using coherent access GROUP_PRESENTATION.";
      "";
      " * Configures the publisher / subscriber with a RELIABLE reliability";
      " * Configures the publisher / subscriber with history KEEP_ALL";
      " * Configures the publisher / subscriber with coherent access";
      " * Configures the publisher / subscriber with access scope GROUP_PRESENTATION";
      " * Configures the publisher / subscriber to use 3 topics";
      " * The publisher publishes 4 different instances (using the same data value)";
      " * The publisher creates coherent sets of 3 consecutive samples each instance";
      " * The publisher application sends samples with increasing value of the " +:+ dq +:+ "size" +:+ dq +:+ " member";
      " * Configures the publisher with a writing period of 100ms";
      " * Configures the subscriber to use take() instead of take_next_instance()";
      " * Configures the subscriber with a reading period of 100ms";
      " * Verifies the publisher and subscriber discover and match each other";
      "";
      "The test passes if the subscriber application receives all samples of a coherent set at the same. This coherent set is created with 36 samples: 3 samples per instance, 4 instances and 3 topics. This test checks that the consecutive samples received per instance and topic is 3 each time we receive a new coherent set of samples. The subscriber has to read " +:+ max_samples +:+ " samples per instance";
      ""]));
  ("Test_CoherentSets_13", TestCase
     ["-P -t Square -r -k 0 -D l --coherent --access-scope i"; "-S -t Square -r -k 0 -D l --coherent --access-scope i"]
     [OK; OK] (NoEntry)
     ("Compatibility for coherent access between INSTANCE_PRESENTATION publisher and INSTANCE_PRESENTATION subscriber, both using TRANSIENT_LOCAL")
     (text [
      "Verifies an INSTANCE_PRESENTATION publisher is compatible with an INSTANCE_PRESENTATION subscriber when using coherent access";
      "";
      " * Configures the publisher / subscriber with a RELIABLE reliability";
      " * Configures the publisher / subscriber with history KEEP_ALL";
      " * Configures the publisher / subscriber with TRANSIENT_LOCAL durability";
      " * Configures the publisher / subscriber with coherent access";
      " * Configures the publisher with INSTANCE_PRESENTATION access_scope";
      " * Configures the subscriber with INSTANCE_PRESENTATION access_scope";
      " * Verifies the publisher and subscriber discover and match each other";
      "";
      "The test passes if the subscriber receives samples from the publisher";
      ""]));
  ("Test_CoherentSets_14", TestCase
     ["-P -t Square -r -k 0 -D l --coherent --access-scope t"; "-S -t Square -r -k 0 -D l --coherent --access-scope i"]
     [OK; OK] (NoEntry)
     ("Compatibility for coherent access between TOPIC_PRESENTATION publisher and INSTANCE_PRESENTATION subscriber, both using TRANSIENT_LOCAL")
     (text [
      "Verifies an TOPIC_PRESENTATION publisher is compatible with an INSTANCE_PRESENTATION subscriber when using coherent access";
      "";
      " * Configures the publisher / subscriber with a RELIABLE reliability";
      " * Configures the publisher / subscriber with history KEEP_ALL";
      " * Configures the publisher / subscriber with TRANSIENT_LOCAL durability";
      " * Configures the publisher / subscriber with coherent access";
      " * Configures the publisher with TOPIC_PRESENTATION access_scope";
      " * Configures the subscriber with INSTANCE_PRESENTATION access_scope";
      " * Verifies the publisher and subscriber discover and match each other";
      "";
      "The test passes if the subscriber receives samples from the publisher";
      ""]));
  ("Test_CoherentSets_15", TestCase
     ["-P -t Square -r -k 0 -D l --coherent --access-scope t"; "-S -t Square -r -k 0 -D l --coherent --access-scope t"]
     [OK; OK] (NoEntry)
     ("Compatibility for coherent access between TOPIC_PRESENTATION publisher and TOPIC_PRESENTATION subscriber, both using TRANSIENT_LOCAL")
     (text [
      "Verifies an TOPIC_PRESENTATION publisher is compatible with an TOPIC_PRESENTATION subscriber when using coherent access";
      "";
      " * Configures the publisher / subscriber with a RELIABLE reliability";
      " * Configures the publisher / subscriber with history KEEP_ALL";
      " * Configures the publisher / subscriber with TRANSIENT_LOCAL durability";
      " * Configures the publisher / subscriber with coherent access";
      " * Configures the publisher with TOPIC_PRESENTATION access_scope";
      " * Configures the subscriber with TOPIC_PRESENTATION access_scope";
      " * Verifies the publisher and subscriber discover and match each other";
      "";
      "The test passes if the subscriber receives samples from the publisher";
      ""]))].

Definition suite_CoherentSets_c : suite := [
  ("Test_CoherentSets_16", TestCase
     ["-P -t Square -r -k 0 -D l --coherent --access-scope g"; "-S -t Square -r -k 0 -D l --coherent --access-scope i"]
     [OK; OK] (NoEntry)
     ("Compatibility for coherent access between GROUP_PRESENTATION publisher and INSTANCE_PRESENTATION subscriber, both using TRANSIENT_LOCAL")
     (text [
      "Verifies an GROUP_PRESENTATION publisher is compatible with an INSTANCE_PRESENTATION subscriber when using coherent access";
      "";
      " * Configures the publisher / subscriber with a RELIABLE reliability";
      " * Configures the publisher / subscriber with history KEEP_ALL";
      " * Configures the publisher / subscriber with TRANSIENT_LOCAL durability";
      " * Configures the publisher / subscriber with coherent access";
      " * Configures the publisher with GROUP_PRESENTATION access_scope";
      " * Configures the subscriber with INSTANCE_PRESENTATION access_scope";
      " * Verifies the publisher and subscriber discover and match each other";
      "";
      "The test passes if the subscriber receives samples from the publisher";
      ""]));
  ("Test_CoherentSets_17", TestCase
     ["-P -t Square -r -k 0 -D l --coherent --access-scope g"; "-S -t Square -r -k 0 -D l --coherent --access-scope t"]
     [OK; OK] (NoEntry)
     ("Compatibility for coherent access between GROUP_PRESENTATION publisher and TOPIC_PRESENTATION subscriber, both using TRANSIENT_LOCAL")
     (text [
      "Verifies an GROUP_PRESENTATION publisher is compatible with an TOPIC_PRESENTATION subscriber when using coherent access";
      "";
      " * Configures the publisher / subscriber with a RELIABLE reliability";
      " * Configures the publisher / subscriber with history KEEP_ALL";
      " * Configures the publisher / subscriber with TRANSIENT_LOCAL durability";
      " * Configures the publisher / subscriber with coherent access";
      " * Configures the publisher with GROUP_PRESENTATION access_scope";
      " * Configures the subscriber with TOPIC_PRESENTATION access_scope";
      " * Verifies the publisher and subscriber discover and match each other";
      "";
      "The test passes if the subscriber receives samples from the publisher";
      ""]));
  ("Test_CoherentSets_18", TestCase
     ["-P -t Square -r -k 0 -D l --coherent --access-scope g"; "-S -t Square -r -k 0 -D l --coherent --access-scope g"]
     [OK; OK] (NoEntry)
     ("Compatibility for coherent access between GROUP_PRESENTATION publisher and GROUP_PRESENTATION subscriber, both using TRANSIENT_LOCAL")
     (text [
      "Verifies an GROUP_PRESENTATION publisher is compatible with an GROUP_PRESENTATION subscriber when using coherent access";
      "";
      " * Configures the publisher / subscriber with a RELIABLE reliability";
      " * Configures the publisher / subscriber with history KEEP_ALL";
      " * Configures the publisher / subscriber with TRANSIENT_LOCAL durability";
      " * Configures the publisher / subscriber with coherent access";
      " * Configures the publisher with GROUP_PRESENTATION access_scope";
      " * Configures the subscriber with GROUP_PRESENTATION access_scope";
      " * Verifies the publisher and subscriber discover and match each other";
      "";
      "The test passes if the subscriber receives samples from the publisher";
      ""]));
  ("Test_CoherentSets_19", TestCase
     ["-P -t Square -r -k 0 -D l --coherent --access-scope i --num-topics 3 --num-instances 4 --coherent-sample-count 3 --write-period 100 -z 0"; "-S -t Square -r -k 0 -D l --coherent --access-scope i --num-topics 3 --take-read --read-period 100"]
     [OK; OK] (Callable coherent_sets_w_instances_non_group)
     ("Test the behavior of coherent access with INSTANCE_PRESENTATION with several instances, using TRANSIENT_LOCAL")
     (text [
      "Verifies subscribers receives data correctly when using coherent access INSTANCE_PRESENTATION.";
      "";
      " * Configures the publisher / subscriber with a RELIABLE reliability";
      " * Configures the publisher / subscriber with history KEEP_ALL";
      " * Configures the publisher / subscriber with TRANSIENT_LOCAL durability";
      " * Configures the publisher / subscriber with coherent access";
      " * Configures the publisher / subscriber with access scope INSTANCE_PRESENTATION";
      " * Configures the publisher / subscriber to use 3 topics";
      " * The publisher publishes 4 different instances (using the same data value)";
      " * The publisher creates coherent sets of 3 consecutive samples each instance";
      " * The publisher application sends samples with increasing value of the " +:+ dq +:+ "size" +:+ dq +:+ " member";
      " * Configures the publisher with a writing period of 100ms";
      " * Configures the subscriber to use take() instead of take_next_instance()";
      " * Configures the subscriber with a reading period of 100ms";
      " * Verifies the publisher and subscriber discover and match each other";
      "";
      "The test passes if the subscriber application receives all samples of a coherent set at the same. This coherent set is created with 36 samples: 3 samples per instance, 4 instances and 3 topics. This test checks that the consecutive samples received per instance and topic is 3 each time we receive a new coherent set of samples. The subscriber has to read " +:+ max_samples +:+ " samples per instance";
      ""]));
  ("Test_CoherentSets_20", TestCase
     ["-P -t Square -r -k 0 -D l --coherent --access-scope t --num-topics 3 --num-instances 4 --coherent-sample-count 3 --write-period 100 -z 0"; "-S -t Square -r -k 0 -D l --coherent --access-scope t --num-topics 3 --take-read --read-period 100"]
     [OK; OK] (Callable coherent_sets_w_instances_non_group)
     ("Test the behavior of coherent access with TOPIC_PRESENTATION with several instances, using TRANSIENT_LOCAL")
     (text [
      "Verifies subscribers receives data correctly when using coherent access TOPIC_PRESENTATION.";
      "";
      " * Configures the publisher / subscriber with a RELIABLE reliability";
      " * Configures the publisher / subscriber with history KEEP_ALL";
      " * Configures the publisher / subscriber with TRANSIENT_LOCAL durability";
      " * Configures the publisher / subscriber with coherent access";
      " * Configures the publisher / subscriber with access scope TOPIC_PRESENTATION";
      " * Configures the publisher / subscriber to use 3 topics";
      " * The publisher publishes 4 different instances (using the same data value)";
      " * The publisher creates coherent sets of 3 consecutive samples each instance";
      " * The publisher application sends samples with increasing value of the " +:+ dq +:+ "size" +:+ dq +:+ " member";
      " * Configures the publisher with a writing period of 100ms";
      " * Configures the subscriber to use take() instead of take_next_instance()";
      " * Configures the subscriber with a reading period of 100ms";
      " * Verifies the publisher and subscriber discover and match each other";
      "";
      "The test passes if the subscriber application receives all samples of a coherent set at the same. This coherent set is created with 36 samples: 3 samples per instance, 4 instances and 3 topics. This test checks that the consecutive samples received per instance and topic is 3 each time we receive a new coherent set of samples. The subscriber has to read " +:+ max_samples +:+ " samples per instance";
      ""]));
  ("Test_CoherentSets_21", TestCase
     ["-P -t Square -r -k 0 -D l --coherent --access-scope g --num-topics 3 --num-instances 4 --coherent-sample-count 3 --write-period 100 -z 0"; "-S -t Square -r -k 0 -D l --coherent --access-scope g --num-topics 3 --take-read --read-period 100"]
     [OK; OK] (Callable coherent_sets_w_instances)
     ("Test the behavior of coherent access with GROUP_PRESENTATION with several instances, using TRANSIENT_LOCAL")
     (text [
      "Verifies subscribers receives data correctly when using coherent access GROUP_PRESENTATION.";
      "";
      " * Configures the publisher / subscriber with a RELIABLE reliability";
      " * Configures the publisher / subscriber with history KEEP_ALL";
      " * Configures the publisher / subscriber with coherent access";
      " * Configures the publisher / subscriber with TRANSIENT_LOCAL durability";
      " * Configures the publisher / subscriber with access scope GROUP_PRESENTATION";
      " * Configures the publisher / subscriber to use 3 topics";
      " * The publisher publishes 4 different instances (using the same data value)";
      " * The publisher creates coherent sets of 3 consecutive samples each instance";
      " * The publisher application sends samples with increasing value of the " +:+ dq +:+ "size" +:+ dq +:+ " member";
      " * Configures the publisher with a writing period of 100ms";
      " * Configures the subscriber to use take() instead of take_next_instance()";
      " * Configures the subscriber with a reading period of 100ms";
      " * Verifies the publisher and subscriber discover and match each other";
      "";
      "The test passes if the subscriber application receives all samples of a coherent set at the same. This coherent set is created with 36 samples: 3 samples per instance, 4 instances and 3 topics. This test checks that the consecutive samples received per instance and topic is 3 each time we receive a new coherent set of samples. The subscriber has to read " +:+ max_samples +:+ " samples per instance";
      ""]))].

Definition rtps_test_suite_1 : suite :=
  (suite_Domain
   ++ suite_DataRepresentation
   ++ suite_Reliability
   ++ suite_History
   ++ suite_Ownership_a
   ++ suite_Ownership_b
   ++ suite_Deadline
   ++ suite_Topic
   ++ suite_Cft
   ++ suite_Partition
   ++ suite_Durability_a
   ++ suite_Durability_b
   ++ suite_TimeBasedFilter
   ++ suite_FinalInstanceState
   ++ suite_LargeData
   ++ suite_Lifespan_a
   ++ suite_Lifespan_b
   ++ suite_OrderedAccess_a
   ++ suite_OrderedAccess_b
   ++ suite_OrderedAccess_c
   ++ suite_CoherentSets_a
   ++ suite_CoherentSets_b
   ++ suite_CoherentSets_c)%list.

(** ** Well-formedness *)

(** A test case has as many codes as applications, every application is a publisher or
    a subscriber, there is one of each, and its function can be called. *)
Definition well_formed (t : test_case) : Prop :=
  case_ok t ∧ Forall (λ e, is_Ok (classify e)) (apps t) ∧
  Exists (λ e, classify e = Ok Publisher) (apps t) ∧
  Exists (λ e, classify e = Ok Subscriber) (apps t).

#[export] Instance result_eq_dec {A} `{EqDecision A} : EqDecision (result A).
Proof. solve_decision. Defined.
#[export] Instance is_Ok_dec {A} (r : result A) : Decision (is_Ok r).
Proof. destruct r; [left; by eexists|right; by intros []]. Defined.
#[export] Instance well_formed_dec t : Decision (well_formed t).
Proof. unfold well_formed. apply _. Defined.

(** ** The request/offered rules

    Quality of service as the shape application reads it from its parameters, with the
    defaults of srcCxx/shape_main.cxx. *)

(** The word after an option. *)
Fixpoint value_of (option : string) (ws : list string) : Datatypes.option string :=
  match ws with
  | [] => None
  | w :: ws' => if decide (w = option) then head ws' else value_of option ws'
  end.
Definition has_flag (option : string) (ws : list string) : bool := bool_decide (option ∈ ws).

Record qos := Qos {
  q_domain : string;
  q_topic : string;
  q_partition : Datatypes.option string;
  q_reliable : bool;
  q_durability : nat;
  q_deadline : Datatypes.option Z;
  q_representation : string;
  q_exclusive : bool;
  q_scope : nat;
  q_ordered : bool;
  q_coherent : bool
}.

Definition durability_rank (s : Datatypes.option string) : nat :=
  match s with Some "l" => 1 | Some "t" => 2 | Some "p" => 3 | _ => 0 end.
Definition scope_rank (s : Datatypes.option string) : nat :=
  match s with Some "t" => 1 | Some "g" => 2 | _ => 0 end.
Definition period (s : Datatypes.option string) : Datatypes.option Z :=
  match s with Some w => match py_int 10 w with Ok z => Some z | Raise _ => None end | None => None end.

Definition qos_of (parameters : string) : qos :=
  let ws := words parameters in
  Qos (default "0" (value_of "-d" ws)) (default "" (value_of "-t" ws)) (value_of "-p" ws)
      (negb (has_flag "-b" ws)) (durability_rank (value_of "-D" ws)) (period (value_of "-f" ws))
      (default "2" (value_of "-x" ws))
      (match value_of "-s" ws with Some s => bool_decide (s ≠ "-1") | None => false end)
      (scope_rank (value_of "--access-scope" ws)) (has_flag "--ordered" ws) (has_flag "--coherent" ws).

(** Partition names may have a [*]. *)
Fixpoint glob (fuel : nat) (pattern name : string) : bool :=
  match fuel with
  | 0 => false
  | S fuel' =>
      match pattern, name with
      | "", "" => true
      | String "*" p, "" => glob fuel' p ""
      | String "*" p, String _ n => glob fuel' p name || glob fuel' pattern n
      | String c p, String d n => Ascii.eqb c d && glob fuel' p n
      | _, _ => false
      end
  end.
Definition same_partition (p s : Datatypes.option string) : bool :=
  match p, s with
  | None, None => true
  | Some a, Some b =>
      let fuel := S (String.length a + String.length b) in glob fuel a b || glob fuel b a
  | _, _ => false
  end.

(** A writer and a reader meet in a domain, on a topic and in a partition. *)
Definition meet (w r : qos) : bool :=
  bool_decide (q_domain w = q_domain r) && bool_decide (q_topic w = q_topic r)
  && same_partition (q_partition w) (q_partition r).

(** What the writer offers is what the reader requests. *)
Definition compatible (w r : qos) : bool :=
  (q_reliable w || negb (q_reliable r))
  && Nat.leb (q_durability r) (q_durability w)
  && match q_deadline w, q_deadline r with
     | _, None => true
     | Some a, Some b => (a <=? b)%Z
     | None, Some _ => false
     end
  && bool_decide (q_representation w = q_representation r)
  && Bool.eqb (q_exclusive w) (q_exclusive r)
  && Nat.leb (q_scope r) (q_scope w)
  && (q_ordered w || negb (q_ordered r))
  && (q_coherent w || negb (q_coherent r)).

(** The codes that the rules allow for an application and the applications of the
    other kind. *)
Definition allowed (kind : entity) (met : list qos) (compat : qos → bool) (c : ReturnCode) : bool :=
  match met with
  | [] => bool_decide (c = match kind with Publisher => READER_NOT_MATCHED | Subscriber => DATA_NOT_RECEIVED end)
  | _ =>
      if existsb compat met
      then bool_decide (c ∉ [INCOMPATIBLE_QOS; READER_NOT_MATCHED; DATA_NOT_RECEIVED])
      else bool_decide (c = INCOMPATIBLE_QOS)
  end.

Definition kinds_of (kind : entity) (parameters : list string) : list qos :=
  qos_of <$> filter (λ e, classify e = Ok kind) parameters.

Definition code_allowed (parameters : list string) (e : string) (c : ReturnCode) : bool :=
  let q := qos_of e in
  match classify e with
  | Ok Publisher =>
      allowed Publisher (filter (λ r, meet q r = true) (kinds_of Subscriber parameters)) (compatible q) c
  | Ok Subscriber =>
      allowed Subscriber (filter (λ w, meet w q = true) (kinds_of Publisher parameters))
        (λ w, compatible w q) c
  | Raise _ => false
  end.

(** The expected codes of a test case are allowed for its applications. *)
Definition agrees_with_rules (t : test_case) : Prop :=
  Forall (λ p : string * ReturnCode, code_allowed (apps t) p.1 p.2 = true)
    (zip (apps t) (tc_expected_codes t)).
#[export] Instance agrees_dec t : Decision (agrees_with_rules t).
Proof. unfold agrees_with_rules. apply _. Defined.

Lemma cases_well_formed : Forall (λ p, well_formed p.2) rtps_test_suite_1.
Proof. apply (bool_decide_unpack _). vm_compute. exact I. Qed.

(** ** Properties *)

(** the test suite of the repository is well formed: 105 test cases of different
    names; each has as many expected codes as applications, at least one publisher and
    one subscriber, nothing else, and a checking function that can be called.  So
    neither the assertion nor a RuntimeError of the driver can stop a run of it. *)
Theorem test_suite_well_formed :
  length rtps_test_suite_1 = 105 ∧ NoDup (keys rtps_test_suite_1) ∧
  Forall (λ p, well_formed p.2) rtps_test_suite_1.
Proof.
  split_and!; [by vm_compute| |apply cases_well_formed].
  apply (bool_decide_unpack _). vm_compute. exact I.
Qed.

(** the expected codes of all 105 test cases agree with the request/offered rules of
    DDS applied to the parameters: an application expects [INCOMPATIBLE_QOS] exactly when
    it meets applications of the other kind and its reliability, durability, deadline,
    data representation, ownership or presentation is compatible with none of them; a
    publisher expects [READER_NOT_MATCHED] and a subscriber [DATA_NOT_RECEIVED] exactly
    when domain, topic or partition separate it from all of them. *)
Theorem test_suite_agrees_with_rules : Forall (λ p, agrees_with_rules p.2) rtps_test_suite_1.
Proof. apply (bool_decide_unpack _). vm_compute. exact I. Qed.
