(* ===== verification/Sniffer.v ===== *)
(** * Discovery sniffer: decoding (discovery/rtps_discovery_sniffer.py)

    The decoders of identifiers and the analysis of the packets that tshark has
    dissected.  tshark, the capture and the clock are not modelled: the packets are an
    argument, as JSON values. *)

From S2P Require Import Prelude PyStr PyDict Json Regex.
From stdpp Require Import options.
Local Open Scope string_scope.

(** ** Tables *)

Definition VENDOR_MAP : dict string string :=
  [("0101", "RTI Connext DDS"); ("0102", "OpenSplice DDS"); ("0103", "OpenDDS");
   ("0104", "MilSoft"); ("0105", "Twin Oaks CoreDX DDS"); ("0106", "Lakos");
   ("0107", "PrismTech"); ("0108", "OAMAS"); ("0109", "THALES"); ("010a", "ATIS");
   ("010f", "eProsima Fast DDS"); ("0110", "Eclipse Cyclone DDS");
   ("0111", "GurumNetworks GurumDDS"); ("0112", "RustDDS"); ("0113", "Shadow Security DDS");
   ("0114", "Dust DDS"); ("0120", "Intercom DDS")].

Definition BUILTIN_ENDPOINTS_MAP : dict Z string :=
  [(0x00000001%Z, "DISC_BUILTIN_ENDPOINT_PARTICIPANT_ANNOUNCER");
   (0x00000002%Z, "DISC_BUILTIN_ENDPOINT_PARTICIPANT_DETECTOR");
   (0x00000004%Z, "DISC_BUILTIN_ENDPOINT_PUBLICATION_ANNOUNCER");
   (0x00000008%Z, "DISC_BUILTIN_ENDPOINT_PUBLICATION_DETECTOR");
   (0x00000010%Z, "DISC_BUILTIN_ENDPOINT_SUBSCRIPTION_ANNOUNCER");
   (0x00000020%Z, "DISC_BUILTIN_ENDPOINT_SUBSCRIPTION_DETECTOR");
   (0x00000040%Z, "DISC_BUILTIN_ENDPOINT_PARTICIPANT_PROXY_ANNOUNCER");
   (0x00000080%Z, "DISC_BUILTIN_ENDPOINT_PARTICIPANT_PROXY_DETECTOR");
   (0x00000100%Z, "DISC_BUILTIN_ENDPOINT_PARTICIPANT_STATE_ANNOUNCER");
   (0x00000200%Z, "DISC_BUILTIN_ENDPOINT_PARTICIPANT_STATE_DETECTOR");
   (0x00000400%Z, "BUILTIN_ENDPOINT_PARTICIPANT_MESSAGE_DATA_WRITER");
   (0x00000800%Z, "BUILTIN_ENDPOINT_PARTICIPANT_MESSAGE_DATA_READER");
   (0x00001000%Z, "BITS_TYPE_LOOKUP_SERVICE_REQUEST_DATA_WRITER");
   (0x00002000%Z, "BITS_TYPE_LOOKUP_SERVICE_REQUEST_DATA_READER");
   (0x00004000%Z, "BITS_TYPE_LOOKUP_SERVICE_REPLY_DATA_WRITER");
   (0x00008000%Z, "BITS_TYPE_LOOKUP_SERVICE_REPLY_DATA_READER");
   (0x00010000%Z, "DISC_BUILTIN_ENDPOINT_PUBLICATION_SECURE_ANNOUNCER");
   (0x00020000%Z, "DISC_BUILTIN_ENDPOINT_PUBLICATION_SECURE_DETECTOR");
   (0x00040000%Z, "DISC_BUILTIN_ENDPOINT_SUBSCRIPTION_SECURE_ANNOUNCER");
   (0x00080000%Z, "DISC_BUILTIN_ENDPOINT_SUBSCRIPTION_SECURE_DETECTOR");
   (0x00100000%Z, "BUILTIN_ENDPOINT_PARTICIPANT_MESSAGE_SECURE_DATA_WRITER");
   (0x00200000%Z, "BUILTIN_ENDPOINT_PARTICIPANT_MESSAGE_SECURE_DATA_READER");
   (0x00400000%Z, "DISC_BUILTIN_ENDPOINT_PARTICIPANT_SECURE_ANNOUNCER");
   (0x00800000%Z, "DISC_BUILTIN_ENDPOINT_PARTICIPANT_SECURE_DETECTOR")].

Definition RELIABILITY_KINDS : dict Z string := [(1%Z, "BEST_EFFORT"); (2%Z, "RELIABLE")].
Definition DURABILITY_KINDS : dict Z string :=
  [(0%Z, "VOLATILE"); (1%Z, "TRANSIENT_LOCAL"); (2%Z, "TRANSIENT"); (3%Z, "PERSISTENT")].
Definition OWNERSHIP_KINDS : dict Z string := [(0%Z, "SHARED"); (1%Z, "EXCLUSIVE")].

(** ** Decoders *)

(** [isinstance(v, int)]: a bool is an int. *)
Definition as_int (v : json) : option Z :=
  match v with
  | JInt z => Some z
  | JBool b => Some (if b then 1 else 0)%Z
  | _ => None
  end.

Definition remove_0x (s : string) : string := if startswith "0x" s then str_drop 2 s else s.
Definition remove_separators (s : string) : string := replace "." "" (replace ":" "" s).

Definition normalize_hex (val : json) (length : nat) : string :=
  match val with
  | JNull => ""
  | _ =>
      match as_int val with
      | Some z => format_hex length z
      | None => zfill length (remove_separators (remove_0x (lower (strip (str_of val)))))
      end
  end.

Definition format_guid (raw_guid : json) : string :=
  if truthy raw_guid then
    let raw := match raw_guid with JList (x :: _) => x | _ => raw_guid end in
    remove_0x (remove_separators (lower (strip (str_of raw))))
  else "unknown".

Definition dotted (norm : string) : string :=
  if Nat.eqb (String.length norm) 4 then str_take 2 norm +:+ "." +:+ str_drop 2 norm else norm.
Definition decode_vendor (vendor_val : json) : string * string :=
  let norm := normalize_hex vendor_val 4 in
  let name := match dget norm VENDOR_MAP with
              | Some n => n
              | None => "Unknown DDS Vendor (" +:+ norm +:+ ")"
              end in
  (dotted norm, name).

Definition version_of (val_int : Z) : string :=
  let major := Z.land (Z.shiftr val_int 8) 0xFF in
  let minor := Z.land val_int 0xFF in
  str_of_Z major +:+ "." +:+ str_of_Z minor.

Definition decode_version (ver_val : json) : string :=
  match ver_val with
  | JNull => "unknown"
  | JFloat f => version_of (float_trunc f)
  | _ =>
      match as_int ver_val with
      | Some z => version_of z
      | None =>
          let s := strip (str_of ver_val) in
          if startswith "0x" s && Nat.leb 6 (String.length s)
          then match py_int 16 s with Ok z => version_of z | Raise _ => s end
          else s
      end
  end.

(** [int(mask_val, 16)] of a string, [int(mask_val)] otherwise. *)
Definition mask_int (mask_val : json) : result Z :=
  match mask_val with
  | JStr s => py_int 16 s
  | JFloat f => Ok (float_trunc f)
  | _ => or_raise TypeError (as_int mask_val)
  end.

Definition flags_of (val_int : Z) : list string :=
  (filter (λ p : Z * string, Z.land val_int p.1 ≠ 0%Z) BUILTIN_ENDPOINTS_MAP).*2.

Definition decode_builtin_endpoints (mask_val : json) : string * list string :=
  match mask_val with
  | JNull => ("0x00000000", [])
  | _ =>
      match mask_int mask_val with
      | Raise _ => (str_of mask_val, [])
      | Ok val_int => ("0x" +:+ format_hex 8 val_int, flags_of val_int)
      end
  end.

(** A year, a month and a day of digits, each followed by a dash, and the rest of the
    line; [.] is not a newline. *)
Definition date_re : regex :=
  (RGroup 1 (RRep 4 (RChar is_digit)) ⊙ RLit "-" ⊙ RGroup 2 (RRep 2 (RChar is_digit)) ⊙ RLit "-"
   ⊙ RGroup 3 (RRep 2 (RChar is_digit)) ⊙ RLit "-" ⊙ RGroup 4 (RStar true (cnot (cis "010"%char))) ⊙ REnd)%re.

(** The content of the file [timestamp], if there is one and it can be read, and the
    present time in the report format. *)
Definition get_current_timestamp (file : option string) (now : string) : string :=
  match file with
  | None => now
  | Some text =>
      let content := strip text in
      if decide (content = "") then now
      else match re_match date_re content with
           | Some m =>
               match group 1 m, group 2 m, group 3 m, group 4 m with
               | Some y, Some mo, Some d, Some r => y +:+ mo +:+ d +:+ "-" +:+ r
               | _, _, _, _ => now
               end
           | None => content
           end
  end.

(** ** Participants *)

Inductive port := PortInt (z : Z) | PortStr (s : string).
#[export] Instance port_eq_dec : EqDecision port.
Proof. solve_decision. Defined.

Record locator := Locator { l_type : string; l_ip : string; l_port : port }.
#[export] Instance locator_eq_dec : EqDecision locator.
Proof. solve_decision. Defined.

Record participant := Participant {
  p_guid_prefix : string;
  p_src_ip : json;
  p_vendor_id : string;
  p_vendor_name : string;
  p_protocol_version : string;
  p_lease_duration_sec : pyfloat;
  p_builtin_endpoints_mask : string;
  p_builtin_endpoints_flags : list string;
  p_locators : list locator
}.

(** [found_spdp]: a key that is not there is [None]. *)
Record spdp := Spdp {
  f_guid_prefix : option string;
  f_vendor : option (string * string);
  f_protocol_version : option string;
  f_lease_duration_sec : option pyfloat;
  f_builtin : option (string * list string)
}.
Definition spdp_empty : spdp := Spdp None None None None None.

Definition str_isdigit (s : string) : bool := negb (bool_decide (s = "")) && sforall is_digit s.

(** [str(v).split()[0]] *)
Definition first_word (v : json) : result string := or_raise IndexError (head (words (str_of v))).

Definition port_of (v : json) : result port :=
  let s := str_of v in
  if str_isdigit s || startswith "0x" s then
    w ← first_word v; z ← py_int 0 w; Ok (PortInt z)
  else Ok (PortStr s).

(** [node.get(a) or node.get(b)] *)
Definition get_or (a b : string) (node : dict string json) : json :=
  let x := default JNull (dget a node) in
  if truthy x then x else default JNull (dget b node).

Definition float_of_json (v : json) : result pyfloat :=
  match v with
  | JStr s => float_of_string s
  | JFloat f => Ok f
  | _ => match as_int v with Some z => Ok (float_of_Z z) | None => Raise TypeError end
  end.

(** The key [k] with value [v] of the dictionary [node]: the six tests in order. *)
Definition see_guid (node : dict string json) (k : string) (v : json) (f : spdp) : spdp :=
  if contains "pid_participant_guid" (lower k) || bool_decide (k = "rtps.param.participant_guid") then
    let guid_str := format_guid (default v (dget "rtps.param.participant_guid" node)) in
    let prefix := if Nat.leb 24 (String.length guid_str) then str_take 24 guid_str else guid_str in
    Spdp (Some prefix) (f_vendor f) (f_protocol_version f) (f_lease_duration_sec f) (f_builtin f)
  else f.
Definition see_vendor (node : dict string json) (k : string) (v : json) (f : spdp) : spdp :=
  if contains "pid_vendor_id" (lower k) || bool_decide (k = "rtps.vendorId") then
    Spdp (f_guid_prefix f) (Some (decode_vendor (default v (dget "rtps.vendorId" node))))
         (f_protocol_version f) (f_lease_duration_sec f) (f_builtin f)
  else f.
Definition see_version (node : dict string json) (k : string) (v : json) (f : spdp) : spdp :=
  if contains "pid_protocol_version" (lower k) || bool_decide (k = "rtps.version") then
    Spdp (f_guid_prefix f) (f_vendor f) (Some (decode_version (default v (dget "rtps.version" node))))
         (f_lease_duration_sec f) (f_builtin f)
  else f.
Definition see_lease (node : dict string json) (k : string) (f : spdp) : spdp :=
  if contains "pid_participant_lease_duration" (lower k) || contains "lease_duration" (lower k) then
    match default JNull (dget "rtps.param.ntpTime.sec" node) with
    | JNull => f
    | sec =>
        match float_of_json sec with
        | Ok x => Spdp (f_guid_prefix f) (f_vendor f) (f_protocol_version f) (Some x) (f_builtin f)
        | Raise _ => f
        end
    end
  else f.
Definition see_builtin (node : dict string json) (k : string) (v : json) (f : spdp) : spdp :=
  if contains "pid_builtin_endpoint_set" (lower k) || contains "builtin_endpoint_set" (lower k) then
    Spdp (f_guid_prefix f) (f_vendor f) (f_protocol_version f) (f_lease_duration_sec f)
         (Some (decode_builtin_endpoints (default v (dget "rtps.param.builtin_endpoint_set" node))))
  else f.
Definition see_locator (node : dict string json) (k : string) (ls : list locator) :
    result (list locator) :=
  if contains "locator" (lower k) then
    let loc_ip := get_or "rtps.locator.ipv4" "rtps.locator_udp_v4.ip" node in
    let loc_port := get_or "rtps.locator.port" "rtps.locator_udp_v4.port" node in
    if truthy loc_ip && truthy loc_port then
      let kind := if contains "metatraffic" (lower k) then "metatraffic_unicast"
                  else if contains "multicast" (lower k) then "multicast" else "unicast" in
      p ← port_of loc_port;
      Ok (ls ++ [Locator kind (str_of loc_ip) p])%list
    else Ok ls
  else Ok ls.

Definition inspect_item (node : dict string json) (s : spdp * list locator) (kv : string * json) :
    result (spdp * list locator) :=
  let '(k, v) := kv in
  let f := see_builtin node k v (see_lease node k
             (see_version node k v (see_vendor node k v (see_guid node k v s.1)))) in
  ls ← see_locator node k s.2;
  Ok (f, ls).
Definition inspect_spdp_node (s : spdp * list locator) (node : dict string json) :
    result (spdp * list locator) :=
  mfold (inspect_item node) s node.

(** [if lk not in seen: seen.add(lk); out.append(loc)] *)
Definition add_locator (ls : list locator) (l : locator) : list locator :=
  if decide (l ∈ ls) then ls else (ls ++ [l])%list.

(** [x or y] for a string that may be absent. *)
Definition or_str (x : option string) (y : option string) : option string :=
  match x with Some s => if decide (s = "") then y else Some s | None => y end.

Definition new_participant (guid_p : string) (src_ip header_vendor header_version : json)
    (f : spdp) (found : list locator) : participant :=
  let vendor_arg :=
    match or_str (fst <$> f_vendor f) None with Some s => JStr s | None => header_vendor end in
  let '(v_hex, v_name) := decode_vendor vendor_arg in
  let proto_ver :=
    match or_str (f_protocol_version f) None with Some s => s | None => decode_version header_version end in
  Participant guid_p src_ip v_hex v_name proto_ver
    (default (PyFloat 20 0) (f_lease_duration_sec f))
    (default "unknown" (fst <$> f_builtin f)) (default [] (snd <$> f_builtin f))
    (foldl add_locator [] found).

Definition augment_participant (f : spdp) (found : list locator) (p : participant) : participant :=
  let '(mask, flags) :=
    match p_builtin_endpoints_flags p, f_builtin f with
    | [], Some (m, (_ :: _) as fl) => (m, fl)
    | _, _ => (p_builtin_endpoints_mask p, p_builtin_endpoints_flags p)
    end in
  let lease :=
    match f_lease_duration_sec f with
    | Some x => if float_nonzero x then x else p_lease_duration_sec p
    | None => p_lease_duration_sec p
    end in
  Participant (p_guid_prefix p) (p_src_ip p) (p_vendor_id p) (p_vendor_name p)
    (p_protocol_version p) lease mask flags (foldl add_locator (p_locators p) found).

Definition record_participant (guid_p : option string) (src_ip header_vendor header_version : json)
    (f : spdp) (found : list locator) (ps : dict string participant) : dict string participant :=
  match or_str guid_p None with
  | None => ps
  | Some g =>
      match dget g ps with
      | None => dset g (new_participant g src_ip header_vendor header_version f found) ps
      | Some p => dset g (augment_participant f found p) ps
      end
  end.

(** ** Endpoints

    The dictionary of an endpoint is a record of what its keys hold, with the list of the keys
    in the order in which they were set. *)

Definition set_key (keys : list string) (k : string) : list string :=
  if decide (k ∈ keys) then keys else (keys ++ [k])%list.

Record endpoint := Endpoint {
  e_topic_name : string;
  e_type_name : string;
  e_endpoint_guid : string;
  e_entity_kind : string;
  e_reliability : string;
  e_durability : string;
  e_ownership : string;
  e_history_depth : option Z;
  e_has_type_object : bool;
  e_src_ip : json;
  e_keys : list string
}.

(** [cand] *)
Record cand := Cand {
  c_topic_name : option string;
  c_type_name : option string;
  c_endpoint_guid : option string;
  c_entity_kind : option string;
  c_reliability : option string;
  c_durability : option string;
  c_ownership : option string;
  c_history_depth : option Z;
  c_has_type_object : bool;
  c_keys : list string
}.
Definition cand_empty : cand := Cand None None None None None None None None false [].

(** [int(str(v).split()[0], 0)]; a text without a word is an IndexError, which the
    handlers do not catch. *)
Definition int_of (v : json) : result Z := w ← first_word v; py_int 0 w.

(** [try: KINDS.get(int(...), hex) except (ValueError, TypeError): str(v)] *)
Definition kind_name (kinds : dict Z string) (v : json) : result string :=
  match int_of v with
  | Ok z => Ok (default ("0x" +:+ format_hex 0 z) (dget z kinds))
  | Raise ValueError => Ok (str_of v)
  | Raise TypeError => Ok (str_of v)
  | Raise e => Raise e
  end.

Definition entity_kind_of (guid_full : string) : string :=
  let kind_hex := str_tail 2 guid_full in
  if decide (kind_hex ∈ ["02"; "03"]) then "DataWriter"
  else if decide (kind_hex ∈ ["04"; "07"]) then "DataReader"
  else "Entity (0x" +:+ kind_hex +:+ ")".

(** One key of a dictionary: the first test that holds. *)
Definition inspect_key (c : cand) (k : string) (v : json) : result cand :=
  if decide (k = "rtps.param.topicName") then
    Ok (Cand (Some (str_of v)) (c_type_name c) (c_endpoint_guid c) (c_entity_kind c)
         (c_reliability c) (c_durability c) (c_ownership c) (c_history_depth c) (c_has_type_object c)
         (set_key (c_keys c) "topic_name"))
  else if decide (k = "rtps.param.typeName") then
    Ok (Cand (c_topic_name c) (Some (str_of v)) (c_endpoint_guid c) (c_entity_kind c)
         (c_reliability c) (c_durability c) (c_ownership c) (c_history_depth c) (c_has_type_object c)
         (set_key (c_keys c) "type_name"))
  else if decide (k = "rtps.param.endpoint_guid") then
    let guid_full := format_guid v in
    if Nat.leb 24 (String.length guid_full) then
      Ok (Cand (c_topic_name c) (c_type_name c) (Some guid_full) (Some (entity_kind_of guid_full))
           (c_reliability c) (c_durability c) (c_ownership c) (c_history_depth c) (c_has_type_object c)
           (set_key (set_key (c_keys c) "endpoint_guid") "entity_kind"))
    else Ok c
  else if decide (k = "rtps.reliability_kind") then
    n ← kind_name RELIABILITY_KINDS v;
    Ok (Cand (c_topic_name c) (c_type_name c) (c_endpoint_guid c) (c_entity_kind c)
         (Some n) (c_durability c) (c_ownership c) (c_history_depth c) (c_has_type_object c)
         (set_key (c_keys c) "reliability"))
  else if decide (k = "rtps.durability") then
    n ← kind_name DURABILITY_KINDS v;
    Ok (Cand (c_topic_name c) (c_type_name c) (c_endpoint_guid c) (c_entity_kind c)
         (c_reliability c) (Some n) (c_ownership c) (c_history_depth c) (c_has_type_object c)
         (set_key (c_keys c) "durability"))
  else if decide (k = "rtps.ownership") then
    n ← kind_name OWNERSHIP_KINDS v;
    Ok (Cand (c_topic_name c) (c_type_name c) (c_endpoint_guid c) (c_entity_kind c)
         (c_reliability c) (c_durability c) (Some n) (c_history_depth c) (c_has_type_object c)
         (set_key (c_keys c) "ownership"))
  else if decide (k ∈ ["rtps.history_depth"; "rtps.param.history.depth"]) then
    match int_of v with
    | Ok z =>
        Ok (Cand (c_topic_name c) (c_type_name c) (c_endpoint_guid c) (c_entity_kind c)
             (c_reliability c) (c_durability c) (c_ownership c) (Some z) (c_has_type_object c)
             (set_key (c_keys c) "history_depth"))
    | Raise ValueError | Raise TypeError => Ok c
    | Raise e => Raise e
    end
  else if contains "typeobject" (lower k) || contains "type_information" (lower k)
          || contains "pid_type_object" (lower k) then
    Ok (Cand (c_topic_name c) (c_type_name c) (c_endpoint_guid c) (c_entity_kind c)
         (c_reliability c) (c_durability c) (c_ownership c) (c_history_depth c) true
         (set_key (c_keys c) "has_type_object"))
  else Ok c.

(** A dictionary's keys in order, each followed by what is inside its value. *)
Fixpoint inspect_cand (v : json) (c : cand) : result cand :=
  match v with
  | JObj d =>
      (fix items (d : list (string * json)) (c : cand) : result cand :=
         match d with
         | [] => Ok c
         | p :: d' => c1 ← inspect_key c p.1 p.2; c2 ← inspect_cand p.2 c1; items d' c2
         end) d c
  | JList l =>
      (fix elems (l : list json) (c : cand) : result cand :=
         match l with
         | [] => Ok c
         | x :: l' => c1 ← inspect_cand x c; elems l' c1
         end) l c
  | _ => Ok c
  end.

Definition endpoint_of (src_ip : json) (c : cand) : option endpoint :=
  topic ← or_str (c_topic_name c) None;
  type ← or_str (c_type_name c) None;
  guid ← or_str (c_endpoint_guid c) None;
  Some (Endpoint topic type guid (default "" (c_entity_kind c))
          (default "BEST_EFFORT" (c_reliability c)) (default "VOLATILE" (c_durability c))
          (default "SHARED" (c_ownership c)) (c_history_depth c) (c_has_type_object c) src_ip
          (foldl set_key (c_keys c) ["reliability"; "durability"; "ownership"; "src_ip"])).

(** The endpoint is not one that is there already. *)
Definition add_endpoint (e : endpoint) (eps : list endpoint) : list endpoint :=
  if decide (Exists (λ x, e_endpoint_guid x = e_endpoint_guid e ∧ e_topic_name x = e_topic_name e) eps)
  then eps else (eps ++ [e])%list.

Definition looks_like_endpoint (node : json) : bool :=
  let s_str := dumps node in
  contains "rtps.param.topicName" s_str &&
  (contains "rtps.param.endpoint_guid" s_str || contains "PID_ENDPOINT_GUID" s_str).

(** A dictionary that gives an endpoint is not looked into further. *)
Fixpoint extract_sedp_endpoints (src_ip : json) (node : json) (eps : list endpoint) :
    result (list endpoint) :=
  match node with
  | JObj d =>
      let inside :=
        (fix values (d : list (string * json)) (eps : list endpoint) : result (list endpoint) :=
           match d with
           | [] => Ok eps
           | p :: d' => eps1 ← extract_sedp_endpoints src_ip p.2 eps; values d' eps1
           end) d in
      if looks_like_endpoint node then
        c ← inspect_cand node cand_empty;
        match endpoint_of src_ip c with
        | Some e => Ok (add_endpoint e eps)
        | None => inside eps
        end
      else inside eps
  | JList l =>
      (fix elems (l : list json) (eps : list endpoint) : result (list endpoint) :=
         match l with
         | [] => Ok eps
         | x :: l' => eps1 ← extract_sedp_endpoints src_ip x eps; elems l' eps1
         end) l eps
  | _ => Ok eps
  end.

(** ** Packets *)

Record summary := Summary {
  total_rtps_packets : nat;
  participants : dict string participant;
  endpoints : list endpoint
}.

(** The GUID prefix from the parameters, else from the header. *)
Definition guid_of (f : spdp) (header_guid : json) : option string :=
  or_str (f_guid_prefix f)
    (if truthy header_guid then Some (str_take 24 (format_guid header_guid)) else None).

Definition parse_packet (s : summary) (pkt : json) : result summary :=
  source ← jget "_source" (JObj []) pkt;
  layers ← jget "layers" (JObj []) source;
  rtps ← jget "rtps" (JObj []) layers;
  ip_layer ← jget "ip" (JObj []) layers;
  src_default ← jget "ip.src" (JStr "unknown") layers;
  src_ip0 ← jget "ip.src" src_default ip_layer;
  dst_default ← jget "ip.dst" (JStr "unknown") layers;
  dst_ip0 ← jget "ip.dst" dst_default ip_layer;
  src_ip ← first_of src_ip0;
  _ ← first_of dst_ip0;
  guid_default ← jget "rtps.guidPrefix.src" JNull rtps;
  header_guid ← jget "rtps.guidPrefix" guid_default rtps;
  header_vendor ← jget "rtps.vendorId" JNull rtps;
  header_version ← jget "rtps.version" JNull rtps;
  found ← mfold inspect_spdp_node (spdp_empty, []) (nodes rtps);
  let ps := record_participant (guid_of found.1 header_guid) src_ip header_vendor header_version
              found.1 found.2 (participants s) in
  eps ← extract_sedp_endpoints src_ip rtps (endpoints s);
  Ok (Summary (total_rtps_packets s) ps eps).

Definition parse_discovery_data (raw_packets : list json) : result summary :=
  mfold parse_packet (Summary (length raw_packets) [] []) raw_packets.

(** ** The decoders *)

Lemma land_pow2 z i : Z.land z (2 ^ Z.of_nat i) ≠ 0%Z ↔ Z.testbit z (Z.of_nat i) = true.
Proof.
  rewrite <- Z.shiftl_1_l. split.
  - intros Hne. destruct (Z.testbit z (Z.of_nat i)) eqn:E; [done|]. exfalso. apply Hne.
    apply Z.bits_inj. intros j. rewrite Z.land_spec, Z.bits_0.
    destruct (decide (j < 0)%Z); [by rewrite Z.testbit_neg_r|].
    rewrite Z.shiftl_spec by lia. destruct (decide (j = Z.of_nat i)) as [->|]; [by rewrite E|].
    destruct (decide (j < Z.of_nat i)%Z); [by rewrite (Z.testbit_neg_r 1), andb_false_r by lia|].
    rewrite (Z.bits_above_log2 1) by (simpl; lia). apply andb_false_r.
  - intros Hb E. assert (Z.testbit 0 (Z.of_nat i) = true) as Ht; [|by rewrite Z.bits_0 in Ht].
    rewrite <- E, Z.land_spec, Hb, Z.shiftl_spec by lia. by rewrite Z.sub_diag.
Qed.

Lemma filter_bits z (l : list (Z * string)) o :
  (∀ i p, l !! i = Some p → p.1 = 2 ^ Z.of_nat (o + i))%Z →
  (filter (λ p : Z * string, Z.land z p.1 ≠ 0%Z) l).*2
  = omap (λ q : nat * string, if Z.testbit z (Z.of_nat q.1) then Some q.2 else None)
         (zip (seq o (length l)) l.*2).
Proof.
  revert o. induction l as [|[b n] l IH]; intros o Hl; [done|].
  pose proof (Hl 0 _ eq_refl) as Hb. rewrite Nat.add_0_r in Hb. cbn in Hb.
  assert (∀ k : list (Z * string), length ((b, n) :: k) = S (length k)) as -> by done.
  rewrite filter_cons. specialize (IH (S o)).
  destruct (decide _) as [Hd|Hd]; cbn [fst] in Hd; subst b; rewrite land_pow2 in Hd;
    [|apply not_true_is_false in Hd]; csimpl; rewrite Hd; [f_equal|];
    apply IH; intros i p Hi; rewrite (Hl (S i) p Hi); do 2 f_equal; lia.
Qed.

(** C24: the built-in endpoints of a mask are the names of its set bits, bit 0 first, the
    24 bits of the table; and reading the mask back from its printed form gives the same
    endpoints. *)
Theorem decode_builtin_endpoints_bits (n : N) :
  decode_builtin_endpoints (JInt (Z.of_N n))
  = ("0x" +:+ format_hex 8 (Z.of_N n),
     omap (λ q : nat * string, if N.testbit n (N.of_nat q.1) then Some q.2 else None)
          (zip (seq 0 24) (values BUILTIN_ENDPOINTS_MAP)))
  ∧ decode_builtin_endpoints (JStr (fst (decode_builtin_endpoints (JInt (Z.of_N n)))))
    = decode_builtin_endpoints (JInt (Z.of_N n)).
Proof.
  assert (decode_builtin_endpoints (JInt (Z.of_N n))
          = ("0x" +:+ format_hex 8 (Z.of_N n), flags_of (Z.of_N n))) as -> by done.
  split.
  - f_equal. unfold flags_of. rewrite (filter_bits _ _ 0).
    + apply list_omap_ext, Forall_Forall2_diag, Forall_true. intros q.
      by rewrite <- nat_N_Z, Z.testbit_of_N by lia.
    + intros i p Hi. apply (Forall_lookup_1 (λ q : nat * (Z * string), q.2.1 = 2 ^ Z.of_nat q.1)%Z
        (imap pair BUILTIN_ENDPOINTS_MAP) i (i, p)).
      * apply (bool_decide_unpack _). vm_compute. exact I.
      * rewrite list_lookup_imap. by rewrite Hi.
  - cbn [fst]. unfold decode_builtin_endpoints, mask_int.
    rewrite py_int_format_hex by (auto || lia). done.
Qed.

(** A dotted vendor id is read back as its four digits. *)
Lemma normalize_dotted s :
  String.length s = 4 → sforall is_hex s = true → normalize_hex (JStr (dotted s)) 4 = s.
Proof.
  intros Hlen Hhex. unfold dotted. rewrite Hlen. cbn [Nat.eqb].
  pose proof (sforall_take _ 2 _ Hhex) as Ht. pose proof (sforall_drop _ 2 _ Hhex) as Hd.
  assert (∀ p : ascii → bool, p "."%char = true → (∀ c, is_hex c = true → p c = true) →
    sforall p (str_take 2 s +:+ "." +:+ str_drop 2 s) = true) as Hall.
  { intros p Hp Himp. rewrite !sforall_app, (sforall_impl is_hex p _ Himp Ht),
      (sforall_impl is_hex p _ Himp Hd). simpl. by rewrite Hp. }
  assert (∀ d : ascii, (∀ c, is_hex c = true → d ≠ c) → ∀ k, sforall is_hex k = true →
    replace (String d "") "" k = k) as Hrep.
  { intros d Hne k Hk. apply replace_char_id. apply (sforall_impl is_hex); [|done].
    intros c Hc. apply bool_decide_eq_true_2. auto. }
  assert (∀ c, is_hex c = true → "."%char ≠ c) as Hdot.
  { intros c Hc <-. done. }
  assert (∀ c, is_hex c = true → ":"%char ≠ c) as Hcolon.
  { intros c Hc <-. done. }
  unfold normalize_hex. cbn [as_int str_of].
  rewrite strip_id by (apply Hall; [done|]; intros c Hc; by rewrite hex_not_space).
  unfold lower. rewrite smap_id_on.
  2:{ apply Hall; [done|]. intros c Hc. by rewrite hex_lower, bool_decide_eq_true_2. }
  assert (remove_0x (str_take 2 s +:+ "." +:+ str_drop 2 s)
          = str_take 2 s +:+ "." +:+ str_drop 2 s) as ->.
  { unfold remove_0x, startswith. destruct (String.prefix "0x" _) eqn:E; [|done].
    apply prefix_spec in E as [r Hr]. destruct s as [|a [|b s]]; [done..|].
    cbn in Hr. injection Hr as -> -> _. by simpl in Ht. }
  assert (remove_separators (str_take 2 s +:+ "." +:+ str_drop 2 s) = s) as ->.
  { unfold remove_separators. rewrite !replace_char_app.
    rewrite (Hrep ":"%char Hcolon _ Ht), (Hrep ":"%char Hcolon _ Hd).
    rewrite (Hrep "."%char Hdot _ Ht), (Hrep "."%char Hdot _ Hd).
    change (replace "." "" (replace ":" "" ".")) with "".
    by rewrite sapp_nil_l, str_take_drop. } unfold zfill. rewrite Hlen. cbn [Nat.sub srepeat].
  destruct s as [|c s]; [done|]. by destruct c as [[] [] [] [] [] [] [] []].
Qed.

(** Decoding an identifier that was decoded before changes nothing (the parser does
    it for the vendor of a participant): for an identifier of four hex digits, the dotted
    form has the same digits and the same vendor name. *)
Theorem decode_vendor_again v (Hlen : String.length (normalize_hex v 4) = 4)
    (Hhex : sforall is_hex (normalize_hex v 4) = true) :
  decode_vendor (JStr (decode_vendor v).1) = decode_vendor v.
Proof.
  unfold decode_vendor at 1. cbn [decode_vendor fst].
  unfold decode_vendor. cbn [fst]. by rewrite normalize_dotted.
Qed.
Lemma decode_vendor_again_witness :
  decode_vendor (JStr (decode_vendor (JStr "0x010f")).1) = decode_vendor (JStr "0x010f")
  ∧ decode_vendor (JStr "0x010f") = ("01.0f", "eProsima Fast DDS").
Proof.
  split; [|by vm_compute].
  apply (decode_vendor_again (JStr "0x010f")); by vm_compute.
Defined.

(** ** Walking a dissection tree *)

Lemma inspect_cand_obj d c :
  inspect_cand (JObj d) c
  = mfold (λ c p, c1 ← inspect_key c p.1 p.2; inspect_cand p.2 c1) c d.
Proof.
  revert c. induction d as [|[k v] d IH]; intros c; [done|]. simpl.
  destruct (inspect_key c k v) as [c1|]; [|done]. cbn.
  destruct (inspect_cand v c1) as [c2|]; [|done]. cbn. apply IH.
Qed.
Lemma inspect_cand_list l c :
  inspect_cand (JList l) c = mfold (λ c x, inspect_cand x c) c l.
Proof.
  revert c. induction l as [|v l IH]; intros c; [done|]. simpl.
  destruct (inspect_cand v c) as [c1|]; [|done]. cbn. apply IH.
Qed.

Lemma extract_obj src d eps :
  extract_sedp_endpoints src (JObj d) eps
  = let inside := mfold (λ eps p, extract_sedp_endpoints src p.2 eps) eps d in
    if looks_like_endpoint (JObj d) then
      c ← inspect_cand (JObj d) cand_empty;
      match endpoint_of src c with
      | Some e => Ok (add_endpoint e eps)
      | None => inside
      end
    else inside.
Proof.
  cbn [extract_sedp_endpoints]. cbv zeta.
  match goal with |- context[(fix values d eps {struct d} := _) d eps] =>
    set (F := fix values (d : list (string * json)) (eps : list endpoint) {struct d} := _) end.
  assert (∀ d eps, F d eps = mfold (λ eps p, extract_sedp_endpoints src p.2 eps) eps d) as HF.
  { clear. intros d. induction d as [|p d IH]; intros eps; [done|]. simpl.
    destruct (extract_sedp_endpoints src p.2 eps); [|done]. cbn. apply IH. }
  by rewrite !HF.
Qed.
Lemma extract_list src l eps :
  extract_sedp_endpoints src (JList l) eps
  = mfold (λ eps x, extract_sedp_endpoints src x eps) eps l.
Proof.
  revert eps. induction l as [|v l IH]; intros eps; [done|]. simpl.
  destruct (extract_sedp_endpoints src v eps) as [c1|]; [|done]. cbn. apply IH.
Qed.

#[local] Arguments inspect_cand : simpl never.
#[local] Arguments extract_sedp_endpoints : simpl never.
#[local] Arguments looks_like_endpoint : simpl never.

(** What holds of a candidate and is kept by every key holds at the end. *)
Lemma inspect_cand_inv (I : cand → Prop) :
  (∀ c k v c', I c → inspect_key c k v = Ok c' → I c') →
  ∀ v c c', I c → inspect_cand v c = Ok c' → I c'.
Proof.
  intros Hkey v. induction v as [| | | | |l IH|d IH] using json_nested_ind; intros c c' Hc;
    try (intros [= <-]; exact Hc).
  - rewrite inspect_cand_list. apply mfold_inv; [done|]. intros s a s' Ha Hs.
    rewrite Forall_forall in IH. by apply IH.
  - rewrite inspect_cand_obj. apply mfold_inv; [done|]. intros s p s' Hp Hs.
    rewrite bind_Ok. intros (c1 & Hc1 & Hin). rewrite Forall_forall in IH.
    eapply IH; [done| |done]. by eapply Hkey.
Qed.

Lemma extract_inv (I : list endpoint → Prop) src :
  (∀ v c e eps, inspect_cand v cand_empty = Ok c → endpoint_of src c = Some e →
     I eps → I (add_endpoint e eps)) →
  ∀ v eps eps', I eps → extract_sedp_endpoints src v eps = Ok eps' → I eps'.
Proof.
  intros Hadd v. induction v as [| | | | |l IH|d IH] using json_nested_ind; intros eps eps' Hi;
    try (intros [= <-]; exact Hi).
  - rewrite extract_list. apply mfold_inv; [done|]. intros s a s' Ha Hs.
    rewrite Forall_forall in IH. by apply IH.
  - rewrite extract_obj. cbv zeta.
    assert (mfold (λ eps p, extract_sedp_endpoints src p.2 eps) eps d = Ok eps' → I eps')
      as Hin.
    { apply mfold_inv; [done|]. intros s a s' Ha Hs.
      rewrite Forall_forall in IH. by apply IH. }
    destruct (looks_like_endpoint _); [|done].
    rewrite bind_Ok. intros (c & Hc & He). destruct (endpoint_of src c) eqn:E; [|auto].
    injection He as <-. eauto.
Qed.

(** *** What the fields of an endpoint are *)

Definition cand_ok (c : cand) : Prop :=
  ∀ g, c_endpoint_guid c = Some g → 24 <= String.length g ∧ c_entity_kind c = Some (entity_kind_of g).

Lemma inspect_key_ok c k v c' : cand_ok c → inspect_key c k v = Ok c' → cand_ok c'.
Proof.
  intros Hc. unfold inspect_key. unfold cand_ok in *.
  repeat case_decide; rewrite ?bind_Ok.
  3:{ destruct (Nat.leb_spec 24 (String.length (format_guid v))); intros [= <-]; naive_solver. }
  all: try (intros (n & _ & [= <-]); exact Hc).
  all: try (intros [= <-]; exact Hc).
  - destruct (int_of v) as [|[]]; intros [= <-]; exact Hc.
  - case_match; intros [= <-]; exact Hc.
Qed.

Definition endpoint_ok (e : endpoint) : Prop :=
  e_topic_name e ≠ "" ∧ e_type_name e ≠ "" ∧ 24 <= String.length (e_endpoint_guid e)
  ∧ e_entity_kind e = entity_kind_of (e_endpoint_guid e).

Lemma or_str_Some x y s : or_str x y = Some s → s ≠ "" ∧ (x = Some s ∨ y = Some s) ∨ y = Some s.
Proof. unfold or_str. destruct x; [case_decide|]; naive_solver. Qed.
Lemma or_str_None x s : or_str x None = Some s ↔ x = Some s ∧ s ≠ "".
Proof. unfold or_str. destruct x; [case_decide|]; naive_solver. Qed.

Lemma endpoint_of_ok src c e : cand_ok c → endpoint_of src c = Some e → endpoint_ok e.
Proof.
  intros Hc. unfold endpoint_of.
  destruct (or_str (c_topic_name c) None) as [t|] eqn:Et; [|done].
  destruct (or_str (c_type_name c) None) as [y|] eqn:Ey; [|done].
  destruct (or_str (c_endpoint_guid c) None) as [g|] eqn:Eg; [|done].
  apply or_str_None in Et as [_ Ht], Ey as [_ Hy], Eg as [Eg _].
  intros [= <-]. destruct (Hc _ Eg) as [Hlen Hk]. unfold endpoint_ok. cbn. by rewrite Hk.
Qed.

(** ** Participants and endpoints of a summary *)

Definition participant_ok (g : string) (p : participant) : Prop :=
  p_guid_prefix p = g ∧ g ≠ "" ∧ String.length g <= 24 ∧ NoDup (p_locators p)
  ∧ ∃ v, (p_vendor_id p, p_vendor_name p) = decode_vendor v.

(** The key that tells endpoints apart. *)
Definition endpoint_key (e : endpoint) : string * string := (e_endpoint_guid e, e_topic_name e).

Record summary_ok (s : summary) : Prop := SummaryOk {
  ok_keys : wf (participants s);
  ok_participants : ∀ g p, dget g (participants s) = Some p → participant_ok g p;
  ok_distinct : NoDup (endpoint_key <$> endpoints s);
  ok_endpoints : Forall endpoint_ok (endpoints s)
}.

Lemma str_take_le n s : String.length (str_take n s) <= n.
Proof.
  revert n. induction s as [|c s IH]; intros [|n]; simpl; try lia. specialize (IH n). lia.
Qed.

Lemma prefix_cut s :
  String.length (if Nat.leb 24 (String.length s) then str_take 24 s else s) <= 24.
Proof. destruct (Nat.leb_spec 24 (String.length s)); [apply str_take_le|lia]. Qed.

Definition spdp_ok (f : spdp) : Prop :=
  ∀ g, f_guid_prefix f = Some g → String.length g <= 24.

Lemma inspect_item_ok node s kv s' :
  spdp_ok s.1 → inspect_item node s kv = Ok s' → spdp_ok s'.1.
Proof.
  destruct kv as [k v]. unfold inspect_item. intros Hs. rewrite bind_Ok.
  intros (ls & _ & [= <-]). cbn [fst].
  assert (spdp_ok (see_guid node k v s.1)) as H1.
  { unfold see_guid. case_match; [|done]. intros g E. apply Some_inj in E as <-.
    apply prefix_cut. }
  assert (∀ g f, f_guid_prefix g = f_guid_prefix f → spdp_ok f → spdp_ok g) as Hsame.
  { intros g f E Hf. unfold spdp_ok. by rewrite E. }
  eapply Hsame, Hsame, Hsame, Hsame, H1.
  - unfold see_builtin. by case_match.
  - unfold see_lease. repeat case_match; done.
  - unfold see_version. by case_match.
  - unfold see_vendor. by case_match.
Qed.

Lemma inspect_nodes_ok ns s s' :
  spdp_ok s.1 → mfold inspect_spdp_node s ns = Ok s' → spdp_ok s'.1.
Proof.
  intros Hs. refine (mfold_inv inspect_spdp_node (λ s, spdp_ok s.1) _ _ _ Hs _).
  intros a node a' _ Ha. refine (mfold_inv (inspect_item node) (λ s, spdp_ok s.1) _ _ _ Ha _).
  intros b kv b' _. apply inspect_item_ok.
Qed.

Lemma NoDup_add_locators ls found : NoDup ls → NoDup (foldl add_locator ls found).
Proof.
  revert ls. induction found as [|l found IH]; intros ls Hls; [done|]. apply IH.
  unfold add_locator. case_decide; [done|]. by apply NoDup_snoc.
Qed.
Lemma add_locators_prefix ls found : ls `prefix_of` foldl add_locator ls found.
Proof.
  revert ls. induction found as [|l found IH]; intros ls; [done|]. simpl.
  etrans; [|apply IH]. unfold add_locator. case_decide; [done|]. by eexists.
Qed.

Lemma guid_of_ok f h g :
  spdp_ok f → or_str (guid_of f h) None = Some g → g ≠ "" ∧ String.length g <= 24.
Proof.
  intros Hf [Hg Hne]%or_str_None. split; [done|]. unfold guid_of in Hg.
  apply or_str_Some in Hg as [[_ [Hg|Hg]]|Hg]; [by apply Hf|..];
    (destruct (truthy h); [apply Some_inj in Hg as <-; apply str_take_le|done]).
Qed.

Lemma new_participant_ok g src hv hver f found :
  g ≠ "" → String.length g <= 24 → participant_ok g (new_participant g src hv hver f found).
Proof.
  intros Hne Hlen. unfold new_participant.
  destruct (decode_vendor _) as [vh vn] eqn:E. split_and!; [done..| |by eexists].
  apply NoDup_add_locators, NoDup_nil_2.
Qed.
Lemma augment_participant_same f found p :
  let q := augment_participant f found p in
  p_guid_prefix q = p_guid_prefix p ∧ p_src_ip q = p_src_ip p ∧ p_vendor_id q = p_vendor_id p
  ∧ p_vendor_name q = p_vendor_name p ∧ p_protocol_version q = p_protocol_version p
  ∧ p_locators q = foldl add_locator (p_locators p) found.
Proof. unfold augment_participant. cbv zeta. case_match. done. Qed.

Lemma record_participant_ok gp src hv hver f found ps :
  (∀ g, or_str gp None = Some g → g ≠ "" ∧ String.length g <= 24) →
  wf ps → (∀ g p, dget g ps = Some p → participant_ok g p) →
  let ps' := record_participant gp src hv hver f found ps in
  wf ps' ∧ ∀ g p, dget g ps' = Some p → participant_ok g p.
Proof.
  intros Hg Hwf Hps. cbv zeta. unfold record_participant.
  destruct (or_str gp None) as [g|]; [|done]. destruct (Hg g eq_refl) as [Hne Hlen].
  assert (∀ q, participant_ok g q →
    wf (dset g q ps) ∧ ∀ g' p, dget g' (dset g q ps) = Some p → participant_ok g' p) as Hset.
  { intros q Hq. split; [by apply wf_dset|]. intros g' p.
    destruct (decide (g = g')) as [<-|Hgg].
    - rewrite dget_dset_eq. by intros [= <-].
    - rewrite dget_dset_ne by done. apply Hps. }
  destruct (dget g ps) as [p|] eqn:E; apply Hset; [|by apply new_participant_ok].
  destruct (augment_participant_same f found p) as (E1&_&E3&E4&_&E6).
  destruct (Hps _ _ E) as (P1&_&_&P4&v&P5).
  split_and!; [congruence|done|done| |exists v; congruence].
  rewrite E6. by apply NoDup_add_locators.
Qed.

(** ** A packet *)

(** What a packet does: it records its participant and then adds its endpoints. *)
Lemma parse_packet_spec s pkt s' :
  parse_packet s pkt = Ok s' →
  ∃ src hguid hv hver f found rtps eps,
    spdp_ok f ∧ extract_sedp_endpoints src rtps (endpoints s) = Ok eps
    ∧ s' = Summary (total_rtps_packets s)
             (record_participant (guid_of f hguid) src hv hver f found (participants s)) eps.
Proof.
  unfold parse_packet. intros Hp.
  repeat (apply bind_Ok in Hp as (? & ? & Hp)). injection Hp as <-.
  match goal with H : mfold inspect_spdp_node _ _ = Ok ?x |- _ => destruct x as [f found] end.
  do 8 eexists. split_and!; [|done|done].
  match goal with H : mfold inspect_spdp_node _ _ = Ok _ |- _ => apply inspect_nodes_ok in H end;
    [done|]. by intros g.
Qed.

Lemma endpoint_key_add e eps :
  NoDup (endpoint_key <$> eps) → NoDup (endpoint_key <$> add_endpoint e eps).
Proof.
  intros Hnd. unfold add_endpoint. case_decide as Hex; [done|].
  rewrite fmap_app. apply NoDup_snoc; [done|].
  intros (x & [= Hg Ht] & Hx)%list_elem_of_fmap. apply Hex, Exists_exists. by exists x.
Qed.
Lemma endpoint_ok_add e eps :
  endpoint_ok e → Forall endpoint_ok eps → Forall endpoint_ok (add_endpoint e eps).
Proof.
  intros He Hall. unfold add_endpoint. case_decide; [done|].
  apply Forall_app_2; [done|]. by apply Forall_singleton.
Qed.

Lemma extract_ok src v eps eps' :
  NoDup (endpoint_key <$> eps) → Forall endpoint_ok eps →
  extract_sedp_endpoints src v eps = Ok eps' →
  NoDup (endpoint_key <$> eps') ∧ Forall endpoint_ok eps'.
Proof.
  intros H1 H2.
  apply (extract_inv (λ eps, NoDup (endpoint_key <$> eps) ∧ Forall endpoint_ok eps)); [|done].
  intros w c e eps1 Hc He [? ?]. split; [by apply endpoint_key_add|].
  apply endpoint_ok_add; [|done]. eapply endpoint_of_ok; [|done].
  refine (inspect_cand_inv cand_ok inspect_key_ok _ _ _ _ Hc). by intros g.
Qed.

Lemma parse_packet_ok s pkt s' : summary_ok s → parse_packet s pkt = Ok s' → summary_ok s'.
Proof.
  intros [Hk Hp Hd He] (src&hg&hv&hver&f&found&rtps&eps&Hf&Hx&->)%parse_packet_spec.
  destruct (extract_ok _ _ _ _ Hd He Hx) as [Hd' He'].
  destruct (record_participant_ok (guid_of f hg) src hv hver f found (participants s))
    as [Hk' Hp']; [by intros g; apply guid_of_ok|done|done|].
  by constructor.
Qed.

(** *** First packet first *)

(** [s'] knows what [s] knows: participants and endpoints keep their place, and a
    participant keeps its address, vendor, version and locators. *)
Definition same_identity (p q : participant) : Prop :=
  p_guid_prefix q = p_guid_prefix p ∧ p_src_ip q = p_src_ip p ∧ p_vendor_id q = p_vendor_id p
  ∧ p_vendor_name q = p_vendor_name p ∧ p_protocol_version q = p_protocol_version p
  ∧ p_locators p `prefix_of` p_locators q.
Record extends (s s' : summary) : Prop := Extends {
  ext_keys : keys (participants s) `prefix_of` keys (participants s');
  ext_participants : ∀ g p, dget g (participants s) = Some p →
    ∃ q, dget g (participants s') = Some q ∧ same_identity p q;
  ext_endpoints : endpoints s `prefix_of` endpoints s'
}.

#[export] Instance extends_preorder : PreOrder extends.
Proof.
  split.
  - intros s. constructor; [done| |done]. intros g p Hp. exists p. by split.
  - intros s1 s2 s3 [K1 P1 E1] [K2 P2 E2]. constructor; [by etrans| |by etrans].
    intros g p Hp. destruct (P1 g p Hp) as (q & Hq & I1). destruct (P2 g q Hq) as (r & Hr & I2).
    exists r. split; [done|]. unfold same_identity in *. destruct_and!.
    split_and!; try congruence. by etrans.
Qed.

Lemma parse_packet_extends s pkt s' : parse_packet s pkt = Ok s' → extends s s'.
Proof.
  intros (src&hg&hv&hver&f&found&rtps&eps&Hf&Hx&->)%parse_packet_spec.
  assert (endpoints s `prefix_of` eps) as He.
  { eapply (extract_inv (prefix (endpoints s))); [|done|exact Hx].
    intros v c e eps1 _ _ Hpre. etrans; [done|]. unfold add_endpoint.
    case_decide; [done|]. by eexists. }
  unfold record_participant. destruct (or_str (guid_of f hg) None) as [g|].
  2:{ constructor; [done| |done]. intros g p Hp. exists p. by split. }
  destruct (dget g (participants s)) as [p0|] eqn:Eg; constructor; cbn [participants endpoints];
    try done.
  - rewrite keys_dset. destruct (decide _) as [|Hn]; [done|].
    exfalso. apply Hn. apply dget_keys. by rewrite Eg.
  - intros g' p Hp. destruct (decide (g = g')) as [<-|Hne].
    + rewrite dget_dset_eq. eexists. split; [done|]. rewrite Eg in Hp. injection Hp as <-.
      destruct (augment_participant_same f found p0) as (?&?&?&?&?&El).
      split_and!; [done..|]. rewrite El. apply add_locators_prefix.
    + rewrite dget_dset_ne by done. exists p. by split.
  - rewrite dset_fresh by by apply dget_None. unfold keys. rewrite fmap_app. by eexists.
  - intros g' p Hp. rewrite dget_dset_ne by congruence. exists p. by split.
Qed.

(** *** Packets that are analysed *)

Definition result_ok {A} (r : result A) : bool := match r with Ok _ => true | Raise _ => false end.

Definition qos_keys : list string :=
  ["rtps.reliability_kind"; "rtps.durability"; "rtps.ownership";
   "rtps.history_depth"; "rtps.param.history.depth"].

(** A QoS value has a word and the port of a locator can be read. *)
Definition item_ok (node : dict string json) (kv : string * json) : bool :=
  (negb (bool_decide (kv.1 ∈ qos_keys)) || negb (bool_decide (words (str_of kv.2) = [])))
  && (negb (contains "locator" (lower kv.1))
      || negb (truthy (get_or "rtps.locator.port" "rtps.locator_udp_v4.port" node))
      || result_ok (port_of (get_or "rtps.locator.port" "rtps.locator_udp_v4.port" node))).
Definition node_ok (node : dict string json) : bool := forallb (item_ok node) node.

Definition is_dict (v : json) : bool := match v with JObj _ => true | _ => false end.
(** The layers that are there are dictionaries, the addresses are not empty lists, and the
    dictionaries of the RTPS layer are fine. *)
Definition packet_ok (pkt : json) : bool :=
  match pkt with
  | JObj p =>
      match default (JObj []) (dget "_source" p) with
      | JObj source =>
          match default (JObj []) (dget "layers" source) with
          | JObj layers =>
              match default (JObj []) (dget "rtps" layers), default (JObj []) (dget "ip" layers) with
              | JObj rtps, JObj ip =>
                  let address k := default (default (JStr "unknown") (dget k layers)) (dget k ip) in
                  result_ok (first_of (address "ip.src")) && result_ok (first_of (address "ip.dst"))
                  && forallb node_ok (nodes (JObj rtps))
              | _, _ => false
              end
          | _ => false
          end
      | _ => false
      end
  | _ => false
  end.

Lemma result_ok_spec {A} (r : result A) : result_ok r = true ↔ is_Ok r.
Proof. unfold is_Ok. destruct r; naive_solver. Qed.

Lemma int_of_word v : words (str_of v) ≠ [] → int_of v = Raise ValueError ∨ is_Ok (int_of v).
Proof.
  unfold int_of, first_word. destruct (words (str_of v)) as [|w l]; [done|]. intros _. cbn.
  unfold py_int, is_Ok.
  match goal with |- context[or_raise ValueError ?o] => destruct o end; naive_solver.
Qed.
Lemma inspect_key_Ok node c kv :
  item_ok node kv = true → is_Ok (inspect_key c kv.1 kv.2).
Proof.
  destruct kv as [k v]. unfold item_ok. cbn [fst snd]. intros [Hq _]%andb_true_iff.
  assert (k ∈ qos_keys → int_of v = Raise ValueError ∨ is_Ok (int_of v)) as Hint.
  { intros Hk. rewrite (bool_decide_eq_true_2 _ Hk) in Hq. cbn in Hq.
    rewrite negb_true_iff, bool_decide_eq_false in Hq. by apply int_of_word. }
  assert (k ∈ qos_keys → ∀ kinds, is_Ok (kind_name kinds v)) as Hkind.
  { intros Hk kinds. unfold kind_name, is_Ok. destruct (Hint Hk) as [->|[z ->]]; by eexists. }
  clear Hq. unfold inspect_key, is_Ok.
  case_decide; [by eexists|]. case_decide; [by eexists|].
  case_decide; [case_match; by eexists|].
  do 3 (case_decide; [subst k; edestruct Hkind as [? ->]; [by compute_done|by eexists]|]).
  case_decide as Hh; [|case_match; by eexists].
  destruct Hint as [->|[z ->]]; [|by eexists..].
  unfold qos_keys. set_solver.
Qed.

Lemma inspect_item_Ok node s kv : item_ok node kv = true → is_Ok (inspect_item node s kv).
Proof.
  destruct kv as [k v]. unfold item_ok, inspect_item. cbn [fst snd].
  intros [_ Hl]%andb_true_iff. unfold see_locator.
  destruct (contains "locator" (lower k)); [|by eexists].
  cbv zeta. destruct (truthy (get_or "rtps.locator.ipv4" "rtps.locator_udp_v4.ip" node));
    cbn [andb]; [|by eexists].
  destruct (truthy (get_or "rtps.locator.port" "rtps.locator_udp_v4.port" node)); [|by eexists].
  cbn in Hl. apply result_ok_spec in Hl as [p Hp]. rewrite Hp. by eexists.
Qed.

Definition all_ok (v : json) : Prop := ∀ n, n ∈ nodes v → node_ok n = true.
Lemma all_ok_list l : all_ok (JList l) → ∀ v, v ∈ l → all_ok v.
Proof.
  intros H v Hv n Hn. apply H. cbn. apply list_elem_of_In, in_flat_map.
  exists v. by rewrite <- !list_elem_of_In.
Qed.
Lemma all_ok_obj d : all_ok (JObj d) → ∀ p, p ∈ d → item_ok d p = true ∧ all_ok p.2.
Proof.
  intros H p Hp. split.
  - pose proof (H d ltac:(cbn; left)) as Hd. unfold node_ok in Hd. rewrite forallb_forall in Hd.
    by apply Hd, list_elem_of_In.
  - intros n Hn. apply H. cbn. right. apply list_elem_of_In, in_flat_map.
    exists p. by rewrite <- !list_elem_of_In.
Qed.

Lemma inspect_cand_Ok v : all_ok v → ∀ c, is_Ok (inspect_cand v c).
Proof.
  induction v as [| | | | |l IH|d IH] using json_nested_ind; intros Hok c; try by eexists.
  - rewrite inspect_cand_list. apply mfold_Ok. intros s a Ha.
    rewrite Forall_forall in IH. apply IH; [done|]. by eapply all_ok_list.
  - rewrite inspect_cand_obj. apply mfold_Ok. intros s p Hp.
    destruct (all_ok_obj _ Hok p Hp) as [Hi Hv].
    destruct (inspect_key_Ok d s p Hi) as [c1 ->]. cbn.
    rewrite Forall_forall in IH. by apply IH.
Qed.

Lemma extract_Ok src v : all_ok v → ∀ eps, is_Ok (extract_sedp_endpoints src v eps).
Proof.
  induction v as [| | | | |l IH|d IH] using json_nested_ind; intros Hok eps; try by eexists.
  - rewrite extract_list. apply mfold_Ok. intros s a Ha.
    rewrite Forall_forall in IH. apply IH; [done|]. by eapply all_ok_list.
  - rewrite extract_obj. cbv zeta.
    assert (is_Ok (mfold (λ eps p, extract_sedp_endpoints src p.2 eps) eps d)) as Hin.
    { apply mfold_Ok. intros s p Hp. rewrite Forall_forall in IH. apply IH; [done|].
      by apply (all_ok_obj _ Hok p). }
    destruct (looks_like_endpoint _); [|done].
    destruct (inspect_cand_Ok _ Hok cand_empty) as [c ->]. cbn.
    destruct (endpoint_of src c); [by eexists|done].
Qed.

Lemma jget_obj k x d : jget k x (JObj d) = Ok (default x (dget k d)).
Proof. unfold jget. by destruct (dget k d). Qed.

Lemma parse_packet_Ok s pkt : packet_ok pkt = true → is_Ok (parse_packet s pkt).
Proof.
  unfold packet_ok, parse_packet. destruct pkt as [| | | | | |p]; try done. rewrite jget_obj.
  destruct (default _ (dget "_source" p)) as [| | | | | |source]; try done.
  cbn [mbind result_bind]. rewrite jget_obj.
  destruct (default _ (dget "layers" source)) as [| | | | | |layers]; try done.
  cbn [mbind result_bind]. rewrite !jget_obj.
  destruct (default _ (dget "rtps" layers)) as [| | | | | |rtps] eqn:Er; try done.
  destruct (default _ (dget "ip" layers)) as [| | | | | |ip] eqn:Ei; try done.
  cbv zeta. rewrite !andb_true_iff, !result_ok_spec. intros [[[a Ha] [b Hb]] Hn].
  repeat (cbn [mbind result_bind]; rewrite ?jget_obj, ?Ha, ?Hb).
  assert (all_ok (JObj rtps)) as Hall.
  { intros n Hin. rewrite forallb_forall in Hn. by apply Hn, list_elem_of_In. }
  assert (is_Ok (mfold inspect_spdp_node (spdp_empty, []) (nodes (JObj rtps)))) as [found ->].
  { apply mfold_Ok. intros st node Hnode. apply mfold_Ok. intros st' kv Hkv.
    apply inspect_item_Ok. specialize (Hall _ Hnode). unfold node_ok in Hall.
    rewrite forallb_forall in Hall. by apply Hall, list_elem_of_In. }
  cbn [mbind result_bind].
  destruct (extract_Ok a _ Hall (endpoints s)) as [eps ->]. by eexists.
Qed.

(** *** The whole capture *)

Lemma parse_total_irrelevant n m ps es l s :
  mfold parse_packet (Summary n ps es) l = Ok s →
  mfold parse_packet (Summary m ps es) l = Ok (Summary m (participants s) (endpoints s)).
Proof.
  revert n ps es. induction l as [|pkt l IH]; intros n ps es; [by intros [= <-]|].
  cbn [mfold]. rewrite bind_Ok. intros ([n' ps' es'] & Hp & Hrest).
  assert (parse_packet (Summary m ps es) pkt = Ok (Summary m ps' es')) as ->.
  { unfold parse_packet in Hp |- *. cbn [participants endpoints total_rtps_packets] in Hp |- *.
    repeat (apply bind_Ok in Hp as (? & Hx & Hp); rewrite Hx; clear Hx; cbn [mbind result_bind]).
    injection Hp as <- <- <-. done. }
  cbn. by eapply IH.
Qed.
Lemma parse_packet_total s pkt s' :
  parse_packet s pkt = Ok s' → total_rtps_packets s' = total_rtps_packets s.
Proof. by intros (?&?&?&?&?&?&?&?&?&?&->)%parse_packet_spec. Qed.

Lemma parse_discovery_data_summary raw s : parse_discovery_data raw = Ok s → summary_ok s.
Proof.
  apply (mfold_inv parse_packet summary_ok).
  - constructor; [apply wf_nil|done|apply NoDup_nil_2|constructor].
  - intros s1 pkt s2 _. apply parse_packet_ok.
Qed.

(** C23: The summary of a capture is well formed: participants are keyed by their own GUID
    prefix, which is not empty and has at most 24 characters, with distinct locators and
    a vendor name that belongs to the vendor id; endpoints are distinct by GUID and
    topic, each with a topic, a type, a GUID of at least 24 characters and the entity
    kind that the GUID ends with; and the packets are all counted. *)
Theorem parse_discovery_data_ok raw s (Hs : parse_discovery_data raw = Ok s) :
  total_rtps_packets s = length raw ∧ summary_ok s.
Proof.
  split; [|by eapply parse_discovery_data_summary].
  revert Hs. apply (mfold_inv parse_packet (λ s, total_rtps_packets s = length raw)); [done|].
  intros s1 pkt s2 _ Ht Hp. by rewrite (parse_packet_total _ _ _ Hp).
Qed.

(** The first packet that shows a participant or an endpoint decides: what is known
    after some packets is never taken back by later ones.  Participants and endpoints
    keep their order, and a participant its address, vendor, version and locators. *)
Theorem parse_discovery_data_extends a b s (Hs : parse_discovery_data (a ++ b) = Ok s) :
  ∃ s0, parse_discovery_data a = Ok s0 ∧ extends s0 s.
Proof.
  unfold parse_discovery_data in Hs. rewrite mfold_app, bind_Ok in Hs.
  destruct Hs as (s1 & Ha & Hb).
  exists (Summary (length a) (participants s1) (endpoints s1)).
  split; [by eapply parse_total_irrelevant|].
  assert (extends s1 s) as [? ? ?]; [|by constructor].
  revert Hb. apply (mfold_inv parse_packet (extends s1)); [done|].
  intros s2 pkt s3 _ Hext Hp. etrans; [done|]. by eapply parse_packet_extends.
Qed.

(** A capture is analysed without an exception when every packet is a tree of
    dictionaries whose QoS values are not blank and whose ports can be read. *)
Theorem parse_discovery_data_total raw (Hraw : forallb packet_ok raw = true) :
  ∃ s, parse_discovery_data raw = Ok s ∧ total_rtps_packets s = length raw.
Proof.
  assert (is_Ok (parse_discovery_data raw)) as [s Hs].
  { apply mfold_Ok. intros s pkt Hpkt. apply parse_packet_Ok.
    rewrite forallb_forall in Hraw. by apply Hraw, list_elem_of_In. }
  exists s. split; [done|]. revert Hs.
  apply (mfold_inv parse_packet (λ s, total_rtps_packets s = length raw)); [done|].
  intros s1 pkt s2 _ Ht Hp. by rewrite (parse_packet_total _ _ _ Hp).
Qed.

(** ** A capture *)

(** Two participants; the RTPS layer of the second packet describes a writer and a reader. *)
Definition spdp_tree (guid mask ip : string) : json :=
  JObj [("PID_PARTICIPANT_GUID", JObj [("rtps.param.participant_guid", JStr guid)]);
        ("PID_VENDOR_ID", JObj [("rtps.vendorId", JStr "0x010f")]);
        ("PID_PROTOCOL_VERSION", JObj [("rtps.version", JStr "0x0203")]);
        ("PID_PARTICIPANT_LEASE_DURATION", JObj [("rtps.param.ntpTime.sec", JStr "20")]);
        ("PID_BUILTIN_ENDPOINT_SET", JObj [("rtps.param.builtin_endpoint_set", JStr mask)]);
        ("PID_METATRAFFIC_MULTICAST_LOCATOR",
          JObj [("rtps.locator.kind", JStr "1"); ("rtps.locator.ipv4", JStr ip);
                ("rtps.locator.port", JStr "7400")])].
Definition sedp_tree (topic guid reliability : string) : json :=
  JObj [("rtps.param.topicName", JStr topic); ("rtps.param.typeName", JStr "ShapeType");
        ("rtps.param.endpoint_guid", JStr guid);
        ("rtps.reliability_kind", JStr reliability); ("rtps.durability", JStr "0x00000001")].
Definition packet (prefix : string) (submessages : list json) : json :=
  JObj [("_source", JObj [("layers", JObj
    [("ip", JObj [("ip.src", JStr "192.168.1.10"); ("ip.dst", JStr "239.255.0.1")]);
     ("rtps", JObj [("rtps.guidPrefix", JStr prefix); ("rtps.vendorId", JStr "0x010f");
                    ("rtps.version", JStr "0x0203");
                    ("rtps.sm", JList submessages)])])])].
Definition spdp_packet : json :=
  packet "010ff34897b8c87f00000000"
    [spdp_tree "01:0f:f3:48:97:b8:c8:7f:00:00:00:00:00:00:01:c1" "0x00000c3f" "239.255.0.1"].
Definition sedp_packet : json :=
  packet "0110f34897b8c87f00000000"
    [sedp_tree "Square" "0110f34897b8c87f0000000000000102" "0x00000002"].
Definition two_endpoints_packet : json :=
  packet "0110f34897b8c87f00000000"
    [sedp_tree "Square" "0110f34897b8c87f0000000000000102" "0x00000002";
     sedp_tree "Circle" "0110f34897b8c87f0000000000000107" "0x00000001"].

Definition square_keys : list string :=
  ["topic_name"; "type_name"; "endpoint_guid"; "entity_kind"; "reliability"; "durability"; "ownership"; "src_ip"].
Definition writer_of_square : endpoint :=
  Endpoint "Square" "ShapeType" "0110f34897b8c87f0000000000000102" "DataWriter"
    "RELIABLE" "TRANSIENT_LOCAL" "SHARED" None false (JStr "192.168.1.10") square_keys.

Definition small_capture : summary :=
  Summary 2
    [("010ff34897b8c87f00000000",
       Participant "010ff34897b8c87f00000000" (JStr "192.168.1.10") "01.0f" "eProsima Fast DDS" "2.3"
         (PyFloat 20 0) "0x00000c3f" (flags_of 0xc3f)
         [Locator "unicast" "239.255.0.1" (PortInt 7400)]);
     ("0110f34897b8c87f00000000",
       Participant "0110f34897b8c87f00000000" (JStr "192.168.1.10") "01.0f" "eProsima Fast DDS" "2.3"
         (PyFloat 20 0) "unknown" [] [])]
    [writer_of_square].

Lemma small_capture_parsed :
  parse_discovery_data [spdp_packet; sedp_packet] = Ok small_capture.
Proof. vm_compute. reflexivity. Qed.

Lemma parse_discovery_data_ok_witness :
  total_rtps_packets small_capture = 2 ∧ summary_ok small_capture.
Proof. exact (parse_discovery_data_ok _ _ small_capture_parsed). Defined.

Lemma parse_discovery_data_extends_witness :
  ∃ s0, parse_discovery_data [spdp_packet] = Ok s0 ∧ extends s0 small_capture.
Proof. exact (parse_discovery_data_extends [spdp_packet] [sedp_packet] _ small_capture_parsed). Defined.

Lemma parse_discovery_data_total_witness :
  ∃ s, parse_discovery_data [spdp_packet; two_endpoints_packet] = Ok s
       ∧ total_rtps_packets s = 2.
Proof.
  apply (parse_discovery_data_total [spdp_packet; two_endpoints_packet]). by vm_compute.
Defined.

(** Two endpoints that one packet describes become one, which mixes their fields: the
    topic and the GUID of the last, with the qualities of either. *)
Lemma endpoints_of_one_packet_are_merged :
  endpoints <$> parse_discovery_data [two_endpoints_packet]
  = Ok [Endpoint "Circle" "ShapeType" "0110f34897b8c87f0000000000000107" "DataReader"
          "BEST_EFFORT" "TRANSIENT_LOCAL" "SHARED" None false (JStr "192.168.1.10") square_keys].
Proof. vm_compute. reflexivity. Qed.

(** A QoS value without a word is an exception that the handler does not expect. *)
Lemma blank_qos_raises :
  parse_discovery_data
    [packet "0110f34897b8c87f00000000"
       [sedp_tree "Square" "0110f34897b8c87f0000000000000102" " "]] = Raise IndexError.
Proof. vm_compute. reflexivity. Qed.

(** A packet with two RTPS layers is a list to the dissector. *)
Lemma two_rtps_layers_raise :
  parse_discovery_data
    [JObj [("_source", JObj [("layers", JObj
       [("rtps", JList [JObj [("rtps.version", JStr "0x0203")];
                        JObj [("rtps.version", JStr "0x0203")]])])])]] = Raise AttributeError.
Proof. vm_compute. reflexivity. Qed.

(** A multicast metatraffic locator is reported as a unicast one. *)
Lemma metatraffic_multicast_locator :
  let node := [("rtps.locator.ipv4", JStr "239.255.0.1"); ("rtps.locator.port", JStr "7400")] in
  see_locator node "PID_METATRAFFIC_MULTICAST_LOCATOR" []
  = Ok [Locator "metatraffic_unicast" "239.255.0.1" (PortInt 7400)].
Proof. vm_compute. reflexivity. Qed.
