(* ===== verification/SnifferReport.v ===== *)
(** * Discovery sniffer: reports (discovery/rtps_discovery_sniffer.py)

    [generate_junit_report], which evaluates the summary of a capture in seven test
    cases, and the JSON file of [run_discovery_sniffer], which collects the summaries of
    several runs.  The XML library (reading a report that is there, adding a suite to
    it) is a parameter, and so is the text of a set, whose order Python does not fix. *)

From S2P Require Import Prelude PyStr PyDict Json Sniffer.
From stdpp Require Import options.
Local Open Scope string_scope.

(** ** The JUnit report *)

(** [junitparser.TestCase]: the result is the message of a failure, if there is one. *)
Record testcase := TestCase {
  tc_name : string;
  tc_time : pyfloat;
  tc_system_out : string;
  tc_result : option string
}.
Record testsuite := TestSuite { ts_name : string; ts_cases : list testcase }.

Definition nl : string := String "010" "".
Definition is_set (s : option string) : bool :=
  match s with Some t => negb (bool_decide (t = "")) | None => false end.
(** [if issues: tc.result = [Failure(sep.join(issues))]] *)
Definition failure_of (issues : list string) : option string :=
  match issues with [] => None | _ => Some (join "; " issues) end.

Definition suite_title (publisher_name subscriber_name : option string) : string :=
  match publisher_name, subscriber_name with
  | Some p, Some s =>
      if is_set (Some p) && is_set (Some s) then "rtps_discovery_" +:+ p +:+ "---" +:+ s
      else "rtps_discovery_report"
  | _, _ => "rtps_discovery_report"
  end.

Definition port_str (p : port) : string :=
  match p with PortInt z => str_of_Z z | PortStr s => s end.
Definition or_text (s t : string) : string := if bool_decide (s = "") then t else s.

Definition part_line (gp : string * participant) : string :=
  let '(guid, p) := gp in
  let loc_str := join ", " ((λ l, l_type l +:+ "=" +:+ l_ip l +:+ ":" +:+ port_str (l_port l))
                              <$> p_locators p) in
  "  - GUID Prefix: " +:+ guid +:+ nl
  +:+ "    Source IP: " +:+ str_of (p_src_ip p) +:+ nl
  +:+ "    Vendor: " +:+ p_vendor_name p +:+ " (" +:+ p_vendor_id p +:+ ")" +:+ nl
  +:+ "    Protocol Version: " +:+ p_protocol_version p +:+ nl
  +:+ "    Lease Duration: " +:+ float_str (p_lease_duration_sec p) +:+ "s" +:+ nl
  +:+ "    Locators: " +:+ or_text loc_str "none".

Definition tc_part (expected_participants : Z) (participants : dict string participant) : testcase :=
  let part_count := length participants in
  TestCase "Test_SPDP_Participant_Discovery" (PyFloat 1 1)
    (join nl (("Discovered " +:+ str_of_nat part_count +:+ " participant(s):")
              :: (part_line <$> participants)))
    (if (Z.of_nat part_count <? expected_participants)%Z
     then Some ("Expected at least " +:+ str_of_Z expected_participants
                +:+ " participant(s), but found " +:+ str_of_nat part_count +:+ ".")
     else None).

(** [parts[0] < 2 or (parts[0] == 2 and parts[1] < 1)] *)
Definition is_old (parts : list Z) : result bool :=
  major ← or_raise IndexError (parts !! 0);
  if (major <? 2)%Z then Ok true
  else if (major =? 2)%Z then minor ← or_raise IndexError (parts !! 1); Ok (minor <? 1)%Z
  else Ok false.
Definition version_parts (ver_str : string) : result (list Z) :=
  mfold (λ l x, z ← py_int 10 x; Ok (l ++ [z])%list) [] (split "." ver_str).
Definition version_issue (gp : string * participant) : option string :=
  let '(guid, p) := gp in
  let ver_str := p_protocol_version p in
  match version_parts ver_str ≫= is_old with
  | Ok true => Some ("Participant " +:+ guid +:+ " has non-standard version RTPS " +:+ ver_str)
  | Ok false => None
  | Raise _ => Some ("Invalid version string '" +:+ ver_str +:+ "' for participant " +:+ guid)
  end.
Definition tc_ver (participants : dict string participant) : testcase :=
  TestCase "Test_SPDP_Protocol_Version" (PyFloat 5 2)
    (join nl ((λ gp : string * participant,
       "Participant " +:+ str_take 12 gp.1 +:+ ": RTPS " +:+ p_protocol_version gp.2) <$> participants))
    (failure_of (omap version_issue participants)).

Definition tc_vendor (participants : dict string participant) : testcase :=
  TestCase "Test_SPDP_Vendor_Identification" (PyFloat 5 2)
    (join nl ((λ gp : string * participant,
       "Participant " +:+ str_take 12 gp.1 +:+ ": " +:+ p_vendor_name gp.2
       +:+ " [ID: " +:+ p_vendor_id gp.2 +:+ "]") <$> participants))
    None.

Definition builtin_line (gp : string * participant) : string :=
  let '(guid, p) := gp in
  "Participant " +:+ str_take 12 guid +:+ " Built-in Mask: " +:+ p_builtin_endpoints_mask p +:+ nl
  +:+ "  Flags: " +:+ match p_builtin_endpoints_flags p with
                      | [] => "None or Default"
                      | flags => join ", " flags
                      end.
Definition builtin_issue (gp : string * participant) : option string :=
  if bool_decide (p_builtin_endpoints_mask gp.2 = "0x00000000")
  then Some ("Participant " +:+ gp.1 +:+ " reported empty builtin endpoint set") else None.
Definition tc_builtin (participants : dict string participant) : testcase :=
  TestCase "Test_SPDP_Builtin_Endpoints" (PyFloat 5 2)
    (join nl (builtin_line <$> participants)) (failure_of (omap builtin_issue participants)).

(** [writers] and [readers] *)
Definition is_writer (ep : endpoint) : bool := contains "writer" (lower (e_entity_kind ep)).
Definition is_reader (ep : endpoint) : bool :=
  negb (is_writer ep) && contains "reader" (lower (e_entity_kind ep)).
Definition writers (endpoints : list endpoint) : list endpoint :=
  filter (λ ep, is_writer ep = true) endpoints.
Definition readers (endpoints : list endpoint) : list endpoint :=
  filter (λ ep, is_reader ep = true) endpoints.

Definition sedp_line (ep : endpoint) : string :=
  "  - " +:+ e_entity_kind ep +:+ ": Topic='" +:+ e_topic_name ep +:+ "', Type='"
  +:+ e_type_name ep +:+ "', GUID=" +:+ e_endpoint_guid ep +:+ nl
  +:+ "    QoS: Reliability=" +:+ e_reliability ep +:+ ", Durability=" +:+ e_durability ep
  +:+ ", Ownership=" +:+ e_ownership ep.

Section report.
(** [str] of a set of strings, and [JUnitXml.add_testsuite] *)
Context (str_set : gset string → string).
Context {xml : Type} (new_xml : xml) (add_testsuite : testsuite → xml → xml).

Definition names (name : endpoint → string) (eps : list endpoint) : gset string :=
  list_to_set (name <$> eps).

(** An expected name that was not seen. *)
Definition missing (what : string) (expected : option string) (seen : gset string) : list string :=
  match expected with
  | Some e =>
      if is_set expected && bool_decide (e ∉ seen)
      then ["Expected " +:+ what +:+ " '" +:+ e +:+ "' not found in discovery (seen: "
            +:+ str_set seen +:+ ")"]
      else []
  | None => []
  end.
(** No name that a writer and a reader share. *)
Definition mismatch (what : string) (w r : gset string) : list string :=
  if bool_decide (w ∩ r = ∅)
  then ["Mismatched " +:+ what +:+ " between Writer(s) " +:+ str_set w +:+ " and Reader(s) "
        +:+ str_set r]
  else [].
Definition mismatch_errors (expected_topic expected_type : option string)
    (endpoints : list endpoint) : list string :=
  let w := writers endpoints in
  let r := readers endpoints in
  (missing "topic" expected_topic (names e_topic_name endpoints)
   ++ missing "type" expected_type (names e_type_name endpoints)
   ++ match w, r with
      | _ :: _, _ :: _ =>
          mismatch "topics" (names e_topic_name w) (names e_topic_name r)
          ++ mismatch "types" (names e_type_name w) (names e_type_name r)
      | _, _ => []
      end)%list.
Definition tc_sedp (expected_topic expected_type : option string) (endpoints : list endpoint) :
    testcase :=
  TestCase "Test_SEDP_Topic_Type_Match" (PyFloat 1 1)
    (join nl (("Discovered " +:+ str_of_nat (length endpoints) +:+ " endpoint(s):")
              :: (sedp_line <$> endpoints)))
    (failure_of (mismatch_errors expected_topic expected_type endpoints)).

(** [dur_order.get(d, 0)] *)
Definition dur_order : dict string Z :=
  [("VOLATILE", 0); ("TRANSIENT_LOCAL", 1); ("TRANSIENT", 2); ("PERSISTENT", 3)]%Z.
Definition dur_level (d : string) : Z := default 0%Z (dget d dur_order).

Definition pairs_of {A B} (l : list A) (k : list B) : list (A * B) :=
  a ← l; b ← k; [(a, b)].
Definition qos_line (wr : endpoint * endpoint) : string :=
  let '(w, r) := wr in
  "Pairing Writer (" +:+ e_endpoint_guid w +:+ ") [" +:+ e_reliability w +:+ ", " +:+ e_durability w
  +:+ "] vs Reader (" +:+ e_endpoint_guid r +:+ ") [" +:+ e_reliability r +:+ ", "
  +:+ e_durability r +:+ "]".
Definition qos_error (wr : endpoint * endpoint) : list string :=
  let '(w, r) := wr in
  ((if bool_decide (e_reliability w = "BEST_EFFORT" ∧ e_reliability r = "RELIABLE")
    then ["Incompatible Reliability: Writer is BEST_EFFORT but Reader requested RELIABLE"] else [])
   ++ (if (dur_level (e_durability w) <? dur_level (e_durability r))%Z
       then ["Incompatible Durability: Writer offered " +:+ e_durability w
             +:+ " but Reader requested " +:+ e_durability r] else []))%list.
Definition tc_qos (endpoints : list endpoint) : testcase :=
  let pairs := pairs_of (writers endpoints) (readers endpoints) in
  let lines :=
    match writers endpoints, readers endpoints with
    | _ :: _, _ :: _ => qos_line <$> pairs
    | _, _ => ["Single-sided endpoint or no paired endpoints detected in capture window."]
    end in
  TestCase "Test_SEDP_QoS_Compatibility" (PyFloat 5 2)
    (join nl ("Evaluating QoS profiles between DataWriter and DataReader:" :: lines))
    (failure_of (pairs ≫= qos_error)).

Definition tc_xtypes (endpoints : list endpoint) : testcase :=
  TestCase "Test_SEDP_Type_Information" (PyFloat 5 2)
    ("XTypes TypeInformation/TypeObject detected: "
     +:+ (if existsb e_has_type_object endpoints then "Yes" else "No (Standard CDR)"))
    None.

Definition report_suite (s : summary) (publisher_name subscriber_name : option string)
    (expected_participants : Z) (expected_topic expected_type : option string) : testsuite :=
  TestSuite (suite_title publisher_name subscriber_name)
    [tc_part expected_participants (participants s); tc_ver (participants s);
     tc_vendor (participants s); tc_builtin (participants s);
     tc_sedp expected_topic expected_type (endpoints s); tc_qos (endpoints s);
     tc_xtypes (endpoints s)].

(** The report that was there and could be read, or a new one, with the suite added. *)
Definition generate_junit_report (report : option xml) (s : summary)
    (publisher_name subscriber_name : option string) (expected_participants : Z)
    (expected_topic expected_type : option string) : xml :=
  add_testsuite (report_suite s publisher_name subscriber_name expected_participants
                   expected_topic expected_type) (default new_xml report).
End report.

(** ** The JSON report *)

(** The arguments of a run that name it. *)
Record args := Args {
  a_interface : string;
  a_publisher : option string;
  a_subscriber : option string
}.

Definition set_if (k : string) (v : option string) (d : dict string json) : dict string json :=
  match v with Some s => if is_set v then dset k (JStr s) d else d | None => d end.
(** The summary of a capture with the metadata of the run. *)
Definition run_summary (a : args) (timestamp : string) (total : nat) (analyzed_at : string)
    (participants endpoints : json) : json :=
  let metadata := [("total_rtps_packets", JInt (Z.of_nat total)); ("analyzed_at", JStr analyzed_at)] in
  let metadata := dset "interface" (JStr (a_interface a)) metadata in
  let metadata := dset "timestamp" (JStr timestamp) metadata in
  let metadata := set_if "publisher" (a_publisher a) metadata in
  let metadata := set_if "subscriber" (a_subscriber a) metadata in
  JObj [("metadata", JObj metadata); ("participants", participants); ("endpoints", endpoints)].

Definition pair_name (p s : string) : string := p +:+ "---" +:+ s.
Definition pair_key (a : args) (timestamp : string) : string :=
  match a_publisher a, a_subscriber a with
  | Some p, Some s =>
      if is_set (Some p) && is_set (Some s) then pair_name p s else "run_" +:+ timestamp
  | _, _ => "run_" +:+ timestamp
  end.

(** [existing["runs"][pair_key] = summary] *)
Definition add_run (key : string) (summary : json) (existing : dict string json) : result json :=
  match dget "runs" existing with
  | Some (JObj runs) => Ok (JObj (dset "runs" (JObj (dset key summary runs)) existing))
  | _ => Raise TypeError
  end.

(** The name of the run whose summary the file held. *)
Definition first_key (existing : json) : result string :=
  m1 ← jget "metadata" (JObj []) existing;
  first_pub ← jget "publisher" (JStr "") m1;
  m2 ← jget "metadata" (JObj []) existing;
  first_sub ← jget "subscriber" (JStr "") m2;
  Ok (if truthy first_pub && truthy first_sub
      then pair_name (str_of first_pub) (str_of first_sub) else "run_1").

(** What is written to the file: [existing] is what it held, [None] when there is no file
    or its text is not JSON. *)
Definition to_write (a : args) (timestamp : string) (summary : json) (existing : option json) : json :=
  match existing with
  | Some (JObj d as e) =>
      let key := pair_key a timestamp in
      let written :=
        if din "runs" d then add_run key summary d
        else
          k ← first_key e;
          Ok (JObj [("metadata", JObj [("timestamp", JStr timestamp)]);
                    ("runs", JObj (dset key summary [(k, e)]))])
      in catch written (λ _, summary)
  | _ => summary
  end.

(** ** Verdicts of the report *)

Definition failed (tc : testcase) : Prop := is_Some (tc_result tc).

Lemma failure_of_Some issues : is_Some (failure_of issues) ↔ issues ≠ [].
Proof. unfold failure_of. destruct issues; split; try done; by intros [? ?]. Qed.
Lemma omap_nonempty {A B} (f : A → option B) l :
  omap f l ≠ [] ↔ ∃ x, x ∈ l ∧ is_Some (f x).
Proof.
  induction l as [|x l IH]; cbn.
  - split; [done|]. intros (?&H&_). by apply not_elem_of_nil in H.
  - destruct (f x) eqn:E.
    + split; [|done]. intros _. exists x. rewrite E. split; [left|done].
    + rewrite IH. split.
      * intros (y&?&?). exists y. split; [by right|done].
      * intros (y&[->|?]%elem_of_cons&Hy); [rewrite E in Hy; by destruct Hy|eauto].
Qed.
Lemma bind_nonempty {A B} (f : A → list B) l :
  l ≫= f ≠ [] ↔ ∃ x, x ∈ l ∧ f x ≠ [].
Proof.
  induction l as [|x l IH]; cbn.
  - split; [done|]. intros (?&H&_). by apply not_elem_of_nil in H.
  - destruct (f x) eqn:E; cbn.
    + unfold mbind in IH. rewrite IH. split.
      * intros (y&?&?). exists y. split; [by right|done].
      * intros (y&[->|?]%elem_of_cons&Hy); [done|eauto].
    + split; [|done]. intros _. exists x. rewrite E. split; [left|done].
Qed.

(** *** Writers and readers by their GUID *)

Definition writes (e : endpoint) : Prop := str_tail 2 (e_endpoint_guid e) ∈ ["02"; "03"].
Definition reads (e : endpoint) : Prop := str_tail 2 (e_endpoint_guid e) ∈ ["04"; "07"].

Definition kind_text (a b : ascii) : string := lower ("Entity (0x" +:+ String a (String b ")")).
Definition kind_lower (x y : ascii) : string :=
  String "e" (String "n" (String "t" (String "i" (String "t" (String "y" (String " "
    (String "(" (String "0" (String "x" (String x (String y ")"))))))))))).
Lemma other_kind (a b : ascii) :
  let k := kind_text a b in
  contains "writer" k = false ∧ contains "reader" k = false.
Proof.
  cbv zeta.
  assert (∀ x y : ascii, contains "writer" (kind_lower x y) = false
                         ∧ contains "reader" (kind_lower x y) = false) as H;
    [|exact (H (lower_char a) (lower_char b))].
  intros x y. cbv [kind_lower contains String.prefix orb].
  split; repeat (destruct (ascii_dec _ _); try done).
Qed.
Lemma str_tail_2 s : 2 <= String.length s → ∃ a b, str_tail 2 s = String a (String b "").
Proof.
  intros Hs. unfold str_tail.
  pose proof (str_drop_length (String.length s - 2) s) as Hl.
  destruct (str_drop (String.length s - 2) s) as [|a [|b [|c t]]]; cbn in Hl; try lia. eauto.
Qed.
Lemma kind_of_endpoint e :
  endpoint_ok e → (is_writer e = true ↔ writes e) ∧ (is_reader e = true ↔ reads e).
Proof.
  intros (_&_&Hlen&Hk). unfold is_reader, is_writer, writes, reads. rewrite Hk. unfold entity_kind_of.
  case_decide as H1; [|case_decide as H2].
  - split; [done|]. split; [done|]. intros H. exfalso. rewrite !elem_of_cons, elem_of_nil in H1, H.
    destruct H1 as [E|[E|[]]]; rewrite E in H; naive_solver.
  - done.
  - destruct (str_tail_2 (e_endpoint_guid e)) as (a&b&E); [lia|]. rewrite E in *.
    change (lower _) with (kind_text a b). destruct (other_kind a b) as [-> ->]. done.
Qed.
Lemma elem_writers s e : Forall endpoint_ok s → e ∈ writers s ↔ e ∈ s ∧ writes e.
Proof.
  intros Hs. unfold writers. rewrite list_elem_of_filter, Forall_forall in *.
  split; intros [? ?]; destruct (kind_of_endpoint e); naive_solver.
Qed.
Lemma elem_readers s e : Forall endpoint_ok s → e ∈ readers s ↔ e ∈ s ∧ reads e.
Proof.
  intros Hs. unfold readers. rewrite list_elem_of_filter, Forall_forall in *.
  split; intros [? ?]; destruct (kind_of_endpoint e); naive_solver.
Qed.

(** *** Protocol versions *)

(** RTPS 2.1 or later, as a text of numbers separated by dots. *)
Definition conforms (ver : string) : Prop :=
  ∃ major rest, version_parts ver = Ok (major :: rest)
    ∧ (2 < major ∨ major = 2 ∧ ∃ minor rest', rest = minor :: rest' ∧ 1 ≤ minor)%Z.

Lemma version_issue_spec g p : is_Some (version_issue (g, p)) ↔ ¬ conforms (p_protocol_version p).
Proof.
  unfold version_issue, conforms. destruct (version_parts _) as [[|major rest]|e]; cbn.
  - split; [|done]. intros _ (?&?&?&_). done.
  - unfold is_old. cbn. destruct (Z.ltb_spec major 2).
    { split; [|done]. intros _ (?&?&[= <- <-]&[?|[? _]]); lia. }
    destruct (Z.eqb_spec major 2) as [->|Hne].
    + destruct rest as [|minor rest]; cbn.
      * split; [|done]. intros _ (?&?&[= <- <-]&[?|(_&?&?&?&_)]); [lia|done].
      * destruct (Z.ltb_spec minor 1).
        { split; [|done]. intros _ (?&?&[= <- <-]&[?|(_&?&?&[= <- <-]&?)]); lia. }
        split; [by intros [? ?]|]. intros Hn. exfalso. apply Hn.
        exists 2%Z, (minor :: rest). split; [done|]. right. eauto 10.
    + split; [by intros [? ?]|]. intros Hn. exfalso. apply Hn.
      exists major, rest. split; [done|]. left. lia.
  - split; [|done]. intros _ (?&?&?&_). done.
Qed.

(** *** Offered and requested qualities *)

(** What DDS asks of a writer and a reader: what is offered is not less than what is
    requested. *)
Definition durability_ranks : list string := ["VOLATILE"; "TRANSIENT_LOCAL"; "TRANSIENT"; "PERSISTENT"].
Definition rank (d : string) : nat := default 0 (index_of d durability_ranks).
Definition compatible (w r : endpoint) : Prop :=
  (e_reliability r = "RELIABLE" → e_reliability w ≠ "BEST_EFFORT")
  ∧ rank (e_durability r) <= rank (e_durability w).

Lemma dur_level_rank d : dur_level d = Z.of_nat (rank d).
Proof.
  unfold dur_level, rank. cbn. repeat (case_decide; [done|]). done.
Qed.
Lemma qos_error_spec w r : qos_error (w, r) ≠ [] ↔ ¬ compatible w r.
Proof.
  unfold qos_error, compatible. rewrite !dur_level_rank.
  case_bool_decide as Hb; destruct (Z.ltb_spec (Z.of_nat (rank (e_durability w)))
    (Z.of_nat (rank (e_durability r)))) as [Hl|Hl]; cbn [app]; (split; [|try done]).
  - intros _ [? ?]. naive_solver.
  - intros _ [? ?]. naive_solver.
  - intros _ [_ ?]. lia.
  - done.
  - intros Hn. exfalso. apply Hn. split; [|lia]. intros Hr Hw. by apply Hb.
Qed.
Lemma elem_of_pairs {A B} (l : list A) (k : list B) p :
  p ∈ pairs_of l k ↔ p.1 ∈ l ∧ p.2 ∈ k.
Proof.
  unfold pairs_of. rewrite list_elem_of_bind. setoid_rewrite list_elem_of_bind.
  setoid_rewrite list_elem_of_singleton. destruct p as [a b]. naive_solver.
Qed.

Section verdicts.
Context (str_set : gset string → string).

(** A name that is expected and that no endpoint has. *)
Definition is_missing (name : endpoint → string) (expected : option string) (eps : list endpoint) : Prop :=
  ∃ e, expected = Some e ∧ e ≠ "" ∧ ∀ ep, ep ∈ eps → name ep ≠ e.
(** Writers and readers that have no name in common. *)
Definition disagree (name : endpoint → string) (eps : list endpoint) : Prop :=
  ∀ w r, w ∈ eps → r ∈ eps → writes w → reads r → name w ≠ name r.

Lemma missing_spec what name expected eps :
  missing str_set what expected (names name eps) ≠ [] ↔ is_missing name expected eps.
Proof.
  unfold missing, is_missing, names, is_set. destruct expected as [e|]; [|naive_solver].
  destruct (decide (e = "")) as [->|He].
  { rewrite bool_decide_eq_true_2 by done. naive_solver. }
  rewrite bool_decide_eq_false_2 by done. cbn [negb andb].
  case_bool_decide as Hin; rewrite elem_of_list_to_set, list_elem_of_fmap in Hin.
  - split; [|done]. intros _. exists e. split_and!; [done..|]. intros ep Hep E. apply Hin. eauto.
  - split; [done|]. intros (e'&[= <-]&_&Hno). destruct Hin as (x&E&Hx).
    by destruct (Hno x Hx).
Qed.
Lemma mismatch_spec what name eps :
  Forall endpoint_ok eps →
  mismatch str_set what (names name (writers eps)) (names name (readers eps)) ≠ []
  ↔ disagree name eps.
Proof.
  intros Hok. unfold mismatch, disagree, names. case_bool_decide as Hd; (split; [|try done]).
  - intros _ w r Hw Hr Hww Hrr E. assert (name w ∈ (∅ : gset string)) as Hin; [|set_solver].
    rewrite <- Hd, elem_of_intersection, !elem_of_list_to_set, !list_elem_of_fmap. split.
    + exists w. split; [done|]. by apply elem_writers.
    + exists r. split; [done|]. by apply elem_readers.
  - done.
  - intros Hno. exfalso. apply Hd. apply elem_of_equiv_empty_L. intros x.
    rewrite elem_of_intersection, !elem_of_list_to_set, !list_elem_of_fmap.
    intros [(w&->&Hw) (r&E&Hr)].
    apply elem_writers in Hw as [? ?]; [|done]. apply elem_readers in Hr as [? ?]; [|done].
    by eapply (Hno w r).
Qed.

Lemma mismatch_errors_spec topic type eps :
  Forall endpoint_ok eps →
  mismatch_errors str_set topic type eps ≠ []
  ↔ is_missing e_topic_name topic eps ∨ is_missing e_type_name type eps
    ∨ (∃ w r, w ∈ eps ∧ r ∈ eps ∧ writes w ∧ reads r)
      ∧ (disagree e_topic_name eps ∨ disagree e_type_name eps).
Proof.
  intros Hok. unfold mismatch_errors. cbv zeta.
  rewrite <- (missing_spec "topic"), <- (missing_spec "type").
  rewrite <- (mismatch_spec "topics" e_topic_name), <- (mismatch_spec "types" e_type_name) by done.
  assert ((∃ w r, w ∈ eps ∧ r ∈ eps ∧ writes w ∧ reads r)
          ↔ writers eps ≠ [] ∧ readers eps ≠ []) as ->.
  { split.
    - intros (w&r&Hw&Hr&Hww&Hrr). split; intros E.
      + apply (not_elem_of_nil w). rewrite <- E. by apply elem_writers.
      + apply (not_elem_of_nil r). rewrite <- E. by apply elem_readers.
    - intros [Hw Hr]. destruct (writers eps) as [|w ws] eqn:Ew; [done|].
      destruct (readers eps) as [|r rs] eqn:Er; [done|]. exists w, r.
      destruct (proj1 (elem_writers eps w Hok)) as [? ?]; [rewrite Ew; left|].
      destruct (proj1 (elem_readers eps r Hok)) as [? ?]; [rewrite Er; left|]. done. }
  assert (∀ a b : list string, (a ++ b)%list ≠ [] ↔ a ≠ [] ∨ b ≠ []) as Happ.
  { intros [|x a] [|y b]; cbn; naive_solver. }
  rewrite !Happ. destruct (writers eps) as [|w ws], (readers eps) as [|r rs];
    try (rewrite Happ); naive_solver.
Qed.

(** C25: The verdicts of the seven test cases on the summary of any capture.  Fewer
    participants than expected, a version that is not RTPS 2.1 or later, an empty set of
    built-in endpoints, an expected name that is missing or writers and readers that
    share no topic or no type, and a writer that offers less than a reader requests are
    failures of their test case, and nothing else is; writers and readers are told by
    the last byte of their GUID. *)
Theorem report_verdicts raw s pub sub n topic type (Hs : parse_discovery_data raw = Ok s) :
  ∃ c1 c2 c3 c4 c5 c6 c7,
    ts_cases (report_suite str_set s pub sub n topic type) = [c1; c2; c3; c4; c5; c6; c7]
    ∧ tc_name <$> [c1; c2; c3; c4; c5; c6; c7]
      = ["Test_SPDP_Participant_Discovery"; "Test_SPDP_Protocol_Version";
         "Test_SPDP_Vendor_Identification"; "Test_SPDP_Builtin_Endpoints";
         "Test_SEDP_Topic_Type_Match"; "Test_SEDP_QoS_Compatibility";
         "Test_SEDP_Type_Information"]
    ∧ (failed c1 ↔ (Z.of_nat (length (participants s)) < n)%Z)
    ∧ (failed c2 ↔ ∃ g p, dget g (participants s) = Some p ∧ ¬ conforms (p_protocol_version p))
    ∧ ¬ failed c3
    ∧ (failed c4 ↔ ∃ g p, dget g (participants s) = Some p
                     ∧ p_builtin_endpoints_mask p = "0x00000000")
    ∧ (failed c5 ↔ is_missing e_topic_name topic (endpoints s)
                   ∨ is_missing e_type_name type (endpoints s)
                   ∨ (∃ w r, w ∈ endpoints s ∧ r ∈ endpoints s ∧ writes w ∧ reads r)
                     ∧ (disagree e_topic_name (endpoints s) ∨ disagree e_type_name (endpoints s)))
    ∧ (failed c6 ↔ ∃ w r, w ∈ endpoints s ∧ r ∈ endpoints s ∧ writes w ∧ reads r
                     ∧ ¬ compatible w r)
    ∧ ¬ failed c7.
Proof.
  destruct (parse_discovery_data_summary raw s Hs) as [Hk _ _ Hok].
  assert (∀ (f : string * participant → option string),
    is_Some (failure_of (omap f (participants s)))
    ↔ ∃ g p, dget g (participants s) = Some p ∧ is_Some (f (g, p))) as Hiss.
  { intros f. rewrite failure_of_Some, omap_nonempty. split.
    - intros ([g p]&Hin&Hf). exists g, p. split; [by apply in_dget|done].
    - intros (g&p&Hin&Hf). exists (g, p). split; [by apply dget_Some_in|done]. }
  unfold report_suite. cbn [ts_cases]. do 7 eexists.
  split; [reflexivity|]. split; [reflexivity|]. unfold failed. cbn [tc_result tc_part].
  split; [|split; [|split; [|split; [|split; [|split]]]]].
  - destruct (Z.ltb_spec (Z.of_nat (length (participants s))) n).
    + split; [done|by eexists].
    + split; [by intros [? ?]|lia].
  - unfold tc_ver. cbn [tc_result]. rewrite Hiss. by setoid_rewrite version_issue_spec.
  - by intros [? ?].
  - unfold tc_builtin. cbn [tc_result]. rewrite Hiss. unfold builtin_issue. cbn [fst snd].
    split; intros (g&p&Hp&H); exists g, p; (split; [done|]); by case_bool_decide.
  - unfold tc_sedp. cbn [tc_result]. rewrite failure_of_Some. by apply mismatch_errors_spec.
  - unfold tc_qos. cbn [tc_result]. rewrite failure_of_Some, bind_nonempty.
    setoid_rewrite elem_of_pairs. split.
    + intros ([w r]&[Hw Hr]&Hq). cbn in Hw, Hr. apply qos_error_spec in Hq.
      apply elem_writers in Hw as [? ?]; [|done]. apply elem_readers in Hr as [? ?]; [|done].
      by exists w, r.
    + intros (w&r&Hw&Hr&Hww&Hrr&Hc). exists (w, r). split; [|by apply qos_error_spec].
      split; [by apply elem_writers|by apply elem_readers].
  - by intros [? ?].
Qed.
End verdicts.

Lemma report_verdicts_witness :
  ∃ c1 c2 c3 c4 c5 c6 c7,
    ts_cases (report_suite (λ _, "{...}") small_capture (Some "a") (Some "b") 3 (Some "Square") None)
    = [c1; c2; c3; c4; c5; c6; c7]
    ∧ failed c1 ∧ ¬ failed c3.
Proof.
  destruct (report_verdicts (λ _, "{...}") _ _ (Some "a") (Some "b") 3 (Some "Square") None
              small_capture_parsed)
    as (c1&c2&c3&c4&c5&c6&c7&Hc&_&H1&_&H3&_).
  exists c1, c2, c3, c4, c5, c6, c7. split; [exact Hc|]. split; [|exact H3].
  apply H1. vm_compute. reflexivity.
Defined.

(** The version of a packet header, one byte major and one byte minor, is printed the
    same from the number and from its hexadecimal text, and the report accepts it exactly
    when it is RTPS 2.1 or later. *)
Theorem version_accepted (major minor : N) (Hmajor : (major < 256)%N) (Hminor : (minor < 256)%N) :
  let z := Z.of_N (256 * major + minor) in
  decode_version (JInt z) = pretty major +:+ "." +:+ pretty minor
  ∧ decode_version (JStr ("0x" +:+ format_hex 4 z)) = decode_version (JInt z)
  ∧ (conforms (decode_version (JInt z)) ↔ (2 < major ∨ major = 2 ∧ 1 ≤ minor)%N).
Proof.
  intros z.
  assert (decode_version (JInt z) = pretty major +:+ "." +:+ pretty minor) as Hv.
  { cbn [decode_version as_int]. unfold version_of.
    assert (Z.land (Z.shiftr z 8) 0xFF = Z.of_N major) as ->.
    { change 0xFF%Z with (Z.ones 8). rewrite Z.land_ones, Z.shiftr_div_pow2 by lia. subst z.
      change (2 ^ 8)%Z with 256%Z. Z.to_euclidean_division_equations. lia. }
    assert (Z.land z 0xFF = Z.of_N minor) as ->.
    { change 0xFF%Z with (Z.ones 8). rewrite Z.land_ones by lia. subst z.
      change (2 ^ 8)%Z with 256%Z. Z.to_euclidean_division_equations. lia. }
    by rewrite !str_of_Z_of_N. }
  split; [done|]. split.
  - rewrite Hv. unfold decode_version. cbn [as_int str_of].
    assert (sforall is_hex (format_hex 4 z) = true) as Hhex by (apply format_hex_is_hex; lia).
    assert (String.length (format_hex 4 z) = 4) as Hlen
      by (apply format_hex_length; [lia|subst z; cbn; lia]).
    rewrite strip_id.
    2:{ rewrite sforall_app. cbn. apply (sforall_impl is_hex); [|done].
        intros c Hc. by rewrite hex_not_space. }
    unfold startswith. rewrite prefix_app, slength_app, Hlen. cbn [andb Nat.leb String.length Nat.add].
    rewrite py_int_format_hex by (auto || (subst z; lia)). by rewrite <- Hv.
  - rewrite Hv. unfold conforms, version_parts.
    destruct (pretty_N_digits major) as [Hd1 _], (pretty_N_digits minor) as [Hd2 _].
    rewrite split_char_app, split_char_none by by apply digits_lack.
    cbn [mfold]. rewrite !py_int_pretty. cbn. split.
    + intros (?&?&[= <- <-]&[?|(?&?&?&[= <- <-]&?)]); lia.
    + intros H. do 2 eexists. split; [done|]. destruct H as [?|[-> ?]]; [left; lia|].
      right. split; [done|]. do 2 eexists. split; [done|]. lia.
Qed.
Lemma version_accepted_witness :
  (2 < 256)%N ∧ decode_version (JStr "0x0203") = "2.3" ∧ conforms "2.3".
Proof.
  destruct (version_accepted 2 3) as (_&_&Hc); [reflexivity..|].
  split; [reflexivity|]. split; [reflexivity|]. apply Hc. right. split; [reflexivity|done].
Defined.

(** ** The runs of a file *)

Record run := Run {
  r_args : args;
  r_timestamp : string;
  r_total : nat;
  r_analyzed_at : string;
  r_participants : json;
  r_endpoints : json
}.
Definition summary_of (r : run) : json :=
  run_summary (r_args r) (r_timestamp r) (r_total r) (r_analyzed_at r) (r_participants r)
    (r_endpoints r).
Definition key_of (r : run) : string := pair_key (r_args r) (r_timestamp r).
(** The file after runs that all write to it, there being none before. *)
Definition file_after (runs : list run) : option json :=
  foldl (λ file r, Some (to_write (r_args r) (r_timestamp r) (summary_of r) file)) None runs.

(** The name that the first run of a file gets: that of its pair, if it has both names. *)
Definition first_name (r : run) : string :=
  match a_publisher (r_args r), a_subscriber (r_args r) with
  | Some p, Some s => if decide (p = "" ∨ s = "") then "run_1" else pair_name p s
  | _, _ => "run_1"
  end.

Lemma dget_set_if_eq k v d :
  dget k d = None → default (JStr "") (dget k (set_if k v d)) = JStr (default "" v).
Proof.
  intros Hd. unfold set_if, is_set. destruct v as [s|]; [|by rewrite Hd].
  case_bool_decide as Hs; cbn [negb]; [by rewrite Hd, Hs|by rewrite dget_dset_eq].
Qed.
Lemma dget_set_if_ne k k' v d : k ≠ k' → dget k' (set_if k v d) = dget k' d.
Proof.
  intros Hk. unfold set_if. destruct v as [s|]; [|done]. case_match; [|done].
  by rewrite dget_dset_ne.
Qed.

Lemma first_key_obj d m :
  dget "metadata" d = Some (JObj m) →
  first_key (JObj d)
  = let first_pub := default (JStr "") (dget "publisher" m) in
    let first_sub := default (JStr "") (dget "subscriber" m) in
    Ok (if truthy first_pub && truthy first_sub
        then pair_name (str_of first_pub) (str_of first_sub) else "run_1").
Proof.
  intros Hm. unfold first_key. rewrite !jget_obj, Hm. cbn [default mbind result_bind id].
  by rewrite !jget_obj.
Qed.
Lemma first_key_summary r : first_key (summary_of r) = Ok (first_name r).
Proof.
  destruct r as [[itf pub sub] ts n an parts eps]. unfold first_name, summary_of, run_summary.
  cbn [r_args r_timestamp r_total r_analyzed_at a_publisher a_subscriber a_interface].
  cbv zeta. erewrite first_key_obj by done.
  rewrite dget_set_if_ne, (dget_set_if_eq "publisher") by done.
  rewrite (dget_set_if_eq "subscriber") by (rewrite dget_set_if_ne by done; done).
  cbn [truthy str_of]. f_equal.
  destruct pub as [p|], sub as [q|]; cbn [default]; rewrite ?andb_false_r; try done.
  repeat case_bool_decide; case_decide; cbn; try done; naive_solver.
Qed.

(** The file of a series of runs keeps them all by name: the first run alone is the
    file; from the second run on, the file is the dictionary of the runs, in order of
    first appearance, where a run replaces an earlier one of the same name only. *)
Lemma file_after_runs r1 r2 rest :
  file_after [r1] = Some (summary_of r1)
  ∧ file_after (r1 :: r2 :: rest)
    = Some (JObj [("metadata", JObj [("timestamp", JStr (r_timestamp r2))]);
                  ("runs", JObj (dupdate [] ((first_name r1, summary_of r1)
                                   :: ((λ r, (key_of r, summary_of r)) <$> (r2 :: rest)))))]).
Proof.
  split; [done|]. induction rest as [|r rest IH] using rev_ind.
  - change (file_after [r1; r2])
      with (Some (to_write (r_args r2) (r_timestamp r2) (summary_of r2) (Some (summary_of r1)))).
    assert (∃ d, summary_of r1 = JObj d ∧ din "runs" d = false) as (d & Hd & Hruns).
    { eexists. split; [done|]. by apply bool_decide_eq_false_2. }
    pose proof (first_key_summary r1) as Hk. rewrite Hd in Hk |- *.
    unfold to_write. rewrite Hruns, Hk. done.
  - rewrite !app_comm_cons. unfold file_after in *. rewrite foldl_app, IH.
    cbn [foldl to_write]. unfold din. cbn [dget].
    rewrite fmap_app, app_comm_cons. unfold dupdate. rewrite foldl_app. done.
Qed.
