(* ===== verification/SnifferRun.v ===== *)
(** * Discovery sniffer: a run (discovery/rtps_discovery_sniffer.py)

    [run_discovery_sniffer]: the capture, the analysis, the two reports and what is printed.
    tshark, the clock and the name of a temporary file are an [environment]; the XML library
    and the text of a set are parameters as in [SnifferReport].  A file is its text. *)

From S2P Require Import Prelude PyStr PyDict Json JsonLoads Sniffer SnifferReport Effects.
From stdpp Require Import options.
Local Open Scope string_scope.

(** ** The world outside *)

Record environment := Env {
  tshark : bool;                               (** [shutil.which("tshark")] *)
  capture : string → Z → option string;        (** what it writes, if anything *)
  dissect : option string → Z * string;        (** its code and its output for a file *)
  temp_name : string;
  now : string;
  isoformat : string;
  writable : string → bool
}.
(** The arguments of the command. *)
Record options := Options {
  o_args : args;
  o_duration : Z;
  o_output : option string;
  o_json_output : option string;
  o_timestamp : option string;
  o_pcap : option string;
  o_write_pcap : option string;
  o_expected_participants : Z;
  o_expected_topic : option string;
  o_expected_type : option string
}.

(** [x or y] and [x if x else y] for an argument. *)
Definition or_else (x : option string) (y : string) : string :=
  match x with Some s => if bool_decide (s = "") then y else s | None => y end.

(** ** The summary as JSON *)

Definition port_json (p : port) : json := match p with PortInt z => JInt z | PortStr s => JStr s end.
Definition locator_json (l : locator) : json :=
  JObj [("type", JStr (l_type l)); ("ip", JStr (l_ip l)); ("port", port_json (l_port l))].
Definition participant_json (p : participant) : json :=
  JObj [("guid_prefix", JStr (p_guid_prefix p)); ("src_ip", p_src_ip p); ("vendor_id", JStr (p_vendor_id p));
        ("vendor_name", JStr (p_vendor_name p)); ("protocol_version", JStr (p_protocol_version p));
        ("lease_duration_sec", JFloat (p_lease_duration_sec p));
        ("builtin_endpoints_mask", JStr (p_builtin_endpoints_mask p));
        ("builtin_endpoints_flags", JList (JStr <$> p_builtin_endpoints_flags p));
        ("locators", JList (locator_json <$> p_locators p))].
(** The value of a key of an endpoint. *)
Definition endpoint_field (e : endpoint) (k : string) : json :=
  if decide (k = "topic_name") then JStr (e_topic_name e)
  else if decide (k = "type_name") then JStr (e_type_name e)
  else if decide (k = "endpoint_guid") then JStr (e_endpoint_guid e)
  else if decide (k = "entity_kind") then JStr (e_entity_kind e)
  else if decide (k = "reliability") then JStr (e_reliability e)
  else if decide (k = "durability") then JStr (e_durability e)
  else if decide (k = "ownership") then JStr (e_ownership e)
  else if decide (k = "history_depth") then match e_history_depth e with Some z => JInt z | None => JNull end
  else if decide (k = "has_type_object") then JBool (e_has_type_object e)
  else e_src_ip e.
Definition endpoint_json (e : endpoint) : json := JObj ((λ k, (k, endpoint_field e k)) <$> e_keys e).
Definition participants_json (s : summary) : json :=
  JObj ((λ gp : string * participant, (gp.1, participant_json gp.2)) <$> participants s).
Definition endpoints_json (s : summary) : json := JList (endpoint_json <$> endpoints s).
Definition summary_json (a : args) (timestamp isoformat : string) (s : summary) : json :=
  run_summary a timestamp (total_rtps_packets s) isoformat (participants_json s) (endpoints_json s).

(** ** tshark *)

Definition capture_traffic_pcap (env : environment) (interface : string) (duration_sec : Z) (output_pcap : string) :
    M bool := λ w,
  if tshark env then
    let fs := match capture env interface duration_sec with
              | Some packets => dset output_pcap packets (files w)
              | None => files w
              end in
    (World (stdout w) (stderr w) fs, Ok (negb (bool_decide (default "" (dget output_pcap fs) = ""))))
  else (w, Raise RuntimeError).

(** The packets of a file, none if tshark fails or writes no JSON. *)
Definition dissected (env : environment) (pcap : option string) : json :=
  let '(returncode, stdout) := dissect env pcap in
  if negb (returncode =? 0)%Z || bool_decide (strip stdout = "") then JList []
  else catch (loads stdout) (λ _, JList []).
Definition dump_rtps_json_from_pcap (env : environment) (pcap_path : string) : M json := λ w,
  (w, if tshark env then Ok (dissected env (dget pcap_path (files w))) else Raise OSError).

(** Iterating over what was dissected; it is a list unless tshark writes something else. *)
Definition iterate (v : json) : result (list json) :=
  match v with
  | JList l => Ok l
  | JObj d => Ok (JStr <$> keys d)
  | JStr s => Ok ((λ c, JStr (String c "")) <$> String.list_ascii_of_string s)
  | _ => Raise TypeError
  end.

(** ** The run *)

Definition mkstemp (env : environment) : M string := λ w,
  (World (stdout w) (stderr w) (dset (temp_name env) "" (files w)), Ok (temp_name env)).
Definition write_file (env : environment) (path text : string) : M unit := λ w,
  if writable env path then (World (stdout w) (stderr w) (dset path text (files w)), Ok ())
  else (w, Raise OSError).
Definition remove_file (path : option string) : M unit := λ w,
  (World (stdout w) (stderr w) (match path with Some p => ddel p (files w) | None => files w end), Ok ()).
Definition look (path : string) : M (option string) := λ w, (w, Ok (dget path (files w))).

Definition live_capture (env : environment) (o : options) (pcap_file : string) : M unit :=
  _ ← print_line ("[*] Starting live RTPS capture on interface '" +:+ a_interface (o_args o) +:+ "' for "
                  +:+ str_of_Z (o_duration o) +:+ "s...");
  captured ← capture_traffic_pcap env (a_interface (o_args o)) (o_duration o) pcap_file;
  if captured : bool then mret ()
  else print_line "[-] No UDP/RTPS packets captured during the listening window.".
(** The file to analyse, and the temporary one among them. *)
Definition input_pcap (env : environment) (o : options) : M (option string * string) :=
  if is_set (o_pcap o) then
    let path := or_else (o_pcap o) "" in
    _ ← print_line ("[*] Reading existing PCAP file: " +:+ path); mret (None, path)
  else
    p ← (if is_set (o_write_pcap o) then mret (None, or_else (o_write_pcap o) "")
         else t ← mkstemp env; mret (Some t, t));
    _ ← live_capture env o p.2;
    mret p.

Definition participant_line (gp : string * participant) : string :=
  "  - [" +:+ p_vendor_name gp.2 +:+ "] GUID: " +:+ gp.1 +:+ " (IP: " +:+ str_of (p_src_ip gp.2)
  +:+ ", Ver: " +:+ p_protocol_version gp.2 +:+ ")".
Definition endpoint_line (e : endpoint) : string :=
  "  - " +:+ e_entity_kind e +:+ ": Topic='" +:+ e_topic_name e +:+ "' Type='" +:+ e_type_name e
  +:+ "' (QoS: " +:+ e_reliability e +:+ ", " +:+ e_durability e +:+ ")".
Definition short_summary (s : summary) : list string :=
  ([newline +:+ "==================== Discovery Summary ====================";
    "Discovered Participants: " +:+ str_of_nat (length (participants s))]
   ++ (participant_line <$> participants s)
   ++ ["Discovered Endpoints:    " +:+ str_of_nat (length (endpoints s))]
   ++ (endpoint_line <$> endpoints s)
   ++ ["===========================================================" +:+ newline])%list.

Section run.
Context (str_set : gset string → string).
Context {xml : Type} (new_xml : xml) (add_testsuite : testsuite → xml → xml).
Context (fromfile : string → result xml) (xml_text : xml → string).

(** The report that is there, if it can be read. *)
Definition old_report (file : option string) : option xml :=
  match fromfile <$> file with Some (Ok x) => Some x | _ => None end.
Definition old_json (file : option string) : option json :=
  match loads <$> file with Some (Ok v) => Some v | _ => None end.
Definition new_report (o : options) (file : option string) (s : summary) : string :=
  xml_text (generate_junit_report str_set new_xml add_testsuite (old_report file) s
              (a_publisher (o_args o)) (a_subscriber (o_args o)) (o_expected_participants o)
              (o_expected_topic o) (o_expected_type o)).
Definition new_json (o : options) (timestamp isoformat : string) (file : option string) (s : summary) : string :=
  dumps_at 0 (to_write (o_args o) timestamp (summary_json (o_args o) timestamp isoformat s) (old_json file)).

Definition timestamp_of (env : environment) (o : options) (file : option string) : string :=
  or_else (o_timestamp o) (get_current_timestamp file (now env)).
Definition xml_name (o : options) (timestamp : string) : string :=
  or_else (o_output o) ("junit_discovery_report_" +:+ timestamp +:+ ".xml").
Definition json_name (o : options) (timestamp : string) : string :=
  or_else (o_json_output o) ("discovery_report_" +:+ timestamp +:+ ".json").

Definition run_discovery_sniffer (env : environment) (o : options) : M unit :=
  timestamp_file ← look "timestamp";
  let timestamp := timestamp_of env o timestamp_file in
  let output_xml := xml_name o timestamp in
  let output_json := json_name o timestamp in
  input ← input_pcap env o;
  raw ← dump_rtps_json_from_pcap env input.2;
  raw_packets ← lift (iterate raw);
  _ ← print_line ("[+] Dissected " +:+ str_of_nat (length raw_packets) +:+ " RTPS packets with tshark.");
  summary ← lift (parse_discovery_data raw_packets);
  existing ← look output_json;
  _ ← write_file env output_json (new_json o timestamp (isoformat env) existing summary);
  _ ← print_line ("[+] Discovery JSON summary saved to: " +:+ output_json);
  report ← look output_xml;
  _ ← write_file env output_xml (new_report o report summary);
  _ ← print_line ("[+] Discovery JUnit XML report saved to: " +:+ output_xml);
  _ ← print (text_of (short_summary summary));
  remove_file input.1.
End run.

(** ** The summary has no key twice *)

Lemma set_key_NoDup keys k : NoDup keys → NoDup (set_key keys k).
Proof. unfold set_key. case_decide; auto using NoDup_snoc. Qed.
Lemma set_keys_NoDup l keys : NoDup keys → NoDup (foldl set_key keys l).
Proof. revert keys. induction l as [|k l IH]; intros keys Hk; [done|]. by apply IH, set_key_NoDup. Qed.
Lemma cand_keys_NoDup v c : inspect_cand v cand_empty = Ok c → NoDup (c_keys c).
Proof.
  apply (inspect_cand_inv (λ c, NoDup (c_keys c))); [|constructor]. clear. intros c k v c' Hc.
  unfold inspect_key. repeat case_decide; rewrite ?bind_Ok.
  3:{ case_match; intros [= <-]; [by apply set_key_NoDup, set_key_NoDup|done]. }
  all: try (intros (n&_&[= <-]); by apply set_key_NoDup).
  all: try (intros [= <-]; by apply set_key_NoDup).
  - destruct (int_of v) as [|[]]; intros [= <-]; [by apply set_key_NoDup|done..].
  - case_match; intros [= <-]; [by apply set_key_NoDup|done].
Qed.

Definition endpoint_clean (e : endpoint) : Prop := NoDup (e_keys e) ∧ unique_keys (e_src_ip e) = true.
Definition participant_clean (p : participant) : Prop := unique_keys (p_src_ip p) = true.
Definition summary_clean (s : summary) : Prop :=
  Forall (λ gp : string * participant, participant_clean gp.2) (participants s) ∧ Forall endpoint_clean (endpoints s).

Lemma endpoints_clean src v eps eps' :
  unique_keys src = true → Forall endpoint_clean eps → extract_sedp_endpoints src v eps = Ok eps' →
  Forall endpoint_clean eps'.
Proof.
  intros Hsrc. apply (extract_inv (Forall endpoint_clean) src). clear v eps eps'.
  intros v c e eps Hc He Heps. unfold add_endpoint. case_decide; [done|].
  apply Forall_app_2; [done|]. constructor; [|constructor]. revert He. unfold endpoint_of.
  destruct (or_str (c_topic_name c) None), (or_str (c_type_name c) None), (or_str (c_endpoint_guid c) None);
    try done. cbn [mbind option_bind]. intros [= <-]. split; [|done].
  by apply (set_keys_NoDup ["reliability"; "durability"; "ownership"; "src_ip"]), (cand_keys_NoDup v).
Qed.
Lemma Forall_dset {V} (P : V → Prop) k v (d : dict string V) :
  P v → Forall (λ p : string * V, P p.2) d → Forall (λ p : string * V, P p.2) (dset k v d).
Proof.
  intros Hv. induction 1 as [|[k' w] d Hw Hd IH]; cbn [dset]; [by repeat constructor|].
  case_decide; by constructor.
Qed.
Lemma participants_clean g src vendor version f found ps :
  unique_keys src = true → Forall (λ gp : string * participant, participant_clean gp.2) ps →
  Forall (λ gp : string * participant, participant_clean gp.2) (record_participant g src vendor version f found ps).
Proof.
  intros Hsrc Hps. unfold record_participant. destruct (or_str g None) as [k|]; [|done].
  destruct (dget k ps) as [p|] eqn:E; (apply (Forall_dset participant_clean); [|done]).
  - apply dget_Some_in in E. rewrite Forall_forall in Hps. specialize (Hps _ E). cbn [snd] in Hps.
    unfold participant_clean, augment_participant in *. by repeat case_match.
  - unfold participant_clean, new_participant. by repeat case_match.
Qed.
Lemma parse_packet_clean s pkt s' :
  unique_keys pkt = true → summary_clean s → parse_packet s pkt = Ok s' → summary_clean s'.
Proof.
  intros Hpkt [Hp He]. unfold parse_packet.
  intros (source&Hs&(layers&Hl&(rtps&Hr&(ip&Hi&(d1&H1&(s0&H2&(d2&H3&(d0&H4&(src&H5&
    (d3&H6&(g0&H7&(g1&H8&(v1&H9&(v2&H10&(found&H11&(eps&H12&[= <-])%bind_Ok)%bind_Ok)%bind_Ok)%bind_Ok
    )%bind_Ok)%bind_Ok)%bind_Ok)%bind_Ok)%bind_Ok)%bind_Ok)%bind_Ok)%bind_Ok)%bind_Ok)%bind_Ok)%bind_Ok)%bind_Ok.
  pose proof (jget_unique _ (JObj []) _ _ eq_refl Hpkt Hs) as Us. pose proof (jget_unique _ (JObj []) _ _ eq_refl Us Hl) as Ul.
  pose proof (jget_unique _ (JObj []) _ _ eq_refl Ul Hi) as Ui. pose proof (jget_unique _ (JStr _) _ _ eq_refl Ul H1) as U1.
  pose proof (jget_unique _ _ _ _ U1 Ui H2) as U2. pose proof (first_of_unique _ _ U2 H5) as Usrc.
  split; cbn [participants endpoints]; [by apply participants_clean|by eapply endpoints_clean].
Qed.
Lemma parse_clean raw s :
  unique_keys (JList raw) = true → parse_discovery_data raw = Ok s → summary_clean s.
Proof.
  cbn [unique_keys]. intros Hraw. unfold parse_discovery_data. apply mfold_inv; [by split; constructor|].
  intros s1 pkt s2 Hpkt Hs. rewrite forallb_forall in Hraw.
  apply parse_packet_clean; [|done]. by apply Hraw, list_elem_of_In.
Qed.

(** [loads] and the failures of tshark give lists without repeated keys. *)
Lemma iterate_unique v l : unique_keys v = true → iterate v = Ok l → unique_keys (JList l) = true.
Proof.
  destruct v as [| | | |s|k|d]; cbn [iterate]; try done; intros Hv [= <-]; [|done|]; cbn [unique_keys];
    apply forallb_forall; intros x (y&<-&_)%in_map_iff; done.
Qed.

Lemma unique_obj {A} (f : A → string * json) l :
  NoDup (fst ∘ f <$> l) → Forall (λ x, unique_keys (f x).2 = true) l → unique_keys (JObj (f <$> l)) = true.
Proof.
  intros Hnd Hl. apply obj_ok_spec. split.
  - unfold wf, keys. by rewrite <- list_fmap_compose.
  - apply forallb_forall. intros x (y&<-&Hy)%in_map_iff. rewrite Forall_forall in Hl. by apply Hl, list_elem_of_In.
Qed.
Lemma unique_list {A} (f : A → json) l :
  Forall (λ x, unique_keys (f x) = true) l → unique_keys (JList (f <$> l)) = true.
Proof.
  intros Hl. apply forallb_forall. intros x (y&<-&Hy)%in_map_iff.
  rewrite Forall_forall in Hl. by apply Hl, list_elem_of_In.
Qed.
Lemma endpoint_json_unique e : endpoint_clean e → unique_keys (endpoint_json e) = true.
Proof.
  intros [Hk Hs]. apply unique_obj; cbn [fst snd].
  - by rewrite list_fmap_id.
  - apply Forall_true. intros k. unfold endpoint_field. repeat case_decide; try done. by destruct (e_history_depth e).
Qed.
Lemma participant_json_unique p : participant_clean p → unique_keys (participant_json p) = true.
Proof.
  intros Hp. unfold participant_json. apply (obj_ok_spec _). split.
  { apply (bool_decide_unpack _). by vm_compute. }
  cbn [forallb snd]. unfold participant_clean in Hp. rewrite Hp.
  assert (unique_keys (JList (JStr <$> p_builtin_endpoints_flags p)) = true) as ->
    by by apply unique_list, Forall_true.
  assert (unique_keys (JList (locator_json <$> p_locators p)) = true) as ->; [|done].
  apply unique_list, Forall_true. intros l. unfold locator_json. by destruct (l_port l).
Qed.
Lemma summary_json_unique a timestamp iso s :
  wf (participants s) → summary_clean s → unique_keys (summary_json a timestamp iso s) = true.
Proof.
  intros Hw [Hp He]. unfold summary_json, run_summary.
  assert (unique_keys (participants_json s) = true) as Hps.
  { apply unique_obj; [done|]. eapply Forall_impl; [exact Hp|]. intros gp. apply participant_json_unique. }
  assert (unique_keys (endpoints_json s) = true) as Hes.
  { apply unique_list. eapply Forall_impl; [exact He|]. apply endpoint_json_unique. }
  assert (∀ k v d, obj_ok d → obj_ok (set_if k v d)) as Hset.
  { intros k v d Hd. unfold set_if. repeat case_match; try done. by apply obj_ok_dset. }
  set (m := set_if _ _ _).
  assert (unique_keys (JObj m) = true) as Hm.
  { subst m. do 2 apply Hset. do 2 (apply obj_ok_dset; [|done]). done. }
  apply (obj_ok_spec _). split; [apply (bool_decide_unpack _); by vm_compute|].
  cbn [forallb snd]. by rewrite Hm, Hps, Hes.
Qed.

(** ** What a run leaves *)

(** The file that a capture is written to. *)
Definition live_pcap (env : environment) (o : options) : option string :=
  if is_set (o_pcap o) then None
  else Some (if is_set (o_write_pcap o) then or_else (o_write_pcap o) "" else temp_name env).
(** What is analysed: the file that was given, the capture, or what was in its file before. *)
Definition content (env : environment) (o : options) (fs : dict string string) : option string :=
  match live_pcap env o with
  | None => dget (or_else (o_pcap o) "") fs
  | Some p =>
      match capture env (a_interface (o_args o)) (o_duration o) with
      | Some packets => Some packets
      | None => if is_set (o_write_pcap o) then dget p fs else Some ""
      end
  end.
Definition analysis (env : environment) (o : options) (fs : dict string string) : result summary :=
  iterate (dissected env (content env o fs)) ≫= parse_discovery_data.

Lemma live_capture_ok env o path w :
  tshark env = true →
  ∃ w1, live_capture env o path w = (w1, Ok ())
    ∧ dget path (files w1) = match capture env (a_interface (o_args o)) (o_duration o) with
                             | Some packets => Some packets | None => dget path (files w) end
    ∧ ∀ q, q ≠ path → dget q (files w1) = dget q (files w).
Proof.
  intros Ht. unfold live_capture, capture_traffic_pcap, print_line, print, mbind, M_bind. rewrite Ht.
  cbn [files]. destruct (capture env _ _) as [packets|].
  - case_bool_decide; cbn [negb]; (eexists; split; [reflexivity|]; cbn [files]; rewrite dget_dset_eq;
      split; [done|]; intros q Hq; by apply dget_dset_ne).
  - case_bool_decide; cbn [negb]; by eexists.
Qed.
Lemma live_capture_fails env o path w :
  tshark env = false → ∃ w1, live_capture env o path w = (w1, Raise RuntimeError) ∧ files w1 = files w.
Proof.
  intros Ht. unfold live_capture, capture_traffic_pcap, print_line, print, mbind, M_bind. rewrite Ht. by eexists.
Qed.
(** The temporary file, if there is one. *)
Definition temp_pcap (env : environment) (o : options) : option string :=
  if is_set (o_pcap o) || is_set (o_write_pcap o) then None else Some (temp_name env).
Lemma input_pcap_ok env o w :
  tshark env = true →
  ∃ w1 p, input_pcap env o w = (w1, Ok p)
    ∧ dget p.2 (files w1) = content env o (files w) ∧ p.1 = temp_pcap env o
    ∧ (∀ t, temp_pcap env o = Some t → is_Some (dget t (files w1)))
    ∧ ∀ q, live_pcap env o ≠ Some q → dget q (files w1) = dget q (files w).
Proof.
  intros Ht. unfold input_pcap, content, live_pcap, temp_pcap.
  destruct (is_set (o_pcap o)).
  { do 2 eexists. split; [reflexivity|]. by cbn [files fst snd orb]. }
  destruct (is_set (o_write_pcap o)).
  - destruct (live_capture_ok env o (or_else (o_write_pcap o) "") w Ht) as (w1&Hw&Hc&Hq).
    exists w1, (None, or_else (o_write_pcap o) ""). unfold mbind, M_bind, mret, M_ret. cbn [snd]. rewrite Hw.
    split_and!; [done..|]. intros q Hne. apply Hq. congruence.
  - set (t := temp_name env). set (w0 := World (stdout w) (stderr w) (dset t "" (files w))).
    destruct (live_capture_ok env o t w0 Ht) as (w1&Hw&Hc&Hq).
    exists w1, (Some t, t). unfold mbind, M_bind, mret, M_ret, mkstemp. fold t w0. cbn [snd]. rewrite Hw.
    cbn [files w0] in Hc. rewrite dget_dset_eq in Hc. split; [done|]. split; [|split; [done|split]].
    + by rewrite Hc.
    + intros q [= <-]. rewrite Hc. by destruct (capture env _ _).
    + intros q Hne. rewrite Hq by congruence. apply dget_dset_ne. congruence.
Qed.
Lemma input_pcap_fails env o w :
  tshark env = false → is_set (o_pcap o) = false →
  ∃ w1, input_pcap env o w = (w1, Raise RuntimeError)
    ∧ files w1 = match temp_pcap env o with Some t => dset t "" (files w) | None => files w end.
Proof.
  intros Ht Hp. unfold input_pcap, temp_pcap. rewrite Hp. destruct (is_set (o_write_pcap o)).
  - destruct (live_capture_fails env o (or_else (o_write_pcap o) "") w Ht) as (w1&Hw&Hf).
    exists w1. unfold mbind, M_bind, mret, M_ret. cbn [snd]. by rewrite Hw.
  - set (t := temp_name env). set (w0 := World (stdout w) (stderr w) (dset t "" (files w))).
    destruct (live_capture_fails env o t w0 Ht) as (w1&Hw&Hf).
    exists w1. unfold mbind, M_bind, mret, M_ret, mkstemp. fold t w0. cbn [snd]. by rewrite Hw.
Qed.

Lemma wf_live_capture env o path w w1 r :
  live_capture env o path w = (w1, r) → wf (files w) → wf (files w1).
Proof.
  unfold live_capture, capture_traffic_pcap, print_line, print, mbind, M_bind.
  destruct (tshark env); [|by intros [= <- _]]. cbn [files].
  destruct (capture env _ _); case_bool_decide; intros [= <- _]; try done; apply wf_dset.
Qed.
Lemma wf_input env o w w1 r : input_pcap env o w = (w1, r) → wf (files w) → wf (files w1).
Proof.
  unfold input_pcap, print_line, print, mkstemp, mbind, M_bind, mret, M_ret.
  destruct (is_set (o_pcap o)); [by intros [= <- _]|].
  destruct (is_set (o_write_pcap o)); cbn [snd];
    (destruct (live_capture _ _ _ _) as [w2 [a|e]] eqn:E; intros [= <- _] Hw; apply (wf_live_capture _ _ _ _ _ _ E));
    [done..|by apply wf_dset|by apply wf_dset].
Qed.

Lemma temp_live env o t : temp_pcap env o = Some t → live_pcap env o = Some t.
Proof. unfold temp_pcap, live_pcap. by destruct (is_set (o_pcap o)), (is_set (o_write_pcap o)). Qed.
(** The directory after the two reports are written and the temporary capture is removed. *)
Definition cleaned (env : environment) (o : options) (fs : dict string string) : dict string string :=
  match temp_pcap env o with Some t => ddel t fs | None => fs end.
Lemma reports_written env o J X a b fs :
  wf fs → J ≠ X → live_pcap env o ≠ Some J → live_pcap env o ≠ Some X →
  let fs' := cleaned env o (dset X b (dset J a fs)) in
  dget J fs' = Some a ∧ dget X fs' = Some b ∧ (∀ t, temp_pcap env o = Some t → dget t fs' = None)
  ∧ ∀ q, q ≠ J → q ≠ X → live_pcap env o ≠ Some q → dget q fs' = dget q fs.
Proof.
  intros Hw HJX HlJ HlX. cbv zeta.
  assert (∀ q k, live_pcap env o ≠ Some q → dget q (cleaned env o k) = dget q k) as Hdel.
  { intros q k Hq. unfold cleaned. destruct (temp_pcap env o) as [t|] eqn:E; [|done]. apply temp_live in E.
    apply dget_ddel_ne. congruence. }
  rewrite !Hdel by done. split; [by rewrite dget_dset_ne, dget_dset_eq|]. split; [by rewrite dget_dset_eq|]. split.
  - intros t E. unfold cleaned. rewrite E. apply dget_ddel_eq. by do 2 apply wf_dset.
  - intros q H1 H2 Hq. by rewrite Hdel, !dget_dset_ne by done.
Qed.

Section leaves.
Context (str_set : gset string → string).
Context {xml : Type} (new_xml : xml) (add_testsuite : testsuite → xml → xml).
Context (fromfile : string → result xml) (xml_text : xml → string).

(** C26: What a run of the sniffer leaves, when the two reports have different names and
    neither is the name of the capture.  Without tshark it raises; so it does if a packet
    cannot be analysed, or if the JSON report cannot be written; then neither report is
    touched.  If only the XML report cannot be written it raises after the JSON report was
    written.  In all these cases a temporary capture stays where it is.  Otherwise both
    reports are written, from what they held before and from the analysis of the file that
    was given or captured, the temporary capture is gone, and no other file is changed.  A
    capture that writes nothing to a file that is there already has that file analysed. *)
Theorem run_leaves env o w
    (ts := timestamp_of env o (dget "timestamp" (files w)))
    (J := json_name o ts) (X := xml_name o ts)
    (text := λ s, new_json o ts (isoformat env) (dget J (files w)) s)
    (Hw : wf (files w)) (HJX : J ≠ X)
    (Hpcap : ∀ p, live_pcap env o = Some p → p ≠ J ∧ p ≠ X) :
  match run_discovery_sniffer str_set new_xml add_testsuite fromfile xml_text env o w with
  | (w', Ok _) => ∃ s,
      tshark env = true ∧ analysis env o (files w) = Ok s
      ∧ writable env J = true ∧ writable env X = true
      ∧ dget J (files w') = Some (text s)
      ∧ dget X (files w') = Some (new_report str_set new_xml add_testsuite fromfile xml_text o (dget X (files w)) s)
      ∧ (∀ t, temp_pcap env o = Some t → dget t (files w') = None)
      ∧ (∀ q, q ≠ J → q ≠ X → live_pcap env o ≠ Some q → dget q (files w') = dget q (files w))
  | (w', Raise e) =>
      (∀ t, temp_pcap env o = Some t → is_Some (dget t (files w')))
      ∧ ((if tshark env then analysis env o (files w) = Raise e
          else e = if is_set (o_pcap o) then OSError else RuntimeError)
         ∧ (∀ q, live_pcap env o ≠ Some q → dget q (files w') = dget q (files w))
         ∨ ∃ s, tshark env = true ∧ analysis env o (files w) = Ok s ∧ e = OSError
             ∧ (writable env J = false
                ∧ (∀ q, live_pcap env o ≠ Some q → dget q (files w') = dget q (files w))
                ∨ writable env J = true ∧ writable env X = false
                  ∧ dget J (files w') = Some (text s)
                  ∧ (∀ q, q ≠ J → live_pcap env o ≠ Some q → dget q (files w') = dget q (files w))))
  end.
Proof.
  assert (live_pcap env o ≠ Some J ∧ live_pcap env o ≠ Some X) as [HlJ HlX].
  { split; intros E; by destruct (Hpcap _ E). }
  unfold run_discovery_sniffer. rewrite (M_bind_Ok _ _ w w (dget "timestamp" (files w))) by done.
  cbv zeta. fold ts. fold J X. destruct (tshark env) eqn:Ht.
  - destruct (input_pcap_ok env o w Ht) as (w1&p&Hin&Hc&Hp&Htw&Hq). rewrite (M_bind_Ok _ _ _ _ _ Hin).
    pose proof (wf_input _ _ _ _ _ Hin Hw) as Hw1.
    rewrite (M_bind_Ok _ _ w1 w1 (dissected env (content env o (files w))))
      by (unfold dump_rtps_json_from_pcap; by rewrite Ht, Hc).
    unfold analysis. destruct (iterate _) as [packets|e];
      [|rewrite (M_bind_Raise _ _ w1 w1 e) by done; split; [done|by left]].
    do 2 (erewrite M_bind_Ok by reflexivity). cbn [mbind result_bind files].
    destruct (parse_discovery_data packets) as [s|e];
      [|erewrite M_bind_Raise by reflexivity; split; [done|by left]].
    do 2 (erewrite M_bind_Ok by reflexivity). cbn [files].
    assert (text s = new_json o ts (isoformat env) (dget J (files w1)) s) as Hj
      by (unfold text; by rewrite Hq).
    destruct (writable env J) eqn:HJ.
    2: { erewrite M_bind_Raise by (unfold write_file; rewrite HJ; reflexivity).
         split; [done|]. right. exists s. split_and!; [done..|by left]. }
    erewrite M_bind_Ok by (unfold write_file; rewrite HJ; reflexivity).
    do 2 (erewrite M_bind_Ok by reflexivity). cbn [files stdout stderr].
    destruct (writable env X) eqn:HX.
    2: { erewrite M_bind_Raise by (unfold write_file; rewrite HX; reflexivity). cbn [files].
         split.
         - intros t E. pose proof (temp_live _ _ _ E). rewrite dget_dset_ne by congruence. auto.
         - right. exists s. split_and!; [done..|]. right. rewrite dget_dset_eq, Hj.
           split_and!; [done..|]. intros q HqJ Hql. rewrite dget_dset_ne by done. auto. }
    erewrite M_bind_Ok by (unfold write_file; rewrite HX; reflexivity).
    do 2 (erewrite M_bind_Ok by reflexivity). unfold remove_file. cbn [files stdout stderr].
    exists s. rewrite Hp, (dget_dset_ne J X), <- Hj, (Hq X) by done.
    edestruct (reports_written env o J X) as (H1&H2&H3&H4); [exact Hw1|done..|].
    split_and!; [done..|exact H1|exact H2|exact H3|]. intros q HqJ HqX Hql. rewrite <- (Hq q Hql). by apply H4.
  - destruct (is_set (o_pcap o)) eqn:Epcap.
    + assert (input_pcap env o w = (World (stdout w +:+ ("[*] Reading existing PCAP file: " +:+ or_else (o_pcap o) "") +:+ newline)
          (stderr w) (files w), Ok (None, or_else (o_pcap o) ""))) as Hin.
      { unfold input_pcap. rewrite Epcap. reflexivity. }
      rewrite (M_bind_Ok _ _ _ _ _ Hin).
      erewrite M_bind_Raise by (unfold dump_rtps_json_from_pcap; rewrite Ht; reflexivity).
      split; [unfold temp_pcap; by rewrite Epcap|by left].
    + destruct (input_pcap_fails env o w Ht Epcap) as (w1&Hin&Hf). rewrite (M_bind_Raise _ _ _ _ _ Hin), Hf.
      destruct (temp_pcap env o) as [t|] eqn:Et; [|split; [done|by left]]. split.
      * intros q [= <-]. by rewrite dget_dset_eq.
      * left. split; [done|]. intros q Hq. apply dget_dset_ne. intros ->. apply temp_live in Et. by apply Hq.
Qed.
End leaves.

(** ** The runs of a file *)

(** The JSON value for a series of runs: a single run is the file, several are a dictionary. *)
Definition collected (runs : list run) : option json :=
  match runs with
  | [] => None
  | [r1] => Some (summary_of r1)
  | r1 :: r2 :: rest =>
      Some (JObj [("metadata", JObj [("timestamp", JStr (r_timestamp r2))]);
                  ("runs", JObj (dupdate [] ((first_name r1, summary_of r1)
                                   :: ((λ r, (key_of r, summary_of r)) <$> (r2 :: rest)))))])
  end.
Lemma collected_file runs : file_after runs = collected runs.
Proof. destruct runs as [|r1 [|r2 rest]]; [done|done|]. apply (file_after_runs r1 r2 rest). Qed.
Lemma collected_snoc runs r :
  collected (runs ++ [r]) = Some (to_write (r_args r) (r_timestamp r) (summary_of r) (collected runs)).
Proof. rewrite <- !collected_file. unfold file_after. by rewrite foldl_app. Qed.

Lemma first_key_normal v : first_key (normal v) = first_key v.
Proof.
  unfold first_key. rewrite !(jget_normal "metadata" (JObj []) v : jget _ (JObj []) _ = _).
  destruct (jget "metadata" (JObj []) v) as [m|]; [|done]. cbn [fmap result_fmap mbind result_bind].
  rewrite !(jget_normal _ (JStr "") m : jget _ (JStr "") _ = _).
  destruct (jget "publisher" _ m) as [p|]; [|done]. cbn [fmap result_fmap mbind result_bind].
  destruct (jget "subscriber" _ m) as [q|]; [|done]. cbn [fmap result_fmap mbind result_bind].
  by rewrite !truthy_normal, !str_of_normal.
Qed.
Lemma normal_obj d : normal (JObj d) = JObj (map normal_item d).
Proof. done. Qed.
Lemma normal_dset k v v' d d' :
  normal v = normal v' → map normal_item d = map normal_item d' →
  normal (JObj (dset k v d)) = normal (JObj (dset k v' d')).
Proof. intros Hv Hd. by rewrite !normal_obj, !dset_normal, Hv, Hd. Qed.
(** How the floats of the old file are written does not matter. *)
Lemma to_write_normal a timestamp sm v :
  normal (to_write a timestamp sm (Some (normal v))) = normal (to_write a timestamp sm (Some v)).
Proof.
  destruct v as [| | | | | |d]; try done.
  change (normal (JObj d)) with (JObj (map normal_item d)). unfold to_write. unfold din.
  rewrite dget_normal. destruct (dget "runs" d) as [rs|] eqn:Er; cbn [fmap option_fmap option_map].
  - rewrite !bool_decide_eq_true_2 by by eexists. unfold add_run. rewrite dget_normal, Er. cbn [fmap option_fmap option_map].
    destruct rs as [| | | | | |rs]; try done. cbn [normal catch].
    apply normal_dset; [|apply normal_items]. apply normal_dset; [done|apply normal_items].
  - rewrite !bool_decide_eq_false_2 by (by intros [? ?]).
    rewrite <- normal_obj, first_key_normal.
    destruct (first_key (JObj d)) as [k|]; [|done]. cbn [mbind result_bind catch].
    assert (normal (JObj (dset (pair_key a timestamp) sm [(k, normal (JObj d))]))
            = normal (JObj (dset (pair_key a timestamp) sm [(k, JObj d)]))) as E.
    { apply normal_dset; [done|]. unfold normal_item. cbn [map fst snd]. by rewrite normal_idem. }
    rewrite !(normal_obj [_; _]). unfold normal_item. cbn [map fst snd]. by rewrite E.
Qed.
Lemma dget_unique k d v : obj_ok d → dget k d = Some v → unique_keys v = true.
Proof.
  intros Hd Hk. apply (jget_unique k JNull (JObj d)); [done|exact Hd|]. cbn [jget]. by rewrite Hk.
Qed.
Lemma to_write_unique a timestamp sm existing :
  unique_keys sm = true → (∀ v, existing = Some v → unique_keys v = true) →
  unique_keys (to_write a timestamp sm existing) = true.
Proof.
  intros Hsm He. destruct existing as [[| | | | | |d]|]; try done. specialize (He _ eq_refl).
  cbn [to_write]. destruct (din "runs" d).
  - unfold add_run. destruct (dget "runs" d) as [[| | | | | |rs]|] eqn:Er; try done. cbn [catch].
    apply obj_ok_dset; [done|]. apply obj_ok_dset; [|done]. by apply (dget_unique "runs" d).
  - destruct (first_key (JObj d)) as [k|]; [|done]. cbn [mbind result_bind catch].
    assert (unique_keys (JObj (dset (pair_key a timestamp) sm [(k, JObj d)])) = true) as H.
    { apply obj_ok_dset; [|done]. apply obj_ok_spec. split; [apply NoDup_singleton|].
      cbn [forallb snd]. by rewrite He. }
    apply (obj_ok_spec _). split; [apply (bool_decide_unpack _); by vm_compute|].
    cbn [forallb snd]. by rewrite H.
Qed.
Lemma analysis_unique env o fs a timestamp iso s :
  analysis env o fs = Ok s → unique_keys (summary_json a timestamp iso s) = true.
Proof.
  unfold analysis. intros (raw&Hraw&Hs)%bind_Ok. apply summary_json_unique.
  - by destruct (parse_discovery_data_summary raw s Hs).
  - apply (parse_clean raw); [|done]. apply (iterate_unique (dissected env (content env o fs))); [|done].
    unfold dissected. destruct (dissect env _) as [code out]. case_match; [done|].
    destruct (loads out) as [v|] eqn:E; [|done]. by apply loads_unique in E.
Qed.

(** The file holds a series of runs. *)
Definition holds (file : option string) (runs : list run) : Prop :=
  match collected runs with
  | None => file = None
  | Some v => unique_keys v = true ∧ file = Some (dumps_at 0 v)
  end.
Definition run_of (o : options) (timestamp isoformat : string) (s : summary) : run :=
  Run (o_args o) timestamp (total_rtps_packets s) isoformat (participants_json s) (endpoints_json s).

(** C27: The JSON file collects the runs.  If its text holds some runs, after one more run it
    holds these and the new one: a single run is the summary itself, several are a dictionary
    in order of first appearance, in which a run replaces one of the same name only; and the
    text is read back as this value, with its floats as they were written. *)
Theorem runs_collected env o fs s timestamp iso file runs
    (Hs : analysis env o fs = Ok s) (Hfile : holds file runs) :
  let text := new_json o timestamp iso file s in
  let runs' := (runs ++ [run_of o timestamp iso s])%list in
  holds (Some text) runs' ∧ ∃ v, collected runs' = Some v ∧ loads text = Ok (normal v).
Proof.
  intros text runs'. pose proof (analysis_unique _ _ _ (o_args o) timestamp iso _ Hs) as Hu.
  set (v := to_write (o_args o) timestamp (summary_json (o_args o) timestamp iso s) (collected runs)).
  assert (collected runs' = Some v) as Hv by apply collected_snoc.
  assert (unique_keys v = true ∧ text = dumps_at 0 v) as [Huv Htext].
  { subst v text. unfold new_json, old_json. revert Hfile. unfold holds.
    destruct (collected runs) as [old|].
    - intros [Hold ->]. split; [apply to_write_unique; [done|by intros ? [= <-]]|].
      cbn [fmap option_fmap option_map]. rewrite loads_dumps by done.
      by rewrite <- (dumps_normal (to_write _ _ _ (Some old))), <- to_write_normal, dumps_normal.
    - intros ->. split; [by apply to_write_unique|done]. }
  unfold holds. rewrite Hv. split; [by rewrite Htext|]. exists v. split; [done|].
  rewrite Htext. by apply loads_dumps.
Qed.

(** A capture on a machine with and without tshark, where some files can be written. *)
Definition sample_env (installed : bool) (writable : string → bool) : environment :=
  Env installed (λ _ _, Some "packets") (λ _, (0%Z, dumps_at 0 (JList [spdp_packet; sedp_packet])))
    "rtps_capture_1.pcap" "20260101-10_00_00" "2026-01-01T10:00:00" writable.
Definition sample_options : options :=
  Options (Args "any" (Some "a") (Some "b")) 5 None (Some "d.json") None None None 2 (Some "Square") None.
Definition sample_world : world := World "" "" [("timestamp", "2026-01-02-t")].
Definition sample_run (env : environment) : world * result unit :=
  run_discovery_sniffer (λ _, "{...}") ([] : list testsuite) (λ t x, x ++ [t])%list (λ _, Raise ValueError)
    (λ x, join "," (ts_name <$> x)) env sample_options sample_world.

Lemma sample_analysis b f : analysis (sample_env b f) sample_options (files sample_world) = Ok small_capture.
Proof.
  unfold analysis. assert (iterate (dissected (sample_env b f) (content (sample_env b f) sample_options (files sample_world)))
    = Ok [spdp_packet; sedp_packet]) as -> by (by vm_compute).
  exact small_capture_parsed.
Qed.
(** The name of the report is that of the file [timestamp]; without tshark, or where the XML
    report cannot be written, the temporary capture stays. *)
Lemma run_leaves_witness :
  let no_xml f := bool_decide (f ≠ "junit_discovery_report_20260102-t.xml") in
  (∃ w', sample_run (sample_env true (λ _, true)) = (w', Ok ())
     ∧ dget "junit_discovery_report_20260102-t.xml" (files w') = Some "rtps_discovery_a---b"
     ∧ is_Some (dget "d.json" (files w')) ∧ dget "rtps_capture_1.pcap" (files w') = None)
  ∧ (∃ w', sample_run (sample_env false (λ _, true)) = (w', Raise RuntimeError)
     ∧ is_Some (dget "rtps_capture_1.pcap" (files w')))
  ∧ ∃ w', sample_run (sample_env true no_xml) = (w', Raise OSError)
     ∧ is_Some (dget "rtps_capture_1.pcap" (files w')) ∧ is_Some (dget "d.json" (files w'))
     ∧ dget "junit_discovery_report_20260102-t.xml" (files w') = None.
Proof.
  intros no_xml. assert (∀ env,
    timestamp_of env sample_options (dget "timestamp" (files sample_world)) = "20260102-t") as Hts.
  { intros env. by vm_compute. }
  set (X := xml_name sample_options "20260102-t"). set (J := json_name sample_options "20260102-t").
  assert (J ≠ X) as HJX by done.
  assert (∀ b f p, live_pcap (sample_env b f) sample_options = Some p → p ≠ J ∧ p ≠ X) as Hp
    by by intros b f p [= <-].
  assert (wf (files sample_world)) as Hwf by apply NoDup_singleton.
  pose proof (λ b f, run_leaves (λ _, "{...}") [] (λ t x, x ++ [t])%list (λ _, Raise ValueError)
    (λ x : list testsuite, join "," (ts_name <$> x)) (sample_env b f) sample_options sample_world
    Hwf) as Hrun. cbv zeta in Hrun. split; [|split].
  - specialize (Hrun true (λ _, true)). rewrite !Hts in Hrun. specialize (Hrun HJX (Hp true _)). unfold sample_run.
    destruct (run_discovery_sniffer _ _ _ _ _ _ _ _) as [w' [[]|e]].
    + destruct Hrun as (s&_&Hs&_&_&HJ&HX&Ht&_). exists w'. split; [done|]. split; [|split].
      * rewrite (sample_analysis true) in Hs. injection Hs as <-. etrans; [exact HX|]. by vm_compute.
      * by eexists.
      * by apply Ht.
    + destruct Hrun as (_&[[Hrun _]|(s&_&_&_&[[Hx _]|(_&Hx&_)])]); [by rewrite sample_analysis in Hrun|done..].
  - specialize (Hrun false (λ _, true)). rewrite !Hts in Hrun. specialize (Hrun HJX (Hp false _)). unfold sample_run.
    destruct (run_discovery_sniffer _ _ _ _ _ _ _ _) as [w' [[]|e]].
    + by destruct Hrun as (s&Ht&_).
    + destruct Hrun as (Ht&[[-> _]|(s&Hx&_)]); [|done]. exists w'. split; [done|]. by apply Ht.
  - specialize (Hrun true no_xml). rewrite !Hts in Hrun. specialize (Hrun HJX (Hp true _)). unfold sample_run.
    destruct (run_discovery_sniffer _ _ _ _ _ _ _ _) as [w' [[]|e]].
    + by destruct Hrun as (s&_&_&_&Hx&_).
    + destruct Hrun as (Ht&[[Hx _]|(s&_&_&->&[[Hx _]|(_&_&HJ&Hq)])]);
        [by rewrite sample_analysis in Hx|done|].
      exists w'. split; [done|]. split; [by apply Ht|]. split; [by eexists|].
      etrans; [by apply (Hq "junit_discovery_report_20260102-t.xml")|done].
Defined.
(** The same run again, into the file that it wrote. *)
Lemma runs_collected_witness :
  let r := run_of sample_options "t1" "i1" small_capture in
  let text := new_json sample_options "t1" "i1" None small_capture in
  holds (Some text) [r]
  ∧ holds (Some (new_json sample_options "t2" "i2" (Some text) small_capture))
      [r; run_of sample_options "t2" "i2" small_capture].
Proof.
  intros r text.
  destruct (runs_collected (sample_env true (λ _, true)) sample_options _ _ "t1" "i1" None [] (sample_analysis true _)) as [H1 _];
    [done|]. split; [exact H1|].
  apply (runs_collected (sample_env true (λ _, true)) sample_options _ _ "t2" "i2" (Some text) [r] (sample_analysis true _)).
  exact H1.
Defined.
