(* ===== verification/FileRegistry.v ===== *)
(** * Report comparison: names of report files (benchmarking/junit_compare/file_registry.py)

    The data in the name of a report, the order of the files of a directory, for names of the
    new and of the old format, and the choice of the last two.  A directory is the list of its entries, a file its name: the
    functions use the parent directory only to list it.  [\d] is an ASCII digit. *)

From S2P Require Import Prelude PyStr PySort Regex.
From stdpp Require Import options.
Local Open Scope string_scope.

(** [Path(name).stem] *)
Definition stem (name : string) : string :=
  match rfind "." name with
  | Some i => if decide (0 < i < String.length name - 1) then str_take i name else name
  | None => name
  end.

Definition digits (n : nat) : regex := RRep n (RChar is_digit).
Definition _NEW_FNAME_RE : regex :=
  (RChar (λ c, bool_decide (c ∈ ["-"; "_"]%char))
   ⊙ RGroup 1 (digits 2) ⊙ RGroup 2 (digits 2) ⊙ RGroup 3 (digits 4) ⊙ RLit "-"
   ⊙ RGroup 4 (digits 4) ⊙ RLit "-par" ⊙ RGroup 5 (RPlus is_digit)
   ⊙ ROpt (RLit "-" ⊙ RGroup 6 (RPlus is_digit) ⊙ RLit "sec")
   ⊙ ROpt (RLit "-" ⊙ RGroup 7 (RAlt (RLit "self-hosted") (RLit "ubuntu")))
   ⊙ ROpt (RLit "-run" ⊙ RGroup 8 (RPlus is_digit)))%re.
(** The date of the old names. *)
Definition old_date : regex :=
  RGroup 1 (digits 4 ⊙ RLit "-" ⊙ digits 2 ⊙ RLit "-" ⊙ digits 2 ⊙ RLit "-" ⊙ digits 2
            ⊙ RLit "_" ⊙ digits 2 ⊙ RLit "_" ⊙ digits 2)%re.

Record file_meta := Meta {
  fm_date : string;
  fm_time : string;
  parallel : Z;
  duration_sec : Z;
  runner : option string;
  batch : option Z;
  sort_key : string
}.

(** [int(s)] of a run of digits ([py_int_digits]). *)
Definition int_of (s : string) : Z := dec_value 0 s.

Definition parse_filename_meta (path : string) : option file_meta :=
  m ← re_search _NEW_FNAME_RE (stem path);
  let g n := default "" (group n m) in
  Some (Meta (g 1 +:+ g 2 +:+ g 3) (g 4) (int_of (g 5))
          (match group 6 m with Some d => int_of d | None => 0 end)
          (group 7 m) (int_of <$> group 8 m)
          (g 3 +:+ g 2 +:+ g 1 +:+ "-" +:+ g 4)).

Definition _file_sort_key (path : string) : string * string :=
  match parse_filename_meta path with
  | Some meta => (sort_key meta, path)
  | None =>
      match re_search old_date (stem path) with
      | Some m => (default "" (group 1 m), path)
      | None => (path, "")
      end
  end.

Definition report_label (path : string) : string :=
  match parse_filename_meta path with
  | Some meta => fm_date meta +:+ "-" +:+ fm_time meta
  | None =>
      match re_search (old_date ⊙ REnd)%re (stem path) with
      | Some m => default "" (group 1 m)
      | None => stem path
      end
  end.

(** [fnmatch] with "junit_*.xml" *)
Definition is_report (name : string) : bool :=
  startswith "junit_" name && endswith ".xml" name.
Definition file_le : string → string → bool := by_key _file_sort_key (lex str_le str_le).
Definition choose_all_files (directory : list string) (b : option Z) : list string :=
  let files := sort_by file_le (filter (λ f, is_report f = true) directory) in
  match b with
  | None => files
  | Some b => filter (λ f, (parse_filename_meta f ≫= batch) = Some b) files
  end.
Definition choose_files (directory : list string) (b : option Z) : result (string * string) :=
  let files := choose_all_files directory b in
  match reverse files with
  | last :: before :: _ => Ok (before, last)
  | _ => Raise ValueError
  end.

(** Within a year the old names sort before the new ones, whatever their dates. *)
Lemma old_names_first :
  choose_files ["junit_interoperability_report_01012026-0900-par4.xml";
                "junit_interoperability_report_2026-12-31-10_00_00.xml"] None
  = Ok ("junit_interoperability_report_2026-12-31-10_00_00.xml",
        "junit_interoperability_report_01012026-0900-par4.xml").
Proof. vm_compute. reflexivity. Qed.

(** ** Reading a name back *)

Lemma stem_suffix a : a ≠ "" → stem (a +:+ ".xml") = a.
Proof.
  intros Ha. unfold stem. rewrite (rfind_app "." a ".xml" 0), Nat.add_0_r by done.
  rewrite slength_app. cbn [String.length]. rewrite decide_True, str_take_app; [done|].
  destruct a; [done|]. cbn [String.length]. lia.
Qed.

(** The parts of a name of the new format. *)
Record stamp := Stamp {
  st_sep : bool;
  st_day : string; st_month : string; st_year : string; st_hhmm : string;
  st_par : string; st_sec : option string; st_runner : option bool; st_run : option string
}.
Definition opt_part {A} (f : A → string) (o : option A) : string :=
  match o with Some a => f a | None => "" end.
Definition runner_name (self_hosted : bool) : string := if self_hosted then "self-hosted" else "ubuntu".
Definition sec_part (s : string) : string := "-" +:+ s +:+ "sec".
Definition runner_part (b : bool) : string := "-" +:+ runner_name b.
Definition run_part (s : string) : string := "-run" +:+ s.
Definition tail_of (s : stamp) : string :=
  opt_part sec_part (st_sec s) +:+ opt_part runner_part (st_runner s) +:+ opt_part run_part (st_run s).
Definition sep_of (s : stamp) : ascii := if st_sep s then "-"%char else "_"%char.
Definition stamp_text (s : stamp) : string :=
  String (sep_of s) (st_day s +:+ st_month s +:+ st_year s +:+ "-" +:+ st_hhmm s
    +:+ "-par" +:+ st_par s +:+ tail_of s).
Definition report_stem (s : stamp) : string := "junit_interoperability_report" +:+ stamp_text s.
Definition report_name (s : stamp) : string := report_stem s +:+ ".xml".

Definition width (n : nat) (s : string) : Prop := sforall is_digit s = true ∧ String.length s = n.
Definition number (s : string) : Prop := sforall is_digit s = true ∧ s ≠ "".
Definition valid (s : stamp) : Prop :=
  width 2 (st_day s) ∧ width 2 (st_month s) ∧ width 4 (st_year s) ∧ width 4 (st_hhmm s)
  ∧ number (st_par s) ∧ from_option number True (st_sec s) ∧ from_option number True (st_run s).

Section munch.
Context {A : Type}.
Implicit Types (k : rstate → option A).

Lemma rm_digits n w i s caps k a :
  width n w → k (RState (i + n) s caps) = Some a →
  rmatch (digits n) (RState i (w +:+ s) caps) k = Some a.
Proof.
  unfold digits. intros [Hw Hn]. revert i w Hw Hn. induction n as [|n IH]; intros i w Hw Hn Hk.
  - destruct w; [|done]. rewrite sapp_nil_l. by rewrite Nat.add_0_r in Hk.
  - destruct w as [|c w]; [done|]. cbn [sforall] in Hw. apply andb_true_iff in Hw as [Hc Hw].
    injection Hn as Hn. rewrite <- Nat.add_succ_comm in Hk. rewrite sapp_cons. destruct n as [|n].
    + destruct w; [|done]. rewrite sapp_nil_l. apply rm_char; [done|].
      by rewrite Nat.add_0_r in Hk.
    + change (RRep (S (S n)) (RChar is_digit)) with (RChar is_digit ⊙ RRep (S n) (RChar is_digit))%re.
      apply rm_seq, rm_char; [done|]. by apply IH.
Qed.
Lemma rm_group_digits m n w i s caps k a :
  width n w → k (RState (i + n) s ((m, w) :: caps)) = Some a →
  rmatch (RGroup m (digits n)) (RState i (w +:+ s) caps) k = Some a.
Proof.
  intros Hw Hk. apply rm_group, rm_digits; [done|]. destruct Hw as [_ <-]. by rewrite set_cap_word.
Qed.
Lemma rm_group_number m w i s caps k a :
  number w → stops is_digit s = true →
  k (RState (i + String.length w) s ((m, w) :: caps)) = Some a →
  rmatch (RGroup m (RPlus is_digit)) (RState i (w +:+ s) caps) k = Some a.
Proof.
  intros [Hw Hne] Hs Hk. apply rm_group, rm_plus; [done..|]. by rewrite set_cap_word.
Qed.
Lemma rm_opt_some r st k a : rmatch r st k = Some a → rmatch (ROpt r) st k = Some a.
Proof. intros H. unfold ROpt. cbn [rmatch]. by rewrite H. Qed.
Lemma rm_opt_none r st k : rmatch r st k = None → rmatch (ROpt r) st k = k st.
Proof. intros H. unfold ROpt. cbn [rmatch]. by rewrite H. Qed.
End munch.

(** The optional parts of a name. *)
Definition cap_of (n : nat) (o : option string) (caps : list (nat * string)) : list (nat * string) :=
  match o with Some w => (n, w) :: caps | None => caps end.

(** What may follow the number of runs or the duration. *)
Definition no_number (rest : string) : Prop :=
  rest = "" ∨ ∃ c r, rest = String "-" (String c r) ∧ is_digit c = false.
Lemma no_number_stops rest : no_number rest → stops is_digit rest = true.
Proof. by intros [->|(c&r&->&_)]. Qed.
Lemma no_number_run o : no_number (opt_part run_part o).
Proof. destruct o as [w|]; [right; by eexists _, _|by left]. Qed.
Lemma no_number_runner b rest : no_number rest → no_number (opt_part runner_part b +:+ rest).
Proof. intros H. destruct b as [[]|]; [right; by eexists _, _..|done]. Qed.

Section tail.
Context {A : Type} (k : rstate → option A) (i : nat) (caps : list (nat * string)) (a : A).

Lemma rm_sec o rest :
  from_option number True o → no_number rest →
  k (RState (i + String.length (opt_part sec_part o)) rest (cap_of 6 o caps)) = Some a →
  rmatch (ROpt (RLit "-" ⊙ RGroup 6 (RPlus is_digit) ⊙ RLit "sec")%re)
    (RState i (opt_part sec_part o +:+ rest) caps) k = Some a.
Proof.
  intros Ho Hr Hk. destruct o as [w|]; cbn [opt_part cap_of from_option] in *.
  - apply rm_opt_some. unfold sec_part in *. rewrite !sapp_assoc.
    apply rm_seq, rm_lit, rm_seq, rm_group_number; [done|done|]. apply rm_lit. rewrite <- Hk.
    rewrite !slength_app. do 2 f_equal. cbn [String.length]. lia.
  - rewrite sapp_nil_l. rewrite Nat.add_0_r in Hk. rewrite rm_opt_none; [done|].
    destruct Hr as [->|(c&r&->&Hc)]; [done|]. cbn. by rewrite Hc.
Qed.
Lemma rm_runner o run :
  k (RState (i + String.length (opt_part runner_part o)) (opt_part run_part run)
       (cap_of 7 (runner_name <$> o) caps)) = Some a →
  rmatch (ROpt (RLit "-" ⊙ RGroup 7 (RAlt (RLit "self-hosted") (RLit "ubuntu")))%re)
    (RState i (opt_part runner_part o +:+ opt_part run_part run) caps) k = Some a.
Proof.
  intros Hk. destruct o as [b|]; cbn [opt_part cap_of fmap option_fmap option_map] in *.
  - apply rm_opt_some. unfold runner_part in *. rewrite !sapp_assoc. apply rm_seq, rm_lit, rm_group.
    assert (set_cap 7 (RState (i + 1) (runner_name b +:+ opt_part run_part run) caps)
              (RState (i + 1 + String.length (runner_name b)) (opt_part run_part run) caps)
            = RState (i + String.length ("-" +:+ runner_name b)) (opt_part run_part run)
                ((7, runner_name b) :: caps)) as E.
    { rewrite set_cap_word, slength_app. f_equal. cbn [String.length]. lia. }
    destruct b; unfold runner_name.
    + cbn [rmatch]. rewrite (rm_lit "self-hosted" _ _ _ _ a); [done|].
      exact (eq_trans (f_equal k E) Hk).
    + cbn [rmatch]. rewrite (rm_lit "ubuntu" _ _ _ _ a); [by destruct run|].
      exact (eq_trans (f_equal k E) Hk).
  - rewrite sapp_nil_l. rewrite Nat.add_0_r in Hk. rewrite rm_opt_none; [done|]. by destruct run.
Qed.
Lemma rm_run o :
  from_option number True o →
  k (RState (i + String.length (opt_part run_part o)) "" (cap_of 8 o caps)) = Some a →
  rmatch (ROpt (RLit "-run" ⊙ RGroup 8 (RPlus is_digit))%re)
    (RState i (opt_part run_part o) caps) k = Some a.
Proof.
  intros Ho Hk. destruct o as [w|]; cbn [opt_part cap_of from_option] in *.
  - apply rm_opt_some. unfold run_part in *. rewrite <- (sapp_nil_r w) at 1. apply rm_seq, rm_lit.
    apply rm_group_number; [done|done|]. rewrite <- Hk. rewrite !slength_app. do 2 f_equal.
    cbn [String.length]. lia.
  - rewrite Nat.add_0_r in Hk. by rewrite rm_opt_none.
Qed.
End tail.

Definition captures (s : stamp) : list (nat * string) :=
  cap_of 8 (st_run s) (cap_of 7 (runner_name <$> st_runner s) (cap_of 6 (st_sec s)
    [(5, st_par s); (4, st_hhmm s); (3, st_year s); (2, st_month s); (1, st_day s)])).
Lemma match_stamp i s :
  valid s →
  match_at _NEW_FNAME_RE i (stamp_text s) = Some (RMatch i (stamp_text s) "" (captures s)).
Proof.
  intros (Hd&Hm&Hy&Ht&Hp&Hs&Hr). unfold match_at, _NEW_FNAME_RE.
  set (k := λ st, Some (mk_match i (stamp_text s) st)). unfold stamp_text at 1.
  apply rm_seq, rm_char; [by apply bool_decide_eq_true; destruct s as [[]]; set_solver|].
  do 3 (apply rm_seq, rm_group_digits; [done|]). apply rm_seq, rm_lit, rm_seq, rm_group_digits; [done|].
  unfold tail_of. assert (no_number (opt_part runner_part (st_runner s) +:+ opt_part run_part (st_run s)))
    as Hn by apply no_number_runner, no_number_run.
  apply rm_seq, rm_lit, rm_seq, rm_group_number; [done| |].
  { destruct (st_sec s); [done|]. rewrite sapp_nil_l. by apply no_number_stops. }
  apply rm_seq, rm_sec; [done|done|]. apply rm_seq, rm_runner, rm_run; [done|].
  unfold k, mk_match. cbn [st_pos st_rest st_caps]. do 2 f_equal.
  match goal with |- str_take ?n _ = _ => assert (n = String.length (stamp_text s)) as -> end.
  2:{ apply str_take_length. }
  unfold stamp_text, tail_of. cbn [String.length]. rewrite !slength_app. cbn [String.length].
  destruct Hd as [_ ->], Hm as [_ ->], Hy as [_ ->], Ht as [_ ->]. lia.
Qed.

(** A name of the new format is read back: every part is found. *)
Definition meta_of (s : stamp) : file_meta :=
  Meta (st_day s +:+ st_month s +:+ st_year s) (st_hhmm s) (int_of (st_par s))
    (from_option int_of 0%Z (st_sec s)) (runner_name <$> st_runner s) (int_of <$> st_run s)
    (st_year s +:+ st_month s +:+ st_day s +:+ "-" +:+ st_hhmm s).
Lemma search_head i b :
  search_from _NEW_FNAME_RE i ("junit_interoperability_report" +:+ b)
  = search_from _NEW_FNAME_RE (29 + i) b.
Proof. reflexivity. Qed.
Lemma parse_report_name s : valid s → parse_filename_meta (report_name s) = Some (meta_of s).
Proof.
  intros Hv. unfold parse_filename_meta, report_name. rewrite stem_suffix by done.
  unfold re_search, report_stem. rewrite search_head.
  assert (search_from _NEW_FNAME_RE (29 + 0) (stamp_text s)
          = Some (RMatch (29 + 0) (stamp_text s) "" (captures s))) as ->.
  { pose proof (match_stamp (29 + 0) s Hv) as E. unfold stamp_text in E at 1 |- * at 1.
    cbn [search_from]. by rewrite E. }
  cbn [mbind option_bind]. destruct s as [sep d m y t p [sec|] [[]|] [run|]]; reflexivity.
Qed.

(** ** Chronological order *)

Lemma dec_value_acc acc s : dec_value acc s = (acc * 10 ^ Z.of_nat (String.length s) + dec_value 0 s)%Z.
Proof.
  revert acc. induction s as [|c s IH]; intros acc; cbn [dec_value String.length]; [lia|].
  rewrite IH, (IH (0 * 10 + _)%Z), Nat2Z.inj_succ, Z.pow_succ_r by lia. lia.
Qed.
Lemma dec_value_lt s : sforall is_digit s = true → (0 ≤ dec_value 0 s < 10 ^ Z.of_nat (String.length s))%Z.
Proof.
  induction s as [|c s IH]; cbn [sforall String.length]; [done|].
  intros [Hc%digit_code Hs%IH]%andb_true_iff. cbn [dec_value].
  rewrite dec_value_acc, Nat2Z.inj_succ, Z.pow_succ_r by lia. nia.
Qed.
(** Digits of one width are in the order of their values. *)
Lemma str_le_digits s t :
  sforall is_digit s = true → sforall is_digit t = true → String.length s = String.length t →
  str_le s t = true ↔ (dec_value 0 s ≤ dec_value 0 t)%Z.
Proof.
  revert t. induction s as [|c s IH]; intros [|d t]; cbn [sforall String.length]; try done.
  intros [Hc Hs]%andb_true_iff [Hd Ht]%andb_true_iff [= Hn]. cbn [str_le dec_value].
  rewrite orb_true_iff, andb_true_iff, N.ltb_lt, N.eqb_eq, (IH t) by done.
  rewrite (dec_value_acc (0 * 10 + (Z.of_N (code c) - 48))),
    (dec_value_acc (0 * 10 + (Z.of_N (code d) - 48))), Hn.
  pose proof (dec_value_lt s Hs) as H1. pose proof (dec_value_lt t Ht) as H2. rewrite Hn in H1.
  set (w := (10 ^ Z.of_nat (String.length t))%Z) in *. split; [nia|]. intros H.
  destruct (N.lt_trichotomy (code c) (code d)) as [?|[E|?]]; [by left| |exfalso; nia].
  right. split; [done|]. rewrite E in H. lia.
Qed.
Lemma str_le_drop_char c a b x y :
  String.length a = String.length b →
  str_le (a +:+ String c x) (b +:+ String c y) = str_le (a +:+ x) (b +:+ y).
Proof.
  revert b. induction a as [|d a IH]; intros [|e b]; cbn [String.length]; try done.
  - intros _. rewrite !sapp_nil_l. cbn [str_le]. by rewrite N.ltb_irrefl, N.eqb_refl.
  - intros [= Hn]. rewrite !sapp_cons. cbn [str_le]. by rewrite IH.
Qed.

(** The time of a report as the number YYYYMMDDHHmm. *)
Definition moment_digits (s : stamp) : string := (st_year s +:+ st_month s +:+ st_day s) +:+ st_hhmm s.
Definition moment (s : stamp) : Z := int_of (moment_digits s).
Lemma moment_digits_width s : valid s → width 12 (moment_digits s).
Proof.
  intros ([Hd Ld]&[Hm Lm]&[Hy Ly]&[Ht Lt]&_). unfold width, moment_digits.
  by rewrite !sforall_app, !slength_app, Hd, Hm, Hy, Ht, Ld, Lm, Ly, Lt.
Qed.
Lemma sort_key_chronological s t :
  valid s → valid t →
  str_le (sort_key (meta_of s)) (sort_key (meta_of t)) = true ↔ (moment s ≤ moment t)%Z.
Proof.
  intros Hs Ht. assert (∀ u, sort_key (meta_of u)
    = (st_year u +:+ st_month u +:+ st_day u) +:+ String "-" (st_hhmm u)) as Hk.
  { intros u. unfold meta_of. cbn [sort_key]. by rewrite !sapp_assoc. }
  rewrite !Hk. pose proof (moment_digits_width s Hs) as [Ds Ls].
  pose proof (moment_digits_width t Ht) as [Dt Lt].
  destruct Hs as ([_ E1]&[_ E2]&[_ E3]&_), Ht as ([_ F1]&[_ F2]&[_ F3]&_).
  rewrite str_le_drop_char by (rewrite !slength_app; congruence).
  apply str_le_digits; [done|done|]. unfold moment_digits in *. congruence.
Qed.
Lemma file_le_chronological s t :
  valid s → valid t → file_le (report_name s) (report_name t) = true → (moment s ≤ moment t)%Z.
Proof.
  intros Hs Ht. unfold file_le, by_key, _file_sort_key. rewrite !parse_report_name by done.
  unfold lex. cbn [fst snd]. intros [H _]%andb_true_iff. by apply sort_key_chronological.
Qed.

(** ** The old names *)

Record old_stamp := OldStamp {
  o_year : string; o_month : string; o_day : string;
  o_hour : string; o_minute : string; o_second : string
}.
Definition old_text (o : old_stamp) : string :=
  o_year o +:+ String "-" (o_month o +:+ String "-" (o_day o +:+ String "-"
    (o_hour o +:+ String "_" (o_minute o +:+ String "_" (o_second o))))).
Definition old_stem (o : old_stamp) : string := "junit_interoperability_report" +:+ String "_" (old_text o).
Definition old_name (o : old_stamp) : string := old_stem o +:+ ".xml".
Definition old_valid (o : old_stamp) : Prop :=
  width 4 (o_year o) ∧ width 2 (o_month o) ∧ width 2 (o_day o)
  ∧ width 2 (o_hour o) ∧ width 2 (o_minute o) ∧ width 2 (o_second o).
(** The time as the number YYYYMMDDHHmmss. *)
Definition old_digits (o : old_stamp) : string :=
  o_year o +:+ o_month o +:+ o_day o +:+ o_hour o +:+ o_minute o +:+ o_second o.
Definition old_moment (o : old_stamp) : Z := int_of (old_digits o).

(** The new pattern needs eight digits after a separator. *)
Definition separator (c : ascii) : bool := bool_decide (c ∈ ["-"; "_"]%char).
Fixpoint digits_then (n : nat) (s : string) : bool :=
  match n, s with
  | 0, _ => true
  | S n, String c s => is_digit c && digits_then n s
  | S n, "" => false
  end.
Fixpoint no_new_date (s : string) : bool :=
  match s with
  | "" => true
  | String c s => negb (separator c && digits_then 8 s) && no_new_date s
  end.
Lemma new_miss i c s :
  separator c && digits_then 8 s = false → match_at _NEW_FNAME_RE i (String c s) = None.
Proof.
  intros H. unfold match_at, _NEW_FNAME_RE. set (rest := (RLit "-" ⊙ _)%re). clearbody rest.
  set (k := λ st, Some (mk_match _ _ st)). clearbody k.
  cbn -[is_digit bool_decide]. case_match eqn:E; [|done].
  assert (separator c = true) as Hc by exact E. rewrite Hc in H. clear E Hc.
  do 8 (let d := fresh in destruct s as [|d s]; [reflexivity|];
        cbn -[is_digit] in H |- *; destruct (is_digit d); [|reflexivity]).
  done.
Qed.
Lemma no_new_date_search s i : no_new_date s = true → search_from _NEW_FNAME_RE i s = None.
Proof.
  revert i. induction s as [|c s IH]; intros i; [done|]. cbn [no_new_date search_from].
  intros [H1%negb_true_iff H2]%andb_true_iff. rewrite new_miss by done. auto.
Qed.
Lemma no_new_date_digits w s :
  sforall is_digit w = true → no_new_date (w +:+ s) = no_new_date s.
Proof.
  induction w as [|c w IH]; cbn [sforall]; [done|]. intros [Hc Hw]%andb_true_iff.
  rewrite sapp_cons. cbn [no_new_date]. rewrite IH by done.
  assert (separator c = false) as ->; [|done]. apply bool_decide_eq_false.
  intros H. by set_unfold in H; destruct H as [->|[->|[]]].
Qed.
Lemma digits_then_stop n w c s :
  sforall is_digit w = true → String.length w < n → is_digit c = false →
  digits_then n (w +:+ String c s) = false.
Proof.
  revert w. induction n as [|n IH]; intros [|d w]; cbn [String.length sforall]; try lia; intros Hw Hl Hc.
  - rewrite sapp_nil_l. cbn [digits_then]. by rewrite Hc.
  - rewrite sapp_cons. cbn [digits_then]. apply andb_true_iff in Hw as [-> Hw]. apply IH; [done|lia|done].
Qed.
Lemma digits_then_end n w : String.length w < n → digits_then n w = false.
Proof.
  revert w. induction n as [|n IH]; intros [|d w]; cbn [String.length]; try lia; [done|]. intros Hl.
  cbn [digits_then]. rewrite IH by lia. apply andb_false_r.
Qed.

Lemma old_no_meta o : old_valid o → parse_filename_meta (old_name o) = None.
Proof.
  intros ([Y Ly]&[M Lm]&[D Ld]&[H Lh]&[N Ln]&[S Ls]).
  unfold parse_filename_meta, old_name. rewrite stem_suffix by done.
  unfold re_search, old_stem. rewrite search_head, no_new_date_search; [done|]. unfold old_text.
  repeat first [rewrite no_new_date_digits by done|
    cbn [no_new_date]; rewrite digits_then_stop by (done || lia)|
    cbn [no_new_date]; rewrite digits_then_end by lia]; rewrite ?andb_false_r; cbn [negb andb].
  rewrite <- (sapp_nil_r (o_second o)). by rewrite no_new_date_digits.
Qed.
Lemma old_date_head i b :
  search_from old_date i ("junit_interoperability_report_" +:+ b) = search_from old_date (30 + i) b.
Proof. reflexivity. Qed.
Lemma old_text_length o : old_valid o → String.length (old_text o) = 19.
Proof.
  intros ([_ HY]&[_ HM]&[_ HD]&[_ HH]&[_ HN]&[_ HS]). unfold old_text.
  repeat (rewrite slength_app; cbn [String.length]). by rewrite HY, HM, HD, HH, HN, HS.
Qed.
Lemma old_sort_key o : old_valid o → _file_sort_key (old_name o) = (old_text o, old_name o).
Proof.
  intros Hv. unfold _file_sort_key. rewrite old_no_meta by done. pose proof Hv as (HY&HM&HD&HH&HN&HS).
  unfold old_name at 1. rewrite stem_suffix by done. unfold re_search, old_stem.
  change ("junit_interoperability_report" +:+ String "_" (old_text o))
    with ("junit_interoperability_report_" +:+ old_text o). rewrite old_date_head.
  assert (match_at old_date 30 (old_text o) = Some (RMatch 30 (old_text o) "" [(1, old_text o)])) as Hm.
  { unfold match_at, old_date. set (k := λ st, Some (mk_match 30 (old_text o) st)).
    rewrite <- (sapp_nil_r (old_text o)) at 1. apply rm_group. rewrite sapp_nil_r.
    unfold old_text at 1.
    assert (∀ c s, String c s = String c "" +:+ s) as Hlit by done.
    rewrite (Hlit _ (o_month o +:+ _)), (Hlit _ (o_day o +:+ _)), (Hlit _ (o_hour o +:+ _)),
      (Hlit _ (o_minute o +:+ _)), (Hlit _ (o_second o)), <- (sapp_nil_r (o_second o)).
    repeat (apply rm_seq; first [apply rm_digits; [done|]|apply rm_lit]). apply rm_digits; [done|].
    unfold k, mk_match, set_cap. cbn [st_pos st_rest st_caps String.length].
    pose proof (str_take_length (old_text o)) as E. rewrite old_text_length in E by done.
    match goal with |- context [str_take ?n (old_text o)] => change n with 19 end. by rewrite E. }
  assert (search_from old_date (30 + 0) (old_text o) = Some (RMatch 30 (old_text o) "" [(1, old_text o)])) as ->;
    [|done].
  change (30 + 0) with 30. destruct (old_text o) as [|c s]; cbn [search_from]; by rewrite Hm.
Qed.

(** ** The order of both formats *)

Lemma str_le_prefix a b x y :
  sforall is_digit a = true → sforall is_digit b = true → String.length a = String.length b →
  str_le (a +:+ x) (b +:+ y) = true →
  (dec_value 0 a < dec_value 0 b)%Z ∨ a = b ∧ str_le x y = true.
Proof.
  revert b. induction a as [|c a IH]; intros [|d b]; cbn [sforall String.length]; try done.
  { intros _ _ _. rewrite !sapp_nil_l. by right. }
  intros [Hc Ha]%andb_true_iff [Hd Hb]%andb_true_iff [= Hn]. rewrite !sapp_cons. cbn [str_le dec_value].
  rewrite orb_true_iff, andb_true_iff, N.ltb_lt, N.eqb_eq.
  rewrite (dec_value_acc (0 * 10 + (Z.of_N (code c) - 48))),
    (dec_value_acc (0 * 10 + (Z.of_N (code d) - 48))), Hn.
  pose proof (dec_value_lt a Ha) as H1. pose proof (dec_value_lt b Hb) as H2. rewrite Hn in H1.
  set (w := (10 ^ Z.of_nat (String.length b))%Z) in *. intros [H|[E H]]; [left; nia|].
  destruct (IH b Ha Hb Hn H) as [Hlt|[-> Hxy]]; [left; rewrite E; lia|right].
  split; [|done]. f_equal. rewrite <- (ascii_N_embedding c), <- (ascii_N_embedding d). by f_equal.
Qed.

(** A report of either format. *)
Inductive report := New (s : stamp) | Old (o : old_stamp).
Definition name_of (r : report) : string :=
  match r with New s => report_name s | Old o => old_name o end.
Definition well_named (r : report) : Prop :=
  match r with New s => valid s | Old o => old_valid o end.
(** The order of the names: by the year; in a year the old names before the new ones; and by
    time in each format. *)
Definition not_after (r r' : report) : Prop :=
  match r, r' with
  | New s, New t => moment s ≤ moment t
  | Old o, Old p => old_moment o ≤ old_moment p
  | Old o, New s => int_of (o_year o) ≤ int_of (st_year s)
  | New s, Old o => int_of (st_year s) < int_of (o_year o)
  end%Z.

Lemma old_key_moment o p :
  old_valid o → old_valid p → str_le (old_text o) (old_text p) = true → (old_moment o ≤ old_moment p)%Z.
Proof.
  intros ([Y Ly]&[M Lm]&[D Ld]&[H Lh]&[N Ln]&[S Ls]) ([Y' Ly']&[M' Lm']&[D' Ld']&[H' Lh']&[N' Ln']&[S' Ls']).
  unfold old_text. rewrite str_le_drop_char by congruence.
  repeat (rewrite <- !(sapp_assoc _ _ (String _ _)), str_le_drop_char by (rewrite !slength_app; congruence)).
  rewrite !sapp_assoc. unfold old_moment, int_of, old_digits. apply str_le_digits.
  - by rewrite !sforall_app, Y, M, D, H, N, S.
  - by rewrite !sforall_app, Y', M', D', H', N', S'.
  - rewrite !slength_app. congruence.
Qed.

Lemma file_le_not_after r r' :
  well_named r → well_named r' → file_le (name_of r) (name_of r') = true → not_after r r'.
Proof.
  destruct r as [s|o], r' as [t|p]; cbn [well_named name_of not_after]; intros Hr Hr'.
  - by apply file_le_chronological.
  - unfold file_le, by_key. rewrite old_sort_key by done. unfold _file_sort_key, lex.
    rewrite parse_report_name by done. cbn [fst snd meta_of sort_key]. intros [H _]%andb_true_iff.
    destruct Hr as (_&[M Lm]&[Y Ly]&_), Hr' as ([Y' Ly']&_). unfold old_text in H.
    apply str_le_prefix in H as [H|[_ H]]; [done| |done|done|congruence].
    destruct (st_month s) as [|c m]; [done|]. cbn [sforall] in M. apply andb_true_iff in M as [Hc%digit_code _].
    exfalso. revert H. rewrite sapp_cons. cbn [str_le]. rewrite orb_true_iff, andb_true_iff, N.ltb_lt, N.eqb_eq.
    change (code "-") with 45%N. lia.
  - unfold file_le, by_key. rewrite old_sort_key by done. unfold _file_sort_key, lex.
    rewrite parse_report_name by done. cbn [fst snd meta_of sort_key]. intros [H _]%andb_true_iff.
    destruct Hr' as (_&_&[Y Ly]&_), Hr as ([Y' Ly']&_). unfold old_text in H.
    unfold int_of. apply str_le_prefix in H as [H|[-> H]]; [lia|lia|done|done|congruence].
  - unfold file_le, by_key. rewrite !old_sort_key by done. unfold lex. cbn [fst snd].
    intros [H _]%andb_true_iff. by apply old_key_moment.
Qed.

(** The reports that are asked for; an old name has no run number. *)
Definition of_run (b : option Z) (r : report) : Prop :=
  match b, r with
  | None, _ => True
  | Some n, New s => int_of <$> st_run s = Some n
  | Some _, Old _ => False
  end.
#[export] Instance of_run_dec b r : Decision (of_run b r).
Proof. destruct b, r; unfold of_run; apply _. Defined.

Lemma name_is_report r : is_report (name_of r) = true.
Proof.
  unfold is_report. apply andb_true_iff. destruct r as [s|o]; (split; [reflexivity|]); apply endswith_spec.
  - by exists (report_stem s).
  - by exists (old_stem o).
Qed.
Lemma name_batch r n :
  well_named r → (parse_filename_meta (name_of r) ≫= batch) = Some n ↔ of_run (Some n) r.
Proof.
  destruct r as [s|o]; cbn [well_named name_of]; intros Hr.
  - by rewrite parse_report_name.
  - by rewrite old_no_meta.
Qed.

Lemma choose_all_files_reports reports b :
  Forall well_named reports →
  ∃ l, choose_all_files (name_of <$> reports) b = name_of <$> l
    ∧ l ≡ₚ filter (of_run b) reports
    ∧ StronglySorted not_after l.
Proof.
  intros Hv. unfold choose_all_files.
  assert (filter (λ f, is_report f = true) (name_of <$> reports) = name_of <$> reports) as ->.
  { clear Hv. induction reports as [|s l IH]; [done|]. rewrite fmap_cons, filter_cons.
    by rewrite decide_True, IH by apply name_is_report. }
  assert (∃ l, sort_by file_le (name_of <$> reports) = name_of <$> l ∧ reports ≡ₚ l)
    as (l&El&Pl) by exact (Permutation_map_inv _ _ (sort_by_perm file_le (name_of <$> reports))).
  assert (Forall well_named l) as Hl by by rewrite <- Pl.
  assert (StronglySorted not_after l) as Hord.
  { pose proof (sort_by_ordered file_le (name_of <$> reports)) as Ho. rewrite El in Ho.
    clear El Pl Hv reports. unfold ordered in Ho. induction l as [|s l IH]; [constructor|].
    rewrite fmap_cons in Ho. apply StronglySorted_inv in Ho as [Ho Hs].
    apply Forall_cons in Hl as [Hvs Hl]. constructor; [by apply IH|].
    rewrite Forall_fmap, Forall_forall in Hs. rewrite Forall_forall in *. intros t Ht.
    apply file_le_not_after; [done|by apply Hl|by apply Hs]. }
  rewrite El. exists (filter (of_run b) l). split; [|split].
  - destruct b as [n|].
    + clear El Pl Hord. induction l as [|s l IH]; [done|]. apply Forall_cons in Hl as [Hvs Hl].
      rewrite fmap_cons, !filter_cons, IH by done. pose proof (name_batch s n Hvs).
      destruct (decide (of_run (Some n) s)); [rewrite decide_True by tauto|rewrite decide_False by tauto]; done.
    + f_equal. clear. induction l as [|s l IH]; [done|]. rewrite filter_cons, decide_True by done.
      by rewrite <- IH.
  - by rewrite <- Pl.
  - clear -Hord. induction Hord as [|s l _ IH Hs]; [constructor|]. rewrite filter_cons.
    case_decide; [|done]. constructor; [done|]. rewrite Forall_forall in *.
    intros t [_ Ht]%list_elem_of_filter. by apply Hs.
Qed.

(** C35: The two files that are compared by default, from any directory of reports with names
    of the new and of the old format, for the run asked for (an old name has none): the last
    two in the order of the names, the earlier one first; with fewer than two a ValueError.
    The order is the year, then the old names before the new ones of that year, and the time
    within a format: they are the newest two when the names are of one format or the two
    formats are of different years, but in a year with both an old name never comes after a
    new one, whatever their dates ([old_names_first]). *)
Theorem choose_files_newest reports b (Hv : Forall well_named reports) :
  match choose_files (name_of <$> reports) b with
  | Ok (before, last) =>
      ∃ s t rest, filter (of_run b) reports ≡ₚ t :: s :: rest
        ∧ before = name_of s ∧ last = name_of t ∧ not_after s t
        ∧ Forall (λ u, not_after u s ∧ not_after u t) rest
  | Raise e => e = ValueError ∧ length (filter (of_run b) reports) < 2
  end.
Proof.
  destruct (choose_all_files_reports reports b Hv) as (l&El&Pl&Ho). unfold choose_files.
  rewrite El, <- fmap_reverse. destruct (reverse l) as [|t [|s rest]] eqn:E; cbn [fmap list_fmap].
  - split; [done|]. rewrite <- Pl, <- length_reverse, E. cbn. lia.
  - split; [done|]. rewrite <- Pl, <- length_reverse, E. cbn. lia.
  - assert (l = reverse rest ++ [s; t])%list as ->.
    { by rewrite <- (reverse_involutive l), E, !reverse_cons, <- app_assoc. }
    exists s, t, rest. split.
    { rewrite <- Pl, <- E. symmetry. apply reverse_Permutation. }
    do 2 (split; [done|]). clear -Ho. apply StronglySorted_app in Ho as (Hx&_&Ho).
    inversion Ho as [|? ? _ Hst]; subst. split; [by apply Forall_inv in Hst|].
    rewrite Forall_forall. intros u Hu. split; apply Hx; try by apply elem_of_reverse.
    + left.
    + right. left.
Qed.
Lemma choose_files_newest_witness :
  let reports := [New (Stamp true "01" "02" "2026" "0900" "4" (Some "30") (Some true) (Some "2"));
                  Old (OldStamp "2026" "12" "31" "10" "00" "00");
                  New (Stamp true "31" "12" "2025" "1200" "4" None None (Some "2"));
                  New (Stamp false "05" "02" "2026" "0800" "12" None (Some false) (Some "1"));
                  New (Stamp true "02" "01" "2026" "0000" "8" None None (Some "2"))] in
  Forall well_named reports ∧
  ∃ a b, choose_files (name_of <$> reports) (Some 2%Z) = Ok (a, b)
    ∧ ∃ s t, a = name_of s ∧ b = name_of t ∧ not_after s t.
Proof.
  intros reports. assert (Forall well_named reports) as Hv.
  { repeat (apply Forall_cons; split); [..|apply Forall_nil];
      repeat split; vm_compute; first [reflexivity | discriminate]. }
  split; [exact Hv|]. pose proof (choose_files_newest reports (Some 2%Z) Hv) as H.
  destruct (choose_files (name_of <$> reports) (Some 2%Z)) as [[a b]|e] eqn:E.
  - destruct H as (s&t&_&_&Ha&Hb&Hm&_). exists a, b. split; [reflexivity|].
    exists s, t. split; [exact Ha|]. split; [exact Hb|exact Hm].
  - vm_compute in E. discriminate E.
Defined.
