(* ===== verification/ReportLoader.v ===== *)
(** * Report comparison: loading (benchmarking/junit_compare/models.py, loader.py)

    The results of a JUnit report: the outcome table that [run_test] put in the message
    of a test case, its classification, and the dictionary of the results of a file.
    An XML document is a tree of elements; reading the file is not modelled. *)

From S2P Require Import Prelude PyStr PySort PyDict Regex Utilities RunTest.
From stdpp Require Import options.
Local Open Scope string_scope.

(** ** Data (models.py) *)

Inductive RichStatus :=
| PASSED
| PASSED_AS_SKIPPED
| SKIPPED_UNSUPPORTED
| SKIPPED_OTHER
| FAILURE_QOS_UNEXPECTED
| FAILURE_FALSE_PASS
| FAILURE_DATA
| FAILURE_ORDERING
| FAILURE_INFRASTRUCTURE
| FAILURE_OTHER
| ERROR.
#[export] Instance RichStatus_eq_dec : EqDecision RichStatus.
Proof. solve_decision. Defined.

(** [rs.value] *)
Definition status_value (rs : RichStatus) : string :=
  match rs with
  | PASSED => "passed"
  | PASSED_AS_SKIPPED => "passed_as_skipped"
  | SKIPPED_UNSUPPORTED => "skipped_unsupported"
  | SKIPPED_OTHER => "skipped_other"
  | FAILURE_QOS_UNEXPECTED => "failure_qos_unexpected"
  | FAILURE_FALSE_PASS => "failure_false_pass"
  | FAILURE_DATA => "failure_data"
  | FAILURE_ORDERING => "failure_ordering"
  | FAILURE_INFRASTRUCTURE => "failure_infrastructure"
  | FAILURE_OTHER => "failure_other"
  | ERROR => "error"
  end.

Definition _UNSUPPORTED_CODES : list string := ["SUB_UNSUPPORTED_FEATURE"; "PUB_UNSUPPORTED_FEATURE"].
Definition _DATA_CODES : list string := ["DATA_NOT_CORRECT"; "DATA_NOT_RECEIVED"; "DATA_NOT_SENT"].
Definition _ORDERING_CODES : list string :=
  ["ORDERED_ACCESS_INSTANCE"; "ORDERED_ACCESS_TOPIC";
   "RECEIVING_FROM_ONE"; "RECEIVING_FROM_BOTH"; "DEADLINE_MISSED"].
Definition _INFRA_CODES : list string :=
  ["READER_NOT_CREATED"; "WRITER_NOT_CREATED"; "TOPIC_NOT_CREATED"; "READER_NOT_MATCHED"].

(** (role, expected code, produced code) *)
Definition OutcomeRow : Type := string * string * string.

Definition attributes : Type := list (string * string).
Definition test_key : Type := string * string * attributes.
#[export] Instance attributes_eq_dec : EqDecision attributes.
Proof. unfold attributes. apply _. Defined.
#[export] Instance test_key_eq_dec : EqDecision test_key.
Proof. unfold test_key. apply _. Defined.

Record TestResult := MkResult {
  suite : string;
  name : string;
  attrs : attributes;
  status : string;
  rich_status : RichStatus;
  detail : string;
  time : string;
  outcome_rows : list OutcomeRow
}.
Definition key (r : TestResult) : test_key := (suite r, name r, attrs r).

Definition key_label (k : test_key) : string :=
  let '(suite, name, attributes) := k in
  let config := join ", " ((λ p : string * string, p.1 +:+ "=" +:+ p.2) <$> attributes) in
  suite +:+ " / " +:+ name +:+ (if decide (config = "") then "" else " [" +:+ config +:+ "]").
Definition test_label (r : TestResult) : string := key_label (key r).

(** ** The outcome table (loader.py) *)

Definition cell_re (n : nat) : regex := (RLit "<th>" ⊙ RGroup n (RPlus (cnot (cis "<"))) ⊙ RLit "</th>")%re.
Definition row_re : regex :=
  (cell_re 1 ⊙ RStar true cspace ⊙ cell_re 2 ⊙ RStar true cspace ⊙ cell_re 3)%re.

Definition row_of (m : rmatch_result) : option OutcomeRow :=
  let role := strip (default "" (group 1 m)) in
  if decide (role ∈ [""; "Expected Code"]) then None
  else Some (role, strip (default "" (group 2 m)), strip (default "" (group 3 m))).
Definition parse_outcome_rows (message : string) : list OutcomeRow :=
  omap row_of (re_finditer row_re message).

(** [Counter(l)], and its most common key: the first of those with the largest count. *)
Definition count_key {K} `{EqDecision K} (d : dict K nat) (k : K) : dict K nat :=
  dset k (S (default 0 (dget k d))) d.
Definition counter (l : list string) : dict string nat := foldl count_key [] l.
Fixpoint max_first (d : dict string nat) : option (string * nat) :=
  match d with
  | [] => None
  | p :: d' =>
      match max_first d' with
      | Some q => if Nat.ltb p.2 q.2 then Some q else Some p
      | None => Some p
      end
  end.
Definition most_common (l : list string) : option string := fst <$> max_first (counter l).

Definition classify_dominant (dominant : string) : RichStatus :=
  if decide (dominant = "INCOMPATIBLE_QOS") then FAILURE_QOS_UNEXPECTED
  else if decide (dominant = "OK") then FAILURE_FALSE_PASS
  else if decide (dominant ∈ _DATA_CODES) then FAILURE_DATA
  else if decide (dominant ∈ _ORDERING_CODES) then FAILURE_ORDERING
  else if decide (dominant ∈ _INFRA_CODES) then FAILURE_INFRASTRUCTURE
  else FAILURE_OTHER.

Definition expected_of (r : OutcomeRow) : string := r.1.2.
Definition produced_of (r : OutcomeRow) : string := r.2.
Definition mismatches (rows : list OutcomeRow) : list string :=
  produced_of <$> filter (λ r, expected_of r ≠ produced_of r) rows.
Definition has_unsupported (rows : list OutcomeRow) : bool :=
  existsb (λ r, bool_decide (produced_of r ∈ _UNSUPPORTED_CODES)) rows.

Definition classify_outcome (xml_tag : string) (rows : list OutcomeRow) : RichStatus :=
  if decide (xml_tag = "passed") then PASSED
  else if decide (xml_tag = "error") then ERROR
  else if decide (xml_tag = "skipped") then
    if has_unsupported rows then SKIPPED_UNSUPPORTED
    else if forallb (λ r, bool_decide (expected_of r = produced_of r)) rows then PASSED_AS_SKIPPED
    else SKIPPED_OTHER
  else if has_unsupported rows then SKIPPED_UNSUPPORTED
  else match most_common (mismatches rows) with
       | None => FAILURE_OTHER
       | Some dominant => classify_dominant dominant
       end.

(** ** The file *)

(** An element of an XML document: [text] and [tail] are "" where ElementTree has
    [None]. *)
#[warnings="-register-all"]
Inductive element :=
| Element (tag : string) (attrib : dict string string) (text tail : string) (children : list element).

Definition e_tag (e : element) : string := let 'Element t _ _ _ _ := e in t.
Definition e_attrib (e : element) : dict string string := let 'Element _ a _ _ _ := e in a.
Definition e_children (e : element) : list element := let 'Element _ _ _ _ c := e in c.
Definition get (e : element) (k default : string) : string :=
  match dget k (e_attrib e) with Some v => v | None => default end.
(** [e.findall(tag)] and [e.find(tag)]: children; [e.findall(".//" + tag)]: descendants. *)
Definition findall (t : string) (e : element) : list element :=
  filter (λ c, e_tag c = t) (e_children e).
Definition find (t : string) (e : element) : option element := head (findall t e).
Fixpoint self_and_below (t : string) (e : element) : list element :=
  let 'Element tag _ _ _ cs := e in
  ((if bool_decide (tag = t) then [e] else []) ++ flat_map (self_and_below t) cs)%list.
Definition descendants (t : string) (e : element) : list element :=
  flat_map (self_and_below t) (e_children e).
(** ["".join(e.itertext())] *)
Fixpoint itertext (e : element) : string :=
  let 'Element _ _ text _ cs := e in
  text +:+ join "" (map (λ c, itertext c +:+ (let 'Element _ _ _ tail _ := c in tail)) cs).

Definition _node_detail (node : element) : string :=
  let text := strip (itertext node) in
  let message := strip (get node "message" "") in
  if decide (message = "") then text
  else if decide (text = "") then message
  else strip (message +:+ newline +:+ text).

Definition pair_le : string * string → string * string → bool := lex str_le str_le.
Definition attributes_of (case : element) : attributes :=
  sort_by pair_le (filter (λ p : string * string, p.1 ∉ ["name"; "time"]) (e_attrib case)).

Definition result_of (suite_name : string) (case : element) : TestResult :=
  let '(xml_tag, detail, rows) :=
    match find "failure" case, find "error" case, find "skipped" case with
    | Some failure, _, _ =>
        ("failure", _node_detail failure, parse_outcome_rows (get failure "message" ""))
    | None, Some error, _ => ("error", _node_detail error, [])
    | None, None, Some skipped =>
        ("skipped", _node_detail skipped, parse_outcome_rows (get skipped "message" ""))
    | None, None, None => ("passed", "", [])
    end in
  MkResult suite_name (get case "name" "") (attributes_of case) xml_tag
    (classify_outcome xml_tag rows) detail (get case "time" "") rows.

Definition cases_of (root : element) : list (string * element) :=
  s ← descendants "testsuite" root; c ← findall "testcase" s; [(get s "name" "", c)].

Definition results : Type := dict test_key TestResult.
Definition add_result (rs : results) (sc : string * element) : result results :=
  let r := result_of sc.1 sc.2 in
  if din (key r) rs then Raise ValueError else Ok (dset (key r) r rs).
Definition load_results (root : element) : result (dict string string * results) :=
  rs ← mfold add_result [] (cases_of root); Ok (e_attrib root, rs).

(** ** Reading a table back *)

Section finditer.
Context (r : regex).

Lemma finditer_miss i c s :
  match_at r i (String c s) = None →
  finditer_go r 0 i (String c s) = finditer_go r 0 (S i) s.
Proof. intros H. cbn [finditer_go]. by rewrite H. Qed.
Lemma finditer_skip k i a b :
  String.length a = k → finditer_go r k i (a +:+ b) = finditer_go r 0 (i + k) b.
Proof.
  intros <-. revert i. induction a as [|c a IH]; intros i.
  - rewrite sapp_nil_l, Nat.add_0_r. done.
  - rewrite sapp_cons. cbn [finditer_go String.length]. rewrite IH. f_equal. lia.
Qed.
Lemma finditer_hit i w rest caps :
  match_at r i (w +:+ rest) = Some (RMatch i w rest caps) → w ≠ "" →
  finditer_go r 0 i (w +:+ rest)
  = RMatch i w rest caps :: finditer_go r 0 (i + String.length w) rest.
Proof.
  intros Hm Hw. destruct w as [|c w]; [done|]. rewrite sapp_cons in *.
  cbn [finditer_go]. rewrite Hm. f_equal. cbn [m_text String.length].
  rewrite Nat.sub_succ, Nat.sub_0_r. rewrite finditer_skip by done. f_equal. lia.
Qed.
(** A text through which nothing matches. *)
Lemma finditer_misses i a b :
  (∀ l m j, a = l +:+ m → m ≠ "" → match_at r j (m +:+ b) = None) →
  finditer_go r 0 i (a +:+ b) = finditer_go r 0 (i + String.length a) b.
Proof.
  revert i. induction a as [|c a IH]; intros i Hno.
  - by rewrite sapp_nil_l, Nat.add_0_r.
  - rewrite sapp_cons. rewrite finditer_miss.
    2:{ apply (Hno "" (String c a)); [done|done]. }
    rewrite IH; [f_equal; simpl; lia|]. intros l m j -> Hm. by apply (Hno (String c l) m).
Qed.
End finditer.

Definition cell (x : string) : string := "<th>" +:+ x +:+ "</th>".
Definition no_lt (x : string) : Prop := sforall (cnot (cis "<")) x = true.

Lemma rm_cell {A} n x rest i caps (k : rstate → option A) a :
  no_lt x → x ≠ "" →
  k (RState (i + String.length (cell x)) rest ((n, x) :: caps)) = Some a →
  rmatch (cell_re n) (RState i (cell x +:+ rest) caps) k = Some a.
Proof.
  intros Hx Hne Hk. unfold cell_re, cell in *. rewrite !sapp_assoc.
  apply rm_seq, rm_lit, rm_seq, rm_group, rm_plus; [done|done|done|].
  rewrite set_cap_word. apply rm_lit. rewrite !slength_app in Hk. cbn [String.length] in *.
  rewrite <- Hk. do 2 f_equal. lia.
Qed.

Definition cells (x y z : string) : string := cell x +:+ " " +:+ cell y +:+ " " +:+ cell z.
Lemma match_cells i x y z rest :
  no_lt x → no_lt y → no_lt z → x ≠ "" → y ≠ "" → z ≠ "" →
  match_at row_re i (cells x y z +:+ rest)
  = Some (RMatch i (cells x y z) rest [(3, z); (2, y); (1, x)]).
Proof.
  intros Hx Hy Hz Hx' Hy' Hz'. unfold match_at, row_re.
  assert (cells x y z +:+ rest
          = cell x +:+ " " +:+ cell y +:+ " " +:+ cell z +:+ rest) as E
    by (unfold cells; by rewrite !sapp_assoc).
  rewrite E. apply rm_seq, rm_cell; [done..|]. apply rm_seq, rm_star; [done|done|].
  apply rm_seq, rm_cell; [done..|]. apply rm_seq, rm_star; [done|done|].
  apply rm_cell; [done..|]. rewrite <- E. unfold mk_match. cbn [st_pos st_rest st_caps].
  do 2 f_equal.
  match goal with |- str_take ?n _ = _ => assert (n = String.length (cells x y z)) as -> end.
  { unfold cells. rewrite !slength_app. cbn [String.length]. lia. }
  apply str_take_app.
Qed.

Lemma row_re_prefix i s : String.prefix "<th>" s = false → match_at row_re i s = None.
Proof.
  intros Hp. destruct (match_at row_re i s) as [m|] eqn:E; [|done]. exfalso.
  apply match_at_sound in E as (w&rest&cs&->&A&_). unfold row_re, cell_re in A.
  apply accepts_seq in A as (w1&w2&cs1&cs2&->&->&A1&_).
  apply accepts_seq in A1 as (w3&w4&cs3&cs4&->&->&[-> ->]%accepts_lit&_).
  rewrite !sapp_assoc, prefix_app in Hp. done.
Qed.

(** The parts of a message with no row. *)
Lemma finditer_none i s : contains "<th>" s = false → finditer_go row_re 0 i s = [].
Proof.
  revert i. induction s as [|c s IH]; intros i; [done|]. cbn [contains].
  rewrite orb_false_iff. intros [Hp Hs]. rewrite finditer_miss by by apply row_re_prefix. auto.
Qed.
Lemma finditer_head i b :
  finditer_go row_re 0 i (table_head +:+ b)
  = finditer_go row_re 0 (i + String.length table_head) b.
Proof. rewrite Nat.add_comm. vm_compute. reflexivity. Qed.
Lemma finditer_tr i b :
  finditer_go row_re 0 i ("<tr> " +:+ b) = finditer_go row_re 0 (i + 5) b.
Proof. rewrite Nat.add_comm. vm_compute. reflexivity. Qed.
Lemma finditer_end_tr i b :
  finditer_go row_re 0 i (" </tr>" +:+ b) = finditer_go row_re 0 (i + 6) b.
Proof. rewrite Nat.add_comm. vm_compute. reflexivity. Qed.

(** Words: the names of entities and of codes. *)
Definition neat (t : string) : Prop := sforall is_word t = true ∧ t ≠ "".
Definition padded (t : string) : string := " " +:+ t +:+ " ".

Lemma neat_all t (p : ascii → bool) :
  (∀ c, is_word c = true → p c = true) → neat t → sforall p t = true.
Proof. intros Hp [Ht _]. by apply (sforall_impl is_word). Qed.

Lemma rstrip_snoc s : rstrip (s +:+ " ") = rstrip s.
Proof. induction s as [|c s IH]; [done|]. rewrite sapp_cons. cbn [rstrip]. by rewrite IH. Qed.
Lemma strip_padded t : neat t → strip (padded t) = t.
Proof.
  intros Ht. assert (sforall (λ c, negb (is_space c)) t = true) as Hns.
  { apply neat_all; [|done]. intros c Hc. by rewrite word_not_space. }
  unfold strip, padded. rewrite <- sapp_assoc, rstrip_snoc.
  assert (rstrip (" " +:+ t) = " " +:+ t) as ->.
  { change (" " +:+ t) with (String " " t). cbn [rstrip]. rewrite rstrip_id by done.
    destruct Ht as [_ Hne]. by destruct t. }
  change (lstrip (" " +:+ t)) with (lstrip t). by apply lstrip_id.
Qed.
Lemma padded_no_lt t : neat t → no_lt (padded t).
Proof.
  intros Ht. unfold no_lt, padded. rewrite !sforall_app.
  rewrite (neat_all t (cnot (cis "<"))); [done| |done].
  intros c Hc. unfold cnot, cis. apply negb_true_iff, bool_decide_eq_false. by intros <-.
Qed.
Lemma padded_nonempty t : padded t ≠ "".
Proof. done. Qed.

Lemma code_name_neat c : neat (code_name c).
Proof. by destruct c. Qed.

Definition row_text (t e p : string) : string :=
  "<tr> " +:+ cells (padded t) (padded e) (padded p) +:+ " </tr>".
Lemma table_row_text o c :
  o_code o = Code c → table_row o = Ok (row_text (o_type o) (code_name (o_expected o)) (code_name c)).
Proof.
  intros E. unfold table_row. rewrite E. cbn [cell_name mbind result_bind]. f_equal.
  unfold row_text, cells, cell, padded. rewrite !sapp_assoc. reflexivity.
Qed.

(** A row gives its three words, and the rest of the text goes on. *)
Lemma parse_row i t e p b :
  neat t → neat e → neat p →
  ∃ m j, finditer_go row_re 0 i (row_text t e p +:+ b) = m :: finditer_go row_re 0 j b
         ∧ row_of m = Some (t, e, p).
Proof.
  intros Ht He Hp. unfold row_text. rewrite !sapp_assoc, finditer_tr.
  erewrite finditer_hit;
    [|apply match_cells; auto using padded_no_lt, padded_nonempty|done].
  rewrite finditer_end_tr. do 2 eexists. split; [reflexivity|].
  unfold row_of, group. cbn [m_caps cap_lookup Nat.eqb from_option id].
  rewrite !strip_padded by done.
  rewrite decide_False; [done|]. rewrite !elem_of_cons, elem_of_nil.
  destruct Ht as [Hw Hne]. by intros [->|[->|[]]].
Qed.

Lemma join_cons_empty x l : join "" (x :: l) = x +:+ join "" l.
Proof. destruct l; cbn [join]; [by rewrite sapp_nil_r|by rewrite sapp_nil_l]. Qed.

Definition row_triple (r : OutcomeRow) : string := row_text r.1.1 (expected_of r) (produced_of r).
Definition neat_row (r : OutcomeRow) : Prop :=
  neat r.1.1 ∧ neat (expected_of r) ∧ neat (produced_of r).
Lemma parse_rows rows i b :
  Forall neat_row rows → contains "<th>" b = false →
  omap row_of (finditer_go row_re 0 i (join "" (row_triple <$> rows) +:+ b)) = rows.
Proof.
  intros Hrows Hb. revert i. induction Hrows as [|[[t e] p] rows (Ht&He&Hp) _ IH]; intros i.
  - rewrite sapp_nil_l, finditer_none; done.
  - rewrite fmap_cons, join_cons_empty, sapp_assoc.
    destruct (parse_row i t e p (join "" (row_triple <$> rows) +:+ b)) as (m&j&E&Hm); [done..|].
    unfold row_triple at 1. cbn [fst snd expected_of produced_of].
    change (expected_of (t, e, p)) with e. change (produced_of (t, e, p)) with p.
    rewrite E. cbn [omap list_omap]. rewrite Hm. f_equal. apply IH.
Qed.

(** *** The rest of the message *)

Lemma no_lt_contains s : no_lt s → contains "<th>" s = false.
Proof.
  unfold no_lt. induction s as [|c s IH]; [done|]. cbn [sforall contains].
  rewrite andb_true_iff. intros [Hc Hs]. rewrite IH by done. rewrite orb_false_r.
  unfold String.prefix. destruct (ascii_dec "<" c) as [<-|]; [|done]. done.
Qed.

Definition info (o : observed) : string :=
  "<strong> Information " +:+ o_type o +:+ " </strong><br> " +:+ edited (o_output o) +:+ " <br>".
(** The output shows no table header. *)
Definition quiet (o : observed) : Prop := contains "<th>" (edited (o_output o)) = false.

Lemma infos_quiet pre os :
  contains "<th>" (pre +:+ "<strong>") = false → contains "<th>" pre = false →
  Forall (λ o, neat (o_type o) ∧ quiet o) os →
  contains "<th>" (pre +:+ join "" (info <$> os)) = false.
Proof.
  intros Hpre Hpre' Hos. revert pre Hpre Hpre'.
  induction Hos as [|o os [Ht Hq] _ IH]; intros pre Hpre Hpre'.
  - cbn. by rewrite sapp_nil_r.
  - rewrite fmap_cons, join_cons_empty.
    assert (pre +:+ info o +:+ join "" (info <$> os)
      = (pre +:+ "<strong>") +:+ String " " ("Information" +:+ String " " (o_type o +:+ String " "
          ("</strong><br>" +:+ String " " (edited (o_output o) +:+ String " "
             ("<br>" +:+ join "" (info <$> os))))))) as ->.
    { unfold info. rewrite !sapp_assoc. reflexivity. }
    rewrite !(contains_sep _ _ " "%char), Hpre by done. rewrite (no_lt_contains (o_type o)).
    2:{ apply neat_all; [|done]. intros c Hc. unfold cnot, cis.
        apply negb_true_iff, bool_decide_eq_false. by intros <-. }
    rewrite Hq, IH by done. done.
Qed.

(** *** Colours *)

Definition escape : ascii := "027"%char.
Lemma re_sub_id s : lacks escape s → re_sub ansi_escape "" s = s.
Proof.
  unfold lacks, re_sub. induction s as [|c s IH]; [done|]. cbn [sforall sub_go].
  rewrite andb_true_iff, bool_decide_eq_true. intros [Hc Hs].
  destruct (match_at ansi_escape 0 (String c s)) as [m|] eqn:E; [|by rewrite IH].
  exfalso. apply match_at_sound in E as (w&rest&cs&Es&A&_). unfold ansi_escape in A.
  apply accepts_seq in A as (w1&w2&cs1&cs2&->&->&(d&->&Hd&->)&_).
  rewrite !sapp_cons in Es. injection Es as -> _. unfold cis in Hd.
  by rewrite bool_decide_eq_true in Hd.
Qed.
Lemma sforall_replace p d new s :
  sforall p new = true → sforall p s = true → sforall p (replace (String d "") new s) = true.
Proof.
  intros Hnew. induction s as [|c s IH]; [done|]. cbn [sforall].
  rewrite andb_true_iff. intros [Hc Hs]. rewrite replace_char_cons, sforall_app, IH by done.
  rewrite andb_true_r. destruct (decide (d = c)); [done|]. cbn. by rewrite Hc.
Qed.
Lemma lacks_app d a b : lacks d a → lacks d b → lacks d (a +:+ b).
Proof. unfold lacks. rewrite sforall_app. by intros -> ->. Qed.
Lemma lacks_join d l : Forall (lacks d) l → lacks d (join "" l).
Proof.
  induction 1 as [|x l Hx _ IH]; [done|]. rewrite join_cons_empty. by apply lacks_app.
Qed.
Lemma neat_lacks t : neat t → lacks escape t.
Proof.
  apply neat_all. intros c Hc. apply bool_decide_eq_true_2. by intros <-.
Qed.

(** *** A whole message *)

(** An output without colours and without a table header. *)
Definition plain (output : string) : Prop :=
  lacks escape output ∧ contains "<th>" (edited output) = false.

Definition obs_row (o : observed) : OutcomeRow :=
  (o_type o, code_name (o_expected o), match o_code o with Code c => code_name c | Unset _ => "" end).

Lemma table_rows os :
  all_written os → for_each table_row os = Ok (row_triple <$> (obs_row <$> os)).
Proof.
  induction 1 as [|o os [c Hc] _ IH]; [done|].
  rewrite for_each_cons, (table_row_text o c), IH by done. cbn. do 2 f_equal.
  unfold row_triple, obs_row. rewrite Hc. done.
Qed.

Lemma obs_row_neat o : neat (o_type o) → (∃ c, o_code o = Code c) → neat_row (obs_row o).
Proof.
  intros Ht [c Hc]. unfold neat_row, obs_row, expected_of, produced_of. cbn [fst snd].
  rewrite Hc. split_and!; [done|apply code_name_neat..].
Qed.
Lemma row_text_lacks t e p : neat t → neat e → neat p → lacks escape (row_text t e p).
Proof.
  intros Ht%neat_lacks He%neat_lacks Hp%neat_lacks. unfold row_text, cells, cell, padded.
  repeat (apply lacks_app || done).
Qed.

(** A message without colours is the table and what the applications printed. *)
Lemma message_text os :
  all_written os → Forall (λ o, neat (o_type o) ∧ lacks escape (o_output o)) os →
  message os = Ok (table_head +:+ join "" (row_triple <$> (obs_row <$> os)) +:+ "</table>" +:+
                   join "" (info <$> os)).
Proof.
  intros Hw Hos. unfold message. rewrite table_rows by done. cbn [mbind result_bind]. f_equal.
  unfold remove_ansi_colors. apply re_sub_id. repeat apply lacks_app; try done; apply lacks_join.
  - apply Forall_fmap, Forall_fmap, Forall_forall. intros o Ho. rewrite Forall_forall in Hos.
    destruct (obs_row_neat o) as (?&?&?); [by apply Hos|by apply (written_code os)|]. by apply row_text_lacks.
  - apply Forall_fmap. eapply Forall_impl; [exact Hos|].
    intros o [Ht%neat_lacks Ho]. repeat apply lacks_app; try done.
    unfold edited. apply sforall_replace; [done|]. by apply sforall_replace.
Qed.

(** The table of a message gives back the rows it was made of. *)
Lemma message_read_back os msg :
  all_written os → Forall (λ o, neat (o_type o) ∧ plain (o_output o)) os → message os = Ok msg →
  parse_outcome_rows msg = obs_row <$> os.
Proof.
  intros Hw Hos. rewrite message_text; [|done|].
  2: { eapply Forall_impl; [exact Hos|]. intros o [? [? _]]. done. }
  intros [= <-].
  assert (Forall neat_row (obs_row <$> os)) as Hneat.
  { apply Forall_fmap, Forall_forall. intros o Ho. rewrite Forall_forall in Hos.
    apply obs_row_neat; [by apply Hos|]. by apply (written_code os). }
  assert (contains "<th>" ("</table>" +:+ join "" (info <$> os)) = false) as Hq.
  { apply (infos_quiet "</table>"); [done|done|]. eapply Forall_impl; [exact Hos|]. intros o [? [_ ?]]. done. }
  unfold parse_outcome_rows, re_finditer. rewrite finditer_head. by apply parse_rows.
Qed.

(** ** The most common mismatch *)

Definition occurrences {A} `{EqDecision A} (x : A) (l : list A) : nat := length (filter (x =.) l).
Lemma occurrences_snoc {A} `{EqDecision A} (x y : A) l :
  occurrences x (l ++ [y]) = occurrences x l + (if decide (x = y) then 1 else 0).
Proof.
  unfold occurrences. rewrite filter_app, length_app. f_equal. cbn. by destruct (decide (x = y)).
Qed.
Lemma occurrences_pos {A} `{EqDecision A} (x : A) l : x ∈ l → 0 < occurrences x l.
Proof.
  intros Hx. unfold occurrences. destruct (filter (x =.) l) eqn:E; [|simpl; lia].
  exfalso. apply (not_elem_of_nil x). rewrite <- E. by apply list_elem_of_filter.
Qed.
Lemma occurrences_fmap {A B} `{EqDecision A, EqDecision B} (f : A → B) `{!Inj (=) (=) f} x l :
  occurrences (f x) (f <$> l) = occurrences x l.
Proof.
  induction l as [|y l IH]; [done|]. unfold occurrences in *. rewrite fmap_cons, !filter_cons.
  repeat case_decide; simplify_eq; cbn [length]; congruence.
Qed.

Lemma counter_snoc l x : counter (l ++ [x]) = count_key (counter l) x.
Proof. unfold counter. by rewrite foldl_app. Qed.
Lemma counter_spec l k :
  dget k (counter l) = (if decide (k ∈ l) then Some (occurrences k l) else None) ∧ wf (counter l).
Proof.
  induction l as [|x l [IH Hwf]] using rev_ind.
  - split; [|apply wf_nil]. rewrite decide_False by apply not_elem_of_nil. done.
  - rewrite counter_snoc. split; [|by apply wf_dset]. unfold count_key.
    rewrite occurrences_snoc. destruct (decide (k = x)) as [->|Hne].
    + rewrite dget_dset_eq, decide_True by set_solver. f_equal. rewrite IH.
      destruct (decide (x ∈ l)) as [|Hx]; cbn; [lia|].
      unfold occurrences. destruct (filter (x =.) l) as [|y k] eqn:E; [done|].
      exfalso. assert (y ∈ filter (x =.) l) as Hy by (rewrite E; left).
      apply list_elem_of_filter in Hy as [-> ?]. done.
    + rewrite dget_dset_ne, IH, Nat.add_0_r by done.
      destruct (decide (k ∈ l)); [rewrite decide_True by set_solver; done|].
      rewrite decide_False; [done|]. set_solver.
Qed.
Lemma max_first_spec d :
  match max_first d with
  | None => d = []
  | Some p => p ∈ d ∧ ∀ q, q ∈ d → q.2 <= p.2
  end.
Proof.
  induction d as [|p d IH]; [done|]. cbn [max_first]. destruct (max_first d) as [q|].
  - destruct IH as [Hq Hmax]. destruct (Nat.ltb_spec p.2 q.2).
    + split; [by right|]. intros x [->|Hx]%elem_of_cons; [lia|auto].
    + split; [by left|]. intros x [->|Hx]%elem_of_cons; [done|]. specialize (Hmax x Hx). lia.
  - subst. split; [by left|]. intros x [->|[]%not_elem_of_nil]%elem_of_cons. done.
Qed.

(** The most common element occurs, and none occurs more often. *)
Lemma most_common_spec (l : list string) :
  l ≠ [] → ∃ d, most_common l = Some d ∧ d ∈ l ∧ ∀ x, occurrences x l <= occurrences d l.
Proof.
  intros Hl. unfold most_common. pose proof (max_first_spec (counter l)) as Hm.
  assert (∀ k n, (k, n) ∈ counter l ↔ k ∈ l ∧ n = occurrences k l) as Hin.
  { intros k n. destruct (counter_spec l k) as [Hg Hwf]. split.
    - intros H%in_dget; [|done]. rewrite Hg in H. destruct (decide (k ∈ l)); [|done].
      by injection H as <-.
    - intros [Hk ->]. apply dget_Some_in. by rewrite Hg, decide_True. }
  destruct (max_first (counter l)) as [[d n]|].
  - destruct Hm as [Hd Hmax]. apply Hin in Hd as [Hd ->]. exists d. split; [done|].
    split; [done|]. intros x. destruct (decide (x ∈ l)) as [Hx|Hx].
    + by apply (Hmax (x, occurrences x l)), Hin.
    + unfold occurrences at 1. destruct (filter (x =.) l) as [|y k] eqn:E; [simpl; lia|].
      assert (y ∈ filter (x =.) l) as Hy by (rewrite E; left).
      apply list_elem_of_filter in Hy as [<- ?]. done.
  - exfalso. destruct l as [|x l]; [done|]. apply (not_elem_of_nil (x, occurrences x (x :: l))).
    rewrite <- Hm. apply Hin. split; [left|done].
Qed.

(** ** From the codes of a test to the loaded result *)

(** What the XML library writes into a test case, and reads back. *)
Definition written (r : test_result) : list element :=
  match r with
  | Passed => []
  | Skipped m => [Element "skipped" [("message", m)] "" "" []]
  | Failure m => [Element "failure" [("message", m)] "" "" []]
  end.
Definition loaded (suite_name : string) (attrib : dict string string) (r : test_result) : TestResult :=
  result_of suite_name (Element "testcase" attrib "" "" (written r)).

Lemma loaded_skipped suite_name attrib m :
  let res := loaded suite_name attrib (Skipped m) in
  status res = "skipped" ∧ outcome_rows res = parse_outcome_rows m
  ∧ rich_status res = classify_outcome "skipped" (parse_outcome_rows m).
Proof. done. Qed.
Lemma loaded_failure suite_name attrib m :
  let res := loaded suite_name attrib (Failure m) in
  status res = "failure" ∧ outcome_rows res = parse_outcome_rows m
  ∧ rich_status res = classify_outcome "failure" (parse_outcome_rows m).
Proof. done. Qed.

(** The table: for each entity the expected and the produced code. *)
Definition rows_of (types : list string) (expected codes : list ReturnCode) : list OutcomeRow :=
  zip_with (λ t ec, (t, code_name ec.1, code_name ec.2)) types (zip expected codes).
(** The produced codes that were not expected. *)
Definition wrong_codes (expected codes : list ReturnCode) : list ReturnCode :=
  (filter (λ ec : ReturnCode * ReturnCode, ec.1 ≠ ec.2) (zip expected codes)).*2.

(** The kind of failure that a produced code stands for. *)
Definition kind_of_code (c : ReturnCode) : RichStatus :=
  match c with
  | INCOMPATIBLE_QOS => FAILURE_QOS_UNEXPECTED
  | OK => FAILURE_FALSE_PASS
  | DATA_NOT_CORRECT | DATA_NOT_RECEIVED | DATA_NOT_SENT => FAILURE_DATA
  | ORDERED_ACCESS_INSTANCE | ORDERED_ACCESS_TOPIC | RECEIVING_FROM_ONE | RECEIVING_FROM_BOTH
  | DEADLINE_MISSED => FAILURE_ORDERING
  | READER_NOT_CREATED | WRITER_NOT_CREATED | TOPIC_NOT_CREATED | READER_NOT_MATCHED =>
      FAILURE_INFRASTRUCTURE
  | FILTER_NOT_CREATED | PUB_UNSUPPORTED_FEATURE | SUB_UNSUPPORTED_FEATURE => FAILURE_OTHER
  end.
Lemma classify_code c : classify_dominant (code_name c) = kind_of_code c.
Proof. by destruct c. Qed.

Lemma str_of_nat_words n : sforall is_word (str_of_nat n) = true.
Proof.
  apply (sforall_impl is_digit); [intros; by apply digit_is_word|].
  destruct (pretty_N_digits (N.of_nat n)) as [H _]. exact H.
Qed.
Lemma entity_types_neat p s parameters types :
  entity_types p s parameters = Ok types → Forall neat types.
Proof.
  revert p s types. induction parameters as [|e l IH]; intros p s types; cbn; [by intros [= <-]|].
  destruct (classify e) as [[]|]; [| |done]; cbn; rewrite bind_Ok;
    intros (names & Hn & E); apply Ok_inj in E as <-; (constructor; [|by eapply IH]);
    (split; [by rewrite sforall_app, str_of_nat_words|done]).
Qed.
Lemma observe_rows types expected codes outputs os :
  observe types expected (Code <$> codes) outputs = Ok os →
  length expected = length types → length codes = length types → length outputs = length types →
  obs_row <$> os = rows_of types expected codes ∧ o_output <$> os = outputs
  ∧ o_type <$> os = types ∧ all_written os
  ∧ o_code <$> os = Code <$> codes ∧ o_expected <$> os = expected.
Proof.
  revert expected codes outputs os.
  induction types as [|t types IH]; intros [|e expected] [|c codes] [|out outputs] os; cbn; try lia.
  - intros [= <-] _ _ _. split_and!; done || constructor.
  - rewrite bind_Ok. intros (os' & Hos & [= <-]) ? ? ?.
    destruct (IH expected codes outputs os' Hos) as (E1&E2&E3&E4&E5&E6); [lia..|]. cbn.
    unfold rows_of in *. rewrite E1, E2, E3, E5, E6. split_and!; try done.
    constructor; [by exists c|done].
Qed.
Lemma entity_types_length p s parameters types :
  entity_types p s parameters = Ok types → length types = length parameters.
Proof.
  revert p s types. induction parameters as [|e l IH]; intros p s types; cbn; [by intros [= <-]|].
  destruct (classify e) as [[]|]; [| |done]; cbn; rewrite bind_Ok;
    intros (names & Hn & E); apply Ok_inj in E as <-; cbn; f_equal; by eapply IH.
Qed.

Lemma existsb_fmap {A B} (f : A → B) (p : B → bool) l :
  existsb p (f <$> l) = existsb (λ x, p (f x)) l.
Proof. induction l as [|x l IH]; [done|]. cbn. by rewrite IH. Qed.
Lemma filter_rows types expected codes :
  length expected = length types → length codes = length types →
  mismatches (rows_of types expected codes) = code_name <$> wrong_codes expected codes.
Proof.
  revert expected codes. unfold mismatches, rows_of, wrong_codes.
  induction types as [|t types IH]; intros [|e expected] [|c codes]; cbn [length]; try lia; [done|].
  intros He Hc. cbn [zip zip_with]. rewrite !filter_cons.
  change (expected_of (t, code_name (e, c).1, code_name (e, c).2)) with (code_name e).
  change (produced_of (t, code_name (e, c).1, code_name (e, c).2)) with (code_name c).
  cbn [fst snd]. destruct (decide (e = c)) as [->|Hne].
  - rewrite !decide_False by auto. apply IH; lia.
  - rewrite (decide_True (P := code_name e ≠ code_name c)) by by intros ?%code_name_inj.
    rewrite (decide_True (P := e ≠ c)) by done. cbn. f_equal. apply IH; lia.
Qed.
Lemma unsupported_rows types expected codes :
  length expected = length types → length codes = length types →
  has_unsupported (rows_of types expected codes) = existsb (λ c, unsupported (Code c)) codes.
Proof.
  revert expected codes. unfold has_unsupported, rows_of.
  induction types as [|t types IH]; intros [|e expected] [|c codes]; cbn [length]; try lia; [done|].
  intros He Hc. cbn [zip zip_with existsb]. rewrite IH by lia. f_equal. by destruct c.
Qed.
Lemma wrong_codes_nonempty expected codes :
  length codes = length expected → codes ≠ expected → wrong_codes expected codes ≠ [].
Proof.
  unfold wrong_codes. revert codes.
  induction expected as [|e expected IH]; intros [|c codes]; cbn [length]; try lia; [done|].
  intros Hl Hne. cbn [zip zip_with]. rewrite filter_cons. cbn [fst snd].
  destruct (decide (e = c)) as [->|Hec].
  - rewrite decide_False by auto. apply IH; [lia|]. congruence.
  - by rewrite decide_True.
Qed.

(** One of the codes that occur most often, by its name. *)
Lemma most_common_code (codes : list ReturnCode) : codes ≠ [] →
  ∃ c, most_common (code_name <$> codes) = Some (code_name c) ∧ c ∈ codes
    ∧ ∀ d, occurrences d codes <= occurrences c codes.
Proof.
  intros Hne. destruct (most_common_spec (code_name <$> codes)) as (d&Hd&Hin&Hmax); [by destruct codes|].
  apply list_elem_of_fmap in Hin as (c&->&Hc). exists c. split; [done|]. split; [done|].
  intros x. specialize (Hmax (code_name x)). pose proof code_name_inj as Hinj. by rewrite !(occurrences_fmap code_name) in Hmax.
Qed.
Lemma unsupported_observed os :
  existsb (λ o, unsupported (o_code o)) os = true ↔ Exists (λ o, unsupported (o_code o) = true) os.
Proof. rewrite existsb_exists, Exists_exists. by setoid_rewrite list_elem_of_In. Qed.

(** Anything else in an output is read as well: a line of three header cells is one more
    row, and here it turns a failure into an unsupported skip. *)
Example header_in_output :
  match run_test "case" ["-P -t Square"; "-S -t Square"] [OK; OK] false
          (Code <$> [OK; DATA_NOT_RECEIVED])
          ["sent"; "<th>x</th><th>OK</th><th>SUB_UNSUPPORTED_FEATURE</th>"] with
  | Ok (_, Failure msg) =>
      rich_status (loaded "a---b" [("name", "case")] (Failure msg)) = SKIPPED_UNSUPPORTED
      ∧ length (outcome_rows (loaded "a---b" [("name", "case")] (Failure msg))) = 3%nat
  | _ => False
  end.
Proof. vm_compute. done. Qed.

(** C31: A test that [run_test] has run, and whose applications printed neither an escape
    character nor the text [<th>], is read back from the report as it was: the rows of the
    table in its message are the entities with their expected and produced codes.  A passed
    test is passed; a test with an unsupported feature is an unsupported skip; any other is a
    failure, of the kind of one of the unexpected codes that were produced most often.
    (An output with [<th>] adds rows: [header_in_output].) *)
Theorem run_test_loaded name parameters expected codes outputs lines r suite_name attrib types
    (Htypes : entity_types 0 0 parameters = Ok types)
    (He : length expected = length parameters) (Hc : length codes = length parameters)
    (Ho : length outputs = length parameters) (Hplain : Forall plain outputs)
    (Hrun : run_test name parameters expected false (Code <$> codes) outputs = Ok (lines, r)) :
  let res := loaded suite_name attrib r in
  match r with
  | Passed => codes = expected ∧ status res = "passed" ∧ rich_status res = PASSED
  | Skipped _ =>
      status res = "skipped" ∧ rich_status res = SKIPPED_UNSUPPORTED
      ∧ outcome_rows res = rows_of types expected codes
  | Failure _ =>
      status res = "failure" ∧ outcome_rows res = rows_of types expected codes
      ∧ ∃ c, c ∈ wrong_codes expected codes ∧ rich_status res = kind_of_code c
        ∧ ∀ d, occurrences d (wrong_codes expected codes) <= occurrences c (wrong_codes expected codes)
  end.
Proof.
  pose proof (entity_types_length 0 0 _ _ Htypes) as Hl.
  unfold run_test in Hrun. rewrite Htypes in Hrun. cbn [mbind result_bind] in Hrun.
  apply bind_Ok in Hrun as (os & Hos & Hrun).
  destruct (observe_rows _ _ _ _ _ Hos) as (Hrows&Hout&Hty&Hw&Hcode&Hexp); [lia..|].
  assert (Forall (λ o, neat (o_type o) ∧ plain (o_output o)) os) as Hok.
  { apply Forall_and. split.
    - apply (Forall_fmap o_type neat). rewrite Hty. by eapply entity_types_neat.
    - apply (Forall_fmap o_output plain). by rewrite Hout. }
  assert (existsb (λ c, unsupported (Code c)) codes = existsb (λ o, unsupported (o_code o)) os)
    as Hunsup.
  { by rewrite <- (existsb_fmap Code unsupported), <- (existsb_fmap o_code unsupported), Hcode. }
  destruct (conclude_total name false os Hw) as (lines'&r'&E&Hr).
  rewrite Hrun in E. injection E as <- <-. clear Hrun. cbv zeta.
  destruct r as [|msg|msg].
  - split; [|done]. apply codes_expected in Hr. rewrite Hcode, Hexp in Hr.
    eapply list_fmap_eq_inj; [|exact Hr]. by intros ? ? [= ->].
  - destruct Hr as (_&Hu&Hmsg). apply message_read_back in Hmsg; [|done..].
    destruct (loaded_skipped suite_name attrib msg) as (->&->&->).
    rewrite Hmsg, Hrows. split_and!; [done| |done]. unfold classify_outcome.
    rewrite unsupported_rows, Hunsup by lia.
    by apply unsupported_observed in Hu as ->.
  - destruct Hr as (Hex&Hu&Hmsg). apply message_read_back in Hmsg; [|done..].
    destruct (loaded_failure suite_name attrib msg) as (->&->&->).
    rewrite Hmsg, Hrows. split; [done|]. split; [done|].
    assert (wrong_codes expected codes ≠ []) as Hne.
    { apply wrong_codes_nonempty; [lia|]. intros ->.
      apply Exists_exists in Hex as (o&Ho'&Hwr). apply Hwr.
      assert (Forall (λ o, o_code o = Code (o_expected o)) os) as Hall.
      { apply codes_expected. by rewrite Hcode, Hexp. }
      rewrite Forall_forall in Hall. auto. }
    destruct (most_common_code _ Hne) as (c&Hd&Hc'&Hmax). exists c. split; [done|]. split; [|exact Hmax].
    unfold classify_outcome. cbn [decide decide_rel].
    rewrite unsupported_rows, Hunsup, filter_rows, Hd by lia.
    assert (existsb (λ o, unsupported (o_code o)) os = false) as ->; [|apply classify_code].
    apply not_true_iff_false. rewrite unsupported_observed, Exists_exists. intros (o&Ho'&Hb).
    rewrite Forall_forall in Hu. by rewrite (Hu o Ho') in Hb.
Qed.

Lemma run_test_loaded_witness :
  ∃ lines msg,
    run_test "case" ["-P -t Square"; "-S -t Square"] [OK; OK] false
      (Code <$> [OK; DATA_NOT_RECEIVED]) ["sent"; "nothing"] = Ok (lines, Failure msg)
    ∧ rich_status (loaded "a---b" [("name", "case")] (Failure msg)) = FAILURE_DATA.
Proof.
  destruct (run_test "case" ["-P -t Square"; "-S -t Square"] [OK; OK] false
      (Code <$> [OK; DATA_NOT_RECEIVED]) ["sent"; "nothing"]) as [[lines r]|e] eqn:Hrun;
    [|vm_compute in Hrun; discriminate].
  pose proof (run_test_loaded "case" ["-P -t Square"; "-S -t Square"] [OK; OK]
    [OK; DATA_NOT_RECEIVED] ["sent"; "nothing"] lines r "a---b" [("name", "case")]
    ["Publisher_1"; "Subscriber_1"] eq_refl eq_refl eq_refl eq_refl) as H.
  specialize (H ltac:(repeat constructor; vm_compute; reflexivity) Hrun).
  assert (∃ msg, r = Failure msg) as [msg ->].
  { vm_compute in Hrun. injection Hrun as _ <-. by eexists. }
  exists lines, msg. split; [reflexivity|].
  cbv zeta in H. destruct H as (_&_&c&Hc&->&_).
  apply list_elem_of_singleton in Hc as ->. reflexivity.
Defined.
