(* ===== verification/ReportCompare.v ===== *)
(** * Report comparison: two reports (benchmarking/junit_compare/analyzer.py, report_data.py)

    The dictionary of the results of a file, the comparison of two files, its dictionary
    form, and the tests that changed in several comparisons. *)

From S2P Require Import Prelude PyStr PySort PyDict Json ReportLoader.
From stdpp Require Import options.
Local Open Scope string_scope.

(** ** Comparing (analyzer.py, report_data.py) *)

(** [str] of a key, the order in which keys are reported. *)
Definition tuple_str (l : list string) : string :=
  match l with [x] => "(" +:+ x +:+ ",)" | _ => "(" +:+ join ", " l +:+ ")" end.
Definition key_str (k : test_key) : string :=
  let '(suite, name, attributes) := k in
  tuple_str [repr_str suite; repr_str name;
             tuple_str ((λ p : string * string, tuple_str [repr_str p.1; repr_str p.2]) <$> attributes)].
Definition key_le : test_key → test_key → bool := by_key key_str str_le.

(** field -> the value in the first and in the second report *)
Definition differences : Type := dict string (string * string).
Record ChangedTest := Changed { test : string; diffs : differences }.

Record CompareReport := MkReport {
  first_file : string;
  second_file : string;
  first_summary : dict string string;
  second_summary : dict string string;
  first_count : nat;
  second_count : nat;
  added : list string;
  removed : list string;
  changed : list ChangedTest
}.

(** [getattr(result, field)] for the fields that are compared *)
Definition field_of (r : TestResult) (field : string) : string :=
  if decide (field = "detail") then detail r
  else if decide (field = "time") then time r else status r.
Definition fields (include_times include_details : bool) : list string :=
  ("status" :: (if include_details then ["detail"] else []) ++ (if include_times then ["time"] else []))%list.

Definition differ (old new : TestResult) (d : differences) (field : string) : differences :=
  if decide (field_of old field = field_of new field) then d
  else dset field (field_of old field, field_of new field) d.
Definition differences_of (include_times include_details : bool) (old new : TestResult) : differences :=
  foldl (differ old new) [] (fields include_times include_details).
(** The iteration for a key of both reports. *)
Definition compare_key (include_times include_details : bool) (first second : results) (k : test_key) :
    result (list ChangedTest) :=
  old ← dgetitem k first; new ← dgetitem k second;
  match differences_of include_times include_details old new with
  | [] => Ok []
  | d => Ok [Changed (test_label new) d]
  end.

Definition only_in (a b : results) : list test_key :=
  sort_by key_le (filter (λ k, k ∉ keys b) (keys a)).
Definition in_both (a b : results) : list test_key :=
  sort_by key_le (filter (λ k, k ∈ keys b) (keys a)).

(** The comparison of two loaded reports. *)
Definition compare_results (first second : string) (fs ss : dict string string) (fr sr : results)
    (include_times include_details : bool) : result CompareReport :=
  changed ← mfold (λ acc k, c ← compare_key include_times include_details fr sr k; Ok (acc ++ c)%list)
              [] (in_both fr sr);
  Ok (MkReport first second fs ss (length fr) (length sr)
        (key_label <$> only_in sr fr) (key_label <$> only_in fr sr) changed).

Definition compare (first second : string) (first_root second_root : element)
    (include_times include_details : bool) : result CompareReport :=
  f ← load_results first_root; s ← load_results second_root;
  compare_results first second f.1 s.1 f.2 s.2 include_times include_details.

(** [to_dict] and [from_dict] *)
Definition strs (l : list string) : json := JList (JStr <$> l).
Definition str_dict (d : dict string string) : json :=
  JObj ((λ p : string * string, (p.1, JStr p.2)) <$> d).
Definition diffs_json (d : differences) : json :=
  JObj ((λ p : string * (string * string),
           (p.1, JObj [("first", JStr p.2.1); ("second", JStr p.2.2)])) <$> d).
Definition to_dict (r : CompareReport) : json :=
  JObj [("first", JObj [("file", JStr (first_file r)); ("summary", str_dict (first_summary r))]);
        ("second", JObj [("file", JStr (second_file r)); ("summary", str_dict (second_summary r))]);
        ("counts", JObj [("first", JInt (Z.of_nat (first_count r)));
                         ("second", JInt (Z.of_nat (second_count r)))]);
        ("added", strs (added r));
        ("removed", strs (removed r));
        ("changed", JList ((λ c, JObj [("test", JStr (test c)); ("differences", diffs_json (diffs c))])
                             <$> changed r))].

(** [v[k]], and the values of the fields: a dataclass does not check them, but only those
    of the declared types make a [CompareReport] here. *)
Definition jitem (k : string) (v : json) : result json :=
  match v with JObj d => dgetitem k d | _ => Raise TypeError end.
Definition as_str (v : json) : result string := match v with JStr s => Ok s | _ => Raise TypeError end.
Definition jstr (k : string) (v : json) : result string := x ← jitem k v; as_str x.
Definition jnat (k : string) (v : json) : result nat :=
  x ← jitem k v; match x with JInt z => Ok (Z.to_nat z) | _ => Raise TypeError end.
Definition jlist {A} (f : json → result A) (k : string) (v : json) : result (list A) :=
  x ← jitem k v; match x with JList l => mapM f l | _ => Raise TypeError end.
Definition jdict {A} (f : json → result A) (k : string) (v : json) : result (dict string A) :=
  x ← jitem k v;
  match x with
  | JObj d => mapM (λ p : string * json, x ← f p.2; Ok (p.1, x)) d
  | _ => Raise TypeError
  end.
Definition values_of (v : json) : result (string * string) :=
  first ← jstr "first" v; second ← jstr "second" v; Ok (first, second).
Definition changed_of (c : json) : result ChangedTest :=
  test ← jstr "test" c; diffs ← jdict values_of "differences" c; Ok (Changed test diffs).
Definition from_dict (d : json) : result CompareReport :=
  first ← jitem "first" d;
  first_file ← jstr "file" first;
  second ← jitem "second" d;
  second_file ← jstr "file" second;
  first_summary ← jdict as_str "summary" first;
  second_summary ← jdict as_str "summary" second;
  counts ← jitem "counts" d;
  first_count ← jnat "first" counts;
  second_count ← jnat "second" counts;
  added ← jlist as_str "added" d;
  removed ← jlist as_str "removed" d;
  changed ← jlist changed_of "changed" d;
  Ok (MkReport first_file second_file first_summary second_summary first_count second_count added removed changed).

(** Tests that changed their status in more than one comparison. *)
Definition status_changed (c : ChangedTest) : bool := din "status" (diffs c).
Definition count_changes (counts : dict string nat) (c : ChangedTest) : dict string nat :=
  if status_changed c then count_key counts (test c) else counts.
Definition test_changes (reports : list CompareReport) : dict string nat :=
  foldl count_changes [] (reports ≫= changed).
Definition str_item_le {V} : string * V → string * V → bool := by_key fst str_le.
Definition _repeated_change_tests (reports : list CompareReport) : dict string nat :=
  filter (λ p : string * nat, 1 < p.2) (sort_by str_item_le (test_changes reports)).

(** The flaky tests of [generate_explanation]: by the number of changes when there are
    several comparisons, by the kind of change when there is one. *)
Definition flaky_le : string * nat → string * nat → bool :=
  by_key (λ p : string * nat, (- Z.of_nat p.2, p.1)%Z) (lex Z.leb str_le).
Definition decided (s : string) : bool := bool_decide (s ∈ ["passed"; "failure"; "error"]).
Definition single_change (c : ChangedTest) : option (string * bool) :=
  match dget "status" (diffs c) with
  | Some (f, s) => Some (test c, decided f && decided s)
  | None => None
  end.
Definition flaky_tests (reports : list CompareReport) : list (string * nat) * list (string * nat) :=
  match reports with
  | [] => ([], [])
  | [r] =>
      let cs := omap single_change (changed r) in
      let pick b := (λ p : string * bool, (p.1, 1)) <$> filter (λ p : string * bool, p.2 = b) cs in
      (sort_by flaky_le (pick true), sort_by flaky_le (pick false))
  | _ =>
      (sort_by flaky_le (filter (λ p : string * nat, 3 <= p.2) (test_changes reports)),
       sort_by flaky_le (filter (λ p : string * nat, p.2 = 2) (test_changes reports)))
  end.

(** ** The results of a file *)

(** Every case of the file, in order. *)
Definition all_results (root : element) : list TestResult :=
  (λ sc : string * element, result_of sc.1 sc.2) <$> cases_of root.
Definition keyed (rs : results) : Prop := wf rs ∧ ∀ k r, dget k rs = Some r → key r = k.

Lemma add_results_spec cs rs :
  mfold add_result rs cs
  = let new := (λ sc : string * element, result_of sc.1 sc.2) <$> cs in
    if decide (NoDup (key <$> new) ∧ Forall (λ k, k ∉ keys rs) (key <$> new))
    then Ok (rs ++ ((λ r, (key r, r)) <$> new))%list else Raise ValueError.
Proof.
  cbv zeta. revert rs. induction cs as [|sc cs IH]; intros rs.
  { cbn [mfold fmap list_fmap]. rewrite decide_True, app_nil_r; [done|].
    split; constructor. }
  cbn [mfold]. rewrite !fmap_cons. set (r := result_of sc.1 sc.2).
  assert (add_result rs sc
          = if din (key r) rs then Raise ValueError else Ok (dset (key r) r rs)) as -> by done.
  unfold din. case_bool_decide as Hin; rewrite dget_keys in Hin.
  - rewrite decide_False; [done|]. intros [_ H]. inversion H. done.
  - cbn [mbind result_bind]. rewrite IH, dset_fresh by done.
    set (new := (λ sc : string * element, result_of sc.1 sc.2) <$> cs).
    assert ((NoDup (key <$> new) ∧ Forall (λ k, k ∉ keys (rs ++ [(key r, r)])) (key <$> new))
            ↔ (NoDup (key r :: (key <$> new)) ∧ Forall (λ k, k ∉ keys rs) (key r :: (key <$> new))))
      as Hiff.
    { unfold keys. rewrite fmap_app, NoDup_cons, Forall_cons, !Forall_forall. cbn.
      setoid_rewrite not_elem_of_app. setoid_rewrite list_elem_of_singleton. naive_solver. }
    rewrite (decide_ext _ _ _ _ Hiff). case_match; [|done]. by rewrite <- app_assoc.
Qed.

(** Loading fails on a key that occurs twice, and else keeps every result in order. *)
Lemma load_results_spec root :
  load_results root
  = if decide (NoDup (key <$> all_results root))
    then Ok (e_attrib root, (λ r, (key r, r)) <$> all_results root) else Raise ValueError.
Proof.
  unfold load_results. rewrite add_results_spec. cbv zeta. fold (all_results root).
  assert ((NoDup (key <$> all_results root)
           ∧ Forall (λ k, k ∉ keys (@nil (test_key * TestResult))) (key <$> all_results root))
          ↔ NoDup (key <$> all_results root)) as Hiff.
  { split; [by intros [? _]|]. intros H. split; [done|]. apply Forall_true.
    intros k. apply not_elem_of_nil. }
  rewrite (decide_ext _ _ _ _ Hiff). by case_match.
Qed.
Lemma load_results_keyed root s rs : load_results root = Ok (s, rs) → keyed rs.
Proof.
  rewrite load_results_spec. case_decide as Hnd; [|done]. intros [= _ <-]. split.
  - unfold wf, keys. rewrite <- list_fmap_compose. exact Hnd.
  - intros k r H%dget_Some_in. apply list_elem_of_fmap in H as (r'&[= -> ->]&_). done.
Qed.

(** ** What a comparison reports *)

(** The values of the fields that differ. *)
Definition field_change (old new : TestResult) (f : string) : string * (string * string) :=
  (f, (field_of old f, field_of new f)).
Definition differing (old new : TestResult) (fs : list string) : list string :=
  filter (λ f, field_of old f ≠ field_of new f) fs.

Lemma differences_spec_aux old new d fs :
  NoDup fs → (∀ f, f ∈ fs → f ∉ keys d) →
  foldl (differ old new) d fs = (d ++ (field_change old new <$> differing old new fs))%list.
Proof.
  revert d. induction fs as [|f fs IH]; intros d; cbn [foldl].
  - intros _ _. by rewrite app_nil_r.
  - intros [Hf Hnd]%NoDup_cons Hd. unfold differing. rewrite filter_cons. unfold differ at 2.
    destruct (decide (field_of old f = field_of new f)) as [E|E].
    + rewrite decide_False by auto. apply IH; [done|]. set_solver.
    + rewrite decide_True by done. rewrite IH, dset_fresh; [|set_solver|done|].
      * rewrite fmap_cons, <- app_assoc. done.
      * intros g Hg. rewrite dset_fresh by set_solver. unfold keys. rewrite fmap_app. cbn.
        rewrite not_elem_of_app, list_elem_of_singleton. split; [set_solver|]. by intros ->.
Qed.
Lemma differences_spec t d old new :
  differences_of t d old new = field_change old new <$> differing old new (fields t d).
Proof.
  unfold differences_of. rewrite differences_spec_aux; [done| |].
  - apply (bool_decide_unpack _). by destruct t, d.
  - intros f _. apply not_elem_of_nil.
Qed.

(** A list that is read back element by element. *)
Lemma mapM_back {A B} (f : A → result B) (g : B → A) l :
  (∀ x, f (g x) = Ok x) → mapM f (g <$> l) = Ok l.
Proof.
  intros H. induction l as [|x l IH]; [done|].
  change (mapM f (g <$> x :: l)) with (y ← f (g x); k ← mapM f (g <$> l); Ok (y :: k)). by rewrite H, IH.
Qed.
Lemma jlist_back {A} (f : json → result A) (g : A → json) k l d :
  dget k d = Some (JList (g <$> l)) → (∀ x, f (g x) = Ok x) → jlist f k (JObj d) = Ok l.
Proof. intros Hk H. unfold jlist, jitem, dgetitem. rewrite Hk. by apply mapM_back. Qed.
Lemma jdict_back {A} (f : json → result A) (g : A → json) k (l : dict string A) d :
  dget k d = Some (JObj ((λ p : string * A, (p.1, g p.2)) <$> l)) → (∀ x, f (g x) = Ok x) →
  jdict f k (JObj d) = Ok l.
Proof.
  intros Hk H. unfold jdict, jitem, dgetitem. rewrite Hk. apply (mapM_back _ (λ p : string * A, (p.1, g p.2))).
  intros [x y]. cbn [fst snd]. by rewrite H.
Qed.
Lemma changed_back c :
  changed_of (JObj [("test", JStr (test c)); ("differences", diffs_json (diffs c))]) = Ok c.
Proof.
  destruct c as [t d]. unfold changed_of. change (jstr "test" _) with (Ok t). cbn [mbind result_bind].
  rewrite (jdict_back values_of (λ v, JObj [("first", JStr v.1); ("second", JStr v.2)]) _ d); [done..|].
  by intros [x y].
Qed.
(** A report survives its dictionary. *)
Lemma from_to_dict r : from_dict (to_dict r) = Ok r.
Proof.
  destruct r as [f1 f2 s1 s2 c1 c2 ad rm ch]. unfold from_dict, to_dict.
  change (jitem "first" _) with (Ok (JObj [("file", JStr f1); ("summary", str_dict s1)])).
  change (jitem "second" _) with (Ok (JObj [("file", JStr f2); ("summary", str_dict s2)])).
  change (jitem "counts" _) with (Ok (JObj [("first", JInt (Z.of_nat c1)); ("second", JInt (Z.of_nat c2))])).
  cbn [mbind result_bind].
  change (jstr "file" (JObj [_; ("summary", str_dict s1)])) with (Ok f1).
  change (jstr "file" (JObj [_; ("summary", str_dict s2)])) with (Ok f2).
  change (jnat "first" _) with (Ok (Z.to_nat (Z.of_nat c1))).
  change (jnat "second" _) with (Ok (Z.to_nat (Z.of_nat c2))). rewrite !Nat2Z.id.
  cbn [mbind result_bind].
  rewrite (jdict_back as_str JStr "summary" s1 [("file", JStr f1); ("summary", str_dict s1)]),
    (jdict_back as_str JStr "summary" s2 [("file", JStr f2); ("summary", str_dict s2)]) by (intros; reflexivity).
  cbn [mbind result_bind].
  rewrite (jlist_back as_str JStr "added" ad), (jlist_back as_str JStr "removed" rm) by (intros; reflexivity).
  cbn [mbind result_bind].
  by rewrite (jlist_back changed_of (λ c, JObj [("test", JStr (test c)); ("differences", diffs_json (diffs c))])
                "changed" ch) by (done || apply changed_back).
Qed.
Lemma mfold_collect {A B} (g : A → result (list B)) (f : A → list B) acc l :
  (∀ a, a ∈ l → g a = Ok (f a)) →
  mfold (λ acc a, c ← g a; Ok (acc ++ c)%list) acc l = Ok (acc ++ (l ≫= f))%list.
Proof.
  revert acc. induction l as [|a l IH]; intros acc Hg; cbn [mfold].
  - by rewrite app_nil_r.
  - rewrite Hg by left. cbn [mbind result_bind]. rewrite IH by set_solver.
    by rewrite <- app_assoc.
Qed.

(** The change of a key of both reports. *)
Definition change_at (t d : bool) (fr sr : results) (k : test_key) : list ChangedTest :=
  match dget k fr, dget k sr with
  | Some old, Some new =>
      match differing old new (fields t d) with
      | [] => []
      | fs => [Changed (key_label k) (field_change old new <$> fs)]
      end
  | _, _ => []
  end.
Lemma compare_key_spec t d fr sr k :
  keyed sr → k ∈ keys fr → k ∈ keys sr → compare_key t d fr sr k = Ok (change_at t d fr sr k).
Proof.
  intros [_ Hsr] [old Ho]%dget_keys [new Hn]%dget_keys. unfold compare_key, change_at, dgetitem.
  rewrite Ho, Hn. cbn [or_raise mbind result_bind]. rewrite differences_spec.
  destruct (differing old new (fields t d)); [done|]. unfold test_label. by rewrite (Hsr k new Hn).
Qed.

Lemma only_in_elem a b k : k ∈ only_in a b ↔ k ∈ keys a ∧ k ∉ keys b.
Proof. unfold only_in. rewrite elem_of_sort_by, list_elem_of_filter. naive_solver. Qed.
Lemma in_both_elem a b k : k ∈ in_both a b ↔ k ∈ keys a ∧ k ∈ keys b.
Proof. unfold in_both. rewrite elem_of_sort_by, list_elem_of_filter. naive_solver. Qed.

#[export] Instance key_le_total : TotalOrder key_le.
Proof. apply _. Qed.
Lemma ordered_filter {A} (le : A → A → bool) (P : A → Prop) `{∀ x, Decision (P x)} l :
  ordered le l → ordered le (filter P l).
Proof.
  induction 1 as [|x l _ IH Hx]; [constructor|]. rewrite filter_cons. case_decide; [|done].
  constructor; [done|]. rewrite Forall_forall in *. intros y [_ Hy]%list_elem_of_filter. auto.
Qed.

(** The fields that are compared: always the status, the others when asked for. *)
Lemma fields_elem t d f :
  f ∈ fields t d ↔ f = "status" ∨ d = true ∧ f = "detail" ∨ t = true ∧ f = "time".
Proof. unfold fields. destruct t, d; set_solver. Qed.
(** The two results of a key differ in such a field. *)
Definition changed_key (t d : bool) (fr sr : results) (k : test_key) : Prop :=
  ∃ old new, dget k fr = Some old ∧ dget k sr = Some new
    ∧ (status old ≠ status new ∨ d = true ∧ detail old ≠ detail new ∨ t = true ∧ time old ≠ time new).
Lemma changed_key_fields t d fr sr k :
  changed_key t d fr sr k
  ↔ ∃ old new f, dget k fr = Some old ∧ dget k sr = Some new
      ∧ f ∈ fields t d ∧ field_of old f ≠ field_of new f.
Proof.
  unfold changed_key. setoid_rewrite fields_elem. split.
  - intros (o&n&Ho&Hn&[H|[[-> H]|[-> H]]]); exists o, n.
    + exists "status". split; [done|]. split; [done|]. split; [auto|exact H].
    + exists "detail". split; [done|]. split; [done|]. split; [auto|exact H].
    + exists "time". split; [done|]. split; [done|]. split; [auto|exact H].
  - intros (o&n&f&Ho&Hn&[->|[[-> ->]|[-> ->]]]&H); exists o, n;
    (split; [done|]); (split; [done|]); [left|right; left|right; right]; try (split; [done|]); exact H.
Qed.
Definition key_change (t d : bool) (fr sr : results) (k : test_key) : ChangedTest :=
  Changed (key_label k)
    match dget k fr, dget k sr with
    | Some old, Some new => field_change old new <$> differing old new (fields t d)
    | _, _ => []
    end.
Lemma change_at_cases t d fr sr k :
  changed_key t d fr sr k ∧ change_at t d fr sr k = [key_change t d fr sr k]
  ∨ ¬ changed_key t d fr sr k ∧ change_at t d fr sr k = [].
Proof.
  rewrite changed_key_fields. unfold change_at, key_change.
  destruct (dget k fr) as [old|], (dget k sr) as [new|]; try by right; split; [naive_solver|].
  destruct (differing old new (fields t d)) as [|f fs] eqn:E.
  - right. split; [|done]. intros (o&n&f&[= <-]&[= <-]&Hf&Hne).
    apply (not_elem_of_nil f). rewrite <- E. by apply list_elem_of_filter.
  - left. split; [|done]. assert (f ∈ differing old new (fields t d)) as [Hne Hf]%list_elem_of_filter
      by (rewrite E; left). exists old, new, f. done.
Qed.
Definition changed_keys (t d : bool) (fr sr : results) : list test_key :=
  filter (λ k, change_at t d fr sr k ≠ []) (in_both fr sr).
Lemma changed_keys_elem t d fr sr k : k ∈ changed_keys t d fr sr ↔ changed_key t d fr sr k.
Proof.
  unfold changed_keys. rewrite list_elem_of_filter, in_both_elem, <- !dget_keys.
  destruct (change_at_cases t d fr sr k) as [[Hk ->]|[Hk ->]]; [|naive_solver].
  split; [done|]. intros _. split; [done|]. destruct Hk as (old&new&->&->&_). done.
Qed.
Lemma changes_in_order t d fr sr ks :
  ks ≫= change_at t d fr sr
  = key_change t d fr sr <$> filter (λ k, change_at t d fr sr k ≠ []) ks.
Proof.
  induction ks as [|k ks IH]; [done|]. rewrite filter_cons.
  change ((k :: ks) ≫= change_at t d fr sr)
    with (change_at t d fr sr k ++ (ks ≫= change_at t d fr sr))%list. rewrite IH.
  destruct (change_at_cases t d fr sr k) as [[_ ->]|[_ ->]].
  - by rewrite decide_True.
  - by rewrite decide_False by auto.
Qed.
Lemma sorted_keys (P : test_key → Prop) `{∀ k, Decision (P k)} ks :
  NoDup ks → ordered key_le (sort_by key_le (filter P ks)) ∧ NoDup (sort_by key_le (filter P ks)).
Proof.
  intros Hks. split; [apply sort_by_ordered, _|]. by apply sort_by_NoDup, NoDup_filter.
Qed.

(** Two reports that can be loaded are compared. *)
Lemma compare_loaded first second fx sx fs ss fr sr t d :
  load_results fx = Ok (fs, fr) → load_results sx = Ok (ss, sr) →
  compare first second fx sx t d
  = Ok (MkReport first second fs ss (length fr) (length sr) (key_label <$> only_in sr fr)
          (key_label <$> only_in fr sr) (key_change t d fr sr <$> changed_keys t d fr sr)).
Proof.
  intros Hf Hs. pose proof (load_results_keyed _ _ _ Hs) as [Hws Hks].
  unfold compare. rewrite Hf, Hs. cbn [mbind result_bind fst snd]. unfold compare_results.
  rewrite (mfold_collect _ (change_at t d fr sr)), changes_in_order; [done|].
  intros k [? ?]%in_both_elem. by apply compare_key_spec.
Qed.

(** C32: The comparison of two reports that can be loaded: the tests only in the second are
    added, those only in the first are removed, and a test of both is changed exactly when
    its results differ in a field that is compared, with the two values of every such field.
    Each list is in the order of the keys and names no test twice; a report compared with
    itself shows nothing. *)
Theorem compare_spec first second fx sx fs ss fr sr t d
    (Hf : load_results fx = Ok (fs, fr)) (Hs : load_results sx = Ok (ss, sr)) :
  ∃ rep fresh gone both,
    compare first second fx sx t d = Ok rep
    ∧ (first_count rep, second_count rep) = (length fr, length sr)
    ∧ added rep = key_label <$> fresh ∧ removed rep = key_label <$> gone
    ∧ changed rep = key_change t d fr sr <$> both
    ∧ Forall (λ l, ordered key_le l ∧ NoDup l) [fresh; gone; both]
    ∧ (∀ k, k ∈ fresh ↔ k ∈ keys sr ∧ k ∉ keys fr)
    ∧ (∀ k, k ∈ gone ↔ k ∈ keys fr ∧ k ∉ keys sr)
    ∧ (∀ k, k ∈ both ↔ changed_key t d fr sr k)
    ∧ (fx = sx → fresh = [] ∧ gone = [] ∧ both = []).
Proof.
  pose proof (load_results_keyed _ _ _ Hf) as [Hwf Hkf].
  pose proof (load_results_keyed _ _ _ Hs) as [Hws Hks].
  exists (MkReport first second fs ss (length fr) (length sr) (key_label <$> only_in sr fr)
            (key_label <$> only_in fr sr) (key_change t d fr sr <$> changed_keys t d fr sr)).
  exists (only_in sr fr), (only_in fr sr), (changed_keys t d fr sr). split.
  { by apply compare_loaded. }
  do 4 (split; [done|]). split; [|split; [|split; [|split]]].
  - assert (ordered key_le (in_both fr sr) ∧ NoDup (in_both fr sr)) as [Ho Hn]
      by by apply sorted_keys.
    constructor; [by apply sorted_keys|]. constructor; [by apply sorted_keys|].
    constructor; [|constructor]. split; [by apply ordered_filter|by apply NoDup_filter].
  - intros k. apply only_in_elem.
  - intros k. apply only_in_elem.
  - intros k. apply changed_keys_elem.
  - intros <-. rewrite Hf in Hs. injection Hs as <- <-.
    assert (∀ l : list test_key, (∀ k, k ∉ l) → l = []) as Hnil.
    { intros [|k l] H; [done|]. exfalso. apply (H k). left. }
    split_and!; apply Hnil; intros k.
    + rewrite only_in_elem. naive_solver.
    + rewrite only_in_elem. naive_solver.
    + rewrite changed_keys_elem. intros (old&new&E1&E2&Hne). naive_solver congruence.
Qed.
Lemma compare_spec_witness :
  let doc m := Element "testsuites" [("tests", "1")] "" ""
    [Element "testsuite" [("name", "a---b")] "" ""
       [Element "testcase" [("name", "t"); ("time", "1.0")] "" "" m;
        Element "testcase" [("name", "u")] "" "" []]] in
  ∃ fs fr ss sr, load_results (doc []) = Ok (fs, fr)
    ∧ load_results (doc [Element "error" [("message", "lost")] "" "" []]) = Ok (ss, sr)
    ∧ ∃ rep, compare "1.xml" "2.xml" (doc []) (doc [Element "error" [("message", "lost")] "" "" []])
               false false = Ok rep ∧ first_count rep = 2.
Proof.
  intros doc. do 4 eexists. split; [reflexivity|]. split; [reflexivity|].
  edestruct (compare_spec "1.xml" "2.xml" (doc [])
    (doc [Element "error" [("message", "lost")] "" "" []])) as (rep&_&_&_&Hc&Hn&_);
    [reflexivity|reflexivity|].
  exists rep. split; [exact Hc|]. by injection Hn as ->.
Defined.
