(* ===== verification/Driver.v ===== *)
(** * The program that runs the tests (interoperability_report.py, main)

    [main] around the loop of Suite.v: the name of the report, the suites already in it, and
    the file that is written when every test has run.  What the applications do in a test is
    an argument ([processes]): the codes in the shared list and the printed texts when all
    processes are joined.  A report is the list of its test suites, as junitparser keeps them. *)

From S2P Require Import Prelude PyStr PyDict Utilities CheckFunctions ReportLoader ReportCompare RunTest Suite.
From stdpp Require Import options.
Local Open Scope string_scope.

Definition report : Type := list (string * list (string * test_result)).

Section driver.
Context (processes : string → list string → check_function → list RunTest.cell * list string).

Definition exec (verbosity : bool) (case : string) (parameters : list string)
    (expected_codes : list ReturnCode) (check : check_function) : result (list string * test_result) :=
  let '(codes, outputs) := processes case parameters check in
  run_test case parameters expected_codes verbosity codes outputs.

(** [main], with the time of the start as text, the members of the module of test suites and
    the files of the directory.  A report given with [-o] is continued. *)
Definition filename_report (output_name : option string) (date_time pub sub : string) : string :=
  match output_name with Some f => f | None => pub +:+ "-" +:+ sub +:+ "-" +:+ date_time +:+ ".xml" end.
Definition xml_before (output_name : option string) (files : dict string report) : report :=
  match output_name with Some f => default [] (dget f files) | None => [] end.
Definition main (o : options) (verbosity : bool) (output_name : option string) (date_time : string)
    (members : list (string * option suite)) (files : dict string report) : result (dict string report) :=
  name_publisher ← product_name (publisher o);
  name_subscriber ← product_name (subscriber o);
  runs ← run_members (exec verbosity) o members;
  let suite := (name_publisher +:+ "---" +:+ name_subscriber,
                (λ r : string * (list string * test_result), (r.1, r.2.2)) <$> runs) in
  Ok (dset (filename_report output_name date_time name_publisher name_subscriber)
           (xml_before output_name files ++ [suite])%list files).
End driver.

(** ** The calls of a run *)

(** The test suites among the members of the module. *)
Definition suites_of (members : list (string * option suite)) : list (string * suite) :=
  omap (λ m : string * option suite,
          match m with
          | (name, Some s) => if decide (name ≠ "__builtins__") then Some (name, s) else None
          | (_, None) => None
          end) members.
(** A selected test case, as it is handed to [run_test]. *)
Record call := Call { c_name : string; c_apps : list string; c_expected : list ReturnCode; c_check : check_function }.
Definition calls_of (o : options) (suite_name : string) (s : suite) : list call :=
  (λ p : string * test_case,
     Call (suite_name +:+ "_" +:+ p.1) (complete o <$> apps p.2) (tc_expected_codes p.2) (check_or_basic p.2))
  <$> filter (λ p : string * test_case, selected o p.1 = true) s.
Definition calls (o : options) (members : list (string * option suite)) : list call :=
  s ← suites_of members; calls_of o s.1 s.2.

Section spec.
Context {R : Type} (exec : string → list string → list ReturnCode → check_function → result R).
Definition exec_call (c : call) : result R := exec (c_name c) (c_apps c) (c_expected c) (c_check c).
Definition named (c : call) : result (string * R) := r ← exec_call c; Ok (c_name c, r).

Lemma named_call a b c d : named (Call a b c d) = (r ← exec a b c d; Ok (a, r)).
Proof. done. Qed.
Lemma run_cases_calls o n items :
  Forall (λ p, case_ok p.2) items →
  run_cases exec o n items
  = (rs ← mapM named (calls_of o n items); Ok (suite_after o items, rs)).
Proof.
  induction 1 as [|[name t] items [Hl Hc] _ IH]; [done|]. cbn in Hl, Hc.
  unfold calls_of, suite_after in *. rewrite filter_cons, fmap_cons. cbn [run_cases fst snd].
  destruct (selected o name) eqn:Hs; cbn [fst snd].
  - rewrite decide_True by done. rewrite fmap_cons. unfold run_case.
    assert (check_of t = Ok (check_or_basic t)) as ->
      by (unfold check_of, check_or_basic; by destruct (tc_check_function t)).
    cbn [mbind result_bind]. rewrite decide_True by done. rewrite IH.
    match goal with |- _ = (rs ← mapM named (?c :: ?l); _) =>
      change (mapM named (c :: l)) with (y ← named c; k ← mapM named l; Ok (y :: k)) end.
    rewrite named_call. cbn [fst snd].
    destruct (exec _ _ _ _); [|done]. cbn [mbind result_bind fst snd].
    by destruct (mapM named _).
  - rewrite decide_False by done. rewrite IH. by destruct (mapM named _).
Qed.
Lemma run_suite_calls o n s :
  names_known o s → Forall (λ p, case_ok p.2) s →
  run_suite exec o n s = (rs ← mapM named (calls_of o n s); Ok (suite_after o s, rs)).
Proof.
  intros [H1 H2] Hok. unfold run_suite. rewrite !(proj2 (are_tests_spec s n _)) by done.
  cbn [negb]. by apply run_cases_calls.
Qed.
Lemma mapM_app_result {A B} (f : A → result B) l k :
  mapM f (l ++ k) = (x ← mapM f l; y ← mapM f k; Ok (x ++ y)%list).
Proof.
  induction l as [|a l IH].
  - cbn. by destruct (mapM f k).
  - change (mapM f ((a :: l) ++ k)) with (y ← f a; z ← mapM f (l ++ k); Ok (y :: z)).
    change (mapM f (a :: l)) with (y ← f a; z ← mapM f l; Ok (y :: z)). rewrite IH.
    destruct (f a); [|done]. cbn [mbind result_bind]. destruct (mapM f l); [|done].
    cbn [mbind result_bind]. by destruct (mapM f k).
Qed.
Lemma run_members_calls o members :
  Forall (λ s, names_known o s.2 ∧ Forall (λ p, case_ok p.2) s.2) (suites_of members) →
  run_members exec o members = mapM named (calls o members).
Proof.
  unfold calls. induction members as [|[n [s|]] members IH]; intros Hok; [done| |by apply IH].
  cbn [run_members]. unfold suites_of in *. cbn [omap list_omap fst snd] in *.
  destruct (decide (n ≠ "__builtins__")); [|by apply IH].
  apply Forall_cons in Hok as [[H1 H2] Hok]. cbn [snd] in H1, H2.
  rewrite run_suite_calls by done. rewrite IH by done. cbn [mbind list_bind].
  rewrite mapM_app_result. cbn [fst snd]. by destruct (mapM named (calls_of o n s)).
Qed.
End spec.

(** A loop that raises stops at the first call that does. *)
Lemma mapM_split {A B} (f : A → result B) l :
  match mapM f l with
  | Ok k => Forall2 (λ a b, f a = Ok b) l k
  | Raise e => ∃ before a after, l = (before ++ a :: after)%list ∧ f a = Raise e
                 ∧ Forall (λ a, ∃ b, f a = Ok b) before
  end.
Proof.
  induction l as [|a l IH]; [constructor|].
  change (mapM f (a :: l)) with (y ← f a; k ← mapM f l; Ok (y :: k)).
  destruct (f a) as [b|e] eqn:E; cbn [mbind result_bind].
  - destruct (mapM f l) as [k|e]; cbn [mbind result_bind]; [by constructor|].
    destruct IH as (before&c&after&->&Hc&Hb). exists (a :: before), c, after.
    split; [done|]. split; [done|]. constructor; [by exists b|done].
  - exists [], a, l. split; [done|]. split; [done|constructor].
Qed.
Lemma named_calls {R} (exec : string → list string → list ReturnCode → check_function → result R) cs rs :
  Forall2 (λ c b, named exec c = Ok b) cs rs →
  Forall2 (λ c r, exec_call exec c = Ok r) cs rs.*2 ∧ rs.*1 = c_name <$> cs.
Proof.
  induction 1 as [|c [n r] cs rs H _ [IH1 IH2]]; [split; [constructor|done]|].
  unfold named in H. apply bind_Ok in H as (r'&Hr&[= <- <-]). rewrite !fmap_cons. cbn [fst snd].
  split; [by constructor|by rewrite IH2].
Qed.

(** ** The report, read back *)

(** The test cases of the file of a report; [attrib] has what the XML library writes besides
    the result. *)
Definition case_elements (attrib : string → dict string string) (rep : report) : list (string * element) :=
  s ← rep; (λ c : string * test_result, (s.1, Element "testcase" (attrib c.1) "" "" (written c.2))) <$> s.2.
Lemma report_loaded attrib root suite_name cases :
  (∀ n, dget "name" (attrib n) = Some n) → cases_of root = case_elements attrib [(suite_name, cases)] →
  NoDup cases.*1 →
  ∃ rs, load_results root = Ok (e_attrib root, rs)
    ∧ values rs = (λ c : string * test_result, loaded suite_name (attrib c.1) c.2) <$> cases.
Proof.
  intros Hn Hroot Hnd.
  assert (all_results root = (λ c : string * test_result, loaded suite_name (attrib c.1) c.2) <$> cases) as Hall.
  { unfold all_results. rewrite Hroot. unfold case_elements. cbn [mbind list_bind fst snd].
    by rewrite app_nil_r, <- list_fmap_compose. }
  rewrite load_results_spec, decide_True.
  - eexists. split; [done|]. unfold values. rewrite <- list_fmap_compose, <- Hall. by apply list_fmap_id.
  - rewrite Hall. apply (NoDup_fmap_1 (λ k : test_key, k.1.2)). rewrite <- !list_fmap_compose.
    assert ((λ c : string * test_result, (key (loaded suite_name (attrib c.1) c.2)).1.2) <$> cases = cases.*1)
      as E; [|by rewrite <- E in Hnd].
    apply list_fmap_ext. intros i [n r] _. cbn [fst snd].
    assert (default "" (dget "name" (attrib n)) = n) as E by by rewrite Hn.
    by destruct r.
Qed.

(** C17: A run of the program on well-formed test suites with known names in the options.  Either
    [run_test] ends for every selected test case: then exactly one file is written, it has the
    suites that were in it when it was named with [-o], and after them one suite with one case
    for each selected test case of each test suite, in order, with the result of [run_test] on
    the completed parameters; and a fresh file is read back, by the program that compares
    reports, as exactly these cases.  Or it raises for one: then the run ends with that
    exception and no file is written, so that the results of the tests before it are lost. *)
Theorem main_report processes o verbosity output_name date_time members files pub sub
    (Hp : product_name (publisher o) = Ok pub) (Hs : product_name (subscriber o) = Ok sub)
    (Hok : Forall (λ s, names_known o s.2 ∧ Forall (λ p, case_ok p.2) s.2) (suites_of members)) :
  let call := exec_call (exec processes verbosity) in
  let suite_name := pub +:+ "---" +:+ sub in
  let file := default (pub +:+ "-" +:+ sub +:+ "-" +:+ date_time +:+ ".xml") output_name in
  let before := default [] (f ← output_name; dget f files) in
  match main processes o verbosity output_name date_time members files with
  | Ok files' => ∃ rs : list (list string * test_result),
      let cases := zip (c_name <$> calls o members) rs.*2 in
      Forall2 (λ c r, call c = Ok r) (calls o members) rs
      ∧ dget file files' = Some (before ++ [(suite_name, cases)])%list
      ∧ (∀ f, f ≠ file → dget f files' = dget f files)
      ∧ (∀ attrib root,
           (∀ n, dget "name" (attrib n) = Some n) → cases_of root = case_elements attrib [(suite_name, cases)] →
           NoDup (c_name <$> calls o members) →
           ∃ loaded_results, load_results root = Ok (e_attrib root, loaded_results)
             ∧ values loaded_results = (λ c, loaded suite_name (attrib c.1) c.2) <$> cases)
  | Raise e => ∃ done_calls c rest,
      calls o members = (done_calls ++ c :: rest)%list ∧ call c = Raise e
      ∧ Forall (λ c, ∃ r, call c = Ok r) done_calls
  end.
Proof.
  intros call suite_name file before.
  assert (filename_report output_name date_time pub sub = file) as Hfile by by destruct output_name.
  assert (xml_before output_name files = before) as Hbefore by by destruct output_name.
  unfold main. rewrite Hp, Hs. cbn [mbind result_bind].
  rewrite run_members_calls by done.
  pose proof (mapM_split (named (exec processes verbosity)) (calls o members)) as H.
  destruct (mapM _ (calls o members)) as [rs|e]; cbn [mbind result_bind].
  - apply named_calls in H as [Hrs Hn]. exists rs.*2. cbv zeta. rewrite Hfile, Hbefore.
    assert ((λ r : string * (list string * test_result), (r.1, r.2.2)) <$> rs
            = zip (c_name <$> calls o members) rs.*2.*2) as ->.
    { rewrite <- Hn. clear. induction rs as [|[n [x y]] rs IH]; [done|]. rewrite !fmap_cons. cbn. by f_equal. }
    split; [done|]. split; [apply dget_dset_eq|]. split; [intros f Hf; by apply dget_dset_ne|].
    intros attrib root Ha Hroot Hnd. apply report_loaded; [done|done|].
    rewrite fst_zip; [done|]. rewrite <- Hn, !length_fmap. done.
  - destruct H as (l&c&after&Hc&He&Hb). exists l, c, after. split; [done|]. split.
    + unfold named in He. by destruct (exec_call _ c) as [r|e'] eqn:E; [done|injection He as ->].
    + eapply Forall_impl; [exact Hb|]. intros c' [r Hr]. unfold named in Hr.
      apply bind_Ok in Hr as (r'&Hr&_). by exists r'.
Qed.
(** Two tests; in the second run the subscriber of the second one dies without a code. *)
Lemma main_report_witness :
  let suites := [("S", Some [("A", TestCase ["-P -t x"; "-S -t x"] [OK; OK] NoEntry "" "");
                             ("B", TestCase ["-P -t y"; "-S -t y"] [OK; OK] NoEntry "" "")])] in
  let o := Options "./a-1_shape_main" "./b-2_shape_main" None None "2" 0%Z in
  let processes last (case : string) (parameters : list string) (check : check_function) :=
    ([Code OK; if decide (case = "S_B") then last else Code OK], ["sent"; "received"]) in
  let run last := main (processes last) o false (Some "r.xml") "" suites [] in
  (∃ files', run (Code OK) = Ok files'
     ∧ dget "r.xml" files' = Some [("a-1---b-2", [("S_A", Passed); ("S_B", Passed)])])
  ∧ ∃ before c after, calls o suites = (before ++ c :: after)%list
     ∧ exec_call (exec (processes (Unset 1)) false) c = Raise AttributeError ∧ length before = 1.
Proof.
  intros suites o processes run.
  assert (Forall (λ s, names_known o s.2 ∧ Forall (λ p, case_ok p.2) s.2) (suites_of suites)) as Hok.
  { constructor; [|constructor]. split; [done|]. repeat constructor; done. }
  pose proof (main_report (processes (Code OK)) o false (Some "r.xml") "" suites [] "a-1" "b-2"
                eq_refl eq_refl Hok) as H1.
  pose proof (main_report (processes (Unset 1)) o false (Some "r.xml") "" suites [] "a-1" "b-2"
                eq_refl eq_refl Hok) as H2. cbv zeta in H1, H2.
  split.
  - fold (run (Code OK)) in H1. destruct (run (Code OK)) as [files'|] eqn:E; [|by vm_compute in E].
    exists files'. split; [done|]. vm_compute in E. injection E as <-. reflexivity.
  - fold (run (Unset 1)) in H2. destruct (run (Unset 1)) as [files'|e] eqn:E; [by vm_compute in E|].
    vm_compute in E. injection E as <-. destruct H2 as (before&c&after&Hc&He&Hb).
    exists before, c, after. split; [done|]. split; [done|].
    destruct before as [|c1 [|c2 before]].
    + injection Hc as <- _. by vm_compute in He.
    + done.
    + assert (length (calls o suites) = 2) as Hl by (vm_compute; reflexivity).
      rewrite Hc, length_app in Hl. cbn [length] in Hl. lia.
Defined.
