(* ===== verification/TestRun.v ===== *)
(** * A test from its applications to its result (interoperability_report.py)

    The parts of [run_test] together: the processes that it starts (EntityProcess), which
    write their codes into one shared list in any order and wait for each other
    (Handshake), the joins, and the result (RunTest); and a whole run of the program with
    such tests (Driver).  An application is given by what pexpect is told about it. *)

From S2P Require Import Prelude PyStr PyDict Utilities CheckLoop CheckFunctions EntityProcess RunTest Handshake Suite TestSuite Driver.
From stdpp Require Import options.
Local Open Scope string_scope.

(** ** The processes *)

(** What [pexpect.spawnu] does, and the answers of [expect] afterwards. *)
Record application := Application { spawned : result (); answers : list reply }.

(** The process for one string of parameters: its kind, and what its code-producing part
    does. *)
Definition process (check : check_function) (parameters : string) (a : application) :
    result (entity * produced) :=
  kind ← classify parameters;
  Ok (kind,
      match spawned a with
      | Raise e => Crashed e
      | Ok _ =>
          match kind with
          | Publisher => sv_code (run_publisher_shape_main parameters (answers a))
          | Subscriber => run_subscriber_shape_main check (answers a)
          end
      end).
Fixpoint launch (check : check_function) (parameters : list string) (applications : list application) :
    result (list (entity * produced)) :=
  match parameters, applications with
  | p :: parameters', a :: applications' =>
      x ← process check p a; xs ← launch check parameters' applications'; Ok (x :: xs)
  | _, _ => Ok []
  end.

(** ** The shared list *)

(** The phases of the processes and [return_codes]. *)
Record world := World { phases : system; return_codes : list cell }.

(** [manager.list(range(num_entities))] *)
Definition initial (ps : list (entity * produced)) : world :=
  World (start ps.*1) (Unset <$> seq 0 (length ps)).

(** Event [e] of process [i]: the end of its code-producing part writes its entry. *)
Definition act (ps : list (entity * produced)) (w : world) (i : nat) (e : event) : option world :=
  p ← ps !! i;
  s ← next (phases w) i e;
  match e, p.2 with
  | EWork, Wrote c => Some (World s (<[i := Code c]> (return_codes w)))
  | EWork, NotWritten | ECrash, Crashed _ => Some (World s (return_codes w))
  | EWork, _ | ECrash, _ => None
  | _, _ => Some (World s (return_codes w))
  end.
Definition steps (ps : list (entity * produced)) (w w' : world) : Prop := ∃ i e, act ps w i e = Some w'.

(** All [join]s return. *)
Definition joined (w : world) : Prop := Forall (λ p, p.2 = Stopped ∨ p.2 = Dead) (phases w).
(** Nothing can happen any more, but for an application that closes its output. *)
Definition at_rest (ps : list (entity * produced)) (w : world) : Prop :=
  ∀ i e w', act ps w i e = Some w' → e = EEof.

(** What a process leaves in its entry. *)
Definition left_by (i : nat) (p : produced) : cell := match p with Wrote c => Code c | _ => Unset i end.
Definition cells (ps : list produced) : list cell := imap left_by ps.

(** ** Invariant *)

(** The entry of a process that has passed its code-producing part is what it leaves
    there; before, it is its index. *)
Definition entry_ok (i : nat) (x : entity * produced) (p : entity * phase) (c : cell) : Prop :=
  p.1 = x.1 ∧
  match p.2 with
  | Working => c = Unset i
  | Dead => c = Unset i ∧ ∃ e, x.2 = Crashed e
  | _ => c = left_by i x.2 ∧ x.2 ≠ Blocked ∧ ∀ e, x.2 ≠ Crashed e
  end.
Definition agree (ps : list (entity * produced)) (w : world) : Prop :=
  length (phases w) = length ps ∧ length (return_codes w) = length ps ∧
  ∀ i x p c, ps !! i = Some x → phases w !! i = Some p → return_codes w !! i = Some c → entry_ok i x p c.

Lemma agree_initial ps : agree ps (initial ps).
Proof.
  unfold agree, initial, start. cbn [phases return_codes]. rewrite !length_fmap, length_seq.
  split_and!; [done..|]. intros i x p c Hx Hp Hc.
  rewrite !list_lookup_fmap, Hx in Hp. injection Hp as <-.
  rewrite list_lookup_fmap, lookup_seq_lt in Hc by by eapply lookup_lt_Some.
  injection Hc as <-. by split.
Qed.

(** A step changes the phase of one process, and no entry but its own. *)
Lemma act_inv ps w i e w' :
  act ps w i e = Some w' →
  ∃ x k ph ph', ps !! i = Some x ∧ phases w !! i = Some (k, ph) ∧
    transition (phases w) (k, ph) e = Some ph' ∧ phases w' = <[i := (k, ph')]> (phases w) ∧
    return_codes w' = match e, x.2 with EWork, Wrote c => <[i := Code c]> (return_codes w) | _, _ => return_codes w end ∧
    (e = EWork → x.2 ≠ Blocked ∧ ∀ err, x.2 ≠ Crashed err) ∧ (e = ECrash → ∃ err, x.2 = Crashed err).
Proof.
  unfold act. destruct (ps !! i) as [[k0 pr]|]; [|done]. cbn [mbind option_bind].
  destruct (next (phases w) i e) as [s|] eqn:E; [|done]. cbn [mbind option_bind snd]. intros H.
  apply next_inv in E as (k&ph&ph'&Hi&Ht&->). exists (k0, pr), k, ph, ph'. split; [done|]. split; [done|].
  split; [done|]. destruct e, pr; try discriminate H; injection H as <-; cbn; split_and!; try done; by eexists.
Qed.
Lemma act_next ps w i e w' : act ps w i e = Some w' → next (phases w) i e = Some (phases w').
Proof.
  intros (x&k&ph&ph'&_&Hi&Ht&->&_)%act_inv. by eapply next_i.
Qed.

Lemma agree_step ps w w' : agree ps w → steps ps w w' → agree ps w'.
Proof.
  intros (Hl1&Hl2&Hall) (i&e&(x&k&ph&ph'&Hx&Hi&Ht&Hp&Hc&Hw&Hcr)%act_inv).
  assert (is_Some (return_codes w !! i)) as [c Hci].
  { apply lookup_lt_is_Some. rewrite Hl2. by eapply lookup_lt_Some. }
  destruct (Hall i x (k, ph) c Hx Hi Hci) as [Hk Hph]. cbn in Hk, Hph. subst k.
  split_and!; [by rewrite Hp, length_insert| |].
  { rewrite Hc. by destruct e, x.2; rewrite ?length_insert. }
  intros j y p d Hy Hj Hd. rewrite Hp in Hj. destruct (decide (i = j)) as [<-|Hne].
  - rewrite list_lookup_insert_eq in Hj by by eapply lookup_lt_Some. injection Hj as <-.
    assert (y = x) as -> by congruence. split; [done|]. cbn [snd].
    assert (e ≠ EWork → d = c) as Hsame
      by (intros Hne; rewrite Hc in Hd; destruct e, x.2; try done; congruence).
    destruct e; cbn in Ht.
    + destruct (Hw eq_refl) as [H1 H2].
      assert (d = left_by i x.2) as ->.
      { assert (c = Unset i) as -> by (destruct x.1, ph; try discriminate Ht; exact Hph).
        rewrite Hc in Hd. destruct x.2 as [code| |err|]; cbn; [|congruence|by destruct (H2 err)|done].
        rewrite list_lookup_insert_eq in Hd by by eapply lookup_lt_Some. by injection Hd. }
      destruct x.1, ph; try discriminate Ht; injection Ht as <-; done.
    + rewrite Hsame by done. destruct x.1, ph; try discriminate Ht; destruct (subscribers_finished (phases w)); try discriminate Ht;
        injection Ht as <-; done.
    + rewrite Hsame by done. destruct x.1, ph; try discriminate Ht; injection Ht as <-; done.
    + rewrite Hsame by done. destruct x.1, ph; try discriminate Ht; destruct (publishers_finished (phases w)); try discriminate Ht;
        injection Ht as <-; done.
    + rewrite Hsame by done. destruct (Hcr eq_refl) as [err Herr].
      destruct x.1, ph; try discriminate Ht; injection Ht as <-; cbn in Hph; split; eauto.
  - rewrite list_lookup_insert_ne in Hj by done. apply (Hall j y p d Hy Hj).
    rewrite Hc in Hd. destruct e, x.2; try done. by rewrite list_lookup_insert_ne in Hd by done.
Qed.
Lemma agree_reached ps w : rtc (steps ps) (initial ps) w → agree ps w.
Proof.
  intros H. assert (agree ps (initial ps)) as H0 by apply agree_initial.
  revert H0. induction H as [|w1 w2 w3 Hs _ IH]; [done|]. intros Ha. by eapply IH, agree_step.
Qed.

(** The steps of the processes are those of the handshake. *)
Lemma steps_step ps w w' : steps ps w w' → step true (phases w) (phases w').
Proof. intros (i&e&H%act_next). by exists i, e. Qed.
Lemma nsteps_step ps n w w' : nsteps (steps ps) n w w' → nsteps (step true) n (phases w) (phases w').
Proof.
  revert w. induction n as [|n IH]; intros w H; inversion H; subst; [constructor|].
  econstructor; [by eapply steps_step|by apply IH].
Qed.
(** At most three steps of every process. *)
Lemma steps_bound ps n w : nsteps (steps ps) n (initial ps) w → (n ≤ 3 * length ps)%nat.
Proof.
  intros H%nsteps_step%nsteps_work. cbn [phases initial] in H. rewrite work_start, length_fmap in H. lia.
Qed.

(** ** Without exceptions *)

Section written.
Context (ps : list (entity * produced)) (codes : list ReturnCode) (Hps : ps.*2 = Wrote <$> codes).

Lemma writes i x : ps !! i = Some x → ∃ c, x.2 = Wrote c ∧ codes !! i = Some c.
Proof using Hps.
  intros Hx. assert (ps.*2 !! i = Some x.2) as H by by rewrite list_lookup_fmap, Hx.
  rewrite Hps, list_lookup_fmap in H. destruct (codes !! i) as [c|]; [|done]. injection H as <-. by exists c.
Qed.
Lemma steps_no_crash w w' : steps ps w w' → step false (phases w) (phases w').
Proof using Hps.
  intros (i&e&H). exists i, e. split; [|by eapply act_next].
  intros ->. apply act_inv in H as (x&?&?&?&Hx&_&_&_&_&_&Hc).
  destruct (Hc eq_refl) as [err Herr]. apply writes in Hx as (c&Hc'&_). congruence.
Qed.
Lemma reached_ok w : rtc (steps ps) (initial ps) w → no_dead (phases w) ∧ Handshake.well_formed (phases w).
Proof using Hps.
  intros H. apply (run_invariant ps.*1). change (start ps.*1) with (phases (initial ps)).
  induction H as [|w1 w2 w3 Hs _ IH]; [apply rtc_refl|]. eapply rtc_l; [by apply steps_no_crash|done].
Qed.
(** Every process can go on, whatever the others have done, until all have ended. *)
Lemma act_next_i w i e s : agree ps w → e ≠ ECrash → next (phases w) i e = Some s → ∃ w', act ps w i e = Some w'.
Proof using Hps.
  intros (Hl&_&_) He Hn. unfold act.
  assert (is_Some (ps !! i)) as [x Hx].
  { apply lookup_lt_is_Some. rewrite <- Hl. apply next_inv in Hn as (k&ph&ph'&Hi&_). by eapply lookup_lt_Some. }
  destruct (writes i x Hx) as (c&Hc&_). rewrite Hx. cbn [mbind option_bind]. rewrite Hn. cbn [mbind option_bind].
  rewrite Hc. destruct e; [by eexists..|done].
Qed.
Lemma at_rest_stopped w : rtc (steps ps) (initial ps) w → at_rest ps w → all_stopped (phases w).
Proof using Hps.
  intros H Hrest. destruct (reached_ok w H) as [Hd Hw].
  destruct (decide (all_stopped (phases w))) as [|Hs]; [done|].
  destruct (step_progress (phases w) Hd Hw Hs) as (s&i&e&Hc&Heof&Hn).
  destruct (act_next_i w i e s (agree_reached ps w H) Hc Hn) as [w' Hw']. by destruct (Heof (Hrest i e w' Hw')).
Qed.
(** The codes do not depend on the order of the steps. *)
Lemma stopped_codes w : rtc (steps ps) (initial ps) w → all_stopped (phases w) → return_codes w = Code <$> codes.
Proof using Hps.
  intros H Hs. destruct (agree_reached ps w H) as (Hl1&Hl2&Hall).
  assert (length codes = length ps) as Hlc by (rewrite <- (length_fmap snd ps), Hps; by rewrite length_fmap).
  apply list_eq. intros i. rewrite list_lookup_fmap. destruct (ps !! i) as [x|] eqn:Hx.
  - destruct (writes i x Hx) as (c&Hc&->). cbn.
    assert (is_Some (phases w !! i)) as [p Hp] by (apply lookup_lt_is_Some; rewrite Hl1; by eapply lookup_lt_Some).
    assert (is_Some (return_codes w !! i)) as [d Hd] by (apply lookup_lt_is_Some; rewrite Hl2; by eapply lookup_lt_Some).
    destruct (Hall i x p d Hx Hp Hd) as [_ Hph]. unfold all_stopped in Hs. rewrite Forall_lookup in Hs.
    rewrite (Hs i p Hp) in Hph. destruct Hph as [-> _]. by rewrite Hd, Hc.
  - apply lookup_ge_None in Hx. rewrite !(proj2 (lookup_ge_None _ _)) by lia. done.
Qed.
End written.

(** ** The answers of pexpect

    pexpect answers every question with the index of one of its patterns, so a publisher
    has as many answers as it asks questions; a subscriber has a timeout among them, as no
    application prints for ever. *)
Definition answered (check : check_function) (kind : entity) (a : application) : Prop :=
  spawned a = Ok () ∧
  ∃ r1 r2 r3 script, answers a = r1 :: r2 :: r3 :: script ∧ index_below 4 r1 ∧
    match kind with
    | Publisher => index_below 4 r2 ∧ index_below 5 r3 ∧ Forall (index_below 5) script ∧ (MAX_SAMPLES_SAVED < length script)%nat
    | Subscriber => index_below 5 r2 ∧ index_below 6 r3 ∧ ∃ r, r ∈ script ∧ r_index r = timeout_index check
    end.
Definition runs (check : check_function) (parameters : string) (a : application) : Prop :=
  ∃ kind, classify parameters = Ok kind ∧ answered check kind a.
(** The code that the process for an application writes. *)
Definition code_of (check : check_function) (parameters : string) (a : application) (c : ReturnCode) : Prop :=
  ∃ kind, process check parameters a = Ok (kind, Wrote c).

Lemma runs_code check parameters a : runs check parameters a → ∃ c, code_of check parameters a c.
Proof.
  intros (kind&Hk&Hsp&r1&r2&r3&script&Ha&H1&H). unfold code_of, process. rewrite Hk, Hsp, Ha. cbn [mbind result_bind].
  destruct kind.
  - destruct H as (H2&H3&Hs&Hl).
    destruct (publisher_code parameters r1 r2 r3 script H1 H2 H3 Hs Hl) as [c Hc]. exists c, Publisher. by rewrite Hc.
  - destruct H as (H2&H3&Ht). destruct (subscriber_code check r1 r2 r3 script H1 H2 H3 Ht) as (c&Hc&_).
    exists c, Subscriber. by rewrite Hc.
Qed.
Lemma launch_codes check parameters applications :
  Forall2 (runs check) parameters applications →
  ∃ ps codes, launch check parameters applications = Ok ps ∧ length ps = length parameters ∧
    ps.*2 = Wrote <$> codes ∧ length codes = length parameters ∧
    ∀ i p a, parameters !! i = Some p → applications !! i = Some a → ∃ c, codes !! i = Some c ∧ code_of check p a c.
Proof.
  induction 1 as [|p a ps as_ Hr _ (qs&cs&Hq&Hlq&Hw&Hlc&Hall)]; [by exists [], []|].
  destruct (runs_code check p a Hr) as (c&kind&Hc). cbn [launch]. rewrite Hc, Hq. cbn [mbind result_bind].
  exists ((kind, Wrote c) :: qs), (c :: cs). split; [done|]. split; [cbn; by rewrite Hlq|].
  split; [rewrite !fmap_cons; cbn; by rewrite Hw|]. split; [cbn; by rewrite Hlc|].
  intros [|i] p' a' Hp Ha; [|by apply Hall].
  injection Hp as <-. injection Ha as <-. exists c. split; [done|]. by exists kind.
Qed.
Lemma runs_classify check parameters applications :
  Forall2 (runs check) parameters applications → Forall (λ e, is_Ok (classify e)) parameters.
Proof. induction 1 as [|p a l k (kind&Hk&_) _ IH]; constructor; [by eexists|done]. Qed.

(** ** A publisher that dies *)

Section dead.
Context (ps : list (entity * produced)) (i : nat) (e : exn) (Hi : ps !! i = Some (Publisher, Crashed e)).

Lemma dead_not_finished w : agree ps w → publishers_finished (phases w) = false.
Proof using Hi.
  intros (Hl1&Hl2&Hall). apply not_true_iff_false. unfold publishers_finished. rewrite forallb_forall. intros H.
  assert (is_Some (phases w !! i)) as [[k ph] Hp] by (apply lookup_lt_is_Some; rewrite Hl1; by eapply lookup_lt_Some).
  assert (is_Some (return_codes w !! i)) as [c Hc] by (apply lookup_lt_is_Some; rewrite Hl2; by eapply lookup_lt_Some).
  destruct (Hall i _ _ _ Hi Hp Hc) as [Hk Hph]. cbn in Hk, Hph. subst k.
  specialize (H (Publisher, ph)). rewrite orb_true_iff in H.
  destruct H as [H|H]; [by eapply list_elem_of_In, list_elem_of_lookup_2| |by apply bool_decide_eq_true in H].
  destruct ph; try done; by destruct Hph as (_&_&Hph); destruct (Hph e).
Qed.
Lemma dead_publisher_step w w' :
  agree ps w → steps ps w w' → (Subscriber, Stopped) ∉ phases w → (Subscriber, Stopped) ∉ phases w'.
Proof using Hi.
  intros Ha (j&ev&(x&k&ph&ph'&_&Hj&Ht&->&_)%act_inv) Hno [n Hn]%list_elem_of_lookup.
  destruct (decide (j = n)) as [<-|Hne].
  - rewrite list_lookup_insert_eq in Hn by by eapply lookup_lt_Some. injection Hn as -> ->.
    destruct ph, ev; try discriminate Ht. cbn in Ht. by rewrite dead_not_finished in Ht.
  - rewrite list_lookup_insert_ne in Hn by done. apply Hno. by eapply list_elem_of_lookup_2.
Qed.
Lemma dead_publisher_reached w : rtc (steps ps) (initial ps) w → (Subscriber, Stopped) ∉ phases w.
Proof using Hi.
  intros H. assert ((Subscriber, Stopped) ∉ phases (initial ps)) as H0.
  { intros ([|]&[=]&_)%list_elem_of_fmap. }
  revert H0. assert (agree ps (initial ps)) as Ha by apply agree_initial. revert Ha.
  induction H as [|w1 w2 w3 Hs _ IH]; [done|]. intros Ha Hno.
  apply IH; [by eapply agree_step|by eapply dead_publisher_step].
Qed.
End dead.

(** A subscriber's code-producing part never ends by an exception. *)
Lemma subscriber_not_crashed check script e : run_subscriber_shape_main check script ≠ Crashed e.
Proof.
  assert (∀ codes i, stored codes i ≠ Crashed e) as Hst by (intros codes i; unfold stored; by case_match).
  assert (∀ codes script next, (∀ t s, next t s ≠ Crashed e) → expect_step codes script next ≠ Crashed e) as Hstep.
  { intros codes sc next H. unfold expect_step. destruct sc; [done|]. by case_match. }
  unfold run_subscriber_shape_main. do 3 (apply Hstep; intros ? ?).
  pose proof (run_check_no_raise check t1 s1) as H. destruct (run_check check t1 s1) as [c|e'|]; [done| |done].
  by destruct (H e').
Qed.
Lemma launch_lookup check parameters applications ps i p a :
  launch check parameters applications = Ok ps → parameters !! i = Some p → applications !! i = Some a →
  ∃ x, process check p a = Ok x ∧ ps !! i = Some x.
Proof.
  revert applications ps i. induction parameters as [|q parameters IH]; intros [|b applications] ps i; try done.
  cbn [launch]. intros (x&Hx&(xs&Hxs&[= <-])%bind_Ok)%bind_Ok. destruct i as [|i].
  - intros [= <-] [= <-]. by exists x.
  - intros Hp Ha. exact (IH applications xs i Hxs Hp Ha).
Qed.

(** ** Properties *)

(** C2: a test from its applications to its result.  When pexpect answers every question,
    each process determines a code from the answers of its own application alone; in every
    interleaving of the processes at most three steps per process are made; and where
    nothing more can happen (no application needs to close its output for that) all
    processes have stopped, the shared list has these codes in the order of the
    parameters, and [run_test] gives the test the result that belongs to them: passed when
    they are the expected ones, else skipped when one reports an unsupported feature,
    else failed. *)
Theorem test_ends name verbosity check parameters expected applications outputs
    (Hruns : Forall2 (runs check) parameters applications)
    (Hexp : length expected = length parameters) (Hout : length outputs = length parameters) :
  ∃ ps codes, launch check parameters applications = Ok ps ∧
    (∀ i p a, parameters !! i = Some p → applications !! i = Some a →
       ∃ c, codes !! i = Some c ∧ code_of check p a c) ∧
    (∀ n w, nsteps (steps ps) n (initial ps) w → (n ≤ 3 * length parameters)%nat) ∧
    ∀ w, rtc (steps ps) (initial ps) w → at_rest ps w →
      joined w ∧ return_codes w = Code <$> codes ∧
      ∃ lines r, run_test name parameters expected verbosity (return_codes w) outputs = Ok (lines, r) ∧
                 verdict codes expected r.
Proof.
  destruct (launch_codes check parameters applications Hruns) as (ps&codes&Hps&Hl&Hw&Hlc&Hcodes).
  exists ps, codes. split; [done|]. split; [done|]. split.
  - intros n w H. rewrite <- Hl. by apply steps_bound with w.
  - intros w H Hrest. pose proof (at_rest_stopped ps codes Hw w H Hrest) as Hs. split.
    { eapply Forall_impl; [exact Hs|]. intros x Hx. by left. }
    assert (return_codes w = Code <$> codes) as -> by by apply (stopped_codes ps codes Hw). split; [done|].
    apply run_test_result; [by eapply runs_classify|done..].
Qed.
(** A publisher that sends and a subscriber that receives one sample. *)
Definition demo_parameters : list string := ["-P -t Square"; "-S -t Square"].
Definition demo_publisher : application := Application (Ok ()) (replicate 504 (Reply 0 "")).
Definition demo_subscriber (text : string) : application :=
  Application (Ok ()) [Reply 0 ""; Reply 0 ""; Reply 0 text; Reply 1 ""].
Definition schedule (ps : list (entity * produced)) (events : list (nat * event)) : option world :=
  foldl (λ w (x : nat * event), w ← w; act ps w x.1 x.2) (Some (initial ps)) events.
Lemma demo_answers p q text :
  classify p = Ok Publisher → classify q = Ok Subscriber →
  Forall2 (runs basic_check) [p; q] [demo_publisher; demo_subscriber text].
Proof.
  intros Hp Hq. repeat constructor.
  - exists Publisher. split; [done|]. split; [done|].
    exists (Reply 0 ""), (Reply 0 ""), (Reply 0 ""), (replicate 501 (Reply 0 "")).
    split_and!; try (unfold index_below; cbn; lia); [done|apply Forall_replicate; unfold index_below; cbn; lia|].
    rewrite length_replicate. unfold MAX_SAMPLES_SAVED. lia.
  - exists Subscriber. split; [done|]. split; [done|].
    exists (Reply 0 ""), (Reply 0 ""), (Reply 0 text), [Reply 1 ""].
    split_and!; try (unfold index_below; cbn; lia); [done|]. exists (Reply 1 ""). split; [by left|done].
Qed.
(** The processes in two orders. *)
Example two_orders :
  let text := "Square BLUE 001 001 [7]" in
  match launch basic_check demo_parameters [demo_publisher; demo_subscriber text] with
  | Ok ps =>
      schedule ps [(0, EWork); (1, EWork); (0, EDrain); (0, EJoin); (1, EJoin)]
      = schedule ps [(1, EWork); (0, EWork); (0, EDrain); (0, EJoin); (1, EJoin)]
      ∧ return_codes <$> schedule ps [(0, EWork); (1, EWork); (0, EDrain); (0, EJoin); (1, EJoin)]
        = Some [Code OK; Code OK]
  | Raise _ => False
  end.
Proof. by vm_compute. Qed.
Lemma test_ends_witness :
  ∃ ps codes, launch basic_check demo_parameters [demo_publisher; demo_subscriber "Square BLUE 001 001 [7]"] = Ok ps ∧
    ∀ w, rtc (steps ps) (initial ps) w → at_rest ps w →
      joined w ∧ ∃ lines r, run_test "T" demo_parameters [OK; OK] false (return_codes w) ["a"; "b"] = Ok (lines, r) ∧
                 verdict codes [OK; OK] r.
Proof.
  destruct (test_ends "T" false basic_check demo_parameters [OK; OK]
              [demo_publisher; demo_subscriber "Square BLUE 001 001 [7]"] ["a"; "b"]
              (demo_answers "-P -t Square" "-S -t Square" _ eq_refl eq_refl) eq_refl eq_refl) as (ps&codes&Hps&_&_&H).
  exists ps, codes. split; [exact Hps|]. intros w Hw Hr. destruct (H w Hw Hr) as (Hj&_&Hv). by split.
Defined.

(** C21: a publisher's process that dies before it sets its event, as it does when
    [pexpect.spawnu] finds no executable, makes [run_test] wait for ever: its subscribers
    wait for that event without a timeout, so in no state that can be reached do all joins
    return, and after at most three steps per process nothing moves any more. *)
Theorem dead_publisher_hangs check parameters applications ps i p a e j q b
    (Hps : launch check parameters applications = Ok ps)
    (Hp : parameters !! i = Some p) (Ha : applications !! i = Some a)
    (Hpub : classify p = Ok Publisher) (Hdead : spawned a = Raise e)
    (Hq : parameters !! j = Some q) (Hb : applications !! j = Some b)
    (Hsub : classify q = Ok Subscriber) (Hspawn : spawned b = Ok ()) :
  (∀ w, rtc (steps ps) (initial ps) w → ¬ joined w) ∧
  (∀ n w, nsteps (steps ps) n (initial ps) w → (n ≤ 3 * length ps)%nat).
Proof.
  destruct (launch_lookup _ _ _ _ _ _ _ Hps Hp Ha) as (x&Hx&Hxi).
  destruct (launch_lookup _ _ _ _ _ _ _ Hps Hq Hb) as (y&Hy&Hyj).
  unfold process in Hx, Hy. rewrite Hpub, Hdead in Hx. rewrite Hsub, Hspawn in Hy.
  injection Hx as <-. injection Hy as <-.
  split; [|intros n w; apply steps_bound]. intros w Hw Hjoin.
  pose proof (dead_publisher_reached ps i e Hxi w Hw) as Hno.
  destruct (agree_reached ps w Hw) as (Hl1&Hl2&Hall).
  assert (is_Some (phases w !! j)) as [[k ph] Hphj] by (apply lookup_lt_is_Some; rewrite Hl1; by eapply lookup_lt_Some).
  assert (is_Some (return_codes w !! j)) as [c Hc] by (apply lookup_lt_is_Some; rewrite Hl2; by eapply lookup_lt_Some).
  destruct (Hall j _ _ _ Hyj Hphj Hc) as [Hk Hph]. cbn in Hk, Hph. subst k.
  unfold joined in Hjoin. rewrite Forall_lookup in Hjoin. destruct (Hjoin j _ Hphj) as [Hs|Hs]; cbn in Hs; subst ph.
  - apply Hno. by eapply list_elem_of_lookup_2.
  - destruct Hph as (_&err&Herr). by apply subscriber_not_crashed in Herr.
Qed.
(** The publisher is dead, the subscriber waits for it. *)
Lemma dead_publisher_hangs_witness :
  ¬ joined (World [(Publisher, Dead); (Subscriber, Finished)] [Unset 0; Code DATA_NOT_RECEIVED]).
Proof.
  apply (dead_publisher_hangs basic_check demo_parameters
           [Application (Raise ExceptionPexpect) []; Application (Ok ()) [Reply 0 ""; Reply 0 ""; Reply 4 ""]]
           [(Publisher, Crashed ExceptionPexpect); (Subscriber, Wrote DATA_NOT_RECEIVED)]
           0 "-P -t Square" (Application (Raise ExceptionPexpect) []) ExceptionPexpect
           1 "-S -t Square" (Application (Ok ()) [Reply 0 ""; Reply 0 ""; Reply 4 ""])); try reflexivity.
  eapply rtc_l; [exists 0, ECrash; reflexivity|].
  eapply rtc_l; [exists 1, EWork; reflexivity|]. apply rtc_refl.
Defined.

(** ** A run of the program *)

(** What is left of a test when its processes are joined, for [Driver.main]: the final
    list of codes, as [stopped_codes] shows, and the outputs.  (Where a publisher is dead
    no list is final, by [dead_publisher_reached]; the theorem is about applications that
    answer.) *)
Section program.
Context (applications_of : string → list application) (outputs_of : string → list string).

Definition processes (case : string) (parameters : list string) (check : check_function) :
    list cell * list string :=
  (match launch check parameters (applications_of case) with Ok ps => cells ps.*2 | Raise _ => [] end,
   outputs_of case).

(** The applications of a call answer. *)
Definition call_runs (c : call) : Prop :=
  Forall2 (runs (c_check c)) (c_apps c) (applications_of (c_name c)) ∧
  length (outputs_of (c_name c)) = length (c_apps c).
(** The result of a call is that of the codes of its applications. *)
Definition call_result (c : call) (r : test_result) : Prop :=
  ∃ codes, length codes = length (c_apps c) ∧ verdict codes (c_expected c) r ∧
    ∀ i p a, c_apps c !! i = Some p → applications_of (c_name c) !! i = Some a →
      ∃ code, codes !! i = Some code ∧ code_of (c_check c) p a code.

Lemma cells_wrote codes : cells (Wrote <$> codes) = Code <$> codes.
Proof.
  unfold cells. apply list_eq. intros i. rewrite list_lookup_imap, !list_lookup_fmap. by destruct (codes !! i).
Qed.
(** The run of [run_test] that gave a result. *)
Definition call_run (c : call) (codes : list ReturnCode) (r : test_result) : Prop :=
  length codes = length (c_apps c) ∧
  (∀ i p a, c_apps c !! i = Some p → applications_of (c_name c) !! i = Some a →
      ∃ code, codes !! i = Some code ∧ code_of (c_check c) p a code) ∧
  ∃ verbosity lines, run_test (c_name c) (c_apps c) (c_expected c) verbosity (Code <$> codes) (outputs_of (c_name c))
                     = Ok (lines, r).
Lemma call_run_result c codes r :
  call_runs c → length (c_expected c) = length (c_apps c) → call_run c codes r → call_result c r.
Proof.
  intros [Hr Ho] He (Hl&Hc&verbosity&lines&Hrun). exists codes. split; [done|]. split; [|done].
  destruct (run_test_result (c_name c) (c_apps c) (c_expected c) verbosity codes (outputs_of (c_name c)))
    as (lines'&r'&Hrun'&Hv); [by eapply runs_classify|done..|].
  rewrite Hrun in Hrun'. by injection Hrun' as _ <-.
Qed.
Lemma call_ends verbosity c :
  call_runs c → length (c_expected c) = length (c_apps c) →
  ∃ lines r codes, exec_call (exec processes verbosity) c = Ok (lines, r) ∧ call_run c codes r.
Proof.
  intros [Hr Ho] He. destruct (launch_codes _ _ _ Hr) as (ps&codes&Hps&Hl&Hw&Hlc&Hcodes).
  unfold exec_call, exec, processes. rewrite Hps, Hw, cells_wrote.
  destruct (run_test_result (c_name c) (c_apps c) (c_expected c) verbosity codes (outputs_of (c_name c)))
    as (lines&r&Hrun&_); [by eapply runs_classify|done..|].
  exists lines, r, codes. split; [done|]. split; [done|]. split; [done|]. by exists verbosity, lines.
Qed.

(** The calls of a run on well-formed test suites have as many codes as applications. *)
Lemma calls_lengths o members c :
  Forall (λ s, Forall (λ p, case_ok p.2) s.2) (suites_of members) → c ∈ calls o members →
  length (c_expected c) = length (c_apps c).
Proof.
  unfold calls. intros Hok (s&Hc&Hs)%list_elem_of_bind. unfold calls_of in Hc.
  apply list_elem_of_fmap in Hc as (p&->&[_ Hp]%list_elem_of_filter). cbn.
  rewrite Forall_forall in Hok. specialize (Hok s Hs). rewrite Forall_forall in Hok.
  destruct (Hok p Hp) as [Hl _]. by rewrite length_fmap.
Qed.
Lemma calls_end verbosity cs :
  Forall call_runs cs → Forall (λ c, length (c_expected c) = length (c_apps c)) cs →
  ∃ rs, mapM (named (exec processes verbosity)) cs = Ok rs ∧
    Forall2 (λ c r, r.1 = c_name c ∧ ∃ codes, call_run c codes r.2.2) cs rs.
Proof.
  induction 1 as [|c cs Hc _ IH]; intros Hl; [by exists []|].
  apply Forall_cons in Hl as [Hlc Hl]. destruct (IH Hl) as (rs&Hrs&Hall).
  destruct (call_ends verbosity c Hc Hlc) as (lines&r&codes&Hr&Hres).
  exists ((c_name c, (lines, r)) :: rs). split; [|constructor; [split; [done|by exists codes]|done]].
  change (mapM (named (exec processes verbosity)) (c :: cs))
    with (y ← named (exec processes verbosity) c; k ← mapM (named (exec processes verbosity)) cs; Ok (y :: k)).
  assert (named (exec processes verbosity) c = Ok (c_name c, (lines, r))) as -> by (unfold named; by rewrite Hr).
  by rewrite Hrs.
Qed.

Lemma main_calls o verbosity output_name date_time members files pub sub rs :
  product_name (publisher o) = Ok pub → product_name (subscriber o) = Ok sub →
  Forall (λ s, names_known o s.2 ∧ Forall (λ p, case_ok p.2) s.2) (suites_of members) →
  mapM (named (exec processes verbosity)) (calls o members) = Ok rs →
  main processes o verbosity output_name date_time members files =
  Ok (dset (filename_report output_name date_time pub sub)
        (xml_before output_name files ++ [(pub +:+ "---" +:+ sub, (λ r, (r.1, r.2.2)) <$> rs)])%list files).
Proof.
  intros Hp Hs Hok Hrs. unfold main. rewrite Hp, Hs. cbn [mbind result_bind].
  rewrite run_members_calls by done. by rewrite Hrs.
Qed.
End program.

(** The module test_suite, of which the program keeps the dictionaries. *)
Definition test_suite_members : list (string * option suite) :=
  [("__builtins__", Some []); ("rtps_test_suite_1", Some rtps_test_suite_1)].
Lemma test_suite_ok o :
  names_known o rtps_test_suite_1 →
  Forall (λ s, names_known o s.2 ∧ Forall (λ p, case_ok p.2) s.2) (suites_of test_suite_members).
Proof.
  intros H. constructor; [|constructor]. split; [exact H|].
  eapply Forall_impl; [exact cases_well_formed|]. by intros p [Hp _].
Qed.

(** A run whose applications answer, with the runs of [run_test] behind its report. *)
Lemma suite_runs applications_of outputs_of o verbosity output_name date_time files pub sub :
  product_name (publisher o) = Ok pub → product_name (subscriber o) = Ok sub →
  names_known o rtps_test_suite_1 →
  Forall (call_runs applications_of outputs_of) (calls o test_suite_members) →
  ∃ cases : list (string * test_result),
    main (processes applications_of outputs_of) o verbosity output_name date_time test_suite_members files
    = Ok (dset (filename_report output_name date_time pub sub)
            (xml_before output_name files ++ [(pub +:+ "---" +:+ sub, cases)])%list files) ∧
    Forall2 (λ c p, p.1 = c_name c ∧ ∃ codes, call_run applications_of outputs_of c codes p.2)
      (calls o test_suite_members) cases ∧
    Forall (λ c, length (c_expected c) = length (c_apps c)) (calls o test_suite_members).
Proof.
  intros Hp Hs Hnames Hruns. pose proof (test_suite_ok o Hnames) as Hok.
  assert (Forall (λ c, length (c_expected c) = length (c_apps c)) (calls o test_suite_members)) as Hlen.
  { apply Forall_forall. intros c Hc. apply (calls_lengths o test_suite_members); [|done].
    eapply Forall_impl; [exact Hok|]. by intros s [_ H]. }
  destruct (calls_end applications_of outputs_of verbosity (calls o test_suite_members) Hruns Hlen) as (rs&Hrs&Hall).
  rewrite (main_calls _ _ _ _ _ _ _ _ _ _ _ Hp Hs Hok Hrs). eexists. split; [done|]. split; [|done].
  by apply Forall2_fmap_r.
Qed.

(** C1: a whole run of the program on its test suite.  When pexpect answers every question
    of every selected test, the program ends without an exception; the report is written,
    after what it had; it has one case for each selected test of the 105, in order; and
    each case has the result that belongs to the codes its applications' answers
    determine: passed exactly when these are the expected ones. *)
Theorem suite_run_written applications_of outputs_of o verbosity output_name date_time files pub sub
    (Hp : product_name (publisher o) = Ok pub) (Hs : product_name (subscriber o) = Ok sub)
    (Hnames : names_known o rtps_test_suite_1)
    (Hruns : Forall (call_runs applications_of outputs_of) (calls o test_suite_members)) :
  ∃ files' cases,
    main (processes applications_of outputs_of) o verbosity output_name date_time test_suite_members files = Ok files' ∧
    dget (filename_report output_name date_time pub sub) files'
    = Some (xml_before output_name files ++ [(pub +:+ "---" +:+ sub, cases)])%list ∧
    (∀ f, f ≠ filename_report output_name date_time pub sub → dget f files' = dget f files) ∧
    Forall2 (λ c p, p.1 = c_name c ∧ call_result applications_of c p.2) (calls o test_suite_members) cases.
Proof.
  destruct (suite_runs applications_of outputs_of o verbosity output_name date_time files pub sub Hp Hs Hnames Hruns)
    as (cases&Hmain&Hcases&Hlen).
  eexists _, cases. split; [exact Hmain|]. split; [apply dget_dset_eq|]. split; [intros f Hf; by apply dget_dset_ne|].
  apply Forall2_same_length_lookup_2; [by eapply Forall2_length|]. intros i c p Hc Hpi.
  destruct (Forall2_lookup_lr _ _ _ _ _ _ Hcases Hc Hpi) as (Hn&codes&Hrun). split; [done|].
  rewrite Forall_lookup in Hruns, Hlen.
  apply (call_run_result applications_of outputs_of c codes); [by eapply Hruns|by eapply Hlen|done].
Qed.
(** The test [Test_Domain_0], whose applications meet. *)
Definition demo_run : options :=
  Options "./a-1_shape_main" "./b-2_shape_main" (Some ["Test_Domain_0"]) None "2" 0%Z.
Lemma suite_run_written_witness :
  ∃ files' r,
    main (processes (λ _, [demo_publisher; demo_subscriber "Square BLUE 001 001 [7]"]) (λ _, ["a"; "b"]))
      demo_run false (Some "r.xml") "" test_suite_members [] = Ok files' ∧
    dget "r.xml" files' = Some [("a-1---b-2", [("rtps_test_suite_1_Test_Domain_0", r)])].
Proof.
  assert (calls demo_run test_suite_members
          = [Call "rtps_test_suite_1_Test_Domain_0" ["-P -t Square -d 0 -x 2"; "-S -t Square -d 0 -b -x 2"]
               [OK; OK] basic_check]) as Hcalls by (vm_compute; reflexivity).
  assert (names_known demo_run rtps_test_suite_1) as Hn.
  { split; [|done]. intros l i [= <-] ->%list_elem_of_singleton. apply (bool_decide_unpack _). vm_compute. exact I. }
  destruct (suite_run_written (λ _, [demo_publisher; demo_subscriber "Square BLUE 001 001 [7]"]) (λ _, ["a"; "b"])
              demo_run false (Some "r.xml") "" [] "a-1" "b-2" eq_refl eq_refl Hn)
    as (files'&cases&Hm&Hf&_&Hc).
  - rewrite Hcalls. constructor; [|constructor]. split; [|done]. by apply demo_answers; vm_compute.
  - rewrite Hcalls in Hc. inversion Hc as [|c p cs ps [Hname _] Hrest]; subst. inversion Hrest; subst.
    destruct p as [n r]. cbn in Hname. subst n. exists files', r. split; [exact Hm|exact Hf].
Defined.
