(* ===== verification/ReportStats.v ===== *)
(** * Report comparison: statistics over many reports
      (benchmarking/junit_compare/analyzer.py, report_data.py, explain.py)

    The counts of every test over a list of reports, the numbers of the explanation and of
    a group of parallel runs.  A file is its name and its document. *)

From S2P Require Import Prelude PyStr PyFloat PySort PyDict Regex Utilities FileRegistry ReportLoader ReportCompare.
From stdpp Require Import options.
Local Open Scope string_scope.

(** ** Counts *)

Definition xml_file : Type := string * element.

(** [d[k] = d.get(k, 0) + n] *)
Definition add_to {K} `{EqDecision K} (d : dict K nat) (k : K) (n : nat) : dict K nat :=
  dset k (default 0 (dget k d) + n) d.
(** [sum(v for k, v in d.items() if P(k))] *)
Definition sum_where {K} (P : K → Prop) `{∀ k, Decision (P k)} (d : dict K nat) : nat :=
  sum_list (snd <$> filter (λ p : K * nat, P p.1) d).

Record StatusSummaryRow := Row { label : string; rich_counts : dict RichStatus nat }.
Definition add (row : StatusSummaryRow) (rs : RichStatus) : StatusSummaryRow :=
  Row (label row) (add_to (rich_counts row) rs 1).
Definition count_of (row : StatusSummaryRow) (rs : RichStatus) : nat :=
  default 0 (dget rs (rich_counts row)).
Definition passed (row : StatusSummaryRow) : nat := count_of row PASSED + count_of row PASSED_AS_SKIPPED.
Definition skipped_unsupported (row : StatusSummaryRow) : nat := count_of row SKIPPED_UNSUPPORTED.
Definition total_real_fail (row : StatusSummaryRow) : nat :=
  sum_where (λ rs, rs ∉ [PASSED; PASSED_AS_SKIPPED; SKIPPED_UNSUPPORTED; SKIPPED_OTHER])
    (rich_counts row).
Definition failure (row : StatusSummaryRow) : nat :=
  sum_where (λ rs, startswith "failure" (status_value rs) = true) (rich_counts row).
Definition error (row : StatusSummaryRow) : nat := count_of row ERROR.
Definition skipped (row : StatusSummaryRow) : nat :=
  count_of row SKIPPED_UNSUPPORTED + count_of row SKIPPED_OTHER.
Definition total_fail (row : StatusSummaryRow) : nat := failure row + error row.
Definition is_flaky (row : StatusSummaryRow) : bool :=
  Nat.ltb 0 (passed row) && Nat.ltb 0 (total_real_fail row).

Definition fail_rate (row : StatusSummaryRow) : float :=
  percentage (Z.of_nat (total_real_fail row)) (Z.of_nat (passed row + total_real_fail row)).

Definition summary : Type := dict string StatusSummaryRow.
(** A row of the dictionary is a shared object: [add] changes it in place. *)
Definition add_status (totals : summary) (r : TestResult) : result summary :=
  let l := test_label r in
  let totals := if din l totals then totals else dset l (Row l []) totals in
  row ← dgetitem l totals; Ok (dset l (add row (rich_status r)) totals).
Definition add_file (totals : summary) (file : xml_file) : result summary :=
  p ← load_results file.2; mfold add_status totals (values p.2).
Definition _aggregate_statuses (files : list xml_file) : result summary := mfold add_file [] files.

Definition status_counts (row : StatusSummaryRow) : dict string nat :=
  [("passed", passed row); ("failure", failure row); ("error", error row); ("skipped", skipped row)].
(** [counts.get(k, 0)] *)
Definition cget (counts : dict string nat) (k : string) : nat := default 0 (dget k counts).
Definition failing_le : string * dict string nat → string * dict string nat → bool :=
  by_key (λ p : string * dict string nat,
            (- Z.of_nat (cget p.2 "failure") - Z.of_nat (cget p.2 "error"), p.1)%Z) (lex Z.leb str_le).
Definition summarize_test_statuses (files : list xml_file) : result (list (string * dict string nat)) :=
  totals ← _aggregate_statuses files;
  Ok (sort_by failing_le ((λ p : string * StatusSummaryRow, (p.1, status_counts p.2))
        <$> filter (λ p : string * StatusSummaryRow, 0 < total_fail p.2) totals)).
Definition summarize_all_statuses (files : list xml_file) : result (list (string * dict string nat)) :=
  totals ← _aggregate_statuses files;
  Ok ((λ p : string * StatusSummaryRow, (p.1, status_counts p.2)) <$> sort_by str_item_le totals).

(** ** Areas *)

Definition pub_sub_re : regex :=
  (RStar true cspace
   ⊙ RGroup 1 (RPlus (cnot (cis "-")) ⊙ RLit "-" ⊙ RPlus (cnot (cis "-"))) ⊙ RLit "---"
   ⊙ RGroup 2 (RPlus (cnot (cis "-")) ⊙ RLit "-" ⊙ RPlus (cnot cspace))
   ⊙ RPlus cspace ⊙ RLit "/")%re.
Definition _extract_pub_sub (l : string) : option (string * string) :=
  m ← re_match pub_sub_re l; Some (default "" (group 1 m), default "" (group 2 m)).
Definition feature_re : regex :=
  (RLit "/ rtps_test_suite_" ⊙ RPlus is_digit ⊙ RLit "_Test_" ⊙ RGroup 1 (RPlus is_alnum)
   ⊙ RLit "_" ⊙ RPlus is_digit)%re.
Definition feature_or (other : string) (l : string) : string :=
  match re_search feature_re l with Some m => default "" (group 1 m) | None => other end.
Definition _extract_feature : string → string := feature_or "Ostatní".

(** [d[f(x)] = d.get(f(x), 0) + n(x)] for every [x] of a list, [f(x)] being [None] for an
    [x] that is left out. *)
Definition tally {A K} `{EqDecision K} (f : A → option K) (n : A → nat) (l : list A) : dict K nat :=
  foldl (λ d x, match f x with Some k => add_to d k (n x) | None => d end) [] l.

(** ** A group of parallel runs *)

Record FlakyTestRow := Flaky { fl_label : string; pass_count : nat; fail_count : nat }.
Record ParallelGroupReport := Group {
  parallel_count : Z;
  run_count : nat;
  file_paths : list string;
  total_fail_raw : nat;
  total_pass_raw : nat;
  total_skip_raw : nat;
  total_unique_tests : nat;
  rich_status_totals : dict RichStatus nat;
  flaky_tests : list FlakyTestRow;
  flaky_pub : dict string nat;
  flaky_sub : dict string nat;
  flaky_pub_test_count : dict string nat;
  flaky_sub_test_count : dict string nat;
  flaky_feat : dict string nat;
  feature_fails : dict string nat;
  pub_fails : dict string nat;
  sub_fails : dict string nat
}.

Definition flaky_fail_rate (r : FlakyTestRow) : float :=
  percentage (Z.of_nat (fail_count r)) (Z.of_nat (pass_count r + fail_count r)).
Definition norm (g : ParallelGroupReport) (value : nat) : float :=
  ratio (Z.of_nat value) (Z.of_nat (run_count g)).
Definition flaky_count (g : ParallelGroupReport) : nat := length (flaky_tests g).
Definition flaky_pct (g : ParallelGroupReport) : float :=
  percentage (Z.of_nat (flaky_count g)) (Z.of_nat (total_unique_tests g)).
Definition rich_norm (g : ParallelGroupReport) (rs : RichStatus) : float :=
  norm g (default 0 (dget rs (rich_status_totals g))).

Definition add_counts (d : dict RichStatus nat) (row : StatusSummaryRow) : dict RichStatus nat :=
  foldl (λ d p, add_to d p.1 p.2) d (rich_counts row).
Definition flaky_row (row : string * StatusSummaryRow) : FlakyTestRow :=
  Flaky row.1 (passed row.2) (total_real_fail row.2).
Definition flaky_row_le : FlakyTestRow → FlakyTestRow → bool :=
  by_key (λ r, (- Z.of_nat (pass_count r + fail_count r))%Z) Z.leb.

(** The report of the rows of a group. *)
Definition group_report (par : Z) (paths : list string) (all_rows : summary) : ParallelGroupReport :=
  let rows := values all_rows in
  let status_summary := filter (λ p : string * StatusSummaryRow, 0 < total_real_fail p.2) all_rows in
  let flaky := sort_by flaky_row_le
                 (flaky_row <$> filter (λ p : string * StatusSummaryRow, is_flaky p.2 = true) all_rows) in
  let pub l := fst <$> _extract_pub_sub l in
  let sub l := snd <$> _extract_pub_sub l in
  let fails (p : string * StatusSummaryRow) := total_real_fail p.2 in
  Group par (length paths) paths
    (sum_list (total_real_fail <$> rows)) (sum_list (passed <$> rows))
    (sum_list (skipped_unsupported <$> rows)) (length all_rows) (foldl add_counts [] rows) flaky
    (tally (λ r, pub (fl_label r)) fail_count flaky) (tally (λ r, sub (fl_label r)) fail_count flaky)
    (tally (λ r, pub (fl_label r)) (λ _, 1) flaky) (tally (λ r, sub (fl_label r)) (λ _, 1) flaky)
    (tally (λ r, Some (_extract_feature (fl_label r))) fail_count flaky)
    (tally (λ p, Some (_extract_feature p.1)) fails status_summary)
    (tally (λ p, pub p.1) fails status_summary) (tally (λ p, sub p.1) fails status_summary).
Definition build_parallel_group_report (par : Z) (group_files : list xml_file) :
    result ParallelGroupReport :=
  all_rows ← _aggregate_statuses group_files; Ok (group_report par group_files.*1 all_rows).

Definition group_file (s : dict Z (list xml_file) * list xml_file) (file : xml_file) :
    dict Z (list xml_file) * list xml_file :=
  match parse_filename_meta file.1 with
  | Some meta => (dset (parallel meta) (default [] (dget (parallel meta) s.1) ++ [file])%list s.1, s.2)
  | None => (s.1, s.2 ++ [file])%list
  end.
(** The reports of the groups by their number of parallel runs, and the other files. *)
Definition build_explain_parallel_report (files : list xml_file) :
    result (list ParallelGroupReport * list string) :=
  let '(groups, ungrouped) := foldl group_file ([], []) files in
  reports ← mapM (λ g, build_parallel_group_report g.1 g.2) (sort_by (by_key fst Z.leb) groups);
  Ok (reports, ungrouped.*1).

(** ** The numbers of [generate_explanation] *)

Definition labels_of (files : list xml_file) : result (list (list string)) :=
  mapM (λ f : xml_file, p ← load_results f.2; Ok (test_label <$> values p.2)) files.
Definition all_test_labels (files : list xml_file) : result (gset string) :=
  ls ← labels_of files; Ok (list_to_set (concat ls)).

Definition fails_at_all (c : dict string nat) : bool :=
  Nat.ltb 0 (cget c "failure") || Nat.ltb 0 (cget c "error").
Definition largest (n : nat) (d : dict string nat) : list (string * nat) :=
  take n (sort_by (by_key (λ p : string * nat, (- Z.of_nat p.2)%Z) Z.leb) d).

(** The failures per feature, per publisher and per subscriber. *)
Definition summary_fails (p : string * dict string nat) : nat := cget p.2 "failure" + cget p.2 "error".
Definition feature_areas (l : list (string * dict string nat)) : dict string nat :=
  tally (λ p, Some (feature_or "Other" p.1)) summary_fails l.
Definition publisher_areas (l : list (string * dict string nat)) : dict string nat :=
  tally (λ p, fst <$> _extract_pub_sub p.1) summary_fails l.
Definition subscriber_areas (l : list (string * dict string nat)) : dict string nat :=
  tally (λ p, snd <$> _extract_pub_sub p.1) summary_fails l.

Record explanation := Explanation {
  total_unique : Z;
  perm_pass : Z;
  perm_fail : Z;
  mixed : Z;
  top_features : list (string * nat);
  top_publishers : list (string * nat);
  top_subscribers : list (string * nat)
}.
Definition explain (files : list xml_file) : result explanation :=
  status_summary ← summarize_test_statuses files;
  labels ← all_test_labels files;
  let total := Z.of_nat (size labels) in
  let count (P : dict string nat → bool) :=
    Z.of_nat (length (filter (λ p : string * dict string nat, P p.2 = true) status_summary)) in
  Ok (Explanation total (total - Z.of_nat (length status_summary))
        (count (λ c, Nat.eqb (cget c "passed") 0 && fails_at_all c))
        (count (λ c, Nat.ltb 0 (cget c "passed") && fails_at_all c))
        (largest 10 (feature_areas status_summary)) (largest 5 (publisher_areas status_summary))
        (largest 5 (subscriber_areas status_summary))).

(** ** A row counts *)

Definition occurs (P : RichStatus → Prop) `{∀ s, Decision (P s)} (ss : list RichStatus) : nat :=
  length (filter P ss).
Lemma occurs_cons (P : RichStatus → Prop) `{∀ s, Decision (P s)} s ss :
  occurs P (s :: ss) = (if decide (P s) then 1 else 0) + occurs P ss.
Proof. unfold occurs. rewrite filter_cons. by case_decide. Qed.
Lemma occurs_or (P Q R : RichStatus → Prop) `{∀ s, Decision (P s)} `{∀ s, Decision (Q s)}
    `{∀ s, Decision (R s)} ss :
  (∀ s, P s ↔ Q s ∨ R s) → (∀ s, Q s → ¬ R s) → occurs P ss = occurs Q ss + occurs R ss.
Proof.
  intros HP HQ. induction ss as [|s ss IH]; [done|]. rewrite !occurs_cons, IH.
  specialize (HP s). specialize (HQ s). repeat case_decide; try lia; tauto.
Qed.
Lemma occurs_pos (P : RichStatus → Prop) `{∀ s, Decision (P s)} ss :
  0 < occurs P ss ↔ Exists P ss.
Proof.
  induction ss as [|s ss IH].
  - rewrite Exists_nil. unfold occurs. cbn. lia.
  - rewrite occurs_cons, Exists_cons, <- IH. case_decide; [split; [auto|lia]|]. naive_solver lia.
Qed.

Lemma sum_where_add_to (P : RichStatus → Prop) `{∀ s, Decision (P s)} d s n :
  sum_where P (add_to d s n) = sum_where P d + (if decide (P s) then n else 0).
Proof.
  unfold add_to, sum_where. induction d as [|[t m] d IH]; cbn [dget dset].
  - rewrite filter_cons. cbn [fst]. case_decide; cbn; lia.
  - destruct (decide (s = t)) as [<-|Hne]; rewrite !filter_cons; cbn [fst]; cbn [default].
    + repeat case_decide; cbn; lia.
    + destruct (decide (P t)); rewrite ?fmap_cons; cbn [sum_list]; cbn [snd]; unfold sum_list in *;
        cbn [sum_list_with foldr] in *; lia.
Qed.
Lemma get_add_to {K} `{EqDecision K} (d : dict K nat) k n k' :
  default 0 (dget k' (add_to d k n)) = default 0 (dget k' d) + (if decide (k' = k) then n else 0).
Proof. unfold add_to. rewrite dget_dset. case_decide; [subst; done|lia]. Qed.

(** The row of a test with the statuses [ss]. *)
Definition row_with (l : string) (ss : list RichStatus) : StatusSummaryRow := foldl add (Row l []) ss.
Lemma row_with_snoc l ss s : row_with l (ss ++ [s]) = add (row_with l ss) s.
Proof. unfold row_with. by rewrite foldl_app. Qed.
Lemma occurs_snoc (P : RichStatus → Prop) `{∀ s, Decision (P s)} ss s :
  occurs P (ss ++ [s]) = occurs P ss + (if decide (P s) then 1 else 0).
Proof. unfold occurs. rewrite filter_app, length_app, filter_cons. case_decide; cbn; lia. Qed.

Lemma row_label l ss : label (row_with l ss) = l.
Proof. induction ss as [|s ss IH] using rev_ind; [done|]. by rewrite row_with_snoc. Qed.
Lemma row_wf l ss : wf (rich_counts (row_with l ss)).
Proof.
  induction ss as [|s ss IH] using rev_ind; [constructor|]. rewrite row_with_snoc. by apply wf_dset.
Qed.
Lemma row_count l ss s : count_of (row_with l ss) s = occurs (λ t, t = s) ss.
Proof.
  induction ss as [|t ss IH] using rev_ind; [done|]. rewrite row_with_snoc, occurs_snoc.
  unfold count_of, add in *. cbn [rich_counts]. rewrite get_add_to, IH. repeat case_decide; congruence.
Qed.
Lemma row_sum l ss (P : RichStatus → Prop) `{∀ s, Decision (P s)} :
  sum_where P (rich_counts (row_with l ss)) = occurs P ss.
Proof.
  induction ss as [|t ss IH] using rev_ind; [done|]. rewrite row_with_snoc, occurs_snoc.
  unfold add. cbn [rich_counts]. by rewrite sum_where_add_to, IH.
Qed.

Definition passes (s : RichStatus) : Prop := s ∈ [PASSED; PASSED_AS_SKIPPED].
Definition skips (s : RichStatus) : Prop := s ∈ [SKIPPED_UNSUPPORTED; SKIPPED_OTHER].
Definition fails (s : RichStatus) : Prop := ¬ passes s ∧ ¬ skips s.
#[export] Instance passes_dec s : Decision (passes s).
Proof. unfold passes. apply _. Defined.
#[export] Instance skips_dec s : Decision (skips s).
Proof. unfold skips. apply _. Defined.
#[export] Instance fails_dec s : Decision (fails s).
Proof. unfold fails. apply _. Defined.
#[export] Typeclasses Opaque passes skips fails.

Lemma occurs_ext (P Q : RichStatus → Prop) `{∀ s, Decision (P s)} `{∀ s, Decision (Q s)} ss :
  (∀ s, P s ↔ Q s) → occurs P ss = occurs Q ss.
Proof.
  intros HPQ. induction ss as [|s ss IH]; [done|]. rewrite !occurs_cons, IH.
  specialize (HPQ s). repeat case_decide; tauto.
Qed.
Lemma row_passed l ss : passed (row_with l ss) = occurs passes ss.
Proof.
  unfold passed. rewrite !row_count. symmetry.
  apply occurs_or; intros s; unfold passes; destruct s; set_solver.
Qed.
Lemma row_skipped l ss : skipped (row_with l ss) = occurs skips ss.
Proof.
  unfold skipped. rewrite !row_count. symmetry.
  apply occurs_or; intros s; unfold skips; destruct s; set_solver.
Qed.
Lemma row_real_fail l ss : total_real_fail (row_with l ss) = occurs fails ss.
Proof.
  unfold total_real_fail. rewrite row_sum. apply occurs_ext. intros s.
  unfold fails, passes, skips. destruct s; set_solver.
Qed.
(** The two ways to count the failures of a test agree. *)
Lemma row_total_fail l ss : total_fail (row_with l ss) = occurs fails ss.
Proof.
  unfold total_fail, failure, error. rewrite row_sum, row_count. symmetry.
  apply occurs_or; intros s; unfold fails, passes, skips; destruct s; cbn; set_solver.
Qed.

(** ** The rows of a list of files *)

(** The statuses of a test, in the order of the files. *)
Definition statuses (l : string) (rs : list TestResult) : list RichStatus :=
  rich_status <$> filter (λ r, test_label r = l) rs.
Definition row_for (l : string) (rs : list TestResult) : option StatusSummaryRow :=
  match statuses l rs with [] => None | ss => Some (row_with l ss) end.
Definition counts_all (totals : summary) (rs : list TestResult) : Prop :=
  wf totals ∧ ∀ l, dget l totals = row_for l rs.

Lemma statuses_snoc l rs r :
  statuses l (rs ++ [r]) = (statuses l rs ++ if decide (test_label r = l) then [rich_status r] else [])%list.
Proof.
  unfold statuses. rewrite filter_app, fmap_app, filter_cons. by case_decide.
Qed.
Lemma row_for_default l rs : default (Row l []) (row_for l rs) = row_with l (statuses l rs).
Proof. unfold row_for. by destruct (statuses l rs). Qed.
Lemma row_for_app l ss s :
  match (ss ++ [s])%list with [] => None | ss' => Some (row_with l ss') end
  = Some (add (row_with l ss) s).
Proof. rewrite <- row_with_snoc. by destruct ss. Qed.

(** One more result. *)
Lemma add_status_spec totals r :
  add_status totals r
  = Ok (let l := test_label r in
        dset l (add (default (Row l []) (dget l totals)) (rich_status r)) totals).
Proof.
  unfold add_status, din, dgetitem. cbv zeta. set (l := test_label r). case_bool_decide as H.
  - destruct H as [row E]. by rewrite E.
  - assert (l ∉ keys totals) as Hl by by rewrite <- dget_keys.
    rewrite dget_dset_eq. cbn [or_raise mbind result_bind]. rewrite (proj2 (dget_None _ _) Hl).
    rewrite (dset_fresh l (Row l [])) by done. rewrite dset_present by done. cbn [default].
    by rewrite dset_fresh.
Qed.
Lemma counts_all_step totals rs r :
  counts_all totals rs →
  ∃ totals', add_status totals r = Ok totals' ∧ counts_all totals' (rs ++ [r]).
Proof.
  intros [Hwf Hrow]. rewrite add_status_spec. eexists. split; [done|]. split; [by apply wf_dset|].
  intros l. cbv zeta. rewrite dget_dset. unfold row_for. rewrite statuses_snoc.
  destruct (decide (l = test_label r)) as [->|Hne].
  - rewrite decide_True by done. rewrite Hrow, row_for_default, row_for_app. done.
  - rewrite decide_False, app_nil_r by auto. apply Hrow.
Qed.
Lemma counts_all_results totals rs new :
  counts_all totals rs →
  ∃ totals', mfold add_status totals new = Ok totals' ∧ counts_all totals' (rs ++ new).
Proof.
  revert totals rs. induction new as [|r new IH]; intros totals rs H; cbn [mfold].
  - exists totals. by rewrite app_nil_r.
  - destruct (counts_all_step totals rs r H) as (t&->&Ht). cbn [mbind result_bind].
    destruct (IH t _ Ht) as (t'&->&Ht'). exists t'. by rewrite <- app_assoc in Ht'.
Qed.

Definition loadable (file : xml_file) : Prop := is_Ok (load_results file.2).
Definition results_of (files : list xml_file) : list TestResult := files ≫= (λ f, all_results f.2).

Lemma load_values root :
  is_Ok (load_results root) → ∃ s rs, load_results root = Ok (s, rs) ∧ values rs = all_results root.
Proof.
  rewrite load_results_spec. intros [p E]. case_decide; [|done]. do 2 eexists. split; [done|].
  unfold values. rewrite <- list_fmap_compose. by apply list_fmap_id.
Qed.
Lemma counts_all_files totals rs files :
  Forall loadable files → counts_all totals rs →
  ∃ totals', mfold add_file totals files = Ok totals' ∧ counts_all totals' (rs ++ results_of files).
Proof.
  revert totals rs. induction files as [|f files IH]; intros totals rs Hf H; cbn [mfold].
  - exists totals. by rewrite app_nil_r.
  - apply Forall_cons in Hf as [(s&d&E&V)%load_values Hf]. 
    assert (add_file totals f = mfold add_status totals (all_results f.2)) as ->.
    { unfold add_file. rewrite E. cbn [mbind result_bind snd]. by rewrite V. }
    destruct (counts_all_results totals rs (all_results f.2) H) as (t&->&Ht). cbn [mbind result_bind].
    destruct (IH t _ Hf Ht) as (t'&->&Ht'). exists t'. by rewrite <- app_assoc in Ht'.
Qed.
Lemma aggregate_counts files :
  Forall loadable files →
  ∃ totals, _aggregate_statuses files = Ok totals ∧ counts_all totals (results_of files).
Proof.
  intros Hf. destruct (counts_all_files [] [] files Hf) as (t&?&?); [|by exists t].
  split; [constructor|done].
Qed.

(** ** The numbers of the explanation *)

Definition some_status (P : RichStatus → Prop) (rs : list TestResult) (l : string) : Prop :=
  Exists P (statuses l rs).
#[export] Instance some_status_dec (P : RichStatus → Prop) `{∀ s, Decision (P s)} rs l :
  Decision (some_status P rs l).
Proof. unfold some_status. apply _. Defined.

Section filter_length.
Context {A : Type}.
Implicit Types (l : list A).
Lemma filter_length_ext (P Q : A → Prop) `{∀ x, Decision (P x)} `{∀ x, Decision (Q x)} l :
  (∀ x, x ∈ l → P x ↔ Q x) → length (filter P l) = length (filter Q l).
Proof.
  induction l as [|x l IH]; intros HPQ; [done|]. rewrite !filter_cons.
  pose proof (HPQ x ltac:(left)). assert (length (filter P l) = length (filter Q l)) as E
    by (apply IH; set_solver). repeat case_decide; cbn [length]; lia || tauto.
Qed.
Lemma filter_length_fmap {B} (f : A → B) (P : B → Prop) `{∀ x, Decision (P x)} l :
  length (filter P (f <$> l)) = length (filter (λ x, P (f x)) l).
Proof.
  induction l as [|x l IH]; [done|]. rewrite fmap_cons, !filter_cons. case_decide; cbn [length]; auto.
Qed.
Lemma filter_length_all l : length (filter (λ _ : A, True) l) = length l.
Proof. induction l as [|x l IH]; [done|]. rewrite filter_cons, decide_True by done. cbn [length]. by rewrite IH. Qed.
Lemma filter_length_not (P : A → Prop) `{∀ x, Decision (P x)} l :
  length (filter P l) + length (filter (λ x, ¬ P x) l) = length l.
Proof.
  induction l as [|x l IH]; [done|]. rewrite !filter_cons. repeat case_decide; cbn [length]; lia || tauto.
Qed.
Lemma filter_length_both (P Q : A → Prop) `{∀ x, Decision (P x)} `{∀ x, Decision (Q x)} l :
  length (filter P (filter Q l)) = length (filter (λ x, P x ∧ Q x) l).
Proof. by rewrite list_filter_filter. Qed.
Lemma filter_length_perm (P : A → Prop) `{∀ x, Decision (P x)} l l' :
  l ≡ₚ l' → length (filter P l) = length (filter P l').
Proof. by intros ->. Qed.
End filter_length.

(** The keys of the rows are the labels of the results. *)
Lemma counts_all_keys totals rs l :
  counts_all totals rs → l ∈ keys totals ↔ l ∈ test_label <$> rs.
Proof.
  intros [_ Hrow]. rewrite <- dget_keys, Hrow. unfold row_for. rewrite list_elem_of_fmap.
  destruct (statuses l rs) as [|s ss] eqn:E; split.
  - by intros [? ?].
  - intros (r&->&Hr). exfalso. apply (not_elem_of_nil (rich_status r)). rewrite <- E.
    unfold statuses. apply list_elem_of_fmap_2, list_elem_of_filter. done.
  - intros _. assert (s ∈ statuses l rs) as Hs by (rewrite E; left).
    unfold statuses in Hs. apply list_elem_of_fmap in Hs as (r&_&[<- Hr]%list_elem_of_filter).
    by exists r.
  - by eexists.
Qed.
Lemma counts_all_row totals rs l row :
  counts_all totals rs → (l, row) ∈ totals → row = row_with l (statuses l rs).
Proof.
  intros [Hwf Hrow] H%(in_dget l row totals Hwf). rewrite Hrow in H. unfold row_for in H.
  destruct (statuses l rs); [done|]. by injection H as <-.
Qed.
(** Tests are counted by their rows. *)
Lemma count_rows totals rs (P : StatusSummaryRow → Prop) (Q : string → Prop)
    `{∀ r, Decision (P r)} `{∀ l, Decision (Q l)} :
  counts_all totals rs → (∀ l, P (row_with l (statuses l rs)) ↔ Q l) →
  length (filter (λ p : string * StatusSummaryRow, P p.2) totals)
  = size (filter Q (list_to_set (test_label <$> rs) : gset string)).
Proof.
  intros Hc HPQ. assert (list_to_set (test_label <$> rs) = (list_to_set (keys totals) : gset string)) as ->.
  { apply set_eq. intros l. by rewrite !elem_of_list_to_set, (counts_all_keys totals rs l Hc). }
  assert (filter Q (list_to_set (keys totals) : gset string) = list_to_set (filter Q (keys totals))) as ->.
  { apply set_eq. intros l. rewrite elem_of_filter, !elem_of_list_to_set, list_elem_of_filter. done. }
  rewrite size_list_to_set by apply NoDup_filter, Hc. unfold keys. rewrite filter_length_fmap.
  apply filter_length_ext. intros [l row] Hin. cbn [fst snd].
  by rewrite (counts_all_row totals rs l row Hc Hin).
Qed.

Lemma labels_of_spec files :
  Forall loadable files →
  labels_of files = Ok ((λ f : xml_file, test_label <$> all_results f.2) <$> files).
Proof.
  induction 1 as [|f files (s&d&E&V)%load_values _ IH]; [done|]. rewrite fmap_cons, <- V.
  change (labels_of (f :: files))
    with (l ← (p ← load_results f.2; Ok (test_label <$> values p.2)); ls ← labels_of files; Ok (l :: ls)).
  by rewrite E, IH.
Qed.
Lemma labels_concat files :
  concat ((λ f : xml_file, test_label <$> all_results f.2) <$> files) = test_label <$> results_of files.
Proof.
  induction files as [|f files IH]; [done|]. rewrite fmap_cons. cbn [concat]. rewrite IH.
  unfold results_of. cbn [mbind list_bind]. by rewrite fmap_app.
Qed.

Lemma count_summary totals rs (C : dict string nat → bool) (Q : string → Prop) `{∀ l, Decision (Q l)} :
  counts_all totals rs →
  (∀ l, let row := row_with l (statuses l rs) in
        (C (status_counts row) = true ∧ 0 < total_fail row) ↔ Q l) →
  length (filter (λ p : string * dict string nat, C p.2 = true)
            (sort_by failing_le ((λ p : string * StatusSummaryRow, (p.1, status_counts p.2))
               <$> filter (λ p : string * StatusSummaryRow, 0 < total_fail p.2) totals)))
  = size (filter Q (list_to_set (test_label <$> rs) : gset string)).
Proof.
  intros Hc HQ. rewrite (filter_length_perm _ _ _ (sort_by_perm _ _)), filter_length_fmap.
  rewrite (filter_length_both (λ p : string * StatusSummaryRow, C (status_counts p.2) = true)
             (λ p : string * StatusSummaryRow, 0 < total_fail p.2)).
  rewrite <- (count_rows totals rs (λ row, C (status_counts row) = true ∧ 0 < total_fail row) Q Hc HQ).
  by apply filter_length_ext.
Qed.

Lemma row_passed_pos rs l : 0 < passed (row_with l (statuses l rs)) ↔ some_status passes rs l.
Proof. rewrite row_passed. apply occurs_pos. Qed.
Lemma row_fail_pos rs l : 0 < total_fail (row_with l (statuses l rs)) ↔ some_status fails rs l.
Proof. rewrite row_total_fail. apply occurs_pos. Qed.
Lemma fails_at_all_spec row : fails_at_all (status_counts row) = true ↔ 0 < total_fail row.
Proof.
  unfold fails_at_all. rewrite orb_true_iff, !Nat.ltb_lt. unfold total_fail.
  change (cget (status_counts row) "failure") with (failure row).
  change (cget (status_counts row) "error") with (error row). lia.
Qed.

Lemma size_filter_split (P Q : string → Prop) `{∀ l, Decision (P l)} `{∀ l, Decision (Q l)} (X : gset string) :
  size (filter P X) = size (filter (λ l, P l ∧ Q l) X) + size (filter (λ l, P l ∧ ¬ Q l) X).
Proof.
  rewrite <- size_union by set_solver. f_equal. apply set_eq. intros l.
  rewrite elem_of_union, !elem_of_filter. destruct (decide (Q l)); tauto.
Qed.
Lemma size_filter_not (P : string → Prop) `{∀ l, Decision (P l)} (X : gset string) :
  size X = size (filter P X) + size (filter (λ l, ¬ P l) X).
Proof.
  rewrite <- size_union by set_solver. f_equal. apply set_eq. intros l.
  rewrite elem_of_union, !elem_of_filter. destruct (decide (P l)); tauto.
Qed.

(** The numbers of the explanation of reports that can be loaded: the tests are the
    distinct labels of all results, the always passing ones those without a failure or an
    error in any report, the always failing ones those that failed and never passed, the
    mixed ones those that did both; together they are all tests. *)
Lemma explain_counts files (Hf : Forall loadable files) :
  let rs := results_of files in
  let tests : gset string := list_to_set (test_label <$> rs) in
  ∃ e, explain files = Ok e
    ∧ total_unique e = Z.of_nat (size tests)
    ∧ perm_pass e = Z.of_nat (size (filter (λ l, ¬ some_status fails rs l) tests))
    ∧ perm_fail e = Z.of_nat (size (filter (λ l, some_status fails rs l ∧ ¬ some_status passes rs l) tests))
    ∧ mixed e = Z.of_nat (size (filter (λ l, some_status fails rs l ∧ some_status passes rs l) tests))
    ∧ total_unique e = (perm_pass e + perm_fail e + mixed e)%Z.
Proof.
  intros rs tests. destruct (aggregate_counts files Hf) as (totals&Ha&Hc). fold rs in Hc.
  unfold explain, summarize_test_statuses, all_test_labels. rewrite Ha, labels_of_spec by done.
  cbn [mbind result_bind]. rewrite labels_concat. fold rs. fold tests. cbv zeta.
  match goal with |- ∃ e, Ok ?x = Ok e ∧ _ => set (x0 := x); exists x0 end. split; [done|].
  assert (∀ row, cget (status_counts row) "passed" = passed row) as Hp by done.
  assert (perm_fail x0 = Z.of_nat (size (filter (λ l, some_status fails rs l ∧ ¬ some_status passes rs l) tests)))
    as Hfail.
  { apply (f_equal Z.of_nat), (count_summary totals rs (λ c, Nat.eqb (cget c "passed") 0 && fails_at_all c));
      [done|]. intros l row. rewrite andb_true_iff, fails_at_all_spec, Nat.eqb_eq, Hp. unfold row.
    rewrite <- row_passed_pos, <- row_fail_pos. clear. lia. }
  assert (mixed x0 = Z.of_nat (size (filter (λ l, some_status fails rs l ∧ some_status passes rs l) tests)))
    as Hmixed.
  { apply (f_equal Z.of_nat), (count_summary totals rs (λ c, Nat.ltb 0 (cget c "passed") && fails_at_all c));
      [done|]. intros l row. rewrite andb_true_iff, fails_at_all_spec, Nat.ltb_lt, Hp. unfold row.
    rewrite <- row_passed_pos, <- row_fail_pos. clear. lia. }
  assert (perm_pass x0 = total_unique x0 - Z.of_nat (size (filter (some_status fails rs) tests)))%Z as Hpass.
  { cbn [x0 perm_pass total_unique]. rewrite sort_by_length, length_fmap. do 2 f_equal.
    exact (count_rows totals rs (λ row, 0 < total_fail row) (some_status fails rs) Hc (row_fail_pos rs)). }
  pose proof (size_filter_split (some_status fails rs) (some_status passes rs) tests).
  pose proof (size_filter_not (some_status fails rs) tests).
  assert (total_unique x0 = Z.of_nat (size tests)) as Htotal by done. clearbody x0.
  split; [done|]. split; [lia|]. split; [done|]. split; [done|]. lia.
Qed.
(** ** The totals of a group *)

Lemma sum_cons n l : sum_list (n :: l) = n + sum_list l.
Proof. done. Qed.

Lemma sum_list_fmap_plus {A} (f g h : A → nat) l :
  (∀ x, h x = f x + g x) → sum_list (h <$> l) = sum_list (f <$> l) + sum_list (g <$> l).
Proof.
  intros E. induction l as [|x l IH]; [done|]. rewrite !fmap_cons, !sum_cons, E, IH. lia.
Qed.
Lemma sum_list_one {A} `{EqDecision A} (k : A) w ks :
  NoDup ks → k ∈ ks → sum_list ((λ l, if decide (k = l) then w else 0) <$> ks) = w.
Proof.
  assert (∀ ks, k ∉ ks → sum_list ((λ l, if decide (k = l) then w else 0) <$> ks) = 0) as H0.
  { clear ks. intros ks. induction ks as [|l ks IH]; intros Hk; [done|]. rewrite fmap_cons, sum_cons.
    rewrite decide_False by set_solver. apply IH. set_solver. }
  induction ks as [|l ks IH]; [set_solver|]. intros [Hl Hnd]%NoDup_cons Hk. rewrite fmap_cons, sum_cons.
  case_decide as E; [subst l; rewrite H0 by done; lia|].
  apply IH; [done|set_solver].
Qed.
Lemma sum_over_labels (P : RichStatus → Prop) `{∀ s, Decision (P s)} rs ks :
  NoDup ks → (∀ r, r ∈ rs → test_label r ∈ ks) →
  sum_list ((λ l, occurs P (statuses l rs)) <$> ks) = occurs P (rich_status <$> rs).
Proof.
  intros Hnd. induction rs as [|r rs IH]; intros Hks.
  { clear. induction ks as [|l ks IH]; [done|]. rewrite fmap_cons. exact IH. }
  rewrite fmap_cons, occurs_cons, <- IH by set_solver.
  rewrite <- (sum_list_one (test_label r) (if decide (P (rich_status r)) then 1 else 0) ks) by set_solver.
  apply sum_list_fmap_plus. intros l. unfold statuses. rewrite filter_cons.
  case_decide; [by rewrite fmap_cons, occurs_cons|done].
Qed.
(** The sum over the rows of what each row counts. *)
Lemma sum_over_rows totals rs (f : StatusSummaryRow → nat) (P : RichStatus → Prop) `{∀ s, Decision (P s)} :
  counts_all totals rs → (∀ l ss, f (row_with l ss) = occurs P ss) →
  sum_list (f <$> values totals) = occurs P (rich_status <$> rs).
Proof.
  intros Hc Hf. rewrite <- (sum_over_labels P rs (keys totals)); [|apply Hc|].
  - unfold keys, values. rewrite <- !list_fmap_compose. f_equal. apply list_fmap_ext.
    intros i [l row] Hi%list_elem_of_lookup_2. cbn. by rewrite (counts_all_row totals rs l row Hc Hi), Hf.
  - intros r Hr. apply (counts_all_keys totals rs _ Hc). by apply list_elem_of_fmap_2.
Qed.

Lemma get_add_counts d row s :
  wf (rich_counts row) →
  default 0 (dget s (add_counts d row)) = default 0 (dget s d) + count_of row s.
Proof.
  unfold add_counts, count_of, wf, keys. generalize (rich_counts row). clear row. intros c.
  revert d. induction c as [|[t n] c IH]; intros d Hc; cbn [foldl dget fst snd]; [cbn; lia|].
  apply NoDup_cons in Hc as [Ht Hc]. rewrite IH, get_add_to by done. cbn [fst snd].
  case_decide as E; [|lia]. subst t. assert (dget s c = None) as -> by by apply dget_None.
  cbn. lia.
Qed.
Lemma get_add_all rows s d :
  Forall (λ row, wf (rich_counts row)) rows →
  default 0 (dget s (foldl add_counts d rows))
  = default 0 (dget s d) + sum_list ((λ row, count_of row s) <$> rows).
Proof.
  revert d. induction rows as [|row rows IH]; intros d Hr; cbn [foldl].
  - cbn. lia.
  - apply Forall_cons in Hr as [Hrow Hr]. rewrite fmap_cons, sum_cons, IH, get_add_counts by done. lia.
Qed.

Lemma sum_add_to {K} `{EqDecision K} (d : dict K nat) k n :
  sum_list (values (add_to d k n)) = sum_list (values d) + n.
Proof.
  unfold add_to, values. induction d as [|[k' m] d IH]; cbn [dget dset]; [cbn; lia|].
  case_decide; rewrite !fmap_cons, !sum_cons; cbn [snd from_option]; unfold id in *; lia.
Qed.
(** A tally that leaves out nothing adds up to everything. *)
Lemma sum_tally {A K} `{EqDecision K} (f : A → K) (n : A → nat) l :
  sum_list (values (tally (λ x, Some (f x)) n l)) = sum_list (n <$> l).
Proof.
  unfold tally. assert (∀ d : dict K nat,
    sum_list (values (foldl (λ d x, add_to d (f x) (n x)) d l)) = sum_list (values d) + sum_list (n <$> l))
    as E; [|apply (E [])].
  induction l as [|x l IH]; intros d; cbn [foldl]; [cbn; lia|].
  rewrite IH, sum_add_to, fmap_cons, sum_cons. lia.
Qed.
Lemma sum_filter_pos {A} (f : A → nat) l :
  sum_list (f <$> filter (λ x, 0 < f x) l) = sum_list (f <$> l).
Proof.
  induction l as [|x l IH]; [done|]. rewrite filter_cons, (fmap_cons f x l), sum_cons.
  case_decide; [rewrite fmap_cons, sum_cons; lia|lia].
Qed.

Lemma row_unsupported l ss :
  skipped_unsupported (row_with l ss) = occurs (λ t, t = SKIPPED_UNSUPPORTED) ss.
Proof. apply row_count. Qed.
Lemma counts_all_wf totals rs :
  counts_all totals rs → Forall (λ row, wf (rich_counts row)) (values totals).
Proof.
  intros Hc. apply Forall_fmap, Forall_forall. intros [l row] Hin. cbn.
  rewrite (counts_all_row totals rs l row Hc Hin). apply row_wf.
Qed.
Lemma is_flaky_spec rs l :
  is_flaky (row_with l (statuses l rs)) = true ↔ some_status passes rs l ∧ some_status fails rs l.
Proof.
  unfold is_flaky. rewrite andb_true_iff, !Nat.ltb_lt, row_passed_pos, row_real_fail, occurs_pos. done.
Qed.
Lemma flaky_labels totals rs par paths l :
  counts_all totals rs →
  l ∈ fl_label <$> flaky_tests (group_report par paths totals)
  ↔ some_status passes rs l ∧ some_status fails rs l.
Proof.
  intros Hc. cbn [group_report flaky_tests]. rewrite sort_by_perm, <- list_fmap_compose.
  rewrite list_elem_of_fmap, <- is_flaky_spec. split.
  - intros ([l' row]&->&[Hfl Hin]%list_elem_of_filter). cbn in *.
    by rewrite (counts_all_row totals rs l' row Hc Hin) in Hfl.
  - intros Hfl. assert (is_Some (dget l totals)) as [row E].
    { destruct Hc as [_ ->]. unfold row_for. destruct (statuses l rs); [done|by eexists]. }
    exists (l, row). split; [done|]. apply dget_Some_in in E. apply list_elem_of_filter.
    split; [|exact E]. cbn [snd]. rewrite (counts_all_row totals rs l row Hc E). exact Hfl.
Qed.

(** C33: The report of a group of runs whose files can be loaded adds up: the passed, failed
    and unsupported totals, and the total of every single status, are those of all results
    of all files; the tests are the distinct labels, the flaky ones those that passed in one
    run and failed in another; and the failures per feature add up to all failures. *)
Theorem group_totals par files (Hf : Forall loadable files) :
  let rs := results_of files in
  let all P `{∀ s, Decision (P s)} := occurs P (rich_status <$> rs) in
  ∃ g, build_parallel_group_report par files = Ok g
    ∧ run_count g = length files
    ∧ total_unique_tests g = size (list_to_set (test_label <$> rs) : gset string)
    ∧ total_pass_raw g = all passes
    ∧ total_fail_raw g = all fails
    ∧ total_skip_raw g = all (λ s, s = SKIPPED_UNSUPPORTED)
    ∧ (∀ s, default 0 (dget s (rich_status_totals g)) = all (λ t, t = s))
    ∧ (∀ l, l ∈ fl_label <$> flaky_tests g ↔ some_status passes rs l ∧ some_status fails rs l)
    ∧ sum_list (values (feature_fails g)) = total_fail_raw g.
Proof.
  intros rs all. destruct (aggregate_counts files Hf) as (totals&Ha&Hc). fold rs in Hc.
  exists (group_report par files.*1 totals). unfold build_parallel_group_report. rewrite Ha.
  split; [done|]. split; [apply length_fmap|]. split.
  { pose proof (count_rows totals rs (λ _, True) (λ _, True) Hc ltac:(done)) as E.
    etrans; [symmetry; apply filter_length_all|]. etrans; [exact E|]. f_equal. apply set_eq. intros l. rewrite elem_of_filter. naive_solver. }
  split; [by apply (sum_over_rows totals); [|apply row_passed]|].
  assert (total_fail_raw (group_report par files.*1 totals) = all fails _) as Hfails
    by by apply (sum_over_rows totals); [|apply row_real_fail].
  split; [done|]. split; [by apply (sum_over_rows totals); [|apply row_unsupported]|].
  split; [|split].
  - intros s. cbn [group_report rich_status_totals].
    rewrite get_add_all by by apply counts_all_wf with rs.
    apply (sum_over_rows totals rs (λ row, count_of row s)); [done|]. intros l ss. apply row_count.
  - intros l. by apply flaky_labels.
  - cbn [group_report feature_fails total_fail_raw]. rewrite sum_tally.
    rewrite (sum_filter_pos (λ p : string * StatusSummaryRow, total_real_fail p.2)).
    unfold values. by rewrite <- list_fmap_compose.
Qed.
Lemma group_totals_witness :
  let doc m := Element "testsuites" [] "" ""
    [Element "testsuite" [("name", "a-1---b-2")] "" ""
       [Element "testcase" [("name", "rtps_test_suite_1_Test_Domain_0")] "" "" m]] in
  let files := [("1.xml", doc []); ("2.xml", doc [Element "error" [("message", "lost")] "" "" []])] in
  Forall loadable files ∧ ∃ g, build_parallel_group_report 4 files = Ok g
    ∧ sum_list (values (feature_fails g)) = total_fail_raw g.
Proof.
  intros doc files. assert (Forall loadable files) as Hf.
  { repeat (apply Forall_cons; split); [..|apply Forall_nil]; eexists; reflexivity. }
  split; [exact Hf|]. destruct (group_totals 4 files Hf) as (g&Hg&_&_&_&_&_&_&_&Hsum).
  exists g. split; [exact Hg|exact Hsum].
Defined.
