(* ===== verification/ReportText.v ===== *)
(** * Report comparison: texts (benchmarking/junit_compare/renderer.py, explain.py)

    What is printed and written about a comparison, about the failures of many reports, and
    the explanation, as lists of lines.  [unified_diff] of difflib is an argument. *)

From S2P Require Import Prelude PyStr PyFloat PySort PyDict Json Utilities RunTest FileRegistry ReportLoader ReportCompare ReportStats.
From stdpp Require Import options.
Local Open Scope string_scope.

(** ** Formats *)

(** [Path(p).name] *)
Definition path_name (p : string) : string :=
  match rfind "/" p with Some i => str_drop (S i) p | None => p end.
Definition label_of (p : string) : string := report_label (path_name p).
(** The directory of a path, with its slash. *)
Definition path_parent (p : string) : string :=
  match rfind "/" p with Some i => str_take (S i) p | None => "" end.
(** [f"{n:,}"]: a comma before every third digit from the end. *)
Fixpoint commas (s : string) : string :=
  match s with
  | "" => ""
  | String c s' =>
      if decide (s' ≠ "" ∧ String.length s' `mod` 3 = 0) then String c (String "," (commas s'))
      else String c (commas s')
  end.
Definition thousands (n : Z) : string :=
  if (n <? 0)%Z then "-" +:+ commas (str_of_Z (- n)) else commas (str_of_Z n).
Definition ljust (width : nat) (s : string) : string := s +:+ srepeat (width - String.length s) " ".
Definition rjust (width : nat) (s : string) : string := srepeat (width - String.length s) " " +:+ s.
Definition rule : string := srepeat 80 "=".

(** The number of comparisons that changed the status. *)
Definition status_changes (r : CompareReport) : nat := length (filter (λ c, status_changed c = true) (changed r)).

(** ** One comparison (renderer.py) *)

Section text.
Context (unified_diff : list string → list string → list string).

Definition output_filename (first second mode : string) : string :=
  path_parent first +:+ mode +:+ "_" +:+ label_of first +:+ "_" +:+ label_of second +:+ ".txt".

Definition or_none (s : string) : string := if decide (s = "") then "(none)" else s.
Definition field_lines (d : string * (string * string)) : list string :=
  let '(field, (first, second)) := d in
  if decide (field = "detail") then
    "  detail:" :: split newline (join newline ((λ line, "    " +:+ line)
      <$> unified_diff (splitlines (or_none first)) (splitlines (or_none second))))
  else ["  " +:+ field +:+ ": " +:+ repr_str first +:+ " -> " +:+ repr_str second].
Definition print_report (r : CompareReport) (include_times : bool) : list string :=
  let first := path_name (first_file r) in
  let second := path_name (second_file r) in
  (["##Result for: Comparing: " +:+ first +:+ " -> " +:+ second;
    "Comparing: " +:+ first +:+ " -> " +:+ second;
    "Cases: " +:+ str_of_nat (first_count r) +:+ " -> " +:+ str_of_nat (second_count r) +:+ " | added: "
      +:+ str_of_nat (length (added r)) +:+ ", removed: " +:+ str_of_nat (length (removed r))
      +:+ ", changed: " +:+ str_of_nat (length (changed r))]
   ++ (if include_times then ["Timing differences are included."] else [])
   ++ ((λ l, "ADDED: " +:+ l) <$> added r) ++ ((λ l, "REMOVED: " +:+ l) <$> removed r)
   ++ (c ← changed r; ("CHANGED: " +:+ test c) :: (diffs c ≫= field_lines)))%list.

Definition print_simple_report (r : CompareReport) : list string :=
  let first := label_of (first_file r) in
  let second := label_of (second_file r) in
  let n := status_changes r in
  ["##Result for: Comparison: " +:+ first +:+ " vs. " +:+ second;
   "Current comparison shows:";
   (if decide (first_count r = second_count r)
    then "- `" +:+ thousands (Z.of_nat (first_count r)) +:+ "` testcases in both runs"
    else "- `" +:+ thousands (Z.of_nat (first_count r)) +:+ "` testcases in the first run and `"
         +:+ thousands (Z.of_nat (second_count r)) +:+ "` in the second run");
   "- `" +:+ str_of_nat n +:+ "` pass/fail status changes between runs";
   (if decide (0 < n) then "- The results for the same case differ " +:+ str_of_nat n +:+ "x"
    else "- No diverse results in same case");
   "- reports `" +:+ first +:+ "` vs. `" +:+ second +:+ "`"].

Definition status_lines (first second : string) (c : ChangedTest) : list string :=
  match dget "status" (diffs c) with
  | None => []
  | Some (old, new) =>
      ["CHANGED: " +:+ test c; "- " +:+ first +:+ ": " +:+ old; "+ " +:+ second +:+ ": " +:+ new]
  end.
Definition print_differences (r : CompareReport) : list string :=
  let first := label_of (first_file r) in
  let second := label_of (second_file r) in
  let count := length (added r) + length (removed r) + status_changes r in
  (["##Result for: Differences: " +:+ first +:+ " -> " +:+ second;
    "Differences: " +:+ first +:+ " -> " +:+ second]
   ++ (if decide (count = 0) then ["No testcase result differences."]
       else (l ← removed r; ["CHANGED: " +:+ l; "- first: (empty)"; "+ second: removed"])
            ++ (l ← added r; ["CHANGED: " +:+ l; "- first: removed"; "+ second: (empty)"])
            ++ (changed r ≫= status_lines first second)))%list.

Definition print_failure_frequency_summary (files_summary : list (string * dict string nat)) : list string :=
  "##Result for: Failure frequency across all XML reports" ::
  match files_summary with
  | [] => ["Failure frequency across all XML reports: none"]
  | _ =>
      "Failure frequency across all XML reports:" ::
      ((λ p : string * dict string nat,
          let n k := str_of_nat (cget p.2 k) in
          "  " +:+ p.1 +:+ ": passed=" +:+ n "passed" +:+ ", failed=" +:+ n "failure" +:+ ", errors="
          +:+ n "error" +:+ ", skipped=" +:+ n "skipped" +:+ ", total_failures="
          +:+ str_of_nat (summary_fails p)) <$> files_summary)
  end.

(** ** The explanation (explain.py) *)

Definition titled (title : string) : list string := [""; rule; title; rule].
Definition flaky_section (title : string) (l : list (string * nat)) : list string :=
  match l with
  | [] => []
  | _ => (titled title
          ++ ((λ p : string * nat, "  [" +:+ str_of_nat p.2 +:+ "x status change] " +:+ p.1) <$> l))%list
  end.
Definition area_lines (indent : string) (width : nat) (l : list (string * nat)) : list string :=
  (λ p : string * nat, indent +:+ ljust width p.1 +:+ ": " +:+ rjust 5 (str_of_nat p.2) +:+ " failures") <$> l.
Definition number_lines (e : explanation) (files : nat) : list string :=
  let share n := thousands n +:+ " (" +:+ fixed1 (percentage n (total_unique e)) +:+ " %)" in
  ["- Number of XML reports analysed: " +:+ str_of_nat files;
   "- Total unique tests across all suites: " +:+ thousands (total_unique e);
   "- Always-passing tests (100% pass): " +:+ share (perm_pass e);
   "- Always-failing tests (100% fail): " +:+ share (perm_fail e);
   "- Mixed-result tests (pass in some, fail in others): " +:+ share (mixed e)].
Definition top_lines (e : explanation) : list string :=
  (titled "TOP FAILURE AREAS BY QOS / FEATURE" ++ area_lines "  - " 20 (top_features e)
   ++ titled "FAILURE RATE BY DDS IMPLEMENTATION (PUBLISHER / SUBSCRIBER)"
   ++ ["  TOP failing Publishers:"] ++ area_lines "    - " 25 (top_publishers e)
   ++ ["  TOP failing Subscribers:"] ++ area_lines "    - " 25 (top_subscribers e))%list.
(** The text that [generate_explanation] writes; no [files] is [None] or an empty list. *)
Definition explanation_text (first last : string) (reports : list CompareReport) (files : list xml_file) :
    result (list string) :=
  let '(truly_flaky, partially_flaky) := ReportCompare.flaky_tests reports in
  e ← (match files with [] => Ok None | _ => x ← explain files; Ok (Some x) end);
  Ok (["##Result for: Explanation and Analysis";
       "Truly flaky tests: " +:+ str_of_nat (length truly_flaky);
       "Partially flaky tests: " +:+ str_of_nat (length partially_flaky)]
      ++ titled "SUMMARY AND STATISTICS"
      ++ ["- Period analysed: " +:+ label_of first +:+ " -> " +:+ label_of last;
          "- Number of comparisons: " +:+ str_of_nat (length reports)]
      ++ match e with Some x => number_lines x (length files) | None => [] end
      ++ flaky_section "TRULY FLAKY TESTS" truly_flaky
      ++ flaky_section "PARTIALLY FLAKY TESTS" partially_flaky
      ++ match e with Some x => top_lines x | None => [] end)%list.
End text.

(** ** The groups of parallel runs (renderer.py) *)

Definition fail_lines (g : ParallelGroupReport) (n : nat) (d : dict string nat) : list string :=
  (λ p : string * nat, "    - " +:+ ljust 30 p.1 +:+ ": " +:+ rjust 7 (fixed1 (norm g p.2))
     +:+ " failures/run  (raw: " +:+ str_of_nat p.2 +:+ ")") <$> largest n d.
Definition flaky_lines (g : ParallelGroupReport) (counts d : dict string nat) : result (list string) :=
  mapM (λ p : string * nat,
          n_tests ← dgetitem p.1 counts;
          Ok ("    - " +:+ ljust 30 p.1 +:+ ": " +:+ rjust 6 (fixed1 (norm g p.2))
              +:+ " flaky failures/run  (raw: " +:+ str_of_nat p.2 +:+ ", " +:+ str_of_nat n_tests
              +:+ " flaky tests)")) (largest 5 d).
Definition flaky_line (r : FlakyTestRow) : string :=
  "    pass=" +:+ rjust 3 (str_of_nat (pass_count r)) +:+ "x  fail=" +:+ rjust 3 (str_of_nat (fail_count r))
  +:+ "x  (" +:+ rjust 5 (fixed1 (flaky_fail_rate r)) +:+ "% fail rate)  " +:+ fl_label r.
Definition flaky_lines_of (g : ParallelGroupReport) : result (list string) :=
  match flaky_pub g with
  | [] => Ok []
  | _ =>
      pubs ← flaky_lines g (flaky_pub_test_count g) (flaky_pub g);
      subs ← flaky_lines g (flaky_sub_test_count g) (flaky_sub g);
      Ok (["";  "  Flaky Publishers (by number of flaky failures):"] ++ pubs
          ++ ["  Flaky Subscribers:"] ++ subs)%list
  end.
Definition flaky_part (g : ParallelGroupReport) : result (list string) :=
  if decide (0 < flaky_count g) then
    pairs ← flaky_lines_of g;
    Ok (["";  "  TOP flaky tests (most oscillating):"] ++ (flaky_line <$> take 20 (flaky_tests g)) ++ pairs
        ++ [""; "  Flaky areas (QoS / feature):"]
        ++ ((λ p : string * nat, "    - " +:+ ljust 30 p.1 +:+ ": " +:+ rjust 6 (fixed1 (norm g p.2))
               +:+ " flaky failures/run  (raw: " +:+ str_of_nat p.2 +:+ ")") <$> largest 10 (flaky_feat g)))%list
  else Ok [].
Definition total_line (g : ParallelGroupReport) (title : string) (n : nat) : string :=
  "  Total " +:+ title +:+ " (avg/run): " +:+ rjust 8 (fixed1 (norm g n)) +:+ "  (raw: " +:+ str_of_nat n +:+ ")".
Definition group_lines (g : ParallelGroupReport) : result (list string) :=
  flaky ← flaky_part g;
  Ok ([rule;
       "PARALLEL RUNS: par" +:+ str_of_Z (parallel_count g) +:+ "   (number of runs in this group: "
         +:+ str_of_nat (run_count g) +:+ ")";
       rule; "";
       "  -- FLAKY TESTS (inconsistent results across runs) " +:+ srepeat 29 "-";
       "  Total unique tests in suite set: " +:+ thousands (Z.of_nat (total_unique_tests g));
       "  Flaky tests (pass in some runs, fail in others): " +:+ thousands (Z.of_nat (flaky_count g))
         +:+ "  (" +:+ fixed1 (flaky_pct g) +:+ " %)"]
      ++ flaky
      ++ [""; "  -- OVERALL STATISTICS " +:+ srepeat 57 "-";
          total_line g "failures " (total_fail_raw g); total_line g "passed   " (total_pass_raw g);
          total_line g "skipped  " (total_skip_raw g); "";
          "  TOP failure areas (QoS / feature):"]
      ++ fail_lines g 10 (feature_fails g)
      ++ [""; "  TOP failing Publishers (overall):"] ++ fail_lines g 5 (pub_fails g)
      ++ ["  TOP failing Subscribers (overall):"] ++ fail_lines g 5 (sub_fails g) ++ [""])%list.
Definition render_explain_parallel (ep : list ParallelGroupReport * list string) : result (list string) :=
  groups ← mapM group_lines ep.1;
  Ok (["##Result for: Parallel-run explanation"; rule;
       "ANALYSIS BY PARALLEL-RUN COUNT  (values normalised per single test-suite run)"; rule; ""]
      ++ concat groups
      ++ match ep.2 with
         | [] => []
         | files =>
             [rule; "Files without parallel-count metadata (" +:+ str_of_nat (length files) +:+ ") – excluded:"]
             ++ ((λ p, "  " +:+ path_name p) <$> files)
         end)%list.

(** ** No text raises *)

Lemma mapM_defined {A B} (f : A → result B) l :
  (∀ x, x ∈ l → ∃ y, f x = Ok y) → ∃ k, mapM f l = Ok k.
Proof.
  induction l as [|x l IH]; intros H; [by exists []|].
  destruct (H x) as [y Hy]; [left|]. destruct IH as [k Hk]; [set_solver|]. exists (y :: k).
  change (mapM f (x :: l)) with (y ← f x; k ← mapM f l; Ok (y :: k)). by rewrite Hy, Hk.
Qed.
Lemma mapM_from {A B} (f : A → result B) l k y : mapM f l = Ok k → y ∈ k → ∃ x, f x = Ok y.
Proof.
  revert k. induction l as [|x l IH]; intros k H Hy.
  - injection H as <-. by apply not_elem_of_nil in Hy.
  - change (mapM f (x :: l)) with (y ← f x; k ← mapM f l; Ok (y :: k)) in H.
    apply bind_Ok in H as (z&Hz&(k'&Hk&[= <-])%bind_Ok).
    apply elem_of_cons in Hy as [->|Hy]; [by exists x|by eapply IH].
Qed.
(** The keys of a tally do not depend on what is counted. *)
Lemma tally_keys {A K} `{EqDecision K} (f : A → option K) (n m : A → nat) l :
  keys (tally f n l) = keys (tally f m l).
Proof.
  unfold tally. assert (keys (@nil (K * nat)) = keys (@nil (K * nat))) as H by done. revert H.
  generalize (@nil (K * nat)) at 1 3. generalize (@nil (K * nat)).
  induction l as [|x l IH]; intros d d' H; [done|]. cbn [foldl]. apply IH.
  destruct (f x); [|done]. unfold add_to. rewrite !keys_dset, H. done.
Qed.
Lemma flaky_lines_defined g counts d : keys counts = keys d → ∃ l, flaky_lines g counts d = Ok l.
Proof.
  intros Hk. apply mapM_defined. intros [k n] Hin. cbn [fst snd].
  assert (is_Some (dget k counts)) as [c Hc].
  { apply dget_keys. rewrite Hk. unfold largest in Hin.
    apply elem_of_take in Hin as (i&Hi&_). apply list_elem_of_lookup_2 in Hi.
    apply elem_of_sort_by in Hi. unfold keys. by apply (list_elem_of_fmap_2 fst) in Hi. }
  unfold dgetitem. rewrite Hc. by eexists.
Qed.
(** Of a group, the two dictionaries of flaky tests have the same keys. *)
Lemma group_lines_defined par paths rows : ∃ l, group_lines (group_report par paths rows) = Ok l.
Proof.
  unfold group_lines, flaky_part. set (g := group_report par paths rows). case_decide; [|by eexists].
  unfold flaky_lines_of.
  destruct (flaky_lines_defined g (flaky_pub_test_count g) (flaky_pub g)) as [l1 E1]; [apply tally_keys|].
  destruct (flaky_lines_defined g (flaky_sub_test_count g) (flaky_sub g)) as [l2 E2]; [apply tally_keys|].
  rewrite E1, E2. destruct (flaky_pub g); by eexists.
Qed.
Lemma built_groups docs ep g :
  build_explain_parallel_report docs = Ok ep → g ∈ ep.1 → ∃ par paths rows, g = group_report par paths rows.
Proof.
  unfold build_explain_parallel_report. destruct (foldl group_file ([], []) docs) as [groups rest].
  intros (reports&Hr&<-%Ok_inj)%bind_Ok Hg. cbn [fst] in Hg.
  destruct (mapM_from _ _ _ _ Hr Hg) as (x&(rows&_&<-%Ok_inj)%bind_Ok). eauto.
Qed.
Lemma render_defined docs ep :
  build_explain_parallel_report docs = Ok ep → ∃ l, render_explain_parallel ep = Ok l.
Proof.
  intros Hb. unfold render_explain_parallel. destruct (mapM_defined group_lines ep.1) as [l Hl].
  - intros g (par&paths&rows&->)%(built_groups _ _ _ Hb). apply group_lines_defined.
  - rewrite Hl. by eexists.
Qed.

(** ** The shares of the explanation *)

Definition share_text (n : Z) (t : Z) : string := thousands n +:+ " (" +:+ tenths_text t +:+ " %)".
(** [t] tenths of a percent are within 0.051 % of [n] of [total]. *)
Definition near (total n t : Z) : Prop := (0 ≤ t ≤ 1000 ∧ 100 * Z.abs (t * total - 1000 * n) ≤ 51 * total)%Z.

(** C34: the numbers of the explanation of reports that can be loaded and have at least one
    test (and fewer than 2^53, so that a count is exact as a float): the tests are the
    distinct labels of all results, the always passing ones those without a failure or an
    error in any report, the always failing ones those that failed and never passed, the
    mixed ones those that did both.  Each is printed with its share of all tests, from 0.0 %
    to 100.0 % and within 0.051 % of the exact share although the floats are rounded twice,
    and the three shares add up to 100 % up to a tenth. *)
Theorem explanation_shares docs n (Hf : Forall loadable docs)
    (Ht : (0 < Z.of_nat (size (list_to_set (test_label <$> results_of docs) : gset string)) < 2 ^ 53)%Z) :
  let rs := results_of docs in
  let tests : gset string := list_to_set (test_label <$> rs) in
  let pass := Z.of_nat (size (filter (λ l, ¬ some_status fails rs l) tests)) in
  let fail := Z.of_nat (size (filter (λ l, some_status fails rs l ∧ ¬ some_status passes rs l) tests)) in
  let both := Z.of_nat (size (filter (λ l, some_status fails rs l ∧ some_status passes rs l) tests)) in
  let total := Z.of_nat (size tests) in
  ∃ e t1 t2 t3,
    explain docs = Ok e
    ∧ number_lines e n =
        ["- Number of XML reports analysed: " +:+ str_of_nat n;
         "- Total unique tests across all suites: " +:+ thousands total;
         "- Always-passing tests (100% pass): " +:+ share_text pass t1;
         "- Always-failing tests (100% fail): " +:+ share_text fail t2;
         "- Mixed-result tests (pass in some, fail in others): " +:+ share_text both t3]
    ∧ near total pass t1 ∧ near total fail t2 ∧ near total both t3
    ∧ (999 ≤ t1 + t2 + t3 ≤ 1001)%Z.
Proof.
  intros rs tests pass fail both total.
  destruct (explain_counts docs Hf) as (e&He&Et&Ep&Ef&Em&Hsum).
  change (total_unique e = total) in Et. change (perm_pass e = pass) in Ep.
  change (perm_fail e = fail) in Ef. change (mixed e = both) in Em.
  assert (0 ≤ pass ∧ 0 ≤ fail ∧ 0 ≤ both)%Z as (Hp&Hfl&Hb) by (unfold pass, fail, both; lia).
  rewrite Et, Ep, Ef, Em in Hsum. change (0 < total < 2 ^ 53)%Z in Ht.
  destruct (percentage_accurate pass total) as (t1&E1&H1); [lia..|].
  destruct (percentage_accurate fail total) as (t2&E2&H2); [lia..|].
  destruct (percentage_accurate both total) as (t3&E3&H3); [lia..|].
  exists e, t1, t2, t3. split; [exact He|]. split.
  { unfold number_lines, share_text. by rewrite Et, Ep, Ef, Em, E1, E2, E3. }
  split; [exact H1|]. split; [exact H2|]. split; [exact H3|].
  clearbody pass fail both total. clear - Hsum Ht H1 H2 H3.
  assert (100 * Z.abs ((t1 + t2 + t3 - 1000) * total) ≤ 153 * total)%Z as H by lia.
  rewrite Z.abs_mul, (Z.abs_eq total) in H by lia. nia.
Qed.
Lemma explanation_shares_witness :
  let doc m := Element "testsuites" [] "" ""
    [Element "testsuite" [("name", "a-1---b-2")] "" ""
       [Element "testcase" [("name", "rtps_test_suite_1_Test_Domain_0")] "" "" m;
        Element "testcase" [("name", "rtps_test_suite_1_Test_Domain_1")] "" "" [];
        Element "testcase" [("name", "rtps_test_suite_1_Test_Domain_2")] "" "" []]] in
  let docs := [("1.xml", doc []); ("2.xml", doc [Element "error" [("message", "lost")] "" "" []])] in
  Forall loadable docs
  ∧ ∃ e, explain docs = Ok e
     ∧ number_lines e 2 !! 2 = Some "- Always-passing tests (100% pass): 2 (66.7 %)".
Proof.
  intros doc docs. assert (Forall loadable docs) as Hf.
  { repeat (apply Forall_cons; split); [..|apply Forall_nil]; eexists; reflexivity. }
  split; [exact Hf|].
  destruct (explanation_shares docs 2 Hf) as (e&t1&t2&t3&He&_); [by vm_compute|].
  exists e. split; [exact He|]. vm_compute in He. injection He as <-. vm_compute. reflexivity.
Defined.
