(* ===== verification/HtmlAssets.v ===== *)
(** * Report comparison: style sheet and script of the HTML page

    The constants of benchmarking/junit_compare/html_report.py, as lines, and what the page
    relies on: they hold no end tag, their brackets match, and the script defines what the
    buttons call. *)

From S2P Require Import Prelude PyStr PyDict Effects.
From stdpp Require Import options.
Local Open Scope string_scope.

Definition dq : string := String (ascii_of_nat 34) "".

(** ** Style sheet *)

Definition css_page : list string :=
  [":root {";
   "  --bg: #0f1117; --card: #1a1d2e; --border: #2a2d3e;";
   "  --text: #e2e8f0; --muted: #8892a4; --accent: #4f8ef7;";
   "  --pass: #4ade80; --fail: #f87171; --warn: #fbbf24;";
   "}";
   "* { box-sizing: border-box; margin: 0; padding: 0; }";
   "body { background: var(--bg); color: var(--text); font-family: 'Inter', -apple-system, BlinkMacSystemFont, 'Segoe UI', Roboto, sans-serif;";
   "       font-size: 14px; line-height: 1.6; }";
   "a { color: var(--accent); }";
   "h1 { font-size: 1.6rem; font-weight: 700; margin-bottom: .25rem; }";
   "h2 { font-size: 1.1rem; font-weight: 600; margin-bottom: .75rem; color: var(--accent); }";
   "h3 { font-size: .95rem; font-weight: 600; margin: 1rem 0 .5rem; color: var(--muted); }";
   ".header { background: var(--card); border-bottom: 1px solid var(--border);";
   "          padding: 1.25rem 2rem; }";
   ".subtitle { color: var(--muted); font-size: .85rem; }";
   ""].
Definition css_tabs : list string :=
  ["/* Tabs & Toolbar Header */";
   ".tabs-header {";
   "  display: flex; justify-content: space-between; align-items: center;";
   "  background: var(--card); border-bottom: 1px solid var(--border);";
   "  padding: .75rem 2rem; flex-wrap: wrap; gap: .75rem;";
   "}";
   ".tabs { display: flex; gap: .5rem; flex-wrap: wrap; }";
   ".tab-btn { background: transparent; border: 1px solid var(--border);";
   "           color: var(--muted); padding: .4rem 1rem; border-radius: 6px;";
   "           cursor: pointer; font-size: .85rem; transition: all .15s; }";
   ".tab-btn:hover { border-color: var(--accent); color: var(--accent); }";
   ".tab-btn.active { background: var(--accent); border-color: var(--accent);";
   "                  color: #fff; font-weight: 600; }";
   "";
   ".tab-actions { display: flex; gap: .5rem; align-items: center; }";
   ".action-btn {";
   "  display: inline-flex; align-items: center; gap: .35rem;";
   "  background: var(--bg); border: 1px solid var(--border);";
   "  color: var(--text); padding: .35rem .75rem; border-radius: 6px;";
   "  font-size: .8rem; font-weight: 500; cursor: pointer;";
   "  transition: all .15s ease;";
   "}";
   ".action-btn:hover { border-color: var(--accent); color: var(--accent); }";
   ".print-btn { border-color: rgba(79, 142, 247, 0.4); color: var(--accent); }";
   ".print-btn:hover { background: var(--accent); color: #fff; }";
   "";
   ".tab-panel { padding: 1.5rem 2rem; }";
   ""].
Definition css_sections : list string :=
  ["/* Collapsible Section Cards */";
   ".card {";
   "  background: var(--card); border: 1px solid var(--border);";
   "  border-radius: 10px; padding: 1.25rem 1.5rem; margin-bottom: 1.25rem;";
   "  transition: border-color .15s ease, padding .2s ease, background .15s ease;";
   "}";
   "details:not([open]).section-card {";
   "  padding: .75rem 1.25rem;";
   "  margin-bottom: .75rem;";
   "}";
   "details:not([open]).section-card:hover {";
   "  border-color: var(--accent);";
   "}";
   ".section-header {";
   "  display: flex; align-items: center; gap: .65rem;";
   "  cursor: pointer; user-select: none; list-style: none;";
   "  padding: .15rem 0; outline: none;";
   "}";
   ".section-header::-webkit-details-marker,";
   ".section-header::marker {";
   "  display: none;";
   "}";
   ".section-title {";
   "  font-size: 1.1rem; font-weight: 600; color: var(--accent);";
   "  margin: 0; transition: color .15s ease;";
   "}";
   ".section-header:hover .section-title {";
   "  color: #79aeff;";
   "}";
   ".collapse-arrow {";
   "  display: inline-flex; align-items: center; justify-content: center;";
   "  width: 22px; height: 22px; border-radius: 4px; color: var(--accent);";
   "  transition: transform .2s cubic-bezier(0.4, 0, 0.2, 1), background .15s ease;";
   "  flex-shrink: 0;";
   "}";
   ".section-header:hover .collapse-arrow {";
   "  background: rgba(79, 142, 247, 0.15);";
   "}";
   "details:not([open]) .collapse-arrow {";
   "  transform: rotate(-90deg);";
   "}";
   "details[open] .collapse-arrow {";
   "  transform: rotate(0deg);";
   "}";
   ".section-body {";
   "  margin-top: 1rem;";
   "}";
   ""].
Definition css_tables : list string :=
  ["/* Grids & Tables */";
   ".kv-grid { display: grid; grid-template-columns: repeat(auto-fill, minmax(220px, 1fr)); gap: .5rem; }";
   ".kv-item { background: var(--bg); border: 1px solid var(--border); border-radius: 6px;";
   "           padding: .5rem .75rem; display: flex; flex-direction: column; }";
   ".kv-key { font-size: .75rem; color: var(--muted); text-transform: uppercase; letter-spacing: .04em; }";
   ".kv-val { font-size: 1.1rem; font-weight: 600; margin-top: .1rem; }";
   ".report-table { width: 100%; border-collapse: collapse; font-size: .82rem; }";
   ".report-table th { text-align: left; padding: .5rem .75rem; background: var(--bg);";
   "                   color: var(--muted); font-weight: 600; border-bottom: 1px solid var(--border); }";
   ".report-table td { padding: .4rem .75rem; border-bottom: 1px solid var(--border); vertical-align: middle; }";
   ".report-table tr:last-child td { border-bottom: none; }";
   ".report-table tr:hover td { background: rgba(79,142,247,.06); }";
   ".bar-wrap { display: flex; align-items: center; gap: .5rem; min-width: 120px; }";
   ".bar { border-radius: 3px; min-width: 2px; transition: width .3s; }";
   ".bar-label { font-size: .8rem; color: var(--muted); white-space: nowrap; }";
   ".pass { color: var(--pass); }";
   ".fail { color: var(--fail); }";
   ".warn { color: var(--warn); }";
   ".print-only { display: none; }";
   ""].
Definition css_print : list string :=
  ["/* ── Print Media Styles (Edge & Chrome) ─────────────────────────────────── */";
   "@media print {";
   "  @page {";
   "    margin: 1.2cm 1cm;";
   "    size: auto;";
   "  }";
   "  body {";
   "    background: #ffffff !important;";
   "    color: #0f172a !important;";
   "    font-family: 'Inter', -apple-system, BlinkMacSystemFont, 'Segoe UI', Roboto, sans-serif !important;";
   "    font-size: 10pt !important;";
   "    line-height: 1.4 !important;";
   "  }";
   "  .no-print, .tabs-header, .tabs, .tab-actions {";
   "    display: none !important;";
   "  }";
   "  .header {";
   "    background: transparent !important;";
   "    border-bottom: 2px solid #cbd5e1 !important;";
   "    padding: 0 0 .75rem 0 !important;";
   "    margin-bottom: 1rem !important;";
   "  }";
   "  .header h1 {";
   "    font-size: 1.4rem !important;";
   "    color: #0f172a !important;";
   "    margin-bottom: .2rem !important;";
   "  }";
   "  .subtitle {";
   "    color: #475569 !important;";
   "    font-size: .8rem !important;";
   "  }";
   "  .print-only {";
   "    display: block !important;";
   "  }";
   "  .print-tab-header {";
   "    margin: 0 0 1rem 0 !important;";
   "    padding: .4rem .75rem !important;";
   "    background: #f1f5f9 !important;";
   "    border: 1px solid #cbd5e1 !important;";
   "    border-radius: 6px !important;";
   "    font-size: .9rem !important;";
   "    color: #1e293b !important;";
   "    display: flex !important;";
   "    gap: .5rem !important;";
   "    align-items: center !important;";
   "    -webkit-print-color-adjust: exact !important;";
   "    print-color-adjust: exact !important;";
   "  }";
   "  .print-label {";
   "    color: #64748b !important;";
   "    font-weight: 600 !important;";
   "    text-transform: uppercase !important;";
   "    font-size: .75rem !important;";
   "    letter-spacing: .04em !important;";
   "  }";
   "  .tab-panel {";
   "    padding: 0 !important;";
   "  }";
   "  .tab-panel[style*=" +:+ dq +:+ "display: none" +:+ dq +:+ "],";
   "  .tab-panel[style*=" +:+ dq +:+ "display:none" +:+ dq +:+ "] {";
   "    display: none !important;";
   "  }";
   "  .tab-panel[style*=" +:+ dq +:+ "display: block" +:+ dq +:+ "],";
   "  .tab-panel[style*=" +:+ dq +:+ "display:block" +:+ dq +:+ "] {";
   "    display: block !important;";
   "  }";
   ""].
Definition css_print_sections : list string :=
  ["  /* CRITICAL: Keep collapsed vs expanded state exactly as displayed on screen */";
   "  details:not([open]) .section-body {";
   "    display: none !important;";
   "  }";
   "  details[open] .section-body {";
   "    display: block !important;";
   "  }";
   "";
   "  /* Section cards in print */";
   "  .card, .section-card {";
   "    background: #ffffff !important;";
   "    border: 1px solid #cbd5e1 !important;";
   "    border-radius: 6px !important;";
   "    box-shadow: none !important;";
   "    break-inside: avoid !important;";
   "    page-break-inside: avoid !important;";
   "  }";
   "  details[open].section-card {";
   "    padding: .85rem 1rem !important;";
   "    margin-bottom: 1rem !important;";
   "  }";
   "  details:not([open]).section-card {";
   "    padding: .5rem .85rem !important;";
   "    margin-bottom: .5rem !important;";
   "    background: #f8fafc !important;";
   "  }";
   "  .section-title {";
   "    color: #1e3a8a !important;";
   "    font-size: 1rem !important;";
   "  }";
   "  .collapse-arrow {";
   "    color: #475569 !important;";
   "    -webkit-print-color-adjust: exact !important;";
   "    print-color-adjust: exact !important;";
   "  }";
   "  details:not([open]) .collapse-arrow {";
   "    transform: rotate(-90deg) !important;";
   "  }";
   "  details[open] .collapse-arrow {";
   "    transform: rotate(0deg) !important;";
   "  }";
   ""].
Definition css_print_tables : list string :=
  ["  /* Subheadings */";
   "  h3 {";
   "    color: #334155 !important;";
   "    margin: .75rem 0 .4rem !important;";
   "    font-size: .85rem !important;";
   "  }";
   "";
   "  /* KV grid */";
   "  .kv-grid {";
   "    gap: .4rem !important;";
   "  }";
   "  .kv-item {";
   "    background: #f8fafc !important;";
   "    border: 1px solid #e2e8f0 !important;";
   "    padding: .35rem .5rem !important;";
   "  }";
   "  .kv-key {";
   "    color: #64748b !important;";
   "    font-size: .68rem !important;";
   "  }";
   "  .kv-val {";
   "    color: #0f172a !important;";
   "    font-size: .95rem !important;";
   "  }";
   "";
   "  /* Tables in print */";
   "  .report-table {";
   "    font-size: .75rem !important;";
   "  }";
   "  .report-table th {";
   "    background: #f1f5f9 !important;";
   "    color: #1e293b !important;";
   "    border-bottom: 1.5px solid #94a3b8 !important;";
   "    padding: .35rem .5rem !important;";
   "    -webkit-print-color-adjust: exact !important;";
   "    print-color-adjust: exact !important;";
   "  }";
   "  .report-table td {";
   "    color: #0f172a !important;";
   "    border-bottom: 1px solid #e2e8f0 !important;";
   "    padding: .3rem .5rem !important;";
   "  }";
   "  .report-table tr {";
   "    break-inside: avoid !important;";
   "    page-break-inside: avoid !important;";
   "  }";
   "  .report-table thead {";
   "    display: table-header-group !important;";
   "  }";
   ""].
Definition css_print_colors : list string :=
  ["  /* Ensure colors and bars are rendered accurately */";
   "  * {";
   "    -webkit-print-color-adjust: exact !important;";
   "    print-color-adjust: exact !important;";
   "  }";
   "  .bar {";
   "    -webkit-print-color-adjust: exact !important;";
   "    print-color-adjust: exact !important;";
   "  }";
   "  .bar-label {";
   "    color: #475569 !important;";
   "  }";
   "  .pass { color: #16a34a !important; }";
   "  .fail { color: #dc2626 !important; }";
   "  .warn { color: #d97706 !important; }";
   "}"].
Definition _CSS : string :=
  newline +:+ text_of (css_page ++ css_tabs ++ css_sections ++ css_tables ++ css_print ++ css_print_sections
                             ++ css_print_tables ++ css_print_colors)%list.

(** ** Script *)

Definition js_tabs : list string :=
  ["function showTab(id) {";
   "  document.querySelectorAll('.tab-panel').forEach(p => p.style.display = 'none');";
   "  document.querySelectorAll('.tab-btn').forEach(b => b.classList.remove('active'));";
   "  const panel = document.getElementById(id);";
   "  if (panel) panel.style.display = 'block';";
   "  const btn = document.querySelector('[data-tab=" +:+ dq +:+ "'+id+'" +:+ dq +:+ "]');";
   "  if (btn) btn.classList.add('active');";
   "  updatePrintTabHeader();";
   "}";
   "";
   "function getActiveTabPanel() {";
   "  const panels = Array.from(document.querySelectorAll('.tab-panel'));";
   "  return panels.find(p => p.style.display !== 'none') || panels[0];";
   "}";
   ""].
Definition js_sections : list string :=
  ["function expandAllSections() {";
   "  const activePanel = getActiveTabPanel();";
   "  if (activePanel) {";
   "    activePanel.querySelectorAll('details.section-card').forEach(d => d.open = true);";
   "  }";
   "}";
   "";
   "function collapseAllSections() {";
   "  const activePanel = getActiveTabPanel();";
   "  if (activePanel) {";
   "    activePanel.querySelectorAll('details.section-card').forEach(d => d.open = false);";
   "  }";
   "}";
   ""].
Definition js_print : list string :=
  ["function updatePrintTabHeader() {";
   "  const activeBtn = document.querySelector('.tab-btn.active');";
   "  const printTitle = document.getElementById('print-tab-title');";
   "  if (activeBtn && printTitle) {";
   "    printTitle.textContent = activeBtn.textContent.trim();";
   "  }";
   "}";
   "";
   "window.addEventListener('beforeprint', updatePrintTabHeader);";
   "window.addEventListener('DOMContentLoaded', updatePrintTabHeader);"].
Definition _JS : string := newline +:+ text_of (js_tabs ++ js_sections ++ js_print)%list.

(** ** What the page relies on *)

(** An opening bracket is closed by its own kind. *)
Definition closing (c : ascii) : option ascii :=
  if decide (c = "("%char) then Some ")"%char else if decide (c = "["%char) then Some "]"%char
  else if decide (c = "{"%char) then Some "}"%char else None.
Fixpoint brackets (open : list ascii) (s : string) : bool :=
  match s with
  | "" => bool_decide (open = [])
  | String c s' =>
      match closing c with
      | Some d => brackets (d :: open) s'
      | None =>
          if decide (c ∈ [")"; "]"; "}"]%char) then
            match open with d :: open' => Ascii.eqb c d && brackets open' s' | [] => false end
          else brackets open s'
      end
  end.
Lemma brackets_match : brackets [] _CSS && brackets [] _JS = true.
Proof. vm_compute. reflexivity. Qed.
Lemma no_end_tag : contains "</" _CSS || contains "</" _JS = false.
Proof. vm_compute. reflexivity. Qed.
(** The functions that the buttons call, and the classes of the elements with a rule. *)
Lemma functions_defined :
  forallb (λ f, contains ("function " +:+ f +:+ "(") _JS) ["showTab"; "expandAllSections"; "collapseAllSections"] = true.
Proof. vm_compute. reflexivity. Qed.
Lemma classes_styled :
  forallb (λ c, contains ("." +:+ c) _CSS)
    ["action-btn"; "print-btn"; "bar"; "bar-label"; "bar-wrap"; "card"; "section-card"; "collapse-arrow"; "header";
     "kv-grid"; "kv-item"; "kv-key"; "kv-val"; "print-label"; "print-only"; "print-tab-header"; "report-table";
     "section-body"; "section-header"; "section-title"; "subtitle"; "tab-actions"; "tab-btn"; "tabs";
     "tabs-header"; "no-print"; "pass"; "fail"; "warn"] = true.
Proof. vm_compute. reflexivity. Qed.
