(* ===== verification/HtmlReport.v ===== *)
(** * Report comparison: the HTML page (benchmarking/junit_compare/html_report.py)

    The text of the page, written with [el] for an element with its end tag.  A page is well formed whatever the names of the
    tests are ([page_well_formed]); names are escaped by [_esc]. *)

From S2P Require Import Prelude PyStr PyFloat PySort PyDict Json Utilities FileRegistry ReportLoader ReportCompare ReportStats ReportText HtmlAssets.
From stdpp Require Import options.
Local Open Scope string_scope.

(** ** Elements *)

Definition attr (name value : string) : string := " " +:+ name +:+ "=" +:+ dq +:+ value +:+ dq.
(** With the other quotes. *)
Definition sattr (name value : string) : string := " " +:+ name +:+ "='" +:+ value +:+ "'".
Definition el (tag attrs body : string) : string :=
  "<" +:+ tag +:+ attrs +:+ ">" +:+ body +:+ "</" +:+ tag +:+ ">".
(** An element without content. *)
Definition void (tag attrs : string) : string := "<" +:+ tag +:+ attrs +:+ ">".
(** A line break and [n] spaces. *)
Definition nl (n : nat) : string := newline +:+ srepeat n " ".

Definition _esc (text : string) : string :=
  replace dq "&quot;" (replace ">" "&gt;" (replace "<" "&lt;" (replace "&" "&amp;" text))).

Definition _bar (value max_value : float) (color height : string) : string :=
  let pct := if is_zero max_value then of_Z 0
             else fmin (fmul (fdiv value max_value) (of_Z 100)) (of_Z 100) in
  el "div" (attr "class" "bar-wrap" +:+ attr "title" (fixed1 value))
    (el "div" (attr "class" "bar" +:+ attr "style" ("width:" +:+ fixed1 pct +:+ "%;background:" +:+ color
                                                    +:+ ";height:" +:+ height +:+ "px")) ""
     +:+ el "span" (attr "class" "bar-label") (fixed1 value)).
Definition _tab_btn (tab_id label : string) (active : bool) : string :=
  el "button" (attr "class" (if active then "tab-btn active" else "tab-btn") +:+ attr "data-tab" tab_id
               +:+ attr "onclick" ("showTab('" +:+ tab_id +:+ "')")) (_esc label).
Definition _tab_panel (tab_id content : string) (active : bool) : string :=
  el "div" (attr "id" tab_id +:+ attr "class" "tab-panel"
            +:+ attr "style" ("display:" +:+ (if active then "block" else "none"))) content.

Definition svg (size width inner : string) : string :=
  el "svg" (attr "viewBox" "0 0 24 24" +:+ attr "width" size +:+ attr "height" size +:+ attr "fill" "none"
            +:+ attr "stroke" "currentColor" +:+ attr "stroke-width" width
            +:+ attr "stroke-linecap" "round" +:+ attr "stroke-linejoin" "round") inner.
Definition polyline (points : string) : string := el "polyline" (attr "points" points) "".
Definition arrow : string := svg "16" "2.5" (nl 8 +:+ polyline "6 9 12 15 18 9" +:+ nl 6).
Definition _section (title content : string) : string :=
  el "details" (attr "class" "card section-card" +:+ " open")
    (nl 2 +:+ el "summary" (attr "class" "section-header")
                (nl 4 +:+ el "span" (attr "class" "collapse-arrow" +:+ attr "aria-hidden" "true")
                            (nl 6 +:+ arrow +:+ nl 4)
                 +:+ nl 4 +:+ el "h2" (attr "class" "section-title") (_esc title) +:+ nl 2)
     +:+ nl 2 +:+ el "div" (attr "class" "section-body") (nl 4 +:+ content +:+ nl 2) +:+ nl 0).
Definition _table (headers : list string) (rows : list (list string)) : string :=
  el "table" (attr "class" "report-table ")
    (el "thead" "" (el "tr" "" (join "" ((λ h, el "th" "" (_esc h)) <$> headers)))
     +:+ el "tbody" "" (join "" ((λ row, el "tr" "" (join "" (el "td" "" <$> row))) <$> rows))).
Definition _kv_grid (pairs : list (string * string)) : string :=
  el "div" (attr "class" "kv-grid")
    (join "" ((λ p : string * string,
       el "div" (attr "class" "kv-item")
         (el "span" (attr "class" "kv-key") (_esc p.1) +:+ el "span" (attr "class" "kv-val") p.2)) <$> pairs)).

(** ** A group of parallel runs *)

Definition ROWS : list (RichStatus * string * string) :=
  [(PASSED, "#4ade80", "Passed");
   (PASSED_AS_SKIPPED, "#86efac", "Passed (as skipped)");
   (SKIPPED_UNSUPPORTED, "#94a3b8", "Skipped – vendor unsupported");
   (SKIPPED_OTHER, "#64748b", "Skipped – other");
   (FAILURE_QOS_UNEXPECTED, "#f87171", "Failure – unexpected QoS incompatibility");
   (FAILURE_FALSE_PASS, "#fb923c", "Failure – false pass (should have failed)");
   (FAILURE_DATA, "#fbbf24", "Failure – data error");
   (FAILURE_ORDERING, "#a78bfa", "Failure – ordering / timing");
   (FAILURE_INFRASTRUCTURE, "#e879f9", "Failure – infrastructure");
   (FAILURE_OTHER, "#94a3b8", "Failure – other");
   (ERROR, "#dc2626", "Error (framework exception)")].
(** [x or 1] *)
Definition or_1 (n : nat) : nat := match n with 0 => 1 | _ => n end.
Definition right_cell (text : string) : string := el "td" (attr "style" "text-align:right") text.
Definition dot (color : string) : string :=
  el "span" (attr "style" ("display:inline-block;width:12px;height:12px;border-radius:50%;background:"
                           +:+ color +:+ ";margin-right:6px")) "".
Definition status_row (g : ParallelGroupReport) (total : nat) (row : RichStatus * string * string) : string :=
  let '(rs, color, label) := row in
  match default 0 (dget rs (rich_status_totals g)) with
  | 0 => ""
  | raw =>
      el "tr" "" (el "td" "" (dot color +:+ _esc label) +:+ right_cell (thousands (Z.of_nat raw))
                  +:+ right_cell (fixed1 (norm g raw))
                  +:+ el "td" "" (_bar (percentage (Z.of_nat raw) (Z.of_nat total)) (of_Z 100) color "12"))
  end.
Definition _render_rich_status_summary (g : ParallelGroupReport) : string :=
  let total := or_1 (sum_list (snd <$> rich_status_totals g)) in
  let right_th := el "th" (attr "style" "text-align:right") in
  el "table" (attr "class" "report-table")
    (el "thead" "" (el "tr" "" (el "th" "" "Status" +:+ right_th "Raw total" +:+ right_th "Avg/run"
                                +:+ el "th" "" "Share"))
     +:+ el "tbody" "" (join "" (status_row g total <$> ROWS))).

(** [max(d.values()) or 1] *)
Definition max_value (d : dict string nat) : result nat :=
  match values d with [] => Raise ValueError | n :: l => Ok (or_1 (foldl Nat.max n l)) end.
Definition strong (class text : string) : string := el "strong" (sattr "class" class) text.
Definition overview (g : ParallelGroupReport) : string :=
  _section "Overview" (_kv_grid
    [("Parallel count", el "strong" "" ("par" +:+ str_of_Z (parallel_count g)));
     ("Runs in group", str_of_nat (run_count g));
     ("Unique tests", thousands (Z.of_nat (total_unique_tests g)));
     ("Flaky tests", strong "warn" (thousands (Z.of_nat (flaky_count g))) +:+ " (" +:+ fixed1 (flaky_pct g) +:+ "%)");
     ("Avg failures / run", strong "fail" (fixed1 (norm g (total_fail_raw g))));
     ("Avg passed / run", strong "pass" (fixed1 (norm g (total_pass_raw g))));
     ("Avg unsupported-skip / run", fixed1 (norm g (total_skip_raw g)))]).
(** Rows of a name and a bar. *)
Definition bar_rows (g : ParallelGroupReport) (color : string) (d : dict string nat) (m : nat) :
    list (list string) :=
  (λ p : string * nat, [_esc p.1; _bar (norm g p.2) (norm g m) color "16"]) <$> largest 10 d.
Definition count_rows (g : ParallelGroupReport) (counts d : dict string nat) (m : nat) : list (list string) :=
  (λ p : string * nat, [_esc p.1; str_of_nat (default 0 (dget p.1 counts));
                        _bar (norm g p.2) (norm g m) "#e05d5d" "16"]) <$> largest 10 d.
Definition both_tables (t1 t2 : string) : string := el "h3" "" "Publishers" +:+ t1 +:+ el "h3" "" "Subscribers" +:+ t2.

Definition flaky_tests_section (g : ParallelGroupReport) : list string :=
  match flaky_tests g with
  | [] => []
  | rows =>
      [_section ("Top Flaky Tests (showing up to 30 of " +:+ str_of_nat (flaky_count g) +:+ ")")
         (_table ["Test"; "Pass"; "Fail"; "Fail Rate"]
            ((λ r, [_esc (fl_label r); str_of_nat (pass_count r); str_of_nat (fail_count r);
                    _bar (flaky_fail_rate r) (of_Z 100) "#e05d5d" "16"]) <$> take 30 rows))]
  end.
Definition flaky_pairs_section (g : ParallelGroupReport) : result (list string) :=
  match flaky_pub g with
  | [] => Ok []
  | _ =>
      max_pub ← max_value (flaky_pub g);
      max_sub ← max_value (flaky_sub g);
      Ok [_section "Flaky by DDS Implementation"
            (both_tables
              (_table ["Publisher"; "Flaky tests"; "Flaky failures/run"]
                 (count_rows g (flaky_pub_test_count g) (flaky_pub g) max_pub))
              (_table ["Subscriber"; "Flaky tests"; "Flaky failures/run"]
                 (count_rows g (flaky_sub_test_count g) (flaky_sub g) max_sub)))]
  end.
Definition areas_section (g : ParallelGroupReport) (title column color : string) (d : dict string nat) :
    result (list string) :=
  match d with
  | [] => Ok []
  | _ => m ← max_value d; Ok [_section title (_table ["Feature"; column] (bar_rows g color d m))]
  end.
Definition pairs_section (g : ParallelGroupReport) : result (list string) :=
  match pub_fails g with
  | [] => Ok []
  | _ =>
      max_p ← max_value (pub_fails g);
      max_s ← max_value (sub_fails g);
      Ok [_section "Overall Failures by DDS Implementation"
            (both_tables (_table ["Publisher"; "Failures/run"] (bar_rows g "#4f8ef7" (pub_fails g) max_p))
                         (_table ["Subscriber"; "Failures/run"] (bar_rows g "#7b4ff7" (sub_fails g) max_s)))]
  end.
Definition _render_group_tab (g : ParallelGroupReport) : result string :=
  pairs ← flaky_pairs_section g;
  areas ← areas_section g "Flaky Areas (QoS / Feature)" "Flaky failures/run" "#e07d2d" (flaky_feat g);
  all_areas ← areas_section g "Overall Failure Areas (QoS / Feature)" "Failures/run" "#4f8ef7" (feature_fails g);
  all_pairs ← pairs_section g;
  Ok (join newline
        ([overview g;
          _section "Result Classification (per run, all tests)" (_render_rich_status_summary g)]
         ++ flaky_tests_section g ++ pairs ++ areas ++ all_areas ++ all_pairs)%list).

(** ** The comparisons *)

Definition comparison_row (r : CompareReport) : list string :=
  let status_ch := status_changes r in
  [_esc (label_of (first_file r)); _esc (label_of (second_file r)); str_of_nat (first_count r);
   str_of_nat (second_count r); str_of_nat (length (added r)); str_of_nat (length (removed r));
   strong (match status_ch with 0 => "" | _ => "fail" end) (str_of_nat status_ch)].
Definition failure_row (max_fail : nat) (p : string * dict string nat) : list string :=
  let n k := str_of_nat (cget p.2 k) in
  [_esc p.1; n "passed"; n "failure"; n "error"; n "skipped";
   _bar (of_Z (Z.of_nat (summary_fails p))) (of_Z (Z.of_nat max_fail)) "#e05d5d" "16"].
Definition _render_compare_tab (reports : list CompareReport) (files : list xml_file) : result string :=
  let repeated := _repeated_change_tests reports in
  status_summary ← summarize_test_statuses files;
  let summary := _section "Run-to-Run Comparison Summary"
    (_table ["From"; "To"; "Cases (A)"; "Cases (B)"; "Added"; "Removed"; "Status changes"]
       (comparison_row <$> reports)) in
  let changing := match repeated with
    | [] => []
    | _ => [_section ("Repeatedly Changing Tests (" +:+ str_of_nat (length repeated) +:+ " total)")
              (_table ["Test"; "# comparisons changed"]
                 ((λ p : string * nat, [_esc p.1; str_of_nat p.2]) <$> largest 30 repeated))]
    end in
  let failing := match status_summary with
    | [] => []
    | _ =>
        let max_fail := or_1 (foldl Nat.max 0 (summary_fails <$> status_summary)) in
        [_section ("Failure Frequency Across All Reports (top 50 of "
                   +:+ str_of_nat (length status_summary) +:+ ")")
           (_table ["Test"; "Passed"; "Failed"; "Errors"; "Skipped"; "Total failures"]
              (failure_row max_fail <$> take 50 status_summary))]
    end in
  Ok (join newline (summary :: changing ++ failing)%list).

(** ** The page *)

Definition title : string := "DDS Interoperability – Analysis Report".
Definition icon (inner : string) : string := svg "14" "2.2" inner.
Definition action (class onclick hint icon text : string) : string :=
  nl 4 +:+ el "button" (attr "class" class +:+ attr "onclick" onclick +:+ attr "title" hint)
             (nl 6 +:+ icon +:+ nl 6 +:+ text +:+ nl 4).
Definition actions : string :=
  action "action-btn" "expandAllSections()" "Expand all sections in current tab"
    (icon (polyline "6 9 12 15 18 9" +:+ polyline "6 15 12 21 18 15")) "Expand all"
  +:+ action "action-btn" "collapseAllSections()" "Collapse all sections in current tab"
    (icon (polyline "18 15 12 9 6 15" +:+ polyline "18 9 12 3 6 9")) "Collapse all"
  +:+ action "action-btn print-btn" "window.print()" "Print report (Ctrl+P)"
    (svg "14" "2" (el "path" (attr "d" "M6 9V2h12v7M6 18H4a2 2 0 01-2-2v-5a2 2 0 012-2h16a2 2 0 012 2v5a2 2 0 01-2 2h-2M6 14h12v8H6z") ""))
    "Print".
Definition group_title (g : ParallelGroupReport) : string :=
  "par" +:+ str_of_Z (parallel_count g) +:+ " (" +:+ str_of_nat (run_count g) +:+ " runs)".
(** A tab is a button and a panel. *)
Record tab := Tab { tab_id : string; tab_label : string; tab_content : string; tab_active : bool }.
Definition tab_button (t : tab) : string := _tab_btn (tab_id t) (tab_label t) (tab_active t).
Definition tab_panel (t : tab) : string := _tab_panel (tab_id t) (tab_content t) (tab_active t).
Definition group_tab (i : nat) (g : ParallelGroupReport) : result tab :=
  content ← _render_group_tab g;
  Ok (Tab ("tab_par" +:+ str_of_Z (parallel_count g)) (group_title g) content (bool_decide (i = 0))).
Fixpoint group_tabs (i : nat) (groups : list ParallelGroupReport) : result (list tab) :=
  match groups with
  | [] => Ok []
  | g :: groups => t ← group_tab i g; ts ← group_tabs (S i) groups; Ok (t :: ts)
  end.
Definition compare_tab (reports : list CompareReport) (files : list xml_file) : result (list tab) :=
  match reports, files with
  | _ :: _, _ :: _ =>
      content ← _render_compare_tab reports files;
      Ok [Tab "tab_compare" "Run Comparisons" content false]
  | _, _ => Ok []
  end.
Definition excluded_tab (ungrouped : list string) : list tab :=
  match ungrouped with
  | [] => []
  | _ =>
      let note := _section "Excluded Files"
        (el "p" (attr "style" "color:var(--warn)")
           (str_of_nat (length ungrouped) +:+ " file(s) without parallel-count metadata excluded.")) in
      [Tab "tab_ungrouped" "Excluded files" note false]
  end.

Definition head_of : string :=
  el "head" "" (nl 0 +:+ void "meta" (attr "charset" "utf-8") +:+ nl 0
    +:+ void "meta" (attr "name" "viewport" +:+ attr "content" "width=device-width, initial-scale=1") +:+ nl 0
    +:+ el "title" "" (_esc title) +:+ nl 0
    +:+ void "link" (attr "rel" "preconnect" +:+ attr "href" "https://fonts.googleapis.com") +:+ nl 0
    +:+ void "link" (attr "href" "https://fonts.googleapis.com/css2?family=Inter:wght@400;600;700&display=swap"
              +:+ attr "rel" "stylesheet") +:+ nl 0
    +:+ el "style" "" _CSS +:+ nl 0).
Definition body_of (tabs : list tab) (initial_tab_label : string) : string :=
  el "body" "" (nl 0
    +:+ el "div" (attr "class" "header")
          (nl 2 +:+ el "h1" "" (_esc title) +:+ nl 2
           +:+ el "p" (attr "class" "subtitle") "9×9 publish/subscribe interoperability test suite — grouped by parallel-run count, normalised per run"
           +:+ nl 0) +:+ nl 0
    +:+ el "div" (attr "class" "tabs-header no-print")
          (nl 2 +:+ el "div" (attr "class" "tabs") (join "" (tab_button <$> tabs))
           +:+ nl 2 +:+ el "div" (attr "class" "tab-actions") (actions +:+ nl 2) +:+ nl 0) +:+ nl 0
    +:+ el "div" (attr "class" "print-only print-tab-header")
          (nl 2 +:+ el "span" (attr "class" "print-label") "Report View:"
           +:+ nl 2 +:+ el "strong" (attr "id" "print-tab-title") (_esc initial_tab_label) +:+ nl 0) +:+ nl 0
    +:+ join "" (tab_panel <$> tabs) +:+ nl 0
    +:+ el "script" "" _JS +:+ nl 0).
Definition tabs_of (ep : list ParallelGroupReport * list string) (reports : list CompareReport)
    (files : list xml_file) : result (list tab) :=
  groups ← group_tabs 0 ep.1;
  compared ← compare_tab reports files;
  Ok (groups ++ compared ++ excluded_tab ep.2)%list.
Definition render_html_report (ep : list ParallelGroupReport * list string) (reports : list CompareReport)
    (files : list xml_file) : result string :=
  tabs ← tabs_of ep reports files;
  let initial_tab_label := match ep.1 with g :: _ => group_title g | [] => "" end in
  Ok ("<!DOCTYPE html>" +:+ nl 0
      +:+ el "html" (attr "lang" "en") (nl 0 +:+ head_of +:+ nl 0 +:+ body_of tabs initial_tab_label +:+ nl 0)).

(** ** Escaping *)

Definition esc_char (c : ascii) : string :=
  if decide (c = "&"%char) then "&amp;" else if decide (c = "<"%char) then "&lt;"
  else if decide (c = ">"%char) then "&gt;" else if decide (c = ascii_of_nat 34) then "&quot;"
  else String c "".
Lemma esc_app a b : _esc (a +:+ b) = _esc a +:+ _esc b.
Proof. unfold _esc, dq. by rewrite !replace_char_app. Qed.
Lemma esc_cons c s : _esc (String c s) = esc_char c +:+ _esc s.
Proof.
  change (String c s) with (String c "" +:+ s). rewrite esc_app. f_equal. unfold esc_char.
  repeat case_decide; subst; try reflexivity. unfold _esc, dq.
  assert (∀ d new, c ≠ d → replace (String d "") new (String c "") = String c "") as Hid.
  { intros d new Hd. apply replace_char_id. apply andb_true_iff. split; [|done].
    by apply bool_decide_eq_true. }
  by rewrite (Hid "&"%char), (Hid "<"%char), (Hid ">"%char), (Hid (ascii_of_nat 34)).
Qed.
(** What a browser reads for the four entities. *)
Definition entities : list (string * ascii) :=
  [("&amp;", "&"%char); ("&lt;", "<"%char); ("&gt;", ">"%char); ("&quot;", ascii_of_nat 34)].
Fixpoint unescape_go (skip : nat) (s : string) : string :=
  match s with
  | "" => ""
  | String c s' =>
      match skip with
      | S k => unescape_go k s'
      | 0 =>
          match List.find (λ e : string * ascii, String.prefix e.1 s) entities with
          | Some (entity, d) => String d (unescape_go (String.length entity - 1) s')
          | None => String c (unescape_go 0 s')
          end
      end
  end.
Definition unescape : string → string := unescape_go 0.

(** ** Well-formed text *)

Definition no_tag (c : ascii) : bool := bool_decide (c ≠ "<"%char ∧ c ≠ ">"%char).
Definition plain (s : string) : Prop := sforall no_tag s = true.
Definition quotable (quote : ascii) (s : string) : Prop :=
  sforall (λ c, no_tag c && bool_decide (c ≠ quote)) s = true.
Inductive attrs : string → Prop :=
| attrs_none : attrs ""
| attrs_attr name value :
    sforall is_alnum (replace "-" "" name) = true → quotable (ascii_of_nat 34) value → attrs (attr name value)
| attrs_sattr name value :
    sforall is_alnum (replace "-" "" name) = true → quotable "'" value → attrs (sattr name value)
| attrs_flag name : sforall is_alnum name = true → attrs (" " +:+ name)
| attrs_app a b : attrs a → attrs b → attrs (a +:+ b).
(** Text without tags, and elements that are closed by their own end tag; two have none, and
    two contain another language. *)
Inductive html : string → Prop :=
| html_text s : plain s → html s
| html_app a b : html a → html b → html (a +:+ b)
| html_el tag ats body : sforall is_alnum tag = true → attrs ats → html body → html (el tag ats body)
| html_void tag ats : tag ∈ ["meta"; "link"] → attrs ats → html (void tag ats)
| html_raw tag body : tag ∈ ["style"; "script"] → contains "</" body = false → html (el tag "" body).

Create HintDb html discriminated.
(** Numbers. *)
Definition number_char (c : ascii) : bool := is_alnum c || bool_decide (c ∈ ["."; ","; "-"]%char).
Definition number (s : string) : Prop := sforall number_char s = true.
Lemma sforall_weaken (p q : ascii → bool) s :
  (∀ c, implb (p c) (q c) = true) → sforall p s = true → sforall q s = true.
Proof. intros H. apply sforall_impl. intros c Hc. specialize (H c). by rewrite Hc in H. Qed.
Lemma number_plain s : number s → plain s.
Proof. apply sforall_weaken. intros [[] [] [] [] [] [] [] []]; reflexivity. Qed.
Lemma number_quotable d s : number s → number_char d = false → quotable d s.
Proof.
  intros H Hd. unfold quotable. revert H. apply sforall_impl. intros c Hc. apply andb_true_iff. split.
  - revert Hc. clear. by destruct c as [[] [] [] [] [] [] [] []].
  - apply bool_decide_eq_true. congruence.
Qed.
Lemma digits_number s : sforall is_digit s = true → number s.
Proof. apply sforall_weaken. intros [[] [] [] [] [] [] [] []]; reflexivity. Qed.
Lemma number_app a b : number a → number b → number (a +:+ b).
Proof. unfold number. rewrite sforall_app. by intros -> ->. Qed.
Lemma number_nat n : number (str_of_nat n).
Proof. apply digits_number. by destruct (pretty_N_digits (N.of_nat n)). Qed.
Lemma number_Z z : number (str_of_Z z).
Proof.
  destruct z as [|p|p]; [done| |].
  - apply digits_number. by destruct (pretty_N_digits (Npos p)).
  - change (str_of_Z (Zneg p)) with ("-" +:+ pretty (Npos p)). apply number_app; [done|].
    apply digits_number. by destruct (pretty_N_digits (Npos p)).
Qed.
Lemma number_commas s : number s → number (commas s).
Proof.
  unfold number. induction s as [|c s IH]; [done|]. cbn [sforall commas]. rewrite andb_true_iff.
  intros [Hc Hs]. case_decide; cbn [sforall]; rewrite Hc, (IH Hs); done.
Qed.
Lemma number_thousands z : number (thousands z).
Proof.
  unfold thousands. case_match; [apply number_app; [done|]|]; apply number_commas, number_Z.
Qed.
Lemma number_fixed1 x : number (fixed1 x).
Proof.
  destruct x as [[]|[]| |s m e]; try done. apply number_app; [by destruct s|].
  apply number_app; [apply number_Z|]. apply number_app; [done|apply number_Z].
Qed.
#[export] Hint Resolve number_nat number_Z number_thousands number_fixed1 : html.

Lemma esc_plain s : plain (_esc s).
Proof.
  induction s as [|c s IH]; [done|]. rewrite esc_cons. unfold plain. rewrite sforall_app, IH, andb_true_r.
  unfold esc_char. repeat case_decide; try reflexivity. cbn [sforall]. rewrite andb_true_r.
  by apply bool_decide_eq_true.
Qed.
Lemma esc_quotable s : quotable (ascii_of_nat 34) (_esc s).
Proof.
  induction s as [|c s IH]; [done|]. rewrite esc_cons. unfold quotable. rewrite sforall_app.
  fold (quotable (ascii_of_nat 34) (_esc s)). apply andb_true_iff. split; [|exact IH].
  unfold esc_char. repeat case_decide; try reflexivity. cbn [sforall]. rewrite andb_true_r.
  apply andb_true_iff. split; by apply bool_decide_eq_true.
Qed.
Lemma unescape_char c s : unescape (esc_char c +:+ s) = String c (unescape s).
Proof.
  unfold esc_char. destruct (decide (c = "&"%char)) as [->|H1]; [by destruct s|].
  destruct (decide (c = "<"%char)) as [->|H2]; [by destruct s|].
  destruct (decide (c = ">"%char)) as [->|H3]; [by destruct s|].
  destruct (decide (c = ascii_of_nat 34)) as [->|H4]; [by destruct s|].
  unfold unescape. rewrite sapp_cons, sapp_nil_l. cbn [unescape_go].
  assert (∀ p, String.prefix (String "&" p) (String c s) = true → False) as Hp.
  { intros p. change (String.prefix (String "&" p) (String c s))
      with (if ascii_dec "&" c then String.prefix p s else false).
    destruct (ascii_dec "&" c) as [<-|]; [by intros _; apply H1|done]. }
  destruct (List.find _ entities) as [[e d]|] eqn:E; [|done]. exfalso.
  apply List.find_some in E as [He Hpre]. cbn [fst] in Hpre.
  destruct He as [He|[He|[He|[He|[]]]]]; injection He as <- _; by eapply Hp.
Qed.

(** A name is escaped so that it holds no tag and ends no attribute, and a browser shows the
    name itself; the escapes of two texts put together are the escape of both. *)
Theorem esc_roundtrip s t :
  unescape (_esc s) = s ∧ plain (_esc s) ∧ quotable (ascii_of_nat 34) (_esc s)
  ∧ _esc (s +:+ t) = _esc s +:+ _esc t.
Proof.
  split_and!; [|apply esc_plain|apply esc_quotable|apply esc_app].
  induction s as [|c s IH]; [done|]. by rewrite esc_cons, unescape_char, IH.
Qed.

(** ** The page is well formed *)

Lemma html_join sep l : html sep → Forall html l → html (join sep l).
Proof.
  intros Hsep Hl. induction Hl as [|a [|b l] Ha Hl IH]; [by apply html_text|done|].
  apply html_app; [done|]. by apply html_app.
Qed.
Lemma html_map {A} (f : A → string) l : (∀ x, html (f x)) → Forall html (f <$> l).
Proof. intros H. induction l; constructor; auto. Qed.
Lemma html_number s : number s → html s.
Proof. intros H. by apply html_text, number_plain. Qed.
Lemma html_esc s : html (_esc s).
Proof. apply html_text, esc_plain. Qed.
Lemma quotable_app d a b : quotable d a → quotable d b → quotable d (a +:+ b).
Proof. unfold quotable. rewrite sforall_app. by intros -> ->. Qed.
Lemma nl_html n : html (nl n).
Proof. apply html_text. unfold nl, plain. rewrite sforall_app. cbn. by induction n. Qed.
(** Literal text, and the values of attributes. *)
Ltac quotable_tac :=
  repeat first
    [ reflexivity | apply quotable_app
    | apply number_quotable; [by auto with html|reflexivity] | assumption | case_match ].
Ltac attrs_tac :=
  repeat first
    [ apply attrs_none | apply attrs_attr; [reflexivity|quotable_tac]
    | apply attrs_sattr; [reflexivity|quotable_tac] | apply attrs_app ].
Ltac html_tac :=
  lazymatch goal with
  | |- html (el _ _ _) => first [assumption | apply html_el; [reflexivity|attrs_tac|html_tac]]
  | |- html (void _ _) => apply html_void; [set_solver|attrs_tac]
  | |- html (_ +:+ _) => apply html_app; html_tac
  | |- html (_esc _) => apply html_esc
  | |- html (nl _) => apply nl_html
  | |- html (str_of_nat _) => apply html_number, number_nat
  | |- html (str_of_Z _) => apply html_number, number_Z
  | |- html (thousands _) => apply html_number, number_thousands
  | |- html (fixed1 _) => apply html_number, number_fixed1
  | |- html (String _ _) => apply html_text; reflexivity
  | |- html "" => apply html_text; reflexivity
  | |- html _ => first [assumption | solve [eauto with html]]
  end.

Lemma bar_html value max_value color height :
  quotable (ascii_of_nat 34) color → quotable (ascii_of_nat 34) height →
  html (_bar value max_value color height).
Proof. intros Hc Hh. unfold _bar. html_tac. Qed.
Lemma tab_btn_html tab_id label active :
  quotable (ascii_of_nat 34) tab_id → html (_tab_btn tab_id label active).
Proof. intros H. unfold _tab_btn. html_tac. Qed.
Lemma tab_panel_html tab_id content active :
  quotable (ascii_of_nat 34) tab_id → html content → html (_tab_panel tab_id content active).
Proof. intros H Hc. unfold _tab_panel. html_tac. Qed.
Lemma polyline_html points : quotable (ascii_of_nat 34) points → html (polyline points).
Proof. intros H. unfold polyline. html_tac. Qed.
Lemma svg_html size width inner :
  quotable (ascii_of_nat 34) size → quotable (ascii_of_nat 34) width → html inner → html (svg size width inner).
Proof. intros H1 H2 H. unfold svg. html_tac. Qed.
Lemma section_html title content : html content → html (_section title content).
Proof.
  intros H. unfold _section. assert (html arrow) as Ha.
  { apply svg_html; [reflexivity..|]. assert (html (polyline "6 9 12 15 18 9")) by by apply polyline_html.
    html_tac. }
  assert (attrs (attr "class" "card section-card" +:+ " open")) as Hat.
  { apply attrs_app; [by apply attrs_attr|by apply (attrs_flag "open")]. }
  apply html_el; [reflexivity|exact Hat|]. html_tac.
Qed.
Lemma table_html headers rows : Forall (Forall html) rows → html (_table headers rows).
Proof.
  intros H. unfold _table. apply html_el; [reflexivity|attrs_tac|]. apply html_app.
  - apply html_el; [reflexivity|attrs_tac|]. apply html_el; [reflexivity|attrs_tac|].
    apply html_join; [by apply html_text|]. apply html_map. intros h. html_tac.
  - apply html_el; [reflexivity|attrs_tac|]. apply html_join; [by apply html_text|].
    apply Forall_fmap. eapply Forall_impl; [exact H|]. intros row Hrow. cbn [compose].
    apply html_el; [reflexivity|attrs_tac|]. apply html_join; [by apply html_text|].
    apply Forall_fmap. eapply Forall_impl; [exact Hrow|]. intros cell Hc. cbn [compose]. html_tac.
Qed.
(** A table whose rows are made of well-formed cells. *)
Lemma table_map_html {A} headers (row : A → list string) l :
  (∀ x, Forall html (row x)) → html (_table headers (row <$> l)).
Proof. intros H. apply table_html. induction l; constructor; auto. Qed.
Lemma kv_grid_html pairs : Forall (λ p : string * string, html p.2) pairs → html (_kv_grid pairs).
Proof.
  intros H. unfold _kv_grid. apply html_el; [reflexivity|attrs_tac|].
  apply html_join; [by apply html_text|]. apply Forall_fmap. eapply Forall_impl; [exact H|].
  intros [k v] Hv. cbn [compose fst snd] in *. html_tac.
Qed.
Lemma strong_html class text : quotable "'" class → html text → html (strong class text).
Proof. intros Hc H. unfold strong. html_tac. Qed.
#[export] Hint Extern 1 (html (_bar _ _ _ _)) => apply bar_html; reflexivity : html.

Ltac cells_tac := intros; repeat (apply Forall_cons; split); [..|apply Forall_nil_2]; html_tac.
Lemma overview_html g : html (overview g).
Proof.
  unfold overview. apply section_html, kv_grid_html. repeat (apply Forall_cons; split); [..|apply Forall_nil_2]; cbn [snd];
    unfold strong; html_tac.
Qed.
Lemma rich_status_html g : html (_render_rich_status_summary g).
Proof.
  unfold _render_rich_status_summary, right_cell. set (total := or_1 _). clearbody total.
  assert (Forall html (status_row g total <$> ROWS)) as H.
  { unfold ROWS. repeat (apply Forall_cons; split); [..|apply Forall_nil_2]; unfold status_row;
      case_match; unfold right_cell, dot; html_tac. }
  apply html_el; [reflexivity|attrs_tac|]. apply html_app; [html_tac|].
  apply html_el; [reflexivity|attrs_tac|]. apply html_join; [by apply html_text|exact H].
Qed.
Lemma bar_rows_html g color d m :
  quotable (ascii_of_nat 34) color → Forall (Forall html) (bar_rows g color d m).
Proof.
  intros Hc. unfold bar_rows. apply Forall_fmap, Forall_true. intros p. unfold compose.
  assert (html (_bar (norm g p.2) (norm g m) color "16")) by (by apply bar_html). cells_tac.
Qed.
Lemma count_rows_html g counts d m : Forall (Forall html) (count_rows g counts d m).
Proof. unfold count_rows. apply Forall_fmap, Forall_true. intros p. cbn [compose]. cells_tac. Qed.
Lemma both_tables_html t1 t2 : html t1 → html t2 → html (both_tables t1 t2).
Proof. intros H1 H2. unfold both_tables. html_tac. Qed.
Lemma group_tab_html g text : _render_group_tab g = Ok text → html text.
Proof.
  unfold _render_group_tab. intros (pairs&Hp&(areas&Ha&(all_areas&Haa&(all_pairs&Hap&<-%Ok_inj)%bind_Ok)%bind_Ok)%bind_Ok)%bind_Ok.
  apply html_join; [by apply html_text|].
  assert (∀ title column color d l, quotable (ascii_of_nat 34) color →
    areas_section g title column color d = Ok l → Forall html l) as Hareas.
  { intros title column color d l Hc. unfold areas_section. destruct d; [intros [= <-]; constructor|].
    intros (m&_&[= <-])%bind_Ok. constructor; [|constructor]. by apply section_html, table_html, bar_rows_html. }
  repeat apply Forall_app_2.
  - constructor; [apply overview_html|]. constructor; [|constructor]. apply section_html, rich_status_html.
  - unfold flaky_tests_section. destruct (flaky_tests g) as [|r rs]; constructor; [|constructor].
    apply section_html, table_map_html. cells_tac.
  - unfold flaky_pairs_section in Hp. destruct (flaky_pub g); [injection Hp as <-; constructor|].
    apply bind_Ok in Hp as (m1&_&(m2&_&[= <-])%bind_Ok). constructor; [|constructor].
    apply section_html, both_tables_html; apply table_html, count_rows_html.
  - by eapply Hareas; [|exact Ha].
  - by eapply Hareas; [|exact Haa].
  - unfold pairs_section in Hap. destruct (pub_fails g); [injection Hap as <-; constructor|].
    apply bind_Ok in Hap as (m1&_&(m2&_&[= <-])%bind_Ok). constructor; [|constructor].
    apply section_html, both_tables_html; by apply table_html, bar_rows_html.
Qed.

Lemma compare_tab_html reports files text : _render_compare_tab reports files = Ok text → html text.
Proof.
  unfold _render_compare_tab. intros (summary&_&<-%Ok_inj)%bind_Ok.
  apply html_join; [by apply html_text|]. constructor.
  - apply section_html, table_map_html. unfold comparison_row. intros r.
    assert (html (strong (match status_changes r with 0 => "" | _ => "fail" end) (str_of_nat (status_changes r))))
      by (apply strong_html; [by destruct (status_changes r)|apply html_number, number_nat]). cells_tac.
  - apply Forall_app_2.
    + destruct (_repeated_change_tests reports); constructor; [|constructor].
      apply section_html, table_map_html. cells_tac.
    + destruct summary; constructor; [|constructor].
      apply section_html, table_map_html. unfold failure_row. cells_tac.
Qed.
(** Both parts of a tab. *)
Definition tab_ok (t : tab) : Prop := html (tab_button t) ∧ html (tab_panel t).
Lemma tab_of id label content active :
  quotable (ascii_of_nat 34) id → html content →
  tab_ok (Tab id label content active).
Proof. intros Hi Hc. split; [by apply tab_btn_html|by apply tab_panel_html]. Qed.
Lemma group_tabs_html i groups tabs : group_tabs i groups = Ok tabs → Forall tab_ok tabs.
Proof.
  revert i tabs. induction groups as [|g groups IH]; intros i tabs; cbn [group_tabs]; [by intros <-%Ok_inj|].
  intros (t&(content&Hc&<-%Ok_inj)%bind_Ok&(ts&Hts&<-%Ok_inj)%bind_Ok)%bind_Ok.
  constructor; [|by eapply IH]. apply tab_of; [|by eapply group_tab_html].
  apply quotable_app; [reflexivity|]. by apply number_quotable; [apply number_Z|].
Qed.
Lemma tabs_html groups ungrouped reports files t1 t2 :
  group_tabs 0 groups = Ok t1 → compare_tab reports files = Ok t2 →
  Forall tab_ok (t1 ++ t2 ++ excluded_tab ungrouped).
Proof.
  intros H1 H2. apply Forall_app_2; [by eapply group_tabs_html|]. apply Forall_app_2.
  - unfold compare_tab in H2. destruct reports, files; try (injection H2 as <-; constructor).
    apply bind_Ok in H2 as (text&Ht&<-%Ok_inj). constructor; [|constructor].
    apply tab_of; [reflexivity|by eapply compare_tab_html].
  - unfold excluded_tab. destruct ungrouped; constructor; [|constructor].
    apply tab_of; [reflexivity|]. apply section_html. html_tac.
Qed.
Lemma actions_html : html actions.
Proof.
  assert (∀ class onclick hint icon text, quotable (ascii_of_nat 34) class → quotable (ascii_of_nat 34) onclick →
    quotable (ascii_of_nat 34) hint → html icon → html text → html (action class onclick hint icon text)) as Ha.
  { intros class onclick hint i text ? ? ? ? ?. unfold action. html_tac. }
  assert (∀ a b, html a → html b → html (icon (a +:+ b))) as Hi.
  { intros a b H1 H2. apply svg_html; [reflexivity..|]. by apply html_app. }
  unfold actions. apply html_app; [|apply html_app]; (apply Ha; [reflexivity..| |by apply html_text]).
  - by apply Hi; apply polyline_html.
  - by apply Hi; apply polyline_html.
  - apply svg_html; [reflexivity..|]. html_tac.
Qed.
Lemma head_html : html head_of.
Proof.
  unfold head_of. destruct (proj1 (orb_false_iff _ _) no_end_tag) as [H _].
  assert (html (el "style" "" _CSS)) by (apply html_raw; [set_solver|done]).
  apply html_el; [reflexivity|apply attrs_none|].
  html_tac.
Qed.
Lemma body_html tabs label : Forall tab_ok tabs → html (body_of tabs label).
Proof.
  intros Ht. destruct (proj1 (orb_false_iff _ _) no_end_tag) as [_ H]. unfold body_of. pose proof actions_html.
  assert (html (join "" (tab_button <$> tabs))) by (apply html_join; [by apply html_text|];
    apply Forall_fmap; eapply Forall_impl; [exact Ht|]; by intros t []).
  assert (html (join "" (tab_panel <$> tabs))) by (apply html_join; [by apply html_text|];
    apply Forall_fmap; eapply Forall_impl; [exact Ht|]; by intros t []).
  assert (html (el "script" "" _JS)) by (apply html_raw; [set_solver|done]).
  apply html_el; [reflexivity|apply attrs_none|].
  html_tac.
Qed.

(** Rendering the groups of loaded reports does not raise. *)
Lemma max_value_defined d : d ≠ [] → ∃ n, max_value d = Ok n.
Proof. unfold max_value. destruct d as [|[k n] d]; [done|]. intros _. by eexists. Qed.
Lemma tally_cons {A K} `{EqDecision K} (f : A → option K) n l :
  tally f n l ≠ [] ↔ ∃ x, x ∈ l ∧ is_Some (f x).
Proof.
  unfold tally. assert (∀ d : dict K nat,
    foldl (λ d x, match f x with Some k => add_to d k (n x) | None => d end) d l ≠ []
    ↔ d ≠ [] ∨ ∃ x, x ∈ l ∧ is_Some (f x)) as H; [|rewrite H; tauto].
  induction l as [|x l IH]; intros d; cbn [foldl]; [set_solver|]. rewrite IH. setoid_rewrite elem_of_cons.
  destruct (f x) as [k|] eqn:E; cycle 1.
  { split; [intros [?|(y&?&?)]; eauto 6|intros [?|(y&[->|?]&Hs)]; [auto| |eauto]].
    rewrite E in Hs. by destruct Hs. }
  assert (add_to d k (n x) ≠ []) by (unfold add_to; by destruct d as [|[k' v'] d]; cbn; [|case_decide]).
  naive_solver.
Qed.
(** When a publisher is named so is a subscriber. *)
Lemma pair_tallies {A} (label : A → string) n m l :
  tally (λ x, fst <$> _extract_pub_sub (label x)) n l ≠ [] →
  tally (λ x, snd <$> _extract_pub_sub (label x)) m l ≠ [].
Proof.
  rewrite !tally_cons. intros (x&Hx&H). exists x. split; [done|]. revert H.
  destruct (_extract_pub_sub (label x)); [by eexists|by intros []].
Qed.
Lemma areas_defined g title column color d : ∃ l, areas_section g title column color d = Ok l.
Proof.
  unfold areas_section. destruct d as [|p d']; [by eexists|].
  destruct (max_value_defined (p :: d')) as [m ->]; [done|]. by eexists.
Qed.
Lemma group_tab_defined par paths rows : ∃ text, _render_group_tab (group_report par paths rows) = Ok text.
Proof.
  set (g := group_report par paths rows). unfold _render_group_tab.
  assert (∃ l, flaky_pairs_section g = Ok l) as [l1 ->].
  { unfold flaky_pairs_section. destruct (flaky_pub g) as [|p d] eqn:E; [by eexists|].
    destruct (max_value_defined (p :: d)) as [m ->]; [done|].
    destruct (max_value_defined (flaky_sub g)) as [m' ->]; [|by eexists].
    assert (flaky_pub g ≠ []) as H by by rewrite E. revert H. apply pair_tallies. }
  assert (∃ l, pairs_section g = Ok l) as [l2 ->].
  { unfold pairs_section. destruct (pub_fails g) as [|p d] eqn:E; [by eexists|].
    destruct (max_value_defined (p :: d)) as [m ->]; [done|].
    destruct (max_value_defined (sub_fails g)) as [m' ->]; [|by eexists].
    assert (pub_fails g ≠ []) as H by by rewrite E. revert H. apply (pair_tallies fst). }
  destruct (areas_defined g "Flaky Areas (QoS / Feature)" "Flaky failures/run" "#e07d2d" (flaky_feat g)) as [l3 ->].
  destruct (areas_defined g "Overall Failure Areas (QoS / Feature)" "Failures/run" "#4f8ef7" (feature_fails g))
    as [l4 ->]. by eexists.
Qed.
Lemma group_tabs_defined i groups :
  (∀ g, g ∈ groups → ∃ par paths rows, g = group_report par paths rows) →
  ∃ tabs, group_tabs i groups = Ok tabs.
Proof.
  revert i. induction groups as [|g groups IH]; intros i H; cbn [group_tabs]; [by eexists|].
  destruct (H g) as (par&paths&rows&->); [left|]. unfold group_tab.
  destruct (group_tab_defined par paths rows) as [text ->].
  destruct (IH (S i)) as [ts ->]; [set_solver|]. by eexists.
Qed.
Lemma summary_defined files : Forall loadable files → ∃ s, summarize_test_statuses files = Ok s.
Proof.
  intros Hf. unfold summarize_test_statuses. destruct (aggregate_counts files Hf) as (t&->&_). by eexists.
Qed.

(** C37: The page about the groups of loaded reports is always rendered, and is a well-formed
    document whatever the names of tests, products and files are: every element is closed by
    its own end tag, attributes end where they should, and no name adds a tag. *)
Theorem page_well_formed docs ep reports files
    (Hb : build_explain_parallel_report docs = Ok ep) (Hf : Forall loadable files) :
  ∃ page, render_html_report ep reports files = Ok ("<!DOCTYPE html>" +:+ nl 0 +:+ page)
    ∧ html page.
Proof.
  destruct (group_tabs_defined 0 ep.1) as [t1 E1]; [intros g; by apply (built_groups docs)|].
  assert (∃ t2, compare_tab reports files = Ok t2) as [t2 E2].
  { unfold compare_tab. destruct reports, files; try by eexists. unfold _render_compare_tab.
    destruct (summary_defined _ Hf) as [s ->]. by eexists. }
  unfold render_html_report, tabs_of. rewrite E1, E2. eexists. split; [reflexivity|].
  pose proof head_html. pose proof (tabs_html _ ep.2 _ _ _ _ E1 E2) as Ht.
  pose proof (body_html _ (match ep.1 with g :: _ => group_title g | [] => "" end) Ht).
  apply html_el; [reflexivity|attrs_tac|]. repeat first [assumption|apply nl_html|apply html_app].
Qed.
(** A suite whose name looks like a tag. *)
Lemma page_well_formed_witness :
  let doc m := Element "testsuites" [] "" ""
    [Element "testsuite" [("name", "</td><script>")] "" "" [Element "testcase" [("name", "t")] "" "" m]] in
  let docs := [("junit_interoperability_report_01022026-0900-par4.xml", doc []);
               ("junit_interoperability_report_02022026-0900-par4.xml",
                doc [Element "error" [("message", "lost")] "" "" []])] in
  ∃ ep page, build_explain_parallel_report docs = Ok ep ∧ length ep.1 = 1
    ∧ render_html_report ep [] docs = Ok ("<!DOCTYPE html>" +:+ nl 0 +:+ page) ∧ html page.
Proof.
  intros doc docs.
  destruct (build_explain_parallel_report docs) as [ep|] eqn:E; [|by vm_compute in E].
  destruct (page_well_formed docs ep [] docs) as (page&Hr&Hh); [exact E| |].
  - repeat (apply Forall_cons; split); [..|apply Forall_nil_2]; eexists; reflexivity.
  - exists ep, page. split; [exact eq_refl|]. split; [|split; [exact Hr|exact Hh]].
    vm_compute in E. injection E as <-. reflexivity.
Defined.
