(* ===== verification/HtmlTabs.v ===== *)
(** * Report comparison: the tabs of the HTML page in a browser

    What the script of benchmarking/junit_compare/html_report.py does to the tabs that
    [HtmlReport.render_html_report] writes: the panel that is displayed, the button that is
    marked and the title for printing.  Sections are left out. *)

From S2P Require Import Prelude PyStr PyDict PySort Json FileRegistry ReportLoader ReportCompare ReportStats ReportText HtmlReport.
From stdpp Require Import options.
Local Open Scope string_scope.

(** ** The document *)

Record dom_tab := DomTab { d_id : string; d_label : string; displayed : bool; active : bool }.
Record dom := Dom { d_tabs : list dom_tab; print_title : string }.

(** A button and the panel of the same name, as [_tab_btn] and [_tab_panel] write them. *)
Definition dom_tab_of (t : tab) : dom_tab := DomTab (tab_id t) (tab_label t) (tab_active t) (tab_active t).
Definition clear (t : dom_tab) : dom_tab := DomTab (d_id t) (d_label t) false false.
Definition show (t : dom_tab) : dom_tab := DomTab (d_id t) (d_label t) true true.
(** [getElementById] and [querySelector]: the first one of the name. *)
Fixpoint on_first (id : string) (f : dom_tab → dom_tab) (l : list dom_tab) : list dom_tab :=
  match l with
  | [] => []
  | t :: l' => if decide (d_id t = id) then f t :: l' else t :: on_first id f l'
  end.

Definition updatePrintTabHeader (d : dom) : dom :=
  match List.find active (d_tabs d) with
  | Some t => Dom (d_tabs d) (strip (d_label t))
  | None => d
  end.
Definition showTab (id : string) (d : dom) : dom :=
  updatePrintTabHeader (Dom (on_first id show (clear <$> d_tabs d)) (print_title d)).
Definition getActiveTabPanel (d : dom) : option dom_tab :=
  match List.find displayed (d_tabs d) with Some t => Some t | None => head (d_tabs d) end.
(** The page as it is loaded. *)
Definition load (ep : list ParallelGroupReport * list string) (tabs : list tab) : dom :=
  updatePrintTabHeader
    (Dom (dom_tab_of <$> tabs) (match ep.1 with g :: _ => group_title g | [] => "" end)).
Definition click (d : dom) (id : string) : dom := showTab id d.

(** ** What a reader sees *)

(** The names of the panels that are displayed and of the buttons that are marked. *)
Definition shown (d : dom) : list string := d_id <$> filter (λ t, displayed t = true) (d_tabs d).
Definition marked (d : dom) : list string := d_id <$> filter (λ t, active t = true) (d_tabs d).
(** The page with one tab, or none, chosen. *)
Definition chosen (current : option string) (t : tab) : dom_tab :=
  let b := bool_decide (current = Some (tab_id t)) in DomTab (tab_id t) (tab_label t) b b.
Definition title_of (current : option string) (tabs : list tab) : string :=
  match List.find (λ t, bool_decide (current = Some (tab_id t))) tabs with Some t => strip (tab_label t) | None => "" end.
Definition view (current : option string) (tabs : list tab) : dom :=
  Dom (chosen current <$> tabs) (title_of current tabs).
(** The tab that the page opens with. *)
Definition group_id (g : ParallelGroupReport) : string := "tab_par" +:+ str_of_Z (parallel_count g).
Definition first_tab (ep : list ParallelGroupReport * list string) : option string := group_id <$> head ep.1.

Lemma find_chosen current tabs :
  List.find active (chosen current <$> tabs)
  = chosen current <$> List.find (λ t, bool_decide (current = Some (tab_id t))) tabs.
Proof.
  induction tabs as [|t tabs IH]; [done|]. cbn [fmap list_fmap List.find]. cbn [chosen active].
  destruct (bool_decide _); [done|exact IH].
Qed.
Lemma header_chosen current tabs title :
  (List.find (λ t, bool_decide (current = Some (tab_id t))) tabs = None → title = "") →
  updatePrintTabHeader (Dom (chosen current <$> tabs) title) = view current tabs.
Proof.
  intros Ht. unfold updatePrintTabHeader, view, title_of. cbn [d_tabs]. rewrite find_chosen.
  destruct (List.find _ tabs) as [t|] eqn:E; cbn [fmap option_fmap option_map]; [done|]. by rewrite Ht.
Qed.

Lemma on_first_unique id l :
  NoDup (d_id <$> l) → on_first id show (clear <$> l) = (λ t, if decide (d_id t = id) then show t else clear t) <$> l.
Proof.
  induction l as [|t l IH]; [done|]. cbn [fmap list_fmap on_first]. intros [Hn Hl]%NoDup_cons. cbn [clear d_id].
  case_decide as E; [|by rewrite IH].
  f_equal. apply list_fmap_ext. intros i u Hu. rewrite decide_False; [done|].
  intros Eu. apply Hn. rewrite E, <- Eu. apply list_elem_of_fmap_2. by eapply list_elem_of_lookup_2.
Qed.
Lemma find_tab id tabs : id ∈ tab_id <$> tabs → List.find (λ t, bool_decide (Some id = Some (tab_id t))) tabs ≠ None.
Proof.
  intros (t&->&Ht)%list_elem_of_fmap Hn. apply list_elem_of_In in Ht.
  pose proof (List.find_none _ _ Hn t Ht) as H. by apply bool_decide_eq_false in H.
Qed.
Lemma click_view current tabs id :
  NoDup (tab_id <$> tabs) → id ∈ tab_id <$> tabs → click (view current tabs) id = view (Some id) tabs.
Proof.
  intros Hn Hid. unfold click, showTab, view. cbn [d_tabs print_title].
  rewrite on_first_unique by (rewrite <- list_fmap_compose; exact Hn).
  rewrite <- list_fmap_compose.
  rewrite (list_fmap_ext _ (chosen (Some id)) tabs).
  - apply header_chosen. intros H. by apply find_tab in Hid.
  - intros i t _. unfold compose, chosen, show, clear. cbn [d_id d_label]. case_decide as E; subst.
    + by rewrite bool_decide_true.
    + rewrite bool_decide_false; [done|]. congruence.
Qed.

(** ** The tabs of the report *)

Lemma group_tabs_of i groups tabs :
  group_tabs i groups = Ok tabs →
  tab_id <$> tabs = group_id <$> groups
  ∧ Forall (λ t, tab_active t = false) (if decide (i = 0) then tail tabs else tabs)
  ∧ ∀ g, i = 0 → head groups = Some g → ∃ t, head tabs = Some t ∧ tab_active t = true ∧ tab_label t = group_title g.
Proof.
  revert i tabs. induction groups as [|g groups IH]; intros i tabs; cbn [group_tabs].
  { intros <-%Ok_inj. split; [done|]. split; [by case_decide|done]. }
  intros (t&(text&_&<-%Ok_inj)%bind_Ok&(ts&(Hi&Ha&_)%IH&<-%Ok_inj)%bind_Ok)%bind_Ok. split; [|split].
  - cbn [fmap list_fmap]. by rewrite Hi.
  - rewrite decide_False in Ha by done. case_decide; [done|]. constructor; [|done]. cbn [tab_active].
    by apply bool_decide_eq_false.
  - intros g' -> [= <-]. eexists. split; [reflexivity|]. done.
Qed.
(** The groups are for different numbers of parallel runs. *)
Lemma group_file_wf docs s : wf s.1 → wf (foldl group_file s docs).1.
Proof.
  revert s. induction docs as [|d docs IH]; intros s Hs; [done|]. apply IH. unfold group_file.
  case_match; [by apply wf_dset|done].
Qed.
Lemma group_counts docs ep : build_explain_parallel_report docs = Ok ep → NoDup (parallel_count <$> ep.1).
Proof.
  unfold build_explain_parallel_report. pose proof (group_file_wf docs ([], []) wf_nil) as Hw.
  destruct (foldl group_file ([], []) docs) as [groups rest]. cbn [fst] in Hw.
  intros (reports&Hr&<-%Ok_inj)%bind_Ok. cbn [fst].
  assert (parallel_count <$> reports = (sort_by (by_key fst Z.leb) groups).*1) as ->.
  { revert reports Hr. induction (sort_by _ groups) as [|[par files] l IH]; intros reports Hr; [by injection Hr as <-|].
    apply bind_Ok in Hr as (r&(rows&_&<-%Ok_inj)%bind_Ok&(rs&Hrs&<-%Ok_inj)%bind_Ok). cbn [fmap list_fmap].
    by rewrite (IH _ Hrs). }
  rewrite sort_by_perm. exact Hw.
Qed.
#[export] Instance str_of_Z_inj : Inj eq eq str_of_Z.
Proof. intros x y E. apply (f_equal (py_int 10)) in E. rewrite !py_int_str_of_Z in E. by injection E. Qed.
#[export] Instance group_id_par : Inj eq eq (λ z, "tab_par" +:+ str_of_Z z).
Proof. intros x y [= E]. by apply str_of_Z_inj. Qed.

Lemma compare_tab_of reports files tabs :
  compare_tab reports files = Ok tabs →
  tab_id <$> tabs = (if decide (reports = []) then [] else if decide (files = []) then [] else ["tab_compare"])
  ∧ Forall (λ t, tab_active t = false) tabs.
Proof.
  unfold compare_tab. destruct reports; [intros <-%Ok_inj; by split; [|constructor]|].
  destruct files; [intros <-%Ok_inj; by split; [|constructor]|].
  intros (text&_&<-%Ok_inj)%bind_Ok. split; [done|]. by repeat constructor.
Qed.
Lemma excluded_tab_of ungrouped :
  tab_id <$> excluded_tab ungrouped = (if decide (ungrouped = []) then [] else ["tab_ungrouped"])
  ∧ Forall (λ t, tab_active t = false) (excluded_tab ungrouped).
Proof. destruct ungrouped; (split; [done|]); by repeat constructor. Qed.

Lemma other_tabs_NoDup b c (k : list string) :
  NoDup k → (∀ id, id ∈ k → ∃ r, id = "tab_par" +:+ r) →
  NoDup (k ++ (if b : bool then [] else ["tab_compare"]) ++ (if c : bool then [] else ["tab_ungrouped"])).
Proof.
  intros Hk Hp. apply NoDup_app. split; [done|]. split.
  - intros id (r&->)%Hp. destruct b, c; cbn [app]; set_solver.
  - destruct b, c; cbn [app]; repeat constructor; set_solver.
Qed.
Lemma group_ids_NoDup (groups : list ParallelGroupReport) :
  NoDup (parallel_count <$> groups) → NoDup (group_id <$> groups).
Proof. intros H. apply (NoDup_fmap_2 (λ z, "tab_par" +:+ str_of_Z z)) in H. by rewrite <- list_fmap_compose in H. Qed.

Lemma chosen_first t l :
  NoDup (tab_id <$> (t :: l)) → tab_active t = true → Forall (λ u, tab_active u = false) l →
  dom_tab_of <$> (t :: l) = chosen (Some (tab_id t)) <$> (t :: l).
Proof.
  cbn [fmap list_fmap]. intros [Ht _]%NoDup_cons Ha Hl. f_equal.
  - unfold dom_tab_of, chosen. by rewrite Ha, bool_decide_true.
  - apply list_fmap_ext. intros i u Hu%list_elem_of_lookup_2. rewrite Forall_forall in Hl.
    unfold dom_tab_of, chosen. rewrite Hl, bool_decide_false by
      (try done; intros [= E]; apply Ht; rewrite E; by apply list_elem_of_fmap_2). done.
Qed.
Lemma chosen_none l : Forall (λ u, tab_active u = false) l → dom_tab_of <$> l = chosen None <$> l.
Proof.
  intros Hl. apply list_fmap_ext. intros i u Hu%list_elem_of_lookup_2. rewrite Forall_forall in Hl.
  unfold dom_tab_of, chosen. by rewrite Hl.
Qed.

Lemma tabs_of_page docs ep reports files tabs :
  build_explain_parallel_report docs = Ok ep → tabs_of ep reports files = Ok tabs →
  NoDup (tab_id <$> tabs)
  ∧ (∀ id, first_tab ep = Some id → id ∈ tab_id <$> tabs)
  ∧ load ep tabs = view (first_tab ep) tabs.
Proof.
  intros Hep%group_counts (t1&H1&(t2&(Hi2&Ha2)%compare_tab_of&<-%Ok_inj)%bind_Ok)%bind_Ok.
  destruct (group_tabs_of _ _ _ H1) as (Hi1&Ha1&Hh). destruct (excluded_tab_of ep.2) as [Hi3 Ha3].
  rewrite decide_True in Ha1 by done.
  assert (NoDup (tab_id <$> (t1 ++ t2 ++ excluded_tab ep.2)%list)) as Hn.
  { rewrite !fmap_app, Hi1, Hi2, Hi3.
    assert (NoDup (group_id <$> ep.1)) as Hg by by apply group_ids_NoDup.
    assert (∀ id, id ∈ group_id <$> ep.1 → ∃ r, id = "tab_par" +:+ r) as Hp
      by (intros id (g&->&_)%list_elem_of_fmap; by eexists).
    pose proof (λ b c, other_tabs_NoDup b c _ Hg Hp) as H.
    repeat case_decide;
      first [exact (H true true)|exact (H true false)|exact (H false true)|exact (H false false)]. }
  assert (∀ id, first_tab ep = Some id → id ∈ tab_id <$> (t1 ++ t2 ++ excluded_tab ep.2)%list) as Hf.
  { unfold first_tab. intros id Hid. rewrite fmap_app, Hi1. apply elem_of_app. left.
    destruct ep.1; [done|]. injection Hid as <-. left. }
  split; [done|]. split; [done|]. unfold load. unfold first_tab in *. destruct ep.1 as [|g groups].
  - apply fmap_nil_inv in Hi1. subst t1. cbn [app]. rewrite chosen_none by by apply Forall_app_2.
    by apply header_chosen.
  - destruct (Hh g eq_refl eq_refl) as (t&Ht&Hat&_). destruct t1 as [|t' t1]; [done|]. injection Ht as ->.
    injection Hi1 as Hid _. cbn [app]. rewrite chosen_first; [|done..|].
    + cbn [head fmap option_fmap option_map]. rewrite <- Hid. apply header_chosen. intros Hno.
      exfalso. revert Hno. apply find_tab. left.
    + cbn [tail] in Ha1. by repeat apply Forall_app_2.
Qed.

Lemma clicks_view current tabs clicks :
  NoDup (tab_id <$> tabs) → Forall (λ id, id ∈ tab_id <$> tabs) clicks →
  foldl click (view current tabs) clicks
  = view (match last clicks with Some id => Some id | None => current end) tabs.
Proof.
  intros Hn Hc. revert current. induction Hc as [|id clicks Hid Hc IH]; intros current; [done|].
  cbn [foldl]. rewrite click_view by done. rewrite IH, last_cons. by destruct (last clicks).
Qed.
Lemma view_none tabs : shown (view None tabs) = [] ∧ marked (view None tabs) = [] ∧ print_title (view None tabs) = "".
Proof.
  unfold shown, marked, view, title_of. cbn [d_tabs print_title].
  induction tabs as [|t tabs (IH1&IH2&IH3)]; [done|]. done.
Qed.
Lemma filter_chosen (b : dom_tab → bool) id tabs :
  (∀ t, b (chosen (Some id) t) = bool_decide (id = tab_id t)) → NoDup (tab_id <$> tabs) → id ∈ tab_id <$> tabs →
  d_id <$> filter (λ t, b t = true) (chosen (Some id) <$> tabs) = [id]
  ∧ d_id <$> List.find b (chosen (Some id) <$> tabs) = Some id.
Proof.
  intros Hb Hn Hid. induction tabs as [|t tabs IH]; [set_solver|]. cbn [fmap list_fmap] in *.
  apply NoDup_cons in Hn as [Ht Hn]. cbn [List.find]. rewrite filter_cons, Hb. destruct (decide (id = tab_id t)) as [->|Hne].
  - rewrite bool_decide_true, decide_True by done. split; [|done]. cbn [fmap list_fmap chosen d_id]. f_equal.
    destruct (filter _ _) as [|u l] eqn:E; [done|]. exfalso.
    assert (u ∈ filter (λ t, b t = true) (chosen (Some (tab_id t)) <$> tabs)) as Hu by (rewrite E; left).
    apply list_elem_of_filter in Hu as [Hu (v&->&Hv)%list_elem_of_fmap]. rewrite Hb, bool_decide_eq_true in Hu.
    apply Ht. rewrite Hu. by apply list_elem_of_fmap_2.
  - rewrite bool_decide_false, decide_False by done. apply IH; [done|]. set_solver.
Qed.
Lemma view_some id tabs :
  NoDup (tab_id <$> tabs) → id ∈ tab_id <$> tabs →
  shown (view (Some id) tabs) = [id] ∧ marked (view (Some id) tabs) = [id]
  ∧ d_id <$> getActiveTabPanel (view (Some id) tabs) = Some id
  ∧ ∃ t, t ∈ tabs ∧ tab_id t = id ∧ print_title (view (Some id) tabs) = strip (tab_label t).
Proof.
  intros Hn Hid.
  assert (∀ t, bool_decide (Some id = Some (tab_id t)) = bool_decide (id = tab_id t)) as Hb
    by (intros t; apply bool_decide_ext; naive_solver).
  destruct (filter_chosen displayed id tabs Hb Hn Hid) as [H1 H2].
  destruct (filter_chosen active id tabs Hb Hn Hid) as [H3 _]. split; [exact H1|]. split; [exact H3|]. split.
  - unfold getActiveTabPanel, view. cbn [d_tabs]. by destruct (List.find displayed _).
  - unfold view, title_of. cbn [print_title]. pose proof (find_tab id tabs Hid) as Hf.
    destruct (List.find _ tabs) as [t|] eqn:E; [|done]. apply List.find_some in E as [Ht E%bool_decide_eq_true].
    exists t. split; [by apply list_elem_of_In|]. split; [by injection E|done].
Qed.

(** C38: On the page about loaded reports one tab is open: at first that of the first group, then
    the last one that was clicked; its panel alone is displayed, its button alone is marked,
    expanding and collapsing sections apply to it, and it gives the title for printing.  (When
    there are no groups, no panel is displayed until the first click.) *)
Theorem one_tab_open docs ep reports files tabs clicks
    (Hb : build_explain_parallel_report docs = Ok ep) (Ht : tabs_of ep reports files = Ok tabs)
    (Hc : Forall (λ id, id ∈ tab_id <$> tabs) clicks) :
  let d := foldl click (load ep tabs) clicks in
  match (match last clicks with Some id => Some id | None => first_tab ep end) with
  | Some id =>
      shown d = [id] ∧ marked d = [id] ∧ d_id <$> getActiveTabPanel d = Some id
      ∧ ∃ t, t ∈ tabs ∧ tab_id t = id ∧ print_title d = strip (tab_label t)
  | None => ep.1 = [] ∧ shown d = [] ∧ marked d = [] ∧ print_title d = ""
  end.
Proof.
  destruct (tabs_of_page _ _ _ _ _ Hb Ht) as (Hn&Hf&Hl). cbv zeta. rewrite Hl, clicks_view by done.
  destruct (last clicks) as [id|] eqn:E.
  - apply view_some; [done|]. rewrite Forall_forall in Hc. apply Hc. by apply last_Some_elem_of.
  - destruct (first_tab ep) as [id|] eqn:Ef; [apply view_some; auto|].
    split; [by destruct ep as [[] ?]|apply view_none].
Qed.
Lemma one_tab_open_witness :
  let docs := [("junit_interoperability_report_01022026-0900-par4.xml", Element "testsuites" [] "" "" []);
               ("junit_interoperability_report_01022026-0900-par8.xml", Element "testsuites" [] "" "" [])] in
  ∃ ep tabs, build_explain_parallel_report docs = Ok ep ∧ tabs_of ep [] docs = Ok tabs
    ∧ tab_id <$> tabs = ["tab_par4"; "tab_par8"]
    ∧ shown (foldl click (load ep tabs) []) = ["tab_par4"]
    ∧ shown (foldl click (load ep tabs) ["tab_par8"; "tab_par8"]) = ["tab_par8"].
Proof.
  intros docs.
  destruct (build_explain_parallel_report docs) as [ep|] eqn:E; [|by vm_compute in E].
  destruct (tabs_of ep [] docs) as [tabs|] eqn:Et; [|by vm_compute in E; injection E as <-; vm_compute in Et].
  assert (tab_id <$> tabs = ["tab_par4"; "tab_par8"]) as Hi.
  { clear - E Et. vm_compute in E. injection E as <-. vm_compute in Et. by injection Et as <-. }
  pose proof (one_tab_open docs ep [] docs tabs [] E Et) as H1.
  pose proof (one_tab_open docs ep [] docs tabs ["tab_par8"; "tab_par8"] E Et) as H2.
  exists ep, tabs. split; [reflexivity|]. split; [exact Et|]. split; [exact Hi|]. rewrite Hi in H2. split.
  - specialize (H1 (Forall_nil_2 _)). cbn in H1.
    assert (first_tab ep = Some "tab_par4") as Hf by (clear - E; vm_compute in E; by injection E as <-).
    rewrite Hf in H1. apply H1.
  - apply H2. repeat constructor.
Defined.

(** Without a group the page opens with nothing but the buttons. *)
Lemma nothing_open_without_groups ungrouped reports files tabs :
  tabs_of ([], ungrouped) reports files = Ok tabs → shown (load ([], ungrouped) tabs) = [].
Proof.
  intros (t1&[= <-]&(t2&(_&Ha2)%compare_tab_of&<-%Ok_inj)%bind_Ok)%bind_Ok.
  destruct (excluded_tab_of ungrouped) as [_ Ha3]. unfold load. cbn [app snd].
  rewrite chosen_none by by apply Forall_app_2. cbn [fst]. rewrite header_chosen by done. apply view_none.
Qed.
