(* ===== verification/CompareMain.v ===== *)
(** * Report comparison: the command (benchmarking/compare_junit_reports.py, explain.py)

    [main] with what it prints and writes.  Reading a report ([read]) and whether a file can
    be written ([writable]) are arguments.  A file is its name in the directory. *)

From S2P Require Import Prelude PyStr PySort PyDict Json JsonLoads Effects Utilities RunTest FileRegistry ReportLoader ReportCompare ReportStats ReportText HtmlReport.
From stdpp Require Import options.
Local Open Scope string_scope.

(** ** Arguments *)

Record args := Args {
  a_first : option string;
  a_second : option string;
  include_times : bool;
  include_details : bool;
  simple : bool;
  show_differences : bool;
  compare_all : bool;
  as_json : bool;
  explain_parallel : bool;
  html : bool;
  a_batch : option Z;
  a_name_tag : option string
}.
(** The truth of a path argument. *)
Definition given (o : option string) : bool := match o with Some _ => true | None => false end.

Section command.
Context (read : string → result element) (writable : string → bool).
Context (unified_diff : list string → list string → list string).

(** [path.write_text(text)]: whether it succeeded. *)
Definition write_text (path text : string) : M bool := λ w,
  if writable path then (World (stdout w) (stderr w) (dset path text (files w)), Ok true)
  else (w, Ok false).
Definition documents (paths : list string) : result (list xml_file) :=
  mapM (λ p, e ← read p; Ok (p, e)) paths.
(** Only the files that belong to a group are read. *)
Definition grouped_documents (paths : list string) : result (list xml_file) :=
  mapM (λ p, match parse_filename_meta p with
             | Some _ => e ← read p; Ok (p, e)
             | None => Ok (p, Element "" [] "" "" [])
             end) paths.
Definition compare_files (first second : string) (a : args) : result CompareReport :=
  f ← read first; s ← read second; compare first second f s (include_times a) (include_details a).

(** [generate_explanation]: a failure to write is only reported. *)
Definition generate_explanation (first last : string) (reports : list CompareReport) (paths : list string) :
    M unit :=
  docs ← lift (documents paths);
  lines ← lift (explanation_text first last reports docs);
  let path := output_filename first last "explain" in
  ok ← write_text path (text_of lines);
  if ok : bool then print_line ("Explanation written to: " +:+ path_name path)
  else print_err ("Error writing explanation file " +:+ path +:+ newline).

Definition mode_of (a : args) : string :=
  if as_json a then "json" else if simple a then "simple"
  else if show_differences a then "show-differences" else "report".
(** The text for one comparison. *)
Definition report_text (a : args) (r : CompareReport) : string :=
  if as_json a then text_of [dumps_at 0 (to_dict r)]
  else if simple a then text_of (print_simple_report r)
  else if show_differences a then text_of (print_differences r)
  else text_of (print_report unified_diff r (include_times a)).

(** The text for several. *)
Definition repeated_lines (indent : string) (repeated : dict string nat) : list string :=
  (λ p : string * nat, indent +:+ p.1 +:+ ": " +:+ str_of_nat p.2 +:+ " comparisons") <$> repeated.
Definition repeated_title : string := "##Result for: Repeated testcase changes on the same location".
Definition payload (reports : list CompareReport) (status_summary : list (string * dict string nat)) : json :=
  let counts (d : dict string nat) := JObj ((λ p : string * nat, (p.1, JInt (Z.of_nat p.2))) <$> d) in
  JObj [("comparison_count", JInt (Z.of_nat (length reports)));
        ("repeat_test_locations", counts (_repeated_change_tests reports));
        ("status_counts_across_reports",
          JObj ((λ p : string * dict string nat, (p.1, counts p.2)) <$> status_summary));
        ("comparisons", JList (to_dict <$> reports))].
Definition all_text (a : args) (reports : list CompareReport)
    (status_summary : list (string * dict string nat)) : string :=
  let repeated := _repeated_change_tests reports in
  let frequency := match status_summary with [] => [] | _ => print_failure_frequency_summary status_summary end in
  let n := str_of_nat (length repeated) in
  let heading := ((match frequency with [] => [] | _ => frequency ++ [""] end)
    ++ match repeated with
       | [] => []
       | _ => [repeated_title; "Repeated testcase changes on the same location: " +:+ n]
              ++ repeated_lines "  " repeated ++ [""]
       end)%list in
  if as_json a then dumps_at 0 (payload reports status_summary)
  else if simple a then
    text_of (["Current comparison shows:"] ++ frequency
      ++ (match repeated with [] => [] | _ => [repeated_title] end)
      ++ ["- repeated testcase changes on the same location: " +:+ n] ++ repeated_lines "  - " repeated
      ++ (reports ≫= print_simple_report))%list
  else if show_differences a then
    text_of (heading ++ (r ← reports; print_differences r ++ [""]))%list
  else text_of (heading ++ (r ← reports; print_report unified_diff r (include_times a) ++ [""]))%list.

(** Print a text, write it to the file of the two reports, and explain. *)
Definition save (text first last mode : string) (reports : list CompareReport) (paths : list string) : M nat :=
  _ ← print text;
  let path := output_filename first last mode in
  ok ← write_text path text;
  if ok : bool then
    _ ← print_line ("Output written to: " +:+ path_name path);
    _ ← generate_explanation first last reports paths;
    mret 0
  else
    _ ← print_err ("Error writing output file " +:+ path +:+ newline);
    mret 1.
Definition render_and_save (r : CompareReport) (first second : string) (a : args) : M nat :=
  save (report_text a r) first second (mode_of a) [r] [first; second].
Definition render_compare_all (pairs : list (string * string)) (reports : list CompareReport) (a : args)
    (paths : list string) : M nat :=
  first ← lift (or_raise IndexError (fst <$> head pairs));
  last ← lift (or_raise IndexError (snd <$> last pairs));
  docs ← lift (documents paths);
  status_summary ← lift (summarize_test_statuses docs);
  save (all_text a reports status_summary) first last (mode_of a) reports paths.

(** The reports of parallel runs. *)
Definition generate_explain_parallel (paths : list string) (name_tag : string) : M unit :=
  match paths with
  | [] => print_err ("No XML files provided for explain_parallel." +:+ newline)
  | _ =>
      docs ← lift (grouped_documents paths);
      ep ← lift (build_explain_parallel_report docs);
      match ep with
      | ([], _ :: _) =>
          print_err ("No files with the new filename format found – cannot group by parallel count."
            +:+ newline)
      | _ =>
          let path := "explain_parallel" +:+ name_tag +:+ ".txt" in
          lines ← lift (render_explain_parallel ep);
          ok ← write_text path (text_of lines);
          if ok : bool then print_line ("Parallel explanation written to: " +:+ path)
          else print_err ("Error writing explain_parallel file " +:+ path +:+ newline)
      end
  end.
Definition generate_html_report (paths : list string) (reports : list CompareReport) (name_tag : string) :
    M unit :=
  match paths with
  | [] => print_err ("No XML files for HTML report." +:+ newline)
  | _ =>
      docs ← lift (grouped_documents paths);
      ep ← lift (build_explain_parallel_report docs);
      let path := "explain_parallel" +:+ name_tag +:+ ".html" in
      files ← lift (match reports with [] => Ok [] | _ => documents paths end);
      html ← lift (render_html_report ep reports files);
      ok ← write_text path html;
      if ok : bool then print_line ("HTML report written to: " +:+ path)
      else print_err ("Error writing HTML report" +:+ newline)
  end.

(** The suffix of their names: the argument, or the runner and the number of the run. *)
Definition name_tag_of (directory : list string) (a : args) : string :=
  match a_name_tag a with
  | Some t => t
  | None =>
      match a_batch a with
      | None => ""
      | Some b =>
          (match parse_filename_meta <$> head (choose_all_files directory (Some b)) with
           | Some (Some meta) => match runner meta with Some r => "-" +:+ r | None => "" end
           | _ => ""
           end) +:+ "-run" +:+ str_of_Z b
      end
  end.

(** [parser.error] ends the program with 2. *)
Definition parser_error (message : string) : M nat :=
  _ ← print_err (message +:+ newline); mret 2.
Definition run (directory : list string) (a : args) : M nat :=
  let name_tag := name_tag_of directory a in
  let explicit := given (a_first a) || given (a_second a) in
  let paths := choose_all_files directory (a_batch a) in
  if explain_parallel a && explicit then
    parser_error "--explain-parallel cannot be combined with explicit XML reports"
  else if explain_parallel a then
    _ ← generate_explain_parallel paths name_tag;
    _ ← (if html a then generate_html_report paths [] name_tag else mret ());
    mret 0
  else if compare_all a && explicit then
    parser_error "--compare-all cannot be combined with explicit XML reports"
  else if compare_all a then
    if decide (length paths < 2) then lift (Raise ValueError)
    else
      let pairs := zip paths (tail paths) in
      reports ← lift (mapM (λ p : string * string, compare_files p.1 p.2 a) pairs);
      code ← render_compare_all pairs reports a paths;
      if decide (code = 0) then
        _ ← (if html a then generate_html_report paths reports name_tag else mret ());
        mret 0
      else mret 1
  else if explicit then
    match a_first a, a_second a with
    | Some first, Some second =>
        r ← lift (compare_files first second a); render_and_save r first second a
    | _, _ => parser_error "provide both first and second XML reports"
    end
  else
    pair ← lift (choose_files directory (a_batch a));
    r ← lift (compare_files pair.1 pair.2 a);
    render_and_save r pair.1 pair.2 a.

(** ParseError, OSError and ValueError are reported, the others end the program. *)
Definition reported (e : exn) : bool := bool_decide (e ∈ [ParseError; OSError; ValueError]).
Definition main (directory : list string) (a : args) : M nat := λ w,
  match run directory a w with
  | (w', Raise e) =>
      if reported e then (World (stdout w') (stderr w' +:+ "Error" +:+ newline) (files w'), Ok 1)
      else (w', Raise e)
  | r => r
  end.
End command.

(** ** Which exceptions the parts raise *)

Create HintDb tame discriminated.
Definition tame {A} (r : result A) : Prop := ∀ e, r = Raise e → reported e = true.
Lemma tame_Ok {A} (a : A) : tame (Ok a).
Proof. done. Qed.
Lemma tame_bind {A B} (r : result A) (f : A → result B) :
  tame r → (∀ a, r = Ok a → tame (f a)) → tame (r ≫= f).
Proof. intros Hr Hf e [H|(a&Ha&H)]%bind_Raise; [by apply Hr|by eapply Hf]. Qed.
Lemma tame_mapM {A B} (f : A → result B) l : (∀ x, tame (f x)) → tame (mapM f l).
Proof.
  intros Hf. induction l as [|x l IH]; [apply tame_Ok|].
  change (mapM f (x :: l)) with (y ← f x; k ← mapM f l; Ok (y :: k)).
  apply tame_bind; [apply Hf|]. intros y _. apply tame_bind; [exact IH|]. intros k _. apply tame_Ok.
Qed.
Lemma tame_mfold {A S} (f : S → A → result S) s l : (∀ s x, tame (f s x)) → tame (mfold f s l).
Proof. intros Hf e (s'&x&_&H)%mfold_Raise. by eapply Hf. Qed.

Lemma tame_load root : tame (load_results root).
Proof. rewrite load_results_spec. case_decide; [apply tame_Ok|]. intros e [= <-]. done. Qed.
Lemma tame_aggregate docs : tame (_aggregate_statuses docs).
Proof.
  apply tame_mfold. intros totals f. apply tame_bind; [apply tame_load|]. intros p _.
  apply tame_mfold. intros s r. rewrite add_status_spec. apply tame_Ok.
Qed.
Lemma tame_summary docs : tame (summarize_test_statuses docs).
Proof. apply tame_bind; [apply tame_aggregate|]. intros t _. apply tame_Ok. Qed.
Lemma tame_labels docs : tame (all_test_labels docs).
Proof.
  apply tame_bind; [|intros l _; apply tame_Ok]. apply tame_mapM. intros f.
  apply tame_bind; [apply tame_load|]. intros p _. apply tame_Ok.
Qed.
Lemma tame_explain docs : tame (explain docs).
Proof.
  apply tame_bind; [apply tame_summary|]. intros s _. apply tame_bind; [apply tame_labels|].
  intros l _. apply tame_Ok.
Qed.
Lemma tame_groups docs : tame (build_explain_parallel_report docs).
Proof.
  unfold build_explain_parallel_report. destruct (foldl group_file ([], []) docs) as [groups rest].
  apply tame_bind; [|intros l _; apply tame_Ok]. apply tame_mapM. intros g.
  apply tame_bind; [apply tame_aggregate|]. intros t _. apply tame_Ok.
Qed.
Lemma tame_text first last reports docs : tame (explanation_text first last reports docs).
Proof.
  unfold explanation_text. destruct (ReportCompare.flaky_tests reports) as [x y].
  apply tame_bind; [|intros e _; apply tame_Ok]. destruct docs as [|d docs]; [apply tame_Ok|].
  apply tame_bind; [apply tame_explain|]. intros e _. apply tame_Ok.
Qed.
Lemma tame_page docs ep reports files :
  build_explain_parallel_report docs = Ok ep → tame (render_html_report ep reports files).
Proof.
  intros Hep. unfold render_html_report, tabs_of.
  destruct (group_tabs_defined 0 ep.1) as [t ->]; [intros g; by apply (built_groups docs)|].
  apply tame_bind; [|intros ? _; apply tame_Ok]. apply tame_bind; [apply tame_Ok|]. intros ? _.
  apply tame_bind; [|intros ? _; apply tame_Ok].
  unfold compare_tab. destruct reports, files; try apply tame_Ok.
  apply tame_bind; [|intros ? _; apply tame_Ok]. unfold _render_compare_tab.
  apply tame_bind; [apply tame_summary|intros ? _; apply tame_Ok].
Qed.
Lemma tame_compare first second f s t d : tame (compare first second f s t d).
Proof.
  destruct (load_results f) as [[fs fr]|e] eqn:Ef; [destruct (load_results s) as [[ss sr]|e] eqn:Es|].
  - rewrite (compare_loaded _ _ _ _ _ _ _ _ _ _ Ef Es). apply tame_Ok.
  - unfold compare. rewrite Ef, Es. intros e' [= <-]. by apply (tame_load s).
  - unfold compare. rewrite Ef. intros e' [= <-]. by apply (tame_load f).
Qed.

(** ** What a run leaves *)

(** A computation ends in [Q], or raises one of the three exceptions that are reported. *)
Definition runs {A} (m : M A) (Q : world → A → world → Prop) : Prop :=
  ∀ w, match m w with
       | (w', Ok a) => extends w w' ∧ Q w a w'
       | (w', Raise e) => extends w w' ∧ reported e = true
       end.
Lemma runs_ret {A} (a : A) (Q : world → A → world → Prop) : (∀ w, Q w a w) → runs (mret a) Q.
Proof. intros H w. split; [done|apply H]. Qed.
Lemma runs_lift {A} (r : result A) (Q : world → A → world → Prop) :
  tame r → (∀ a w, r = Ok a → Q w a w) → runs (lift r) Q.
Proof. intros Ht H w. unfold lift. destruct r as [a|e]; split; [done|by apply H|done|by apply Ht]. Qed.
Lemma runs_bind {A B} (m : M A) (f : A → M B) P R (Q : world → B → world → Prop) :
  runs m P → (∀ a, runs (f a) (R a)) →
  (∀ w a w1 b w2, P w a w1 → R a w1 b w2 → extends w w1 → extends w1 w2 → Q w b w2) →
  runs (m ≫= f) Q.
Proof.
  intros Hm Hf HQ w. unfold mbind, M_bind. specialize (Hm w).
  destruct (m w) as [w1 [a|e]]; destruct Hm as [H1 Hm]; [|done].
  specialize (Hf a w1). destruct (f a w1) as [w2 [b|e]]; destruct Hf as [H2 Hf].
  - split; [by etrans|by eapply HQ].
  - split; [by etrans|done].
Qed.
Lemma runs_weaken {A} (m : M A) (P Q : world → A → world → Prop) :
  runs m P → (∀ w a w', P w a w' → Q w a w') → runs m Q.
Proof. intros Hm H w. specialize (Hm w). destruct (m w) as [w' [a|e]]; naive_solver. Qed.
Lemma runs_pull {A B} (r : result A) (f : A → M B) (Q : world → B → world → Prop) :
  tame r → (∀ a, r = Ok a → runs (f a) Q) → runs (lift r ≫= f) Q.
Proof.
  intros Ht Hf w. unfold mbind, M_bind, lift. destruct r as [a|e]; [by apply Hf|].
  split; [done|by apply Ht].
Qed.

(** No other file than [n] is written. *)
Definition only {A} (n : string) (m : M A) : Prop :=
  runs m (λ w _ w', ∀ p, p ≠ n → dget p (files w') = dget p (files w)).
Lemma only_ret {A} n (a : A) : only n (mret a).
Proof. by apply runs_ret. Qed.
Lemma only_bind {A B} n (m : M A) (f : A → M B) : only n m → (∀ a, only n (f a)) → only n (m ≫= f).
Proof.
  intros Hm Hf. eapply runs_bind; [exact Hm|exact Hf|]. intros w a w1 b w2 H1 H2 _ _ p Hp.
  by rewrite H2, H1.
Qed.
Lemma only_lift {A B} n (r : result A) (f : A → M B) :
  tame r → (∀ a, only n (f a)) → only n (lift r ≫= f).
Proof. intros Ht Hf. apply runs_pull; [done|]. intros a _. apply Hf. Qed.
Lemma only_print n text : only n (print text).
Proof. intros w. split; [|done]. exists text, "". by rewrite sapp_nil_r. Qed.
Lemma only_print_err n text : only n (print_err text).
Proof. intros w. split; [|done]. exists "", text. by rewrite sapp_nil_r. Qed.
Lemma only_write writable n text : only n (write_text writable n text).
Proof.
  intros w. unfold write_text. destruct (writable n).
  - split; [exists "", ""; by rewrite !sapp_nil_r|]. intros p Hp. by apply dget_dset_ne.
  - by split.
Qed.
Ltac only_tac :=
  repeat first
    [ apply only_ret | apply only_print | apply only_print_err | apply only_write
    | apply only_lift; [by auto with tame|intros ?] | apply only_bind; [|intros ?]
    | case_match ].

Lemma snoc_last a b (c d : ascii) : a +:+ String c "" = b +:+ String d "" → c = d.
Proof.
  revert b. induction a as [|x a IH]; intros [|y b] H; cbn in H; injection H; try done.
  - intros H'. by destruct b.
  - intros H'. by destruct a.
  - intros H' _. by eapply IH.
Qed.
Lemma explain_name first last a :
  output_filename first last "explain" ≠ output_filename first last (mode_of a).
Proof.
  unfold output_filename. intros H%(inj (String.append _)). unfold mode_of in H.
  by destruct (as_json a), (simple a), (show_differences a).
Qed.
Lemma html_name tag first last mode :
  "explain_parallel" +:+ tag +:+ ".html" ≠ output_filename first last mode.
Proof.
  unfold output_filename. intros H.
  change ".html" with (".htm" +:+ "l") in H. change ".txt" with (".tx" +:+ "t") in H.
  rewrite <- !sapp_assoc in H. by apply snoc_last in H.
Qed.

(** ** The exit code *)

(** A message was printed to the standard error. *)
Definition complains (w w' : world) : Prop := ∃ e, e ≠ "" ∧ stderr w' = stderr w +:+ e.
Lemma complains_extends w w1 w2 : complains w w1 → extends w1 w2 → complains w w2.
Proof.
  intros (e&Hne&He) (o&e'&_&He'). exists (e +:+ e'). rewrite He', He, sapp_assoc.
  split; [|done]. by destruct e.
Qed.
Lemma extends_complains w w1 w2 : extends w w1 → complains w1 w2 → complains w w2.
Proof.
  intros (o&e&_&He) (e'&Hne&He'). exists (e +:+ e'). rewrite He', He, sapp_assoc.
  split; [|done]. by destruct e, e'.
Qed.
(** A text of [T] was printed first of all, and is in its file. *)
Definition saved (T : string → string → string → Prop) (a : args) (w w' : world) : Prop :=
  ∃ first last text rest,
    T first last text
    ∧ stdout w' = stdout w +:+ text +:+ rest
    ∧ dget (output_filename first last (mode_of a)) (files w') = Some text.
(** The arguments contradict each other. *)
Definition misused (a : args) : bool :=
  if explain_parallel a || compare_all a then given (a_first a) || given (a_second a)
  else xorb (given (a_first a)) (given (a_second a)).

(** How a comparison ends: with its text in a file, or with a message. *)
Definition ends (T : string → string → string → Prop) (a : args) (w : world) (code : nat) (w' : world) : Prop :=
  code = 0 ∧ saved T a w w' ∨ code = 1 ∧ complains w w'.
Section exits.
Context (read : string → result element) (writable : string → bool).
Context (unified_diff : list string → list string → list string).
(** Reading a file fails with the errors of the parser or of the system. *)
Context (Hread : ∀ p e, read p = Raise e → e = ParseError ∨ e = OSError).

Lemma tame_read p : tame (read p).
Proof using Hread. by intros e [->| ->]%Hread. Qed.
#[local] Hint Resolve tame_read : tame.
Lemma tame_documents paths : tame (documents read paths).
Proof using Hread.
  apply tame_mapM. intros p. apply tame_bind; [apply tame_read|]. intros. apply tame_Ok.
Qed.
Lemma tame_grouped paths : tame (grouped_documents read paths).
Proof using Hread.
  apply tame_mapM. intros p. case_match; [|apply tame_Ok].
  apply tame_bind; [apply tame_read|]. intros. apply tame_Ok.
Qed.
Lemma tame_files first second a : tame (compare_files read first second a).
Proof using Hread.
  do 2 (apply tame_bind; [apply tame_read|]; intros ? _). apply tame_compare.
Qed.
#[local] Hint Resolve tame_documents tame_grouped tame_files tame_text tame_groups : tame.

Lemma only_explanation first last reports paths :
  only (output_filename first last "explain")
    (generate_explanation read writable first last reports paths).
Proof using Hread. unfold generate_explanation. only_tac. Qed.
Lemma only_html paths reports tag :
  only ("explain_parallel" +:+ tag +:+ ".html")
    (generate_html_report read writable paths reports tag).
Proof using Hread.
  unfold generate_html_report. destruct paths as [|p paths]; [apply only_print_err|].
  apply only_lift; [apply tame_grouped|]. intros docs.
  apply runs_pull; [apply tame_groups|]. intros ep Hep.
  apply only_lift; [destruct reports; [apply tame_Ok|apply tame_documents]|]. intros files.
  apply only_lift; [by eapply tame_page|]. intros page. only_tac.
Qed.
Lemma only_parallel paths tag :
  only ("explain_parallel" +:+ tag +:+ ".txt")
    (generate_explain_parallel read writable paths tag).
Proof using Hread.
  unfold generate_explain_parallel. destruct paths as [|p paths]; [apply only_print_err|].
  apply only_lift; [apply tame_grouped|]. intros docs.
  apply runs_pull; [apply tame_groups|]. intros [gs fs] Hep.
  destruct (render_defined _ _ Hep) as [l Hl]. rewrite Hl.
  assert (tame (Ok l)) as Hlt by apply tame_Ok. destruct gs, fs; only_tac; exact Hlt.
Qed.

Lemma save_ends (T : string → string → string → Prop) text first last a reports paths :
  T first last text →
  runs (save read writable text first last (mode_of a) reports paths) (ends T a).
Proof using Hread.
  intros HT w. unfold save, print_line. set (n := output_filename first last (mode_of a)).
  generalize (("Output written to: " +:+ path_name n) +:+ newline).
  set (err := "Error writing output file " +:+ n +:+ newline).
  assert (err ≠ "") as Herr by done. clearbody err. intros msg.
  unfold mbind, M_bind, print, print_err, write_text. cbn [stdout stderr files].
  destruct (writable n).
  - set (w1 := World _ _ _). pose proof (only_explanation first last reports paths w1) as H.
    assert (extends w w1) as H1.
    { exists (text +:+ msg), "". unfold w1. cbn [stdout stderr]. by rewrite sapp_nil_r, sapp_assoc. }
    destruct (generate_explanation _ _ _ _ _ _ w1) as [w2 [u|e]]; destruct H as [H2 H].
    + split; [by etrans|]. left. split; [done|]. exists first, last, text.
      destruct H2 as (o&e&Ho&_). exists (msg +:+ o).
      split; [done|]. split.
      * rewrite Ho. unfold w1. cbn [stdout]. by rewrite !sapp_assoc.
      * rewrite H by (intros E; by eapply explain_name). apply dget_dset_eq.
    + split; [by etrans|done].
  - split; [by eexists text, err|]. right. split; [done|]. by exists err.
Qed.
(** What the arguments ask for. *)
Definition text_for (directory : list string) (a : args) (first last text : string) : Prop :=
  let paths := choose_all_files directory (a_batch a) in
  if compare_all a then
    ∃ reports docs s,
      mapM (λ p : string * string, compare_files read p.1 p.2 a) (zip paths (tail paths)) = Ok reports
      ∧ documents read paths = Ok docs ∧ summarize_test_statuses docs = Ok s
      ∧ text = all_text unified_diff a reports s
  else
    (if given (a_first a) then a_first a = Some first ∧ a_second a = Some last
     else choose_files directory (a_batch a) = Ok (first, last))
    ∧ ∃ r, compare_files read first last a = Ok r ∧ text = report_text unified_diff a r.

Lemma render_all_ends directory a reports :
  let paths := choose_all_files directory (a_batch a) in
  let pairs := zip paths (tail paths) in
  compare_all a = true → (2 ≤ length paths)%nat →
  mapM (λ p : string * string, compare_files read p.1 p.2 a) pairs = Ok reports →
  runs (render_compare_all read writable unified_diff pairs reports a paths)
    (ends (text_for directory a) a).
Proof using Hread.
  intros paths pairs Hc Hl Hr. unfold render_compare_all.
  destruct pairs as [|p l] eqn:Ep; [by destruct paths as [|x [|y l]]; cbn in Hl; [lia|lia|]|].
  apply runs_pull; [apply tame_Ok|]. intros first _.
  assert (is_Some (last (p :: l))) as [q Hq] by (by apply last_is_Some).
  rewrite Hq. apply runs_pull; [apply tame_Ok|]. intros la _.
  apply runs_pull; [apply tame_documents|]. intros docs Hd.
  apply runs_pull; [apply tame_summary|]. intros s Hs. apply save_ends.
  unfold text_for. rewrite Hc. exists reports, docs, s. fold paths pairs. by rewrite Ep.
Qed.
Lemma parser_error_ends message : runs (parser_error message) (λ w code w', code = 2 ∧ complains w w').
Proof.
  intros w. unfold parser_error, print_err, mbind, M_bind. split.
  - exists "", (message +:+ newline). by rewrite sapp_nil_r.
  - split; [done|]. exists (message +:+ newline). split; [by destruct message|done].
Qed.

(** The page does not touch the files of the comparisons. *)
Definition outputs_kept (w w' : world) : Prop :=
  ∀ first last mode, dget (output_filename first last mode) (files w')
                     = dget (output_filename first last mode) (files w).
Lemma page_ends (b : bool) paths reports tag :
  runs (_ ← (if b then generate_html_report read writable paths reports tag else mret ());
        mret 0)
    (λ w code w', code = 0 ∧ outputs_kept w w').
Proof using Hread.
  apply (runs_bind _ _ (λ w _ w', outputs_kept w w') (λ _ w code w', code = 0 ∧ w' = w)).
  - destruct b; [|by apply runs_ret]. eapply runs_weaken; [apply only_html|]. cbn.
    intros w v w' H f l m. apply H. intros E. symmetry in E. by eapply html_name.
  - intros v. by apply runs_ret.
  - by intros w v w1 code w2 Hf [-> ->] _ _.
Qed.
Lemma ends_kept T a w code w1 w2 :
  ends T a w code w1 → outputs_kept w1 w2 → extends w1 w2 → ends T a w code w2.
Proof.
  intros [[-> Hs]|[-> Hs]] Hf H2.
  - left. split; [done|]. destruct Hs as (f&l&t&rest&HT&Ho&Ht). destruct H2 as (o&e&Ho'&_).
    exists f, l, t, (rest +:+ o). split; [done|]. by rewrite Hf, Ho', Ho, !sapp_assoc.
  - right. split; [done|]. by eapply complains_extends.
Qed.

Lemma run_ends directory a :
  runs (run read writable unified_diff directory a)
    (λ w code w', if misused a then code = 2 ∧ complains w w'
                  else code = 0 ∧ explain_parallel a = true
                       ∨ ends (text_for directory a) a w code w').
Proof using Hread.
  unfold run, misused. set (paths := choose_all_files directory (a_batch a)).
  destruct (explain_parallel a) eqn:Ee; cbn [orb andb].
  { destruct (given (a_first a) || given (a_second a)); [apply parser_error_ends|].
    eapply runs_bind; [apply only_parallel|intros u; apply page_ends|].
    intros w u w1 code w2 _ [-> _] _ _. by left. }
  destruct (compare_all a) eqn:Ec; cbn [orb andb].
  { destruct (given (a_first a) || given (a_second a)); [apply parser_error_ends|].
    case_decide as Hl.
    { apply runs_lift; [|done]. by intros e [= <-]. }
    apply runs_pull; [apply tame_mapM; intros; apply tame_files|]. intros reports Hr.
    apply (runs_bind _ _ (ends (text_for directory a) a) (λ code w c w', c = (if decide (code = 0) then 0 else 1)
                                                 ∧ outputs_kept w w')).
    - apply render_all_ends; [done| |done]. by apply not_lt in Hl.
    - intros code. case_decide; [apply page_ends|by apply runs_ret].
    - intros w c w1 c' w2 Hends [-> Hf] _ H2. right. eapply ends_kept; [|done|done].
      by destruct Hends as [[-> ?]|[-> ?]]; [left|right]. }
  destruct (a_first a) as [first|] eqn:Ef, (a_second a) as [second|] eqn:Es; cbn [given orb xorb].
  - apply runs_pull; [apply tame_files|]. intros r Hr. apply (runs_weaken _ (ends (text_for directory a) a)); [|by right].
    apply save_ends. unfold text_for. rewrite Ec, Ef. split; [done|]. by exists r.
  - apply parser_error_ends.
  - apply parser_error_ends.
  - apply runs_pull.
    { unfold choose_files. destruct (reverse _) as [|x [|y l]]; try apply tame_Ok; by intros e [= <-]. }
    intros [f l] Hfl. apply runs_pull; [apply tame_files|]. intros r Hr.
    apply (runs_weaken _ (ends (text_for directory a) a)); [|by right].
    apply save_ends. unfold text_for. rewrite Ec, Ef. split; [done|]. by exists r.
Qed.

Lemma run_misused directory a :
  misused a = true → ∃ message,
    run read writable unified_diff directory a
    = parser_error message.
Proof.
  unfold misused, run.
  destruct (explain_parallel a), (compare_all a), (a_first a), (a_second a); cbn; by eauto.
Qed.

(** C36: The command always ends with an exit code: 2 exactly when the arguments contradict each
    other, and 1 or 2 only with a message on the standard error.  When it ends with 0 and was
    asked for a comparison, the comparison that the arguments name (of the two reports, or of
    each report with the next) is the first thing printed and is in the file named after the
    reports, which the explanation and the page written later do not touch.  Nothing printed
    is taken back. *)
Theorem main_exit directory a w :
  ∃ w' code,
    main read writable unified_diff directory a w
    = (w', Ok code)
    ∧ extends w w'
    ∧ (code = 2 ↔ misused a = true)
    ∧ (code = 0 ∨ (code = 1 ∨ code = 2) ∧ complains w w')
    ∧ (code = 0 → explain_parallel a = false → saved (text_for directory a) a w w').
Proof using Hread.
  pose proof (run_ends directory a w) as H. unfold main.
  destruct (run _ _ _ directory a w) as [w1 [code|e]] eqn:E; destruct H as [H1 H].
  - exists w1, code. split; [done|]. split; [done|]. destruct (misused a).
    + destruct H as [-> H]. naive_solver.
    + destruct H as [[-> H]|[[-> H]|[-> H]]]; (split; [done|]).
      * split; [by left|congruence].
      * split; [by left|done].
      * split; [auto|done].
  - rewrite H. eexists _, 1. split; [done|].
    assert (complains w1 (World (stdout w1) (stderr w1 +:+ "Error" +:+ newline) (files w1))) as Hc
      by by exists ("Error" +:+ newline).
    split; [|split; [|split; [right; split; [by left|]|done]]].
    + etrans; [done|]. exists "", ("Error" +:+ newline). by rewrite sapp_nil_r.
    + split; [done|]. intros Hm. destruct (run_misused directory a Hm) as [m Hr].
      rewrite Hr in E. done.
    + by eapply extends_complains.
Qed.
End exits.
(** Two readable reports, and a third that is not there. *)
Lemma main_exit_witness :
  let doc m := Element "testsuites" [("tests", "1")] "" ""
    [Element "testsuite" [("name", "a---b")] "" "" [Element "testcase" [("name", "t")] "" "" m]] in
  let read p := if decide (p = "junit_1.xml") then Ok (doc [])
                else if decide (p = "junit_2.xml") then Ok (doc [Element "error" [("message", "lost")] "" "" []])
                else Raise OSError in
  let a second := Args (Some "junit_1.xml") (Some second) false false true false false false false false None None in
  let command second := main read (λ _, true) (λ _ _, [])
                          [] (a second) (World "" "" []) in
  (command "junit_2.xml").2 = Ok 0 ∧ (command "junit_3.xml").2 = Ok 1
  ∧ ∃ w', command "junit_2.xml" = (w', Ok 0)
          ∧ saved (text_for read (λ _ _, []) [] (a "junit_2.xml")) (a "junit_2.xml") (World "" "" []) w'.
Proof.
  intros doc read a command. split; [vm_compute; reflexivity|]. split; [vm_compute; reflexivity|].
  destruct (main_exit read (λ _, true) (λ _ _, [])) with
    (directory := @nil string) (a := a "junit_2.xml") (w := World "" "" (@nil (string * string)))
    as (w'&code&H&_&_&_&Hs).
  - intros p e. unfold read. repeat case_decide; [done|done|]. intros [= <-]. by right.
  - assert (code = 0) as ->.
    { assert ((command "junit_2.xml").2 = Ok 0) as H0 by (vm_compute; reflexivity).
      unfold command in H0. rewrite H in H0. by injection H0. }
    exists w'. split; [exact H|]. by apply Hs.
Defined.
