(* ===== verification/UnitTests.v ===== *)
(** * The unit tests of the repository

    discovery/test_rtps_discovery_sniffer.py and benchmarking/test_compare_junit_reports.py:
    every assertion of the two files that is about the program, evaluated in the model.  The
    fields that a test leaves out of a participant or an endpoint have the text that the
    report prints for them (the lease duration apart, which is a number here). *)

From S2P Require Import Prelude PyStr PyDict PyFloat Json Regex Sniffer SnifferReport FileRegistry ReportCompare ReportText Effects CompareMain.
From stdpp Require Import options.
Local Open Scope string_scope.

(** ** TestRTPSDiscoverySniffer *)

Example test_vendor_decoding :
  (λ v, decode_vendor (JStr v)) <$> ["010f"; "0110"; "0101"; "0105"; "0114"; "0103"; "0x010f"]
  = [("01.0f", "eProsima Fast DDS"); ("01.10", "Eclipse Cyclone DDS"); ("01.01", "RTI Connext DDS");
     ("01.05", "Twin Oaks CoreDX DDS"); ("01.14", "Dust DDS"); ("01.03", "OpenDDS");
     ("01.0f", "eProsima Fast DDS")].
Proof. vm_compute. reflexivity. Qed.

Example test_version_decoding :
  decode_version <$> [JStr "0x0204"; JStr "0x0202"; JStr "0x0201"; JInt 0x0204] = ["2.4"; "2.2"; "2.1"; "2.4"].
Proof. vm_compute. reflexivity. Qed.

Example test_builtin_endpoints_decoding :
  let '(mask_hex, flags) := decode_builtin_endpoints (JStr "0x0000003f") in
  mask_hex = "0x0000003f" ∧
  Forall (λ f, f ∈ flags)
    ["DISC_BUILTIN_ENDPOINT_PARTICIPANT_ANNOUNCER"; "DISC_BUILTIN_ENDPOINT_PARTICIPANT_DETECTOR";
     "DISC_BUILTIN_ENDPOINT_PUBLICATION_ANNOUNCER"; "DISC_BUILTIN_ENDPOINT_PUBLICATION_DETECTOR";
     "DISC_BUILTIN_ENDPOINT_SUBSCRIPTION_ANNOUNCER"; "DISC_BUILTIN_ENDPOINT_SUBSCRIPTION_DETECTOR"].
Proof. split; apply (bool_decide_unpack _); vm_compute; exact I. Qed.

Example test_timestamp_selection now :
  get_current_timestamp None now = now ∧
  get_current_timestamp (Some ("20260916-20_09_43" +:+ newline)) now = "20260916-20_09_43" ∧
  get_current_timestamp (Some ("2026-09-16-20_09_43" +:+ newline)) now = "20260916-20_09_43".
Proof. split_and!; by vm_compute. Qed.

Definition fastdds : string := "010ff34897b8c87f00000000".
Definition cyclone : string := "0110f34897b8c87f00000000".
Definition square (guid kind reliability ownership : string) (src_ip : json) (keys : list string) : endpoint :=
  Endpoint "Square" "ShapeType" guid kind reliability "VOLATILE" ownership None false src_ip keys.
Definition writer_guid : string := "010ff34897b8c87f0000000000000102".
Definition reader_guid : string := "0110f34897b8c87f0000000000000107".
Definition summary_of_two : summary :=
  let keys := ["endpoint_guid"; "entity_kind"; "topic_name"; "type_name"; "reliability"; "durability"; "ownership";
               "src_ip"] in
  let participant guid ip vendor_id vendor version port :=
    Participant guid (JStr ip) vendor_id vendor version (PyFloat 20 0) "0x00000c3f"
      ["DISC_BUILTIN_ENDPOINT_PARTICIPANT_ANNOUNCER"] [Locator "unicast" ip (PortInt port)] in
  Summary 20
    [(fastdds, participant fastdds "192.168.1.10" "01.0f" "eProsima Fast DDS" "2.2" 7410%Z);
     (cyclone, participant cyclone "192.168.1.20" "01.10" "Eclipse Cyclone DDS" "2.3" 7412%Z)]
    [square writer_guid "DataWriter" "RELIABLE" "SHARED" (JStr "192.168.1.10") keys;
     square reader_guid "DataReader" "RELIABLE" "SHARED" (JStr "192.168.1.20") keys].
Definition summary_incompatible : summary :=
  let keys := ["endpoint_guid"; "entity_kind"; "topic_name"; "type_name"; "reliability"; "durability"] in
  let participant guid vendor_id vendor version :=
    Participant guid JNull vendor_id vendor version (PyFloat 0 0) "None" [] [] in
  Summary 20
    [(fastdds, participant fastdds "01.0f" "eProsima Fast DDS" "2.2");
     (cyclone, participant cyclone "01.10" "Eclipse Cyclone DDS" "2.3")]
    [square writer_guid "DataWriter" "BEST_EFFORT" "None" JNull keys;
     square reader_guid "DataReader" "RELIABLE" "None" JNull keys].
Definition failures (t : testsuite) : nat := length (filter (λ c, is_Some (tc_result c)) (ts_cases t)).

(** For any text of a set of names. *)
Example test_junit_report_generation str_set :
  let s := report_suite str_set summary_of_two (Some "fastdds") (Some "cyclone") 2
             (Some "Square") (Some "ShapeType") in
  ts_name s = "rtps_discovery_fastdds---cyclone" ∧ length (ts_cases s) = 7 ∧ failures s = 0.
Proof. split_and!; by vm_compute. Qed.
Example test_qos_incompatibility_failure str_set :
  failures (report_suite str_set summary_incompatible None None 2 None None) = 1.
Proof. by vm_compute. Qed.

(** ** The comparison of reports *)

Definition compared (first second : string) (changed : list ChangedTest) : CompareReport :=
  MkReport first second [] [] 0 0 [] [] changed.
Definition status_change (test first second : string) : ChangedTest := Changed test [("status", (first, second))].

Example test_print_differences_uses_report_timestamps :
  let report := compared "D:/tmp/junit_interoperability_report_2026-08-30-06_18_47.xml"
                  "D:/tmp/junit_interoperability_report_2026-08-30-16_15_12.xml"
                  [status_change "suite / case" "failure" "passed"] in
  Forall (λ l, l ∈ print_differences report)
    ["##Result for: Differences: 2026-08-30-06_18_47 -> 2026-08-30-16_15_12";
     "- 2026-08-30-06_18_47: failure"; "+ 2026-08-30-16_15_12: passed"].
Proof. cbv zeta. apply (bool_decide_unpack _). vm_compute. exact I. Qed.

Example test_print_failure_frequency_summary_marker :
  "##Result for: Failure frequency across all XML reports" ∈ print_failure_frequency_summary [].
Proof. by left. Qed.

(** The time of the last change of a file is no argument of the function. *)
Example test_choose_all_files_sorts_by_date_in_filename_ignoring_mtime :
  choose_all_files ["junit_report_2026-09-01-10_00_00.xml"; "junit_report_2026-08-30-10_00_00.xml"] None
  = ["junit_report_2026-08-30-10_00_00.xml"; "junit_report_2026-09-01-10_00_00.xml"].
Proof. vm_compute. reflexivity. Qed.

Example test_generate_explanation_creates_file_with_required_format read :
  let first := "junit_report_2026-08-30-06_18_47.xml" in
  let last := "junit_report_2026-08-30-16_15_12.xml" in
  let reports := [compared first last [status_change "suite / case_1" "failure" "passed";
                                       status_change "suite / case_2" "skipped" "passed"]] in
  let outcome := generate_explanation read (λ _, true) first last reports [] (World "" "" []) in
  outcome.2 = Ok () ∧
  match dget "explain_2026-08-30-06_18_47_2026-08-30-16_15_12.txt" (files outcome.1) with
  | Some content =>
      forallb (λ l, contains l content)
        ["Truly flaky tests: 1"; "Partially flaky tests: 1"; "##Result for: Explanation and Analysis"]
  | None => false
  end = true.
Proof. cbv zeta. split; vm_compute; reflexivity. Qed.
