(* ===== verification/LatestFiles.v ===== *)
(** * Download of the latest reports (get_latest_file_urls.py)

    The drive is an argument: [list_files folder page_token] is the answer to the query for
    the entries of a folder.  Credentials are not modelled.  The recursion over pages and
    folders has fuel; [None] is a run that goes on. *)

From S2P Require Import Prelude PyStr PySort PyDict.
From stdpp Require Import options.
Local Open Scope string_scope.

Definition item : Type := dict string string.
Record response := Response { files : option (list item); nextPageToken : option string }.

Definition folder_type : string := "application/vnd.google-apps.folder".
Definition xlsx_type : string := "application/vnd.openxmlformats-officedocument.spreadsheetml.sheet".
Definition zip_type : string := "application/zip".

(** A value in Python is true when it is neither None nor empty. *)
Definition truthy (o : option string) : option string :=
  match o with Some "" => None | _ => o end.

(** [max(items, key=lambda x: x['modifiedTime'])]: the first of the largest. *)
Definition modified (i : item) : result string := dgetitem "modifiedTime" i.
Definition newer (best : item * string) (i : item) : result (item * string) :=
  t ← modified i; Ok (if str_le t best.2 then best else (i, t)).
Definition latest (items : list item) : result (option item) :=
  match items with
  | [] => Ok None
  | i :: rest => t ← modified i; best ← mfold newer (i, t) rest; Ok (Some best.1)
  end.

Section drive.
Context (list_files : string → option string → result response).

(** The loop over the pages of a folder: [items] is what the last one holds. *)
Fixpoint pages (fuel : nat) (folder_id : string) (page_token : option string) :
    option (result (list item)) :=
  match fuel with
  | 0 => None
  | S fuel =>
      match list_files folder_id page_token with
      | Raise e => Some (Raise e)
      | Ok r =>
          match truthy (nextPageToken r) with
          | Some t => pages fuel folder_id (Some t)
          | None => Some (Ok (default [] (files r)))
          end
      end
  end.

Definition found : Type := list item * list item.
(** The loop over the entries, with the search of a folder as [sub]. *)
Fixpoint collect (sub : string → option (result found)) (acc : found) (items : list item) :
    option (result found) :=
  match items with
  | [] => Some (Ok acc)
  | i :: rest =>
      match dgetitem "mimeType" i with
      | Raise e => Some (Raise e)
      | Ok m =>
          if decide (m = folder_type) then
            match dgetitem "id" i with
            | Raise e => Some (Raise e)
            | Ok folder =>
                match sub folder with
                | Some (Ok s) => collect sub (acc.1 ++ s.1, acc.2 ++ s.2)%list rest
                | r => r
                end
            end
          else if decide (m = xlsx_type) then collect sub (acc.1 ++ [i], acc.2)%list rest
          else if decide (m = zip_type) then collect sub (acc.1, acc.2 ++ [i])%list rest
          else collect sub acc rest
      end
  end.
Fixpoint get_subfolder_files (fuel : nat) (folder_id : string) : option (result found) :=
  match fuel with
  | 0 => None
  | S fuel' =>
      match pages fuel folder_id None with
      | Some (Ok items) => collect (get_subfolder_files fuel') ([], []) items
      | Some (Raise e) => Some (Raise e)
      | None => None
      end
  end.

Definition url_of (o : option item) : option string := o ≫= dget "webViewLink".
Definition get_latest_files_url (fuel : nat) (folder_id : string) :
    option (result (option string * option string)) :=
  match get_subfolder_files fuel folder_id with
  | Some (Ok (xlsx_files, zip_files)) =>
      Some (x ← latest xlsx_files; z ← latest zip_files; Ok (url_of x, url_of z))
  | Some (Raise e) => Some (Raise e)
  | None => None
  end.

(** What [main] writes to the file of its argument, or the message before exit code 1. *)
Inductive outcome := Written (file_name text : string) | Exited (message : string).
Definition url_line (name : string) (url : option string) : string :=
  match url with Some u => name +:+ " = '" +:+ u +:+ "'" +:+ newline | None => "" end.
Definition main (fuel : nat) (folder_id : string) (argv : list string) : option (result outcome) :=
  match argv with
  | _ :: file_name :: _ =>
      if endswith ".py" file_name then
        match get_latest_files_url fuel folder_id with
        | Some r => Some (u ← r; Ok (Written file_name (url_line "xlsx_url" u.1 +:+ url_line "zip_url" u.2)))
        | None => None
        end
      else Some (Ok (Exited "Error: File must have .py extension"))
  | _ => Some (Ok (Exited "Usage: python get_latest_files.py <output_file>"))
  end.
End drive.

(** ** The files that are found *)

Definition has_type (ty : string) (i : item) : Prop := dget "mimeType" i = Some ty.

Section below.
Context (list_files : string → option string → result response).

(** The last page of a folder, from the page of a token. *)
Inductive last_page (folder : string) (token : option string) : list item → Prop :=
| last_here r :
    list_files folder token = Ok r → truthy (nextPageToken r) = None →
    last_page folder token (default [] (files r))
| last_later r t its :
    list_files folder token = Ok r → truthy (nextPageToken r) = Some t →
    last_page folder (Some t) its → last_page folder token its.
(** An entry of the last page of a folder, or of a folder in it. *)
Inductive shown (folder : string) (i : item) : Prop :=
| shown_here its : last_page folder None its → i ∈ its → shown folder i
| shown_sub its f sub :
    last_page folder None its → f ∈ its → has_type folder_type f → dget "id" f = Some sub →
    shown sub i → shown folder i.
(** Any page of a folder, from the page of a token. *)
Inductive page (folder : string) (token : option string) : list item → Prop :=
| page_here r : list_files folder token = Ok r → page folder token (default [] (files r))
| page_later r t its :
    list_files folder token = Ok r → truthy (nextPageToken r) = Some t →
    page folder (Some t) its → page folder token its.
(** What is really below a folder: the entries of all its pages. *)
Inductive below (folder : string) (i : item) : Prop :=
| below_here its : page folder None its → i ∈ its → below folder i
| below_sub its f sub :
    page folder None its → f ∈ its → has_type folder_type f → dget "id" f = Some sub →
    below sub i → below folder i.
Definition one_page (folder : string) : Prop :=
  ∀ r, list_files folder None = Ok r → truthy (nextPageToken r) = None.
(** A folder and all folders below it have one page each. *)
Definition one_page_each (folder : string) : Prop :=
  one_page folder ∧
  ∀ i sub, below folder i → has_type folder_type i → dget "id" i = Some sub → one_page sub.

(** The pages end, folders are not in themselves, and the entries have the fields asked for. *)
Inductive finite (folder : string) : Prop :=
| finite_folder its :
    last_page folder None its →
    (∀ i, i ∈ its → is_Some (dget "mimeType" i)) →
    (∀ i, i ∈ its → has_type folder_type i → is_Some (dget "id" i)) →
    (∀ i sub, i ∈ its → has_type folder_type i → dget "id" i = Some sub → finite sub) →
    finite folder.

Lemma last_page_eq folder token its its' :
  last_page folder token its → last_page folder token its' → its = its'.
Proof.
  intros H. revert its'. induction H as [token r Hr Ht|token r t its Hr Ht _ IH].
  - intros its' H. inversion H; congruence.
  - intros its' H. inversion H; [congruence|]. apply IH. congruence.
Qed.
Lemma pages_last folder token its :
  last_page folder token its →
  ∃ n, ∀ fuel, (n ≤ fuel)%nat → pages list_files fuel folder token = Some (Ok its).
Proof.
  induction 1 as [token r Hr Ht|token r t its Hr Ht _ [n IH]].
  - exists 1. intros [|fuel] Hf; [lia|]. cbn [pages]. by rewrite Hr, Ht.
  - exists (S n). intros [|fuel] Hf; [lia|]. cbn [pages]. rewrite Hr, Ht. apply IH. lia.
Qed.

Lemma last_page_page folder token its : last_page folder token its → page folder token its.
Proof. induction 1; [by apply page_here|by eapply page_later]. Qed.
Lemma one_page_last folder its : one_page folder → page folder None its → last_page folder None its.
Proof.
  intros H1 Hp. inversion Hp as [r Hr|r t its' Hr Ht]; subst.
  - apply last_here; auto.
  - by rewrite (H1 _ Hr) in Ht.
Qed.
Lemma shown_below folder i : shown folder i → below folder i.
Proof.
  induction 1 as [folder i its Hl Hi|folder i its f sub Hl Hf Hty Hid _ IH].
  - by eapply below_here, Hi; apply last_page_page.
  - eapply below_sub; [by apply last_page_page|done..].
Qed.
Lemma below_shown folder i : one_page_each folder → below folder i → shown folder i.
Proof.
  intros Ho Hb. induction Hb as [folder i its Hp Hi|folder i its f sub Hp Hf Hty Hid _ IH];
    destruct Ho as [H1 H2].
  - by eapply shown_here, Hi; apply one_page_last.
  - eapply shown_sub; [by apply one_page_last|done..|]. apply IH. split.
    + apply (H2 f); [by eapply below_here|done..].
    + intros j s' Hj. apply H2. by eapply below_sub.
Qed.
End below.

(** What an entry adds to the files of a type, with the search of a folder as [sub]. *)
Definition part (sub : string → option (result found)) (pick : found → list item) (ty : string)
    (i : item) : list item :=
  if decide (dget "mimeType" i = Some folder_type) then
    match dget "id" i ≫= sub with Some (Ok s) => pick s | _ => [] end
  else if decide (dget "mimeType" i = Some ty) then [i] else [].
Lemma collect_spec sub acc its :
  (∀ i, i ∈ its → is_Some (dget "mimeType" i)) →
  (∀ i, i ∈ its → has_type folder_type i → ∃ id s, dget "id" i = Some id ∧ sub id = Some (Ok s)) →
  collect sub acc its = Some (Ok (acc.1 ++ (its ≫= part sub fst xlsx_type),
                                  acc.2 ++ (its ≫= part sub snd zip_type)))%list.
Proof.
  assert (xlsx_type ≠ zip_type) as Hxz by (by vm_compute).
  revert acc. induction its as [|i its IH]; intros [xs zs] Hm Hs; cbn [collect fst snd].
  { by rewrite !app_nil_r. }
  destruct (Hm i) as [m Hi]; [left|]. cbn [mbind list_bind]. unfold part at 1 3, dgetitem at 1.
  rewrite Hi. cbn [or_raise].
  destruct (decide (m = folder_type)) as [->|Hf].
  - destruct (Hs i) as (id&s&Hid&Hsub); [left|done|]. unfold dgetitem. rewrite Hid. cbn [or_raise].
    rewrite Hsub, IH by set_solver. rewrite decide_True by done. cbn [mbind option_bind].
    rewrite Hsub. cbn [fst snd]. by rewrite <- !app_assoc.
  - rewrite !(decide_False (P := Some m = Some folder_type)) by congruence.
    destruct (decide (m = xlsx_type)) as [->|Hx]; [|destruct (decide (m = zip_type)) as [->|Hz]];
      rewrite IH by set_solver; cbn [fst snd].
    + rewrite decide_True by done. by rewrite decide_False, <- app_assoc by congruence.
    + rewrite decide_False by congruence. by rewrite decide_True, <- app_assoc by done.
    + by rewrite !decide_False by congruence.
Qed.

(** ** The newest file *)

Definition time_of (i : item) : string := default "" (dget "modifiedTime" i).
Lemma modified_time i : is_Some (dget "modifiedTime" i) → modified i = Ok (time_of i).
Proof. intros [t Ht]. unfold modified, dgetitem, time_of. by rewrite Ht. Qed.
Lemma newer_time best i :
  is_Some (dget "modifiedTime" i) →
  newer best i = Ok (if str_le (time_of i) best.2 then best else (i, time_of i)).
Proof. intros H. unfold newer. by rewrite modified_time. Qed.
Lemma newer_fold items best :
  (∀ i, i ∈ items → is_Some (dget "modifiedTime" i)) → best.2 = time_of best.1 →
  ∃ i, mfold newer best items = Ok (i, time_of i) ∧ (i = best.1 ∨ i ∈ items)
    ∧ ∀ j, j = best.1 ∨ j ∈ items → str_le (time_of j) (time_of i) = true.
Proof.
  revert best. induction items as [|i items IH]; intros [b t] Hm Hb; cbn [fst snd] in *; subst t.
  - exists b. split; [done|]. split; [by left|]. intros j [->|[]%not_elem_of_nil]. apply le_refl.
  - cbn [mfold]. rewrite newer_time by (apply Hm; left).
    cbn [mbind result_bind snd].
    destruct (str_le (time_of i) (time_of b)) eqn:E.
    + destruct (IH (b, time_of b)) as (k&Ek&Hk&Hmax); [set_solver|done|].
      exists k. split; [exact Ek|].
      cbn [fst] in *. split; [set_solver|].
      intros j [->|[->|Hj]%elem_of_cons]; [auto| |auto]. eapply le_trans; [exact E|auto].
    + destruct (IH (i, time_of i)) as (k&Ek&Hk&Hmax); [set_solver|done|].
      exists k. split; [exact Ek|].
      cbn [fst] in *. split; [set_solver|].
      intros j [->|[->|Hj]%elem_of_cons]; [|auto|auto].
      eapply le_trans; [|by apply Hmax; left].
      by destruct (le_total (time_of b) (time_of i)) as [|H]; [|congruence].
Qed.
(** The newest of the items with [P]. *)
Definition newest (P : item → Prop) (o : option item) : Prop :=
  match o with
  | None => ∀ i, ¬ P i
  | Some i => P i ∧ ∀ j, P j → str_le (time_of j) (time_of i) = true
  end.
Lemma latest_newest items :
  (∀ i, i ∈ items → is_Some (dget "modifiedTime" i)) →
  ∃ o, latest items = Ok o ∧ newest (.∈ items) o.
Proof.
  intros Hm. destruct items as [|i items].
  - exists None. split; [done|]. intros i. apply not_elem_of_nil.
  - unfold latest. rewrite modified_time by (apply Hm; left). cbn [mbind result_bind].
    destruct (newer_fold items (i, time_of i)) as (k&->&Hk&Hmax); [set_solver|done|].
    exists (Some k). split; [done|]. cbn [fst] in *. unfold newest. setoid_rewrite elem_of_cons.
    split; [naive_solver|auto].
Qed.

Section found.
Context (list_files : string → option string → result response).

Lemma part_folder n folder its pick ty j :
  ty ≠ folder_type → last_page list_files folder None its →
  (∀ i, i ∈ its → has_type folder_type i →
     ∃ id s, dget "id" i = Some id ∧ get_subfolder_files list_files n id = Some (Ok s)
       ∧ ∀ j, j ∈ pick s ↔ shown list_files id j ∧ has_type ty j) →
  j ∈ (its ≫= part (get_subfolder_files list_files n) pick ty) ↔ shown list_files folder j ∧ has_type ty j.
Proof.
  intros Hty Hl Hs. rewrite list_elem_of_bind. split.
  - intros (i&Hj&Hi). unfold part in Hj. case_decide as Hf.
    + destruct (Hs i Hi Hf) as (id&s&Hid&Hsub&Hp). rewrite Hid in Hj. cbn [mbind option_bind] in Hj.
      rewrite Hsub in Hj. apply Hp in Hj as [Hj Ht]. split; [|done]. by eapply shown_sub.
    + case_decide as Ht; [|by apply not_elem_of_nil in Hj].
      apply list_elem_of_singleton in Hj as ->. split; [|done]. by eapply shown_here.
  - intros [Hb Ht]. destruct Hb as [its' Hl' Hj|its' i sub Hl' Hi Hf Hid Hb];
      pose proof (last_page_eq _ _ _ _ _ Hl Hl') as <-.
    + exists j. split; [|done]. unfold part. unfold has_type in Ht.
      rewrite decide_False by congruence. rewrite decide_True by done. left.
    + exists i. split; [|done]. unfold part. rewrite decide_True by done.
      destruct (Hs i Hi Hf) as (id&s&Hid'&Hsub&Hp). rewrite Hid in Hid'. injection Hid' as <-.
      rewrite Hid. cbn [mbind option_bind]. rewrite Hsub. by apply Hp.
Qed.

(** Fuel for every item of a list. *)
Lemma enough_for_all {A} (P : nat → A → Prop) (l : list A) :
  (∀ a, a ∈ l → ∃ n, ∀ m, (n ≤ m)%nat → P m a) → ∃ n, ∀ m a, (n ≤ m)%nat → a ∈ l → P m a.
Proof.
  induction l as [|a l IH]; intros H.
  - exists 0. intros m a _ []%not_elem_of_nil.
  - destruct (H a) as [n Hn]; [left|]. destruct IH as [k Hk]; [set_solver|].
    exists (n `max` k)%nat. intros m b Hm [->|Hb]%elem_of_cons; [apply Hn; lia|apply Hk; [lia|done]].
Qed.
Lemma files_shown folder :
  finite list_files folder →
  ∃ n, ∀ fuel, (n ≤ fuel)%nat → ∃ s, get_subfolder_files list_files fuel folder = Some (Ok s)
    ∧ (∀ j, j ∈ s.1 ↔ shown list_files folder j ∧ has_type xlsx_type j)
    ∧ (∀ j, j ∈ s.2 ↔ shown list_files folder j ∧ has_type zip_type j).
Proof.
  induction 1 as [folder its Hl Hm Hid _ IH].
  destruct (pages_last _ _ _ _ Hl) as [n0 Hn0].
  destruct (enough_for_all (λ fuel i, has_type folder_type i →
    ∃ id s, dget "id" i = Some id ∧ get_subfolder_files list_files fuel id = Some (Ok s)
      ∧ (∀ j, j ∈ s.1 ↔ shown list_files id j ∧ has_type xlsx_type j)
      ∧ (∀ j, j ∈ s.2 ↔ shown list_files id j ∧ has_type zip_type j)) its) as [n1 Hn1].
  { intros i Hi. destruct (decide (dget "mimeType" i = Some folder_type)) as [Hf|Hf]; [|by exists 0].
    destruct (Hid i Hi Hf) as [id Ei]. destruct (IH i id Hi Hf Ei) as [n Hn]. exists n.
    intros m Hm' _. destruct (Hn m Hm') as (s&?&?&?). by exists id, s. }
  exists (S (n0 `max` n1))%nat. intros [|fuel] Hf; [lia|]. cbn [get_subfolder_files].
  rewrite Hn0 by lia. eexists. split; [|split; intros j].
  - apply collect_spec; [done|]. intros i Hi Hif.
    destruct (Hn1 fuel i) as (id&s&?&?&_); [lia|done..|]. by exists id, s.
  - cbn [fst app]. apply part_folder; [by vm_compute|done|]. intros i Hi Hif.
    destruct (Hn1 fuel i) as (id&s&?&?&?&_); [lia|done..|]. by exists id, s.
  - cbn [snd app]. apply part_folder; [by vm_compute|done|]. intros i Hi Hif.
    destruct (Hn1 fuel i) as (id&s&?&?&_&?); [lia|done..|]. by exists id, s.
Qed.
End found.

#[export] Instance newest_proper : Proper (pointwise_relation item iff ==> eq ==> iff) newest.
Proof.
  intros P Q H o _ <-. unfold pointwise_relation in H. destruct o as [i|]; cbn [newest];
    by setoid_rewrite H.
Qed.

(** C39: On a drive whose pages end, whose folders are not in themselves and whose entries
    have the fields that are read, the program ends and writes, for spreadsheets and for
    archives, the link of a newest one among those it finds, and no line when there is none.
    It finds the entries of the last page of the folder and, through the folders among them,
    those of the last pages further down.  If every folder has one page only, these are all
    entries below the folder, and the links are those of the newest files below it; otherwise
    they may not be ([earlier_pages_lost]). *)
Theorem latest_urls list_files folder program file_name rest
    (Hf : finite list_files folder)
    (Ht : ∀ i, shown list_files folder i → is_Some (dget "modifiedTime" i))
    (Hpy : endswith ".py" file_name = true) :
  ∃ n, ∀ fuel, (n ≤ fuel)%nat →
    ∃ xlsx zip,
      newest (λ i, shown list_files folder i ∧ has_type xlsx_type i) xlsx
      ∧ newest (λ i, shown list_files folder i ∧ has_type zip_type i) zip
      ∧ (one_page_each list_files folder →
         newest (λ i, below list_files folder i ∧ has_type xlsx_type i) xlsx
         ∧ newest (λ i, below list_files folder i ∧ has_type zip_type i) zip)
      ∧ main list_files fuel folder (program :: file_name :: rest)
        = Some (Ok (Written file_name (url_line "xlsx_url" (url_of xlsx)
                                       +:+ url_line "zip_url" (url_of zip)))).
Proof.
  destruct (files_shown _ _ Hf) as [n Hn]. exists n. intros fuel Hfuel.
  destruct (Hn fuel Hfuel) as ([xs zs]&Hs&Hx&Hz). cbn [fst snd] in Hx, Hz.
  destruct (latest_newest xs) as (x&Hlx&Hnx); [intros i [Hi _]%Hx; auto|].
  destruct (latest_newest zs) as (z&Hlz&Hnz); [intros i [Hi _]%Hz; auto|].
  exists x, z. split_and!.
  - revert Hnx. apply newest_proper; [|done]. intros i. by rewrite Hx.
  - revert Hnz. apply newest_proper; [|done]. intros i. by rewrite Hz.
  - intros Ho. assert (∀ i, below list_files folder i ↔ shown list_files folder i) as Hb
      by (intros i; split; [by apply below_shown|apply shown_below]).
    split; [revert Hnx|revert Hnz]; (apply newest_proper; [|done]); intros i;
      [by rewrite Hx, Hb|by rewrite Hz, Hb].
  - unfold main, get_latest_files_url. by rewrite Hpy, Hs, Hlx, Hlz.
Qed.

(** A drive of three entries, one of them on the first page of two. *)
Definition example_file (name ty time : string) : item :=
  [("id", name); ("webViewLink", "https://drive/" +:+ name); ("mimeType", ty); ("modifiedTime", time)].
Definition example_drive (folder : string) (token : option string) : result response :=
  if decide (folder = "root") then
    match token with
    | None => Ok (Response (Some [example_file "new" xlsx_type "2026-03-01"]) (Some "2"))
    | Some _ => Ok (Response (Some [example_file "sub" folder_type "2026-01-01"]) None)
    end
  else if decide (folder = "sub") then
    Ok (Response (Some [example_file "old" xlsx_type "2026-02-01"]) None)
  else Raise OSError.
(** The newest spreadsheet is on the first page, and the link of an older one is written. *)
Lemma earlier_pages_lost :
  main example_drive 3 "root" ["get_latest_file_urls.py"; "urls.py"]
  = Some (Ok (Written "urls.py" ("xlsx_url = 'https://drive/old'" +:+ newline))).
Proof. vm_compute. reflexivity. Qed.

Lemma example_finite : finite example_drive "root".
Proof.
  assert (last_page example_drive "root" None [example_file "sub" folder_type "2026-01-01"]) as Hr.
  { eapply last_later; [reflexivity..|]. by eapply (last_here _ _ _ (Response (Some _) None)). }
  apply (finite_folder _ _ _ Hr); [by intros i ->%list_elem_of_singleton..|].
  intros i sub ->%list_elem_of_singleton _ [= <-].
  apply (finite_folder _ _ [example_file "old" xlsx_type "2026-02-01"]).
  - by eapply (last_here _ _ _ (Response (Some _) None)).
  - by intros i ->%list_elem_of_singleton.
  - by intros i ->%list_elem_of_singleton.
  - intros i sub ->%list_elem_of_singleton H. by vm_compute in H.
Qed.
Lemma last_page_origin list_files folder token its :
  last_page list_files folder token its →
  ∃ t r, list_files folder t = Ok r ∧ its = default [] (files r).
Proof. induction 1; eauto. Qed.
Lemma example_times i : shown example_drive "root" i → is_Some (dget "modifiedTime" i).
Proof.
  generalize "root". induction 1 as [folder j its (t&r&Hr&->)%last_page_origin Hi|]; [|done].
  unfold example_drive in Hr. repeat case_decide; [destruct t| |done]; injection Hr as <-;
    apply list_elem_of_singleton in Hi as ->; by eexists.
Qed.
Lemma latest_urls_witness :
  ∃ n xlsx zip, main example_drive n "root" ["get_latest_file_urls.py"; "urls.py"]
    = Some (Ok (Written "urls.py" (url_line "xlsx_url" (url_of xlsx) +:+ url_line "zip_url" (url_of zip))))
    ∧ newest (λ i, shown example_drive "root" i ∧ has_type xlsx_type i) xlsx.
Proof.
  destruct (latest_urls example_drive "root" "get_latest_file_urls.py" "urls.py" [])
    as [n Hn].
  - exact example_finite.
  - exact example_times.
  - reflexivity.
  - destruct (Hn n) as (x&z&Hx&_&_&H); [done|]. exists n, x, z. by split.
Defined.
