(* ===== verification/ZonSymlinks.v ===== *)
(** * The dependencies of the Zig application as links (srcZig/zzdds/point_zon_at_symlinks.py)

    A script of a dozen lines that replaces the entries of two packages in build.zig.zon by
    paths below packages/. *)

From S2P Require Import Prelude PyStr PyDict Regex Effects.
From stdpp Require Import options.
Local Open Scope string_scope.

(** Texts with single quotes for double ones. *)
Definition quoted : string → string := smap (λ c, if decide (c = "'"%char) then "034"%char else c).

Definition path : string := "build.zig.zon".
(** [\.name\s*=\s*\.\{[^}]+\}] *)
Definition entry_re (name : string) : regex :=
  (RLit ("." +:+ name) ⊙ RStar true is_space ⊙ RLit "=" ⊙ RStar true is_space ⊙ RLit ".{"
   ⊙ RPlus (cnot (cis "}")) ⊙ RLit "}")%re.
Definition linked (name : string) : string :=
  "." +:+ name +:+ " = .{" +:+ newline +:+ quoted "            .path = 'packages/" +:+ name +:+ quoted "'," +:+ newline
  +:+ "        }".
Definition rewritten (c : string) : string :=
  re_sub (entry_re "zidl") (linked "zidl") (re_sub (entry_re "zzdds") (linked "zzdds") c).
(** A missing file is an error of [open]. *)
Definition read_path : M string := λ w, (w, or_raise OSError (dget path (files w))).
Definition write_path (c : string) : M unit := λ w,
  (World (stdout w) (stderr w) (dset path c (files w)), Ok ()).
Definition point_zon_at_symlinks : M unit :=
  c ← read_path;
  write_path (rewritten c);;
  print_line "build.zig.zon: zzdds and zidl rewritten to use local path symlinks".

(** ** What it does *)

Lemma contains_cons_false sub c s : contains sub (String c s) = false → contains sub s = false.
Proof. cbn [contains]. rewrite orb_false_iff. by intros [_ H]. Qed.
(** A text that does not name the package is kept. *)
Lemma re_sub_unnamed name new c : contains ("." +:+ name) c = false → re_sub (entry_re name) new c = c.
Proof.
  unfold re_sub. induction c as [|d c IH]; [done|]. intros Hc. cbn [sub_go].
  destruct (match_at (entry_re name) 0 (String d c)) as [m|] eqn:E.
  - exfalso. apply match_at_sound in E as (w&rest&cs&Es&A&_). unfold entry_re in A.
    apply accepts_seq in A as (w1&w2&cs1&cs2&->&_&A&_). apply accepts_lit in A as [-> _].
    apply not_true_iff_false in Hc. apply Hc, contains_spec. exists "", (w2 +:+ rest).
    by rewrite Es, sapp_nil_l, !sapp_assoc.
  - rewrite IH; [done|]. by eapply contains_cons_false.
Qed.
Lemma rewritten_unnamed c :
  contains ".zzdds" c = false → contains ".zidl" c = false → rewritten c = c.
Proof.
  intros H1 H2. unfold rewritten. rewrite (re_sub_unnamed "zzdds" _ c H1). by apply (re_sub_unnamed "zidl").
Qed.

(** No other file is touched, and without the file nothing is. *)
Lemma point_zon_frame w w' r f :
  point_zon_at_symlinks w = (w', r) → f ≠ path → dget f (files w') = dget f (files w).
Proof.
  unfold point_zon_at_symlinks. destruct (dget path (files w)) as [c|] eqn:E.
  - rewrite (M_bind_Ok _ _ w w c) by (unfold read_path; by rewrite E). cbn.
    intros [= <- _] Hf. by apply dget_dset_ne.
  - rewrite (M_bind_Raise _ _ w w OSError) by (unfold read_path; by rewrite E). by intros [= <- _].
Qed.

(** The file of the repository. *)
Definition build_zig_zon (entry : string) : string :=
  quoted (join newline
    [".{"; "    .name = .zzdds_shape_main,"; "    .version = '0.0.0',"; "    .fingerprint = 0x336e9664cb8850f7,";
     "    .minimum_zig_version = '0.16.0',"; "    .dependencies = .{"; "        " +:+ entry +:+ ","; "    },";
     "    .paths = .{"; "        'build.zig',"; "        'build.zig.zon',"; "    },"; "}"; ""]).
Definition fetched : string :=
  join newline
    [".zzdds = .{"; "            .url = 'https://github.com/zz-iot/zzdds/archive/refs/tags/v0.3.2-zig.0.16.0.tar.gz',";
     "            .hash = 'zzdds-0.3.2-zig.0.16.0-sc7dmhtXNQDBgUKPmBt-aHnEhnNYLxTBlYqk93Dx_5oJ',"; "        }"].
(** The entry of zzdds becomes a path, the rest stays; a second run changes nothing; and
    there is no entry of zidl, although the script says that it was rewritten. *)
Example zon_rewritten :
  rewritten (build_zig_zon fetched) = build_zig_zon (linked "zzdds") ∧
  rewritten (build_zig_zon (linked "zzdds")) = build_zig_zon (linked "zzdds") ∧
  contains "zidl" (build_zig_zon fetched) = false.
Proof. split_and!; by vm_compute. Qed.
Example zon_without_file : (point_zon_at_symlinks (World "" "" [])).2 = Raise OSError.
Proof. reflexivity. Qed.
