(* ===== verification/DocConf.v ===== *)
(** * The build of the documentation (doc/conf.py)

    What the configuration does when Sphinx loads it: the text that describes the tests, and
    the pages that are made of templates.  The directory is a dictionary of texts with paths
    relative to it, in the order of the file system; the settings of Sphinx are left out. *)

From S2P Require Import Prelude PyStr PyDict Regex Utilities CheckFunctions Suite TestSuite Effects.
From stdpp Require Import options.
Local Open Scope string_scope.

(** ** The description of the tests *)

(** [Test_(.*?)_\d+] *)
Definition group_re : regex :=
  RLit "Test_" ⊙ RGroup 1 (RStar false (cnot (cis (ascii_of_nat 10)))) ⊙ RLit "_" ⊙ RPlus is_digit.
Definition test_group (test_name : string) : result string :=
  or_raise AttributeError (m ← re_search group_re test_name; group 1 m).
Definition heading (underline text : string) : string :=
  text +:+ newline +:+ srepeat (String.length text) underline +:+ newline +:+ newline.
(** The last group and the text. *)
Definition add_test (s : string * string) (test : string * test_case) : result (string * string) :=
  let '(last_test_group, rst) := s in
  let '(test_name, test_value) := test in
  current_test_group ← test_group test_name;
  let '(last_test_group, rst) :=
    if decide (last_test_group = current_test_group) then (last_test_group, rst)
    else (current_test_group, rst +:+ heading "-" current_test_group) in
  Ok (last_test_group,
      rst +:+ heading "~" test_name +:+ title test_value +:+ newline +:+ newline
      +:+ description test_value +:+ newline).
Definition generate_test_description_rst (s : dict string test_case) : result string :=
  r ← mfold add_test ("", "") s; Ok r.2.

(** ** The pages *)

(** The files of the directory itself. *)
Definition no_slash (path : string) : bool := sforall (λ c, bool_decide ("/"%char ≠ c)) path.
Definition listdir (fs : dict string string) : list string := filter (λ f, no_slash f = true) (keys fs).
Definition index_pattern (path : string) : bool :=
  let prefix := "_static/html/interoperability_report_" in
  let rest := str_drop (String.length prefix) path in
  startswith prefix path && endswith ".html" rest && no_slash rest.
Definition find_index_html (fs : dict string string) : option string := List.find index_pattern (keys fs).

Definition template_suffix : string := ".template.rst".
Definition output_of (template : string) : string := replace template_suffix ".rst" template.
Definition fill (replacements : list (string * string)) (content : string) : string :=
  foldl (λ content r, replace r.1 r.2 content) content replacements.
Definition fill_template (replacements : list (string * string)) (fs : dict string string) (template : string) :
    dict string string :=
  match dget template fs with
  | Some content => dset (output_of template) (fill replacements content) fs
  | None => fs
  end.
Definition templates (fs : dict string string) : list string := filter (λ f, endswith template_suffix f = true) (listdir fs).
Definition replace_in_rst_files (replacements : list (string * string)) (fs : dict string string) : dict string string :=
  foldl (fill_template replacements) fs (templates fs).

Definition replacements (xlsx_url index_html description : string) : list (string * string) :=
  [("|LINK_XLSX_URL|", xlsx_url); ("|INDEX_HTML_PATH|", index_html); ("|TEST_DESCRIPTION|", description)].
Definition rst_epilog (zip_url : string) : string :=
  newline +:+ ".. |LINK_ZIP_URL| replace:: " +:+ zip_url +:+ newline.
(** The epilog for all pages, or the exit code. *)
Definition conf (xlsx_url zip_url : string) : M (string + nat) := λ w,
  match generate_test_description_rst rtps_test_suite_1 with
  | Raise e => (w, Raise e)
  | Ok test_description =>
      match find_index_html (files w) with
      | None => (World (stdout w +:+ "Error getting INDEX_HTML_PATH" +:+ newline) (stderr w) (files w), Ok (inr 1))
      | Some index_html =>
          (World (stdout w) (stderr w)
             (replace_in_rst_files (replacements xlsx_url index_html test_description) (files w)),
           Ok (inl (rst_epilog zip_url)))
      end
  end.

(** ** The description of the test suite *)

(** The text by its outline: the groups in the order in which they come, each with its heading
    and all of its tests. *)
Definition in_group (g : string) (test : string * test_case) : bool :=
  match test_group test.1 with Ok g' => bool_decide (g' = g) | Raise _ => false end.
Definition section (test : string * test_case) : string :=
  heading "~" test.1 +:+ title test.2 +:+ newline +:+ newline +:+ description test.2 +:+ newline.
Definition chapter (s : dict string test_case) (g : string) : string :=
  heading "-" g +:+ join "" (section <$> filter (λ t, in_group g t = true) s).
Definition group_names (s : dict string test_case) : list string :=
  foldl (λ gs t, match test_group t.1 with
                 | Ok g => if decide (g ∈ gs) then gs else gs ++ [g]
                 | Raise _ => gs
                 end)%list [] s.
Definition outline (s : dict string test_case) : string := join "" (chapter s <$> group_names s).
Definition outlined (s : dict string test_case) : bool :=
  match generate_test_description_rst s with Ok text => String.eqb text (outline s) | Raise _ => false end.
Lemma suite_outlined : outlined rtps_test_suite_1 = true.
Proof. vm_compute. reflexivity. Qed.
Lemma suite_outline : generate_test_description_rst rtps_test_suite_1 = Ok (outline rtps_test_suite_1).
Proof.
  pose proof suite_outlined as H. unfold outlined in H. destruct (generate_test_description_rst _) as [text|]; [|done].
  by apply String.eqb_eq in H as ->.
Qed.
Lemma suite_groups :
  group_names rtps_test_suite_1
  = ["Domain"; "DataRepresentation"; "Reliability"; "History"; "Ownership"; "Deadline"; "Topic"; "Cft"; "Partition";
     "Durability"; "TimeBasedFilter"; "FinalInstanceState"; "LargeData"; "Lifespan"; "OrderedAccess"; "CoherentSets"].
Proof. vm_compute. reflexivity. Qed.

(** ** The pages are made *)

Lemma fill_templates_other reps ts fs f :
  f ∉ output_of <$> ts → dget f (foldl (fill_template reps) fs ts) = dget f fs.
Proof.
  revert fs. induction ts as [|t ts IH]; intros fs Hf; [done|]. cbn [foldl]. cbn in Hf.
  rewrite IH by set_solver. unfold fill_template. destruct (dget t fs); [|done].
  rewrite dget_dset, decide_False; [done|]. set_solver.
Qed.
Lemma fill_templates_output reps ts fs t :
  NoDup (output_of <$> ts) → Forall (λ u, u ∉ output_of <$> ts) ts → t ∈ ts → is_Some (dget t fs) →
  dget (output_of t) (foldl (fill_template reps) fs ts) = fill reps <$> dget t fs.
Proof.
  intros Hn Ho Ht Hin. revert fs Hn Ho Hin. induction ts as [|u ts IH]; intros fs Hn Ho Hin; [set_solver|].
  cbn [foldl]. cbn in Hn. apply NoDup_cons in Hn as [Hu Hn]. apply elem_of_cons in Ht as [->|Ht].
  - rewrite fill_templates_other by done. unfold fill_template. destruct Hin as [content Hc]. rewrite Hc.
    cbn [fmap option_fmap option_map]. by rewrite dget_dset, decide_True.
  - assert (t ≠ output_of u) as Hne.
    { rewrite Forall_forall in Ho. intros E. apply (Ho t); [by right|]. cbn. rewrite E. left. }
    assert (dget t (fill_template reps fs u) = dget t fs) as E.
    { unfold fill_template. destruct (dget u fs); [|done]. by rewrite dget_dset, decide_False. }
    rewrite IH; [by rewrite E|done|done| |by rewrite E].
    apply Forall_cons in Ho as [_ Ho]. eapply Forall_impl; [exact Ho|]. intros v Hv. cbn in Hv. set_solver.
Qed.
Lemma templates_exist fs t : t ∈ templates fs → is_Some (dget t fs).
Proof. unfold templates, listdir. rewrite !list_elem_of_filter. intros (_&_&H). by apply dget_keys. Qed.

(** The pages of a report, as the pattern [_static/html/interoperability_report_*.html] asks. *)
Definition report_page (f : string) : Prop :=
  ∃ name, no_slash name = true ∧ f = "_static/html/interoperability_report_" +:+ name +:+ ".html".
Lemma startswith_app p s : startswith p s = true ↔ ∃ l, s = p +:+ l.
Proof.
  unfold startswith. revert s. induction p as [|c p IH]; intros s; cbn [String.prefix].
  - split; [intros _; by exists s|by destruct s].
  - destruct s as [|d s]; [by split; [|intros [? ?]]|].
    change (String.prefix (String c p) (String d s)) with (if ascii_dec c d then String.prefix p s else false).
    destruct (ascii_dec c d) as [<-|Hne].
    + rewrite IH. split; intros [l H]; exists l; [by rewrite H|by injection H].
    + split; [done|]. intros [l H]. by injection H.
Qed.
Lemma index_pattern_spec f : index_pattern f = true ↔ report_page f.
Proof.
  unfold index_pattern, report_page. rewrite !andb_true_iff. split.
  - intros [[[rest ->]%startswith_app He] Hs]. rewrite str_drop_app in He, Hs.
    apply endswith_spec in He as [name ->]. exists name. split; [|done].
    unfold no_slash in *. rewrite sforall_app in Hs. by apply andb_true_iff in Hs as [? _].
  - intros (name&Hn&->). rewrite str_drop_app. split_and!.
    + apply startswith_app. by eexists.
    + apply endswith_spec. by exists name.
    + unfold no_slash in *. by rewrite sforall_app, Hn.
Qed.
Lemma find_index_html_spec fs :
  match find_index_html fs with
  | Some f => f ∈ keys fs ∧ report_page f
  | None => ∀ f, f ∈ keys fs → ¬ report_page f
  end.
Proof.
  unfold find_index_html. destruct (List.find _ _) as [f|] eqn:E.
  - apply find_some in E as [H1 H2]. split; [by apply list_elem_of_In|by apply index_pattern_spec].
  - intros f Hf Hr%index_pattern_spec. rewrite (find_none _ _ E f) in Hr; [done|by apply list_elem_of_In].
Qed.

(** What a template becomes: every occurrence of a placeholder is replaced, the link first,
    then the path of the report, then the description. *)
Definition page (xlsx_url index_html description template : string) : string :=
  replace "|TEST_DESCRIPTION|" description
    (replace "|INDEX_HTML_PATH|" index_html (replace "|LINK_XLSX_URL|" xlsx_url template)).

(** C40: When no two templates make the same page and no page is itself a template, loading the
    configuration writes every page that has a template: its text with the link to the
    spreadsheet in place of [|LINK_XLSX_URL|], the path of the report in place of
    [|INDEX_HTML_PATH|] and, in place of [|TEST_DESCRIPTION|], the description of all tests,
    which has a chapter for every group with the sections of its tests; no other file is
    changed.  The report is a page of the directory [_static/html] with a name of the pattern;
    without one nothing is written and the build ends with 1. *)
Theorem docs_built xlsx_url zip_url w
    (Hnames : NoDup (output_of <$> templates (files w)))
    (Hoverwritten : Forall (λ t, t ∉ output_of <$> templates (files w)) (templates (files w))) :
  match find_index_html (files w) with
  | None =>
      (∀ f, f ∈ keys (files w) → ¬ report_page f)
      ∧ conf xlsx_url zip_url w
        = (World (stdout w +:+ "Error getting INDEX_HTML_PATH" +:+ newline) (stderr w) (files w), Ok (inr 1))
  | Some index_html =>
      index_html ∈ keys (files w) ∧ report_page index_html
      ∧ ∃ w', conf xlsx_url zip_url w
            = (w', Ok (inl (newline +:+ ".. |LINK_ZIP_URL| replace:: " +:+ zip_url +:+ newline)))
        ∧ stdout w' = stdout w
        ∧ (∀ t, t ∈ templates (files w) →
             dget (output_of t) (files w')
             = page xlsx_url index_html (outline rtps_test_suite_1) <$> dget t (files w))
        ∧ ∀ f, f ∉ output_of <$> templates (files w) → dget f (files w') = dget f (files w)
  end.
Proof.
  unfold conf. rewrite suite_outline. generalize (outline rtps_test_suite_1). intros text. pose proof (find_index_html_spec (files w)) as Hfind.
  destruct (find_index_html (files w)) as [index_html|]; [|by split]. destruct Hfind as [Hin Hpage].
  split; [done|]. split; [done|]. eexists. split; [reflexivity|]. split; [done|]. cbn [files]. unfold replace_in_rst_files. split.
  - intros t Ht. rewrite fill_templates_output; [done|done|done|done|by apply templates_exist].
  - intros f Hf. by apply fill_templates_other.
Qed.
Definition doc_files : dict string string :=
  [("conf.py", ""); ("_static/html/interoperability_report_2026.html", "<html>"); ("index.rst", "Index");
   ("detailed_report.template.rst", "   :file: |INDEX_HTML_PATH|"); ("test_results.template.rst", "at: |LINK_XLSX_URL|");
   ("detailed_report.rst", "old")].
Lemma docs_built_witness : ∃ w',
  conf "https://x" "https://z" (World "" "" doc_files)
  = (w', Ok (inl (newline +:+ ".. |LINK_ZIP_URL| replace:: https://z" +:+ newline)))
  ∧ dget "detailed_report.rst" (files w') = Some "   :file: _static/html/interoperability_report_2026.html"
  ∧ dget "test_results.rst" (files w') = Some "at: https://x"
  ∧ dget "index.rst" (files w') = Some "Index".
Proof.
  destruct (docs_built "https://x" "https://z" (World "" "" doc_files)) as (_&_&w'&E&_&Ht&Ho).
  - apply (bool_decide_unpack _). vm_compute. exact I.
  - apply (bool_decide_unpack _). vm_compute. exact I.
  - exists w'. split; [exact E|]. split; [|split].
    + specialize (Ht "detailed_report.template.rst" ltac:(apply (bool_decide_unpack _); vm_compute; exact I)).
      change (output_of "detailed_report.template.rst") with "detailed_report.rst" in Ht. rewrite Ht.
      clear. generalize (outline rtps_test_suite_1). intros text. vm_compute. reflexivity.
    + specialize (Ht "test_results.template.rst" ltac:(apply (bool_decide_unpack _); vm_compute; exact I)).
      change (output_of "test_results.template.rst") with "test_results.rst" in Ht. rewrite Ht.
      clear. generalize (outline rtps_test_suite_1). intros text. vm_compute. reflexivity.
    + apply (Ho "index.rst"). apply (bool_decide_unpack _). vm_compute. exact I.
Defined.
Example page_texts :
  (λ t, dget t (replace_in_rst_files (replacements "https://x" "i.html" "D") doc_files))
    <$> ["detailed_report.rst"; "test_results.rst"; "test_results.template.rst"]
  = [Some "   :file: i.html"; Some "at: https://x"; Some "at: |LINK_XLSX_URL|"].
Proof. vm_compute. reflexivity. Qed.
