(* ===== verification/XlsxData.v ===== *)
(** * Spreadsheet: the data (generate_xlsx_report.py, ProductUtils and JunitData)

    The names of companies and products, and the four dictionaries that are filled from
    the test suites of a JUnit report.  The suites are as junitparser gives them: the
    attributes of a suite, and of each test case its name, the messages of its results
    ([None] for a result without one) and whether it is passed.  The dictionaries are
    attributes of the class, so they start from what an earlier report left. *)

From S2P Require Import Prelude PyStr PyDict Regex Utilities.
From stdpp Require Import options.
Local Open Scope string_scope.

Inductive TestStatus := PASSED | FAILED | PUB_UNSUPPORTED | SUB_UNSUPPORTED | PUB_SUB_UNSUPPORTED.
#[export] Instance TestStatus_eq_dec : EqDecision TestStatus.
Proof. solve_decision. Defined.

(** ** Names (ProductUtils) *)

Definition get_company_name (product : string) : result string :=
  let has s := contains s (lower product) in
  if has "connext" then Ok "Real-Time Innovations (RTI)"
  else if has "opendds" then Ok "OpenDDS Foundation"
  else if has "coredx" then Ok "Twin Oaks Computing, Inc"
  else if has "intercom" then Ok "Kongsberg"
  else if has "fastdds" then Ok "eProsima"
  else if has "dust" then Ok "S2E Software Systems"
  else if has "hdds" then Ok "Naskel"
  else if has "cyclone" then Ok "Eclipse Foundation"
  else if has "zzdds" || has "zenzen" then Ok "Zenzen IoT"
  else Raise RuntimeError.

Definition version_char (c : ascii) : bool := is_digit c || bool_decide (c = "."%char).
Definition version_re : regex := RGroup 1 (RPlus version_char).
Definition version_of (product : string) : string :=
  match re_search version_re product with
  | Some v => " " +:+ default "" (group 1 v)
  | None => ""
  end.
Definition get_product_name (product : string) : string :=
  let has s := contains s (lower product) in
  let versioned name := strip (name +:+ version_of product) in
  if has "connext" && has "micro" then versioned "Connext DDS Micro"
  else if has "connext" then versioned "Connext DDS"
  else if has "opendds" then versioned "OpenDDS"
  else if has "coredx" then versioned "CoreDX DDS"
  else if has "intercom" then versioned "InterCOM DDS"
  else if has "fastdds" then versioned "FastDDS"
  else if has "dust_dds" then versioned "Dust DDS"
  else if has "hdds" then versioned "HDDS"
  else if has "cyclone" then versioned "Cyclone DDS"
  else if has "zzdds" then versioned "Zenzen DDS"
  else product.

(** ** Data *)

Record JunitAggregatedData := Aggregated {
  get_passed_tests : Z;
  get_total_tests : Z;
  get_unsupported_tests : Z
}.
Definition get_supported_tests (a : JunitAggregatedData) : Z :=
  (get_total_tests a - get_unsupported_tests a)%Z.

Record JunitTestCaseAggregatedData := CaseData {
  cd_product : string;
  cd_test_name : string;
  cd_status : TestStatus
}.

Record junit_case := JunitCase {
  jc_name : string;
  jc_results : list (option string);
  is_passed : bool
}.
Record junit_suite := JunitSuite {
  js_name : string;
  js_tests : Z;
  js_failures : Z;
  js_skipped : Z;
  js_errors : Z;
  js_cases : list junit_case
}.

Definition product_dict : Type := dict string (list JunitTestCaseAggregatedData).
Record JunitData := MkData {
  summary_dict : dict string JunitAggregatedData;
  product_summary_dict : dict (string * string) JunitAggregatedData;
  publisher_product_dict : product_dict;
  subscriber_product_dict : product_dict
}.
Definition no_data : JunitData := MkData [] [] [] [].

(** ** Filling the dictionaries (JunitData) *)

Definition add_data (a b : JunitAggregatedData) : JunitAggregatedData :=
  Aggregated (get_passed_tests a + get_passed_tests b) (get_total_tests a + get_total_tests b)
    (get_unsupported_tests a + get_unsupported_tests b).
Definition update_value_aggregated_data_dict {K} `{EqDecision K}
    (dictionary : dict K JunitAggregatedData) (key : K) (value : JunitAggregatedData) :
    dict K JunitAggregatedData :=
  match dget key dictionary with
  | Some old => dset key (add_data old value) dictionary
  | None => dset key value dictionary
  end.
Definition update_value_to_product_dict (key : string) (d : product_dict)
    (value : JunitTestCaseAggregatedData) : product_dict :=
  match dget key d with
  | Some l => dset key (l ++ [value])%list d
  | None => dset key [value] d
  end.

Definition pair_re : regex :=
  (RGroup 1 (RPlus (cnot cspace)) ⊙ RLit "---" ⊙ RGroup 2 (RPlus (cnot cspace)))%re.
(** The products of a suite, as publisher and as subscriber. *)
Definition product_names (name : string) : string * string :=
  match re_search pair_re name with
  | Some m => (get_product_name (default "" (group 1 m)), get_product_name (default "" (group 2 m)))
  | None => (get_product_name name, get_product_name name)
  end.

Definition test_re : regex :=
  (RGroup 1 (RLit "Test_" ⊙ RPlus (cnot cspace) ⊙ RLit "_" ⊙ RPlus is_digit))%re.
Definition test_name_of (name : string) : string :=
  match re_search test_re name with Some m => default "" (group 1 m) | None => name end.

(** [is_pub_unsupported, is_sub_unsupported]; a first result without a message has no
    [upper]. *)
Definition unsupported_flags (case : junit_case) : result (bool * bool) :=
  match jc_results case with
  | [] => Ok (false, false)
  | first :: _ =>
      message ← or_raise AttributeError first;
      Ok (contains "PUB_UNSUPPORTED_FEATURE" (upper message),
          contains "SUB_UNSUPPORTED_FEATURE" (upper message))
  end.
Definition status_of (passed pub sub : bool) : TestStatus :=
  if passed then PASSED
  else if pub && sub then PUB_SUB_UNSUPPORTED
  else if pub then PUB_UNSUPPORTED
  else if sub then SUB_UNSUPPORTED
  else FAILED.

(** The iteration for a test case, with the count of the unsupported ones. *)
Definition add_case (pub sub : string) (s : JunitData * Z) (case : junit_case) : result (JunitData * Z) :=
  let '(d, count) := s in
  flags ← unsupported_flags case;
  let test := test_name_of (jc_name case) in
  let status := status_of (is_passed case) flags.1 flags.2 in
  Ok (MkData (summary_dict d) (product_summary_dict d)
        (update_value_to_product_dict pub (publisher_product_dict d) (CaseData sub test status))
        (update_value_to_product_dict sub (subscriber_product_dict d) (CaseData pub test status)),
      if flags.1 || flags.2 then count + 1 else count)%Z.
Definition suite_data (s : junit_suite) (unsupported : Z) : JunitAggregatedData :=
  Aggregated (js_tests s - js_failures s - js_skipped s - js_errors s) (js_tests s) unsupported.
(** The iteration for a test suite. *)
Definition add_suite (d : JunitData) (s : junit_suite) : result JunitData :=
  let '(pub, sub) := product_names (js_name s) in
  r ← mfold (add_case pub sub) (d, 0%Z) (js_cases s);
  let '(d, unsupported) := r in
  let element := suite_data s unsupported in
  let summary := update_value_aggregated_data_dict (summary_dict d) pub element in
  let summary := if decide (pub = sub) then summary
                 else update_value_aggregated_data_dict summary sub element in
  Ok (MkData summary (update_value_aggregated_data_dict (product_summary_dict d) (pub, sub) element)
        (publisher_product_dict d) (subscriber_product_dict d)).
Definition get_info (d : JunitData) (xml : list junit_suite) : result JunitData := mfold add_suite d xml.

(** ** Sums *)

Definition zero : JunitAggregatedData := Aggregated 0 0 0.
Definition total (l : list JunitAggregatedData) : JunitAggregatedData := foldr add_data zero l.
Definition value {K} `{EqDecision K} (k : K) (d : dict K JunitAggregatedData) : JunitAggregatedData :=
  default zero (dget k d).
Definition total_where {K} (P : K → Prop) `{∀ k, Decision (P k)} (d : dict K JunitAggregatedData) :
    JunitAggregatedData :=
  total (snd <$> filter (λ p : K * JunitAggregatedData, P p.1) d).

Lemma add_data_assoc a b c : add_data (add_data a b) c = add_data a (add_data b c).
Proof. unfold add_data. cbn. f_equal; lia. Qed.
Lemma add_data_comm a b : add_data a b = add_data b a.
Proof. unfold add_data. f_equal; lia. Qed.
Lemma add_zero_l a : add_data zero a = a.
Proof. by destruct a. Qed.
Lemma add_zero_r a : add_data a zero = a.
Proof. rewrite add_data_comm. apply add_zero_l. Qed.
Lemma total_app l k : total (l ++ k)%list = add_data (total l) (total k).
Proof.
  induction l as [|a l IH]; [by rewrite add_zero_l|].
  change (add_data a (total (l ++ k)%list) = add_data (add_data a (total l)) (total k)).
  by rewrite IH, add_data_assoc.
Qed.
Lemma total_snoc l a : total (l ++ [a])%list = add_data (total l) a.
Proof. rewrite total_app. cbn [total foldr]. by rewrite add_zero_r. Qed.

Section updates.
Context {K : Type} `{EqDecision K}.
Implicit Types (d : dict K JunitAggregatedData) (k : K).

Lemma update_value d k v :
  update_value_aggregated_data_dict d k v = dset k (add_data (value k d) v) d.
Proof.
  unfold update_value_aggregated_data_dict, value. destruct (dget k d); [done|].
  cbn [default from_option]. by rewrite add_zero_l.
Qed.
Lemma value_update d k v k' :
  value k' (update_value_aggregated_data_dict d k v)
  = if decide (k' = k) then add_data (value k' d) v else value k' d.
Proof. rewrite update_value. unfold value. rewrite dget_dset. by case_decide; subst. Qed.
Lemma total_where_update (P : K → Prop) `{∀ k, Decision (P k)} d k v :
  total_where P (update_value_aggregated_data_dict d k v)
  = if decide (P k) then add_data (total_where P d) v else total_where P d.
Proof.
  rewrite update_value. unfold value, total_where.
  induction d as [|[k' w] d IH]; cbn [dget dset].
  - rewrite filter_cons. cbn [fst]. case_decide; [|done]. cbn. by rewrite add_zero_r.
  - destruct (decide (k = k')) as [<-|Hne]; rewrite !filter_cons; cbn [fst].
    + destruct (decide (P k)); [|done]. rewrite !fmap_cons. cbn [snd total foldr default from_option].
      rewrite !add_data_assoc. f_equal. apply add_data_comm.
    + destruct (decide (P k')); [|exact IH]. rewrite !fmap_cons. cbn [snd total foldr].
      change (foldr add_data zero) with total. rewrite IH. case_decide; [|done].
      by rewrite add_data_assoc.
Qed.
End updates.

Definition results_for (p : string) (d : product_dict) : list JunitTestCaseAggregatedData :=
  default [] (dget p d).
Lemma results_for_update p k d v :
  results_for p (update_value_to_product_dict k d v)
  = (results_for p d ++ if decide (p = k) then [v] else [])%list.
Proof.
  unfold results_for, update_value_to_product_dict.
  destruct (dget k d) eqn:E; rewrite dget_dset; case_decide; subst;
    by rewrite ?E, ?app_nil_r.
Qed.

(** ** What a report contributes *)

(** The flags of a case that has them. *)
Definition flags (c : junit_case) : bool * bool :=
  match unsupported_flags c with Ok f => f | Raise _ => (false, false) end.
Definition unsupported_count (s : junit_suite) : nat :=
  length (filter (λ c, (flags c).1 || (flags c).2 = true) (js_cases s)).
Definition data_of (s : junit_suite) : JunitAggregatedData :=
  suite_data s (Z.of_nat (unsupported_count s)).
Definition case_data (other : string) (c : junit_case) : JunitTestCaseAggregatedData :=
  CaseData other (test_name_of (jc_name c)) (status_of (is_passed c) (flags c).1 (flags c).2).
Definition suite_pub (s : junit_suite) : string := (product_names (js_name s)).1.
Definition suite_sub (s : junit_suite) : string := (product_names (js_name s)).2.
(** The results of a product as publisher, and as subscriber. *)
Definition published (p : string) (xml : list junit_suite) : list JunitTestCaseAggregatedData :=
  s ← xml; if decide (p = suite_pub s) then case_data (suite_sub s) <$> js_cases s else [].
Definition subscribed (p : string) (xml : list junit_suite) : list JunitTestCaseAggregatedData :=
  s ← xml; if decide (p = suite_sub s) then case_data (suite_pub s) <$> js_cases s else [].

Lemma unsupported_flags_Ok c f : unsupported_flags c = Ok f → flags c = f.
Proof. unfold flags. by intros ->. Qed.
Lemma unsupported_flags_Raise c e :
  unsupported_flags c = Raise e → e = AttributeError ∧ head (jc_results c) = Some None.
Proof.
  unfold unsupported_flags. destruct (jc_results c) as [|[m|] l]; [done|done|].
  cbn. intros [= <-]. done.
Qed.

Lemma add_cases pub sub d n cases d' n' :
  mfold (add_case pub sub) (d, n) cases = Ok (d', n') →
  summary_dict d' = summary_dict d ∧ product_summary_dict d' = product_summary_dict d
  ∧ n' = (n + Z.of_nat (length (filter (λ c, (flags c).1 || (flags c).2 = true) cases)))%Z
  ∧ (∀ p, results_for p (publisher_product_dict d')
          = (results_for p (publisher_product_dict d)
             ++ if decide (p = pub) then case_data sub <$> cases else [])%list)
  ∧ (∀ p, results_for p (subscriber_product_dict d')
          = (results_for p (subscriber_product_dict d)
             ++ if decide (p = sub) then case_data pub <$> cases else [])%list).
Proof.
  revert d n. induction cases as [|c cases IH]; intros d n; cbn [mfold].
  - intros [= <- <-]. cbn. split; [done|]. split; [done|]. split; [lia|].
    split; intros p; case_decide; by rewrite app_nil_r.
  - intros (d1&H1&H)%bind_Ok. unfold add_case in H1.
    apply bind_Ok in H1 as (f&Hf%unsupported_flags_Ok&H1). apply Ok_inj in H1. subst d1.
    apply IH in H as (->&->&->&Hpub&Hsub). cbn [summary_dict product_summary_dict] in *.
    split; [done|]. split; [done|]. split.
    { rewrite filter_cons, Hf. case_decide as E; [rewrite E|apply not_true_is_false in E; rewrite E];
        cbn [length]; lia. }
    cbn [publisher_product_dict subscriber_product_dict] in *.
    assert (∀ o, case_data o c = CaseData o (test_name_of (jc_name c))
              (status_of (is_passed c) f.1 f.2)) as Hc by (intros o; unfold case_data; by rewrite Hf).
    split; intros p; [rewrite Hpub|rewrite Hsub]; rewrite results_for_update, <- app_assoc; f_equal;
      (case_decide; [|done]); by rewrite fmap_cons, Hc.
Qed.

(** What the dictionaries hold after some suites. *)
Definition represents (d : JunitData) (xml : list junit_suite) : Prop :=
  (∀ k, value k (product_summary_dict d)
        = total (data_of <$> filter (λ s, (suite_pub s, suite_sub s) = k) xml))
  ∧ (∀ p, value p (summary_dict d)
          = total (data_of <$> filter (λ s, suite_pub s = p ∨ suite_sub s = p) xml))
  ∧ (∀ p, value p (summary_dict d)
          = total_where (λ k : string * string, k.1 = p ∨ k.2 = p) (product_summary_dict d))
  ∧ (∀ p, results_for p (publisher_product_dict d) = published p xml)
  ∧ (∀ p, results_for p (subscriber_product_dict d) = subscribed p xml).

Lemma total_filter_snoc (P : junit_suite → Prop) `{∀ s, Decision (P s)} xml s :
  total (data_of <$> filter P (xml ++ [s])%list)
  = if decide (P s) then add_data (total (data_of <$> filter P xml)) (data_of s)
    else total (data_of <$> filter P xml).
Proof.
  rewrite filter_app, filter_cons. case_decide.
  - rewrite fmap_app. apply total_snoc.
  - by rewrite app_nil_r.
Qed.
Lemma add_suite_represents d xml s d' :
  represents d xml → add_suite d s = Ok d' → represents d' (xml ++ [s])%list.
Proof.
  intros (Hps&Hs&Heq&Hpub&Hsub). unfold add_suite.
  destruct (product_names (js_name s)) as [pub sub] eqn:En.
  intros ([d1 n]&Hcases&E)%bind_Ok. apply Ok_inj in E. subst d'.
  apply add_cases in Hcases as (E1&E2&->&Hpub'&Hsub'). rewrite E1, E2, Z.add_0_l.
  assert (suite_pub s = pub) as Ep by (unfold suite_pub; by rewrite En).
  assert (suite_sub s = sub) as Es by (unfold suite_sub; by rewrite En).
  change (suite_data s _) with (data_of s).
  assert (∀ p, value p (if decide (pub = sub)
                        then update_value_aggregated_data_dict (summary_dict d) pub (data_of s)
                        else update_value_aggregated_data_dict
                               (update_value_aggregated_data_dict (summary_dict d) pub (data_of s)) sub (data_of s))
               = if decide (pub = p ∨ sub = p) then add_data (value p (summary_dict d)) (data_of s)
                 else value p (summary_dict d)) as Hv.
  { intros p. destruct (decide (pub = sub)) as [<-|Hne]; rewrite !value_update;
      repeat case_decide; subst; naive_solver. }
  split; [|split; [|split; [|split]]]; cbn [summary_dict product_summary_dict publisher_product_dict
    subscriber_product_dict].
  - intros k. rewrite value_update, total_filter_snoc, Hps, Ep, Es. repeat case_decide; congruence.
  - intros p. rewrite Hv, total_filter_snoc, Hs, Ep, Es. done.
  - intros p. rewrite Hv, total_where_update, Heq. cbn [fst snd]. done.
  - intros p. rewrite Hpub', Hpub. unfold published. rewrite bind_app. f_equal. cbn.
    by rewrite Ep, Es, app_nil_r.
  - intros p. rewrite Hsub', Hsub. unfold subscribed. rewrite bind_app. f_equal. cbn.
    by rewrite Ep, Es, app_nil_r.
Qed.

Lemma add_case_raises pub sub s c e :
  add_case pub sub s c = Raise e → e = AttributeError ∧ head (jc_results c) = Some None.
Proof.
  destruct s as [d n]. unfold add_case.
  intros [H|(f&_&H)]%bind_Raise; [by apply unsupported_flags_Raise|done].
Qed.

Lemma represents_nil : represents no_data [].
Proof. repeat split. Qed.

Lemma get_info_result xml :
  match get_info no_data xml with
  | Ok d => represents d xml
  | Raise e => e = AttributeError
               ∧ ∃ s c, s ∈ xml ∧ c ∈ js_cases s ∧ head (jc_results c) = Some None
  end.
Proof.
  destruct (get_info no_data xml) as [d|e] eqn:E.
  - apply (mfold_prefix add_suite (λ xml d, represents d xml) no_data xml d represents_nil); [|done].
    intros seen d0 s d1. apply add_suite_represents.
  - apply mfold_Raise in E as (d&s&Hs&E). unfold add_suite in E.
    destruct (product_names (js_name s)) as [pub sub].
    apply bind_Raise in E as [E|([d1 n]&_&E)]; [|done].
    apply mfold_Raise in E as (d1&c&Hc&[-> H]%add_case_raises). eauto 10.
Qed.

(** C28: The dictionaries of the spreadsheet after any report: for every pair of products the
    sums over the suites of that pair; for every product the sums over the suites in which
    it takes part, counted once, which are the sums of the entries of its pairs; and for
    every product its results as publisher and as subscriber, in the order of the report.
    The only exception is that of a test case whose first result has no message. *)
Theorem get_info_spec xml :
  match get_info no_data xml with
  | Ok d => represents d xml
  | Raise e => e = AttributeError
               ∧ ∃ s c, s ∈ xml ∧ c ∈ js_cases s ∧ head (jc_results c) = Some None
  end.
Proof. apply get_info_result. Qed.

(** ** Names of products *)

Lemma rstrip_last t d : is_space d = false → rstrip (t +:+ String d "") = t +:+ String d "".
Proof.
  intros Hd. induction t as [|c t IH].
  - rewrite sapp_nil_l. cbn [rstrip]. by rewrite Hd.
  - rewrite sapp_cons. cbn [rstrip]. rewrite IH. by destruct t.
Qed.
Lemma version_spec p :
  version_of p = "" ∨ ∃ v, version_of p = " " +:+ v ∧ v ≠ "" ∧ sforall version_char v = true.
Proof.
  unfold version_of. destruct (re_search version_re p) as [m|] eqn:E; [|by left]. right.
  apply re_search_sound in E as (l&w&rest&cs&_&A&->). unfold version_re in A.
  apply accepts_group in A as (cs'&->&A). apply accepts_plus in A as (Hne&Hv&->).
  exists w. done.
Qed.
Lemma version_char_facts : ∀ c, version_char c = true → is_space c = false ∧ lower_char c = c.
Proof. by_ascii. Qed.

(** A word that is not made of digits and dots is not in the version. *)
Lemma contains_class p sub s : sforall p s = true → contains sub s = true → sforall p sub = true.
Proof.
  intros Hs (l&r&->)%contains_spec. rewrite !sforall_app, !andb_true_iff in Hs. naive_solver.
Qed.
Lemma strip_versioned c name p :
  is_space c = false → strip (String c name) = String c name →
  strip (String c name +:+ version_of p) = String c name +:+ version_of p.
Proof.
  intros Hc Hname. destruct (version_spec p) as [->|(v&->&Hvne&Hvc)]; [by rewrite sapp_nil_r|].
  destruct (string_snoc v Hvne) as (t&d&->). rewrite sforall_app in Hvc.
  apply andb_true_iff in Hvc as [_ Hd]. cbn in Hd. apply andb_true_iff in Hd as [Hd _].
  unfold strip. rewrite <- !sapp_assoc, rstrip_last by by apply version_char_facts.
  rewrite !sapp_assoc, sapp_cons. cbn [lstrip]. by rewrite Hc.
Qed.
Lemma versioned_name c name sub p :
  is_space c = false → strip (String c name) = String c name →
  lacks " " sub → sforall version_char sub = false →
  contains sub (lower (strip (String c name +:+ version_of p))) = contains sub (lower (String c name)).
Proof.
  intros Hc Hname Hsub Hv. rewrite strip_versioned by done.
  destruct (version_spec p) as [->|(v&->&_&Hvc)]; [by rewrite sapp_nil_r|].
  unfold lower. rewrite smap_app. change (smap lower_char (" " +:+ v)) with (String " " (smap lower_char v)).
  rewrite (smap_id_on lower_char v).
  - rewrite contains_sep; [|done|by intros ->].
    destruct (contains sub v) eqn:E; [|by rewrite orb_false_r].
    apply (contains_class _ _ _ Hvc) in E. congruence.
  - revert Hvc. apply sforall_impl. intros d Hd. by apply bool_decide_eq_true, version_char_facts.
Qed.

Lemma company_versioned c name p :
  is_space c = false → strip (String c name) = String c name →
  get_company_name (strip (String c name +:+ version_of p)) = get_company_name (String c name).
Proof. intros Hc Hn. unfold get_company_name. cbv zeta. by rewrite !versioned_name by done. Qed.
(** Both names are found by the same test. *)
Ltac known_company :=
  cbn [andb orb]; rewrite company_versioned by done; unfold get_company_name; cbv zeta;
  repeat match goal with H : contains _ _ = _ |- _ => rewrite H; clear H end; reflexivity.
(** The company of a printed name. *)
Lemma company_of_printed p :
  let known s := contains s (lower p) in
  get_company_name (get_product_name p)
  = if known "connext" || known "opendds" || known "coredx" || known "intercom" || known "fastdds"
    then get_company_name p
    else if known "dust_dds" then Ok "S2E Software Systems"
    else if known "hdds" then Ok "Naskel"
    else if known "cyclone" then Ok "Eclipse Foundation"
    else if known "zzdds" then Ok "Zenzen IoT"
    else get_company_name p.
Proof.
  cbv zeta. unfold get_product_name.
  destruct (contains "connext" (lower p)) eqn:E1.
  { assert (get_company_name p = Ok "Real-Time Innovations (RTI)") as ->
      by (unfold get_company_name; by rewrite E1).
    cbn [andb orb]. destruct (contains "micro" (lower p)); by rewrite company_versioned. }
  destruct (contains "opendds" (lower p)) eqn:E2; [known_company|].
  destruct (contains "coredx" (lower p)) eqn:E3; [known_company|].
  destruct (contains "intercom" (lower p)) eqn:E4; [known_company|].
  destruct (contains "fastdds" (lower p)) eqn:E5; [known_company|].
  cbn [andb orb]. repeat (case_match; [by rewrite company_versioned|]). done.
Qed.
Lemma dust_dds_is_dust s : contains "dust_dds" s = true → contains "dust" s = true.
Proof.
  intros (l&r&->)%contains_spec. apply contains_spec. exists l, ("_dds" +:+ r). done.
Qed.

(** The name that is printed for a product names the same company as the product, and no
    company exactly when the product names none (for a product called dust without dust_dds
    only that there is a company). *)
Theorem company_of_product_name p :
  let known s := contains s (lower p) in
  (is_Ok (get_company_name (get_product_name p)) ↔ is_Ok (get_company_name p))
  ∧ (known "dust" && negb (known "dust_dds") = false →
     get_company_name (get_product_name p) = get_company_name p).
Proof.
  cbv zeta. rewrite company_of_printed. pose proof (dust_dds_is_dust (lower p)) as Hdust.
  unfold get_company_name, is_Ok.
  repeat case_match; rewrite ?orb_true_iff, ?orb_false_iff in *; naive_solver.
Qed.

(** Every test case enters both dictionaries of products. *)
Definition same_support (d : JunitData) : Prop :=
  publisher_product_dict d = [] ↔ subscriber_product_dict d = [].
Lemma update_nonempty k d v : update_value_to_product_dict k d v ≠ [].
Proof. unfold update_value_to_product_dict. destruct (dget k d), d as [|[k' l'] d]; cbn; by try case_decide. Qed.
Lemma get_info_support xml d : get_info no_data xml = Ok d → same_support d.
Proof.
  apply mfold_inv; [done|]. intros d0 s d1 _ H0. unfold add_suite.
  destruct (product_names (js_name s)) as [pub sub].
  intros ([d2 n]&H2&E)%bind_Ok. apply Ok_inj in E as <-. unfold same_support. cbn.
  revert H2. apply (mfold_inv (add_case pub sub) (λ p, same_support p.1)); [done|].
  intros [d3 m] c [d4 m'] _ _ (f&_&E)%bind_Ok. apply Ok_inj in E. injection E as <- _.
  unfold same_support. cbn. pose proof update_nonempty as Hu.
  split; intros H; by apply Hu in H.
Qed.

(** The pairs are different keys. *)
Lemma get_info_wf xml d : get_info no_data xml = Ok d → wf (product_summary_dict d).
Proof.
  apply (mfold_inv add_suite (λ d, wf (product_summary_dict d))); [constructor|]. intros d0 s d1 _ H0. unfold add_suite.
  destruct (product_names (js_name s)) as [pub sub].
  intros ([d2 n]&H2&E)%bind_Ok. apply Ok_inj in E as <-. cbn. rewrite update_value. apply wf_dset.
  revert H2. apply (mfold_inv (add_case pub sub) (λ p, wf (product_summary_dict p.1))); [done|].
  intros [d3 m] c [d4 m'] _ H3 (f&_&E)%bind_Ok. apply Ok_inj in E. by injection E as <- _.
Qed.
