(* ===== verification/XlsxStatus.v ===== *)
(** * From a run of the tests to the spreadsheet (interoperability_report.py, generate_xlsx_report.py)

    The spreadsheet finds out from the text of a message who did not support a test.  Here
    the report that the tests leave is what it reads: the status it gives to a test, and
    its sums, are those of the codes of the applications. *)

From S2P Require Import Prelude PyStr PyDict Regex Utilities RunTest ReportLoader XlsxData.
From stdpp Require Import options.
Local Open Scope string_scope.

(** ** What the XML library reads back *)

(** A result has the message that was written; a test case without a result is passed. *)
Definition case_read (name : string) (r : test_result) : junit_case :=
  match r with
  | Passed => JunitCase name [] true
  | Skipped m | Failure m => JunitCase name [Some m] false
  end.
Definition is_failure (r : test_result) : bool := match r with Failure _ => true | _ => false end.
Definition is_skipped (r : test_result) : bool := match r with Skipped _ => true | _ => false end.
(** The suite, with the numbers that the library keeps in its attributes. *)
Definition suite_read (name : string) (cases : list (string * test_result)) : junit_suite :=
  JunitSuite name (Z.of_nat (length cases)) (Z.of_nat (length (filter (λ c, is_failure c.2 = true) cases)))
    (Z.of_nat (length (filter (λ c, is_skipped c.2 = true) cases))) 0 ((λ c, case_read c.1 c.2) <$> cases).

(** ** A code in a message *)

(** [marker in s.upper()] *)
Definition mentions (marker s : string) : bool := contains marker (upper s).

Definition markers : list string := ["PUB_UNSUPPORTED_FEATURE"; "SUB_UNSUPPORTED_FEATURE"].

(** Characters that are in no marker. *)
Definition fences : list ascii := [" "; "<"; ">"]%char.
Lemma fence_lacks m d : m ∈ markers → d ∈ fences → m ≠ "" ∧ lacks (upper_char d) m.
Proof.
  unfold markers, fences. rewrite !elem_of_cons, !elem_of_nil.
  intros [->|[->|[]]] [->|[->|[->|[]]]]; split; done.
Qed.
(** On the two sides of a text between them a marker can be looked for separately. *)
Lemma mentions_gap m a d mid e b :
  m ∈ markers → d ∈ fences → e ∈ fences → Forall (λ m, mentions m mid = false) markers →
  mentions m (a +:+ String d (mid +:+ String e b)) = mentions m a || mentions m b.
Proof.
  intros Hm Hd He Hmid. rewrite Forall_forall in Hmid. specialize (Hmid m Hm). unfold mentions, upper in *.
  destruct (fence_lacks m d Hm Hd) as [Hne Hld]. destruct (fence_lacks m e Hm He) as [_ Hle].
  rewrite smap_app. cbn [smap]. rewrite smap_app. cbn [smap]. rewrite !contains_sep by done. by rewrite Hmid.
Qed.
Ltac gap := rewrite mentions_gap by (done || (unfold fences; set_solver) || by repeat constructor).

Section marked.
Context (m : string) (Hm : m ∈ markers).

Lemma mentions_nil : mentions m "" = false.
Proof using Hm. unfold markers in Hm. rewrite !elem_of_cons, elem_of_nil in Hm. by destruct Hm as [->|[->|[]]]. Qed.
Lemma mentions_row t e p b :
  mentions m (row_text t e p +:+ b) = mentions m t || (mentions m e || (mentions m p || mentions m b)).
Proof using Hm.
  assert (row_text t e p +:+ b
    = "" +:+ String "<" ("tr> <th>" +:+ String " " (t +:+ String " " ("</th> <th>" +:+ String " " (e +:+ String " "
        ("</th> <th>" +:+ String " " (p +:+ String " " ("</th> </tr" +:+ String ">" b)))))))) as ->.
  { unfold row_text, cells, cell, padded. rewrite !sapp_assoc. reflexivity. }
  do 4 gap. by rewrite mentions_nil.
Qed.
Lemma mentions_info o b :
  mentions m (info o +:+ b) = mentions m (o_type o) || (mentions m (edited (o_output o)) || mentions m b).
Proof using Hm.
  assert (info o +:+ b
    = "" +:+ String "<" ("strong> Information" +:+ String " " (o_type o +:+ String " " ("</strong><br>" +:+ String " "
        (edited (o_output o) +:+ String " " ("<br" +:+ String ">" b)))))) as ->.
  { unfold info. rewrite !sapp_assoc. reflexivity. }
  do 3 gap. by rewrite mentions_nil.
Qed.

(** Neither the entities nor the outputs nor the expected codes have the marker: it is in
    the message when it is among the produced codes. *)
Definition unmarked (o : observed) : Prop :=
  mentions m (o_type o) = false ∧ mentions m (code_name (o_expected o)) = false ∧ mentions m (edited (o_output o)) = false.
Lemma mentions_infos os b :
  Forall unmarked os → mentions m (join "" (info <$> os) +:+ b) = mentions m b.
Proof using Hm.
  induction 1 as [|o os (Ht&_&Ho) _ IH]; [done|].
  rewrite fmap_cons, join_cons_empty, sapp_assoc, mentions_info, IH. by rewrite Ht, Ho.
Qed.
Lemma mentions_rows os b :
  Forall unmarked os →
  mentions m (join "" (row_triple <$> (obs_row <$> os)) +:+ b)
  = existsb (λ o, mentions m (produced_of (obs_row o))) os || mentions m b.
Proof using Hm.
  induction 1 as [|o os (Ht&He&_) _ IH]; [done|].
  rewrite !fmap_cons, join_cons_empty, sapp_assoc. unfold row_triple at 1. rewrite mentions_row, IH.
  unfold expected_of at 1. cbn [existsb obs_row fst snd]. rewrite Ht, He. cbn [orb]. by rewrite orb_assoc.
Qed.
Lemma mentions_message os msg :
  all_written os → Forall (λ o, neat (o_type o) ∧ lacks escape (o_output o)) os → Forall unmarked os →
  message os = Ok msg → mentions m msg = existsb (λ o, mentions m (produced_of (obs_row o))) os.
Proof using Hm.
  intros Hw Hos Hu. rewrite message_text by done. intros [= <-].
  assert (∀ b, mentions m (table_head +:+ b) = mentions m b) as ->.
  { intros b. change (table_head +:+ b) with
      ("" +:+ String "<" ("table> <tr> <th/> <th> Expected Code </th> <th> Code Produced </th> </tr>" +:+ String " " b)).
    gap. by rewrite mentions_nil. }
  rewrite mentions_rows by done.
  assert (∀ b, mentions m ("</table>" +:+ b) = mentions m b) as ->.
  { intros b. change ("</table>" +:+ b) with ("" +:+ String "<" ("/table" +:+ String ">" b)).
    gap. by rewrite mentions_nil. }
  rewrite <- (sapp_nil_r (join "" (info <$> os))), mentions_infos, mentions_nil by done. by rewrite orb_false_r.
Qed.
End marked.

(** ** The flags of a test *)

Lemma lacks_F_unmarked m t : m ∈ markers → lacks "F" (upper t) → mentions m t = false.
Proof.
  unfold markers. rewrite !elem_of_cons, elem_of_nil. intros Hm Ht. apply not_true_iff_false. intros H.
  apply (contains_class _ _ _ Ht) in H. by destruct Hm as [->|[->|[]]].
Qed.
Lemma entity_types_unmarked p s parameters types :
  entity_types p s parameters = Ok types → Forall (λ t, lacks "F" (upper t)) types.
Proof.
  assert (∀ n, lacks "F" (upper (str_of_nat n))) as Hd.
  { intros n. destruct (pretty_N_digits (N.of_nat n)) as [H _].
    change (str_of_nat n) with (pretty (N.of_nat n) : string). unfold upper. rewrite smap_id_on.
    - by apply digits_lack.
    - apply (sforall_impl is_digit); [by_ascii|done]. }
  revert p s types. induction parameters as [|e l IH]; intros p s types; cbn; [by intros [= <-]|].
  destruct (classify e) as [[]|]; [| |done]; cbn; rewrite bind_Ok;
    intros (names & Hn & E); apply Ok_inj in E as <-; (constructor; [|by eapply IH]);
    unfold upper; rewrite smap_app; by apply lacks_app.
Qed.

(** The applications say nothing that looks like a code of the spreadsheet, and the test
    does not expect one. *)
Definition silent (output : string) : Prop :=
  lacks escape output ∧ Forall (λ m, mentions m (edited output) = false) markers.
Definition supports (expected : list ReturnCode) : Prop :=
  (PUB_UNSUPPORTED_FEATURE ∉ expected) ∧ (SUB_UNSUPPORTED_FEATURE ∉ expected).
Lemma code_mentions m c :
  m ∈ markers → mentions m (code_name c) = bool_decide (code_name c = m).
Proof. unfold markers. rewrite !elem_of_cons, elem_of_nil. intros [->|[->|[]]]; by destruct c. Qed.

Lemma flags_of_message types expected codes outputs os msg c :
  observe types expected (Code <$> codes) outputs = Ok os →
  length expected = length types → length codes = length types → length outputs = length types →
  Forall neat types → Forall (λ t, lacks "F" (upper t)) types → Forall silent outputs → supports expected →
  message os = Ok msg → c ∈ [PUB_UNSUPPORTED_FEATURE; SUB_UNSUPPORTED_FEATURE] →
  contains (code_name c) (upper msg) = bool_decide (c ∈ codes).
Proof.
  intros Hos He Hc Ho Hneat Hty Hsil [Hp Hs] Hmsg Hcode.
  destruct (observe_rows _ _ _ _ _ Hos) as (_&Hout&Htyp&Hw&Hcodes&Hexp); [done..|].
  assert (code_name c ∈ markers) as Hm.
  { rewrite !elem_of_cons, elem_of_nil in Hcode. unfold markers. destruct Hcode as [->|[->|[]]]; cbn; set_solver. }
  assert (c ∉ expected) as Hce.
  { rewrite !elem_of_cons, elem_of_nil in Hcode. by destruct Hcode as [->|[->|[]]]. }
  subst types outputs expected. rewrite Forall_fmap in *.
  change (contains (code_name c) (upper msg)) with (mentions (code_name c) msg).
  rewrite (mentions_message (code_name c) Hm os); [|done| | |done].
  - assert (∀ o, o ∈ os → mentions (code_name c) (produced_of (obs_row o)) = bool_decide (o_code o = Code c)) as Hone.
    { intros o Hin. destruct (written_code os o Hw Hin) as [d Hd]. unfold obs_row, produced_of. cbn [snd].
      rewrite Hd, code_mentions by done. apply bool_decide_ext. split; [by intros ->%code_name_inj|by intros [= ->]]. }
    assert (c ∈ codes ↔ Code c ∈ o_code <$> os) as Hin.
    { rewrite Hcodes, list_elem_of_fmap. split; [intros H; by exists c|by intros (d&[= <-]&H)]. }
    apply eq_true_iff_eq. rewrite existsb_exists, bool_decide_eq_true, Hin, list_elem_of_fmap. split.
    + intros (o&Ho'%list_elem_of_In&H). rewrite Hone, bool_decide_eq_true in H by done. by exists o.
    + intros (o&Heq&Ho'). exists o. rewrite <- list_elem_of_In, Hone by done. by rewrite bool_decide_eq_true.
  - rewrite !Forall_forall in *. intros o Hin. split; [by apply Hneat|by apply Hsil].
  - rewrite !Forall_forall in *. intros o Hin. split_and!.
    + apply lacks_F_unmarked; [done|]. by apply Hty.
    + rewrite code_mentions, bool_decide_eq_false by done. intros E%code_name_inj. apply Hce. rewrite <- E.
      apply list_elem_of_fmap. by exists o.
    + destruct (Hsil o Hin) as [_ Hf]. rewrite Forall_forall in Hf. by apply Hf.
Qed.

(** ** A test and its row *)

(** A test that [run_test] has run, with the codes of its applications. *)
Record finished := Finished {
  f_name : string;
  f_parameters : list string;
  f_expected : list ReturnCode;
  f_codes : list ReturnCode;
  f_outputs : list string;
  f_result : test_result
}.
Definition ran (t : finished) : Prop :=
  length (f_expected t) = length (f_parameters t) ∧ length (f_codes t) = length (f_parameters t) ∧
  length (f_outputs t) = length (f_parameters t) ∧ Forall silent (f_outputs t) ∧ supports (f_expected t) ∧
  ∃ verbosity lines, run_test (f_name t) (f_parameters t) (f_expected t) verbosity (Code <$> f_codes t) (f_outputs t)
                     = Ok (lines, f_result t).
Definition passes (t : finished) : bool := bool_decide (f_codes t = f_expected t).
Definition lacks_feature (t : finished) : bool * bool :=
  (bool_decide (PUB_UNSUPPORTED_FEATURE ∈ f_codes t), bool_decide (SUB_UNSUPPORTED_FEATURE ∈ f_codes t)).
Definition status_of_codes (t : finished) : TestStatus :=
  status_of (passes t) (lacks_feature t).1 (lacks_feature t).2.
Definition read_back (t : finished) : junit_case := case_read (f_name t) (f_result t).

(** The observed codes are those of the list. *)
Section observed_codes.
Context (os : list observed) (codes expected : list ReturnCode).
Context (Hcode : o_code <$> os = Code <$> codes) (Hexp : o_expected <$> os = expected).

Lemma observed_right : Forall (λ o, o_code o = Code (o_expected o)) os ↔ codes = expected.
Proof using Hcode Hexp.
  rewrite codes_expected, Hcode, Hexp. split; [|by intros ->].
  intros H. eapply list_fmap_eq_inj; [|exact H]. by intros ? ? [= ->].
Qed.
Lemma observed_wrong : Exists wrong os → codes ≠ expected.
Proof using Hcode Hexp.
  intros Hex Hce%observed_right. rewrite Forall_forall in Hce.
  apply Exists_exists in Hex as (o&Ho&Hwr). by apply Hwr, Hce.
Qed.
Lemma observed_in c : Code c ∈ o_code <$> os ↔ c ∈ codes.
Proof using Hcode.
  rewrite Hcode, list_elem_of_fmap. split; [by intros (d&[= <-]&H)|intros H; by exists c].
Qed.
Lemma observed_lacking :
  Exists (λ o, unsupported (o_code o) = true) os ↔
  bool_decide (PUB_UNSUPPORTED_FEATURE ∈ codes) || bool_decide (SUB_UNSUPPORTED_FEATURE ∈ codes) = true.
Proof using Hcode.
  rewrite orb_true_iff, !bool_decide_eq_true, Exists_exists, <- !observed_in, !list_elem_of_fmap. split.
  - intros (o&Ho&[H|H]%bool_decide_eq_true); [left|right]; by exists o.
  - intros [(o&H&Ho)|(o&H&Ho)]; exists o; (split; [done|]); apply bool_decide_eq_true; auto.
Qed.
End observed_codes.

Lemma ran_flags t :
  ran t → unsupported_flags (read_back t) = Ok (lacks_feature t) ∧ is_passed (read_back t) = passes t ∧
  match f_result t with
  | Passed => passes t = true
  | Skipped _ => passes t = false ∧ (lacks_feature t).1 || (lacks_feature t).2 = true
  | Failure _ => passes t = false ∧ (lacks_feature t).1 || (lacks_feature t).2 = false
  end.
Proof.
  destruct t as [name parameters expected codes outputs r]. unfold ran, read_back, passes, lacks_feature.
  cbn [f_name f_parameters f_expected f_codes f_outputs f_result fst snd].
  intros (He&Hc&Ho&Hsil&Hsup&verbosity&lines&Hrun).
  unfold run_test in Hrun. apply bind_Ok in Hrun as (types&Htypes&(os&Hos&Hrun)%bind_Ok).
  pose proof (entity_types_length 0 0 _ _ Htypes) as Hl.
  pose proof (entity_types_neat 0 0 _ _ Htypes) as Hneat.
  pose proof (entity_types_unmarked 0 0 _ _ Htypes) as Hty.
  destruct (observe_rows _ _ _ _ _ Hos) as (_&_&_&Hw&Hcode&Hexp); [lia..|].
  destruct (conclude_total name verbosity os Hw) as (lines'&r'&E&Hr).
  rewrite Hrun in E. injection E as <- <-. clear Hrun.
  assert (∀ msg, message os = Ok msg → unsupported_flags (JunitCase name [Some msg] false)
    = Ok (bool_decide (PUB_UNSUPPORTED_FEATURE ∈ codes), bool_decide (SUB_UNSUPPORTED_FEATURE ∈ codes))) as Hflags.
  { intros msg Hmsg. unfold unsupported_flags. cbn [jc_results mbind result_bind or_raise].
    change "PUB_UNSUPPORTED_FEATURE" with (code_name PUB_UNSUPPORTED_FEATURE).
    change "SUB_UNSUPPORTED_FEATURE" with (code_name SUB_UNSUPPORTED_FEATURE).
    rewrite !(flags_of_message types expected codes outputs os msg) by (done || lia || set_solver). done. }
  destruct r as [|msg|msg].
  - apply (observed_right os codes expected Hcode Hexp) in Hr. destruct Hsup as [H1 H2]. rewrite Hr.
    rewrite (bool_decide_eq_true_2 (expected = expected)) by done. by rewrite !bool_decide_eq_false_2 by done.
  - destruct Hr as (Hex&Hu&Hmsg). pose proof (observed_wrong os codes expected Hcode Hexp Hex) as Hne.
    rewrite (bool_decide_eq_false_2 (codes = expected)) by done.
    split; [by apply Hflags|]. split; [done|]. split; [done|]. by apply (observed_lacking os codes Hcode).
  - destruct Hr as (Hex&Hu&Hmsg). pose proof (observed_wrong os codes expected Hcode Hexp Hex) as Hne.
    rewrite (bool_decide_eq_false_2 (codes = expected)) by done.
    split; [by apply Hflags|]. split; [done|]. split; [done|]. apply not_true_iff_false.
    rewrite <- (observed_lacking os codes Hcode), Exists_exists.
    intros (o&Ho'&Hb). rewrite Forall_forall in Hu. by rewrite (Hu o Ho') in Hb.
Qed.

(** ** The spreadsheet of a run *)

Definition results (tests : list finished) : list (string * test_result) := (λ t, (f_name t, f_result t)) <$> tests.
Definition count (p : finished → bool) (tests : list finished) : nat := length (filter (λ t, p t = true) tests).

Lemma read_cases name tests : js_cases (suite_read name (results tests)) = read_back <$> tests.
Proof. unfold suite_read, results. cbn [js_cases]. by rewrite <- list_fmap_compose. Qed.
Lemma ran_case_data other t :
  ran t → case_data other (read_back t) = CaseData other (test_name_of (f_name t)) (status_of_codes t).
Proof.
  intros (Hf&Hp&_)%ran_flags. unfold case_data. rewrite (unsupported_flags_Ok _ _ Hf), Hp.
  unfold status_of_codes. f_equal. unfold read_back, case_read. by destruct (f_result t).
Qed.
Lemma ran_unsupported name tests :
  Forall ran tests →
  unsupported_count (suite_read name (results tests)) = count (λ t, (lacks_feature t).1 || (lacks_feature t).2) tests.
Proof.
  intros H. unfold unsupported_count, count. rewrite read_cases.
  induction H as [|t tests (Hf&_)%ran_flags _ IH]; [done|].
  rewrite fmap_cons, !filter_cons, (unsupported_flags_Ok _ _ Hf). case_decide; cbn; by rewrite IH.
Qed.
Lemma ran_passed tests :
  Forall ran tests →
  length tests = (count passes tests + length (filter (λ c, is_failure c.2 = true) (results tests))
                  + length (filter (λ c, is_skipped c.2 = true) (results tests)))%nat.
Proof.
  unfold count. induction 1 as [|t tests (_&_&Hr)%ran_flags _ IH]; [done|].
  unfold results in *. rewrite fmap_cons, !filter_cons. cbn [fst snd length]. rewrite IH.
  destruct (f_result t); cbn [is_failure is_skipped];
    [rewrite Hr|destruct Hr as [Hr _]; rewrite Hr..];
    repeat first [rewrite decide_True by done | rewrite decide_False by done]; cbn [length]; lia.
Qed.

(** A run of the tests in the spreadsheet.  The report that [run_test] leaves is read
    without an exception; every test has, in the table of the publisher and in that of the
    subscriber, the status of the codes its applications wrote -- passed when they are the
    expected ones, else unsupported by the publisher, by the subscriber or by both when
    such a code is among them, else failed --; and the sums of the pair are the number of
    the tests, of those with the expected codes, and of those with an unsupported
    feature.  (The outputs have no colours and none of the two words that the spreadsheet
    looks for.) *)
Lemma spreadsheet_of_run name tests (Hran : Forall ran tests) :
  let s := suite_read name (results tests) in
  ∃ d, get_info no_data [s] = Ok d
  ∧ results_for (suite_pub s) (publisher_product_dict d)
    = (λ t, CaseData (suite_sub s) (test_name_of (f_name t)) (status_of_codes t)) <$> tests
  ∧ results_for (suite_sub s) (subscriber_product_dict d)
    = (λ t, CaseData (suite_pub s) (test_name_of (f_name t)) (status_of_codes t)) <$> tests
  ∧ value (suite_pub s, suite_sub s) (product_summary_dict d)
    = Aggregated (Z.of_nat (count passes tests)) (Z.of_nat (length tests))
        (Z.of_nat (count (λ t, (lacks_feature t).1 || (lacks_feature t).2) tests)).
Proof.
  intros s. pose proof (get_info_result [s]) as H. destruct (get_info no_data [s]) as [d|e].
  - exists d. split; [done|]. destruct H as (Hpair&_&_&Hpub&Hsub).
    assert (∀ o, case_data o <$> js_cases s
      = (λ t, CaseData o (test_name_of (f_name t)) (status_of_codes t)) <$> tests) as Hcases.
    { intros o. unfold s. rewrite read_cases, <- list_fmap_compose. apply list_fmap_ext.
      intros i t Ht. apply ran_case_data. rewrite Forall_lookup in Hran. by eapply Hran. }
    rewrite Hpub, Hsub, Hpair. unfold published, subscribed. cbn [mbind list_bind].
    rewrite !decide_True, !app_nil_r, !Hcases by done. split; [done|]. split; [done|].
    rewrite filter_cons, decide_True by done. cbn [filter list_filter fmap list_fmap total foldr].
    rewrite add_zero_r. unfold data_of, suite_data, s. rewrite ran_unsupported by done.
    pose proof (ran_passed tests Hran) as Hcount. unfold suite_read. cbn [js_tests js_failures js_skipped js_errors].
    assert (length (results tests) = length tests) as -> by (unfold results; by rewrite length_fmap).
    f_equal. lia.
  - destruct H as (_&s'&c&->%list_elem_of_singleton&Hc&Hnone). exfalso.
    unfold s in Hc. rewrite read_cases in Hc. apply list_elem_of_fmap in Hc as (t&->&_).
    revert Hnone. unfold read_back, case_read. by destruct (f_result t).
Qed.
(** A test that passes and one that the subscriber does not support. *)
Lemma spreadsheet_of_run_witness :
  ∃ d msg,
    let tests := [Finished "rtps_test_suite_1_Test_A_0" ["-P -t x"; "-S -t x"] [OK; OK] [OK; OK] ["sent"; "seen"] Passed;
                  Finished "rtps_test_suite_1_Test_B_1" ["-P -t y"; "-S -t y"] [OK; OK] [OK; SUB_UNSUPPORTED_FEATURE]
                    ["sent"; "not supported"] (Skipped msg)] in
    get_info no_data [suite_read "connext_dds-6.1.1---opendds-3.23.1" (results tests)] = Ok d
    ∧ value ("Connext DDS 6.1.1", "OpenDDS 3.23.1") (product_summary_dict d) = Aggregated 1 2 1.
Proof.
  destruct (run_test "rtps_test_suite_1_Test_B_1" ["-P -t y"; "-S -t y"] [OK; OK] false
    (Code <$> [OK; SUB_UNSUPPORTED_FEATURE]) ["sent"; "not supported"]) as [[lines r]|e] eqn:Hrun;
    [|vm_compute in Hrun; discriminate].
  assert (∃ msg, r = Skipped msg) as [msg ->] by (vm_compute in Hrun; injection Hrun as _ <-; by eexists).
  destruct (spreadsheet_of_run "connext_dds-6.1.1---opendds-3.23.1"
    [Finished "rtps_test_suite_1_Test_A_0" ["-P -t x"; "-S -t x"] [OK; OK] [OK; OK] ["sent"; "seen"] Passed;
     Finished "rtps_test_suite_1_Test_B_1" ["-P -t y"; "-S -t y"] [OK; OK] [OK; SUB_UNSUPPORTED_FEATURE]
       ["sent"; "not supported"] (Skipped msg)]) as (d&Hd&_&_&Hv).
  - assert (∀ o, o ∈ ["sent"; "seen"; "not supported"] → silent o) as Hs.
    { intros o. rewrite !elem_of_cons, elem_of_nil. intros [->|[->|[->|[]]]]; (split; [done|]); by repeat constructor. }
    constructor; [|constructor; [|constructor]]; unfold ran; cbn [f_name f_parameters f_expected f_codes f_outputs f_result].
    + split_and!; try done; [repeat constructor; apply Hs; set_solver|split; set_solver|]. exists false.
      eexists. vm_compute. reflexivity.
    + split_and!; try done; [repeat constructor; apply Hs; set_solver|split; set_solver|]. exists false, lines. exact Hrun.
  - exists d, msg. cbv zeta. split; [exact Hd|].
    assert (product_names "connext_dds-6.1.1---opendds-3.23.1" = ("Connext DDS 6.1.1", "OpenDDS 3.23.1")) as Hn
      by (vm_compute; reflexivity).
    unfold suite_pub, suite_sub, suite_read in Hv. cbn [js_name] in Hv. rewrite Hn in Hv. exact Hv.
Defined.
