(* ===== verification/Pipeline.v ===== *)
(** * From the applications to the spreadsheet (interoperability_report.py, generate_xlsx_report.py)

    The two programs one after the other: the report of a whole run of the tests is the
    input of the spreadsheet. *)

From S2P Require Import Prelude PyStr PyDict Utilities CheckFunctions RunTest ReportLoader Suite TestSuite Driver TestRun XlsxData XlsxStatus.
From stdpp Require Import options.
Local Open Scope string_scope.

(** The file of a report, as junitparser reads it. *)
Definition report_read (rep : report) : list junit_suite := (λ s, suite_read s.1 s.2) <$> rep.

(** No test of the suite expects an unsupported feature. *)
Lemma suite_supports : Forall (λ p : string * test_case, supports (tc_expected_codes p.2)) rtps_test_suite_1.
Proof.
  assert (Forall (λ p : string * test_case,
            Forall (λ c, c ∉ [PUB_UNSUPPORTED_FEATURE; SUB_UNSUPPORTED_FEATURE]) (tc_expected_codes p.2))
            rtps_test_suite_1) as H by (apply (bool_decide_unpack _); vm_compute; exact I).
  eapply Forall_impl; [exact H|]. intros p Hp. rewrite Forall_forall in Hp.
  split; intros Hin%Hp; apply Hin; set_solver.
Qed.
Lemma calls_support o c : c ∈ calls o test_suite_members → supports (c_expected c).
Proof.
  intros (s&Hc&Hs)%list_elem_of_bind. unfold calls_of in Hc.
  apply list_elem_of_fmap in Hc as (p&->&[_ Hp]%list_elem_of_filter). cbn.
  apply list_elem_of_singleton in Hs as ->. pose proof suite_supports as H. rewrite Forall_forall in H. by apply H.
Qed.

Section pipeline.
Context (applications_of : string → list application) (outputs_of : string → list string).

(** A test of the run, with the codes that its applications determine. *)
Definition test_of (c : call) (t : finished) : Prop :=
  f_name t = c_name c ∧ f_expected t = c_expected c ∧
  length (f_codes t) = length (c_apps c) ∧
  ∀ i p a, c_apps c !! i = Some p → applications_of (c_name c) !! i = Some a →
    ∃ code, f_codes t !! i = Some code ∧ code_of (c_check c) p a code.

Lemma finished_of c p :
  (p.1 = c_name c ∧ ∃ codes, call_run applications_of outputs_of c codes p.2) →
  length (c_expected c) = length (c_apps c) → length (outputs_of (c_name c)) = length (c_apps c) →
  Forall silent (outputs_of (c_name c)) → supports (c_expected c) →
  ∃ t, ran t ∧ test_of c t ∧ p = (f_name t, f_result t).
Proof.
  destruct p as [n r]. cbn. intros (->&codes&Hl&Hcodes&Hrun) He Ho Hs Hsup.
  exists (Finished (c_name c) (c_apps c) (c_expected c) codes (outputs_of (c_name c)) r).
  split; [|split; [by split_and!|done]]. by split_and!.
Qed.
Lemma all_finished cs cases :
  Forall2 (λ c p, p.1 = c_name c ∧ ∃ codes, call_run applications_of outputs_of c codes p.2) cs cases →
  Forall (λ c, length (c_expected c) = length (c_apps c) ∧ length (outputs_of (c_name c)) = length (c_apps c) ∧
               Forall silent (outputs_of (c_name c)) ∧ supports (c_expected c)) cs →
  ∃ tests, Forall ran tests ∧ Forall2 test_of cs tests ∧ cases = results tests.
Proof.
  induction 1 as [|c p cs cases Hp _ IH]; intros Hcs; [by exists []|].
  apply Forall_cons in Hcs as [(He&Ho&Hs&Hsup) Hcs]. destruct (IH Hcs) as (tests&Hran&Hof&->).
  destruct (finished_of c p Hp He Ho Hs Hsup) as (t&Ht&Hct&->).
  exists (t :: tests). split; [by constructor|]. split; [by constructor|done].
Qed.
End pipeline.

(** C3: the spreadsheet of a whole run.  When pexpect answers every question of every
    selected test of the repository's suite, the program writes a new report; the
    spreadsheet program reads it without an exception; and there the tables of the two
    products have the selected tests in order, each with the status of the codes that the
    answers of its applications determine -- passed when they are the expected ones, else
    unsupported when such a code is among them, else failed --, and the sums of the pair
    are the numbers of those tests.  (The outputs have no colours and none of the two words
    that the spreadsheet looks for.) *)
Theorem suite_run_in_spreadsheet applications_of outputs_of o verbosity output_name date_time files pub sub
    (Hp : product_name (publisher o) = Ok pub) (Hs : product_name (subscriber o) = Ok sub)
    (Hnames : names_known o rtps_test_suite_1)
    (Hnew : xml_before output_name files = [])
    (Hruns : Forall (call_runs applications_of outputs_of) (calls o test_suite_members))
    (Hsilent : Forall (λ c, Forall silent (outputs_of (c_name c))) (calls o test_suite_members)) :
  let '(as_pub, as_sub) := product_names (pub +:+ "---" +:+ sub) in
  ∃ files' rep d tests,
    main (processes applications_of outputs_of) o verbosity output_name date_time test_suite_members files = Ok files'
    ∧ dget (filename_report output_name date_time pub sub) files' = Some rep
    ∧ get_info no_data (report_read rep) = Ok d
    ∧ Forall2 (test_of applications_of) (calls o test_suite_members) tests
    ∧ results_for as_pub (publisher_product_dict d)
      = (λ t, CaseData as_sub (test_name_of (f_name t)) (status_of_codes t)) <$> tests
    ∧ results_for as_sub (subscriber_product_dict d)
      = (λ t, CaseData as_pub (test_name_of (f_name t)) (status_of_codes t)) <$> tests
    ∧ value (as_pub, as_sub) (product_summary_dict d)
      = Aggregated (Z.of_nat (count passes tests)) (Z.of_nat (length (calls o test_suite_members)))
          (Z.of_nat (count (λ t, (lacks_feature t).1 || (lacks_feature t).2) tests)).
Proof.
  destruct (suite_runs applications_of outputs_of o verbosity output_name date_time files pub sub Hp Hs Hnames Hruns)
    as (cases&Hmain&Hcases&Hlen).
  destruct (all_finished applications_of outputs_of _ _ Hcases) as (tests&Hran&Hof&->).
  { rewrite Forall_forall in *. intros c Hc. destruct (Hruns c Hc) as [_ Ho].
    split_and!; [by apply Hlen|done|by apply Hsilent|by apply (calls_support o)]. }
  rewrite Hnew in Hmain.
  destruct (spreadsheet_of_run (pub +:+ "---" +:+ sub) tests Hran) as (d&Hd&H1&H2&H3).
  unfold suite_pub, suite_sub, suite_read in H1, H2, H3. cbn [js_name] in H1, H2, H3.
  destruct (product_names (pub +:+ "---" +:+ sub)) as [as_pub as_sub]. cbn [fst snd] in H1, H2, H3.
  eexists _, _, d, tests. split; [exact Hmain|]. split; [apply dget_dset_eq|]. split; [exact Hd|].
  split; [exact Hof|]. split; [exact H1|]. split; [exact H2|].
  by rewrite (Forall2_length _ _ _ Hof).
Qed.
(** The test [Test_Domain_0]. *)
Lemma suite_run_in_spreadsheet_witness :
  ∃ files' rep d n m,
    main (processes (λ _, [demo_publisher; demo_subscriber "Square BLUE 001 001 [7]"]) (λ _, ["sent"; "seen"]))
      demo_run false (Some "r.xml") "" test_suite_members [] = Ok files'
    ∧ dget "r.xml" files' = Some rep ∧ get_info no_data (report_read rep) = Ok d
    ∧ value ("a-1", "b-2") (product_summary_dict d) = Aggregated n 1 m.
Proof.
  assert (calls demo_run test_suite_members
          = [Call "rtps_test_suite_1_Test_Domain_0" ["-P -t Square -d 0 -x 2"; "-S -t Square -d 0 -b -x 2"]
               [OK; OK] basic_check]) as Hcalls by (vm_compute; reflexivity).
  assert (names_known demo_run rtps_test_suite_1) as Hn.
  { split; [|done]. intros l i [= <-] ->%list_elem_of_singleton. apply (bool_decide_unpack _). vm_compute. exact I. }
  pose proof (suite_run_in_spreadsheet (λ _, [demo_publisher; demo_subscriber "Square BLUE 001 001 [7]"])
                (λ _, ["sent"; "seen"]) demo_run false (Some "r.xml") "" [] "a-1" "b-2" eq_refl eq_refl Hn eq_refl) as H.
  rewrite Hcalls in H. assert (product_names ("a-1" +:+ "---" +:+ "b-2") = ("a-1", "b-2")) as Hpn by by vm_compute.
  rewrite Hpn in H. destruct H as (files'&rep&d&tests&Hm&Hf&Hd&_&_&_&Hv).
  - constructor; [|constructor]. split; [|done]. by apply demo_answers; vm_compute.
  - constructor; [|constructor]. repeat constructor.
  - exists files', rep, d. do 2 eexists. split; [exact Hm|]. split; [exact Hf|]. split; [exact Hd|exact Hv].
Defined.
