(* ===== verification/XlsxTables.v ===== *)
(** * Spreadsheet: the worksheets (generate_xlsx_report.py, XlsxReport)

    A worksheet of xlsxwriter is the list of what was asked of it, in order: the value of
    a cell is what was written last.  Rows and columns are counted from 0.  The text of a
    cell comes with the name of its format.  The ratio of two counts is compared exactly, as Python does below 2^53. *)

From S2P Require Import Prelude PyStr PyDict Utilities XlsxData.
From stdpp Require Import options.
Local Open Scope string_scope.

(** ** Worksheets *)

Definition cell_value : Type := string * string.
Inductive write :=
| Write (row column : nat) (v : cell_value)
| MergeRange (first_row first_column last_row last_column : nat) (v : cell_value)
| WriteUrl (row column : nat) (url text : string)
| InsertImage (row column : nat) (filename : string) (options : list (string * string))
| SetZoom (percent : nat)
| SetColumn (first last width : nat)
| Autofit.
Definition worksheet : Type := list write.

(** A merged range shows its value in its first cell. *)
Definition written (w : write) : option (nat * nat * cell_value) :=
  match w with
  | Write r c v | MergeRange r c _ _ v => Some (r, c, v)
  | WriteUrl r c _ text => Some (r, c, (text, "default"))
  | _ => None
  end.
Definition cell_at (ws : worksheet) (r c : nat) : option cell_value :=
  last (snd <$> filter (λ w : nat * nat * cell_value, w.1 = (r, c)) (omap written ws)).

Lemma cell_at_app ws w r c :
  cell_at (ws ++ [w])%list r c
  = match written w with
    | Some x => if decide (x.1 = (r, c)) then Some x.2 else cell_at ws r c
    | None => cell_at ws r c
    end.
Proof.
  unfold cell_at. rewrite omap_app, filter_app. cbn [omap list_omap].
  destruct (written w) as [x|]; [|by rewrite app_nil_r]. rewrite filter_cons. case_decide.
  - rewrite fmap_app. apply last_snoc.
  - by rewrite app_nil_r.
Qed.
Lemma cell_at_layout ws w r c : written w = None → cell_at (ws ++ [w])%list r c = cell_at ws r c.
Proof. intros H. by rewrite cell_at_app, H. Qed.

Lemma cell_at_write ws r' c' v r c :
  cell_at (ws ++ [Write r' c' v])%list r c = if decide (r = r' ∧ c = c') then Some v else cell_at ws r c.
Proof.
  rewrite cell_at_app. cbn [written fst snd]. apply decide_ext.
  naive_solver.
Qed.

(** ** Formats *)

(** [index / num_elements < a / b], for a positive [b]. *)
Definition ratio_lt (index num_elements a b : Z) : bool :=
  if (0 <? num_elements)%Z then (index * b <? a * num_elements)%Z
  else (a * num_elements <? index * b)%Z.
Definition get_format_color (index num_elements : Z) : string :=
  if (num_elements =? 0)%Z then "result_red"
  else if ratio_lt index num_elements 1 4 then "result_red"
  else if ratio_lt index num_elements 1 2 then "result_orange"
  else if ratio_lt index num_elements 3 4 then "result_yellow"
  else if ratio_lt index num_elements 1 1 then "result_lime"
  else "result_green".
Definition get_format_color_test_status (status : TestStatus) : string :=
  match status with PASSED => "result_green" | FAILED => "result_red" | _ => "result_yellow" end.
Definition status_text (status : TestStatus) : string :=
  match status with
  | PASSED => "OK"
  | FAILED => "ERROR"
  | PUB_UNSUPPORTED => "PUB UNSUPPORTED"
  | SUB_UNSUPPORTED => "SUB UNSUPPORTED"
  | PUB_SUB_UNSUPPORTED => "PUB/SUB UNSUPPORTED"
  end.
(** [set_worksheet_defaults], of a new worksheet. *)
Definition new_worksheet : worksheet := [SetZoom 130].
Definition bold (text : string) : cell_value := (text, "bold_w_border").

(** ** Tables *)

(** The row or column of a key: the one it has, or the next one. *)
Definition slot (k : string) (current : nat) (d : dict string nat) : nat * nat * dict string nat * bool :=
  match dget k d with
  | Some n => (n, current, d, false)
  | None => (S current, S current, dset k (S current) d, true)
  end.

Record table_state := Table {
  t_ws : worksheet;
  current_row : nat;
  current_column : nat;
  row_dict : dict string nat;
  column_dict : dict string nat
}.

(** The iteration of [add_product_table] for a test result. *)
Definition add_element (starting_row starting_column : nat) (print_test_name : bool)
    (t : table_state) (element : JunitTestCaseAggregatedData) : table_state :=
  let '(process_column, column, columns, new_column) :=
    slot (cd_product element) (current_column t) (column_dict t) in
  let ws := if new_column then (t_ws t ++ [Write starting_row column (bold (cd_product element))])%list
            else t_ws t in
  let '(process_row, row, rows, new_row) := slot (cd_test_name element) (current_row t) (row_dict t) in
  let ws := if new_row && print_test_name
            then (ws ++ [Write row starting_column (bold (cd_test_name element))])%list else ws in
  Table (ws ++ [Write process_row process_column
                  (status_text (cd_status element), get_format_color_test_status (cd_status element))])%list
    row column rows columns.
Definition add_product_table (ws : worksheet) (starting_row starting_column : nat)
    (value : list JunitTestCaseAggregatedData) (print_test_name : bool) : worksheet * (nat * nat) :=
  let ws := if print_test_name then (ws ++ [Write starting_row starting_column (bold "Test")])%list else ws in
  let t := foldl (add_element starting_row starting_column print_test_name)
             (Table ws starting_row starting_column [] []) value in
  (t_ws t, (current_row t, current_column t)).

(** The three numbers of a cell. *)
Definition result_text (a : JunitAggregatedData) : string :=
  str_of_Z (get_passed_tests a) +:+ " / " +:+ str_of_Z (get_supported_tests a) +:+ " / "
  +:+ str_of_Z (get_total_tests a).
Definition result_cell (a : JunitAggregatedData) : cell_value :=
  (result_text a, get_format_color (get_passed_tests a) (get_total_tests a)).

(** The iteration of the second loop of [add_data_summary_worksheet]. *)
Definition add_pair (subscriber_row publisher_column : nat) (t : table_state)
    (item : string * string * JunitAggregatedData) : table_state :=
  let '(publisher_name, subscriber_name, product_value) := item in
  let '(process_row, row, rows, new_row) := slot publisher_name (current_row t) (row_dict t) in
  let ws := if new_row then (t_ws t ++ [Write row publisher_column (bold publisher_name)])%list
            else t_ws t in
  let '(process_column, column, columns, new_column) :=
    slot subscriber_name (current_column t) (column_dict t) in
  let ws := if new_column then (ws ++ [Write subscriber_row column (bold subscriber_name)])%list else ws in
  Table (ws ++ [Write process_row process_column (result_cell product_value)])%list row column rows columns.

(** The iteration of the first loop: the company, the product and its own results. *)
Definition own_results (d : JunitData) (product_name : string) : list JunitAggregatedData :=
  snd <$> filter (λ i : string * string * JunitAggregatedData, product_name = i.1.1 ∧ product_name = i.1.2)
            (product_summary_dict d).
Definition add_product_row (d : JunitData) (column : nat) (s : worksheet * nat) (product_name : string) :
    result (worksheet * nat) :=
  let '(ws, row) := s in
  company ← get_company_name product_name;
  Ok ((ws ++ [Write row column (bold company); Write row (column + 1) (bold product_name)]
          ++ ((λ a, Write row (column + 2) (result_cell a)) <$> own_results d product_name))%list, S row).
Definition add_data_summary_worksheet (d : JunitData) (ws : worksheet) (starting_row starting_column : nat) :
    result worksheet :=
  let ws := (ws ++ [Write starting_row starting_column (bold "Company");
                    Write starting_row (starting_column + 1) (bold "Product");
                    Write starting_row (starting_column + 2) (bold "Single-Product Tests")])%list in
  s ← mfold (add_product_row d starting_column) (ws, S starting_row) (keys (summary_dict d));
  let '(ws, row) := s in
  let row := row + 2 in
  let ws := (ws ++ [Write row starting_column (bold "Publisher (row)/Subscriber (column)")])%list in
  Ok (t_ws (foldl (add_pair row 1) (Table ws row starting_column [] []) (product_summary_dict d))).

(** ** Worksheets of the products *)

(** [add_static_data_test]: the titles over the two tables; a name that was not assigned
    raises. *)
Definition title_at (row first last : nat) (text : string) : write :=
  if decide (first < last) then MergeRange row first row last (text, "product_title")
  else Write row first (text, "product_title").
Definition add_static_data_test (ws : worksheet) (product_name : string)
    (pub_product_count sub_product_count : nat) : result (worksheet * (nat * nat)) :=
  let last_column_publisher := if decide (0 < sub_product_count) then Some (1 + sub_product_count) else None in
  let ws := match last_column_publisher with
            | Some last => (ws ++ [title_at 0 2 last ("Publisher: " +:+ product_name);
                                   title_at 1 2 last "Subscriber (next row): "])%list
            | None => ws
            end in
  s ← (if decide (0 < pub_product_count) then
         last ← or_raise NameError last_column_publisher;
         let last_column_subscriber := last + 1 + pub_product_count in
         Ok (ws ++ [title_at 0 (last + 2) last_column_subscriber ("Subscriber: " +:+ product_name);
                    title_at 1 (last + 2) last_column_subscriber "Publisher (next row): "],
             Some last_column_subscriber)%list
       else Ok (ws, None));
  last_column_subscriber ← or_raise NameError s.2;
  Ok (s.1, (1, last_column_subscriber)).

(** The worksheet of a product, with its name cut to 31 characters. *)
Definition add_product_worksheet (d : JunitData) (name : string) : result (string * worksheet) :=
  published ← dgetitem name (publisher_product_dict d);
  let '(ws, current_cell) := add_product_table new_worksheet 2 1 published true in
  let ws := (ws ++ [SetColumn (current_cell.2 + 1) (current_cell.2 + 1) 4])%list in
  ws ← (if din name (subscriber_product_dict d) then
          subscribed ← dgetitem name (subscriber_product_dict d);
          Ok (add_product_table ws 2 (current_cell.2 + 1) subscribed false).1
        else Ok ws);
  s ← add_static_data_test (ws ++ [Autofit])%list name (length (publisher_product_dict d)) (length (subscriber_product_dict d));
  Ok (str_take 31 name, s.1).
Definition add_data_test_worksheet (d : JunitData) : result (list (string * worksheet)) :=
  mapM (add_product_worksheet d) (keys (publisher_product_dict d)).

(** ** A table as a matrix *)

(** The different elements of a list, in the order in which they appear first. *)
Definition firsts (l : list string) : list string :=
  foldl (λ acc k, if decide (k ∈ acc) then acc else acc ++ [k])%list [] l.
Lemma firsts_snoc l k :
  firsts (l ++ [k])%list = if decide (k ∈ firsts l) then firsts l else (firsts l ++ [k])%list.
Proof. unfold firsts. by rewrite foldl_app. Qed.
Lemma firsts_elem l k : k ∈ firsts l ↔ k ∈ l.
Proof.
  induction l as [|x l IH] using rev_ind; [done|]. rewrite firsts_snoc.
  case_decide; rewrite ?elem_of_app, IH in *; set_solver.
Qed.
Lemma firsts_NoDup l : NoDup (firsts l).
Proof.
  induction l as [|x l IH] using rev_ind; [constructor|]. rewrite firsts_snoc.
  case_decide; [done|]. apply NoDup_app. split; [done|]. split; [set_solver|apply NoDup_singleton].
Qed.
Lemma firsts_id l : NoDup l → firsts l = l.
Proof.
  induction l as [|x l IH] using rev_ind; [done|]. intros (Hl&Hx&_)%NoDup_app.
  rewrite firsts_snoc, IH by done. rewrite decide_False; [done|]. intros H. apply (Hx x H). left.
Qed.

(** The keys of a table and where they are: the i-th one i + 1 after the start. *)
Definition at_pos (start : nat) (ks : list string) (x : nat) : option string :=
  if decide (start < x) then ks !! (x - S start) else None.
Lemma at_pos_Some start ks x k : at_pos start ks x = Some k ↔ ∃ i, ks !! i = Some k ∧ x = start + S i.
Proof.
  unfold at_pos. case_decide.
  - split; [intros E; exists (x - S start); split; [done|lia]|]. intros (i&E&->).
    by replace (start + S i - S start) with i by lia.
  - split; [done|]. intros (i&_&->). lia.
Qed.
Lemma at_pos_gt start ks x k : at_pos start ks x = Some k → start < x.
Proof. unfold at_pos. by case_decide. Qed.
Lemma at_pos_elem start ks x k : at_pos start ks x = Some k → k ∈ ks.
Proof. intros (i&E&_)%at_pos_Some. by eapply list_elem_of_lookup_2. Qed.

Definition slots (start : nat) (d : dict string nat) (ks : list string) (current : nat) : Prop :=
  keys d = ks ∧ NoDup ks ∧ current = start + length ks
  ∧ ∀ i k, ks !! i = Some k → dget k d = Some (start + S i).

(** Where the next key goes. *)
Lemma slot_spec start d ks current k n current' d' new :
  slots start d ks current → slot k current d = (n, current', d', new) →
  let ks' := if decide (k ∈ ks) then ks else (ks ++ [k])%list in
  slots start d' ks' current'
  ∧ (∀ x, at_pos start ks' x = Some k ↔ x = n)
  ∧ (new = true → n = current')
  ∧ (∀ x, (new && bool_decide (x = current') = false ∧ at_pos start ks' x = at_pos start ks x)
          ∨ (new = true ∧ x = current' ∧ at_pos start ks' x = Some k
             ∧ at_pos start ks x = None ∧ k ∉ ks)).
Proof.
  intros (Hk&Hnd&->&Hpos). unfold slot. destruct (dget k d) as [m|] eqn:E; intros [= <- <- <- <-]; cbv zeta.
  - assert (k ∈ ks) as Hin by (rewrite <- Hk, <- dget_keys; by eexists).
    rewrite decide_True by done. split; [done|]. split; [|split; [done|by left]].
    intros x. rewrite at_pos_Some. split.
    + intros (i&Hi&->). apply Hpos in Hi. congruence.
    + intros ->. apply list_elem_of_lookup in Hin as (i&Hi). exists i. split; [done|].
      apply Hpos in Hi. congruence.
  - apply dget_None in E. rewrite Hk in E. rewrite decide_False by done.
    assert (NoDup (ks ++ [k])) as Hnd'.
    { apply NoDup_app. split; [done|]. split; [set_solver|apply NoDup_singleton]. }
    assert (∀ x, at_pos start (ks ++ [k])%list x = Some k ↔ x = S (start + length ks)) as Hk'.
    { intros x. rewrite at_pos_Some. split.
      - intros (i&Hi&->). assert (i = length ks) as ->; [|lia].
        eapply NoDup_lookup; [exact Hnd'|exact Hi|]. by rewrite lookup_app_r, Nat.sub_diag by lia.
      - intros ->. exists (length ks). split; [|lia]. by rewrite lookup_app_r, Nat.sub_diag by lia. }
    split; [split; [|split; [done|split]]|split; [done|split; [done|]]].
    + by rewrite keys_dset, decide_False, Hk by (by rewrite Hk).
    + rewrite length_app. cbn. lia.
    + intros i k'. rewrite lookup_app_Some. intros [Hi|[Hi Hi']].
      * rewrite dget_dset_ne; [by apply Hpos|]. intros ->. apply E. by eapply list_elem_of_lookup_2.
      * destruct (i - length ks) as [|j] eqn:Ej; [|done]. injection Hi' as <-.
        rewrite dget_dset_eq. f_equal. lia.
    + intros x. destruct (decide (x = S (start + length ks))) as [->|Hx].
      * right. split; [done|]. split; [done|]. split; [by apply Hk'|]. split; [|done].
        unfold at_pos. rewrite decide_True by lia. apply lookup_ge_None. lia.
      * left. split; [by rewrite bool_decide_eq_false_2|]. unfold at_pos. case_decide; [|done].
        destruct (decide (x - S start < length ks)) as [Hl|Hl]; [by rewrite lookup_app_l|].
        rewrite lookup_app_r by lia. destruct (x - S start - length ks) as [|j] eqn:Ej; [lia|].
        cbn. symmetry. apply lookup_ge_None. lia.
Qed.
Lemma slots_nil start : slots start [] [] start.
Proof. split; [done|]. split; [constructor|]. split; [cbn; lia|done]. Qed.

Section matrix.
Context {E : Type} (rk ck : E → string) (v : E → cell_value).
Context (hr hc : nat) (labels : bool) (old : nat → nat → option cell_value).
Implicit Types (l : list E) (e : E) (t : table_state).

(** The matrix: the rows and columns are the keys in the order of their first elements, a
    cell shows the last element with its keys, and all else is what was there before. *)
Definition last_cell l (a b : string) : option cell_value :=
  last (v <$> filter (λ e, rk e = a ∧ ck e = b) l).
Definition table_cell l (r c : nat) : option cell_value :=
  match at_pos hr (firsts (rk <$> l)) r, at_pos hc (firsts (ck <$> l)) c with
  | Some a, Some b => match last_cell l a b with Some x => Some x | None => old r c end
  | Some a, None => if bool_decide (c = hc) && labels then Some (bold a) else old r c
  | None, Some b => if bool_decide (r = hr) then Some (bold b) else old r c
  | None, None => old r c
  end.

Definition filled l t : Prop :=
  slots hr (row_dict t) (firsts (rk <$> l)) (current_row t)
  ∧ slots hc (column_dict t) (firsts (ck <$> l)) (current_column t)
  ∧ ∀ r c, cell_at (t_ws t) r c = table_cell l r c.

(** What the iteration for an element does, in whatever order it writes. *)
Definition step_of t e t' : Prop :=
  let '(pr, row, rows, nr) := slot (rk e) (current_row t) (row_dict t) in
  let '(pc, column, columns, nc) := slot (ck e) (current_column t) (column_dict t) in
  current_row t' = row ∧ row_dict t' = rows ∧ current_column t' = column ∧ column_dict t' = columns
  ∧ ∀ r c, cell_at (t_ws t') r c
      = if decide (r = pr ∧ c = pc) then Some (v e)
        else if nc && bool_decide (c = column) && bool_decide (r = hr) then Some (bold (ck e))
        else if nr && bool_decide (r = row) && (bool_decide (c = hc) && labels) then Some (bold (rk e))
        else cell_at (t_ws t) r c.

Lemma last_cell_snoc l e a b :
  last_cell (l ++ [e])%list a b = if decide (rk e = a ∧ ck e = b) then Some (v e) else last_cell l a b.
Proof.
  unfold last_cell. rewrite filter_app, filter_cons. case_decide.
  - rewrite fmap_app. apply last_snoc.
  - by rewrite app_nil_r.
Qed.
Lemma last_cell_None l a b :
  a ∉ firsts (rk <$> l) ∨ b ∉ firsts (ck <$> l) → last_cell l a b = None.
Proof.
  rewrite !firsts_elem, !list_elem_of_fmap. intros Hab. unfold last_cell.
  destruct (filter (λ e, rk e = a ∧ ck e = b) l) as [|e k] eqn:Ef; [done|]. exfalso.
  assert (e ∈ filter (λ e, rk e = a ∧ ck e = b) l) as [[<- <-] He]%list_elem_of_filter
    by (rewrite Ef; left).
  destruct Hab as [H|H]; apply H; by exists e.
Qed.

(** The cells after one more element: [T], [P] are the rows and columns so far, [T'], [P']
    those after it. *)
Lemma table_cell_step l e r c row column pr pc (nr nc : bool) :
  let T := firsts (rk <$> l) in let P := firsts (ck <$> l) in
  let T' := firsts (rk <$> (l ++ [e])%list) in let P' := firsts (ck <$> (l ++ [e])%list) in
  (at_pos hr T' r = Some (rk e) ↔ r = pr) → (at_pos hc P' c = Some (ck e) ↔ c = pc) →
  (nr && bool_decide (r = row) = false ∧ at_pos hr T' r = at_pos hr T r
   ∨ nr = true ∧ r = row ∧ at_pos hr T' r = Some (rk e) ∧ at_pos hr T r = None ∧ rk e ∉ T) →
  (nc && bool_decide (c = column) = false ∧ at_pos hc P' c = at_pos hc P c
   ∨ nc = true ∧ c = column ∧ at_pos hc P' c = Some (ck e) ∧ at_pos hc P c = None ∧ ck e ∉ P) →
  (if decide (r = pr ∧ c = pc) then Some (v e)
   else if nc && bool_decide (c = column) && bool_decide (r = hr) then Some (bold (ck e))
   else if nr && bool_decide (r = row) && (bool_decide (c = hc) && labels) then Some (bold (rk e))
   else table_cell l r c) = table_cell (l ++ [e])%list r c.
Proof.
  cbv zeta. intros Hr Hc Hrow Hcol. unfold table_cell.
  pose proof (at_pos_gt hr (firsts (rk <$> (l ++ [e])%list)) r) as Hgr.
  pose proof (at_pos_gt hc (firsts (ck <$> (l ++ [e])%list)) c) as Hgc.
  assert (∀ a b, at_pos hr (firsts (rk <$> (l ++ [e])%list)) r = Some a →
            at_pos hc (firsts (ck <$> (l ++ [e])%list)) c = Some b →
            (r = pr ∧ c = pc) ↔ (rk e = a ∧ ck e = b)) as Hboth by (intros a b Ea Eb; rewrite <- Hr, <- Hc; naive_solver).
  assert ((at_pos hr (firsts (rk <$> (l ++ [e])%list)) r = None ∨ at_pos hc (firsts (ck <$> (l ++ [e])%list)) c = None) →
            ¬ (r = pr ∧ c = pc)) as Hnone by (rewrite <- Hr, <- Hc; naive_solver).
  clear Hr Hc. revert Hgr Hgc Hboth Hnone Hrow Hcol.
  generalize (at_pos hr (firsts (rk <$> (l ++ [e])%list)) r) as a'.
  generalize (at_pos hc (firsts (ck <$> (l ++ [e])%list)) c) as b'.
  intros b' a' Hgr Hgc Hboth Hnone Hrow Hcol.
  destruct Hrow as [[Er ->]|(->&->&->&->&Ha)], Hcol as [[Ec ->]|(->&->&->&->&Hb)];
    rewrite ?Er, ?Ec, ?(bool_decide_eq_true_2 (row = row)), ?(bool_decide_eq_true_2 (column = column)) by done;
    cbn [andb].
  - destruct (at_pos hr (firsts (rk <$> l)) r) as [a|], (at_pos hc (firsts (ck <$> l)) c) as [b|];
      try (rewrite decide_False by auto; done).
    rewrite last_cell_snoc. specialize (Hboth a b eq_refl eq_refl). repeat case_decide; tauto.
  - destruct (at_pos hr (firsts (rk <$> l)) r) as [a|].
    + rewrite last_cell_snoc, last_cell_None by auto. specialize (Hboth a (ck e) eq_refl eq_refl).
      specialize (Hgr a eq_refl). specialize (Hgc (ck e) eq_refl).
      rewrite !bool_decide_eq_false_2 by lia. repeat case_decide; tauto.
    + rewrite decide_False by auto. done.
  - destruct (at_pos hc (firsts (ck <$> l)) c) as [b|].
    + rewrite last_cell_snoc, last_cell_None by auto. specialize (Hboth (rk e) b eq_refl eq_refl).
      specialize (Hgr (rk e) eq_refl). specialize (Hgc b eq_refl).
      rewrite !bool_decide_eq_false_2 by lia. repeat case_decide; tauto.
    + rewrite decide_False by auto. done.
  - rewrite last_cell_snoc. specialize (Hboth (rk e) (ck e) eq_refl eq_refl). repeat case_decide; tauto.
Qed.

Lemma filled_step l e t t' : filled l t → step_of t e t' → filled (l ++ [e])%list t'.
Proof.
  intros (Hrows&Hcols&Hcells). unfold step_of.
  destruct (slot (rk e) (current_row t) (row_dict t)) as [[[pr row] rows] nr] eqn:Er.
  destruct (slot (ck e) (current_column t) (column_dict t)) as [[[pc column] columns] nc] eqn:Ec.
  unfold filled. intros (->&->&->&->&Hws).
  apply (slot_spec hr _ _ _ _ _ _ _ _ Hrows) in Er as (Hrows'&Hpr&_&Hrow).
  apply (slot_spec hc _ _ _ _ _ _ _ _ Hcols) in Ec as (Hcols'&Hpc&_&Hcol).
  assert (∀ f : E → string, firsts (f <$> (l ++ [e])%list)
    = if decide (f e ∈ firsts (f <$> l)) then firsts (f <$> l) else (firsts (f <$> l) ++ [f e])%list) as Hf.
  { intros f. by rewrite fmap_app, <- firsts_snoc. }
  rewrite <- Hf in *. split; [done|]. split; [done|]. intros r c.
  rewrite Hws, Hcells. by apply table_cell_step.
Qed.
Lemma filled_nil ws :
  (∀ r c, cell_at ws r c = old r c) → filled [] (Table ws hr hc [] []).
Proof.
  intros Hws. split; [apply slots_nil|]. split; [apply slots_nil|]. intros r c.
  cbn [t_ws]. rewrite Hws. unfold table_cell, at_pos. cbn.
  by repeat case_decide.
Qed.
(** The loop over all elements fills the table. *)
Lemma filled_foldl (f : table_state → E → table_state) l ws :
  (∀ t e, (hr ≤ current_row t)%nat → step_of t e (f t e)) → (∀ r c, cell_at ws r c = old r c) →
  filled l (foldl f (Table ws hr hc [] []) l).
Proof.
  intros Hf Hws. induction l as [|e l IH] using rev_ind; [by apply filled_nil|].
  rewrite foldl_app. cbn [foldl]. eapply filled_step; [exact IH|apply Hf].
  destruct IH as ((_&_&->&_)&_). lia.
Qed.

(** The three kinds of cells of a table, and the cells to the left of it. *)
Lemma table_cell_inner l i j a b :
  firsts (rk <$> l) !! i = Some a → firsts (ck <$> l) !! j = Some b →
  table_cell l (hr + S i) (hc + S j)
  = match last_cell l a b with Some x => Some x | None => old (hr + S i) (hc + S j) end.
Proof.
  intros Ha Hb. unfold table_cell.
  by rewrite (proj2 (at_pos_Some hr _ _ a)), (proj2 (at_pos_Some hc _ _ b)) by eauto.
Qed.
Lemma at_pos_start start ks x : (x ≤ start)%nat → at_pos start ks x = None.
Proof. intros H. unfold at_pos. by rewrite decide_False by lia. Qed.
Lemma table_cell_row_label l i a :
  firsts (rk <$> l) !! i = Some a →
  table_cell l (hr + S i) hc = if labels then Some (bold a) else old (hr + S i) hc.
Proof.
  intros Ha. unfold table_cell.
  by rewrite (proj2 (at_pos_Some hr _ _ a)), at_pos_start, bool_decide_eq_true_2 by eauto.
Qed.
Lemma table_cell_header l j b :
  firsts (ck <$> l) !! j = Some b → table_cell l hr (hc + S j) = Some (bold b).
Proof.
  intros Hb. unfold table_cell.
  by rewrite at_pos_start, (proj2 (at_pos_Some hc _ _ b)), bool_decide_eq_true_2 by eauto.
Qed.
Lemma table_cell_above l r c : (r < hr)%nat → table_cell l r c = old r c.
Proof.
  intros H. unfold table_cell. rewrite at_pos_start, bool_decide_eq_false_2 by lia.
  by destruct (at_pos hc (firsts (ck <$> l)) c).
Qed.
Lemma table_cell_outside l r c :
  (c < hc)%nat ∨ c = hc ∧ labels = false ∨ (hc + length (firsts (ck <$> l)) < c)%nat →
  table_cell l r c = old r c.
Proof.
  intros H. unfold table_cell.
  assert (at_pos hc (firsts (ck <$> l)) c = None) as ->.
  { destruct (at_pos hc (firsts (ck <$> l)) c) as [b|] eqn:Eb; [|done]. exfalso.
    apply at_pos_Some in Eb as (j&Hj&->). apply lookup_lt_Some in Hj. lia. }
  destruct (at_pos hr (firsts (rk <$> l)) r); [|done].
  case_bool_decide; [|done]. destruct labels; [lia|done].
Qed.
End matrix.

(** The two loops are iterations of a matrix. *)
Ltac write_cases :=
  intros r c; cbn [t_ws andb]; rewrite ?cell_at_write;
  repeat first [case_decide | case_bool_decide]; cbn [andb]; try done; lia.
Definition status_cell (e : JunitTestCaseAggregatedData) : cell_value :=
  (status_text (cd_status e), get_format_color_test_status (cd_status e)).
Lemma add_element_step sr sc print t e :
  (sr ≤ current_row t)%nat →
  step_of cd_test_name cd_product status_cell sr sc print t e (add_element sr sc print t e).
Proof.
  intros Hrow. unfold step_of, add_element, slot.
  destruct (dget (cd_product e) (column_dict t)), (dget (cd_test_name e) (row_dict t)), print;
    do 4 (split; [done|]); write_cases.
Qed.
Lemma add_pair_step sr sc t (e : string * string * JunitAggregatedData) :
  (sr ≤ current_row t)%nat →
  step_of (λ e, e.1.1) (λ e, e.1.2) (λ e, result_cell e.2) sr sc true t e (add_pair sr sc t e).
Proof.
  intros Hrow. destruct e as [[p s] a]. unfold step_of, add_pair, slot. cbn [fst snd].
  destruct (dget p (row_dict t)), (dget s (column_dict t)); do 4 (split; [done|]); write_cases.
Qed.

(** A product table is the matrix of its results. *)
Definition with_title (ws : worksheet) (sr sc : nat) (print : bool) (r c : nat) : option cell_value :=
  if print && bool_decide (r = sr ∧ c = sc) then Some (bold "Test") else cell_at ws r c.
Definition results_matrix (sr sc : nat) (print : bool) : (nat → nat → option cell_value) →
    list JunitTestCaseAggregatedData → nat → nat → option cell_value :=
  table_cell cd_test_name cd_product status_cell sr sc print.
Lemma add_product_table_matrix ws sr sc value print :
  let r := add_product_table ws sr sc value print in
  r.2 = (sr + length (firsts (cd_test_name <$> value)), sc + length (firsts (cd_product <$> value)))
  ∧ ∀ i j, cell_at r.1 i j = results_matrix sr sc print (with_title ws sr sc print) value i j.
Proof.
  set (ws' := if print then (ws ++ [Write sr sc (bold "Test")])%list else ws).
  assert (filled cd_test_name cd_product status_cell sr sc print (with_title ws sr sc print) value
            (foldl (add_element sr sc print) (Table ws' sr sc [] []) value)) as ((_&_&Hr&_)&(_&_&Hc&_)&Hcells).
  { apply filled_foldl; [intros t e; apply add_element_step|].
    intros r c. unfold with_title, ws'. destruct print; [|done]. rewrite cell_at_write.
    cbn [andb]. repeat first [case_decide | case_bool_decide]; tauto. }
  cbv zeta. unfold add_product_table. fold ws'. cbn [fst snd]. by rewrite Hr, Hc.
Qed.

(** The result that a table shows for a test with a product: the last one. *)
Definition shown : list JunitTestCaseAggregatedData → string → string → option cell_value :=
  last_cell cd_test_name cd_product status_cell.
(** The results [l] are in a worksheet with their header in row [hr] after column [hc]. *)
Definition shows (ws : worksheet) (hr hc : nat) (l : list JunitTestCaseAggregatedData) : Prop :=
  ∀ j p, firsts (cd_product <$> l) !! j = Some p →
    cell_at ws hr (hc + S j) = Some (bold p)
    ∧ ∀ i t, firsts (cd_test_name <$> l) !! i = Some t → cell_at ws (hr + S i) (hc + S j) = shown l t p.

Lemma cell_at_title ws row first last text r c :
  r ≠ row → cell_at (ws ++ [title_at row first last text])%list r c = cell_at ws r c.
Proof.
  intros Hr. rewrite cell_at_app. unfold title_at. case_decide; cbn [written fst snd]; rewrite decide_False;
    (done || by intros [= -> ->]).
Qed.
Lemma app_two {A} (l : list A) a b : (l ++ [a; b] = (l ++ [a]) ++ [b])%list.
Proof. by rewrite <- app_assoc. Qed.
Lemma add_static_data_test_Ok ws name pubs subs :
  (0 < pubs)%nat → (0 < subs)%nat →
  ∃ ws' cell, add_static_data_test ws name pubs subs = Ok (ws', cell)
    ∧ ∀ r c, (2 ≤ r)%nat → cell_at ws' r c = cell_at ws r c.
Proof.
  intros Hp Hs. unfold add_static_data_test. rewrite !decide_True by done. cbn [or_raise mbind result_bind].
  do 2 eexists. split; [reflexivity|]. intros r c Hr. cbn [fst].
  by rewrite !app_two, !cell_at_title by lia.
Qed.

(** A table shows its results, and leaves alone what is to the left of it. *)
Lemma add_product_table_shows ws sr sc l print :
  (∀ r c, (sr < r)%nat → (sc < c)%nat → cell_at ws r c = None) →
  shows (add_product_table ws sr sc l print).1 sr sc l.
Proof.
  intros Hnew. destruct (add_product_table_matrix ws sr sc l print) as [_ Hcells].
  intros j p Hj. split.
  - rewrite Hcells. by apply table_cell_header.
  - intros i t Hi. rewrite Hcells. unfold results_matrix. rewrite (table_cell_inner _ _ _ _ _ _ _ _ _ _ t p) by done.
    fold shown. destruct (shown l t p); [done|]. unfold with_title.
    rewrite bool_decide_eq_false_2, andb_false_r by lia. apply Hnew; lia.
Qed.
Lemma add_product_table_left ws sr sc l r c :
  (c ≤ sc)%nat → cell_at (add_product_table ws sr sc l false).1 r c = cell_at ws r c.
Proof.
  intros Hc. destruct (add_product_table_matrix ws sr sc l false) as [_ ->].
  unfold results_matrix. rewrite table_cell_outside; [done|].
  destruct (decide (c = sc)); [auto|left; lia].
Qed.
Lemma shows_ext ws ws' hr hc l :
  (∀ r c, (hr ≤ r)%nat → (hc < c ≤ hc + length (firsts (cd_product <$> l)))%nat →
          cell_at ws' r c = cell_at ws r c) →
  shows ws hr hc l → shows ws' hr hc l.
Proof.
  intros Heq H j p Hj. destruct (H j p Hj) as [Hh Hc].
  pose proof (lookup_lt_Some _ _ _ Hj). split; [by rewrite Heq by lia|].
  intros i t Hi. rewrite Heq by lia. by apply Hc.
Qed.

(** The two tables of a product. *)
Lemma two_tables pl sl :
  let w := length (firsts (cd_product <$> pl)) in
  let '(ws, cell) := add_product_table new_worksheet 2 1 pl true in
  let ws := (ws ++ [SetColumn (cell.2 + 1) (cell.2 + 1) 4])%list in
  let ws' := (add_product_table ws 2 (cell.2 + 1) sl false).1 in
  (∀ i t, firsts (cd_test_name <$> pl) !! i = Some t → cell_at ws' (2 + S i) 1 = Some (bold t))
  ∧ shows ws' 2 1 pl ∧ shows ws' 2 (w + 2) sl.
Proof.
  cbv zeta. pose proof (add_product_table_matrix new_worksheet 2 1 pl true) as [Hend Hcells].
  pose proof (add_product_table_shows new_worksheet 2 1 pl true) as Hshow.
  destruct (add_product_table new_worksheet 2 1 pl true) as [ws cell]. cbn [fst snd] in *. rewrite Hend. cbn [snd].
  replace (1 + length (firsts (cd_product <$> pl)) + 1) with (length (firsts (cd_product <$> pl)) + 2) by lia.
  split; [|split].
  - intros i t Hi. rewrite add_product_table_left, cell_at_layout, Hcells by (done || lia). unfold results_matrix.
    by rewrite (table_cell_row_label _ _ _ _ _ _ _ _ _ t).
  - eapply shows_ext; [|by apply Hshow]. intros r c _ Hc.
    rewrite add_product_table_left by lia. by apply cell_at_layout.
  - apply add_product_table_shows. intros r c Hr Hc. rewrite cell_at_layout, Hcells by done. unfold results_matrix.
    rewrite table_cell_outside by lia. unfold with_title.
    by rewrite bool_decide_eq_false_2 by lia.
Qed.

(** C29: The worksheet of every product that is a publisher in a report: its tests label the
    rows, and for every subscriber and every test the cell in their column and row shows the
    last result of the product with that subscriber; to the right of a gap the same for its
    results as subscriber, whose rows are in the order of the tests of that table. *)
Theorem product_worksheet xml d name (Hd : get_info no_data xml = Ok d)
    (Hname : name ∈ keys (publisher_product_dict d)) :
  let pl := published name xml in
  let sl := subscribed name xml in
  ∃ ws, add_product_worksheet d name = Ok (str_take 31 name, ws)
    ∧ (∀ i t, firsts (cd_test_name <$> pl) !! i = Some t → cell_at ws (2 + S i) 1 = Some (bold t))
    ∧ shows ws 2 1 pl
    ∧ shows ws 2 (length (firsts (cd_product <$> pl)) + 2) sl.
Proof.
  cbv zeta. pose proof (get_info_spec xml) as Hrep. rewrite Hd in Hrep.
  destruct Hrep as (_&_&_&Hpub&Hsub). pose proof (get_info_support xml d Hd) as Hsupport.
  apply dget_keys in Hname as [pl Hpl].
  assert (published name xml = pl) as Epl by (rewrite <- Hpub; unfold results_for; by rewrite Hpl).
  rewrite Epl.
  assert (dgetitem name (publisher_product_dict d) = Ok pl) as E by (unfold dgetitem; by rewrite Hpl).
  unfold add_product_worksheet. rewrite E. clear E. cbn [mbind result_bind].
  pose proof (two_tables pl (subscribed name xml)) as Htables.
  destruct (add_product_table new_worksheet 2 1 pl true) as [ws cell]. cbv zeta in Htables.
  set (ws1 := (ws ++ [SetColumn (cell.2 + 1) (cell.2 + 1) 4])%list) in *.
  set (ws2 := (add_product_table ws1 2 (cell.2 + 1) (subscribed name xml) false).1) in *.
  assert ((if din name (subscriber_product_dict d) then
             subscribed ← dgetitem name (subscriber_product_dict d);
             Ok (add_product_table ws1 2 (cell.2 + 1) subscribed false).1
           else Ok ws1) = Ok ws2) as ->.
  { unfold ws2, din, dgetitem. rewrite <- Hsub. unfold results_for. case_bool_decide as Hin.
    - destruct Hin as [sl ->]. done.
    - by destruct (dget name (subscriber_product_dict d)) as [sl|]; [destruct Hin|]. }
  cbn [mbind result_bind].
  destruct (add_static_data_test_Ok (ws2 ++ [Autofit])%list name (length (publisher_product_dict d))
    (length (subscriber_product_dict d))) as (ws3&c3&->&Heq).
  { destruct (publisher_product_dict d); [done|cbn; lia]. }
  { destruct (subscriber_product_dict d) eqn:E; [|cbn; lia]. exfalso.
    rewrite (proj2 Hsupport E) in Hpl. done. }
  destruct Htables as (Hlabels&Hp&Hs). exists ws3. split; [done|]. split.
  - intros i t Hi. rewrite Heq, cell_at_layout by (done || lia). by apply Hlabels.
  - split; (eapply shows_ext; [|eassumption]); intros r c Hr _; rewrite Heq by done; by apply cell_at_layout.
Qed.
Lemma product_worksheet_witness :
  let xml := [JunitSuite "connext_dds-7.3.0---opendds-3.28" 2 1 0 0
                [JunitCase "rtps_test_suite_1_Test_Domain_0" [] true;
                 JunitCase "rtps_test_suite_1_Test_Domain_1" [Some "pub_unsupported_feature"] false]] in
  ∃ d, get_info no_data xml = Ok d ∧ "Connext DDS 7.3.0" ∈ keys (publisher_product_dict d)
    ∧ ∃ ws, add_product_worksheet d "Connext DDS 7.3.0" = Ok ("Connext DDS 7.3.0", ws)
      ∧ shows ws 2 1 (published "Connext DDS 7.3.0" xml).
Proof.
  intros xml. eexists. split; [vm_compute; reflexivity|]. split; [cbn; left|].
  match goal with |- ∃ ws, add_product_worksheet ?x _ = _ ∧ _ => set (d := x) end.
  assert (get_info no_data xml = Ok d) as Hd by (vm_compute; reflexivity).
  destruct (product_worksheet xml d "Connext DDS 7.3.0" Hd) as (ws&Hws&_&Hshows&_); [cbn; left|].
  exists ws. split; [exact Hws|exact Hshows].
Defined.

(** The second table has no labels of its own: when a product runs its tests in another
    order as subscriber, its results stand in the rows of other tests. *)
Definition other_order : list junit_suite :=
  let passed t := JunitCase t [] true in
  let failed t := JunitCase t [Some "lost"] false in
  [JunitSuite "opendds---hdds" 2 0 0 0 [passed "Test_Domain_0"; passed "Test_Domain_1"];
   JunitSuite "hdds---opendds" 2 1 0 0 [failed "Test_Domain_1"; passed "Test_Domain_0"]].
Lemma subscriber_table_in_other_order :
  ∃ d ws, get_info no_data other_order = Ok d ∧ add_product_worksheet d "OpenDDS" = Ok ("OpenDDS", ws)
    ∧ cell_at ws 3 1 = Some (bold "Test_Domain_0")
    ∧ cell_at ws 3 4 = Some ("ERROR", "result_red")
    ∧ shown (subscribed "OpenDDS" other_order) "Test_Domain_0" "HDDS" = Some ("OK", "result_green").
Proof.
  eexists _, _. split; [vm_compute; reflexivity|]. split; [vm_compute; reflexivity|].
  by split; [|split]; vm_compute.
Qed.
(** The title over the second table is placed by the number of all products, the table by
    those that the product was tested with. *)
Definition not_all_pairs : list junit_suite :=
  (λ n, JunitSuite n 1 0 0 0 [JunitCase "Test_Domain_0" [] true])
    <$> ["opendds---hdds"; "hdds---opendds"; "hdds---cyclone"; "cyclone---hdds"].
Lemma title_beside_its_table :
  ∃ d ws, get_info no_data not_all_pairs = Ok d ∧ add_product_worksheet d "OpenDDS" = Ok ("OpenDDS", ws)
    ∧ cell_at ws 2 4 = Some (bold "HDDS")
    ∧ cell_at ws 0 6 = Some ("Subscriber: OpenDDS", "product_title").
Proof.
  eexists _, _. split; [vm_compute; reflexivity|]. split; [vm_compute; reflexivity|].
  by split; vm_compute.
Qed.
