(* ===== verification/XlsxReport.v ===== *)
(** * Spreadsheet: the workbook (generate_xlsx_report.py, XlsxReport and main)

    The summary, the descriptions and the product worksheets as one workbook with its formats,
    every one of which that is used is defined ([workbook_worksheets]), and the checks of the arguments.  The date, the environment and the files are arguments. *)

From S2P Require Import Prelude PyStr PyDict Utilities Suite TestSuite XlsxData XlsxTables.
From stdpp Require Import options.
Local Open Scope string_scope.

(** ** The summary worksheet *)

(** The number of tests of the first product that was tested with itself. *)
Definition unique_tests (d : JunitData) : Z :=
  match filter (λ i : string * string * JunitAggregatedData, i.1.1 = i.1.2) (product_summary_dict d) with
  | (_, value) :: _ => get_total_tests value
  | [] => 0
  end.
Definition plain (row column : nat) (text : string) : write := Write row column (text, "default").
Definition add_static_data_summary_worksheet (d : JunitData) (date_time : string) (runner : option string)
    (ws : worksheet) (starting_row starting_column : nat) : worksheet :=
  let name := starting_column + 1 in
  let info := starting_column + 2 in
  (ws ++ [Write starting_row starting_column ("RTPS Interoperability tests", "title");
          Write (starting_row + 1) starting_column ("Summary", "subtitle");
          InsertImage (starting_row + 3) starting_column "resource/DDS-logo.jpg"
            [("x_scale", "0.6"); ("y_scale", "0.6"); ("decorative", "True"); ("object_position", "2")];
          plain (starting_row + 3) name "Date"; plain (starting_row + 3) info date_time;
          plain (starting_row + 4) name "Hosted machine";
          plain (starting_row + 4) info
            (match runner with Some r => if decide (r = "") then "ubuntu-latest" else r | None => "ubuntu-latest" end);
          plain (starting_row + 5) name "Repo";
          plain (starting_row + 5) info "https://github.com/omg-dds/dds-rtps";
          plain (starting_row + 6) name "Documentation";
          plain (starting_row + 6) info "https://omg-dds.github.io/dds-rtps/";
          plain (starting_row + 7) name "Unique tests count";
          plain (starting_row + 7) info (str_of_Z (unique_tests d));
          Write (starting_row + 9) name ("Single-Product Tests", "bold");
          plain (starting_row + 9) info "Results where each product is tested only with itself";
          Write (starting_row + 10) name ("Format X / Y / Z", "bold");
          plain (starting_row + 10) info "Represents test passed / supported / total"])%list.
Definition create_summary_worksheet (d : JunitData) (date_time : string) (runner : option string) :
    result (string * worksheet) :=
  ws ← add_data_summary_worksheet d new_worksheet 13 1;
  Ok ("Summary", add_static_data_summary_worksheet d date_time runner (ws ++ [Autofit])%list 0 1).

(** ** The descriptions *)

Definition add_static_data_description_worksheet (ws : worksheet) (row column : nat) : worksheet :=
  (ws ++ [Write row column ("Test Name", "product_subtitle");
          Write row (column + 1) ("Test Title", "product_subtitle");
          WriteUrl row (column + 2) "https://omg-dds.github.io/dds-rtps/test_description.html"
            "Click here for full test descriptions"])%list.
(** One cell below the other. *)
Fixpoint write_column (ws : worksheet) (row column : nat) (format : string) (l : list string) : worksheet :=
  match l with
  | [] => ws
  | text :: l' => write_column (ws ++ [Write row column (text, format)])%list (S row) column format l'
  end.
Definition add_test_name_description_worksheet (s : suite) (ws : worksheet) (row column : nat) : worksheet :=
  write_column ws row column "bold" (keys s).
Definition add_title_description_worksheet (s : suite) (ws : worksheet) (row column : nat) : worksheet :=
  write_column ws row column "default" (title <$> values s).
Definition create_description_worksheet (s : suite) : string * worksheet :=
  let ws := add_static_data_description_worksheet new_worksheet 0 1 in
  let ws := add_test_name_description_worksheet s ws 1 1 in
  ("Test Descriptions", add_title_description_worksheet s (ws ++ [Autofit])%list 1 2).

(** ** Formats *)

(** [ColorUtils] *)
Definition GREEN : string := "#4EB168".
Definition LIME : string := "#86A336".
Definition YELLOW : string := "#B58F19".
Definition ORANGE : string := "#DB722e".
Definition RED : string := "#F2505A".

Inductive property := Flag (b : bool) | Number (n : nat) | Name (s : string).
Definition format : Type := dict string property.
Definition centered : format := [("align", Name "center"); ("valign", Name "vcenter")].
Definition result_format (color : string) : format :=
  ([("bg_color", Name color); ("bold", Flag true); ("border", Number 1)] ++ centered)%list.
Definition add_formats : dict string format :=
  [("title", [("bold", Flag true); ("font_size", Number 36); ("text_wrap", Flag false)]);
   ("subtitle", [("font_size", Number 26)]);
   ("product_title", (("bold", Flag true) :: centered ++ [("font_size", Number 16); ("text_wrap", Flag false)])%list);
   ("product_subtitle", ("bold", Flag true) :: centered);
   ("bold", [("bold", Flag true)]);
   ("bold_w_border", [("bold", Flag true); ("border", Number 1)]);
   ("result_green", result_format GREEN); ("result_lime", result_format LIME);
   ("result_yellow", result_format YELLOW); ("result_orange", result_format ORANGE);
   ("result_red", result_format RED)].

(** ** The workbook *)

Record workbook := Workbook {
  window_size : nat * nat;
  formats : dict string format;
  worksheets : list (string * worksheet)
}.
Definition create_workbook (d : JunitData) (date_time : string) (runner : option string) : result workbook :=
  summary ← create_summary_worksheet d date_time runner;
  products ← add_data_test_worksheet d;
  Ok (Workbook (2000, 1500) add_formats
        (summary :: create_description_worksheet rtps_test_suite_1 :: products)).

(** ** Every format that is used is defined *)

Definition known_format (f : string) : Prop := f = "default" ∨ f ∈ keys add_formats.
Definition well_formatted (ws : worksheet) : Prop :=
  Forall (λ w, from_option (λ x : nat * nat * cell_value, known_format x.2.2) True (written w)) ws.
#[export] Instance known_format_dec f : Decision (known_format f).
Proof. unfold known_format. apply _. Defined.
Lemma known_by f : bool_decide (known_format f) = true → known_format f.
Proof. apply bool_decide_eq_true. Qed.
Ltac known := by apply known_by; vm_compute.
Lemma known_status s : known_format (get_format_color_test_status s).
Proof. destruct s; known. Qed.
Lemma known_color i n : known_format (get_format_color i n).
Proof. unfold get_format_color. repeat case_match; known. Qed.
Lemma formatted_app ws new : well_formatted ws → well_formatted new → well_formatted (ws ++ new)%list.
Proof. apply Forall_app_2. Qed.
Lemma formatted_one w : from_option (λ x : nat * nat * cell_value, known_format x.2.2) True (written w) → well_formatted [w].
Proof. intros H. by constructor; [|constructor]. Qed.
Lemma formatted_result r c a : well_formatted [Write r c (result_cell a)].
Proof. apply formatted_one. cbn. apply known_color. Qed.
Create HintDb formats discriminated.
Lemma formatted_bold r c t : well_formatted [Write r c (bold t)].
Proof. apply formatted_one. cbn. known. Qed.
#[export] Hint Resolve formatted_app formatted_result formatted_bold : formats.

Lemma formatted_element sr sc print t e : well_formatted (t_ws t) → well_formatted (t_ws (add_element sr sc print t e)).
Proof.
  intros H. unfold add_element. destruct (slot _ _ (column_dict t)) as [[[pc c] cs] newc].
  destruct (slot _ _ (row_dict t)) as [[[pr r] rs] newr]. cbn [t_ws].
  assert (well_formatted [Write pr pc (status_text (cd_status e), get_format_color_test_status (cd_status e))])
    by (apply formatted_one; cbn; apply known_status).
  destruct newc, (newr && print); eauto with formats.
Qed.
Lemma formatted_table ws sr sc value print : well_formatted ws → well_formatted (add_product_table ws sr sc value print).1.
Proof.
  intros H. unfold add_product_table. cbn [fst]. set (ws' := if print then _ else _).
  assert (well_formatted ws') as H' by (unfold ws'; destruct print; eauto with formats).
  change ws' with (t_ws (Table ws' sr sc [] [])) in H'. revert H'. generalize (Table ws' sr sc [] []).
  induction value as [|e value IH]; intros t Ht; [done|]. cbn [foldl]. apply IH. by apply formatted_element.
Qed.
Lemma formatted_pairs row column l t :
  well_formatted (t_ws t) → well_formatted (t_ws (foldl (add_pair row column) t l)).
Proof.
  revert t. induction l as [|[[p s] a] l IH]; intros t Ht; [done|]. cbn [foldl]. apply IH.
  unfold add_pair. destruct (slot _ _ (row_dict t)) as [[[pr r] rs] newr].
  destruct (slot _ _ (column_dict t)) as [[[pc c] cs] newc]. cbn [t_ws]. destruct newr, newc; eauto with formats.
Qed.
Lemma formatted_summary d ws row column ws' :
  well_formatted ws → add_data_summary_worksheet d ws row column = Ok ws' → well_formatted ws'.
Proof.
  intros H. unfold add_data_summary_worksheet. intros ([ws1 row1]&E&<-%Ok_inj)%bind_Ok. apply formatted_pairs. cbn [t_ws].
  apply formatted_app; [|apply formatted_bold].
  apply (mfold_inv (add_product_row d column) (λ s, well_formatted s.1)) in E; [exact E| |].
  - cbn [fst]. apply formatted_app; [done|]. repeat constructor; cbn; known.
  - intros [ws2 row2] p s' _ H2 (company&_&<-%Ok_inj)%bind_Ok. cbn [fst] in *. apply formatted_app; [done|].
    change (well_formatted ([Write row2 column (bold company)] ++ [Write row2 (column + 1) (bold p)]
      ++ ((λ a, Write row2 (column + 2) (result_cell a)) <$> own_results d p))%list).
    apply formatted_app; [apply formatted_bold|]. apply formatted_app; [apply formatted_bold|].
    apply Forall_fmap, Forall_true. intros a. cbn. apply known_color.
Qed.
Lemma formatted_titles ws name pubs subs s : well_formatted ws → add_static_data_test ws name pubs subs = Ok s → well_formatted s.1.
Proof.
  assert (∀ row f l t, well_formatted [title_at row f l t]) as Ht
    by (intros; apply formatted_one; unfold title_at; case_decide; cbn; known).
  intros H. unfold add_static_data_test. intros (s1&Hs&(x&_&<-%Ok_inj)%bind_Ok)%bind_Ok. cbn [fst].
  destruct (decide (0 < subs)), (decide (0 < pubs)); cbn [or_raise mbind result_bind] in Hs; try done;
    apply Ok_inj in Hs as <-; cbn [fst]; rewrite ?app_two; auto 10 with formats.
Qed.
Lemma formatted_product d name sheet : add_product_worksheet d name = Ok sheet → sheet.1 = str_take 31 name ∧ well_formatted sheet.2.
Proof.
  unfold add_product_worksheet. intros (pl&_&H)%bind_Ok.
  assert (well_formatted new_worksheet) as Hnew by by apply formatted_one.
  pose proof (formatted_table new_worksheet 2 1 pl true Hnew) as H1.
  destruct (add_product_table new_worksheet 2 1 pl true) as [ws cell]. cbn [fst] in H1.
  apply bind_Ok in H as (ws2&H2&(s&Hs&<-%Ok_inj)%bind_Ok). split; [done|]. cbn [snd].
  eapply formatted_titles; [|exact Hs]. apply formatted_app; [|by apply formatted_one].
  assert (well_formatted (ws ++ [SetColumn (cell.2 + 1) (cell.2 + 1) 4])%list) as H3
    by (apply formatted_app; [done|by apply formatted_one]).
  destruct (din name (subscriber_product_dict d)); [|by injection H2 as <-].
  apply bind_Ok in H2 as (sl&_&<-%Ok_inj). by apply formatted_table.
Qed.
Lemma formatted_column ws row column f l : known_format f → well_formatted ws → well_formatted (write_column ws row column f l).
Proof.
  intros Hf. revert ws row. induction l as [|x l IH]; intros ws row H; [done|]. cbn [write_column]. apply IH.
  apply formatted_app; [done|]. by apply formatted_one.
Qed.

(** The worksheets of a workbook and their order; no format is looked up in vain. *)
Lemma workbook_worksheets d date_time runner wb :
  create_workbook d date_time runner = Ok wb →
  (worksheets wb).*1 = "Summary" :: "Test Descriptions" :: (str_take 31 <$> keys (publisher_product_dict d))
  ∧ formats wb = add_formats ∧ Forall well_formatted (worksheets wb).*2.
Proof.
  unfold create_workbook. intros (summary&Hs&(products&Hp&<-%Ok_inj)%bind_Ok)%bind_Ok. cbn [worksheets formats].
  apply bind_Ok in Hs as (ws&Hws&<-%Ok_inj).
  apply formatted_summary in Hws; [|by apply formatted_one].
  assert (products.*1 = str_take 31 <$> keys (publisher_product_dict d) ∧ Forall well_formatted products.*2) as [Hn Hf].
  { unfold add_data_test_worksheet in Hp. revert products Hp. generalize (keys (publisher_product_dict d)) as names.
    induction names as [|name names IH]; intros products Hp; [by injection Hp as <-|].
    apply bind_Ok in Hp as (sheet&[Hn Hf]%formatted_product&(rest&[H1 H2]%IH&<-%Ok_inj)%bind_Ok).
    cbn [fmap list_fmap]. rewrite Hn, H1. split; [done|]. by constructor. }
  split; [|split; [done|]].
  - cbn [fmap list_fmap fst create_description_worksheet]. by rewrite Hn.
  - cbn [fmap list_fmap snd create_description_worksheet]. constructor; [|constructor; [|done]].
    + apply formatted_app; [apply formatted_app; [done|by apply formatted_one]|].
      repeat (constructor; [cbn; try known|]); constructor.
    + apply formatted_column; [known|]. apply formatted_app; [|by apply formatted_one].
      apply formatted_column; [known|]. repeat (constructor; [cbn; try known|]); constructor.
Qed.

(** ** Arguments (main) *)

(** [os.path.splitext(path)[1]]: leading dots of the last component are no extension. *)
Definition last_component (path : string) : string :=
  match rfind "/" path with Some i => str_drop (S i) path | None => path end.
Definition splitext (path : string) : string :=
  let name := last_component path in
  match rfind "." name with
  | Some i => if sforall (λ c, bool_decide (c = "."%char)) (str_take i name) then "" else str_drop i name
  | None => ""
  end.
(** [splitext(path)[1].lower()[1:]] *)
Definition get_file_extension (path : string) : string := str_drop 1 (lower (splitext path)).
Definition check_arguments (input output : option string) (is_file exists_ : string → bool) :
    result (string * string) :=
  input ← or_raise RuntimeError input;
  _ ← (if negb (is_file input) && negb (bool_decide (get_file_extension input = "xml"))
       then Raise RuntimeError else Ok ());
  output ← or_raise RuntimeError output;
  _ ← (if exists_ output || negb (bool_decide (get_file_extension output = "xlsx"))
       then Raise RuntimeError else Ok ());
  Ok (input, output).

(** The runner: the argument, the text of a file runner_env, or the environment.  A
    candidate is [None] when there is no such file. *)
Fixpoint runner_env (runner : option string) (candidates : list (option (result string))) : option string :=
  match candidates with
  | [] => runner
  | Some (Ok text) :: rest =>
      let r := strip text in if decide (r = "") then runner_env (Some r) rest else Some r
  | _ :: rest => runner_env runner rest
  end.
Definition or_else (a b : option string) : option string :=
  match a with Some s => if decide (s = "") then b else a | None => b end.
Definition runner_of (argument : option string) (candidates : list (option (result string)))
    (environment : string → option string) : option string :=
  or_else (or_else argument (runner_env argument candidates))
    (or_else (environment "RUNNER_ENVIRONMENT") (environment "RUNNER_NAME")).

Definition main (input output argument : option string) (is_file exists_ : string → bool)
    (candidates : list (option (result string))) (environment : string → option string)
    (suites : string → result (list junit_suite)) (date_time : string) : result (string * workbook) :=
  paths ← check_arguments input output is_file exists_;
  let runner := runner_of argument candidates environment in
  xml ← suites paths.1;
  d ← get_info no_data xml;
  book ← create_workbook d date_time runner;
  Ok (paths.2, book).

(** A file of any name is taken, and so is a missing file with the extension xml: the
    condition joins the two tests by [and], its message by "or". *)
Lemma input_check_too_weak is_file exists_ :
  is_file "a.txt" = true → is_file "a.xml" = false → exists_ "o.xlsx" = false →
  check_arguments (Some "a.txt") (Some "o.xlsx") is_file exists_ = Ok ("a.txt", "o.xlsx")
  ∧ check_arguments (Some "a.xml") (Some "o.xlsx") is_file exists_ = Ok ("a.xml", "o.xlsx").
Proof. unfold check_arguments. intros H1 H2 H3. cbn [or_raise mbind result_bind]. by rewrite H1, H2, H3. Qed.

(** ** The summary worksheet shows the dictionaries *)

Lemma cell_at_below (n : nat) ws new r c :
  Forall (λ w, from_option (λ x : nat * nat * cell_value, x.1.1 < n)%nat True (written w)) new → (n ≤ r)%nat →
  cell_at (ws ++ new)%list r c = cell_at ws r c.
Proof.
  intros Hnew Hr. induction new as [|w new IH] using rev_ind; [by rewrite app_nil_r|].
  apply Forall_app in Hnew as [Hnew [Hw _]%Forall_cons].
  rewrite app_assoc, cell_at_app. destruct (written w) as [x|]; [|by apply IH].
  rewrite decide_False by (intros E; cbn in Hw; rewrite E in Hw; cbn in Hw; lia). by apply IH.
Qed.

Section summary.
Context (d : JunitData) (Hwf : wf (product_summary_dict d)).

Lemma filter_key (k : string * string) (l : dict (string * string) JunitAggregatedData) :
  wf l → filter (λ i : string * string * JunitAggregatedData, i.1 = k) l
  = match dget k l with Some a => [(k, a)] | None => [] end.
Proof.
  unfold wf, keys. induction l as [|[k' a] l IH]; [done|]. cbn [fmap list_fmap fst].
  intros [Hk Hl]%NoDup_cons. rewrite filter_cons. cbn [fst dget]. rewrite IH by done.
  destruct (decide (k' = k)) as [->|Hne].
  - rewrite decide_True by done. assert (dget k l = None) as ->; [|done].
    by apply dget_None.
  - by rewrite decide_False by auto.
Qed.
Lemma own_results_spec p :
  own_results d p = match dget (p, p) (product_summary_dict d) with Some a => [a] | None => [] end.
Proof using Hwf.
  unfold own_results.
  assert (filter (λ i : string * string * JunitAggregatedData, p = i.1.1 ∧ p = i.1.2) (product_summary_dict d)
    = filter (λ i : string * string * JunitAggregatedData, i.1 = (p, p)) (product_summary_dict d)) as ->.
  { apply list_filter_iff. intros [[a b] v]. cbn. naive_solver. }
  rewrite filter_key by done. by destruct (dget (p, p) (product_summary_dict d)).
Qed.
Lemma last_cell_pair p s :
  last_cell (λ e, e.1.1) (λ e, e.1.2) (λ e, result_cell e.2) (product_summary_dict d) p s
  = result_cell <$> dget (p, s) (product_summary_dict d).
Proof using Hwf.
  unfold last_cell.
  assert (filter (λ e : string * string * JunitAggregatedData, e.1.1 = p ∧ e.1.2 = s) (product_summary_dict d)
    = filter (λ i : string * string * JunitAggregatedData, i.1 = (p, s)) (product_summary_dict d)) as ->.
  { apply list_filter_iff. intros [[x y] v]. cbn. naive_solver. }
  rewrite filter_key by done. by destruct (dget (p, s) (product_summary_dict d)).
Qed.

(** The rows of the products, after some of them. *)
Definition product_cell (start : nat) (old : nat → nat → option cell_value) (seen : list string) (r c : nat) :
    option cell_value :=
  match at_pos start seen r with
  | Some p =>
      if decide (c = 1) then match get_company_name p with Ok x => Some (bold x) | Raise _ => None end
      else if decide (c = 2) then Some (bold p)
      else if decide (c = 3) then
        match dget (p, p) (product_summary_dict d) with Some a => Some (result_cell a) | None => old r c end
      else old r c
  | None => old r c
  end.
Lemma at_pos_snoc start ks k x :
  at_pos start (ks ++ [k])%list x = if decide (x = start + S (length ks)) then Some k else at_pos start ks x.
Proof.
  unfold at_pos. destruct (decide (start < x)); [|by rewrite decide_False by lia].
  case_decide as E.
  - subst x. rewrite lookup_app_r by lia. replace (start + S (length ks) - S start - length ks) with 0 by lia. done.
  - destruct (decide (x - S start < length ks)); [by rewrite lookup_app_l|].
    rewrite !(proj2 (lookup_ge_None _ _)); [done|lia|]. rewrite length_app. cbn. lia.
Qed.
Lemma add_product_row_step start old seen ws row p s' :
  row = S (start + length seen) ∧ (∀ r c, cell_at ws r c = product_cell start old seen r c) →
  add_product_row d 1 (ws, row) p = Ok s' →
  s'.2 = S (start + length (seen ++ [p]))%list
  ∧ (∀ r c, cell_at s'.1 r c = product_cell start old (seen ++ [p])%list r c).
Proof using Hwf.
  intros [-> Hws] (company&Ec&E)%bind_Ok. apply Ok_inj in E as <-. cbn [fst snd]. split.
  { rewrite length_app. cbn. lia. }
  intros r c. rewrite own_results_spec. specialize (Hws r c). unfold product_cell in *.
  rewrite at_pos_snoc. rewrite app_assoc, app_two.
  assert (at_pos start seen (S (start + length seen)) = None) as Hnone.
  { unfold at_pos. rewrite decide_True by lia. apply lookup_ge_None. lia. }
  destruct (decide (r = start + S (length seen))) as [->|Hr].
  - replace (start + S (length seen)) with (S (start + length seen)) in * by lia.
    rewrite Hnone in Hws. rewrite Ec.
    destruct (dget (p, p) (product_summary_dict d)); cbn [fmap list_fmap]; rewrite ?app_nil_r, !cell_at_write;
      repeat case_decide; first [done | exact Hws | lia].
  - destruct (dget (p, p) (product_summary_dict d)); cbn [fmap list_fmap]; rewrite ?app_nil_r, !cell_at_write;
      rewrite !decide_False by lia; done.
Qed.

(** The first loop: all products, or the first one without a company. *)
Lemma add_product_rows start ws names :
  match mfold (add_product_row d 1) (ws, S start) names with
  | Ok (ws', row) => row = S (start + length names)
                     ∧ Forall (λ p, is_Ok (get_company_name p)) names
                     ∧ ∀ r c, cell_at ws' r c = product_cell start (cell_at ws) names r c
  | Raise e => ∃ p, p ∈ names ∧ get_company_name p = Raise e
  end.
Proof using Hwf.
  destruct (mfold (add_product_row d 1) (ws, S start) names) as [[ws' row]|e] eqn:E.
  - apply (mfold_prefix (add_product_row d 1) (λ seen s, s.2 = S (start + length seen)
      ∧ Forall (λ p, is_Ok (get_company_name p)) seen ∧ ∀ r c, cell_at s.1 r c = product_cell start (cell_at ws) seen r c)) in E; [done| |].
    + cbn. split; [lia|]. split; [constructor|]. intros r c. unfold product_cell, at_pos.
      by case_decide.
    + intros seen [ws1 row1] p s' (Hrow&Hok&Hcells) Hp.
      destruct (add_product_row_step start (cell_at ws) seen ws1 row1 p s') as [H1 H2]; [done|done|].
      split; [done|]. split; [|done]. apply Forall_app. split; [done|]. apply Forall_cons.
      split; [|constructor]. apply bind_Ok in Hp as (x&Hx&_). by exists x.
  - apply mfold_Raise in E as ([ws1 row1]&p&Hp&E). exists p. split; [done|].
    unfold add_product_row in E. by apply bind_Raise in E as [E|(x&_&E)].
Qed.
End summary.

Definition publishers_of (d : JunitData) : list string :=
  firsts ((λ i : string * string * JunitAggregatedData, i.1.1) <$> product_summary_dict d).
Definition subscribers_of (d : JunitData) : list string :=
  firsts ((λ i : string * string * JunitAggregatedData, i.1.2) <$> product_summary_dict d).
Lemma data_summary_cells d starting_row :
  wf (product_summary_dict d) →
  match add_data_summary_worksheet d new_worksheet starting_row 1 with
  | Ok ws =>
      let h := S (starting_row + length (summary_dict d)) + 2 in
      (∀ i p, keys (summary_dict d) !! i = Some p →
         let r := starting_row + S i in
         (∃ x, get_company_name p = Ok x ∧ cell_at ws r 1 = Some (bold x))
         ∧ cell_at ws r 2 = Some (bold p)
         ∧ cell_at ws r 3 = result_cell <$> dget (p, p) (product_summary_dict d))
      ∧ (∀ i j p s, publishers_of d !! i = Some p → subscribers_of d !! j = Some s →
         cell_at ws (h + S i) 1 = Some (bold p) ∧ cell_at ws h (1 + S j) = Some (bold s)
         ∧ cell_at ws (h + S i) (1 + S j) = result_cell <$> dget (p, s) (product_summary_dict d))
  | Raise e => ∃ p, p ∈ keys (summary_dict d) ∧ get_company_name p = Raise e
  end.
Proof.
  intros Hwf. unfold add_data_summary_worksheet. cbn [app new_worksheet].
  pose (ws0 := [SetZoom 130; Write starting_row 1 (bold "Company"); Write starting_row (1 + 1) (bold "Product");
                Write starting_row (1 + 2) (bold "Single-Product Tests")] : worksheet).
  pose proof (add_product_rows d Hwf starting_row ws0 (keys (summary_dict d))) as Hrows.
  change (mfold _ _ _) with (mfold (add_product_row d 1) (ws0, S starting_row) (keys (summary_dict d))).
  destruct (mfold (add_product_row d 1) (ws0, S starting_row) (keys (summary_dict d))) as [[ws1 row]|e];
    cbn [mbind result_bind]; [|done].
  destruct Hrows as (->&Hok&Hcells).
  assert (length (keys (summary_dict d)) = length (summary_dict d)) as -> by (unfold keys; apply length_fmap).
  set (h := S (starting_row + length (summary_dict d)) + 2). cbv zeta.
  set (ws2 := (ws1 ++ [Write h 1 (bold "Publisher (row)/Subscriber (column)")])%list).
  assert (filled (λ e : string * string * JunitAggregatedData, e.1.1) (λ e, e.1.2) (λ e, result_cell e.2) h 1 true
            (cell_at ws2) (product_summary_dict d)
            (foldl (add_pair h 1) (Table ws2 h 1 [] []) (product_summary_dict d))) as (_&_&Hcell)
    by (apply filled_foldl; [apply add_pair_step|done]).
  assert (∀ r c, (starting_row < r)%nat → cell_at ws0 r c = None) as Hnew.
  { intros r c Hr. unfold ws0. rewrite <- (app_nil_l [_; _; _; _]).
    by rewrite (cell_at_below (S starting_row)) by (repeat constructor || lia). }
  split.
  - intros i p Hi. set (r := starting_row + S i). assert (r < h)%nat as Hr.
    { apply lookup_lt_Some in Hi. unfold keys in Hi. rewrite length_fmap in Hi. unfold r, h. lia. }
    assert (at_pos starting_row (keys (summary_dict d)) r = Some p) as Hp by (apply at_pos_Some; eauto).
    assert (∀ c, cell_at (t_ws (foldl (add_pair h 1) (Table ws2 h 1 [] []) (product_summary_dict d))) r c
              = product_cell d starting_row (cell_at ws0) (keys (summary_dict d)) r c) as Hc.
    { intros c. rewrite Hcell, table_cell_above by done. unfold ws2.
      by rewrite cell_at_write, decide_False, Hcells by lia. }
    rewrite !Hc. unfold product_cell. rewrite Hp. cbn [decide].
    rewrite Forall_forall in Hok. destruct (Hok p) as [x Hx]; [by eapply list_elem_of_lookup_2|].
    rewrite Hx. split; [by exists x|]. split; [done|]. cbn.
    destruct (dget (p, p) (product_summary_dict d)); [done|]. apply Hnew. unfold r. lia.
  - intros i j p s Hi Hj. rewrite !Hcell. split; [|split].
    + by rewrite (table_cell_row_label _ _ _ _ _ _ _ _ i p).
    + by rewrite (table_cell_header _ _ _ _ _ _ _ _ j s).
    + rewrite (table_cell_inner _ _ _ _ _ _ _ _ i j p s) by done.
      rewrite last_cell_pair by done.
      destruct (dget (p, s) (product_summary_dict d)); [done|]. cbn [fmap option_fmap option_map].
      unfold ws2. rewrite cell_at_write, decide_False, Hcells by lia. unfold product_cell.
      assert (at_pos starting_row (keys (summary_dict d)) (h + S i) = None) as ->; [|apply Hnew; lia].
      unfold at_pos. case_decide; [|done]. apply lookup_ge_None. unfold keys. rewrite length_fmap. lia.
Qed.

(** C30: The summary worksheet of any report whose dictionaries could be filled.  Either a
    product has no company and that exception is raised; or every product has a row with
    its company, its name and its results with itself, and every pair of products has a
    cell with the sums of its suites, in the row of the publisher and the column of the
    subscriber, which are labelled with their names. *)
Theorem summary_worksheet xml d date_time runner (Hd : get_info no_data xml = Ok d) :
  match create_summary_worksheet d date_time runner with
  | Ok (_, ws) =>
      (∀ i p, keys (summary_dict d) !! i = Some p →
         (∃ x, get_company_name p = Ok x ∧ cell_at ws (14 + i) 1 = Some (bold x))
         ∧ cell_at ws (14 + i) 2 = Some (bold p)
         ∧ cell_at ws (14 + i) 3 = result_cell <$> dget (p, p) (product_summary_dict d))
      ∧ (∀ i j p s, publishers_of d !! i = Some p → subscribers_of d !! j = Some s →
         let h := 16 + length (summary_dict d) in
         cell_at ws (h + S i) 1 = Some (bold p) ∧ cell_at ws h (1 + S j) = Some (bold s)
         ∧ cell_at ws (h + S i) (1 + S j) = result_cell <$> dget (p, s) (product_summary_dict d))
  | Raise e => ∃ p, p ∈ keys (summary_dict d) ∧ get_company_name p = Raise e
  end.
Proof.
  pose proof (data_summary_cells d 13 (get_info_wf xml d Hd)) as H. unfold create_summary_worksheet.
  destruct (add_data_summary_worksheet d new_worksheet 13 1) as [ws|e]; cbn [mbind result_bind]; [|done].
  cbv zeta in H. destruct H as [Hrows Hpairs].
  assert (∀ r c, (13 ≤ r)%nat →
    cell_at (add_static_data_summary_worksheet d date_time runner (ws ++ [Autofit])%list 0 1) r c = cell_at ws r c) as Hstatic.
  { intros r c Hr. rewrite <- (cell_at_layout ws Autofit r c) by done. apply (cell_at_below 13); [|done].
    repeat constructor; cbn; lia. }
  split.
  - intros i p Hi. destruct (Hrows i p Hi) as ((x&Hx&H1)&H2&H3).
    rewrite !Hstatic by lia. split; [exists x; split; [exact Hx|exact H1]|]. split; [exact H2|exact H3].
  - intros i j p s Hi Hj. cbv zeta. destruct (Hpairs i j p s Hi Hj) as (H1&H2&H3).
    rewrite !Hstatic by lia.
    replace (16 + length (summary_dict d)) with (S (13 + length (summary_dict d)) + 2) by lia.
    split; [exact H1|]. split; [exact H2|exact H3].
Qed.
Lemma summary_worksheet_witness :
  let xml := [JunitSuite "opendds---opendds" 2 1 0 0 [JunitCase "Test_Domain_0" [] true];
              JunitSuite "opendds---hdds" 1 0 0 0 [JunitCase "Test_Domain_0" [] true]] in
  ∃ d, get_info no_data xml = Ok d
    ∧ ∃ name ws, create_summary_worksheet d "2026-01-01 00:00:00" None = Ok (name, ws)
      ∧ cell_at ws 14 2 = Some (bold "OpenDDS").
Proof.
  intros xml. eexists. split; [vm_compute; reflexivity|].
  match goal with |- ∃ name ws, create_summary_worksheet ?x _ _ = _ ∧ _ => set (d := x) end.
  pose proof (summary_worksheet xml d "2026-01-01 00:00:00" None ltac:(vm_compute; reflexivity)) as H.
  destruct (create_summary_worksheet d "2026-01-01 00:00:00" None) as [[name ws]|e] eqn:E.
  - destruct H as [H _]. exists name, ws. split; [reflexivity|].
    destruct (H 0 "OpenDDS") as (_&Hp&_); [reflexivity|exact Hp].
  - vm_compute in E. discriminate E.
Defined.
