(* ===== verification/CommandLines.v ===== *)
(** * The command lines of the programs

    The parser of each program, what it makes of the arguments, and the two directions:
    whatever is accepted is well typed ([parsed_options]), and every value of the options is
    reached by a command line ([command_lines]).  The texts of the help are left out. *)

From S2P Require Import Prelude PyStr PyDict Argparse Utilities CheckFunctions Suite Driver SnifferReport SnifferRun CompareMain XlsxReport Effects.
From stdpp Require Import gmap options.
Local Open Scope string_scope.

(** ** Reading a namespace *)

Definition get_str (k : string) (ns : dict string value) : string :=
  match dget k ns with Some (VStr s) => s | _ => "" end.
Definition get_opt (k : string) (ns : dict string value) : option string :=
  match dget k ns with Some (VStr s) => Some s | _ => None end.
Definition get_flag (k : string) (ns : dict string value) : bool :=
  match dget k ns with Some (VBool b) => b | _ => false end.
Definition get_int (k : string) (ns : dict string value) : Z :=
  match dget k ns with Some (VInt z) => z | _ => 0%Z end.
Definition get_opt_int (k : string) (ns : dict string value) : option Z :=
  match dget k ns with Some (VInt z) => Some z | _ => None end.
Definition get_list (k : string) (ns : dict string value) : option (list string) :=
  match dget k ns with Some (VList l) => Some l | _ => None end.

Definition optional (short : list string) (name dest : string) (a : action) (d : value) : argument :=
  Argument (short ++ [name])%list dest a d false None.

(** ** interoperability_report.py *)

Module Interoperability.
Definition publisher_arg : argument := Argument ["-P"; "--publisher"] "publisher" (Store AsStr) VNone true None.
Definition subscriber_arg : argument := Argument ["-S"; "--subscriber"] "subscriber" (Store AsStr) VNone true None.
Definition verbose_arg : argument := optional ["-v"] "--verbose" "verbose" StoreTrue (VBool false).
Definition representation_arg : argument :=
  optional ["-x"] "--data-representation" "data_representation" (Store (Choice ["1"; "2"])) (VStr "2").
Definition announcement_arg : argument :=
  optional ["-a"] "--periodic-announcement" "periodic_announcement" (Store AsInt) (VInt 0).
Definition suite_arg : argument := optional ["-s"] "--suite" "suite" (Store AsStr) (VStr "test_suite").
Definition test_arg : argument := Argument ["-t"; "--test"] "test" StoreMany VNone false (Some 0).
Definition disable_arg : argument := Argument ["-d"; "--disable-test"] "disable_test" StoreMany VNone false (Some 0).
Definition output_arg : argument := optional ["-o"] "--output-name" "output_name" (Store AsStr) VNone.
(** [Arguments.parser] *)
Definition parser : Argparse.parser :=
  Parser [publisher_arg; subscriber_arg; verbose_arg; representation_arg; announcement_arg; suite_arg;
          test_arg; disable_arg; output_arg] [].

Record arguments := Arguments {
  g_options : Suite.options;
  g_verbosity : bool;
  g_suite : string;
  g_output_name : option string
}.
Definition read (ns : dict string value) : arguments :=
  Arguments
    (Suite.Options (get_str "publisher" ns) (get_str "subscriber" ns) (get_list "test" ns)
       (get_list "disable_test" ns) (get_str "data_representation" ns) (get_int "periodic_announcement" ns))
    (get_flag "verbose" ns) (get_str "suite" ns) (get_opt "output_name" ns).

(** The program from its command line; the modules with test suites are given by name. *)
Definition main (processes : string → list string → check_function → list RunTest.cell * list string)
    (modules : string → list (string * option Suite.suite)) (date_time : string) (argv : list string)
    (files : dict string report) : outcome (result (dict string report)) :=
  ns ← parse_args parser argv;
  let a := read ns in
  Parsed (Driver.main processes (g_options a) (g_verbosity a) (g_output_name a) date_time (modules (g_suite a)) files).
End Interoperability.

(** ** rtps_discovery_sniffer.py *)

Module Sniffing.
Definition interface_arg : argument := optional ["-i"] "--interface" "interface" (Store AsStr) (VStr "any").
Definition duration_arg : argument := optional ["-d"] "--duration" "duration" (Store AsInt) (VInt 5).
Definition output_arg : argument := optional ["-o"] "--output" "output" (Store AsStr) VNone.
Definition json_arg : argument := optional ["-j"] "--json-output" "json_output" (Store AsStr) VNone.
Definition timestamp_arg : argument := optional ["-t"] "--timestamp" "timestamp" (Store AsStr) VNone.
Definition pcap_arg : argument := optional ["-p"] "--pcap" "pcap" (Store AsStr) VNone.
Definition write_arg : argument := optional ["-w"] "--write-pcap" "write_pcap" (Store AsStr) VNone.
Definition publisher_arg : argument := optional ["-P"] "--publisher" "publisher" (Store AsStr) VNone.
Definition subscriber_arg : argument := optional ["-S"] "--subscriber" "subscriber" (Store AsStr) VNone.
Definition participants_arg : argument :=
  optional [] "--expected-participants" "expected_participants" (Store AsInt) (VInt 2).
Definition topic_arg : argument := optional [] "--expected-topic" "expected_topic" (Store AsStr) VNone.
Definition type_arg : argument := optional [] "--expected-type" "expected_type" (Store AsStr) VNone.
Definition parser : Argparse.parser :=
  Parser [interface_arg; duration_arg; output_arg; json_arg; timestamp_arg; pcap_arg; write_arg; publisher_arg;
          subscriber_arg; participants_arg; topic_arg; type_arg] [].
Definition read (ns : dict string value) : SnifferRun.options :=
  SnifferRun.Options (SnifferReport.Args (get_str "interface" ns) (get_opt "publisher" ns) (get_opt "subscriber" ns))
    (get_int "duration" ns) (get_opt "output" ns) (get_opt "json_output" ns) (get_opt "timestamp" ns)
    (get_opt "pcap" ns) (get_opt "write_pcap" ns) (get_int "expected_participants" ns)
    (get_opt "expected_topic" ns) (get_opt "expected_type" ns).
Definition main (str_set : gset string → string) {xml} (new_xml : xml) (add_testsuite : testsuite → xml → xml)
    (fromfile : string → result xml) (xml_text : xml → string) (env : environment) (argv : list string) :
    outcome (M unit) :=
  ns ← parse_args parser argv;
  Parsed (run_discovery_sniffer str_set new_xml add_testsuite fromfile xml_text env (read ns)).
End Sniffing.

(** ** compare_junit_reports.py *)

Module Comparing.
Definition flag (name dest : string) : argument := optional [] name dest StoreTrue (VBool false).
Definition directory_arg : argument := optional [] "--directory" "directory" (Store AsStr) VNone.
Definition times_arg : argument := flag "--include-times" "include_times".
Definition details_arg : argument := flag "--include-details" "include_details".
Definition simple_arg : argument := flag "--simple" "simple".
Definition differences_arg : argument :=
  optional ["--show-differences"] "--show-difference" "show_differences" StoreTrue (VBool false).
Definition all_arg : argument := flag "--compare-all" "compare_all".
Definition json_arg : argument := flag "--json" "as_json".
Definition explain_arg : argument := flag "--explain-parallel" "explain_parallel".
Definition html_arg : argument := flag "--html" "html".
Definition batch_arg : argument := optional [] "--batch" "batch" (Store AsInt) VNone.
Definition tag_arg : argument := optional [] "--name-tag" "name_tag" (Store AsStr) VNone.
Definition parser : Argparse.parser :=
  Parser [directory_arg; times_arg; details_arg; simple_arg; differences_arg; all_arg; json_arg; explain_arg;
          html_arg; batch_arg; tag_arg] ["first"; "second"].
(** The arguments and the directory. *)
Definition read (ns : dict string value) : CompareMain.args * option string :=
  (CompareMain.Args (get_opt "first" ns) (get_opt "second" ns) (get_flag "include_times" ns)
     (get_flag "include_details" ns) (get_flag "simple" ns) (get_flag "show_differences" ns)
     (get_flag "compare_all" ns) (get_flag "as_json" ns) (get_flag "explain_parallel" ns) (get_flag "html" ns)
     (get_opt_int "batch" ns) (get_opt "name_tag" ns),
   get_opt "directory" ns).
(** [list_directory]: the entries of the directory that is given, or of that of the script. *)
Definition main (read_report : string → result ReportLoader.element) (writable : string → bool)
    (unified_diff : list string → list string → list string)
    (list_directory : option string → list string) (argv : list string) : outcome (M nat) :=
  ns ← parse_args parser argv;
  let '(a, directory) := read ns in
  Parsed (CompareMain.main read_report writable unified_diff (list_directory directory) a).
End Comparing.

(** ** generate_xlsx_report.py *)

Module Spreadsheet.
Definition output_arg : argument := Argument ["-o"; "--output"] "output" (Store AsStr) VNone true None.
Definition input_arg : argument := Argument ["-i"; "--input"] "input" (Store AsStr) VNone true None.
Definition runner_arg : argument := optional ["-r"] "--runner" "runner" (Store AsStr) VNone.
Definition parser : Argparse.parser := Parser [output_arg; input_arg; runner_arg] [].
(** Input, output and runner. *)
Definition read (ns : dict string value) : option string * option string * option string :=
  (get_opt "input" ns, get_opt "output" ns, get_opt "runner" ns).
(** [candidates]: what the files runner_env hold, which one depends on the input. *)
Definition main (is_file exists_ : string → bool) (candidates : option string → list (option (result string)))
    (environment : string → option string) (suites : string → result (list XlsxData.junit_suite))
    (date_time : string) (argv : list string) : outcome (result (string * workbook)) :=
  ns ← parse_args parser argv;
  let '(input, output, runner) := read ns in
  Parsed (XlsxReport.main input output runner is_file exists_ (candidates input) environment suites date_time).
End Spreadsheet.

Definition parsers : list Argparse.parser :=
  [Interoperability.parser; Sniffing.parser; Comparing.parser; Spreadsheet.parser].
Example parsers_well_formed : forallb (λ p, well_formed p && tidy p) parsers = true.
Proof. vm_compute. reflexivity. Qed.

(** The forms in which an option may be given; abbreviations must not be ambiguous. *)
Example forms :
  (λ argv, ns ← parse_args Interoperability.parser argv;
           let o := Interoperability.g_options (Interoperability.read ns) in
           Parsed (publisher o, test_cases o, data_representation o))
  <$> [["-P"; "a"; "-Sb"; "-x1"]; ["--pub=a"; "--sub"; "b"; "-t"; "A"; "B"; "-vx"; "2"]; ["-vPa"; "-S=b"];
       ["-P"; "a"]; ["-P"; "a"; "-S"; "b"; "-t"; "A"; "-d"; "B"]; ["-P"; "a"; "-S"; "b"; "--s"; "c"];
       ["-P"; "a"; "-S"; "b"; "-x3"]; ["-P"; "a"; "-S"; "b"; "c"]; ["-P"; "a"; "-a"; "1.5"; "-S"; "b"]; ["-h"]]
  = [Parsed ("a", None, "1"); Parsed ("a", Some ["A"; "B"], "2"); Parsed ("a", None, "2");
     Exit 2; Exit 2; Exit 2; Exit 2; Exit 2; Exit 2; Exit 0].
Proof. vm_compute. reflexivity. Qed.
(** The reports must stand together: after an option, a second one is not taken. *)
Example reports_together :
  (λ argv, ns ← parse_args Comparing.parser argv; Parsed (get_opt "first" ns, get_opt "second" ns))
  <$> [["a"; "b"; "--json"]; ["--json"; "a"; "b"]; ["a"; "--json"; "b"]; ["--"; "-a"; "b"]; ["a"; "b"; "c"]]
  = [Parsed (Some "a", Some "b"); Parsed (Some "a", Some "b"); Exit 2; Parsed (Some "-a", Some "b"); Exit 2].
Proof. vm_compute. reflexivity. Qed.

(** ** From options to a command line *)

Definition opt_setting (a : argument) (o : option string) : list (argument * list string) :=
  match o with Some s => [(a, [s])] | None => [] end.
Definition many_setting (a : argument) (o : option (list string)) : list (argument * list string) :=
  match o with Some l => [(a, l)] | None => [] end.
Definition flag_setting (a : argument) (b : bool) : list (argument * list string) := if b then [(a, [])] else [].

(** The settings are admissible and have these effects. *)
Definition settles (p : Argparse.parser) (settings : list (argument * list string)) (pairs : list (string * value)) : Prop :=
  Forall (setting_ok p) settings ∧ mapM pair_of settings = Some pairs.
Lemma settles_nil p : settles p [] [].
Proof. split; [constructor|done]. Qed.
(** Items that may be missing, and what they leave of a key. *)
Definition items (l : list (string * option value)) : list (string * value) := l ≫= λ kv, item kv.1 kv.2.
Fixpoint settled (k : string) (l : list (string * option value)) (d : option value) : option value :=
  match l with
  | [] => d
  | (k', o) :: l' =>
      settled k l' (if String.eqb k k' then match o with Some v => Some v | None => d end else d)
  end.
Lemma dget_settled k l d : dget k (dupdate d (items l)) = settled k l (dget k d).
Proof.
  revert d. induction l as [|[k' o] l IH]; intros d; [done|].
  change (items ((k', o) :: l)) with (item k' o ++ items l)%list. rewrite dupdate_app, IH, dget_dupdate_item.
  cbn [settled]. destruct (String.eqb_spec k k'); by case_decide.
Qed.
Lemma settles_cons p s1 s2 k o l :
  settles p s1 (item k o) → settles p s2 (items l) → settles p (s1 ++ s2) (items ((k, o) :: l)).
Proof.
  intros [H1 E1] [H2 E2]. split; [by apply Forall_app_2|]. apply mapM_Some. apply Forall2_app; by apply mapM_Some.
Qed.
Lemma settles_none p : settles p [] (items []).
Proof. apply settles_nil. Qed.
Lemma settles_one p a vs k v :
  a ∈ optionals p → setting_ok p (a, vs) → pair_of (a, vs) = Some (k, v) → settles p [(a, vs)] (item k (Some v)).
Proof. intros Ha Hs Hk. split; [constructor; [done|constructor]|]. cbn [mapM]. by rewrite Hk. Qed.
Lemma settles_str p a s : a ∈ optionals p → act a = Store AsStr → settles p [(a, [s])] (item (dest a) (Some (VStr s))).
Proof.
  intros Ha E. apply settles_one; [done|split; [done|]; cbn [fst snd]; rewrite E; by eexists|].
  unfold pair_of. cbn [fst snd]. by rewrite E.
Qed.
Lemma settles_opt p a o :
  a ∈ optionals p → act a = Store AsStr → settles p (opt_setting a o) (item (dest a) (VStr <$> o)).
Proof. intros Ha E. destruct o as [s|]; [by apply settles_str|apply settles_nil]. Qed.
Lemma settles_int p a z :
  a ∈ optionals p → act a = Store AsInt → settles p [(a, [str_of_Z z])] (item (dest a) (Some (VInt z))).
Proof.
  intros Ha E. apply settles_one; [done|split; [done|]; cbn [fst snd]; rewrite E; by eexists|].
  unfold pair_of. cbn [fst snd]. rewrite E. cbn [convert]. by rewrite py_int_str_of_Z.
Qed.
Lemma settles_opt_int p a o :
  a ∈ optionals p → act a = Store AsInt → settles p (opt_setting a (str_of_Z <$> o)) (item (dest a) (VInt <$> o)).
Proof. intros Ha E. destruct o as [z|]; [by apply settles_int|apply settles_nil]. Qed.
Lemma settles_choice p a l s :
  a ∈ optionals p → act a = Store (Choice l) → s ∈ l → settles p [(a, [s])] (item (dest a) (Some (VStr s))).
Proof.
  intros Ha E Hs. apply settles_one; [done|split; [done|]; cbn [fst snd]; rewrite E; by eexists|].
  unfold pair_of. cbn [fst snd]. rewrite E. cbn [convert]. by rewrite decide_True.
Qed.
Lemma settles_many p a o :
  a ∈ optionals p → act a = StoreMany → (∀ l, o = Some l → l ≠ [] ∧ Forall (λ v, Argparse.plain v = true) l) →
  settles p (many_setting a o) (item (dest a) (VList <$> o)).
Proof.
  intros Ha E Ho. destruct o as [l|]; [|apply settles_nil].
  apply settles_one; [done|split; [done|]; cbn [fst snd]; rewrite E; by apply Ho|].
  unfold pair_of. cbn [fst snd]. by rewrite E.
Qed.
Lemma settles_flag p a b :
  a ∈ optionals p → act a = StoreTrue →
  settles p (flag_setting a b) (item (dest a) (if b then Some (VBool true) else None)).
Proof.
  intros Ha E. destruct b; [|apply settles_nil].
  apply settles_one; [done|split; [done|]; cbn [fst snd]; by rewrite E|].
  unfold pair_of. cbn [fst snd]. by rewrite E.
Qed.
Lemma settles_known p settings pairs a : settles p settings pairs → a ∈ settings.*1 → a ∈ optionals p.
Proof.
  intros [Hs _] (av&->&Hav)%list_elem_of_fmap. rewrite Forall_forall in Hs. by apply (Hs _ Hav).
Qed.

(** A program: its parser, how it reads the namespace, and a command line for its options. *)
Class Program (O : Type) := {
  program_parser : Argparse.parser;
  read_options : dict string value → O;
  values : O → list string;
  settings : O → list (argument * list string);
  expressible : O → Prop
}.
Definition command_line {O} `{Program O} (o : O) : list string := (values o ++ (settings o ≫= unparse_one))%list.

#[export] Instance interoperability_program : Program Interoperability.arguments := {
  program_parser := Interoperability.parser;
  read_options := Interoperability.read;
  values _ := [];
  settings a :=
    let o := Interoperability.g_options a in
    ([(Interoperability.publisher_arg, [publisher o])]
    ++ [(Interoperability.subscriber_arg, [subscriber o])]
    ++ flag_setting Interoperability.verbose_arg (Interoperability.g_verbosity a)
    ++ [(Interoperability.representation_arg, [data_representation o])]
    ++ [(Interoperability.announcement_arg, [str_of_Z (periodic_announcement_ms o)])]
    ++ [(Interoperability.suite_arg, [Interoperability.g_suite a])]
    ++ many_setting Interoperability.test_arg (test_cases o)
    ++ many_setting Interoperability.disable_arg (test_cases_disabled o)
    ++ opt_setting Interoperability.output_arg (Interoperability.g_output_name a) ++ [])%list;
  expressible a :=
    let o := Interoperability.g_options a in
    data_representation o ∈ ["1"; "2"]
    ∧ (∀ l, test_cases o = Some l → l ≠ [] ∧ Forall (λ v, Argparse.plain v = true) l)
    ∧ (∀ l, test_cases_disabled o = Some l → l ≠ [] ∧ Forall (λ v, Argparse.plain v = true) l)
    ∧ (test_cases o = None ∨ test_cases_disabled o = None)
}.

#[export] Instance sniffing_program : Program SnifferRun.options := {
  program_parser := Sniffing.parser;
  read_options := Sniffing.read;
  values _ := [];
  settings o :=
    ([(Sniffing.interface_arg, [a_interface (o_args o)])]
    ++ [(Sniffing.duration_arg, [str_of_Z (o_duration o)])]
    ++ opt_setting Sniffing.output_arg (o_output o)
    ++ opt_setting Sniffing.json_arg (o_json_output o)
    ++ opt_setting Sniffing.timestamp_arg (o_timestamp o)
    ++ opt_setting Sniffing.pcap_arg (o_pcap o)
    ++ opt_setting Sniffing.write_arg (o_write_pcap o)
    ++ opt_setting Sniffing.publisher_arg (a_publisher (o_args o))
    ++ opt_setting Sniffing.subscriber_arg (a_subscriber (o_args o))
    ++ [(Sniffing.participants_arg, [str_of_Z (o_expected_participants o)])]
    ++ opt_setting Sniffing.topic_arg (o_expected_topic o)
    ++ opt_setting Sniffing.type_arg (o_expected_type o) ++ [])%list;
  expressible _ := True
}.

Definition given_values (l : list (option string)) : list string := omap id l.
#[export] Instance comparing_program : Program (CompareMain.args * option string) := {
  program_parser := Comparing.parser;
  read_options := Comparing.read;
  values o := given_values [a_first o.1; a_second o.1];
  settings o :=
    (opt_setting Comparing.directory_arg o.2
    ++ flag_setting Comparing.times_arg (include_times o.1)
    ++ flag_setting Comparing.details_arg (include_details o.1)
    ++ flag_setting Comparing.simple_arg (simple o.1)
    ++ flag_setting Comparing.differences_arg (show_differences o.1)
    ++ flag_setting Comparing.all_arg (compare_all o.1)
    ++ flag_setting Comparing.json_arg (as_json o.1)
    ++ flag_setting Comparing.explain_arg (explain_parallel o.1)
    ++ flag_setting Comparing.html_arg (html o.1)
    ++ opt_setting Comparing.batch_arg (str_of_Z <$> a_batch o.1)
    ++ opt_setting Comparing.tag_arg (a_name_tag o.1) ++ [])%list;
  expressible o :=
    Forall (λ v, Argparse.plain v = true) (given_values [a_first o.1; a_second o.1])
    ∧ (a_first o.1 = None → a_second o.1 = None)
}.

#[export] Instance spreadsheet_program : Program (option string * option string * option string) := {
  program_parser := Spreadsheet.parser;
  read_options := Spreadsheet.read;
  values _ := [];
  settings o :=
    (opt_setting Spreadsheet.input_arg o.1.1 ++ opt_setting Spreadsheet.output_arg o.1.2
     ++ opt_setting Spreadsheet.runner_arg o.2 ++ [])%list;
  expressible o := o.1.1 ≠ None ∧ o.1.2 ≠ None
}.

(** *** No settings in conflict, what is read back *)

Lemma no_conflicts_known p settings pairs :
  forallb (λ a, bool_decide (exclusive a = None)) (optionals p) = true → settles p settings pairs → no_conflicts settings.
Proof.
  rewrite forallb_forall. intros H Hs a b Ha _. apply (settles_known _ _ _ _ Hs), list_elem_of_In, H in Ha.
  unfold conflicts. by apply bool_decide_eq_true in Ha as ->.
Qed.
Lemma known_argument p a : bool_decide (a ∈ optionals p) = true → a ∈ optionals p.
Proof. apply bool_decide_eq_true. Qed.
Ltac settle_one :=
  first [ eapply settles_str; [by apply known_argument|done]
        | eapply settles_int; [by apply known_argument|done]
        | eapply settles_opt_int; [by apply known_argument|done]
        | eapply settles_opt; [by apply known_argument|done]
        | eapply settles_flag; [by apply known_argument|done]
        | eapply settles_choice; [by apply known_argument|done|done]
        | eapply settles_many; [by apply known_argument|done|done] ].
Ltac settle := repeat (eapply settles_cons; [settle_one|]); apply settles_none.


(** The namespace of a program before its options. *)
Definition start {O} `{Program O} (o : O) : dict string value :=
  dupdate (dupdate [] (defaults program_parser)) (zip (positionals program_parser) (VStr <$> values o)).
Definition reads_back {O} `{Program O} (o : O) : Prop :=
  ∃ l, settles program_parser (settings o) (items l) ∧ read_options (dupdate (start o) (items l)) = o.

Ltac read_back :=
  rewrite !dget_settled; vm_compute; repeat (f_equal; []); f_equal;
  try (f_equal; match goal with |- _ = ?x => by destruct x end);
  match goal with |- _ = ?x => by destruct x end.

Lemma sniffing_reads (o : SnifferRun.options) : reads_back o.
Proof.
  eexists. split; [unfold settings, sniffing_program; settle|]. destruct o as [[] ?????????].
  unfold read_options, sniffing_program, Sniffing.read, get_str, get_opt, get_int. read_back.
Qed.
Lemma comparing_reads (o : CompareMain.args * option string) : expressible o → reads_back o.
Proof.
  intros [_ Ho]. eexists. split; [unfold settings, comparing_program; settle|]. destruct o as [[f s ??????????] d].
  unfold read_options, comparing_program, Comparing.read, get_flag, get_opt, get_opt_int.
  destruct f as [f|], s as [s|]; [| |by specialize (Ho eq_refl)|]; read_back.
Qed.
Lemma interoperability_reads (a : Interoperability.arguments) : expressible a → reads_back a.
Proof.
  intros (Hx&Ht&Hd&_). eexists. split; [unfold settings, interoperability_program; settle|].
  destruct a as [[] ? ? ?].
  unfold read_options, interoperability_program, Interoperability.read, get_str, get_flag, get_opt, get_int, get_list.
  read_back.
Qed.
Lemma spreadsheet_reads (o : option string * option string * option string) : reads_back o.
Proof.
  eexists. split; [unfold settings, spreadsheet_program; settle|]. destruct o as [[] ?].
  unfold read_options, spreadsheet_program, Spreadsheet.read, get_opt. read_back.
Qed.

Lemma command_line_read {O} `{Program O} (o : O) :
  tidy program_parser = true → Forall (λ v, Argparse.plain v = true) (values o) →
  (length (values o) <= length (positionals program_parser))%nat → reads_back o → no_conflicts (settings o) →
  missing_required program_parser (settings o).*1 = false →
  (read_options <$> parse_args program_parser (command_line o)) = Parsed o.
Proof.
  intros Ht Hv Hl (l&[Hs Hp]&Hr) Hc Hm. unfold command_line. rewrite (parse_unparse _ Ht _ _ (items l)) by done.
  cbn. f_equal. exact Hr.
Qed.

Definition no_conflictsb (l : list argument) : bool := forallb (λ a, forallb (λ b, negb (conflicts a b)) l) l.
Lemma no_conflicts_check settings : no_conflictsb settings.*1 = true → no_conflicts settings.
Proof.
  unfold no_conflictsb. rewrite forallb_forall. intros H a b Ha%list_elem_of_In Hb%list_elem_of_In.
  specialize (H a Ha). rewrite forallb_forall in H. by apply negb_true_iff, H.
Qed.
Lemma interoperability_conflicts (a : Interoperability.arguments) : expressible a → no_conflicts (settings a).
Proof.
  intros (_&_&_&Hn). apply no_conflicts_check. destruct a as [[p s t d x z] v u o]. cbn in Hn |- *.
  destruct t, d; [by destruct Hn|..]; by destruct v, o.
Qed.

(** The parsed options, per program. *)
Lemma interoperability_parsed (a : Interoperability.arguments) :
  expressible a → (Interoperability.read <$> parse_args Interoperability.parser (command_line a)) = Parsed a.
Proof.
  intros Ha. refine (command_line_read a _ _ _ _ _ _); [by vm_compute|constructor|cbn; lia|by apply interoperability_reads|
    by apply interoperability_conflicts|reflexivity].
Qed.
Lemma sniffing_parsed (o : SnifferRun.options) :
  (Sniffing.read <$> parse_args Sniffing.parser (command_line o)) = Parsed o.
Proof.
  pose proof (sniffing_reads o) as Hr. refine (command_line_read o _ _ _ _ _ _);
    [by vm_compute|constructor|cbn; lia|done| |reflexivity].
  destruct Hr as (l&Hs&_). apply (no_conflicts_known Sniffing.parser) in Hs; [exact Hs|by vm_compute].
Qed.
Lemma comparing_parsed (o : CompareMain.args * option string) :
  expressible o → (Comparing.read <$> parse_args Comparing.parser (command_line o)) = Parsed o.
Proof.
  intros Ho. pose proof (comparing_reads o Ho) as Hr. refine (command_line_read o _ _ _ _ _ _);
    [by vm_compute|by apply Ho| |done| |reflexivity].
  - cbn. by destruct (a_first o.1), (a_second o.1); cbn; lia.
  - destruct Hr as (l&Hs&_). apply (no_conflicts_known Comparing.parser) in Hs; [exact Hs|by vm_compute].
Qed.
Lemma spreadsheet_parsed (o : option string * option string * option string) :
  expressible o → (Spreadsheet.read <$> parse_args Spreadsheet.parser (command_line o)) = Parsed o.
Proof.
  intros [Hi Hu]. pose proof (spreadsheet_reads o) as Hr. refine (command_line_read o _ _ _ _ _ _);
    [by vm_compute|constructor|cbn; lia|done| |].
  - destruct Hr as (l&Hs&_). apply (no_conflicts_known Spreadsheet.parser) in Hs; [exact Hs|by vm_compute].
  - destruct o as [[[] []] ?]; [reflexivity|done..].
Qed.
Lemma parsed_bind {A B} (r : outcome A) (f : A → B) b {C} (g : B → C) :
  (f <$> r) = Parsed b → (a ← r; Parsed (g (f a))) = Parsed (g b).
Proof. destruct r as [a|]; [|done]. intros [= <-]. done. Qed.

(** C18: every value of the options of the programs is reached by a command line: the main
    function, called with the options written with their long names, does what it does for the
    options; for [interoperability_report.py] when the tests to run and the tests to skip are not
    both given, are not empty and do not look like options, for [compare_junit_reports.py] when
    the reports do not look like options and the second one comes after a first, for
    [generate_xlsx_report.py] when input and output are given. *)
Theorem command_lines :
  (∀ a : Interoperability.arguments, expressible a →
     ∀ processes modules date_time files,
       Interoperability.main processes modules date_time (command_line a) files
       = Parsed (Driver.main processes (Interoperability.g_options a) (Interoperability.g_verbosity a)
                   (Interoperability.g_output_name a) date_time (modules (Interoperability.g_suite a)) files))
  ∧ (∀ (o : SnifferRun.options) str_set xml (new_xml : xml) add_testsuite fromfile xml_text env,
       Sniffing.main str_set new_xml add_testsuite fromfile xml_text env (command_line o)
       = Parsed (run_discovery_sniffer str_set new_xml add_testsuite fromfile xml_text env o))
  ∧ (∀ (a : CompareMain.args) directory, expressible (a, directory) →
       ∀ read_report writable unified_diff list_directory,
       Comparing.main read_report writable unified_diff list_directory (command_line (a, directory))
       = Parsed (CompareMain.main read_report writable unified_diff (list_directory directory) a))
  ∧ (∀ input output runner, expressible (input, output, runner) →
       ∀ is_file exists_ candidates environment suites date_time,
       Spreadsheet.main is_file exists_ candidates environment suites date_time (command_line (input, output, runner))
       = Parsed (XlsxReport.main input output runner is_file exists_ (candidates input) environment suites date_time)).
Proof.
  split; [|split; [|split]].
  - intros a Ha%interoperability_parsed processes modules date_time files.
    exact (parsed_bind _ Interoperability.read _ (λ a, Driver.main processes (Interoperability.g_options a)
      (Interoperability.g_verbosity a) (Interoperability.g_output_name a) date_time
      (modules (Interoperability.g_suite a)) files) Ha).
  - intros o *. exact (parsed_bind _ Sniffing.read _ (λ o, run_discovery_sniffer _ _ _ _ _ _ o) (sniffing_parsed o)).
  - intros a directory Ha%comparing_parsed *.
    exact (parsed_bind _ Comparing.read _ (λ o, CompareMain.main _ _ _ (list_directory o.2) o.1) Ha).
  - intros input output runner Ha%spreadsheet_parsed *.
    exact (parsed_bind _ Spreadsheet.read _ (λ o, XlsxReport.main o.1.1 o.1.2 o.2 is_file exists_ (candidates o.1.1)
      environment suites date_time) Ha).
Qed.

(** C19: whatever command line [interoperability_report.py] accepts, the options that the tests
    run with are well formed: both executables were given, the data representation is ["1"] or
    ["2"], there are never both tests to run and tests to skip, and neither list is empty. *)
Theorem parsed_options argv ns :
  parse_args Interoperability.parser argv = Parsed ns →
  let o := Interoperability.g_options (Interoperability.read ns) in
  dget "publisher" ns = Some (VStr (publisher o)) ∧ dget "subscriber" ns = Some (VStr (subscriber o))
  ∧ data_representation o ∈ ["1"; "2"]
  ∧ (test_cases o = None ∨ test_cases_disabled o = None)
  ∧ test_cases o ≠ Some [] ∧ test_cases_disabled o ≠ Some [].
Proof.
  intros (Ho&_&Hc)%parse_args_ok; [|by vm_compute]. cbn.
  assert (∀ a, bool_decide (a ∈ optionals Interoperability.parser) = true → ∃ v, dget (dest a) ns = Some v ∧
    (Argparse.given a v ∨ required a = false ∧ v = default_value a)) as Hv by (intros a Ha%known_argument; by apply Ho).
  destruct (Hv Interoperability.publisher_arg eq_refl) as (vp&Ep&[Gp|[]]); [|done].
  destruct (Hv Interoperability.subscriber_arg eq_refl) as (vs&Es&[Gs|[]]); [|done].
  destruct (Hv Interoperability.representation_arg eq_refl) as (vx&Ex&Gx).
  destruct (Hv Interoperability.test_arg eq_refl) as (vt&Et&Gt).
  destruct (Hv Interoperability.disable_arg eq_refl) as (vd&Ed&Gd).
  specialize (Hc Interoperability.test_arg Interoperability.disable_arg).
  assert (dget "test" ns = Some VNone ∨ dget "disable_test" ns = Some VNone) as Hn
    by (apply Hc; [by apply known_argument..|done]). clear Hc.
  cbn in *. unfold get_str, get_list. rewrite Ep, Es, Ex, Et, Ed. split_and!.
  - by destruct vp.
  - by destruct vs.
  - destruct Gx as [Gx|[_ ->]]; [|right; left]. by destruct vx.
  - rewrite Et, Ed in Hn. destruct Hn as [[= ->]|[= ->]]; auto.
  - destruct Gt as [Gt|[_ ->]]; [|done]. destruct vt; try done. by intros [= ->].
  - destruct Gd as [Gd|[_ ->]]; [|done]. destruct vd; try done. by intros [= ->].
Qed.
Lemma parsed_options_witness : ∃ ns,
  parse_args Interoperability.parser ["-P"; "a"; "-S"; "b"; "-x1"; "-t"; "A"; "B"] = Parsed ns
  ∧ data_representation (Interoperability.g_options (Interoperability.read ns)) ∈ ["1"; "2"].
Proof.
  eexists. split; [vm_compute; reflexivity|].
  eapply (parsed_options ["-P"; "a"; "-S"; "b"; "-x1"; "-t"; "A"; "B"]). vm_compute. reflexivity.
Defined.
Definition square_arguments : Interoperability.arguments :=
  Interoperability.Arguments (Suite.Options "a-shape_main" "b" (Some ["A"; "B"]) None "1" (-5)) true "" None.
Lemma command_lines_witness :
  command_line square_arguments
  = ["--publisher=a-shape_main"; "--subscriber=b"; "--verbose"; "--data-representation=1";
     "--periodic-announcement=-5"; "--suite="; "--test"; "A"; "B"]
  ∧ ∀ processes modules date_time files,
      Interoperability.main processes modules date_time (command_line square_arguments) files
      = Parsed (Driver.main processes (Interoperability.g_options square_arguments) true None date_time (modules "") files).
Proof.
  split; [vm_compute; reflexivity|]. apply command_lines. split_and!; [left| |done|by right].
  intros l [= <-]. split; [done|]. by repeat constructor.
Defined.
